(* ===== verification/_CoqProject ===== *)
-Q . S2P
Prelude.v
Strings.v
Text.v
Hashing.v
Json.v
Calendar.v
Retention.v
Zones.v
Models.v
DestinationPaths.v
World.v
DriverSelection.v
Events.v
Scheduling.v
AuditScheduling.v
Health.v
RevisionChain.v
Deletion.v
Storage.v
LocalStorage.v
Destination.v
Staging.v
Repository.v
RevisionFiles.v
AuditSummary.v
RecordedPaths.v
Validation.v
FtpClient.v
MountedFiles.v
MountedDestination.v
MountedAudit.v
MountedLaws.v
MountedExamples.v
RepositoryContract.v
RetentionCleanup.v
RemoteRetention.v
RevisionDeletion.v
Drivers.v
FtpSession.v
FtpDestination.v
FtpTrace.v
FtpFiles.v
FtpCopies.v
FtpBackend.v
FileServer.v
FtpExamples.v
Pipeline.v
Dispatch.v
Replication.v
ReplicationLifecycle.v
ReplicationBudget.v
ReplicationExamples.v
Lifecycle.v
