(* ===== verification/Prelude.v ===== *)
(** * NetBox Config Backup: a verification library

    A model of [src/netbox_config_backup/], the NetBox plugin that backs up
    the configurations of network devices: it collects them with drivers,
    stores the artifacts of every revision, copies revisions to external
    destinations, and removes old ones by retention rules.  The definitions
    follow the Python source function by function; the comment [src: file
    first last symbol] above a definition gives the lines it translates, the
    file being relative to [src/netbox_config_backup/].

    ** How the code is modelled

    - A pure Python function is a Rocq function; one that may raise returns
      [result] ([Ok]/[Err], the exceptions being [exn]).
    - Stateful code is in the monad [M W] of this file: a world, and a value or
      an exception; writes before an exception stay.  [World.atomic] is
      [transaction.atomic]; it restores the tables only.
    - The database is one [gmap] per model ([World.DB]), a row a record with
      the columns the services use ([Models]); a foreign key is a key.
    - Times are instants in microseconds ([Calendar], [Zones]); what
      [timezone.now()] answers is an argument of each operation, and the field
      [w_clock] of the world where a saved row is stamped.
    - A string is its UTF-8 bytes.  Integers are Python's, unbounded, and the
      range of [datetime] with its [OverflowError] is written out.
    - Code outside the repository is an argument or a class with laws: NetBox's
      job table ([World.NetBoxCore]), storages ([Storage.ConfigStorage]),
      destination backends ([Destination.Backends]), drivers and secret
      providers ([Drivers]), [unicodedata.normalize] ([DestinationPaths]).
      Every law has an instance: the memory storages of [Storage] and
      [Destination], [LocalStorage] for [storage/local.py].

    ** The files, by part of the program

    Python itself: [Strings] and [Text] ([str], [PurePosixPath]), [Hashing]
    (SHA-256, executable), [Json] ([json.dumps] and [json.loads]), [Calendar]
    ([datetime]), [Zones] ([zoneinfo]).

    Data: [Models] ([choices.py], [models.py]), [World] (tables, transactions,
    callbacks), [Deletion] (the cascades of a deleted row).

    Planning: [Retention] ([services/retention.py]), [Scheduling]
    ([services/scheduling.py]), [AuditScheduling]
    ([services/ftp_audit_scheduling.py]), [Health] ([services/health.py]).

    Backups: [Drivers] ([drivers/base.py], [drivers/registry.py],
    [credentials/]), [DriverSelection] ([services/driver_selection.py]),
    [Repository] and its contract [RepositoryContract]
    ([services/repository.py], [services/django_repository.py]), [Pipeline]
    ([services/backup.py]), [Dispatch] ([services/queueing.py],
    [services/run_cancellation.py], [services/dispatcher.py]), [Events]
    ([events.py]), and [Lifecycle], which puts the operations on runs together.

    Storage: [Storage] ([storage/base.py]), [LocalStorage]
    ([storage/local.py]), [Staging] (the quarantine of the cleanup services).

    Copies: [DestinationPaths] ([services/destination_paths.py],
    [services/ftp_helpers.py]), [Destination] ([services/destination.py]),
    what every backend shares: [RevisionFiles] (the files of a copy and its
    manifest), [RecordedPaths] (paths that were recorded earlier) and
    [AuditSummary] (the outcome of an audit);
    mounted shares ([services/destination_mounted.py]): [MountedFiles] (a
    file system with links and mount points), [MountedDestination],
    [MountedAudit], [MountedLaws], [MountedExamples];
    FTP ([services/destination_ftp.py]): [FtpClient] ([ftplib] over an
    arbitrary server), [FtpSession] (the private helpers), [FtpDestination]
    (the operations), [FtpTrace] (what any server can be made to do),
    [FtpFiles] (the promises of a server that keeps files), [FtpCopies] and
    [FtpBackend] (what then follows), [FileServer] (such a server),
    [FtpExamples];
    [Replication] ([services/replication.py]) with [ReplicationLifecycle],
    [ReplicationBudget] and [ReplicationExamples].

    Removal: [RevisionChain] ([services/revision_chain.py]),
    [RetentionCleanup] ([services/retention_cleanup.py]), [RemoteRetention]
    ([services/remote_retention_cleanup.py]), [RevisionDeletion]
    ([services/revision_deletion.py]).

    Input: [Validation] (the [clean] methods and constraints of [models.py]).
    ** How the parts interact

    The dispatcher queues a run; a worker calls [Pipeline.execute], which
    reads its context from the repository, asks a driver for artifacts, puts
    them into the storage and commits a revision; a committed revision
    registers callbacks that create and queue replica rows; a worker executes
    a replica with a destination backend.  The cleanup services read the same
    tables, plan with [Retention], quarantine files with [Staging] and delete
    rows with [Deletion].  The pipeline is proved against
    [BackupRepository] and [ConfigStorage], the services that copy against
    [Backends]; the instances discharge those laws.

    ** What the theorems show

    - Planning: the retention planner implements the declarative rules, keeps
      what it must and respects the copy limit; a schedule is the least
      admissible instant after its reference.
    - State machines: over every operation in any order, cleanups and
      deletions included, the run table and the replica table keep their
      invariants; a completed run is never active again and leaves the table
      only in a retention cleanup or with its target; a removed copy stays
      removed; automatic attempts are bounded by the retries of the
      destination and the backups that found their revision unchanged.
    - Failure: a failed backup, cleanup or deletion leaves the tables and the
      stored objects as they were, and raises the error of its service.
    - Deletion: only expired, unprotected, superseded or explicitly chosen
      revisions lose files, copies or rows; a successful cleanup removes
      exactly what its plan and its guards say.
    - Confinement: keys, device names and recorded paths never leave their
      directory.
    - Backends: whatever an FTP server answers, a replication writes only
      under temporary names of its copy and renames, a deletion removes only
      expected files and the directory of the copy, audits and recoveries
      only read; on a server or share that keeps its promises a successful
      copy is complete, a deleted one is gone, an audit that reports success
      has read everything; both backends discharge the contract
      [Destination.BackendLaws] that the services are proved against.  It
      speaks of places (a directory of the worker's file system, a path on a
      server), which several destinations may share.
    Each theorem that is a claim about the program has the number C1, C2, ...
    in its comment, and, when it has hypotheses, a witness [<name>_witness]
    at a concrete input.

    ** Bounds and fuel

    Recursion is structural everywhere.  Three functions recurse on a bound
    that the data gives: [Hashing.chunks] on the length of the message,
    [Json.scan_elements] and [Json.scan_members] on the length of the text
    (every element takes a character).  [Json.scan_value] recurses on the
    nesting that Python's recursion limit allows, and raises beyond it.
    [FtpSession.absent_from] walks up the directories of a path: its bound is
    the length of the path and makes no difference ([absent_from_fuel]).
    [FtpSession.cwd_attempts] makes the five attempts of the code.
    [MountedFiles] follows links and walks trees with a bound of one more than
    the number of nodes; [put_immutable] calls itself at most as often as
    Python's recursion limit allows, and raises beyond it.
    ** Not modelled

    - The user interface and the REST API ([views.py], [forms*.py],
      [tables.py], [filtersets.py], [navigation.py], [urls.py], [api/],
      [templatetags/], [middleware.py]): glue over Django and NetBox classes.
    - Job runners ([jobs.py]) beyond the row a job is queued as, management
      commands, migrations, metrics: thin callers of the services.
    - Device drivers and transports: dialogues with network devices through
      third-party libraries; a driver is an arbitrary record of functions.
    - Vault, S3 and the encrypted credential database: clients of third-party
      libraries; cryptography is not modelled.
    - The SFTP receiver's server: an [asyncssh] server.
    - [services/target_deletion.py], but for its check for active runs and its
      effect on the run table ([Lifecycle.delete_target_runs]).
    - [last_updated] of rows other than targets, which nothing reads.
    - Below [ftplib]: the exchange that opens a data connection is one part of
      a transfer; digits outside ASCII in a reply to SIZE; the ZIP container
      that a recovery writes into (the archive is the list of its members).
      The laws of [FtpFiles] describe servers without links.  [MountedLaws] is proved
      over a file system without links; the other theorems on mounted shares
      allow them.
    - Of a mounted share: the kernel's limit of 40 links, files that change
      between two calls, exceptions of [exists] other than Python 3.12's.
    - The check of custom fields in [clean], which is NetBox's; NUL characters
      in texts of the database.
    - Concurrency inside a transaction: row locks serialise the services, so
      that operations interleave as whole transactions; races between a
      check and an unlocked write are outside the model. *)

From Stdlib Require Import ZArith Lia Sorted Permutation.
From stdpp Require Import base gmap sets list strings sorting.

#[global] Open Scope Z_scope.

(** ** Python exceptions

    One constructor per exception class the modelled code raises or catches.
    The arguments are the attributes the handlers read; [FieldErrors] is a
    [ValidationError] raised with a dictionary of fields.  [SocketError] is an
    [OSError] of a connection; [FtpErrorTemp] and [FtpErrorPerm] are
    [ftplib.error_temp] and [error_perm], and [FtpError] the other subclasses
    of [ftplib.Error], with the text of the exception. *)
Inductive exn :=
  | ValueError (message : string)
  | TypeError
  | OverflowError
  | KeyError
  | StopIteration
  | IndexError
  | AttributeError
  | OSError
  | PermissionError
  | FileNotFoundError
  | FileExistsError
  | ConnectionRefusedError (message : string)
  | TimeoutError (message : string)
  | SocketError (message : string)
  | EOFError
  | FtpErrorTemp (message : string)
  | FtpErrorPerm (message : string)
  | FtpError (message : string)
  | RuntimeError
  | IntegrityError
  | DoesNotExist (model : string)
  | MultipleObjectsReturned (model : string)
  | DriverError (error_code safe_message : string)
  | DriverRegistryError (message : string)
  | SecretProviderError
  | SecretProviderLookupError
  | MasterKeyConfigurationError (message : string)
  | StorageError (safe_message : string)
  | PipelineOperationError (error_code safe_message : string)
  | DestinationError (error_code safe_message : string)
  | RetentionCleanupError (message : string)
  | RemoteRetentionCleanupError (message : string)
  | RevisionDeletionError (message : string)
  | TargetDeletionError (message : string)
  | BackupRunCancellationError (message : string)
  | ArchiveExtractionError (message : string)
  | ValidationError (message : string)
  | FieldErrors (errors : list (string * string)).

#[export] Instance exn_eq_dec : EqDecision exn.
Proof. solve_decision. Defined.

(** [except OSError] also catches its subclasses. *)
Definition is_os_error (e : exn) : bool :=
  match e with
  | OSError | PermissionError | FileNotFoundError | FileExistsError
  | ConnectionRefusedError _ | TimeoutError _ | SocketError _ => true
  | _ => false
  end.

(** ** Record updates: [r <| field := v |>]

    [Eta R] rebuilds a record from its projections; the setter of a field
    replaces that projection. *)
Class Eta (R : Type) := eta : R → R.
Class Setter {R E : Type} (proj : R → E) := set_field : (E → E) → R → R.

Ltac head_of t := lazymatch t with ?f _ => head_of f | _ => t end.
Ltac make_setter proj :=
  lazymatch type of proj with
  | ?R → ?E =>
      exact (λ (f : E → E) (r : R), ltac:(
        let b := lazymatch constr:(@eta R _ r) with
          | @eta _ ?i _ =>
              let h := head_of i in eval cbv beta delta [h eta] in (@eta R i r)
          end in
        lazymatch eval pattern (proj r) in b with
        | ?g _ => let b' := eval cbv beta in (g (f (proj r))) in exact b'
        end))
  end.
#[export] Hint Extern 1 (Setter ?proj) => make_setter proj : typeclass_instances.

Declare Scope record_scope.
Notation "r <| proj := v |>" := (set_field (proj := proj) (λ _, v) r)
  (at level 1, left associativity, v at level 99) : record_scope.
Notation "r <| proj ::= f |>" := (set_field (proj := proj) f r)
  (at level 1, left associativity, f at level 99) : record_scope.
#[global] Open Scope record_scope.

(** ** Results of pure Python functions: a value or a raised exception *)
Inductive result (A : Type) :=
  | Ok (a : A)
  | Err (e : exn).
Arguments Ok {A} a.
Arguments Err {A} e.

#[export] Instance result_ret : MRet result := λ A a, Ok a.
#[export] Instance result_bind : MBind result := λ A B f m,
  match m with Ok a => f a | Err e => Err e end.
#[export] Instance result_fmap : FMap result := λ A B f m,
  match m with Ok a => Ok (f a) | Err e => Err e end.

(** [Model.objects.get(...)] on a value that may be missing. *)
Definition require {A} (e : exn) (o : option A) : result A :=
  match o with Some a => Ok a | None => Err e end.

Definition is_ok {A} (r : result A) : bool :=
  match r with Ok _ => true | Err _ => false end.

Lemma result_bind_Ok {A B} (m : result A) (f : A → result B) b :
  (m ≫= f) = Ok b ↔ ∃ a, m = Ok a ∧ f a = Ok b.
Proof. destruct m; simpl; naive_solver. Qed.

Lemma mapM_Ok {A B} (f : A → result B) l l' :
  mapM f l = Ok l' ↔ Forall2 (λ x y, f x = Ok y) l l'.
Proof.
  revert l'. induction l as [|x l IH]; intros l'.
  - simpl. unfold mret, result_ret. split; [intros [= <-]; constructor|].
    intros H. by inversion_clear H.
  - cbn [mapM]. rewrite result_bind_Ok. setoid_rewrite result_bind_Ok. setoid_rewrite IH. split.
    + intros (y & Hy & k & Hk & [= <-]). by constructor.
    + intros H. inversion_clear H. eauto.
Qed.

(** ** Stateful Python code: a world, and a value or an exception

    Writes performed before an exception stay: the world is threaded through
    the exceptional exit as well.  Only [atomic] undoes them. *)
Definition M (W A : Type) : Type := W → result A * W.

#[export] Instance M_ret W : MRet (M W) := λ A a w, (Ok a, w).
#[export] Instance M_bind W : MBind (M W) := λ A B f m w,
  match m w with
  | (Ok a, w') => f a w'
  | (Err e, w') => (Err e, w')
  end.

Definition raise {W A} (e : exn) : M W A := λ w, (Err e, w).
Definition lift {W A} (r : result A) : M W A := λ w, (r, w).
Definition gets {W A} (f : W → A) : M W A := λ w, (Ok (f w), w).
Definition modify {W} (f : W → W) : M W unit := λ w, (Ok tt, f w).

(** [try: m except E: h]; [h] decides on the exception it gets. *)
Definition try_catch {W A} (m : M W A) (h : exn → M W A) : M W A := λ w,
  match m w with
  | (Ok a, w') => (Ok a, w')
  | (Err e, w') => h e w'
  end.

(** [try: m finally: f] *)
Definition finally {W A} (m : M W A) (f : M W unit) : M W A := λ w,
  let '(r, w1) := m w in
  match f w1 with
  | (Ok _, w2) => (r, w2)
  | (Err e, w2) => (Err e, w2)
  end.

(** [for x in l: body x]. *)
Fixpoint for_each {W A} (l : list A) (body : A → M W unit) : M W unit :=
  match l with
  | [] => mret tt
  | x :: l' => body x ≫= λ _, for_each l' body
  end.

(** A loop that carries a value: [for x in l: acc = body acc x]. *)
Fixpoint for_fold {W A B} (l : list A) (acc : B) (body : B → A → M W B) : M W B :=
  match l with
  | [] => mret acc
  | x :: l' => body acc x ≫= λ acc', for_fold l' acc' body
  end.

Lemma M_bind_Ok {W A B} (m : M W A) (f : A → M W B) w b w' :
  (m ≫= f) w = (Ok b, w') ↔ ∃ a w1, m w = (Ok a, w1) ∧ f a w1 = (Ok b, w').
Proof. unfold mbind, M_bind. destruct (m w) as [[a|e] w1]; naive_solver. Qed.

Lemma M_bind_Err {W A B} (m : M W A) (f : A → M W B) w e w' :
  (m ≫= f) w = (Err e, w') ↔
    m w = (Err e, w') ∨ ∃ a w1, m w = (Ok a, w1) ∧ f a w1 = (Err e, w').
Proof. unfold mbind, M_bind. destruct (m w) as [[a|e'] w1]; naive_solver. Qed.

(** One step of a computation, by the kind of its first action. *)
Lemma M_bind_run {W A B} (m : M W A) (f : A → M W B) w :
  (m ≫= f) w = match m w with (Ok a, w') => f a w' | (Err e, w') => (Err e, w') end.
Proof. done. Qed.

Lemma lift_bind_run {W A B} (x : result A) (f : A → M W B) w :
  (lift x ≫= f) w = match x with Ok a => f a w | Err e => (Err e, w) end.
Proof. by destruct x. Qed.

Lemma ret_Ok {W A} (a b : A) (w w' : W) : (mret a : M W A) w = (Ok b, w') ↔ b = a ∧ w' = w.
Proof. unfold mret, M_ret. split; [intros E; split; congruence|by intros [-> ->]]. Qed.

Lemma modify_Ok {W} (f : W → W) w u w' : modify f w = (Ok u, w') ↔ w' = f w.
Proof. unfold modify. destruct u. split; congruence. Qed.

Lemma lift_Ok {W A} (x : result A) (w w' : W) a : lift x w = (Ok a, w') ↔ x = Ok a ∧ w' = w.
Proof. unfold lift. naive_solver. Qed.

Lemma gets_bind_run {W A B} (g : W → A) (f : A → M W B) w : (gets g ≫= f) w = f (g w) w.
Proof. done. Qed.

Lemma modify_bind_run {W B} (g : W → W) (f : unit → M W B) w : (modify g ≫= f) w = f tt (g w).
Proof. done. Qed.

Lemma ret_bind_run {W A B} (a : A) (f : A → M W B) w : (mret a ≫= f) w = f a w.
Proof. done. Qed.

(** An invariant of the world that every step of a computation keeps. *)
Definition keeps {W A} (I : W → Prop) (m : M W A) : Prop :=
  ∀ w r w', m w = (r, w') → I w → I w'.

Create HintDb keeps.

Lemma keeps_ret {W A} (I : W → Prop) (a : A) : keeps I (mret a).
Proof. intros w r w' [= <- <-]. done. Qed.

Lemma keeps_raise {W A} (I : W → Prop) e : keeps (A:=A) I (raise e).
Proof. intros w r w' [= <- <-]. done. Qed.

Lemma keeps_lift {W A} (I : W → Prop) (x : result A) : keeps I (lift x).
Proof. intros w r w' [= <- <-]. done. Qed.

Lemma keeps_gets {W A} (I : W → Prop) (f : W → A) : keeps I (gets f).
Proof. intros w r w' [= <- <-]. done. Qed.

Lemma keeps_bind {W A B} (I : W → Prop) (m : M W A) (f : A → M W B) :
  keeps I m → (∀ a, keeps I (f a)) → keeps I (m ≫= f).
Proof.
  intros Hm Hf w r w'. unfold mbind, M_bind.
  destruct (m w) as [[a|e] w1] eqn:E; [|intros [= <- <-]; eauto].
  intros Hw HI. eapply Hf; eauto.
Qed.

Lemma keeps_modify {W} (I : W → Prop) (f : W → W) :
  (∀ w, I w → I (f w)) → keeps I (modify f).
Proof. intros Hf w r w' [= <- <-]. auto. Qed.

Lemma keeps_try {W A} (I : W → Prop) (m : M W A) h :
  keeps I m → (∀ e, keeps I (h e)) → keeps I (try_catch m h).
Proof.
  intros Hm Hh w r w'. unfold try_catch.
  destruct (m w) as [[a|e] w1] eqn:E; [intros [= <- <-]; eauto|].
  intros Hw HI. eapply Hh; eauto.
Qed.

Lemma keeps_finally {W A} (I : W → Prop) (m : M W A) f : keeps I m → keeps I f → keeps I (finally m f).
Proof.
  intros Hm Hf s r s' Hrun HI. unfold finally in Hrun. destruct (m s) as [x s1] eqn:E.
  destruct (f s1) as [[u|e] s2] eqn:Ef; injection Hrun as <- <-; eapply Hf, Hm; eauto.
Qed.

(** A loop that ends keeps an invariant, and what each step establishes. *)
Lemma for_fold_Ok {W A B} (I : W → Prop) (Q : A → W → Prop) (l : list A) (body : B → A → M W B) :
  (∀ x acc w b w', x ∈ l → I w → body acc x w = (Ok b, w') → I w' ∧ Q x w') →
  (∀ x y acc w b w', x ∈ l → I w → Q y w → body acc x w = (Ok b, w') → Q y w') →
  ∀ acc w b w', I w → for_fold l acc body w = (Ok b, w') → I w' ∧ ∀ x, x ∈ l → Q x w'.
Proof.
  intros Hstep Hkeep.
  assert (∀ l', l' ⊆ l → ∀ done acc w b w', I w → (∀ y, y ∈ done → Q y w) →
            for_fold l' acc body w = (Ok b, w') → I w' ∧ ∀ x, x ∈ done ++ l' → Q x w') as H.
  { induction l' as [|x l' IH]; intros Hl done acc w b w' HI HQ H; cbn [for_fold] in H.
    - injection H as _ <-. split; [done|]. intros x Hx. rewrite app_nil_r in Hx. auto.
    - apply M_bind_Ok in H as (acc' & w1 & Hb & H).
      assert (x ∈ l) as Hx by (apply Hl; by left). destruct (Hstep _ _ _ _ _ Hx HI Hb) as [HI1 HQ1].
      apply (IH ltac:(set_solver) (done ++ [x])) in H; [by rewrite <-app_assoc in H|done|].
      intros y [Hy|Hy%list_elem_of_singleton]%elem_of_app; [|by subst].
      by eapply Hkeep, Hb; [..|apply HQ]. }
  intros acc w b w' HI Hrun. eapply (H l (λ x Hx, Hx) [] acc w b w'); [done|set_solver|done].
Qed.

Lemma keeps_for_each {W A} (I : W → Prop) (l : list A) body :
  (∀ x, keeps I (body x)) → keeps I (for_each l body).
Proof. intros Hb. induction l; simpl; auto using keeps_ret, keeps_bind. Qed.

Lemma keeps_for_each_in {W A} (I : W → Prop) (l : list A) body :
  (∀ x, x ∈ l → keeps I (body x)) → keeps I (for_each l body).
Proof.
  induction l as [|x l IH]; intros Hb; simpl; [apply keeps_ret|].
  apply keeps_bind; [apply Hb; by left|]. intros _. apply IH. intros y Hy. apply Hb. by right.
Qed.

Lemma keeps_for_fold {W A B} (I : W → Prop) (l : list A) body (acc : B) :
  (∀ acc x, keeps I (body acc x)) → keeps I (for_fold l acc body).
Proof.
  intros Hb. revert acc. induction l; intros acc; simpl;
    auto using keeps_ret, keeps_bind.
Qed.

Lemma keeps_for_fold_in {W A B} (I : W → Prop) (l : list A) body (acc : B) :
  (∀ acc x, x ∈ l → keeps I (body acc x)) → keeps I (for_fold l acc body).
Proof.
  revert acc. induction l as [|x l IH]; intros acc Hb; simpl; [apply keeps_ret|].
  apply keeps_bind; [apply Hb; by left|]. intros acc'. apply IH. intros a y Hy. apply Hb. by right.
Qed.

#[export] Hint Resolve keeps_ret keeps_raise keeps_lift keeps_gets keeps_bind
  keeps_modify keeps_try keeps_finally keeps_for_each keeps_for_fold : keeps.

(** Takes a computation apart down to calls that hints know to keep the
    invariant. *)
Ltac keep_steps :=
  repeat first [ solve [auto with keeps] | apply keeps_bind; [|intros ?]
               | apply keeps_try; [|intros ?] | apply keeps_finally
               | apply keeps_for_fold; intros ? ? | case_match ].

(** ** Python built-ins on lists and integers *)

(** [l[:n]], with Python's reading of a negative [n]. *)
Definition py_take {A} (n : Z) (l : list A) : list A :=
  take (Z.to_nat (if n <? 0 then Z.of_nat (length l) + n else n)) l.

(** [bool(id)] of an optional foreign key. *)
Definition truthy_id (id : option Z) : bool :=
  match id with Some i => negb (i =? 0) | None => false end.

Lemma StronglySorted_lookup {A} (R : A → A → Prop) (l : list A) i j x y :
  StronglySorted R l → l !! i = Some x → l !! j = Some y → (i < j)%nat → R x y.
Proof.
  intros Hs. revert i j. induction Hs as [|z l Hl IH Hz]; intros i j Hi Hj Hij; [done|].
  destruct j as [|j]; [lia|]. destruct i as [|i]; simpl in *.
  - injection Hi as <-. eapply Forall_lookup_1 in Hz; eauto.
  - apply (IH i j); [done..|lia].
Qed.

(** [sorted(l, key=...)]: a stable insertion sort.  [le] compares the keys. *)
Section sorting.
Context {A : Type} (le : A → A → bool).

Fixpoint insert_sorted (x : A) (l : list A) : list A :=
  match l with
  | [] => [x]
  | y :: l' => if le x y then x :: y :: l' else y :: insert_sorted x l'
  end.

Definition sort_by (l : list A) : list A := foldr insert_sorted [] l.

Lemma insert_sorted_perm x l : insert_sorted x l ≡ₚ x :: l.
Proof.
  induction l as [|y l IH]; simpl; [done|].
  destruct (le x y); [done|]. rewrite IH. apply Permutation_swap.
Qed.

Lemma sort_by_perm l : sort_by l ≡ₚ l.
Proof. induction l; simpl; [done|]. rewrite insert_sorted_perm. by constructor. Qed.

Lemma elem_of_sort_by x l : x ∈ sort_by l ↔ x ∈ l.
Proof. by rewrite sort_by_perm. Qed.

Context (Htotal : ∀ x y, le x y = true ∨ le y x = true).
Context (Htrans : ∀ x y z, le x y = true → le y z = true → le x z = true).

Abbreviation LE := (λ x y, le x y = true).

Lemma insert_sorted_sorted x l :
  StronglySorted LE l → StronglySorted LE (insert_sorted x l).
Proof.
  induction 1 as [|y l Hl IH Hy]; simpl; [repeat constructor|].
  destruct (le x y) eqn:E.
  - constructor; [by constructor|]. constructor; [done|].
    eapply Forall_impl; [done|]. simpl. eauto.
  - constructor; [done|]. rewrite insert_sorted_perm. constructor; [|done].
    destruct (Htotal x y); congruence.
Qed.

Lemma sort_by_sorted l : StronglySorted LE (sort_by l).
Proof. induction l; simpl; [constructor|by apply insert_sorted_sorted]. Qed.
End sorting.

Section sorting_unique.
Context {A : Type} (le : A → A → bool).
Context (Htotal : ∀ x y, le x y = true ∨ le y x = true).
Context (Htrans : ∀ x y z, le x y = true → le y z = true → le x z = true).

Abbreviation LE := (λ x y, le x y = true).

Lemma StronglySorted_filter (R : A → A → Prop) (P : A → Prop) `{!∀ x, Decision (P x)} l :
  StronglySorted R l → StronglySorted R (filter P l).
Proof.
  induction 1 as [|x l Hl IH Hx]; [constructor|].
  rewrite filter_cons. case_decide; [|done].
  constructor; [done|]. rewrite Forall_forall in Hx |- *.
  intros y [_ Hy]%list_elem_of_filter. auto.
Qed.

(** Sorting a sublist is taking the sublist of the sorted list, when the
    sort key identifies the elements. *)
Lemma sort_by_filter (P : A → Prop) `{!∀ x, Decision (P x)} l :
  (∀ x y, x ∈ l → y ∈ l → le x y = true → le y x = true → x = y) →
  sort_by le (filter P l) = filter P (sort_by le l).
Proof.
  intros Hanti. apply (StronglySorted_unique_strong LE).
  - intros x y Hx Hy. apply Hanti.
    + by apply elem_of_sort_by, list_elem_of_filter in Hx as [_ ?].
    + by apply list_elem_of_filter in Hy as [_ ?%elem_of_sort_by].
  - by apply sort_by_sorted.
  - by apply StronglySorted_filter, sort_by_sorted.
  - by rewrite !sort_by_perm.
Qed.

(** The order in which the rows arrive does not matter. *)
Lemma sort_by_permutation l1 l2 :
  (∀ x y, x ∈ l1 → y ∈ l1 → le x y = true → le y x = true → x = y) →
  l1 ≡ₚ l2 → sort_by le l1 = sort_by le l2.
Proof.
  intros Hanti Hp. apply (StronglySorted_unique_strong LE).
  - intros x y Hx Hy. rewrite elem_of_sort_by in Hx.
    rewrite elem_of_sort_by, <-Hp in Hy. auto.
  - by apply sort_by_sorted.
  - by apply sort_by_sorted.
  - by rewrite !sort_by_perm.
Qed.
End sorting_unique.

(** [sorted(..., key=lambda x: (key x, id x))] and its [reverse=True] form. *)
Definition key_leb {A} (key id : A → Z) (x y : A) : bool :=
  (key x <? key y) || ((key x =? key y) && (id x <=? id y)).
Definition key_geb {A} (key id : A → Z) (x y : A) : bool := key_leb key id y x.

Section key_order.
Context {A : Type} (key id : A → Z).

Lemma key_leb_spec x y :
  key_leb key id x y = true ↔ key x < key y ∨ (key x = key y ∧ id x <= id y).
Proof. unfold key_leb. lia. Qed.

Lemma key_leb_total x y : key_leb key id x y = true ∨ key_leb key id y x = true.
Proof. rewrite !key_leb_spec. lia. Qed.

Lemma key_leb_trans x y z :
  key_leb key id x y = true → key_leb key id y z = true → key_leb key id x z = true.
Proof. rewrite !key_leb_spec. lia. Qed.

Lemma key_geb_total x y : key_geb key id x y = true ∨ key_geb key id y x = true.
Proof. unfold key_geb. apply or_comm, key_leb_total. Qed.

Lemma key_geb_trans x y z :
  key_geb key id x y = true → key_geb key id y z = true → key_geb key id x z = true.
Proof. unfold key_geb. eauto using key_leb_trans. Qed.

Lemma key_leb_antisym x y :
  key_leb key id x y = true → key_leb key id y x = true → id x = id y.
Proof. rewrite !key_leb_spec. lia. Qed.
End key_order.

#[export] Hint Resolve key_leb_total key_geb_total : core.

Lemma NoDup_map_inj {A B} (f : A → B) (l : list A) x y :
  NoDup (map f l) → x ∈ l → y ∈ l → f x = f y → x = y.
Proof.
  induction l as [|z l IH]; simpl; [set_solver|].
  intros [Hz Hl]%NoDup_cons [->|Hx]%elem_of_cons [->|Hy]%elem_of_cons Hf; auto.
  - destruct Hz. rewrite Hf. by apply list_elem_of_fmap_2.
  - destruct Hz. rewrite <-Hf. by apply list_elem_of_fmap_2.
Qed.

Section filter_facts.
Context {A : Type} (P : A → Prop) `{!∀ x, Decision (P x)}.

Lemma filter_all_id (l : list A) : (∀ x, x ∈ l → P x) → filter P l = l.
Proof.
  induction l as [|x l IH]; intros HP; [done|].
  rewrite filter_cons_True, IH; [done|..]; set_solver.
Qed.

Lemma filter_none_nil (l : list A) : (∀ x, x ∈ l → ¬ P x) → filter P l = [].
Proof.
  induction l as [|x l IH]; intros HP; [done|].
  rewrite filter_cons_False, IH; [done|..]; set_solver.
Qed.

Lemma last_filter (l : list A) x : list.last l = Some x → P x → list.last (filter P l) = Some x.
Proof.
  destruct l as [|y l _] using rev_ind; [done|]. rewrite list.last_snoc. intros [= ->] Hx.
  by rewrite list.filter_app, filter_cons_True, filter_nil, list.last_snoc.
Qed.

(** Counting in a sublist counts less. *)
Lemma length_filter_sublist (l1 l2 : list A) :
  sublist l1 l2 → (length (filter P l1) ≤ length (filter P l2))%nat.
Proof.
  induction 1 as [|x l1 l2 _ IH|x l1 l2 _ IH]; [done|..]; rewrite !filter_cons;
    case_decide; simpl; lia.
Qed.
End filter_facts.

Lemma NoDup_map_sublist {A B} (f : A → B) (l1 l2 : list A) :
  sublist l1 l2 → NoDup (map f l2) → NoDup (map f l1).
Proof.
  induction 1 as [|x l1 l2 Hs IH|x l1 l2 Hs IH]; simpl; rewrite ?NoDup_cons; [done|..].
  - intros [Hx Hl]. split; [|auto]. intros (y & Hxy & Hy)%list_elem_of_fmap. apply Hx.
    eapply list_elem_of_fmap_2'; [|done]. by eapply elem_of_sublist.
  - intros [_ Hl]. auto.
Qed.

Lemma NoDup_length_le {A} (l1 l2 : list A) :
  NoDup l1 → l1 ⊆ l2 → (length l1 ≤ length l2)%nat.
Proof. intros H1 H2. by apply submseteq_length, NoDup_submseteq. Qed.

Lemma size_list_to_set_le (l : list Z) : (size (list_to_set l : gset Z) ≤ length l)%nat.
Proof.
  apply NoDup_length_le; [apply NoDup_elements|].
  intros x. rewrite elem_of_elements. by rewrite elem_of_list_to_set.
Qed.

(** ** Lists in newest-first order, the order of [sorted(..., reverse=True)] *)
Section newest_first.
Context {A : Type} (key id : A → Z).

(** [x] comes strictly before [y]. *)
Definition newer_by (x y : A) : Prop :=
  key y < key x ∨ (key y = key x ∧ id y < id x).

#[export] Instance newer_by_dec x y : Decision (newer_by x y).
Proof. unfold newer_by. apply _. Defined.

Abbreviation ge := (key_geb key id).

Lemma geb_newer x y : ge x y = true → id x ≠ id y → newer_by x y.
Proof. unfold key_geb. rewrite key_leb_spec. unfold newer_by. lia. Qed.

Lemma newer_geb x y : newer_by x y → ge y x = false.
Proof.
  intros H. apply not_true_is_false. unfold key_geb. rewrite key_leb_spec.
  unfold newer_by in H. lia.
Qed.

(** Sorted newest first, each id once. *)
Record newest_first (l : list A) : Prop := {
  newest_first_sorted : StronglySorted (λ x y, ge x y = true) l;
  newest_first_nodup : NoDup (map id l);
}.

Lemma newest_first_filter (P : A → Prop) `{!∀ x, Decision (P x)} l :
  newest_first l → newest_first (filter P l).
Proof.
  intros [Hs Hn]. split; [by apply StronglySorted_filter|].
  eapply NoDup_map_sublist; [apply sublist_filter|done].
Qed.

Lemma sort_newest_first l : NoDup (map id l) → newest_first (sort_by ge l).
Proof.
  intros Hn. split; [apply sort_by_sorted; eauto using key_geb_trans|].
  eapply NoDup_Permutation_proper; [|done]. by rewrite sort_by_perm.
Qed.

Section positions.
Context (l1 l2 : list A) (r : A) (Hl : newest_first (l1 ++ r :: l2)).

(** The elements before [r] are the newer ones. *)
Lemma before_newer r' : r' ∈ l1 ++ r :: l2 → (r' ∈ l1 ↔ newer_by r' r).
Proof using Hl.
  destruct Hl as [Hs Hnd].
  apply StronglySorted_app in Hs as (H12 & _ & Hr2).
  inversion Hr2 as [|?? _ Hr]; subst. rewrite Forall_forall in Hr.
  rewrite map_app, NoDup_app in Hnd. destruct Hnd as (_ & Hd & _).
  intros Hin. split.
  - intros H1. apply geb_newer; [apply H12; set_solver|].
    intros E. destruct (Hd (id r')); [by apply list_elem_of_fmap_2|].
    rewrite E. simpl. set_solver.
  - intros Hn%newer_geb. apply elem_of_app in Hin as [?|[->|H2]%elem_of_cons]; [done|..].
    + unfold key_geb in Hn. destruct (key_leb_total key id r r); congruence.
    + apply Hr in H2. congruence.
Qed.

Lemma count_newer : filter (λ r', newer_by r' r) (l1 ++ r :: l2) = l1.
Proof using Hl.
  rewrite filter_app, filter_cons_False.
  2:{ unfold newer_by. lia. }
  rewrite (filter_all_id _ l1), (filter_none_nil _ l2), app_nil_r; [done|..].
  - intros r' H' Hn. apply before_newer in Hn; [|set_solver].
    destruct Hl as [_ Hnd]. rewrite map_app, NoDup_app in Hnd. destruct Hnd as (_ & Hd & _).
    destruct (Hd (id r')); [by apply list_elem_of_fmap_2|].
    simpl. apply elem_of_cons. right. by apply list_elem_of_fmap_2.
  - intros r' H'. apply before_newer; set_solver.
Qed.
End positions.

Lemma newest_first_take l n r :
  newest_first l → r ∈ l →
  r ∈ take n l ↔ (length (filter (λ r', newer_by r' r) l) < n)%nat.
Proof.
  intros Hl (l1 & l2 & ->)%list_elem_of_split. rewrite count_newer by done.
  destruct Hl as [_ Hn]. apply NoDup_fmap_1 in Hn. rewrite take_app. split.
  - intros [H|H]%elem_of_app.
    + apply elem_of_sublist with (l2 := l1) in H; [|apply sublist_take].
      apply NoDup_app in Hn as (_ & Hd & _). destruct (Hd r H). set_solver.
    + destruct (n - length l1)%nat eqn:E; [by apply not_elem_of_nil in H|lia].
  - intros Hlt. apply elem_of_app. right.
    destruct (n - length l1)%nat eqn:E; [lia|]. simpl. set_solver.
Qed.
End newest_first.
