(* ===== verification/Strings.v ===== *)
(** * Python strings and POSIX paths

    [str.split], [in], and the parsing of [PurePosixPath]: what the storage
    keys and remote paths are made of.  A string is its UTF-8 bytes; every
    test below is on ASCII characters, which UTF-8 keeps apart. *)

From Stdlib Require Import ZArith Lia Strings.Ascii.
From stdpp Require Import base gmap list strings.
From S2P Require Import Prelude.
#[local] Open Scope string_scope.
#[local] Open Scope list_scope.
#[local] Open Scope Z_scope.

(** [c in s] *)
Fixpoint has_char (c : ascii) (s : string) : bool :=
  match s with
  | EmptyString => false
  | String a s' => bool_decide (a = c) || has_char c s'
  end.

(** [s.split(c)] *)
Fixpoint split_on (c : ascii) (s : string) : list string :=
  match s with
  | EmptyString => [""]
  | String a s' =>
      if decide (a = c) then "" :: split_on c s'
      else match split_on c s' with
           | [] => [String a ""]
           | p :: ps => String a p :: ps
           end
  end.

(** [sep.join(parts)] *)
Fixpoint join (sep : string) (parts : list string) : string :=
  match parts with
  | [] => ""
  | [p] => p
  | p :: ps => p +:+ sep +:+ join sep ps
  end.

Fixpoint all_chars (P : ascii → bool) (s : string) : bool :=
  match s with
  | EmptyString => true
  | String a s' => P a && all_chars P s'
  end.

Definition char_between (lo hi : N) (a : ascii) : bool :=
  (lo <=? N_of_ascii a)%N && (N_of_ascii a <=? hi)%N.
Definition is_digit : ascii → bool := char_between 48 57.
Definition is_upper : ascii → bool := char_between 65 90.
Definition is_lower : ascii → bool := char_between 97 122.

Definition slash : ascii := "/"%char.
Definition backslash : ascii := ascii_of_N 92.
Definition nul : ascii := ascii_of_N 0.

(** [a <= b] on strings. *)
Definition string_leb (a b : string) : bool :=
  match String.compare a b with Gt => false | _ => true end.

(** [PurePosixPath(s).is_absolute()] *)
Definition is_absolute (s : string) : bool :=
  match s with String a _ => bool_decide (a = slash) | EmptyString => false end.

(** The components of [PurePosixPath(s).parts], less the root: repeated
    slashes and [.] components vanish, [..] stays. *)
Definition path_parts (s : string) : list string :=
  filter (λ p, p ≠ "" ∧ p ≠ ".") (split_on slash s).

(** The code points of a string: a byte [10xxxxxx] continues the one before. *)
Definition is_continuation (a : ascii) : bool := char_between 128 191 a.

Fixpoint code_points (s : string) : list string :=
  match s with
  | EmptyString => []
  | String a s' =>
      match code_points s' with
      | String b c :: cs =>
          if is_continuation b then String a (String b c) :: cs
          else String a "" :: String b c :: cs
      | cs => String a "" :: cs
      end
  end.

(** [s[:n]] *)
Definition str_take (n : Z) (s : string) : string :=
  foldr String.append "" (py_take n (code_points s)).

(** ** Facts *)

Lemma code_points_concat s : foldr String.append "" (code_points s) = s.
Proof.
  induction s as [|a s IH]; simpl; [done|].
  destruct (code_points s) as [|[|b c] cs]; simpl in *; [by rewrite <-IH|by rewrite <-IH|].
  destruct (is_continuation b); by rewrite <-IH.
Qed.

Lemma str_take_all n s : Z.of_nat (String.length s) <= n → str_take n s = s.
Proof.
  intros Hn. unfold str_take, py_take. destruct (Z.ltb_spec n 0); [lia|].
  rewrite take_ge; [apply code_points_concat|].
  assert (∀ t, (length (code_points t) <= String.length t)%nat) as Hl; [|specialize (Hl s); lia].
  induction t as [|a t IH]; simpl; [lia|].
  destruct (code_points t) as [|[|b c] cs]; simpl in *; try lia.
  destruct (is_continuation b); simpl; lia.
Qed.

Lemma split_on_cons c s : ∃ p ps, split_on c s = p :: ps.
Proof.
  destruct s as [|a s]; simpl; [eauto|].
  destruct (decide (a = c)); [eauto|]. destruct (split_on c s); eauto.
Qed.

Lemma has_char_app c s t : has_char c (s +:+ t) = has_char c s || has_char c t.
Proof. induction s as [|a s IH]; simpl; [done|]. by rewrite IH, orb_assoc. Qed.

Lemma split_on_none c s : has_char c s = false → split_on c s = [s].
Proof.
  induction s as [|a s IH]; simpl; [done|].
  intros [Ha Hs]%orb_false_iff. apply bool_decide_eq_false in Ha.
  rewrite decide_False by done. by rewrite IH.
Qed.

(** Splitting at the first separator. *)
Lemma split_on_app c s t :
  has_char c s = false → split_on c (s +:+ String c t) = s :: split_on c t.
Proof.
  induction s as [|a s IH]; simpl.
  - intros _. by rewrite decide_True.
  - intros [Ha Hs]%orb_false_iff. apply bool_decide_eq_false in Ha.
    rewrite decide_False by done. by rewrite IH.
Qed.

Lemma split_on_no_sep c s p : p ∈ split_on c s → has_char c p = false.
Proof.
  revert p. induction s as [|a s IH]; intros p; simpl.
  - by intros ->%list_elem_of_singleton.
  - destruct (decide (a = c)) as [->|Hne].
    + intros [->|Hp]%elem_of_cons; [done|auto].
    + destruct (split_on_cons c s) as (q & qs & E). rewrite E in IH |- *.
      intros [->|Hp]%elem_of_cons; [|apply IH; by right].
      simpl. rewrite bool_decide_eq_false_2 by done. apply IH. by left.
Qed.

Lemma join_split c s : join (String c "") (split_on c s) = s.
Proof.
  induction s as [|a s IH]; simpl; [done|].
  destruct (split_on_cons c s) as (q & qs & E). rewrite E in IH |- *.
  destruct (decide (a = c)) as [->|Hne].
  - simpl. simpl in IH. by rewrite IH.
  - destruct qs as [|q' qs]; simpl in *; [by rewrite IH|]. by rewrite <-IH.
Qed.

(** [".".join] and [split] are inverse on parts without the separator. *)
Lemma split_join c ps :
  ps ≠ [] → Forall (λ p, has_char c p = false) ps → split_on c (join (String c "") ps) = ps.
Proof.
  intros Hne H. induction H as [|p ps Hp Hps IH]; [done|].
  destruct ps as [|q ps]; [by apply split_on_none|].
  change (split_on c (p +:+ String c (join (String c "") (q :: ps))) = p :: q :: ps).
  rewrite split_on_app by done. f_equal. by apply IH.
Qed.

Lemma path_parts_in s p :
  p ∈ path_parts s → p ≠ "" ∧ p ≠ "." ∧ has_char slash p = false.
Proof.
  unfold path_parts. rewrite list_elem_of_filter. intros [[? ?] Hp].
  split_and!; [done..|]. by apply split_on_no_sep in Hp.
Qed.

Lemma path_parts_app s t :
  has_char slash s = false → s ≠ "" → s ≠ "." →
  path_parts (s +:+ String slash t) = s :: path_parts t.
Proof. intros Hs H1 H2. unfold path_parts. rewrite split_on_app by done. by rewrite filter_cons_True. Qed.

Lemma all_chars_no_char P c s : all_chars P s = true → P c = false → has_char c s = false.
Proof.
  intros Hs Hc. induction s as [|a s IH]; simpl in *; [done|].
  apply andb_true_iff in Hs as [Ha Hs]. rewrite IH, orb_false_r by done.
  apply bool_decide_eq_false. intros ->. congruence.
Qed.
