(* ===== verification/Text.v ===== *)
(** * Python text operations on ASCII text

    [str.strip], [str.rstrip], [re.sub] on runs of a character class,
    slicing, and the decimal notation: what readable paths are built with. *)

From Stdlib Require Import ZArith Lia Strings.Ascii.
From stdpp Require Import base gmap list strings pretty numbers.
From S2P Require Import Prelude Strings.
#[local] Open Scope string_scope.
#[local] Open Scope list_scope.
#[local] Open Scope Z_scope.

(** ** Operations *)

(** [s.lstrip(chars)] and [s.rstrip(chars)] *)
Fixpoint strip_left (P : ascii → bool) (s : string) : string :=
  match s with
  | EmptyString => ""
  | String a s' => if P a then strip_left P s' else s
  end.

Fixpoint strip_right (P : ascii → bool) (s : string) : string :=
  match s with
  | EmptyString => ""
  | String a s' =>
      match strip_right P s' with
      | EmptyString => if P a then "" else String a ""
      | t => String a t
      end
  end.

Definition strip (P : ascii → bool) (s : string) : string := strip_right P (strip_left P s).

(** [re.sub(r"[class]+", c, s)] *)
Fixpoint sub_runs (P : ascii → bool) (c : ascii) (s : string) : string :=
  match s with
  | EmptyString => ""
  | String a s' =>
      if P a
      then match s' with
           | String b _ => if P b then sub_runs P c s' else String c (sub_runs P c s')
           | EmptyString => String c ""
           end
      else String a (sub_runs P c s')
  end.

(** [s[:n]] on ASCII text. *)
Fixpoint string_take (n : nat) (s : string) : string :=
  match n, s with
  | S n', String a s' => String a (string_take n' s')
  | _, _ => ""
  end.

(** The characters of [chars]. *)
Definition char_in (chars : string) (a : ascii) : bool := has_char a chars.

Definition filter_chars (P : ascii → bool) (s : string) : string :=
  String.string_of_list_ascii (filter (λ a, P a = true) (String.list_ascii_of_string s)).

(** [str.isspace] on ASCII characters. *)
Definition is_space (a : ascii) : bool :=
  char_between 9 13 a || char_between 28 32 a.

Definition to_lower (s : string) : string :=
  String.string_of_list_ascii (map (λ a, if is_upper a then ascii_of_N (N_of_ascii a + 32) else a)
                          (String.list_ascii_of_string s)).

(** [s.startswith(p)] and [p in s] *)
Definition starts_with (p s : string) : bool := String.prefix p s.
Fixpoint contains_text (p s : string) : bool :=
  starts_with p s || match s with EmptyString => false | String _ s' => contains_text p s' end.

Fixpoint last_char (s : string) : option ascii :=
  match s with
  | EmptyString => None
  | String a EmptyString => Some a
  | String _ s' => last_char s'
  end.

(** [posixpath.join(a, b)] *)
Definition posix_join (a b : string) : string :=
  if is_absolute b then b
  else if bool_decide (a = "") || bool_decide (last_char a = Some slash) then a +:+ b
  else a +:+ "/" +:+ b.

(** ** Facts *)

Lemma all_chars_app P s t : all_chars P (s +:+ t) = all_chars P s && all_chars P t.
Proof. induction s as [|a s IH]; simpl; [done|]. by rewrite IH, andb_assoc. Qed.

Lemma all_chars_weaken (P Q : ascii → bool) s :
  (∀ a, P a = true → Q a = true) → all_chars P s = true → all_chars Q s = true.
Proof.
  intros HPQ. induction s as [|a s IH]; simpl; [done|].
  intros [Ha Hs]%andb_true_iff. by rewrite HPQ, IH.
Qed.

Lemma all_chars_strip_left P Q s : all_chars P s = true → all_chars P (strip_left Q s) = true.
Proof.
  induction s as [|a s IH]; simpl; [done|]. intros H. pose proof H as [Ha Hs]%andb_true_iff.
  destruct (Q a); auto.
Qed.

Lemma all_chars_strip_right P Q s : all_chars P s = true → all_chars P (strip_right Q s) = true.
Proof.
  induction s as [|a s IH]; simpl; [done|]. intros [Ha Hs]%andb_true_iff.
  specialize (IH Hs). destruct (strip_right Q s) as [|b t]; simpl in *.
  - destruct (Q a); simpl; [done|by rewrite Ha].
  - by rewrite Ha, IH.
Qed.

Lemma all_chars_take P n s : all_chars P s = true → all_chars P (string_take n s) = true.
Proof.
  revert s. induction n as [|n IH]; intros [|a s]; simpl; try done.
  intros [Ha Hs]%andb_true_iff. by rewrite Ha, IH.
Qed.

Lemma sub_runs_cons P c a s :
  sub_runs P c (String a s) =
    if P a
    then match s with
         | String b _ => if P b then sub_runs P c s else String c (sub_runs P c s)
         | EmptyString => String c ""
         end
    else String a (sub_runs P c s).
Proof. done. Qed.

(** The result is made of [c] and of the characters outside the class. *)
Lemma all_chars_sub_runs (P Q R : ascii → bool) c s :
  Q c = true → (∀ a, R a = true → P a = false → Q a = true) → all_chars R s = true →
  all_chars Q (sub_runs P c s) = true.
Proof.
  intros Hc HPQ. induction s as [|a s IH]; [done|]. intros [Ha Hs]%andb_true_iff.
  specialize (IH Hs). rewrite sub_runs_cons. destruct (P a) eqn:Hp.
  - destruct s as [|b s]; [simpl; by rewrite Hc|].
    destruct (P b); [exact IH|]. cbn [all_chars]. by rewrite Hc, IH.
  - cbn [all_chars]. by rewrite HPQ, IH.
Qed.

Lemma all_chars_has P s a : all_chars P s = true → has_char a s = true → P a = true.
Proof.
  induction s as [|b s IH]; simpl; [done|]. intros [Hb Hs]%andb_true_iff.
  intros [->%bool_decide_eq_true|Ha]%orb_true_iff; auto.
Qed.

(** What stripping leaves does not begin, and does not end, with the class. *)
Lemma strip_left_head P s a t : strip_left P s = String a t → P a = false.
Proof.
  induction s as [|b s IH]; simpl; [done|]. destruct (P b) eqn:Hb; [done|]. by intros [= <- <-].
Qed.

Lemma strip_right_cons P a s :
  P a = false → ∃ t, strip_right P (String a s) = String a t.
Proof. intros Ha. simpl. destruct (strip_right P s); [rewrite Ha; eauto|eauto]. Qed.

Lemma strip_head P s a t : strip P s = String a t → P a = false.
Proof.
  unfold strip. destruct (strip_left P s) as [|b u] eqn:E; [done|].
  pose proof (strip_left_head _ _ _ _ E) as Hb.
  destruct (strip_right_cons P b u Hb) as [v ->]. by intros [= <- <-].
Qed.

Lemma strip_right_last P s a : last_char (strip_right P s) = Some a → P a = false.
Proof.
  induction s as [|b s IH]; simpl; [done|].
  destruct (strip_right P s) as [|c t] eqn:E.
  - destruct (P b) eqn:Hb; simpl; [done|]. by intros [= <-].
  - exact IH.
Qed.

Lemma strip_right_length P s : (String.length (strip_right P s) <= String.length s)%nat.
Proof.
  induction s as [|a s IH]; simpl; [lia|].
  destruct (strip_right P s); [destruct (P a); simpl in *; lia|simpl in *; lia].
Qed.

Lemma string_take_length n s : (String.length (string_take n s) <= n)%nat.
Proof. revert s. induction n as [|n IH]; intros [|a s]; simpl; try lia. specialize (IH s). lia. Qed.

(** ** Paths *)

Lemma split_on_sep c s t : split_on c (s +:+ String c t) = split_on c s ++ split_on c t.
Proof.
  induction s as [|a s IH]; simpl; [by rewrite decide_True|].
  destruct (decide (a = c)); [by rewrite IH|].
  rewrite IH. by destruct (split_on_cons c s) as (q & qs & ->).
Qed.

Lemma path_parts_sep s t : path_parts (s +:+ String slash t) = path_parts s ++ path_parts t.
Proof. unfold path_parts. by rewrite split_on_sep, list.filter_app. Qed.

Lemma path_parts_slash s : path_parts (String slash s) = path_parts s.
Proof. exact (path_parts_sep "" s). Qed.

Lemma char_in_slash a : char_in "/" a = true → a = slash.
Proof.
  unfold char_in. cbn [has_char]. rewrite orb_false_r. by intros <-%bool_decide_eq_true.
Qed.

Lemma path_parts_strip_left s : path_parts (strip_left (char_in "/") s) = path_parts s.
Proof.
  induction s as [|a s IH]; [done|]. cbn [strip_left].
  destruct (char_in "/" a) eqn:Ha; [|done]. apply char_in_slash in Ha as ->.
  by rewrite IH, path_parts_slash.
Qed.

Lemma strip_right_split P s : ∃ t, s = strip_right P s +:+ t ∧ all_chars P t = true.
Proof.
  induction s as [|a s IH]; [by exists ""|]. destruct IH as (t & Hs & Ht). cbn [strip_right].
  destruct (strip_right P s) as [|b u].
  - change (s = t) in Hs. destruct (P a) eqn:Ha.
    + exists (String a s). split; [done|]. cbn [all_chars]. by rewrite Ha, Hs, Ht.
    + exists s. split; [done|]. by rewrite Hs.
  - exists t. split; [|done]. by rewrite Hs at 1.
Qed.

Lemma append_empty s : s +:+ "" = s.
Proof. induction s as [|a s IH]; [done|]. by rewrite <-IH at 2. Qed.

Lemma append_assoc s t u : s +:+ t +:+ u = (s +:+ t) +:+ u.
Proof. induction s as [|a s IH]; [done|]. exact (f_equal (String a) IH). Qed.

Lemma path_parts_slashes t : all_chars (char_in "/") t = true → path_parts t = [].
Proof.
  induction t as [|a t IH]; [done|]. cbn [all_chars]. intros [->%char_in_slash Ht]%andb_true_iff.
  rewrite path_parts_slash. by apply IH.
Qed.

Lemma path_parts_strip_right s : path_parts (strip_right (char_in "/") s) = path_parts s.
Proof.
  destruct (strip_right_split (char_in "/") s) as (t & Hs & Ht). rewrite Hs at 2.
  destruct t as [|a t]; [by rewrite append_empty|].
  cbn [all_chars] in Ht. apply andb_true_iff in Ht as [->%char_in_slash Ht].
  by rewrite path_parts_sep, (path_parts_slashes t), app_nil_r.
Qed.

Lemma path_parts_strip s : path_parts (strip (char_in "/") s) = path_parts s.
Proof. unfold strip. by rewrite path_parts_strip_right, path_parts_strip_left. Qed.

Lemma last_char_app s c : last_char s = Some c → ∃ s', s = s' +:+ String c "".
Proof.
  induction s as [|a s IH]; simpl; [done|]. destruct s as [|b s].
  - intros [= ->]. by exists "".
  - intros H. destruct (IH H) as [s' ->]. by exists (String a s').
Qed.

(** Joining a relative part appends its components. *)
Lemma path_parts_join a b :
  is_absolute b = false → path_parts (posix_join a b) = path_parts a ++ path_parts b.
Proof.
  intros Hb. unfold posix_join. rewrite Hb.
  destruct (bool_decide (a = "")) eqn:Ea; cbn [orb].
  { apply bool_decide_eq_true in Ea as ->. done. }
  destruct (bool_decide (last_char a = Some slash)) eqn:Es; [|apply path_parts_sep].
  apply bool_decide_eq_true, last_char_app in Es as [a' ->]. rewrite <-append_assoc.
  change (String slash "" +:+ b) with (String slash b). rewrite !path_parts_sep.
  change (path_parts "") with (@nil string). by rewrite app_nil_r.
Qed.

(** ** Decimal numbers *)

Lemma pretty_N_char_digit x : is_digit (pretty_N_char x) = true.
Proof. unfold pretty_N_char. by repeat case_match. Qed.

Lemma pretty_N_go_digits x : ∀ s,
  all_chars is_digit s = true → all_chars is_digit (pretty_N_go x s) = true.
Proof.
  induction (N.lt_wf_0 x) as [x _ IH]; intros s Hs.
  destruct (decide (x = 0)%N) as [->|Hx]; [by rewrite pretty_N_go_0|].
  rewrite pretty_N_go_step by lia. apply IH; [apply N.div_lt; lia|].
  simpl. by rewrite pretty_N_char_digit, Hs.
Qed.

Lemma pretty_digits n : 0 <= n → all_chars is_digit (pretty n) = true.
Proof.
  intros Hn. destruct n as [|p|p]; [done| |lia].
  change (pretty (Z.pos p)) with (pretty_N_go (N.pos p) ""). by apply pretty_N_go_digits.
Qed.

Lemma has_char_pretty c (z : Z) : c ≠ "-"%char → is_digit c = false → has_char c (pretty z) = false.
Proof.
  intros Hd Hc. destruct (Z.le_gt_cases 0 z) as [Hz|Hz].
  - by eapply all_chars_no_char, Hc; apply pretty_digits.
  - destruct z as [|p|p]; [lia..|].
    change (pretty (Z.neg p)) with (String "-"%char (pretty (Z.pos p))). cbn [has_char].
    rewrite bool_decide_eq_false_2 by done. cbn [orb].
    eapply all_chars_no_char, Hc. apply pretty_digits. lia.
Qed.

(** ** Splitting and joining *)

Lemma all_chars_split P c s :
  all_chars P s = true → Forall (λ p, all_chars P p = true) (split_on c s).
Proof.
  induction s as [|a s IH]; cbn [split_on all_chars]; [by repeat constructor|].
  intros [Ha Hs]%andb_true_iff. specialize (IH Hs). destruct (decide (a = c)); [by constructor|].
  destruct IH as [|p ps Hp Hps]; constructor; try done; cbn [all_chars]; by rewrite Ha.
Qed.

Lemma all_chars_join P sep ps :
  all_chars P sep = true → Forall (λ p, all_chars P p = true) ps → all_chars P (join sep ps) = true.
Proof.
  intros Hsep H. induction H as [|p ps Hp Hps IH]; [done|].
  destruct ps as [|q ps]; [done|].
  change (all_chars P (p +:+ sep +:+ join sep (q :: ps)) = true).
  by rewrite !all_chars_app, Hp, Hsep, IH.
Qed.

(** A name of plain characters that is no dot name is one component. *)
Lemma path_parts_single s :
  has_char slash s = false → s ≠ "" → s ≠ "." → path_parts s = [s].
Proof. intros Hs H1 H2. unfold path_parts. rewrite split_on_none by done. by rewrite filter_cons_True. Qed.

Lemma Forall_filtered {A} (P Q : A → Prop) `{∀ x, Decision (Q x)} l :
  Forall P l → Forall P (filter Q l).
Proof. rewrite !list.Forall_forall. intros H1 x [_ Hx]%list_elem_of_filter. auto. Qed.

(** ** Texts that an operation leaves alone *)

Lemma strip_left_id P a s : P a = false → strip_left P (String a s) = String a s.
Proof. intros Ha. cbn [strip_left]. by rewrite Ha. Qed.

Lemma strip_right_id P s : (∀ a, last_char s = Some a → P a = false) → strip_right P s = s.
Proof.
  induction s as [|a s IH]; intros H; [done|]. destruct s as [|b s].
  - simpl. by rewrite (H a eq_refl).
  - change (strip_right P (String a (String b s))) with
      (match strip_right P (String b s) with
       | EmptyString => if P a then "" else String a "" | t => String a t end).
    by rewrite IH by exact H.
Qed.

Lemma strip_right_app P s t : all_chars P t = true → strip_right P (s +:+ t) = strip_right P s.
Proof.
  intros Ht. induction s as [|a s IH].
  - change ("" +:+ t) with t. induction t as [|a t IH]; [done|]. cbn [all_chars] in Ht.
    apply andb_true_iff in Ht as [Ha Ht]. simpl. by rewrite (IH Ht), Ha.
  - change (String a s +:+ t) with (String a (s +:+ t)). simpl. by rewrite IH.
Qed.

Lemma strip_id P a s :
  P a = false → (∀ b, last_char (String a s) = Some b → P b = false) →
  strip P (String a s) = String a s.
Proof. intros Ha Hl. unfold strip. rewrite strip_left_id by done. by apply strip_right_id. Qed.

Lemma filter_chars_id P s : all_chars P s = true → filter_chars P s = s.
Proof.
  intros H. unfold filter_chars.
  rewrite filter_all_id; [by apply String.string_of_list_ascii_of_string|].
  induction s as [|a s IH]; [by intros x ?%elem_of_nil|]. apply andb_true_iff in H as [Ha Hs].
  intros x [->|Hx]%elem_of_cons; [done|]. by apply IH.
Qed.

Lemma sub_runs_none P c s : all_chars (λ a, negb (P a)) s = true → sub_runs P c s = s.
Proof.
  induction s as [|a s IH]; [done|]. intros [Ha Hs]%andb_true_iff. cbn [sub_runs].
  apply negb_true_iff in Ha as ->. by rewrite IH.
Qed.

Lemma string_take_all n s : (String.length s <= n)%nat → string_take n s = s.
Proof.
  revert n. induction s as [|a s IH]; intros [|n] H; simpl in *; try done; [lia|].
  rewrite IH; [done|lia].
Qed.

Lemma string_take_split n s : ∃ t, s = string_take n s +:+ t.
Proof.
  revert n. induction s as [|a s IH]; intros [|n]; [by exists ""|by exists ""|by exists (String a s)|].
  destruct (IH n) as [t Ht]. exists t. change (String a s = String a (string_take n s +:+ t)). by f_equal.
Qed.

(** A character outside the class survives stripping. *)
Lemma strip_nonempty P s a : has_char a s = true → P a = false → strip P s ≠ "".
Proof.
  intros Hs Ha. assert (has_char a (strip_left P s) = true) as Hl.
  { induction s as [|b s IH]; [done|]. cbn [strip_left]. destruct (P b) eqn:Eb; [|done].
    apply IH. cbn [has_char] in Hs. case_bool_decide; [congruence|done]. }
  unfold strip. revert Hl. generalize (strip_left P s). clear s Hs. intros s.
  induction s as [|b s IH]; [done|]. cbn [has_char strip_right]. intros H.
  destruct (strip_right P s) eqn:E; [|done].
  case_bool_decide as Hab; [subst; by rewrite Ha|]. by destruct IH.
Qed.

Lemma last_char_has s a : last_char s = Some a → has_char a s = true.
Proof.
  induction s as [|b s IH]; [done|]. destruct s as [|c s].
  - intros [= ->]. cbn [has_char]. by rewrite bool_decide_eq_true_2.
  - intros H. cbn [has_char]. apply orb_true_iff. right. by apply IH.
Qed.

(** The first part of a text that has a second one. *)
Lemma split_on_head c s t p q ps :
  split_on c s = p :: q :: ps → ∃ qs, split_on c (s +:+ t) = p :: qs.
Proof.
  revert p q ps. induction s as [|a s IH]; intros p q ps; [done|].
  change (String a s +:+ t) with (String a (s +:+ t)). cbn [split_on].
  destruct (decide (a = c)) as [->|Hac]; [intros [= <- _]; by eexists|].
  destruct (split_on_cons c s) as (p1 & ps1 & E). rewrite E. intros [= <- ->].
  destruct (IH _ _ _ E) as [qs ->]. by eexists.
Qed.

(** If all parts of a text are good, so are those of a prefix whose last part is. *)
Lemma split_on_prefix (G : string → Prop) c s t :
  (∀ p, list.last (split_on c s) = Some p → G p) →
  Forall G (split_on c (s +:+ t)) → Forall G (split_on c s).
Proof.
  intros Hlast Hall.
  assert (Forall G (tail (split_on c s))) as Htail.
  { assert (Forall G (tail (split_on c (s +:+ t)))) as Ht
      by (destruct (split_on c (s +:+ t)); [done|by apply list.Forall_cons in Hall as [_ ?]]).
    clear Hall. induction s as [|a s IH]; [constructor|].
    change (String a s +:+ t) with (String a (s +:+ t)) in Ht. cbn [split_on] in Ht, Hlast |- *.
    destruct (split_on_cons c s) as (p & ps & E). destruct (decide (a = c)) as [->|Hac].
    - cbn [tail] in *. rewrite E in *. destruct ps as [|q ps]; [constructor; [by apply Hlast|done]|].
      destruct (split_on_head c s t p q ps E) as [qs Eq]. rewrite Eq in Ht, IH.
      apply list.Forall_cons in Ht as [Hp Hqs]. constructor; [done|]. by apply IH.
    - destruct (split_on_cons c (s +:+ t)) as (p' & ps' & E').
      rewrite E, E' in *. cbn [tail] in *. destruct ps as [|q ps]; [constructor|]. by apply IH. }
  destruct (split_on_cons c s) as (p & ps & E). rewrite E in *.
  destruct ps as [|q ps]; [constructor; [by apply Hlast|constructor]|].
  destruct (split_on_head c s t p q ps E) as [qs Eq]. rewrite Eq in Hall.
  apply list.Forall_cons in Hall as [Hp _]. by constructor.
Qed.

Lemma split_on_suffix c u t :
  has_char c u = false → ∃ w, list.last (split_on c (t +:+ u)) = Some (w +:+ u).
Proof.
  intros Hu. induction t as [|a t IH].
  - exists "". change ("" +:+ u) with u. by rewrite split_on_none.
  - change (String a t +:+ u) with (String a (t +:+ u)). cbn [split_on].
    destruct (split_on_cons c (t +:+ u)) as (p & ps & E). rewrite E in IH |- *.
    destruct IH as [w Hw]. destruct (decide (a = c)).
    + exists w. by destruct ps.
    + destruct ps as [|q ps]; [|by exists w]. injection Hw as ->. by exists (String a w).
Qed.

(** The last part ends as the text does. *)
Lemma split_on_last c s p a :
  list.last (split_on c s) = Some p → last_char s = Some a → a ≠ c → last_char p = Some a.
Proof.
  revert p. induction s as [|b s IH]; intros p; [done|]. cbn [split_on].
  destruct (split_on_cons c s) as (q & ps & E). destruct (decide (b = c)) as [->|Hb].
  - destruct s as [|d s]; [intros _ [= ->]; done|].
    intros Hp Ha Hac. apply IH; [|done|done]. rewrite E in Hp |- *. exact Hp.
  - rewrite E in IH |- *. destruct ps as [|q' ps].
    + intros [= <-] Ha _. pose proof (join_split c s) as Hs. rewrite E in Hs. simpl in Hs. by rewrite Hs.
    + intros Hp Ha Hac. apply IH; [exact Hp| |done]. destruct s; [done|exact Ha].
Qed.
