(* ===== verification/Hashing.v ===== *)
(** * SHA-256: [services/hashing.py] and [hashlib.sha256]

    FIPS 180-4 on 32-bit words held as [Z], executable, with the hexadecimal
    digest of the standard library.  The schedulers derive their jitter from
    it and the pipeline compares configurations by it. *)

From Stdlib Require Import ZArith Lia.
From Stdlib Require Import Strings.Byte Strings.Ascii.
From stdpp Require Import base list strings.
From S2P Require Import Prelude.
#[local] Open Scope string_scope.
#[local] Open Scope list_scope.
#[local] Open Scope Z_scope.

Abbreviation bytes := (list byte).

#[export] Instance byte_eq_decision : EqDecision byte := Byte.byte_eq_dec.

Definition byte_to_Z (b : byte) : Z := Z.of_N (Byte.to_N b).
Definition Z_to_byte (z : Z) : byte :=
  default x00 (Byte.of_N (Z.to_N (z mod 256))).

(** [s.encode()]: strings hold their UTF-8 bytes. *)
Definition encode (s : string) : bytes := String.list_byte_of_string s.

Definition w32 (z : Z) : Z := z mod 4294967296.
Definition rotr (n x : Z) : Z :=
  Z.lor (Z.shiftr x n) (w32 (Z.shiftl x (32 - n))).
Definition ch (x y z : Z) : Z := Z.lxor (Z.land x y) (Z.land (Z.lxor x 4294967295) z).
Definition maj (x y z : Z) : Z :=
  Z.lxor (Z.lxor (Z.land x y) (Z.land x z)) (Z.land y z).
Definition big_sigma0 x := Z.lxor (Z.lxor (rotr 2 x) (rotr 13 x)) (rotr 22 x).
Definition big_sigma1 x := Z.lxor (Z.lxor (rotr 6 x) (rotr 11 x)) (rotr 25 x).
Definition small_sigma0 x := Z.lxor (Z.lxor (rotr 7 x) (rotr 18 x)) (Z.shiftr x 3).
Definition small_sigma1 x := Z.lxor (Z.lxor (rotr 17 x) (rotr 19 x)) (Z.shiftr x 10).

(** The constants: the first 32 bits of the fractional parts of the cube roots
    of the first 64 primes and of the square roots of the first eight. *)
Definition small_primes : list Z :=
  filter (λ p, forallb (λ d, negb (p mod d =? 0)) (seqZ 2 (p - 2)) = true) (seqZ 2 310).

Definition cube_root (n : Z) : Z :=
  fold_left (λ x i, if (x + 2 ^ i) ^ 3 <=? n then x + 2 ^ i else x) (rev (seqZ 0 40)) 0.

Definition sha256_k : list Z :=
  Eval vm_compute in map (λ p, w32 (cube_root (p * 2 ^ 96))) small_primes.
Definition sha256_iv : list Z :=
  Eval vm_compute in map (λ p, w32 (Z.sqrt (p * 2 ^ 64))) (take 8 small_primes).

(** The message schedule, newest word first. *)
Fixpoint extend (n : nat) (w : list Z) : list Z :=
  match n with
  | O => w
  | S n' =>
      extend n' (w32 (small_sigma1 (nth 1 w 0) + nth 6 w 0
                      + small_sigma0 (nth 14 w 0) + nth 15 w 0) :: w)
  end.

Definition round (s : list Z) (kw : Z * Z) : list Z :=
  match s with
  | [a; b; c; d; e; f; g; h] =>
      let t1 := h + big_sigma1 e + ch e f g + kw.1 + kw.2 in
      let t2 := big_sigma0 a + maj a b c in
      [w32 (t1 + t2); a; b; c; w32 (d + t1); e; f; g]
  | _ => s
  end.

Definition compress (h block : list Z) : list Z :=
  let w := rev (extend 48 (rev block)) in
  zip_with (λ x y, w32 (x + y)) h (fold_left round (zip sha256_k w) h).

(** Big-endian number of a list of bytes, and the [n] bytes of a number. *)
Definition be_number (l : list Z) : Z := fold_left (λ acc b, acc * 256 + b) l 0.
Fixpoint be_bytes (n : nat) (z : Z) : list Z :=
  match n with
  | O => []
  | S n' => Z.shiftr z (8 * Z.of_nat n') mod 256 :: be_bytes n' z
  end.

Definition pad (m : list Z) : list Z :=
  let n := Z.of_nat (length m) in
  m ++ 128 :: replicate (Z.to_nat ((55 - n) mod 64)) 0 ++ be_bytes 8 (8 * n).

(** Consecutive pieces of [n] elements; the fuel bounds their number. *)
Fixpoint chunks {A} (fuel n : nat) (l : list A) : list (list A) :=
  match fuel, l with
  | S fuel', _ :: _ => take n l :: chunks fuel' n (drop n l)
  | _, _ => []
  end.

Definition sha256_words (m : list Z) : list Z :=
  let p := pad m in
  fold_left compress
    (map (λ b, map be_number (chunks 16 4 b)) (chunks (length p) 64 p)) sha256_iv.

(** [sha256(content).digest()] *)
Definition sha256 (m : bytes) : list Z :=
  flat_map (be_bytes 4) (sha256_words (map byte_to_Z m)).

Definition hex_digit (z : Z) : ascii :=
  ascii_of_N (Z.to_N (if z <? 10 then 48 + z else 87 + z)).
Fixpoint hexlify (l : list Z) : string :=
  match l with
  | [] => ""
  | b :: l' => String (hex_digit (b / 16)) (String (hex_digit (b mod 16)) (hexlify l'))
  end.

(* src: services/hashing.py 4 5 sha256_hex *)
Definition sha256_hex (content : bytes) : string := hexlify (sha256 content).

Example sha256_empty :
  sha256_hex [] = "e3b0c44298fc1c149afbf4c8996fb92427ae41e4649b934ca495991b7852b855".
Proof. vm_compute. reflexivity. Qed.

Example sha256_abc :
  sha256_hex (encode "abc") = "ba7816bf8f01cfea414140de5dae2223b00361a396177a9cb410ff61f20015ad".
Proof. vm_compute. reflexivity. Qed.

Example sha256_two_blocks :
  sha256_hex (encode "abcdbcdecdefdefgefghfghighijhijkijkljklmklmnlmnomnopnopq")
  = "248d6a61d20638b8e5c026930c3e6039a33ce45964ff2167f6ecedd419db06c1".
Proof. vm_compute. reflexivity. Qed.

(** ** Facts *)

Lemma be_bytes_length n z : length (be_bytes n z) = n.
Proof. induction n; simpl; congruence. Qed.

Lemma be_number_nonneg l acc :
  Forall (λ b, 0 <= b) l → 0 <= acc → 0 <= fold_left (λ acc b, acc * 256 + b) l acc.
Proof. intros H. revert acc. induction H; intros acc Ha; simpl; [done|]. apply IHForall. lia. Qed.

Lemma be_bytes_range n z : Forall (λ b, 0 <= b < 256) (be_bytes n z).
Proof. induction n; simpl; constructor; [|done]. apply Z.mod_pos_bound. lia. Qed.

Lemma sha256_range m : Forall (λ b, 0 <= b < 256) (sha256 m).
Proof.
  unfold sha256. induction (sha256_words _); simpl; [constructor|].
  change (Forall (λ b, 0 <= b < 256) (be_bytes 4 a ++ flat_map (be_bytes 4) l)).
  apply Forall_app. split; [apply be_bytes_range|done].
Qed.

Lemma round_length s kw : length s = 8%nat → length (round s kw) = 8%nat.
Proof. intros H. do 9 (destruct s as [|? s]; try done). Qed.

Lemma rounds_length l s : length s = 8%nat → length (fold_left round l s) = 8%nat.
Proof. revert s. induction l; intros s H; simpl; [done|]. by apply IHl, round_length. Qed.

Lemma compress_length h b : length h = 8%nat → length (compress h b) = 8%nat.
Proof. intros H. unfold compress. rewrite length_zip_with, rounds_length by done. lia. Qed.

Lemma sha256_words_length m : length (sha256_words m) = 8%nat.
Proof.
  unfold sha256_words. generalize (chunks (length (pad m)) 64 (pad m)).
  assert (∀ l h, length h = 8%nat → length (fold_left compress l h) = 8%nat) as H.
  { induction l; intros h Hh; simpl; [done|]. by apply IHl, compress_length. }
  intros l. by apply H.
Qed.

Lemma sha256_length m : length (sha256 m) = 32%nat.
Proof.
  unfold sha256. pose proof (sha256_words_length (map byte_to_Z m)) as H.
  revert H. generalize (sha256_words (map byte_to_Z m)). intros l H.
  do 9 (destruct l as [|? l]; try done).
Qed.

Lemma hexlify_length l : String.length (hexlify l) = (2 * length l)%nat.
Proof. induction l; simpl; lia. Qed.

(** A digest is 64 characters, the width of the [raw_hash] columns. *)
Lemma sha256_hex_length m : String.length (sha256_hex m) = 64%nat.
Proof. unfold sha256_hex. by rewrite hexlify_length, sha256_length. Qed.
