(* ===== verification/Json.v ===== *)
(** * JSON: what the code uses of Python's [json] module

    [json.dumps(value, sort_keys=True, separators=(",", ":"))] and
    [json.loads(text, object_pairs_hook=...)] on UTF-8 text, with the scanner
    of the standard library: escapes, surrogate pairs, numbers, its limits on
    digits and on nesting.  Reading what was written gives the value back. *)

From Stdlib Require Import ZArith Lia Strings.Ascii.
From stdpp Require Import base gmap list strings pretty numbers.
From S2P Require Import Prelude Strings Text Hashing.
#[local] Open Scope string_scope.
#[local] Open Scope list_scope.
#[local] Open Scope Z_scope.

(** ** Values

    A number with a fraction or an exponent is held by its literal. *)
Inductive json :=
  | JNull
  | JBool (b : bool)
  | JNumber (n : Z)
  | JFloat (literal : string)
  | JString (s : string)
  | JList (l : list json)
  | JObject (fields : list (string * json)).

Section json_ind.
Context (P : json → Prop).
Context (Hnull : P JNull) (Hbool : ∀ b, P (JBool b)) (Hnum : ∀ n, P (JNumber n)).
Context (Hfloat : ∀ s, P (JFloat s)) (Hstr : ∀ s, P (JString s)).
Context (Hlist : ∀ l, Forall P l → P (JList l)).
Context (Hobj : ∀ f, Forall (λ kv, P kv.2) f → P (JObject f)).

Fixpoint json_nested_ind (v : json) : P v :=
  match v with
  | JNull => Hnull | JBool b => Hbool b | JNumber n => Hnum n | JFloat s => Hfloat s
  | JString s => Hstr s
  | JList l => Hlist l ((fix go l : Forall P l :=
      match l with
      | [] => Forall_nil_2 _
      | x :: l' => Forall_cons_2 _ _ _ (json_nested_ind x) (go l')
      end) l)
  | JObject f => Hobj f ((fix go f : Forall (λ kv, P kv.2) f :=
      match f with
      | [] => Forall_nil_2 _
      | (k, x) :: f' => Forall_cons_2 _ (k, x) _ (json_nested_ind x) (go f')
      end) f)
  end.
End json_ind.

(** ** UTF-8 *)

Definition code (a : ascii) : Z := Z.of_N (N_of_ascii a).
Definition chr (z : Z) : ascii := ascii_of_N (Z.to_N z).

(** The bytes of a code point; a lone surrogate gets three bytes too. *)
Definition utf8_char (z : Z) : string :=
  if z <? 128 then String (chr z) ""
  else if z <? 2048 then String (chr (192 + z / 64)) (String (chr (128 + z mod 64)) "")
  else if z <? 65536 then
    String (chr (224 + z / 4096))
      (String (chr (128 + z / 64 mod 64)) (String (chr (128 + z mod 64)) ""))
  else
    String (chr (240 + z / 262144)) (String (chr (128 + z / 4096 mod 64))
      (String (chr (128 + z / 64 mod 64)) (String (chr (128 + z mod 64)) ""))).

Definition is_scalar (z : Z) : bool :=
  (0 <=? z) && (z <? 55296) || (57344 <=? z) && (z <? 1114112).

(** [bytes.decode("utf-8")]: the code points, or nothing on an error. *)
Fixpoint utf8_decode (s : string) : option (list Z) :=
  match s with
  | EmptyString => Some []
  | String a s1 =>
      if code a <? 128 then cons (code a) <$> utf8_decode s1
      else match s1 with
      | EmptyString => None
      | String b s2 =>
          let v2 := (code a - 192) * 64 + (code b - 128) in
          if (192 <=? code a) && (code a <? 224) && is_continuation b && (128 <=? v2)
          then cons v2 <$> utf8_decode s2
          else match s2 with
          | EmptyString => None
          | String c s3 =>
              let v3 := (code a - 224) * 4096 + (code b - 128) * 64 + (code c - 128) in
              if (224 <=? code a) && (code a <? 240) && is_continuation b && is_continuation c
                 && (2048 <=? v3) && is_scalar v3
              then cons v3 <$> utf8_decode s3
              else match s3 with
              | EmptyString => None
              | String d s4 =>
                  let v4 := (code a - 240) * 262144 + (code b - 128) * 4096
                            + (code c - 128) * 64 + (code d - 128) in
                  if (240 <=? code a) && (code a <? 248) && is_continuation b
                     && is_continuation c && is_continuation d
                     && (65536 <=? v4) && is_scalar v4
                  then cons v4 <$> utf8_decode s4
                  else None
              end
          end
      end
  end.

Definition concat_map {A} (f : A → string) (l : list A) : string :=
  foldr (λ x acc, f x +:+ acc) "" l.

Lemma code_range a : 0 <= code a < 256.
Proof. unfold code. pose proof (N_ascii_bounded a). lia. Qed.
Lemma chr_code a : chr (code a) = a.
Proof. unfold chr, code. rewrite N2Z.id. apply ascii_N_embedding. Qed.
Lemma code_chr z : 0 <= z < 256 → code (chr z) = z.
Proof. intros Hz. unfold code, chr. rewrite N_ascii_embedding by lia. lia. Qed.
Lemma chr_eq a z : code a = z → chr z = a.
Proof. intros <-. apply chr_code. Qed.
Lemma continuation_code a : is_continuation a = true → 128 <= code a < 192.
Proof. unfold is_continuation, char_between, code. rewrite andb_true_iff, !N.leb_le. lia. Qed.

Lemma utf8_decode_encode s : ∀ cs, utf8_decode s = Some cs →
  s = concat_map utf8_char cs ∧ Forall (λ z, is_scalar z = true) cs.
Proof.
  induction s as [s IH] using (well_founded_induction
    (well_founded_ltof _ String.length)). unfold ltof in IH.
  assert (∀ z t rest cs', utf8_decode rest = Some cs' → (String.length rest < String.length s)%nat →
    s = t +:+ rest → utf8_char z = t → is_scalar z = true →
    s = concat_map utf8_char (z :: cs') ∧ Forall (λ z, is_scalar z = true) (z :: cs')) as Hstep.
  { intros z t rest cs' Hr Hl -> <- Hz. destruct (IH rest Hl cs' Hr) as [-> Hall].
    split; [done|by constructor]. }
  destruct s as [|a s1]; intros cs Hd; [injection Hd as <-; by split|]. cbn [utf8_decode] in Hd.
  pose proof (code_range a) as Ha.
  destruct (Z.ltb_spec (code a) 128) as [Ha1|Ha1].
  { destruct (utf8_decode s1) as [cs'|] eqn:E; [|done]. injection Hd as <-.
    eapply Hstep; [exact E|simpl; lia| | |unfold is_scalar; lia]; [|reflexivity].
    unfold utf8_char. destruct (Z.ltb_spec (code a) 128); [|lia]. by rewrite chr_code. }
  destruct s1 as [|b s2]; [done|]. cbv zeta in Hd.
  destruct (_ && _) eqn:E2 in Hd.
  { rewrite !andb_true_iff in E2. destruct E2 as (((? & ?) & Hb%continuation_code) & ?).
    destruct (utf8_decode s2) as [cs'|] eqn:E; [|done]. injection Hd as <-.
    eapply Hstep; [exact E|simpl; lia| |reflexivity|unfold is_scalar; lia].
    unfold utf8_char. destruct (Z.ltb_spec ((code a - 192) * 64 + (code b - 128)) 128); [lia|].
    destruct (Z.ltb_spec ((code a - 192) * 64 + (code b - 128)) 2048); [|lia].
    simpl. rewrite (chr_eq a), (chr_eq b); [done|Z.div_mod_to_equations; lia..]. }
  clear E2. destruct s2 as [|c s3]; [done|].
  destruct (_ && _) eqn:E3 in Hd.
  { rewrite !andb_true_iff in E3.
    destruct E3 as (((((? & ?) & Hb%continuation_code) & Hc%continuation_code) & ?) & Hs).
    destruct (utf8_decode s3) as [cs'|] eqn:E; [|done]. injection Hd as <-.
    eapply Hstep; [exact E|simpl; lia| |reflexivity|exact Hs].
    unfold utf8_char.
    set (v := (code a - 224) * 4096 + (code b - 128) * 64 + (code c - 128)) in *.
    destruct (Z.ltb_spec v 128); [lia|]. destruct (Z.ltb_spec v 2048); [lia|].
    destruct (Z.ltb_spec v 65536); [|lia].
    simpl. rewrite (chr_eq a), (chr_eq b), (chr_eq c); [done|Z.div_mod_to_equations; lia..]. }
  clear E3. destruct s3 as [|d s4]; [done|].
  destruct (_ && _) eqn:E4 in Hd; [|done].
  rewrite !andb_true_iff in E4.
  destruct E4 as ((((((? & ?) & Hb%continuation_code) & Hc%continuation_code)
    & Hdd%continuation_code) & ?) & Hs).
  destruct (utf8_decode s4) as [cs'|] eqn:E; [|done]. injection Hd as <-.
  eapply Hstep; [exact E|simpl; lia| |reflexivity|exact Hs].
  unfold utf8_char.
  set (v := (code a - 240) * 262144 + (code b - 128) * 4096 + (code c - 128) * 64 + (code d - 128)) in *.
  destruct (Z.ltb_spec v 128); [lia|]. destruct (Z.ltb_spec v 2048); [lia|].
  destruct (Z.ltb_spec v 65536); [lia|].
  simpl. rewrite (chr_eq a), (chr_eq b), (chr_eq c), (chr_eq d);
    [done|Z.div_mod_to_equations; lia..].
Qed.

(** ** Writing *)

Definition quote : ascii := chr 34.

Definition hex4 (z : Z) : string :=
  String (hex_digit (z / 4096 mod 16)) (String (hex_digit (z / 256 mod 16))
    (String (hex_digit (z / 16 mod 16)) (String (hex_digit (z mod 16)) ""))).
Definition u_escape (z : Z) : string := String backslash (String "u" (hex4 z)).

(** [ensure_ascii]: everything but printable ASCII is escaped. *)
Definition escape_char (z : Z) : string :=
  if z =? 34 then String backslash (String quote "")
  else if z =? 92 then String backslash (String backslash "")
  else if z =? 8 then String backslash "b"
  else if z =? 9 then String backslash "t"
  else if z =? 10 then String backslash "n"
  else if z =? 12 then String backslash "f"
  else if z =? 13 then String backslash "r"
  else if (32 <=? z) && (z <? 127) then String (chr z) ""
  else if z <? 65536 then u_escape z
  else u_escape (55296 + (z - 65536) / 1024) +:+ u_escape (56320 + (z - 65536) mod 1024).

Definition print_string (s : string) : string :=
  String quote (concat_map escape_char (default [] (utf8_decode s)) +:+ String quote "").

(** [",".join(parts)] of what the elements print to. *)
Fixpoint print (v : json) : string :=
  match v with
  | JNull => "null"
  | JBool b => if b then "true" else "false"
  | JNumber n => pretty n
  | JFloat literal => literal
  | JString s => print_string s
  | JList l => "[" +:+ join "," ((fix go l := match l with
                                 | [] => [] | x :: l' => print x :: go l' end) l) +:+ "]"
  | JObject f => "{" +:+ join "," ((fix go f := match f with
                  | [] => [] | (k, x) :: f' => (print_string k +:+ ":" +:+ print x) :: go f'
                  end) f) +:+ "}"
  end.

(** The fields in the order of their names. *)
Fixpoint sort_keys (v : json) : json :=
  match v with
  | JList l => JList (map sort_keys l)
  | JObject f => JObject (sort_by (λ x y, string_leb x.1 y.1)
                            (map (λ kv, (kv.1, sort_keys kv.2)) f))
  | v => v
  end.

Definition dumps (v : json) : string := print (sort_keys v).

(** ** Reading *)

Definition JSONDecodeError {A} : result A := Err (ValueError "JSONDecodeError").

Definition hex_value (a : ascii) : option Z :=
  if is_digit a then Some (code a - 48)
  else if char_between 97 102 a then Some (code a - 87)
  else if char_between 65 70 a then Some (code a - 55)
  else None.

Definition read_hex4 (a b c d : ascii) : option Z :=
  a ← hex_value a; b ← hex_value b; c ← hex_value c; d ← hex_value d;
  Some (4096 * a + 256 * b + 16 * c + d).

Definition plain_escape (a : ascii) : option Z :=
  if bool_decide (a = quote) then Some 34
  else if bool_decide (a = backslash) then Some 92
  else if bool_decide (a = slash) then Some 47
  else if bool_decide (a = "b"%char) then Some 8
  else if bool_decide (a = "f"%char) then Some 12
  else if bool_decide (a = "n"%char) then Some 10
  else if bool_decide (a = "r"%char) then Some 13
  else if bool_decide (a = "t"%char) then Some 9
  else None.

Definition prepend (t : string) (r : result (string * string)) : result (string * string) :=
  '(s, rest) ← r; Ok (t +:+ s, rest).

(** After the opening quote: the text, and what follows the closing one. *)
Fixpoint scan_string (s : string) : result (string * string) :=
  match s with
  | EmptyString => JSONDecodeError
  | String a s1 =>
      if bool_decide (a = quote) then Ok ("", s1)
      else if bool_decide (a = backslash) then
        match s1 with
        | EmptyString => JSONDecodeError
        | String e s2 =>
            if bool_decide (e = "u"%char) then
              match s2 with
              | String h1 (String h2 (String h3 (String h4 s3))) =>
                  match read_hex4 h1 h2 h3 h4 with
                  | None => JSONDecodeError
                  | Some u =>
                      match s3 with
                      | String b (String e' (String k1 (String k2 (String k3 (String k4 s4))))) =>
                          if (55296 <=? u) && (u <? 56320)
                             && bool_decide (b = backslash) && bool_decide (e' = "u"%char)
                          then match read_hex4 k1 k2 k3 k4 with
                               | None => JSONDecodeError
                               | Some v =>
                                   if (56320 <=? v) && (v <? 57344)
                                   then prepend (utf8_char (65536 + (u - 55296) * 1024 + (v - 56320)))
                                          (scan_string s4)
                                   else prepend (utf8_char u) (scan_string s3)
                               end
                          else prepend (utf8_char u) (scan_string s3)
                      | _ => prepend (utf8_char u) (scan_string s3)
                      end
                  end
              | _ => JSONDecodeError
              end
            else match plain_escape e with
                 | Some z => prepend (utf8_char z) (scan_string s2)
                 | None => JSONDecodeError
                 end
        end
      else if code a <? 32 then JSONDecodeError
      else prepend (String a "") (scan_string s1)
  end.

Fixpoint span (P : ascii → bool) (s : string) : string * string :=
  match s with
  | String a s' => if P a then let '(t, r) := span P s' in (String a t, r) else ("", s)
  | EmptyString => ("", "")
  end.

Fixpoint digits_value (acc : Z) (s : string) : Z :=
  match s with
  | EmptyString => acc
  | String a s' => digits_value (10 * acc + (code a - 48)) s'
  end.

(** The optional part that starts with [P], then digits; [sign] allows one. *)
Definition scan_suffix (P : ascii → bool) (sign : bool) (s : string) : string * string :=
  match s with
  | String a s1 =>
      if P a then
        let '(sg, s2) := match s1 with
          | String b s2 => if sign && char_in "+-" b then (String b "", s2) else ("", s1)
          | EmptyString => ("", s1)
          end in
        let '(ds, r) := span is_digit s2 in
        if bool_decide (ds = "") then ("", s) else (String a (sg +:+ ds), r)
      else ("", s)
  | EmptyString => ("", s)
  end.

(** [sys.get_int_max_str_digits()] *)
Definition max_str_digits : nat := 4300.

Fixpoint strip_prefix (p s : string) : option string :=
  match p, s with
  | EmptyString, _ => Some s
  | String a p', String b s' => if bool_decide (a = b) then strip_prefix p' s' else None
  | _, _ => None
  end.

Definition scan_sign (s : string) : bool * string :=
  match strip_prefix "-" s with Some r => (true, r) | None => (false, s) end.

(** [0], or digits that do not start with it. *)
Definition scan_integer (s : string) : string * string :=
  match strip_prefix "0" s with Some r => ("0", r) | None => span is_digit s end.

Definition number_value (minus : bool) (ds s : string) : result (json * string) :=
  if bool_decide (ds = "") then JSONDecodeError
  else
    let '(fraction, s3) := scan_suffix (char_in ".") false s in
    let '(exponent, s4) := scan_suffix (char_in "eE") true s3 in
    if bool_decide (fraction = "") && bool_decide (exponent = "") then
      if (max_str_digits <? String.length ds)%nat then Err (ValueError "int limit")
      else Ok (JNumber (if minus then - digits_value 0 ds else digits_value 0 ds), s)
    else Ok (JFloat ((if minus then "-" else "") +:+ ds +:+ fraction +:+ exponent), s4).

Definition scan_number (s : string) : result (json * string) :=
  let '(minus, s1) := scan_sign s in
  let '(ds, s2) := scan_integer s1 in
  number_value minus ds s2.

Definition is_json_space : ascii → bool := λ a, bool_decide (code a ∈ [32; 9; 10; 13]).
Definition skip_space : string → string := strip_left is_json_space.

Section containers.
Context (value : string → result (json * string)).

(** The elements up to the closing bracket; each takes a character, so the
    length of the text is fuel enough. *)
Fixpoint scan_elements (fuel : nat) (s : string) : result (list json * string) :=
  match fuel with
  | O => JSONDecodeError
  | S fuel =>
      '(v, s1) ← value s;
      match skip_space s1 with
      | String c s2 =>
          if bool_decide (c = "]"%char) then Ok ([v], s2)
          else if bool_decide (c = ","%char) then
            '(l, s3) ← scan_elements fuel (skip_space s2); Ok (v :: l, s3)
          else JSONDecodeError
      | EmptyString => JSONDecodeError
      end
  end.

Fixpoint scan_members (fuel : nat) (s : string) : result (list (string * json) * string) :=
  match fuel with
  | O => JSONDecodeError
  | S fuel =>
      match s with
      | String q s0 =>
          if negb (bool_decide (q = quote)) then JSONDecodeError
          else
            '(k, s1) ← scan_string s0;
            match skip_space s1 with
            | String c s2 =>
                if negb (bool_decide (c = ":"%char)) then JSONDecodeError
                else
                  '(v, s3) ← value (skip_space s2);
                  match skip_space s3 with
                  | String c s4 =>
                      if bool_decide (c = "}"%char) then Ok ([(k, v)], s4)
                      else if bool_decide (c = ","%char) then
                        '(l, s5) ← scan_members fuel (skip_space s4); Ok ((k, v) :: l, s5)
                      else JSONDecodeError
                  | EmptyString => JSONDecodeError
                  end
            | EmptyString => JSONDecodeError
            end
      | EmptyString => JSONDecodeError
      end
  end.
End containers.

(** [object_pairs_hook=unique_json_object] *)
(* src: services/ftp_helpers.py 13 22 unique_json_object *)
Definition unique_json_object (pairs : list (string * json)) : result json :=
  if bool_decide (NoDup pairs.*1) then Ok (JObject pairs)
  else Err (ValueError "Duplicate JSON key").

(** [depth] is how deep containers may nest before [RecursionError]. *)
Fixpoint scan_value (depth : nat) (s : string) : result (json * string) :=
  match s with
  | EmptyString => JSONDecodeError
  | String a s1 =>
      if bool_decide (a = quote) then '(t, r) ← scan_string s1; Ok (JString t, r)
      else if bool_decide (a = "{"%char) then
        match depth with
        | O => Err RuntimeError
        | S depth =>
            let s2 := skip_space s1 in
            match strip_prefix "}" s2 with
            | Some r => v ← unique_json_object []; Ok (v, r)
            | None =>
                '(pairs, r) ← scan_members (scan_value depth) (S (String.length s2)) s2;
                v ← unique_json_object pairs; Ok (v, r)
            end
        end
      else if bool_decide (a = "["%char) then
        match depth with
        | O => Err RuntimeError
        | S depth =>
            let s2 := skip_space s1 in
            match strip_prefix "]" s2 with
            | Some r => Ok (JList [], r)
            | None =>
                '(l, r) ← scan_elements (scan_value depth) (S (String.length s2)) s2;
                Ok (JList l, r)
            end
        end
      else
        match strip_prefix "null" s, strip_prefix "true" s, strip_prefix "false" s with
        | Some r, _, _ => Ok (JNull, r)
        | _, Some r, _ => Ok (JBool true, r)
        | _, _, Some r => Ok (JBool false, r)
        | None, None, None =>
            match strip_prefix "NaN" s, strip_prefix "Infinity" s, strip_prefix "-Infinity" s with
            | Some r, _, _ => Ok (JFloat "NaN", r)
            | _, Some r, _ => Ok (JFloat "Infinity", r)
            | _, _, Some r => Ok (JFloat "-Infinity", r)
            | None, None, None => scan_number s
            end
        end
  end.

(** [json.loads(text, object_pairs_hook=unique_json_object)] *)
Definition loads (depth : nat) (s : string) : result json :=
  '(v, r) ← scan_value depth (skip_space s);
  if bool_decide (skip_space r = "") then Ok v else JSONDecodeError.

Example loads_example :
  loads 2 (String quote ("a" +:+ String backslash "u00e9" +:+ String quote "")) =
    Ok (JString ("a" +:+ utf8_char 233)).
Proof. reflexivity. Qed.
Example dumps_example :
  dumps (JObject [("b", JList [JNumber (-12); JNull]); ("a", JBool true)]) =
  "{" +:+ String quote ("a" +:+ String quote ":true," +:+ String quote ("b" +:+ String quote ":[-12,null]}")).
Proof. vm_compute. reflexivity. Qed.
Example loads_dumps_example :
  let v := JObject [("a", JBool true); ("b", JList [JNumber (-12); JFloat "1.5e3"; JObject []])] in
  loads 3 (dumps v) = Ok v ∧ loads 2 (dumps v) = Err RuntimeError.
Proof. vm_compute. by split. Qed.

(** ** Reading what was written *)

(** Values whose texts are well formed: valid UTF-8, distinct names, and
    integers within the limit on digits. *)
Fixpoint printable (v : json) : Prop :=
  match v with
  | JNull | JBool _ => True
  | JNumber n => (String.length (pretty n) <= max_str_digits)%nat
  | JFloat _ => False
  | JString s => is_Some (utf8_decode s)
  | JList l => (fix go l := match l with [] => True | x :: l' => printable x ∧ go l' end) l
  | JObject f => NoDup f.*1 ∧
      (fix go f := match f with
        | [] => True | (k, x) :: f' => is_Some (utf8_decode k) ∧ printable x ∧ go f' end) f
  end.

Fixpoint nesting (v : json) : nat :=
  match v with
  | JList l => S ((fix go l := match l with [] => O | x :: l' => Nat.max (nesting x) (go l') end) l)
  | JObject f => S ((fix go f := match f with
                      | [] => O | (_, x) :: f' => Nat.max (nesting x) (go f') end) f)
  | _ => O
  end.

(** What may follow a value. *)
Definition stops (rest : string) : Prop :=
  match rest with EmptyString => True | String a _ => char_in ",]}" a = true end.

Lemma hex_value_digit d : 0 <= d < 16 → hex_value (hex_digit d) = Some d.
Proof.
  intros Hd.
  assert (forallb (λ d, bool_decide (hex_value (hex_digit d) = Some d)) (seqZ 0 16) = true) as H
    by (vm_compute; reflexivity).
  rewrite forallb_forall in H. apply (bool_decide_eq_true_1 (hex_value (hex_digit d) = Some d)), H.
  apply list_elem_of_In, elem_of_seqZ. lia.
Qed.

Lemma read_hex4_hex4 z : 0 <= z < 65536 →
  read_hex4 (hex_digit (z / 4096 mod 16)) (hex_digit (z / 256 mod 16))
    (hex_digit (z / 16 mod 16)) (hex_digit (z mod 16)) = Some z.
Proof.
  intros Hz. unfold read_hex4. rewrite !hex_value_digit by (apply Z.mod_pos_bound; lia).
  simpl. f_equal. Z.div_mod_to_equations; lia.
Qed.

Lemma scan_string_end s : scan_string (String quote s) = Ok ("", s).
Proof. reflexivity. Qed.

Lemma scan_string_char a s :
  a ≠ quote → a ≠ backslash → 32 <= code a →
  scan_string (String a s) = prepend (String a "") (scan_string s).
Proof.
  intros Hq Hb Hc. cbn [scan_string]. rewrite !bool_decide_eq_false_2 by done.
  by destruct (Z.ltb_spec (code a) 32); [lia|].
Qed.

Lemma scan_string_escape e z s :
  e ≠ "u"%char → plain_escape e = Some z →
  scan_string (String backslash (String e s)) = prepend (utf8_char z) (scan_string s).
Proof.
  intros Hu He. cbn [scan_string]. rewrite (bool_decide_eq_false_2 (backslash = quote)) by done.
  rewrite (bool_decide_eq_true_2 (backslash = backslash)), (bool_decide_eq_false_2 (e = _)) by done.
  by rewrite He.
Qed.

(** One [\u] escape, whatever its digits are. *)
Lemma scan_string_u4 h1 h2 h3 h4 u s :
  read_hex4 h1 h2 h3 h4 = Some u → u < 55296 ∨ 56320 <= u →
  scan_string (String backslash (String "u" (String h1 (String h2 (String h3 (String h4 s))))))
    = prepend (utf8_char u) (scan_string s).
Proof.
  intros Hh Hu. cbn [scan_string].
  change (bool_decide (backslash = quote)) with false.
  change (bool_decide (backslash = backslash)) with true.
  change (bool_decide ("u"%char = "u"%char)) with true. cbv iota. rewrite Hh.
  assert ((55296 <=? u) && (u <? 56320) = false) as -> by lia.
  do 6 (destruct s as [|? s]; [reflexivity|]). reflexivity.
Qed.

Lemma scan_string_u8 h1 h2 h3 h4 k1 k2 k3 k4 u v s :
  read_hex4 h1 h2 h3 h4 = Some u → read_hex4 k1 k2 k3 k4 = Some v →
  55296 <= u < 56320 → 56320 <= v < 57344 →
  scan_string (String backslash (String "u" (String h1 (String h2 (String h3 (String h4
      (String backslash (String "u" (String k1 (String k2 (String k3 (String k4 s))))))))))))
    = prepend (utf8_char (65536 + (u - 55296) * 1024 + (v - 56320))) (scan_string s).
Proof.
  intros Hh Hk Hu Hv. cbn [scan_string].
  change (bool_decide (backslash = quote)) with false.
  change (bool_decide (backslash = backslash)) with true.
  change (bool_decide ("u"%char = "u"%char)) with true. cbv iota. rewrite Hh, Hk.
  assert ((55296 <=? u) && (u <? 56320) = true) as -> by lia. cbv iota beta. simpl (_ && _).
  by assert ((56320 <=? v) && (v <? 57344) = true) as -> by lia.
Qed.

Lemma scan_escape z s : is_scalar z = true →
  scan_string (escape_char z +:+ s) = prepend (utf8_char z) (scan_string s).
Proof.
  intros Hz. unfold is_scalar in Hz. unfold escape_char.
  destruct (Z.eqb_spec z 34) as [->|]; [by apply (scan_string_escape quote 34)|].
  destruct (Z.eqb_spec z 92) as [->|]; [by apply (scan_string_escape backslash 92)|].
  destruct (Z.eqb_spec z 8) as [->|]; [by apply (scan_string_escape "b" 8)|].
  destruct (Z.eqb_spec z 9) as [->|]; [by apply (scan_string_escape "t" 9)|].
  destruct (Z.eqb_spec z 10) as [->|]; [by apply (scan_string_escape "n" 10)|].
  destruct (Z.eqb_spec z 12) as [->|]; [by apply (scan_string_escape "f" 12)|].
  destruct (Z.eqb_spec z 13) as [->|]; [by apply (scan_string_escape "r" 13)|].
  destruct ((32 <=? z) && (z <? 127)) eqn:Hp.
  { assert (utf8_char z = String (chr z) "") as ->
      by (unfold utf8_char; destruct (Z.ltb_spec z 128); [done|lia]).
    change (String (chr z) "" +:+ s) with (String (chr z) s).
    apply scan_string_char; [..|rewrite code_chr; lia];
      intros E%(f_equal code); rewrite code_chr in E by lia.
    - change (z = 34) in E. lia.
    - change (z = 92) in E. lia. }
  destruct (Z.ltb_spec z 65536).
  - unfold u_escape, hex4. apply scan_string_u4; [|lia]. apply read_hex4_hex4; lia.
  - rewrite <-append_assoc. unfold u_escape, hex4.
    etransitivity; [apply (scan_string_u8 _ _ _ _ _ _ _ _ (55296 + (z - 65536) / 1024)
      (56320 + (z - 65536) mod 1024))|].
    + apply read_hex4_hex4. Z.div_mod_to_equations; lia.
    + apply read_hex4_hex4. Z.div_mod_to_equations; lia.
    + Z.div_mod_to_equations; lia.
    + Z.div_mod_to_equations; lia.
    + do 2 f_equal. Z.div_mod_to_equations; lia.
Qed.

Lemma scan_print_string s rest : is_Some (utf8_decode s) →
  (∀ d, scan_value d (print_string s +:+ rest) = Ok (JString s, rest)) ∧
  ∃ t, print_string s +:+ rest = String quote t ∧ scan_string t = Ok (s, rest).
Proof.
  intros [cs Hcs]. unfold print_string. rewrite Hcs. cbn [default].
  apply utf8_decode_encode in Hcs as [-> Hall].
  assert (scan_string ((concat_map escape_char cs +:+ String quote "") +:+ rest)
          = Ok (concat_map utf8_char cs, rest)) as Hs.
  { induction Hall as [|z cs Hz Hall IH]; [apply scan_string_end|].
    change (concat_map escape_char (z :: cs)) with (escape_char z +:+ concat_map escape_char cs).
    change (concat_map utf8_char (z :: cs)) with (utf8_char z +:+ concat_map utf8_char cs).
    rewrite <-!append_assoc. rewrite scan_escape by done.
    rewrite <-append_assoc in IH. by rewrite IH. }
  split; [|by eexists]. intros d.
  transitivity ('(t, r) ← scan_string
    ((concat_map escape_char cs +:+ String quote "") +:+ rest); Ok (JString t, r)).
  - by destruct d.
  - by rewrite Hs.
Qed.

(** *** Numbers *)

Lemma pretty_N_char_code x : (x < 10)%N → code (pretty_N_char x) = 48 + Z.of_N x.
Proof. intros Hx. destruct x as [|p]; [done|]. do 9 (destruct p as [p|p|]; try done; try lia). Qed.

Lemma pretty_N_go_value x : ∀ s, digits_value 0 (pretty_N_go x s) = digits_value (Z.of_N x) s.
Proof.
  induction (N.lt_wf_0 x) as [x _ IH]. intros s. destruct (decide (0 < x)%N) as [Hx|Hx].
  - rewrite pretty_N_go_step by done. rewrite (IH _ (N.div_lt x 10 Hx ltac:(lia))).
    cbn [digits_value]. rewrite pretty_N_char_code by (apply N.mod_lt; lia). f_equal.
    rewrite N2Z.inj_div, N2Z.inj_mod. Z.div_mod_to_equations. lia.
  - assert (x = 0%N) as -> by lia. by rewrite pretty_N_go_0.
Qed.

Lemma pretty_N_go_head x : ∀ s, (0 < x)%N →
  ∃ a t, pretty_N_go x s = String a t ∧ a ≠ "0"%char ∧ is_digit a = true.
Proof.
  induction (N.lt_wf_0 x) as [x _ IH]. intros s Hx. rewrite pretty_N_go_step by done.
  destruct (decide (0 < x `div` 10)%N) as [Hd|Hd].
  - apply (IH _ (N.div_lt x 10 Hx ltac:(lia))). done.
  - apply N.nlt_ge, N.le_0_r in Hd. rewrite Hd, pretty_N_go_0. eexists _, _.
    split; [done|]. split; [|apply pretty_N_char_digit].
    intros E%(f_equal code). rewrite pretty_N_char_code in E by (apply N.mod_lt; lia).
    change (code "0"%char) with 48 in E.
    pose proof (N.div_mod x 10 ltac:(done)) as Hx'. rewrite Hd in Hx'. lia.
Qed.

(** The decimal notation of a positive number. *)
Lemma pretty_pos p :
  ∃ a t, pretty (Z.pos p) = String a t ∧ a ≠ "0"%char ∧ is_digit a = true ∧
    all_chars is_digit (String a t) = true ∧ digits_value 0 (String a t) = Z.pos p.
Proof.
  destruct (pretty_N_go_head (N.pos p) "" ltac:(lia)) as (a & t & E & Ha & Hd).
  pose proof (pretty_digits (Z.pos p) ltac:(lia)) as Hall.
  change (pretty (Z.pos p)) with (pretty (N.pos p)) in Hall |- *. unfold pretty, pretty_N in *.
  rewrite decide_False in Hall |- * by done. rewrite E in Hall |- *.
  exists a, t. split_and!; try done. by rewrite <-E, pretty_N_go_value.
Qed.

Lemma span_all P s rest :
  all_chars P s = true → match rest with String a _ => P a = false | _ => True end →
  span P (s +:+ rest) = (s, rest).
Proof.
  intros Hs Hr. induction s as [|a s IH].
  - destruct rest as [|b rest]; [done|]. change ("" +:+ ?x) with x. cbn [span]. by rewrite Hr.
  - change (String a s +:+ rest) with (String a (s +:+ rest)). cbn [span all_chars] in *.
    apply andb_true_iff in Hs as [-> Hs]. by rewrite IH.
Qed.

Lemma stops_digit rest : stops rest → match rest with String a _ => is_digit a = false | _ => True end.
Proof. destruct rest as [|a rest]; [done|]. by destruct a as [[] [] [] [] [] [] [] []]. Qed.

Lemma stops_suffix P sign rest :
  (∀ a, char_in ",]}" a = true → P a = false) → stops rest → scan_suffix P sign rest = ("", rest).
Proof. intros HP. destruct rest as [|a rest]; [done|]. intros Hs. cbn [scan_suffix]. by rewrite HP. Qed.

Lemma stops_not_point a : char_in ",]}" a = true → char_in "." a = false ∧ char_in "eE" a = false.
Proof. by destruct a as [[] [] [] [] [] [] [] []]. Qed.

Lemma number_value_int (minus : bool) a ds rest :
  (String.length (String a ds) <= max_str_digits)%nat → stops rest →
  number_value minus (String a ds) rest = Ok (JNumber (
    if minus then - digits_value 0 (String a ds) else digits_value 0 (String a ds)), rest).
Proof.
  intros Hlen Hs. unfold number_value. rewrite bool_decide_eq_false_2 by done.
  rewrite (stops_suffix (char_in ".") false rest) by (done || apply stops_not_point). cbv iota beta.
  rewrite (stops_suffix (char_in "eE") true rest) by (done || apply stops_not_point). cbv iota beta.
  rewrite !bool_decide_eq_true_2 by done. cbn [andb].
  by destruct (Nat.ltb_spec max_str_digits (String.length (String a ds))); [lia|].
Qed.

(** The text of an integer, after its sign. *)
Definition magnitude (n : Z) : string := pretty (Z.abs n).

Lemma scan_integer_magnitude n rest : stops rest →
  ∃ a ds, magnitude n = String a ds ∧ a ≠ "-"%char ∧ is_digit a = true ∧
    digits_value 0 (String a ds) = Z.abs n ∧
    scan_integer (magnitude n +:+ rest) = (String a ds, rest).
Proof.
  intros Hs. unfold magnitude. destruct (Z.abs n) as [|p|p] eqn:Ep; [|..|lia].
  { by exists "0"%char, "". }
  destruct (pretty_pos p) as (a & t & E & Ha & Hd & Hall & Hv). rewrite E.
  exists a, t. split_and!; [done|by intros ->|done|done|]. unfold scan_integer.
  change (String a t +:+ rest) with (String a (t +:+ rest)). cbn [strip_prefix].
  rewrite bool_decide_eq_false_2 by congruence.
  apply (span_all is_digit (String a t) rest); [done|by apply stops_digit].
Qed.

Lemma pretty_sign n : pretty n = (if n <? 0 then "-" else "") +:+ magnitude n.
Proof. by destruct n. Qed.

Lemma scan_number_print n rest :
  (String.length (pretty n) <= max_str_digits)%nat → stops rest →
  scan_number (pretty n +:+ rest) = Ok (JNumber n, rest).
Proof.
  intros Hlen Hs. rewrite pretty_sign in Hlen |- *.
  destruct (scan_integer_magnitude n rest Hs) as (a & ds & E & Ha & _ & Hv & Hi).
  rewrite E in Hlen, Hi |- *. rewrite <-append_assoc. unfold scan_number.
  assert (scan_sign ((if n <? 0 then "-" else "") +:+ String a ds +:+ rest)
    = (n <? 0, String a ds +:+ rest)) as ->.
  { destruct (n <? 0); [done|]. unfold scan_sign.
    change ("" +:+ String a ds +:+ rest) with (String a (ds +:+ rest)). cbn [strip_prefix].
    by rewrite bool_decide_eq_false_2 by congruence. }
  rewrite Hi. rewrite number_value_int, Hv; [|destruct (n <? 0); simpl in *; lia|done].
  do 3 f_equal. destruct (Z.ltb_spec n 0); lia.
Qed.

Lemma scan_value_number d n rest :
  (String.length (pretty n) <= max_str_digits)%nat → stops rest →
  scan_value d (pretty n +:+ rest) = Ok (JNumber n, rest).
Proof.
  intros Hlen Hs. pose proof (scan_number_print n rest Hlen Hs) as Hn. rewrite <-Hn. clear Hn Hlen.
  destruct (scan_integer_magnitude n rest Hs) as (a & ds & E & _ & Hd & _). rewrite pretty_sign, E.
  assert (∀ b, is_digit b = false → a ≠ b) as Hne by (intros b Hb ->; congruence).
  destruct (n <? 0).
  - change (("-" +:+ String a ds) +:+ rest) with (String "-" (String a (ds +:+ rest))).
    assert (strip_prefix "-Infinity" (String "-" (String a (ds +:+ rest))) = None) as Hp.
    { cbn [strip_prefix]. rewrite (bool_decide_eq_true_2 ("-"%char = "-"%char)) by done.
      by rewrite bool_decide_eq_false_2 by (apply not_eq_sym, Hne; done). }
    by destruct d; cbn [scan_value]; rewrite Hp.
  - change (("" +:+ String a ds) +:+ rest) with (String a (ds +:+ rest)).
    destruct d; cbn [scan_value strip_prefix]; rewrite !bool_decide_eq_false_2;
      (done || (apply Hne; done) || (apply not_eq_sym, Hne; done)).
Qed.

(** *** Containers *)

Definition print_field (kv : string * json) : string := print_string kv.1 +:+ ":" +:+ print kv.2.

Lemma print_list l : print (JList l) = "[" +:+ join "," (map print l) +:+ "]".
Proof. reflexivity. Qed.
Lemma print_object f : print (JObject f) = "{" +:+ join "," (map print_field f) +:+ "}".
Proof. cbn [print]. do 3 f_equal. by induction f as [|[k x] f ->]. Qed.

Lemma printable_list l : printable (JList l) ↔ Forall printable l.
Proof.
  induction l as [|x l IH]; [by split; [constructor|]|]. rewrite list.Forall_cons, <-IH. done.
Qed.
Lemma printable_object f : printable (JObject f) ↔
  NoDup f.*1 ∧ Forall (λ kv, is_Some (utf8_decode kv.1) ∧ printable kv.2) f.
Proof.
  cbn [printable]. apply and_iff_compat_l. induction f as [|[k x] f IH]; [by split; [constructor|]|].
  rewrite list.Forall_cons, <-IH. simpl. tauto.
Qed.

Lemma nesting_list l d : (nesting (JList l) <= S d)%nat ↔ Forall (λ x, (nesting x <= d)%nat) l.
Proof.
  cbn [nesting]. rewrite <-Nat.succ_le_mono. induction l as [|x l IH]; [split; [by constructor|lia]|].
  rewrite list.Forall_cons, <-IH. lia.
Qed.
Lemma nesting_object f d :
  (nesting (JObject f) <= S d)%nat ↔ Forall (λ kv, (nesting kv.2 <= d)%nat) f.
Proof.
  cbn [nesting]. rewrite <-Nat.succ_le_mono.
  induction f as [|[k x] f IH]; [split; [by constructor|lia]|].
  rewrite list.Forall_cons, <-IH. simpl. lia.
Qed.

(** A printed value is not empty and starts with no space. *)
Lemma print_head v : printable v → ∃ a t, print v = String a t ∧ is_json_space a = false
  ∧ a ≠ "]"%char ∧ a ≠ "}"%char.
Proof.
  destruct v as [|b|n|l|s|l|f]; intros Hp; try done; try (eexists _, _; split_and!; done).
  - destruct b; eexists _, _; split_and!; done.
  - cbn [print]. rewrite pretty_sign.
    destruct (scan_integer_magnitude n "" I) as (a & ds & E & _ & Hd & _). rewrite E.
    destruct (n <? 0); eexists _, _; (split; [done|]); [done|].
    split_and!; [|by intros ->..]. destruct a as [[] [] [] [] [] [] [] []]; done.
Qed.

Lemma skip_space_head a t : is_json_space a = false → skip_space (String a t) = String a t.
Proof. intros Ha. unfold skip_space. cbn [strip_left]. by rewrite Ha. Qed.

Lemma skip_space_print v rest : printable v → skip_space (print v +:+ rest) = print v +:+ rest.
Proof. intros (a & t & E & Ha & _)%print_head. rewrite E. by apply skip_space_head. Qed.

Lemma string_length_app s t : String.length (s +:+ t) = (String.length s + String.length t)%nat.
Proof. induction s as [|a s IH]; [done|]. change (String a s +:+ t) with (String a (s +:+ t)). simpl. by rewrite IH. Qed.

Lemma join_length ps : (length ps <= S (String.length (join "," ps)))%nat.
Proof.
  induction ps as [|p [|q ps] IH]; [simpl; lia..|].
  change (join "," (p :: q :: ps)) with (p +:+ "," +:+ join "," (q :: ps)).
  rewrite string_length_app.
  change (String.length ("," +:+ ?t)) with (S (String.length t)).
  change (length (p :: q :: ps)) with (S (length (q :: ps))).
  set (n := length (q :: ps)) in *. set (m := String.length (join _ _)) in *. lia.
Qed.

(** [v] is read back from its text with nesting [d]. *)
Definition reads_back (d : nat) (v : json) : Prop :=
  ∀ rest, stops rest → scan_value d (print v +:+ rest) = Ok (v, rest).

Lemma join_cons_app p ps t :
  join "," (p :: ps) +:+ t = p +:+ match ps with [] => t | _ => String "," (join "," ps +:+ t) end.
Proof.
  destruct ps as [|q ps]; [done|]. change (join "," (p :: q :: ps)) with (p +:+ "," +:+ join "," (q :: ps)).
  by rewrite <-!append_assoc.
Qed.

Lemma scan_elements_print d x l : ∀ fuel rest,
  Forall (reads_back d) (x :: l) → Forall printable (x :: l) → (length l < fuel)%nat →
  scan_elements (scan_value d) fuel (join "," (map print (x :: l)) +:+ String "]" rest)
    = Ok (x :: l, rest).
Proof.
  revert x. induction l as [|y l IH]; intros x fuel rest Hr Hp Hf; (destruct fuel as [|fuel]; [lia|]).
  all: apply list.Forall_cons in Hr as [Hx Hr]; apply list.Forall_cons in Hp as [_ Hp].
  all: cbn [map scan_elements]; rewrite join_cons_app; cbn [map].
  - rewrite Hx by done. done.
  - rewrite Hx by done. cbn [mbind result_bind].
    rewrite (skip_space_head ","), bool_decide_eq_false_2, bool_decide_eq_true_2 by done.
    assert (skip_space (join "," (print y :: map print l) +:+ String "]" rest)
      = join "," (map print (y :: l)) +:+ String "]" rest) as ->.
    { cbn [map]. rewrite join_cons_app. apply list.Forall_cons in Hp as [Hy _]. by apply skip_space_print. }
    rewrite IH by (done || simpl in Hf; lia). done.
Qed.

Lemma scan_field d k x fuel t :
  is_Some (utf8_decode k) → printable x → reads_back d x → stops t →
  scan_members (scan_value d) (S fuel) (print_field (k, x) +:+ t) =
    match skip_space t with
    | String c s =>
        if bool_decide (c = "}"%char) then Ok ([(k, x)], s)
        else if bool_decide (c = ","%char) then
          '(l, r) ← scan_members (scan_value d) fuel (skip_space s); Ok ((k, x) :: l, r)
        else JSONDecodeError
    | EmptyString => JSONDecodeError
    end.
Proof.
  intros Hk Hp Hx Ht. unfold print_field. cbn [fst snd]. rewrite <-!append_assoc.
  destruct (scan_print_string k (":" +:+ print x +:+ t) Hk) as [_ (s0 & E & Hs)].
  rewrite E. cbn [scan_members]. rewrite (bool_decide_eq_true_2 (quote = quote)) by done.
  cbn [negb]. rewrite Hs. cbn [mbind result_bind].
  change (":" +:+ print x +:+ t) with (String ":" (print x +:+ t)).
  rewrite (skip_space_head ":"), (bool_decide_eq_true_2 (":"%char = ":"%char)) by done.
  cbn [negb]. by rewrite skip_space_print, Hx by done.
Qed.

Lemma print_field_head kv t :
  is_Some (utf8_decode kv.1) → ∃ s, print_field kv +:+ t = String quote s.
Proof. intros [cs Hk]. unfold print_field, print_string. rewrite Hk. by eexists. Qed.

Lemma scan_members_print d kv f : ∀ fuel rest,
  Forall (λ kv, reads_back d kv.2) (kv :: f) →
  Forall (λ kv, is_Some (utf8_decode kv.1) ∧ printable kv.2) (kv :: f) → (length f < fuel)%nat →
  scan_members (scan_value d) fuel (join "," (map print_field (kv :: f)) +:+ String "}" rest)
    = Ok (kv :: f, rest).
Proof.
  revert kv. induction f as [|kv' f IH]; intros [k x] fuel rest Hr Hp Hf;
    (destruct fuel as [|fuel]; [lia|]).
  all: apply list.Forall_cons in Hr as [Hx Hr]; apply list.Forall_cons in Hp as [[Hk Hpx] Hp].
  all: simpl in Hx, Hk, Hpx; cbn [map]; rewrite join_cons_app; cbn [map].
  - by rewrite scan_field.
  - rewrite scan_field by done.
    rewrite (skip_space_head ","), bool_decide_eq_false_2, bool_decide_eq_true_2 by done.
    assert (skip_space (join "," (print_field kv' :: map print_field f) +:+ String "}" rest)
      = join "," (map print_field (kv' :: f)) +:+ String "}" rest) as ->.
    { cbn [map]. rewrite join_cons_app. apply list.Forall_cons in Hp as [[Hy _] _].
      by destruct (print_field_head kv' (match map print_field f with
        | [] => String "}" rest
        | _ => String "," (join "," (map print_field f) +:+ String "}" rest) end) Hy) as [s ->]. }
    rewrite IH by (done || simpl in Hf; lia). done.
Qed.

Lemma scan_value_print v : ∀ d, printable v → (nesting v <= d)%nat → reads_back d v.
Proof.
  induction v as [|b|n|s|s|l IH|f IH] using json_nested_ind; intros d Hp Hd rest Hs.
  - by destruct d.
  - by destruct d, b.
  - by apply scan_value_number.
  - done.
  - by apply scan_print_string.
  - destruct d as [|d]; [cbn in Hd; lia|]. apply nesting_list in Hd. apply printable_list in Hp.
    rewrite print_list, <-!append_assoc. change ("[" +:+ ?t) with (String "[" t).
    destruct l as [|x l]; [done|].
    assert (Forall (reads_back d) (x :: l)) as Hl.
    { rewrite list.Forall_forall in IH, Hp, Hd |- *. intros y Hy. by apply IH; auto. }
    change ("]" +:+ rest) with (String "]" rest). set (t := join _ _ +:+ _).
    assert (skip_space t = t ∧ strip_prefix "]" t = None) as [Et Ep].
    { unfold t. cbn [map]. rewrite join_cons_app. apply list.Forall_cons in Hp as [Hx _].
      destruct (print_head x Hx) as (a & t' & -> & Ha & Hb & _).
      split; [by apply skip_space_head|].
      change (String a t' +:+ ?u) with (String a (t' +:+ u)). cbn [strip_prefix].
      by rewrite bool_decide_eq_false_2 by congruence. }
    cbn [scan_value]. change (bool_decide ("["%char = quote)) with false.
    change (bool_decide ("["%char = "{"%char)) with false.
    change (bool_decide ("["%char = "["%char)) with true. cbv iota zeta. rewrite Et, Ep. unfold t.
    rewrite (scan_elements_print d); [done|done|done|]. rewrite string_length_app.
    pose proof (join_length (map print (x :: l))) as Hj. rewrite length_map in Hj. simpl in *. lia.
  - destruct d as [|d]; [cbn in Hd; lia|]. apply nesting_object in Hd.
    apply printable_object in Hp as [Hnd Hp].
    rewrite print_object, <-!append_assoc. change ("{" +:+ ?t) with (String "{" t).
    destruct f as [|kv f]; [done|].
    assert (Forall (λ kv, reads_back d kv.2) (kv :: f)) as Hl.
    { rewrite list.Forall_forall in IH, Hp, Hd |- *. intros y Hy. apply IH; [done| |auto]. by apply Hp. }
    change ("}" +:+ rest) with (String "}" rest). set (t := join _ _ +:+ _).
    assert (skip_space t = t ∧ strip_prefix "}" t = None) as [Et Ep].
    { unfold t. cbn [map]. rewrite join_cons_app. apply list.Forall_cons in Hp as [[Hk _] _].
      match goal with |- context [print_field kv +:+ ?u] =>
        by destruct (print_field_head kv u Hk) as [s ->] end. }
    cbn [scan_value]. change (bool_decide ("{"%char = quote)) with false.
    change (bool_decide ("{"%char = "{"%char)) with true. cbv iota zeta. rewrite Et, Ep. unfold t.
    rewrite (scan_members_print d); [|done|done|].
    + unfold unique_json_object. cbn [mbind result_bind]. by rewrite bool_decide_eq_true_2.
    + rewrite string_length_app.
      pose proof (join_length (map print_field (kv :: f))) as Hj. rewrite length_map in Hj. simpl in *. lia.
Qed.

Lemma printable_sort_keys v : printable v → printable (sort_keys v).
Proof.
  induction v as [|b|n|s|s|l IH|f IH] using json_nested_ind; try done.
  - intros Hp%printable_list. apply printable_list. rewrite list.Forall_forall in IH, Hp |- *.
    intros y (x & -> & Hx)%list_elem_of_fmap. auto.
  - intros [Hnd Hp]%printable_object. apply printable_object. split.
    + rewrite sort_by_perm, <-list_fmap_compose. exact Hnd.
    + rewrite list.Forall_forall in IH, Hp |- *.
      intros y (x & -> & Hx)%elem_of_sort_by%list_elem_of_fmap. simpl.
      destruct (Hp x Hx). auto.
Qed.

Lemma nesting_sort_keys v : ∀ d, (nesting v <= d)%nat → (nesting (sort_keys v) <= d)%nat.
Proof.
  induction v as [|b|n|s|s|l IH|f IH] using json_nested_ind; intros [|d] Hd; try done; try (cbn in Hd; lia).
  - apply nesting_list in Hd. apply nesting_list. rewrite list.Forall_forall in IH, Hd |- *.
    intros y (x & -> & Hx)%list_elem_of_fmap. auto.
  - apply nesting_object in Hd. apply nesting_object. rewrite list.Forall_forall in IH, Hd |- *.
    intros y (x & -> & Hx)%elem_of_sort_by%list_elem_of_fmap. simpl. auto.
Qed.

(** Reading back what [dumps] wrote gives the value with its fields sorted. *)
Lemma loads_dumps v d :
  printable v → (nesting v <= d)%nat → loads d (dumps v) = Ok (sort_keys v).
Proof.
  intros Hp Hd. apply printable_sort_keys in Hp. apply (nesting_sort_keys v) in Hd. unfold loads, dumps.
  rewrite <-(append_empty (print (sort_keys v))), skip_space_print by done.
  by rewrite (scan_value_print (sort_keys v) d Hp Hd "" I).
Qed.

(** ** Equality, as Python compares values

    [True == 1] and [1.0 == 1] hold.  A float literal is rounded to the nearest
    double; [float_integer] is the integer it equals, if it equals one. *)

Fixpoint count_digits (s : string) : Z :=
  match s with EmptyString => 0 | String _ s' => 1 + count_digits s' end.

(** A positive rational [n / d], rounded to 53 significant bits, half to even:
    the mantissa and the exponent of two. *)
Definition round_double (n d : Z) : Z * Z :=
  let e := Z.log2 n - Z.log2 d - 53 in
  let '(n', d') := if e <? 0 then (Z.shiftl n (- e), d) else (n, Z.shiftl d e) in
  let drop := Z.log2 (n' / d') + 1 - 53 in
  let d2 := Z.shiftl d' drop in
  let q := n' / d2 in
  let r := n' mod d2 in
  let up := (d2 <? 2 * r) || (d2 =? 2 * r) && Z.odd q in
  (if up then q + 1 else q, e + drop).

Definition float_integer (literal : string) : option Z :=
  let '(minus, s) := scan_sign literal in
  let '(whole, s) := span is_digit s in
  let '(fraction, s) := match strip_prefix "." s with
    | Some r => span is_digit r | None => ("", s) end in
  let exponent := match s with
    | String _ s' =>
        let '(negative, s'') := scan_sign (default s' (strip_prefix "+" s')) in
        let n := digits_value 0 s'' in if negative then - n else n
    | EmptyString => 0
    end in
  let m := digits_value 0 (whole +:+ fraction) in
  let e := exponent - count_digits fraction in
  if bool_decide (whole = "") then None
  else if m =? 0 then Some 0
  else if 310 <? Z.log2 m / 4 + e then None
  else if Z.log2 m + 3 * e <? -1200 then Some 0
  else
    let '(n, d) := if 0 <=? e then (m * 10 ^ e, 1) else (m, 10 ^ (- e)) in
    let '(q, b) := round_double n d in
    if 1024 <=? Z.log2 q + b then None
    else if Z.shiftl n 1075 <=? d then Some 0
    else if 0 <=? b then Some ((if minus then -1 else 1) * Z.shiftl q b)
    else if q mod 2 ^ (- b) =? 0 then Some ((if minus then -1 else 1) * Z.shiftr q (- b))
    else None.

Definition number_of (v : json) : option Z :=
  match v with
  | JBool b => Some (Z.b2z b)
  | JNumber n => Some n
  | JFloat l => float_integer l
  | _ => None
  end.

Definition json_field (k : string) (f : list (string * json)) : option json :=
  snd <$> List.find (λ kv, bool_decide (kv.1 = k)) f.

(** [a == b], where [b] holds no float. *)
Fixpoint py_equal (a b : json) : bool :=
  match a, b with
  | JNull, JNull => true
  | JString s, JString t => bool_decide (s = t)
  | JList l, JList m =>
      (fix go l m := match l, m with
        | [], [] => true | x :: l', y :: m' => py_equal x y && go l' m' | _, _ => false end) l m
  | JObject f, JObject g =>
      (length f =? length g)%nat &&
      (fix go f := match f with
        | [] => true
        | (k, x) :: f' => match json_field k g with Some y => py_equal x y | None => false end && go f'
        end) f
  | _, _ =>
      match number_of a, number_of b with Some x, Some y => x =? y | _, _ => false end
  end.

Example float_examples :
  float_integer "1.0" = Some 1 ∧ float_integer "-2.5e1" = Some (-25) ∧ float_integer "1.5" = None
  ∧ float_integer "1e3" = Some 1000 ∧ float_integer "9007199254740993.0" = Some 9007199254740992
  ∧ float_integer "1e999" = None ∧ float_integer "NaN" = None ∧ float_integer "1e-5" = None.
Proof. vm_compute. by split_and!. Qed.

Lemma json_field_in (f : list (string * json)) k x :
  NoDup f.*1 → (k, x) ∈ f → json_field k f = Some x.
Proof.
  unfold json_field. induction f as [|[k' x'] f IHf]; intros Hnd; [by intros ?%elem_of_nil|].
  apply list.NoDup_cons in Hnd as [Hk Hnd]. cbn [List.find fst].
  intros [[= -> ->]|Hin]%elem_of_cons; [by rewrite bool_decide_eq_true_2|].
  rewrite bool_decide_eq_false_2; [by apply IHf|]. intros ->. apply Hk.
  apply list_elem_of_fmap. by exists (k, x).
Qed.

(** The order of the fields does not matter. *)
Lemma py_equal_sort_keys v : printable v → py_equal (sort_keys v) v = true.
Proof.
  induction v as [|b|n|s|s|l IH|f IH] using json_nested_ind; intros Hp; simpl.
  - done.
  - by apply Z.eqb_refl.
  - by apply Z.eqb_refl.
  - done.
  - by apply bool_decide_eq_true_2.
  - apply printable_list in Hp. induction Hp as [|x l Hx Hl IHl]; [done|].
    apply list.Forall_cons in IH as [Hx' IH]. simpl. by rewrite Hx', IHl.
  - set (g := sort_by _ _).
    assert (g ≡ₚ map (λ kv, (kv.1, sort_keys kv.2)) f) as Hg by apply sort_by_perm.
    rewrite (Permutation_length Hg), length_map, Nat.eqb_refl. cbn [andb].
    apply printable_object in Hp as [Hnd Hp].
    assert (∀ h, h ⊆ g → (fix go g := match g with
      | [] => true
      | (k, x) :: g' => match json_field k f with Some y => py_equal x y | None => false end && go g'
      end) h = true) as Hgo; [|by apply Hgo].
    induction h as [|[k x] h IHh]; intros Hsub; [done|].
    assert ((k, x) ∈ g) as Hin by (apply Hsub; by left).
    rewrite Hg in Hin. apply list_elem_of_fmap in Hin as ([k0 x0] & [= -> ->] & Hin).
    rewrite (json_field_in f k0 x0) by done. rewrite list.Forall_forall in IH, Hp.
    pose proof (IH _ Hin (proj2 (Hp _ Hin))) as Hx. simpl in Hx |- *. rewrite Hx. apply IHh. intros y Hy. apply Hsub. by right.
Qed.

(** ** What is written is ASCII *)

Definition is_ascii (a : ascii) : bool := code a <? 128.

Lemma ascii_decodes s : all_chars is_ascii s = true → is_Some (utf8_decode s).
Proof.
  induction s as [|a s IH]; [by eexists|]. cbn [all_chars]. intros [Ha Hs]%andb_true_iff.
  destruct (IH Hs) as [cs E]. cbn [utf8_decode]. unfold is_ascii in Ha. rewrite Ha, E. by eexists.
Qed.

Lemma hex_digit_ascii z : 0 <= z < 16 → is_ascii (hex_digit z) = true.
Proof.
  intros Hz. unfold hex_digit. change (ascii_of_N (Z.to_N ?x)) with (chr x).
  unfold is_ascii. destruct (Z.ltb_spec z 10); rewrite code_chr; lia.
Qed.

Lemma hex4_ascii z : all_chars is_ascii (hex4 z) = true.
Proof.
  unfold hex4. cbn [all_chars]. by rewrite !hex_digit_ascii by (apply Z.mod_pos_bound; lia).
Qed.

Lemma escape_char_ascii z : all_chars is_ascii (escape_char z) = true.
Proof.
  unfold escape_char. repeat (case_match; [done|]).
  destruct ((32 <=? z) && (z <? 127)) eqn:E.
  - cbn [all_chars]. unfold is_ascii. rewrite code_chr; lia.
  - assert (∀ u, all_chars is_ascii (u_escape u) = true) as Hu.
    { intros u. unfold u_escape. cbn [all_chars]. by rewrite hex4_ascii. }
    case_match; [apply Hu|]. by rewrite all_chars_app, !Hu.
Qed.

Lemma print_string_ascii s : all_chars is_ascii (print_string s) = true.
Proof.
  unfold print_string. cbn [all_chars]. rewrite all_chars_app.
  assert (∀ cs, all_chars is_ascii (concat_map escape_char cs) = true) as ->; [|done].
  induction cs as [|z cs IH]; [done|].
  change (concat_map escape_char (z :: cs)) with (escape_char z +:+ concat_map escape_char cs).
  by rewrite all_chars_app, escape_char_ascii, IH.
Qed.

Lemma digits_ascii s : all_chars is_digit s = true → all_chars is_ascii s = true.
Proof. apply all_chars_weaken. by intros [[] [] [] [] [] [] [] []]. Qed.

Lemma print_ascii v : printable v → all_chars is_ascii (print v) = true.
Proof.
  induction v as [|b|n|s|s|l IH|f IH] using json_nested_ind; intros Hp.
  - done.
  - by destruct b.
  - cbn [print]. rewrite pretty_sign, all_chars_app. apply andb_true_iff.
    split; [by destruct (n <? 0)|]. apply digits_ascii, pretty_digits. lia.
  - done.
  - apply print_string_ascii.
  - apply printable_list in Hp. rewrite print_list, !all_chars_app.
    rewrite (all_chars_join is_ascii); [done|done|]. rewrite list.Forall_forall in IH, Hp.
    apply list.Forall_forall.
    intros y (x & -> & Hx)%list_elem_of_fmap. auto.
  - apply printable_object in Hp as [_ Hp]. rewrite print_object, !all_chars_app.
    rewrite (all_chars_join is_ascii); [done|done|]. rewrite list.Forall_forall in IH, Hp.
    apply list.Forall_forall.
    intros y ([k x] & -> & Hx)%list_elem_of_fmap. unfold print_field.
    rewrite !all_chars_app, print_string_ascii. rewrite (IH _ Hx); [done|]. by apply (Hp _ Hx).
Qed.
