(* ===== verification/Calendar.v ===== *)
(** * Dates and datetimes of the Python standard library

    The part of [datetime] that the planners use: aware and naive datetimes,
    subtraction of a [timedelta] with its [OverflowError], the proleptic
    Gregorian calendar and ISO weeks.  An aware datetime is the instant it
    denotes, in microseconds from 1970-01-01T00:00:00Z: comparison, equality
    and [astimezone(UTC)] depend on nothing else. *)

From Stdlib Require Import ZArith Lia.
From stdpp Require Import base list strings pretty.
From S2P Require Import Prelude.
#[local] Open Scope string_scope.
#[local] Open Scope list_scope.
#[local] Open Scope Z_scope.

Definition us_per_minute : Z := 60000000.
Definition us_per_day : Z := 86400000000.

(** 0001-01-01T00:00:00Z and the end of 9999-12-31 (exclusive). *)
Definition instant_min : Z := -719162 * us_per_day.
Definition instant_end : Z := 2932897 * us_per_day.

Inductive datetime :=
  | Aware (instant : Z)
  | Naive (wall : Z).

#[export] Instance datetime_eq_dec : EqDecision datetime.
Proof. solve_decision. Defined.

Definition is_aware (d : datetime) : bool :=
  match d with Aware _ => true | Naive _ => false end.

(** The number both kinds are compared by, once they are of one kind. *)
Definition dt_key (d : datetime) : Z :=
  match d with Aware i => i | Naive w => w end.

(** [d - timedelta(days=n)]: the [timedelta] constructor accepts up to
    999999999 days, and the result must be a representable datetime. *)
Definition minus_days (i n : Z) : result Z :=
  if 999999999 <? Z.abs n then Err OverflowError
  else
    let r := i - n * us_per_day in
    if (r <? instant_min) || (instant_end <=? r) then Err OverflowError else Ok r.

(** ** Proleptic Gregorian calendar; a date is its day number, 1970-01-01 = 0 *)
Definition date_of (i : Z) : Z := i / us_per_day.

Definition weekday (day : Z) : Z := (day + 3) mod 7.

(** The Monday of the week of a date: [d - timedelta(days=d.weekday())]. *)
Definition monday_of (day : Z) : Z := day - weekday day.

Definition ordinal_of (day : Z) : Z := day + 719163.

Definition days_before_year (y : Z) : Z :=
  let y := y - 1 in 365 * y + y / 4 - y / 100 + y / 400.

Definition is_leap (y : Z) : bool :=
  (y mod 4 =? 0) && (negb (y mod 100 =? 0) || (y mod 400 =? 0)).

Definition days_before_month (leap : bool) (m : Z) : Z :=
  (if m =? 1 then 0 else if m =? 2 then 31 else if m =? 3 then 59
   else if m =? 4 then 90 else if m =? 5 then 120 else if m =? 6 then 151
   else if m =? 7 then 181 else if m =? 8 then 212 else if m =? 9 then 243
   else if m =? 10 then 273 else if m =? 11 then 304 else 334)
  + (if (2 <? m) && leap then 1 else 0).

(** The year of a date and the zero-based day in that year, by the divmod
    cascade of [datetime._ord2ymd]. *)
Definition year_yday (day : Z) : Z * Z :=
  let n := ordinal_of day - 1 in
  let n400 := n / 146097 in let n := n mod 146097 in
  let n100 := n / 36524 in let n := n mod 36524 in
  let n4 := n / 1461 in let n := n mod 1461 in
  let n1 := n / 365 in let n := n mod 365 in
  let year := n400 * 400 + 1 + n100 * 100 + n4 * 4 + n1 in
  if (n1 =? 4) || (n100 =? 4) then (year - 1, 365) else (year, n).

Definition year_of (day : Z) : Z := (year_yday day).1.

(** The first day of a year. *)
Definition new_year (y : Z) : Z := days_before_year y + 1 - 719163.

Definition month_of_yday (leap : bool) (n : Z) : Z :=
  let m := Z.shiftr (n + 50) 5 in
  if n <? days_before_month leap m then m - 1 else m.

Definition month_of (day : Z) : Z :=
  let '(y, n) := year_yday day in month_of_yday (is_leap y) n.

Definition day_of_month (day : Z) : Z :=
  let '(y, n) := year_yday day in
  n - days_before_month (is_leap y) (month_of_yday (is_leap y) n) + 1.

(** [date.isoformat()] *)
Definition pad_number (width : nat) (n : Z) : string :=
  let s := pretty n in
  String.concat "" (replicate (width - String.length s) "0") +:+ s.
Definition isoformat_date (day : Z) : string :=
  pad_number 4 (year_of day) +:+ "-" +:+ pad_number 2 (month_of day)
  +:+ "-" +:+ pad_number 2 (day_of_month day).

(** [datetime.isoformat()] of a UTC datetime. *)
Definition isoformat_utc (i : Z) : string :=
  let day := date_of i in
  let us := i - day * us_per_day in
  let seconds := us / 1000000 in
  isoformat_date day +:+ "T" +:+ pad_number 2 (seconds / 3600) +:+ ":"
  +:+ pad_number 2 (seconds / 60 mod 60) +:+ ":" +:+ pad_number 2 (seconds mod 60)
  +:+ (if us mod 1000000 =? 0 then "" else "." +:+ pad_number 6 (us mod 1000000)) +:+ "+00:00".

(** [date(y, m, d)] as a day number. *)
Definition date_from_ymd (y m d : Z) : Z :=
  new_year y + days_before_month (is_leap y) m + d - 1.

(** [d.isocalendar()[:2]]: the ISO year is the year of the week's Thursday. *)
Definition iso_year_week (day : Z) : Z * Z :=
  let thursday := monday_of day + 3 in
  let y := year_of thursday in (y, (thursday - new_year y) / 7 + 1).

(** ** Facts *)
Lemma weekday_bounds day : 0 <= weekday day < 7.
Proof. unfold weekday. Z.div_mod_to_equations. lia. Qed.

Lemma monday_of_bounds day : monday_of day <= day < monday_of day + 7.
Proof. unfold monday_of. pose proof (weekday_bounds day). lia. Qed.

Lemma weekday_monday_of day : weekday (monday_of day) = 0.
Proof. unfold monday_of, weekday. Z.div_mod_to_equations. lia. Qed.

Lemma monday_of_mono d1 d2 : d1 <= d2 → monday_of d1 <= monday_of d2.
Proof. unfold monday_of, weekday. intros. Z.div_mod_to_equations. lia. Qed.

Lemma date_of_bounds i :
  date_of i * us_per_day <= i < (date_of i + 1) * us_per_day.
Proof.
  unfold date_of, us_per_day. pose proof (Z.div_mod i 86400000000 ltac:(lia)).
  pose proof (Z.mod_pos_bound i 86400000000 ltac:(lia)). lia.
Qed.

Lemma date_of_mono i j : i <= j → date_of i <= date_of j.
Proof. intros. unfold date_of, us_per_day. apply Z.div_le_mono; lia. Qed.

Section year_yday.
(** The quotients and remainders of the cascade, with their ranges. *)
Lemma cascade_year n400 n100 n4 n1 y :
  0 <= n100 <= 3 → 0 <= n4 <= 24 → 0 <= n1 <= 3 →
  y = n400 * 400 + 1 + n100 * 100 + n4 * 4 + n1 →
  days_before_year y = n400 * 146097 + n100 * 36524 + n4 * 1461 + n1 * 365.
Proof.
  intros ??? ->. unfold days_before_year.
  replace ((_ - 1) / 4) with (n400 * 100 + n100 * 25 + n4) by (Z.div_mod_to_equations; lia).
  replace ((_ - 1) / 100) with (n400 * 4 + n100) by (Z.div_mod_to_equations; lia).
  replace ((_ - 1) / 400) with n400 by (Z.div_mod_to_equations; lia).
  lia.
Qed.

Lemma cascade_leap n400 n100 n4 n1 y :
  0 <= n100 <= 3 → 0 <= n4 <= 24 → 0 <= n1 <= 3 →
  y = n400 * 400 + 1 + n100 * 100 + n4 * 4 + n1 →
  is_leap y = (n1 =? 3) && (negb (n4 =? 24) || (n100 =? 3)).
Proof.
  intros ??? ->. unfold is_leap.
  destruct (Z.eqb_spec n1 3), (Z.eqb_spec n4 24), (Z.eqb_spec n100 3); simpl;
    repeat match goal with |- context [?a mod ?b =? 0] =>
      destruct (Z.eqb_spec (a mod b) 0) end; simpl; try reflexivity;
    exfalso; Z.div_mod_to_equations; lia.
Qed.
End year_yday.

(** The day is where [year_yday] says it is. *)
Lemma year_yday_spec day y n :
  year_yday day = (y, n) →
  day = new_year y + n ∧ 0 <= n < (if is_leap y then 366 else 365).
Proof.
  unfold year_yday, new_year, ordinal_of.
  remember (day + 719163 - 1) as a eqn:Ea.
  remember (a / 146097) as n400 eqn:E400. remember (a mod 146097) as a1 eqn:Ea1.
  remember (a1 / 36524) as n100 eqn:E100. remember (a1 mod 36524) as a2 eqn:Ea2.
  remember (a2 / 1461) as n4 eqn:E4. remember (a2 mod 1461) as a3 eqn:Ea3.
  remember (a3 / 365) as n1 eqn:E1. remember (a3 mod 365) as a4 eqn:Ea4.
  assert (a = n400 * 146097 + a1 ∧ 0 <= a1 < 146097) as [? ?]
    by (subst n400 a1; Z.div_mod_to_equations; lia).
  assert (a1 = n100 * 36524 + a2 ∧ 0 <= a2 < 36524 ∧ 0 <= n100 <= 4) as (? & ? & ?)
    by (subst n100 a2; Z.div_mod_to_equations; lia).
  assert (a2 = n4 * 1461 + a3 ∧ 0 <= a3 < 1461 ∧ 0 <= n4 <= 24) as (? & ? & ?)
    by (subst n4 a3; Z.div_mod_to_equations; lia).
  assert (a3 = n1 * 365 + a4 ∧ 0 <= a4 < 365 ∧ 0 <= n1 <= 4) as (? & ? & ?)
    by (subst n1 a4; Z.div_mod_to_equations; lia).
  clear E400 Ea1 E100 Ea2 E4 Ea3 E1 Ea4.
  destruct (Z.eqb_spec n1 4); [|destruct (Z.eqb_spec n100 4)]; simpl; intros [= <- <-].
  - assert (n100 <= 3) by lia.
    rewrite (cascade_year n400 n100 n4 3), (cascade_leap n400 n100 n4 3) by lia.
    split; [lia|].
    destruct (Z.eqb_spec n4 24), (Z.eqb_spec n100 3); simpl; lia.
  - rewrite (cascade_year n400 3 24 3), (cascade_leap n400 3 24 3) by lia. simpl. lia.
  - rewrite (cascade_year n400 n100 n4 n1), (cascade_leap n400 n100 n4 n1) by lia.
    split; [lia|]. case_match; lia.
Qed.

(** The days of a year, checked one by one for a common and a leap year. *)
Definition yday_ok (leap : bool) (n : Z) : bool :=
  let m := month_of_yday leap n in
  (1 <=? m) && (m <=? 12) && (days_before_month leap m <=? n)
  && (n - days_before_month leap m <=? 30).

Lemma yday_ok_all (leap : bool) :
  forallb (λ k : nat, yday_ok leap (Z.of_nat k)) (seq 0 (if leap then 366%nat else 365%nat)) = true.
Proof. destruct leap; vm_compute; reflexivity. Qed.

Lemma yday_ok_spec (leap : bool) (n : Z) :
  0 <= n < (if leap then 366 else 365) → yday_ok leap n = true.
Proof.
  intros Hn. pose proof (yday_ok_all leap) as H. rewrite forallb_forall in H.
  rewrite <-(Z2Nat.id n) by lia. apply H. apply in_seq. destruct leap; lia.
Qed.

(** The calendar date of a day number, and back. *)
Lemma date_from_ymd_of day :
  date_from_ymd (year_of day) (month_of day) (day_of_month day) = day.
Proof.
  unfold date_from_ymd, year_of, month_of, day_of_month.
  destruct (year_yday day) as [y n] eqn:E. simpl.
  apply year_yday_spec in E as [E _]. lia.
Qed.

Lemma month_day_bounds day :
  1 <= month_of day <= 12 ∧ 1 <= day_of_month day <= 31.
Proof.
  unfold month_of, day_of_month. destruct (year_yday day) as [y n] eqn:E.
  apply year_yday_spec in E as [_ E]. apply yday_ok_spec in E.
  unfold yday_ok in E. lia.
Qed.

(** Two dates have the same ISO year and week exactly when their weeks start
    on the same Monday. *)
Lemma iso_year_week_monday d1 d2 :
  iso_year_week d1 = iso_year_week d2 ↔ monday_of d1 = monday_of d2.
Proof.
  unfold iso_year_week. split; [|by intros ->].
  pose proof (weekday_monday_of d1) as H1. pose proof (weekday_monday_of d2) as H2.
  revert H1 H2. generalize (monday_of d1) (monday_of d2). intros m1 m2 H1 H2 [= Hy Hw].
  rewrite Hy in Hw. unfold weekday in *. Z.div_mod_to_equations. lia.
Qed.
