(* ===== verification/Retention.v ===== *)
(** * Retention planning: [services/retention.py]

    The planner that decides which revisions and runs of a target survive.
    [plan_revisions] and [plan_runs] follow the loops of the source; the
    declarative reading of the rules is [keep_reason], and the planner is
    proved to implement it. *)

From Stdlib Require Import ZArith Lia Sorted.
From stdpp Require Import base gmap sets list strings sorting.
From S2P Require Import Prelude Calendar.
#[local] Open Scope string_scope.
#[local] Open Scope list_scope.
#[local] Open Scope Z_scope.

(** ** Data *)

(* src: services/retention.py 7 7 ACTIVE_RUN_STATUSES *)
Definition ACTIVE_RUN_STATUSES : list string := ["queued"; "running"].
(* src: services/retention.py 8 8 UNCHANGED_RUN_STATUSES *)
Definition UNCHANGED_RUN_STATUSES : list string := ["success_unchanged"].
(* src: services/retention.py 9 9 CHANGED_RUN_STATUSES *)
Definition CHANGED_RUN_STATUSES : list string := ["success_changed"].
(* src: services/retention.py 10 10 FAILED_RUN_STATUSES *)
Definition FAILED_RUN_STATUSES : list string := ["partial"; "failed"; "errored"; "skipped"].
(* src: services/retention.py 11 13 KNOWN_RUN_STATUSES *)
Definition KNOWN_RUN_STATUSES : list string :=
  ACTIVE_RUN_STATUSES ++ UNCHANGED_RUN_STATUSES ++ CHANGED_RUN_STATUSES
  ++ FAILED_RUN_STATUSES.

(* src: services/retention.py 16 27 RetentionSettings *)
Record RetentionSettings := {
  keep_all_days : Z;
  daily_days : Z;
  weekly_weeks : Z;
  monthly_months : Z;
  minimum_changed_revisions : Z;
  unchanged_run_days : Z;
  changed_run_days : Z;
  failed_run_days : Z;
  max_runs_per_target : Z;
  max_revisions_per_target : option Z;
}.

(* src: services/retention.py 30 35 RevisionCandidate *)
Record RevisionCandidate := {
  rc_object_id : Z;
  rc_created : datetime;
  rc_protected : bool;
  rc_content_changed : bool;
}.

(* src: services/retention.py 38 42 RunCandidate *)
Record RunCandidate := {
  rn_object_id : Z;
  rn_timestamp : datetime;
  rn_status : string;
}.

(* src: services/retention.py 45 50 RetentionDecision *)
Record RetentionDecision := {
  rd_object_id : Z;
  rd_timestamp : datetime;
  rd_keep : bool;
  rd_reasons : list string;
}.

(* src: services/retention.py 53 57 RetentionPlan *)
Record RetentionPlan := {
  generated_at : datetime;
  revision_decisions : list RetentionDecision;
  run_decisions : list RetentionDecision;
}.

#[export] Instance RevisionCandidate_eq_dec : EqDecision RevisionCandidate.
Proof. solve_decision. Defined.

Definition kept (ds : list RetentionDecision) : list RetentionDecision :=
  filter (λ d, rd_keep d = true) ds.

(* src: services/retention.py 59 61 RetentionPlan.revisions_to_keep *)
Definition revisions_to_keep (p : RetentionPlan) : Z :=
  Z.of_nat (length (kept (revision_decisions p))).
(* src: services/retention.py 63 65 RetentionPlan.revisions_to_delete *)
Definition revisions_to_delete (p : RetentionPlan) : Z :=
  Z.of_nat (length (revision_decisions p)) - revisions_to_keep p.
(* src: services/retention.py 67 69 RetentionPlan.runs_to_keep *)
Definition runs_to_keep (p : RetentionPlan) : Z :=
  Z.of_nat (length (kept (run_decisions p))).
(* src: services/retention.py 71 73 RetentionPlan.runs_to_delete *)
Definition runs_to_delete (p : RetentionPlan) : Z :=
  Z.of_nat (length (run_decisions p)) - runs_to_keep p.

(** ** Windows *)

(* src: services/retention.py 404 406 _require_aware *)
Definition require_aware (value : datetime) : result unit :=
  if is_aware value then Ok tt
  else Err (ValueError "Retention planning requires timezone-aware datetimes.").

(* src: services/retention.py 373 374 _within_exact_days *)
Definition within_exact_days (timestamp now days : Z) : result bool :=
  if days =? 0 then Ok false
  else cutoff ← minus_days now days; Ok (cutoff <=? timestamp).

(* src: services/retention.py 377 382 _within_days *)
Definition within_days (timestamp now days : Z) : bool :=
  if days <=? 0 then false
  else
    let age := date_of now - date_of timestamp in
    (0 <=? age) && (age <? days).

(* src: services/retention.py 385 392 _within_weeks *)
Definition within_weeks (timestamp now weeks : Z) : bool :=
  if weeks <=? 0 then false
  else
    let timestamp_week := monday_of (date_of timestamp) in
    let current_week := monday_of (date_of now) in
    let age := current_week - timestamp_week in
    (0 <=? age) && (age <? weeks * 7).

(* src: services/retention.py 395 401 _within_months *)
Definition within_months (timestamp now months : Z) : bool :=
  if months <=? 0 then false
  else
    let t := date_of timestamp in
    let n := date_of now in
    let age := (year_of n - year_of t) * 12 + month_of n - month_of t in
    (0 <=? age) && (age <? months).

(** ** The [reasons] dictionary *)

Definition reasons_at (m : gmap Z (list string)) (i : Z) : list string :=
  default [] (m !! i).

(** [reasons[i].append(reason)]; every id the planner uses is a key. *)
Definition append_reason (i : Z) (reason : string) (m : gmap Z (list string)) :
    gmap Z (list string) :=
  alter (λ l, l ++ [reason]) i m.

(* src: services/retention.py 361 370 _mark_latest_per_bucket *)
Fixpoint mark_latest_per_bucket {K} `{EqDecision K} (ordered : list RevisionCandidate)
    (reasons : gmap Z (list string)) (reason : string)
    (eligible : RevisionCandidate → bool) (bucket : RevisionCandidate → K)
    (seen : list K) : gmap Z (list string) :=
  match ordered with
  | [] => reasons
  | item :: rest =>
      if negb (eligible item) then
        mark_latest_per_bucket rest reasons reason eligible bucket seen
      else
        let key := bucket item in
        if decide (key ∈ seen) then
          mark_latest_per_bucket rest reasons reason eligible bucket seen
        else
          mark_latest_per_bucket rest
            (append_reason (rc_object_id item) reason reasons)
            reason eligible bucket (key :: seen)
  end.

(** [sorted(items, key=lambda x: (x.time, x.id), reverse=True)]: comparing an
    aware with a naive datetime raises. *)
Definition sorted_newest {A} (time : A → datetime) (id : A → Z) (l : list A) :
    result (list A) :=
  if forallb (λ x, is_aware (time x)) l || forallb (λ x, negb (is_aware (time x))) l
  then Ok (sort_by (key_geb (λ x, dt_key (time x)) id) l)
  else Err TypeError.

Fixpoint require_all_aware (l : list datetime) : result unit :=
  match l with
  | [] => Ok tt
  | d :: l' => _ ← require_aware d; require_all_aware l'
  end.

(** ** Revisions *)

Definition created_of (r : RevisionCandidate) : Z := dt_key (rc_created r).

(** One [for revision in ordered: if p: reasons[...].append(reason)] loop. *)
Definition mark_where (p : RevisionCandidate → bool) (reason : string)
    (ordered : list RevisionCandidate) (m : gmap Z (list string)) :
    gmap Z (list string) :=
  foldl (λ m r, if p r then append_reason (rc_object_id r) reason m else m) m ordered.

(* src: services/retention.py 235 276 _plan_revisions *)
Definition revision_reasons (settings : RetentionSettings)
    (ordered : list RevisionCandidate) (now : Z) : result (gmap Z (list string)) :=
  let reasons := list_to_map (map (λ r, (rc_object_id r, [])) ordered) in
  let reasons :=
    match ordered with
    | [] => reasons
    | r :: _ => append_reason (rc_object_id r) "Latest revision" reasons
    end in
  let reasons := mark_where rc_protected "Protected revision" ordered reasons in
  let changed := filter (λ r, rc_content_changed r = true) ordered in
  let reasons :=
    mark_where (λ _, true) "Minimum changed revisions"
      (py_take (minimum_changed_revisions settings) changed) reasons in
  keep_all_cutoff ← minus_days now (keep_all_days settings);
  let reasons :=
    if keep_all_days settings =? 0 then reasons
    else mark_where (λ r, keep_all_cutoff <=? created_of r) "Recent revision" ordered reasons in
  let reasons :=
    mark_latest_per_bucket ordered reasons "Daily sample"
      (λ r, within_days (created_of r) now (daily_days settings))
      (λ r, date_of (created_of r)) [] in
  let reasons :=
    mark_latest_per_bucket ordered reasons "Weekly sample"
      (λ r, within_weeks (created_of r) now (weekly_weeks settings))
      (λ r, iso_year_week (date_of (created_of r))) [] in
  Ok (mark_latest_per_bucket ordered reasons "Monthly sample"
      (λ r, within_months (created_of r) now (monthly_months settings))
      (λ r, (year_of (date_of (created_of r)), month_of (date_of (created_of r)))) []).

(* src: services/retention.py 278 286 _plan_revisions *)
Definition revision_decision (reasons : gmap Z (list string)) (r : RevisionCandidate) :
    RetentionDecision :=
  let own := reasons_at reasons (rc_object_id r) in
  {| rd_object_id := rc_object_id r;
     rd_timestamp := rc_created r;
     rd_keep := match own with [] => false | _ => true end;
     rd_reasons := match own with [] => ["Outside retention windows"] | _ => own end |}.

Definition is_mandatory (d : RetentionDecision) : bool :=
  bool_decide ("Latest revision" ∈ rd_reasons d)
  || bool_decide ("Protected revision" ∈ rd_reasons d).

(* src: services/retention.py 293 297 _plan_revisions *)
Definition mandatory_ids (decisions : list RetentionDecision) : gset Z :=
  list_to_set (map rd_object_id (filter (λ d, is_mandatory d = true) decisions)).

(* src: services/retention.py 299 316 _plan_revisions *)
Fixpoint cap_loop (mandatory : gset Z) (remaining : Z) (decisions : list RetentionDecision) :
    list RetentionDecision :=
  match decisions with
  | [] => []
  | d :: rest =>
      if negb (rd_keep d) || bool_decide (rd_object_id d ∈ mandatory) then
        d :: cap_loop mandatory remaining rest
      else if negb (remaining =? 0) then
        d :: cap_loop mandatory (remaining - 1) rest
      else
        {| rd_object_id := rd_object_id d;
           rd_timestamp := rd_timestamp d;
           rd_keep := false;
           rd_reasons := ["Per-target revision limit exceeded"] |}
        :: cap_loop mandatory remaining rest
  end.

(* src: services/retention.py 287 316 _plan_revisions *)
Definition apply_cap (max_revisions : option Z) (decisions : list RetentionDecision) :
    list RetentionDecision :=
  match max_revisions with
  | None => decisions
  | Some cap =>
      if cap =? 0 then decisions
      else
        let mandatory := mandatory_ids decisions in
        cap_loop mandatory (Z.max (cap - Z.of_nat (size mandatory)) 0) decisions
  end.

(* src: services/retention.py 225 316 _plan_revisions *)
Definition plan_revisions (settings : RetentionSettings)
    (revisions : list RevisionCandidate) (now : Z) : result (list RetentionDecision) :=
  ordered ← sorted_newest rc_created rc_object_id revisions;
  _ ← require_all_aware (map rc_created ordered);
  reasons ← revision_reasons settings ordered now;
  Ok (apply_cap (max_revisions_per_target settings) (map (revision_decision reasons) ordered)).

(** ** Runs *)

(* src: services/retention.py 330 342 _plan_runs *)
Definition run_window (settings : RetentionSettings) (now : Z) (run : RunCandidate) :
    result (bool * string) :=
  let t := dt_key (rn_timestamp run) in
  if decide (rn_status run ∈ ACTIVE_RUN_STATUSES) then Ok (true, "Active run")
  else if decide (rn_status run ∉ KNOWN_RUN_STATUSES) then
    Ok (true, "Unknown status (kept safely)")
  else if decide (rn_status run ∈ UNCHANGED_RUN_STATUSES) then
    keep ← within_exact_days t now (unchanged_run_days settings);
    Ok (keep, if keep : bool then "Unchanged run retention" else "Unchanged run expired")
  else if decide (rn_status run ∈ CHANGED_RUN_STATUSES) then
    keep ← within_exact_days t now (changed_run_days settings);
    Ok (keep, if keep : bool then "Changed run retention" else "Changed run expired")
  else
    keep ← within_exact_days t now (failed_run_days settings);
    Ok (keep, if keep : bool then "Failed run retention" else "Failed run expired").

(** [run.status in KNOWN_RUN_STATUSES - ACTIVE_RUN_STATUSES] *)
Definition is_completed (run : RunCandidate) : bool :=
  bool_decide (rn_status run ∈ KNOWN_RUN_STATUSES)
  && negb (bool_decide (rn_status run ∈ ACTIVE_RUN_STATUSES)).

Definition run_decision (run : RunCandidate) (keep : bool) (reason : string) :
    RetentionDecision :=
  {| rd_object_id := rn_object_id run; rd_timestamp := rn_timestamp run;
     rd_keep := keep; rd_reasons := [reason] |}.

(* src: services/retention.py 326 358 _plan_runs *)
Fixpoint run_loop (settings : RetentionSettings) (now : Z) (retained_completed_runs : Z)
    (ordered : list RunCandidate) : result (list RetentionDecision) :=
  match ordered with
  | [] => Ok []
  | run :: rest =>
      _ ← require_aware (rn_timestamp run);
      kr ← run_window settings now run;
      if is_completed run && kr.1 then
        if max_runs_per_target settings <=? retained_completed_runs then
          ds ← run_loop settings now retained_completed_runs rest;
          Ok (run_decision run false "Per-target run limit exceeded" :: ds)
        else
          ds ← run_loop settings now (retained_completed_runs + 1) rest;
          Ok (run_decision run kr.1 kr.2 :: ds)
      else
        ds ← run_loop settings now retained_completed_runs rest;
        Ok (run_decision run kr.1 kr.2 :: ds)
  end.

(* src: services/retention.py 319 358 _plan_runs *)
Definition plan_runs (settings : RetentionSettings) (runs : list RunCandidate) (now : Z) :
    result (list RetentionDecision) :=
  ordered ← sorted_newest rn_timestamp rn_object_id runs;
  run_loop settings now 0 ordered.

(* src: services/retention.py 208 222 build_retention_plan *)
Definition build_retention_plan (settings : RetentionSettings)
    (revisions : list RevisionCandidate) (runs : list RunCandidate) (now : datetime) :
    result RetentionPlan :=
  _ ← require_aware now;
  rds ← plan_revisions settings revisions (dt_key now);
  nds ← plan_runs settings runs (dt_key now);
  Ok {| generated_at := now; revision_decisions := rds; run_decisions := nds |}.

(** ** The [reasons] dictionary, as a set of reasons per revision *)

Lemma append_reason_spec i s m j x :
  x ∈ reasons_at (append_reason i s m) j ↔
    x ∈ reasons_at m j ∨ (x = s ∧ i = j ∧ is_Some (m !! j)).
Proof.
  unfold reasons_at, append_reason. rewrite lookup_alter. case_decide as E.
  - subst. destruct (m !! j) as [l|] eqn:Em; simpl.
    + rewrite elem_of_app, list_elem_of_singleton. naive_solver.
    + rewrite elem_of_nil. split; [done|]. intros [[]|(_ & _ & [? [=]])].
  - naive_solver.
Qed.

Lemma append_reason_dom i s m j : is_Some (append_reason i s m !! j) ↔ is_Some (m !! j).
Proof.
  unfold append_reason. rewrite lookup_alter. case_decide; [|done]. subst.
  by rewrite fmap_is_Some.
Qed.

Lemma mark_where_dom p s l m j : is_Some (mark_where p s l m !! j) ↔ is_Some (m !! j).
Proof.
  unfold mark_where. revert m. induction l as [|r l IH]; intros m; simpl; [done|].
  rewrite IH. destruct (p r); [apply append_reason_dom|done].
Qed.

Lemma mark_where_spec p s l m j x :
  x ∈ reasons_at (mark_where p s l m) j ↔
    x ∈ reasons_at m j ∨
    (x = s ∧ is_Some (m !! j) ∧ ∃ r, r ∈ l ∧ p r = true ∧ rc_object_id r = j).
Proof.
  unfold mark_where. revert m. induction l as [|r l IH]; intros m; simpl.
  { setoid_rewrite elem_of_nil. naive_solver. }
  rewrite IH. setoid_rewrite elem_of_cons. destruct (p r) eqn:E.
  - rewrite append_reason_spec, append_reason_dom. naive_solver.
  - split; [intros [?|(? & ? & r' & ? & ? & ?)]; eauto 10|].
    intros [?|(? & ? & r' & [->|?] & ? & ?)]; [eauto|congruence|eauto 10].
Qed.

(** The items [_mark_latest_per_bucket] marks. *)
Fixpoint latest_per_bucket {K} `{EqDecision K} (eligible : RevisionCandidate → bool)
    (bucket : RevisionCandidate → K) (seen : list K) (l : list RevisionCandidate) :
    list RevisionCandidate :=
  match l with
  | [] => []
  | item :: rest =>
      if negb (eligible item) then latest_per_bucket eligible bucket seen rest
      else if decide (bucket item ∈ seen) then latest_per_bucket eligible bucket seen rest
      else item :: latest_per_bucket eligible bucket (bucket item :: seen) rest
  end.

Lemma mark_latest_as_where {K} `{EqDecision K} l m s el (bk : RevisionCandidate → K) seen :
  mark_latest_per_bucket l m s el bk seen =
  mark_where (λ _, true) s (latest_per_bucket el bk seen l) m.
Proof.
  revert m seen. induction l as [|r l IH]; intros m seen; simpl; [done|].
  destruct (el r); simpl; [|done]. case_decide; [done|]. rewrite IH. done.
Qed.

(** ** The planner's order *)

Abbreviation order := (key_geb created_of rc_object_id).
(** [r'] comes strictly before [r] in the planner's order. *)
Abbreviation newer := (newer_by created_of rc_object_id).
(** In the planner's order, each id once. *)
Abbreviation in_order := (newest_first created_of rc_object_id).

Section buckets.
Context {K} `{EqDecision K} (el : RevisionCandidate → bool) (bk : RevisionCandidate → K).

Lemma latest_per_bucket_split seen l r :
  r ∈ latest_per_bucket el bk seen l ↔
    ∃ l1 l2, l = l1 ++ r :: l2 ∧ el r = true ∧ (bk r ∉ seen) ∧
      (∀ r', r' ∈ l1 → el r' = true → bk r' ≠ bk r).
Proof.
  revert seen. induction l as [|x l IH]; intros seen; simpl.
  { rewrite elem_of_nil. split; [done|]. intros ([|] & l2 & [=] & _). }
  assert (∀ seen', (∃ l1 l2, x :: l = l1 ++ r :: l2 ∧ el r = true ∧ (bk r ∉ seen') ∧
      (∀ r', r' ∈ l1 → el r' = true → bk r' ≠ bk r)) ↔
    (r = x ∧ el r = true ∧ bk r ∉ seen') ∨
    ((el x = true → bk x ≠ bk r) ∧ ∃ l1 l2, l = l1 ++ r :: l2 ∧ el r = true ∧
      (bk r ∉ seen') ∧ (∀ r', r' ∈ l1 → el r' = true → bk r' ≠ bk r))) as ->.
  { intros seen'. split.
    - intros ([|y l1] & l2 & [= -> ->] & ? & ? & Hb); [by left|].
      right. split; [apply Hb; set_solver|]. exists l1, l2. set_solver.
    - intros [(-> & ? & ?)|(Hx & l1 & l2 & -> & ? & ? & Hb)].
      + exists [], l. set_solver.
      + exists (x :: l1), l2. set_solver. }
  destruct (el x) eqn:Ex; simpl; [case_decide as Hs|]; rewrite ?elem_of_cons, IH.
  - split; [|naive_solver]. intros (l1 & l2 & ? & ? & Hr & ?). right.
    split; [congruence|]. eauto 10.
  - setoid_rewrite not_elem_of_cons. split.
    + intros [->|(l1 & l2 & ? & ? & [? ?] & ?)]; [by left|].
      right. split; [congruence|]. eauto 10.
    + intros [(-> & ? & ?)|(Hx & l1 & l2 & ? & ? & ? & ?)]; [by left|].
      right. exists l1, l2. specialize (Hx eq_refl). eauto 10.
  - split; [|intros [(-> & ? & _)|(_ & ?)]; [congruence|done]]. intros ?. by right.
Qed.

(** The marked item of a bucket is its newest eligible one. *)
Lemma latest_per_bucket_newest l r :
  in_order l →
  r ∈ latest_per_bucket el bk [] l ↔
    r ∈ l ∧ el r = true ∧
    (∀ r', r' ∈ l → newer r' r → el r' = true → bk r' ≠ bk r).
Proof.
  intros Hl. rewrite latest_per_bucket_split. split.
  - intros (l1 & l2 & -> & Hel & _ & Hb). split_and!; [set_solver|done|].
    intros r' Hr' Hnew. apply Hb. by eapply before_newer.
  - intros ((l1 & l2 & ->)%list_elem_of_split & Hel & Hb). exists l1, l2.
    split_and!; [done|done|set_solver|]. intros r' Hr'. apply Hb; [set_solver|].
    eapply before_newer; [done..| |done]. set_solver.
Qed.
End buckets.

(** ** What the planner promises, stated without loops *)

(** [keep_reason settings now revs r x]: the rules give revision [r] of [revs]
    the reason [x] to be kept. *)
Inductive keep_reason (settings : RetentionSettings) (now : Z)
    (revs : list RevisionCandidate) (r : RevisionCandidate) : string → Prop :=
  | because_latest :
      (∀ r', r' ∈ revs → ¬ newer r' r) →
      keep_reason settings now revs r "Latest revision"
  | because_protected :
      rc_protected r = true →
      keep_reason settings now revs r "Protected revision"
  | because_changed :
      rc_content_changed r = true →
      Z.of_nat (length (filter (λ r', newer r' r ∧ rc_content_changed r' = true) revs))
        < minimum_changed_revisions settings →
      keep_reason settings now revs r "Minimum changed revisions"
  | because_recent :
      keep_all_days settings ≠ 0 →
      now - keep_all_days settings * us_per_day <= created_of r →
      keep_reason settings now revs r "Recent revision"
  | because_daily :
      within_days (created_of r) now (daily_days settings) = true →
      (∀ r', r' ∈ revs → newer r' r →
        within_days (created_of r') now (daily_days settings) = true →
        date_of (created_of r') ≠ date_of (created_of r)) →
      keep_reason settings now revs r "Daily sample"
  | because_weekly :
      within_weeks (created_of r) now (weekly_weeks settings) = true →
      (∀ r', r' ∈ revs → newer r' r →
        within_weeks (created_of r') now (weekly_weeks settings) = true →
        monday_of (date_of (created_of r')) ≠ monday_of (date_of (created_of r))) →
      keep_reason settings now revs r "Weekly sample"
  | because_monthly :
      within_months (created_of r) now (monthly_months settings) = true →
      (∀ r', r' ∈ revs → newer r' r →
        within_months (created_of r') now (monthly_months settings) = true →
        (year_of (date_of (created_of r')), month_of (date_of (created_of r'))) ≠
        (year_of (date_of (created_of r)), month_of (date_of (created_of r)))) →
      keep_reason settings now revs r "Monthly sample".

(** ** The loops implement the rules *)

Lemma initial_reasons l r :
  r ∈ l →
  is_Some ((list_to_map (map (λ r, (rc_object_id r, [])) l) : gmap Z (list string))
             !! rc_object_id r).
Proof.
  intros Hr. apply elem_of_dom. rewrite dom_list_to_map_L, elem_of_list_to_set.
  rewrite <-list_fmap_compose. apply list_elem_of_fmap. by exists r.
Qed.

Lemma initial_reasons_empty l i x :
  x ∉ reasons_at (list_to_map (map (λ r, (rc_object_id r, [])) l)) i.
Proof.
  unfold reasons_at. destruct (list_to_map _ !! i) as [rs|] eqn:E; simpl; [|set_solver].
  apply elem_of_list_to_map_2 in E. apply list_elem_of_fmap in E as (r & [= -> ->] & _).
  set_solver.
Qed.

Section reasons_spec.
Context (settings : RetentionSettings) (now : Z) (l : list RevisionCandidate).
Context (Hl : in_order l).

Lemma latest_per_bucket_subseteq {K} `{EqDecision K} el (bk : RevisionCandidate → K) :
  latest_per_bucket el bk [] l ⊆ l.
Proof using Hl. intros r. rewrite latest_per_bucket_newest by done. naive_solver. Qed.

Lemma py_take_filter_subseteq n (P : RevisionCandidate → Prop) `{!∀ x, Decision (P x)} :
  py_take n (filter P l) ⊆ l.
Proof.
  intros r Hr. unfold py_take in Hr.
  eapply elem_of_sublist in Hr; [|apply sublist_take].
  by apply list_elem_of_filter in Hr as [_ ?].
Qed.

(** A mark on ids is a mark on revisions, the ids being distinct. *)
Lemma marked_by_id r k (p : RevisionCandidate → bool) :
  r ∈ l → k ⊆ l →
  (∃ r', r' ∈ k ∧ p r' = true ∧ rc_object_id r' = rc_object_id r) ↔ r ∈ k ∧ p r = true.
Proof using Hl.
  intros Hr Hk. split; [|naive_solver]. intros (r' & Hr' & Hp & Hid).
  rewrite <-(NoDup_map_inj rc_object_id l r' r); eauto using newest_first_nodup.
Qed.

(** What one marking loop over part of [l] adds to a revision's reasons. *)
Lemma mark_where_own r k p s m x :
  r ∈ l → k ⊆ l → is_Some (m !! rc_object_id r) →
  x ∈ reasons_at (mark_where p s k m) (rc_object_id r) ↔
    x ∈ reasons_at m (rc_object_id r) ∨ (x = s ∧ r ∈ k ∧ p r = true).
Proof using Hl. intros. rewrite mark_where_spec, marked_by_id by done. naive_solver. Qed.

Lemma head_is_latest r :
  r ∈ l → hd_error l = Some r ↔ (∀ r', r' ∈ l → ¬ newer r' r).
Proof using Hl.
  intros (l1 & l2 & E)%list_elem_of_split. rewrite E. pose proof Hl as Hl'. rewrite E in Hl'.
  split.
  - destruct l1 as [|y l1]; simpl.
    + intros _ r' Hr' H. by apply (before_newer _ _ [] l2 r) in H; [apply not_elem_of_nil in H|..].
    + intros [= ->]. destruct Hl' as [_ Hn]. simpl in Hn.
      apply NoDup_cons in Hn as [Hn _]. destruct Hn. apply list_elem_of_fmap_2. set_solver.
  - destruct l1 as [|y l1]; simpl; [done|]. intros H. destruct (H y); [set_solver|].
    apply (before_newer _ _ (y :: l1) l2 r); set_solver.
Qed.

Lemma py_take_changed r n :
  0 <= n → r ∈ l →
  r ∈ py_take n (filter (λ r, rc_content_changed r = true) l) ↔
    rc_content_changed r = true ∧
    Z.of_nat (length (filter (λ r', newer r' r ∧ rc_content_changed r' = true) l)) < n.
Proof using Hl.
  intros Hn Hr. unfold py_take. rewrite (proj2 (Z.ltb_ge n 0)) by lia.
  destruct (decide (rc_content_changed r = true)) as [Hc|Hc].
  - rewrite newest_first_take; [|by apply newest_first_filter|by apply list_elem_of_filter].
    rewrite list_filter_filter. naive_solver lia.
  - split; [|naive_solver]. intros H.
    apply elem_of_sublist with (l2 := filter (λ r, rc_content_changed r = true) l) in H;
      [|apply sublist_take]. by apply list_elem_of_filter in H as [? _].
Qed.
End reasons_spec.


(** The reasons the loops collect are exactly the reasons the rules give. *)
Lemma revision_reasons_spec settings l now m r x :
  in_order l → 0 <= minimum_changed_revisions settings →
  revision_reasons settings l now = Ok m → r ∈ l →
  x ∈ reasons_at m (rc_object_id r) ↔ keep_reason settings now l r x.
Proof.
  intros Hl Hmin Hm Hr. unfold revision_reasons in Hm.
  apply result_bind_Ok in Hm as (cutoff & Hcut & [= <-]).
  assert (cutoff = now - keep_all_days settings * us_per_day) as ->.
  { revert Hcut. unfold minus_days. repeat case_match; naive_solver. }
  rewrite !mark_latest_as_where.
  set (m0 := list_to_map _).
  set (m1 := match l with [] => m0 | _ => _ end).
  assert (is_Some (m1 !! rc_object_id r)) as H1.
  { pose proof (initial_reasons l r Hr) as H0. subst m1. destruct l; [done|].
    by apply append_reason_dom. }
  assert (x ∈ reasons_at m1 (rc_object_id r) ↔
    x = "Latest revision" ∧ hd_error l = Some r) as E1.
  { subst m1. destruct l as [|r0 l']; [by apply not_elem_of_nil in Hr|].
    rewrite append_reason_spec. simpl. split.
    - intros [Hy|(-> & Hid & _)]; [by apply initial_reasons_empty in Hy|].
      split; [done|]. f_equal. eapply NoDup_map_inj; eauto using newest_first_nodup.
      set_solver.
    - intros [-> [= ->]]. right. split_and!; [done..|]. by apply append_reason_dom in H1. }
  clearbody m1. rewrite head_is_latest in E1 by done.
  set (m2 := mark_where rc_protected _ l m1).
  assert (is_Some (m2 !! rc_object_id r)) as H2 by (by apply mark_where_dom).
  set (m3 := mark_where _ "Minimum changed revisions" _ m2).
  assert (is_Some (m3 !! rc_object_id r)) as H3 by (by apply mark_where_dom).
  set (m4 := if _ =? 0 then m3 else _).
  assert (is_Some (m4 !! rc_object_id r)) as H4.
  { subst m4. destruct (_ =? 0); [done|by apply mark_where_dom]. }
  assert (x ∈ reasons_at m4 (rc_object_id r) ↔ x ∈ reasons_at m3 (rc_object_id r) ∨
    (x = "Recent revision" ∧ keep_all_days settings ≠ 0 ∧
     now - keep_all_days settings * us_per_day <= created_of r)) as E4.
  { subst m4. destruct (Z.eqb_spec (keep_all_days settings) 0) as [E|E].
    - naive_solver lia.
    - rewrite (mark_where_own l Hl) by done. rewrite Z.leb_le. naive_solver. }
  set (m5 := mark_where _ "Daily sample" _ m4).
  assert (is_Some (m5 !! rc_object_id r)) as H5 by (by apply mark_where_dom).
  set (m6 := mark_where _ "Weekly sample" _ m5).
  assert (is_Some (m6 !! rc_object_id r)) as H6 by (by apply mark_where_dom).
  rewrite (mark_where_own l Hl) by auto using latest_per_bucket_subseteq.
  subst m6. rewrite (mark_where_own l Hl) by auto using latest_per_bucket_subseteq.
  subst m5. rewrite (mark_where_own l Hl) by auto using latest_per_bucket_subseteq.
  rewrite E4. subst m3.
  rewrite (mark_where_own l Hl) by auto using py_take_filter_subseteq.
  subst m2. rewrite (mark_where_own l Hl) by done.
  rewrite E1, !latest_per_bucket_newest, py_take_changed by done.
  setoid_rewrite iso_year_week_monday. clear -Hr. split.
  - intros [[[[[[[-> ?]|(-> & ? & ?)]|(-> & [? ?] & _)]|(-> & ? & ?)]|(-> & (? & ? & ?) & _)]
      |(-> & (? & ? & ?) & _)]|(-> & (? & ? & ?) & _)]; by constructor.
  - intros []; tauto.
Qed.

(** The rules depend on the set of revisions, and deleting revisions never
    takes a reason away from one that stays. *)
Lemma keep_reason_sublist settings now revs1 revs2 r x :
  sublist revs1 revs2 → keep_reason settings now revs2 r x →
  keep_reason settings now revs1 r x.
Proof.
  intros Hs. pose proof (sublist_subseteq _ _ Hs) as Hin.
  intros [Hn|?|? Hc|? ?|? Hn|? Hn|? Hn]; constructor; auto.
  eapply Z.le_lt_trans; [|exact Hc].
  apply inj_le, length_filter_sublist. done.
Qed.

Lemma keep_reason_perm settings now revs1 revs2 r x :
  revs1 ≡ₚ revs2 → keep_reason settings now revs1 r x ↔ keep_reason settings now revs2 r x.
Proof.
  assert (∀ l1 l2, l1 ≡ₚ l2 →
    keep_reason settings now l1 r x → keep_reason settings now l2 r x) as H.
  { intros l1 l2 Hp [Hn|?|? Hc|? ?|? Hn|? Hn|? Hn]; constructor; auto;
      try (intros r' Hr'; apply Hn; by rewrite Hp).
    by rewrite <-Hp. }
  intros Hp. split; apply H; [done|by symmetry].
Qed.

Lemma require_all_aware_ok l :
  require_all_aware l = Ok () ↔ Forall (λ d, is_aware d = true) l.
Proof.
  induction l as [|d l IH]; simpl; [by split|]. unfold require_aware.
  destruct (is_aware d) eqn:E; simpl.
  - rewrite Forall_cons. naive_solver.
  - split; [done|]. inversion 1. congruence.
Qed.

Lemma sorted_newest_aware {A} (time : A → datetime) id l :
  Forall (λ x, is_aware (time x) = true) l →
  sorted_newest time id l = Ok (sort_by (key_geb (λ x, dt_key (time x)) id) l).
Proof.
  intros H. unfold sorted_newest.
  replace (forallb (λ x, is_aware (time x)) l) with true; [done|].
  symmetry. induction H as [|x l Hx _ IH]; simpl; [done|]. by rewrite Hx, IH.
Qed.

Lemma revision_reasons_ok settings l now :
  is_ok (minus_days now (keep_all_days settings)) = true →
  ∃ m, revision_reasons settings l now = Ok m.
Proof.
  unfold revision_reasons. destruct (minus_days _ _); [|done]. simpl. eauto.
Qed.

(** Every revision gets its decision, newest first, whenever the datetimes
    are aware and the keep-all window does not leave the calendar. *)
Lemma plan_revisions_ok settings revs now :
  Forall (λ r, is_aware (rc_created r) = true) revs →
  is_ok (minus_days now (keep_all_days settings)) = true →
  ∃ m, revision_reasons settings (sort_by order revs) now = Ok m ∧
    plan_revisions settings revs now =
      Ok (apply_cap (max_revisions_per_target settings)
           (map (revision_decision m) (sort_by order revs))).
Proof.
  intros Ha Hc. destruct (revision_reasons_ok settings (sort_by order revs) now Hc) as [m Hm].
  exists m. split; [done|]. unfold plan_revisions. rewrite sorted_newest_aware by done. simpl.
  rewrite (proj2 (require_all_aware_ok _)); simpl.
  - change (key_geb (λ x, dt_key (rc_created x)) rc_object_id) with order. by rewrite Hm.
  - apply Forall_map. rewrite sort_by_perm. done.
Qed.

Lemma plan_revisions_inv settings revs now ds :
  plan_revisions settings revs now = Ok ds →
  Forall (λ r, is_aware (rc_created r) = true) revs ∧
  ∃ m, revision_reasons settings (sort_by order revs) now = Ok m ∧
    ds = apply_cap (max_revisions_per_target settings)
           (map (revision_decision m) (sort_by order revs)).
Proof.
  unfold plan_revisions. intros (o & Ho & H)%result_bind_Ok.
  apply result_bind_Ok in H as ([] & Ha & H). apply result_bind_Ok in H as (m & Hm & [= <-]).
  unfold sorted_newest in Ho. case_match; [|done]. injection Ho as <-.
  apply require_all_aware_ok in Ha. rewrite Forall_map, sort_by_perm in Ha. eauto.
Qed.

(** ** The copy limit *)

Lemma cap_loop_ids mandatory k ds :
  map rd_object_id (cap_loop mandatory k ds) = map rd_object_id ds.
Proof.
  revert k. induction ds as [|d ds IH]; intros k; simpl; [done|].
  repeat case_match; simpl; f_equal; auto.
Qed.

Lemma cap_loop_mandatory mandatory k ds d :
  d ∈ ds → rd_object_id d ∈ mandatory → d ∈ cap_loop mandatory k ds.
Proof.
  revert k. induction ds as [|d' ds IH]; intros k; simpl; [set_solver|].
  intros [->|Hd]%elem_of_cons Hm.
  - rewrite bool_decide_true by done. rewrite orb_true_r. set_solver.
  - repeat case_match; set_solver.
Qed.

(** Kept beyond the mandatory ones. *)
Definition optional_kept (mandatory : gset Z) (ds : list RetentionDecision) :=
  filter (λ d, rd_keep d = true ∧ rd_object_id d ∉ mandatory) ds.

Lemma cap_loop_optional mandatory k ds :
  0 <= k → Z.of_nat (length (optional_kept mandatory (cap_loop mandatory k ds))) <= k.
Proof.
  unfold optional_kept. revert k. induction ds as [|d ds IH]; intros k Hk; simpl; [lia|].
  destruct (rd_keep d) eqn:E; simpl; [case_bool_decide|]; simpl.
  - rewrite filter_cons_False by (simpl; intros [? ?]; first [contradiction | congruence]). auto.
  - destruct (Z.eqb_spec k 0) as [->|]; simpl.
    + rewrite filter_cons_False by (simpl; intros [? ?]; first [contradiction | congruence]). auto.
    + rewrite filter_cons_True by done. simpl. specialize (IH (k - 1)). lia.
  - rewrite filter_cons_False by (simpl; intros [? ?]; first [contradiction | congruence]). auto.
Qed.

Lemma cap_loop_small mandatory k ds :
  Z.of_nat (length (optional_kept mandatory ds)) <= k → cap_loop mandatory k ds = ds.
Proof.
  unfold optional_kept. revert k. induction ds as [|d ds IH]; intros k; [done|].
  simpl cap_loop. destruct (rd_keep d) eqn:E; simpl; [case_bool_decide|]; simpl.
  - rewrite filter_cons_False by (simpl; intros [? ?]; first [contradiction | congruence]).
    intros. f_equal. auto.
  - rewrite filter_cons_True by done. simpl. intros Hk.
    destruct (Z.eqb_spec k 0); [lia|]. simpl. f_equal. apply IH. lia.
  - rewrite filter_cons_False by (simpl; intros [? ?]; first [contradiction | congruence]).
    intros. f_equal. auto.
Qed.

(** The loop only turns [keep] off, and only for optional revisions. *)
Lemma cap_loop_kept mandatory k ds d :
  d ∈ cap_loop mandatory k ds → rd_keep d = true → d ∈ ds.
Proof.
  revert k. induction ds as [|d' ds IH]; intros k; simpl; [set_solver|].
  repeat case_match; rewrite !elem_of_cons; intros [->|?] ?; eauto; done.
Qed.

(** ** Properties of the revision planner *)

(** What the database guarantees about the planner's input: primary keys are
    distinct, datetimes are aware, and the settings are not negative. *)
Record planner_input (settings : RetentionSettings) (revs : list RevisionCandidate) : Prop := {
  input_ids : NoDup (map rc_object_id revs);
  input_aware : Forall (λ r, is_aware (rc_created r) = true) revs;
  input_min : 0 <= minimum_changed_revisions settings;
  input_cap : ∀ c, max_revisions_per_target settings = Some c → 0 <= c;
}.

Definition is_latest (revs : list RevisionCandidate) (r : RevisionCandidate) : Prop :=
  ∀ r', r' ∈ revs → ¬ newer r' r.

Section planner.
Context (settings : RetentionSettings) (revs : list RevisionCandidate) (now : Z).
Context (Hin : planner_input settings revs).
Context (m : gmap Z (list string)).
Context (Hm : revision_reasons settings (sort_by order revs) now = Ok m).

Abbreviation ordered := (sort_by order revs).
Abbreviation decisions := (map (revision_decision m) ordered).

Lemma reasons_are_rules r x :
  r ∈ revs → x ∈ reasons_at m (rc_object_id r) ↔ keep_reason settings now revs r x.
Proof using Hin Hm.
  intros Hr. rewrite (revision_reasons_spec settings ordered now m).
  - apply keep_reason_perm, sort_by_perm.
  - apply sort_newest_first, Hin.
  - apply Hin.
  - done.
  - by apply elem_of_sort_by.
Qed.

Lemma decision_keep r :
  r ∈ revs →
  rd_keep (revision_decision m r) = true ↔ ∃ x, keep_reason settings now revs r x.
Proof using Hin Hm.
  intros Hr. setoid_rewrite <-(reasons_are_rules r); [|done].
  unfold revision_decision. simpl. destruct (reasons_at m _) as [|y l]; [set_solver|].
  split; [|done]. intros _. exists y. set_solver.
Qed.

Lemma decision_reasons r x :
  r ∈ revs → x ≠ "Outside retention windows" →
  x ∈ rd_reasons (revision_decision m r) ↔ keep_reason settings now revs r x.
Proof using Hin Hm.
  intros Hr Hx. rewrite <-(reasons_are_rules r) by done.
  unfold revision_decision. simpl. destruct (reasons_at m _) as [|y l]; [set_solver|done].
Qed.

Lemma decision_mandatory r :
  r ∈ revs →
  is_mandatory (revision_decision m r) = true ↔ is_latest revs r ∨ rc_protected r = true.
Proof using Hin Hm.
  intros Hr. unfold is_mandatory. rewrite orb_true_iff, !bool_decide_eq_true.
  rewrite !decision_reasons by done. split.
  - intros [H|H]; inversion H; auto.
  - intros [H|H]; [left|right]; by constructor.
Qed.

Lemma mandatory_ids_spec i :
  i ∈ mandatory_ids decisions ↔
    ∃ r, r ∈ revs ∧ rc_object_id r = i ∧ (is_latest revs r ∨ rc_protected r = true).
Proof using Hin Hm.
  unfold mandatory_ids. rewrite elem_of_list_to_set, list_elem_of_fmap.
  setoid_rewrite list_elem_of_filter. setoid_rewrite list_elem_of_fmap. split.
  - intros (d & -> & Hd & r & -> & Hr%elem_of_sort_by). exists r.
    split_and!; [done..|]. by apply decision_mandatory.
  - intros (r & Hr & <- & Hx). exists (revision_decision m r).
    split_and!; [done|by apply decision_mandatory|].
    exists r. by rewrite elem_of_sort_by.
Qed.

Lemma mandatory_is_kept r :
  r ∈ revs → rc_object_id r ∈ mandatory_ids decisions →
  rd_keep (revision_decision m r) = true.
Proof using Hin Hm.
  intros Hr (r' & Hr' & Hid & Hx)%mandatory_ids_spec.
  rewrite (NoDup_map_inj rc_object_id revs r' r) in Hx by (done || apply Hin).
  apply decision_keep; [done|]. destruct Hx; eexists; by constructor.
Qed.
End planner.

(** The plan with the cap, decision by decision. *)
Lemma apply_cap_ids cap ds : map rd_object_id (apply_cap cap ds) = map rd_object_id ds.
Proof. unfold apply_cap. repeat case_match; auto using cap_loop_ids. Qed.

Lemma apply_cap_mandatory cap ds d :
  d ∈ ds → rd_object_id d ∈ mandatory_ids ds → d ∈ apply_cap cap ds.
Proof. unfold apply_cap. repeat case_match; auto using cap_loop_mandatory. Qed.

Lemma apply_cap_kept cap ds d : d ∈ apply_cap cap ds → rd_keep d = true → d ∈ ds.
Proof. unfold apply_cap. repeat case_match; eauto using cap_loop_kept. Qed.

(** C1: Without a copy limit, the planner's loops implement the retention
    rules: there is one decision per revision, newest revision first, a
    revision is kept exactly when some rule gives a reason, and the reasons
    listed are those the rules give. *)
Theorem plan_revisions_implements_rules settings revs now ds :
  planner_input settings revs → max_revisions_per_target settings = None →
  plan_revisions settings revs now = Ok ds →
  map rd_object_id ds = map rc_object_id (sort_by order revs) ∧
  ∀ r, r ∈ revs → ∃ d, d ∈ ds ∧ rd_object_id d = rc_object_id r ∧
    (rd_keep d = true ↔ ∃ x, keep_reason settings now revs r x) ∧
    (∀ x, x ≠ "Outside retention windows" →
      x ∈ rd_reasons d ↔ keep_reason settings now revs r x).
Proof.
  intros Hin Hcap (_ & m & Hm & ->)%plan_revisions_inv. rewrite Hcap. simpl. split.
  { rewrite map_map. done. }
  intros r Hr. exists (revision_decision m r). split_and!; [|done|..].
  - apply list_elem_of_fmap_2. by apply elem_of_sort_by.
  - by apply decision_keep.
  - intros x. by apply decision_reasons.
Qed.

Lemma mandatory_revisions_kept settings revs now ds r :
  planner_input settings revs → plan_revisions settings revs now = Ok ds →
  r ∈ revs → is_latest revs r ∨ rc_protected r = true →
  ∃ d, d ∈ ds ∧ rd_object_id d = rc_object_id r ∧ rd_keep d = true.
Proof.
  intros Hin (_ & m & Hm & ->)%plan_revisions_inv Hr Hx.
  assert (rc_object_id r ∈ mandatory_ids (map (revision_decision m) (sort_by order revs)))
    as Hmand by (apply (mandatory_ids_spec settings revs now); eauto).
  exists (revision_decision m r). split_and!; [|done|].
  - apply apply_cap_mandatory; [|done]. apply list_elem_of_fmap_2. by apply elem_of_sort_by.
  - by eapply mandatory_is_kept.
Qed.

Lemma decisions_of_plan settings revs now ds :
  planner_input settings revs → plan_revisions settings revs now = Ok ds →
  map rd_object_id ds = map rc_object_id (sort_by order revs).
Proof.
  intros Hin (_ & m & Hm & ->)%plan_revisions_inv. rewrite apply_cap_ids. by rewrite map_map.
Qed.

(** C2: Whatever the settings and the copy limit, the plan keeps the newest
    revision and every protected revision. *)
Theorem plan_revisions_keeps_mandatory settings revs now ds r :
  planner_input settings revs → plan_revisions settings revs now = Ok ds →
  r ∈ revs → is_latest revs r ∨ rc_protected r = true →
  ∃ d, d ∈ ds ∧ rd_object_id d = rc_object_id r ∧ rd_keep d = true.
Proof. apply mandatory_revisions_kept. Qed.

(** ** The copy limit and repeated cleanups *)

Lemma kept_split mandatory ds :
  length (kept ds) =
  (length (filter (λ d, rd_keep d = true ∧ rd_object_id d ∈ mandatory) ds)
   + length (optional_kept mandatory ds))%nat.
Proof.
  unfold kept, optional_kept. induction ds as [|d ds IH]; [done|].
  rewrite !filter_cons. repeat case_decide; simpl; lia || naive_solver.
Qed.

Lemma NoDup_ids_filter (P : RetentionDecision → Prop) `{!∀ d, Decision (P d)} ds :
  NoDup (map rd_object_id ds) → NoDup (map rd_object_id (filter P ds)).
Proof. intros. eapply NoDup_map_sublist; [apply sublist_filter|done]. Qed.

Lemma decisions_nodup m revs :
  NoDup (map rc_object_id revs) →
  NoDup (map rd_object_id (map (revision_decision m) (sort_by order revs))).
Proof.
  intros Hn. rewrite map_map. apply (sort_newest_first created_of) in Hn. exact (newest_first_nodup _ _ _ Hn).
Qed.

(** The newest revision of a non-empty history. *)
Lemma latest_exists revs :
  NoDup (map rc_object_id revs) → revs ≠ [] → ∃ r0, r0 ∈ revs ∧ is_latest revs r0 ∧
    ∀ r, r ∈ revs → is_latest revs r → r = r0.
Proof.
  intros Hn Hne. pose proof (sort_newest_first created_of _ revs Hn) as Ho.
  destruct (sort_by order revs) as [|r0 l] eqn:E.
  { destruct Hne. apply Permutation_nil_r. rewrite <-E. by rewrite sort_by_perm. }
  assert (∀ r, r ∈ revs ↔ r ∈ r0 :: l) as Hr by (intros r; by rewrite <-E, elem_of_sort_by).
  exists r0. split_and!; [apply Hr; set_solver|..].
  - intros r' Hr'. apply (head_is_latest _ Ho); [set_solver|done|by apply Hr].
  - intros r Hr1 Hl. apply Hr in Hr1 as Hr2.
    assert (hd_error (r0 :: l) = Some r) as [= <-]; [|done].
    apply head_is_latest; [done..|]. intros r' Hr'. by apply Hl, Hr.
Qed.

Lemma mandatory_size settings revs now m :
  planner_input settings revs → revision_reasons settings (sort_by order revs) now = Ok m →
  (size (mandatory_ids (map (revision_decision m) (sort_by order revs)))
   ≤ S (length (filter (λ r, rc_protected r = true) revs)))%nat.
Proof.
  intros Hin Hm. destruct revs as [|r revs']; [apply Nat.le_0_l|].
  remember (r :: revs') as revs eqn:E.
  destruct (latest_exists revs) as (r0 & Hr0 & Hl0 & Hu); [apply Hin|by subst|].
  set (ids := rc_object_id r0 :: map rc_object_id (filter (λ r, rc_protected r = true) revs)).
  transitivity (size (list_to_set ids : gset Z)).
  - apply subseteq_size. intros i (r1 & Hr1 & <- & Hx)%(mandatory_ids_spec settings revs now);
      [|done..]. apply elem_of_list_to_set. subst ids. destruct Hx as [Hl|Hp].
    + rewrite (Hu r1) by done. set_solver.
    + apply elem_of_cons. right. apply list_elem_of_fmap_2. by apply list_elem_of_filter.
  - etransitivity; [apply size_list_to_set_le|]. subst ids. simpl. by rewrite length_map.
Qed.

(** C3: A copy limit is respected: apart from the newest and the protected
    revisions, which always win, the plan keeps no more revisions than the
    limit. *)
Theorem plan_revisions_respects_cap settings revs now ds c :
  planner_input settings revs → max_revisions_per_target settings = Some c → 0 < c →
  plan_revisions settings revs now = Ok ds →
  Z.of_nat (length (kept ds)) <=
    Z.max c (1 + Z.of_nat (length (filter (λ r, rc_protected r = true) revs))).
Proof.
  intros Hin Hcap Hc (_ & m & Hm & ->)%plan_revisions_inv. rewrite Hcap.
  pose proof (mandatory_size settings revs now m Hin Hm) as Hsize.
  unfold apply_cap. destruct (Z.eqb_spec c 0); [lia|].
  set (ds := map _ _) in *. set (mand := mandatory_ids ds) in *.
  set (k := Z.max (c - Z.of_nat (size mand)) 0).
  rewrite (kept_split mand).
  pose proof (cap_loop_optional mand k ds ltac:(lia)) as Ho.
  assert (length (filter (λ d, rd_keep d = true ∧ rd_object_id d ∈ mand) (cap_loop mand k ds))
    ≤ size mand)%nat as Hm'; [|lia].
  rewrite <-(length_map rd_object_id). unfold size, set_size, compose. simpl.
  apply NoDup_length_le.
  - apply NoDup_ids_filter. rewrite cap_loop_ids. apply decisions_nodup, Hin.
  - intros i (d & -> & [[_ Hd] _]%list_elem_of_filter)%list_elem_of_fmap.
    by apply elem_of_elements.
Qed.

(** The revisions left after a plan has been carried out. *)
Definition survivors (revs : list RevisionCandidate) (ds : list RetentionDecision) :
    list RevisionCandidate :=
  filter (λ r, rc_object_id r ∈ map rd_object_id (kept ds)) revs.

Lemma planner_input_sublist settings revs1 revs2 :
  sublist revs1 revs2 → planner_input settings revs2 → planner_input settings revs1.
Proof.
  intros Hs [Hn Ha Hm Hc]. split; [by eapply NoDup_map_sublist| |done..].
  rewrite Forall_forall in Ha |- *. intros r Hr. apply Ha. by eapply elem_of_sublist.
Qed.

Lemma apply_cap_stable cap ds1 ds2 :
  mandatory_ids ds2 = mandatory_ids ds1 →
  (∀ mand, length (optional_kept mand ds2) ≤ length (optional_kept mand (apply_cap cap ds1)))%nat →
  apply_cap cap ds2 = ds2.
Proof.
  intros Hm Ho. unfold apply_cap in *. destruct cap as [c|]; [|done].
  destruct (c =? 0); [done|]. rewrite Hm. apply cap_loop_small.
  etransitivity; [apply inj_le, Ho|]. apply cap_loop_optional. lia.
Qed.

Section replan.
Context (settings : RetentionSettings) (revs : list RevisionCandidate) (now : Z).
Context (Hin : planner_input settings revs).
Context (m : gmap Z (list string)).
Context (Hm : revision_reasons settings (sort_by order revs) now = Ok m).

Abbreviation decisions1 := (map (revision_decision m) (sort_by order revs)).
Abbreviation plan1 := (apply_cap (max_revisions_per_target settings) decisions1).
Abbreviation rest := (survivors revs plan1).

Lemma rest_input : planner_input settings rest.
Proof using Hin. eapply planner_input_sublist; [apply sublist_filter|done]. Qed.

(** A survivor was kept by some rule. *)
Lemma rest_reason r : r ∈ rest → ∃ x, keep_reason settings now revs r x.
Proof using Hin Hm.
  intros [(d & Hid & Hd)%list_elem_of_fmap Hr]%list_elem_of_filter.
  apply list_elem_of_filter in Hd as [Hk Hd].
  apply apply_cap_kept in Hd as Hd'; [|done].
  apply list_elem_of_fmap in Hd' as (r' & -> & Hr'%elem_of_sort_by).
  rewrite (NoDup_map_inj rc_object_id revs r r') by (done || apply Hin).
  by eapply decision_keep.
Qed.

Lemma mandatory_survives r :
  r ∈ revs → is_latest revs r ∨ rc_protected r = true → r ∈ rest.
Proof using Hin Hm.
  intros Hr Hx. apply list_elem_of_filter. split; [|done].
  assert (rc_object_id r ∈ mandatory_ids decisions1) as Hmand
    by (apply (mandatory_ids_spec settings revs now); eauto).
  apply list_elem_of_fmap. exists (revision_decision m r). split; [done|].
  apply list_elem_of_filter. split; [by eapply mandatory_is_kept|].
  apply apply_cap_mandatory; [|done]. apply list_elem_of_fmap_2. by apply elem_of_sort_by.
Qed.

(** The newest survivor is the newest revision. *)
Lemma rest_latest r : r ∈ rest → is_latest rest r ↔ is_latest revs r.
Proof using Hin Hm.
  intros Hr. assert (r ∈ revs) as Hr' by (by apply list_elem_of_filter in Hr as [_ ?]).
  split.
  - intros Hl r' Hr1 Hn.
    destruct (latest_exists revs) as (r0 & Hr0 & Hl0 & _); [apply Hin|set_solver|].
    apply (Hl r0); [apply mandatory_survives; auto|].
    pose proof (Hl0 r' Hr1) as H0. unfold newer_by in *. lia.
  - intros Hl r' [_ Hr1]%list_elem_of_filter. by apply Hl.
Qed.

Context (m2 : gmap Z (list string)).
Context (Hm2 : revision_reasons settings (sort_by order rest) now = Ok m2).

Abbreviation decisions2 := (map (revision_decision m2) (sort_by order rest)).

Lemma rest_decisions_keep d : d ∈ decisions2 → rd_keep d = true.
Proof using Hin Hm Hm2.
  intros (r & -> & Hr%elem_of_sort_by)%list_elem_of_fmap.
  apply (decision_keep settings rest now rest_input m2 Hm2); [done|].
  destruct (rest_reason r Hr) as [x Hx]. exists x.
  eapply keep_reason_sublist; [apply sublist_filter|done].
Qed.

Lemma rest_mandatory : mandatory_ids decisions2 = mandatory_ids decisions1.
Proof using Hin Hm Hm2.
  apply set_eq. intros i.
  rewrite (mandatory_ids_spec settings rest now rest_input m2 Hm2).
  rewrite (mandatory_ids_spec settings revs now Hin m Hm). split.
  - intros (r & Hr & <- & Hx). exists r. rewrite rest_latest in Hx by done.
    apply list_elem_of_filter in Hr as [_ Hr]. auto.
  - intros (r & Hr & <- & Hx). exists r. apply mandatory_survives in Hx as Hr2; [|done].
    rewrite rest_latest by done. auto.
Qed.

Lemma rest_optional mand :
  (length (optional_kept mand decisions2) ≤ length (optional_kept mand plan1))%nat.
Proof using Hin Hm Hm2.
  rewrite <-(length_map rd_object_id (optional_kept mand decisions2)).
  rewrite <-(length_map rd_object_id (optional_kept mand plan1)).
  apply NoDup_length_le.
  - apply NoDup_ids_filter, decisions_nodup, rest_input.
  - intros i (d & -> & [[_ Hd] Hd2]%list_elem_of_filter)%list_elem_of_fmap.
    apply list_elem_of_fmap in Hd2 as (r & -> & Hr%elem_of_sort_by). simpl in *.
    apply list_elem_of_filter in Hr as [(d1 & E & Hd1)%list_elem_of_fmap _].
    rewrite E in Hd |- *. apply list_elem_of_fmap_2. apply list_elem_of_filter.
    apply list_elem_of_filter in Hd1 as [? ?]. auto.
Qed.

Lemma replan_keeps_all d :
  d ∈ apply_cap (max_revisions_per_target settings) decisions2 → rd_keep d = true.
Proof using Hin Hm Hm2.
  rewrite (apply_cap_stable _ decisions1); [apply rest_decisions_keep|..].
  - apply rest_mandatory.
  - apply rest_optional.
Qed.
End replan.

(** Retention is idempotent: planning again, at the same time and with
    the same settings, over the revisions a plan kept deletes nothing more. *)
Theorem plan_revisions_idempotent settings revs now ds :
  planner_input settings revs → plan_revisions settings revs now = Ok ds →
  ∃ ds', plan_revisions settings (survivors revs ds) now = Ok ds' ∧
    Forall (λ d, rd_keep d = true) ds'.
Proof.
  intros Hin (_ & m & Hm & ->)%plan_revisions_inv.
  edestruct (plan_revisions_ok settings
    (survivors revs (apply_cap (max_revisions_per_target settings)
       (map (revision_decision m) (sort_by order revs)))) now) as (m2 & Hm2 & ->).
  - apply (rest_input settings revs Hin).
  - unfold revision_reasons in Hm. by destruct (minus_days _ _).
  - eexists. split; [done|]. apply Forall_forall. intros d.
    by apply (replan_keeps_all settings revs now Hin m Hm m2 Hm2).
Qed.

(** ** Properties of the run planner *)

Definition run_time (r : RunCandidate) : Z := dt_key (rn_timestamp r).

(** A completed run inside its retention window. *)
Definition in_window (settings : RetentionSettings) (now : Z) (r : RunCandidate) : bool :=
  is_completed r && match run_window settings now r with Ok (keep, _) => keep | Err _ => false end.

Lemma run_window_always settings now run :
  is_completed run = false → ∃ reason, run_window settings now run = Ok (true, reason).
Proof.
  unfold is_completed, run_window. intros Hc.
  destruct (decide (rn_status run ∈ ACTIVE_RUN_STATUSES)) as [|Ha]; [eauto|].
  destruct (decide (rn_status run ∉ KNOWN_RUN_STATUSES)) as [|Hk]; [eauto|].
  apply dec_stable in Hk. by rewrite (bool_decide_true _ Hk), (bool_decide_false _ Ha) in Hc.
Qed.

Lemma run_loop_split settings now k l ds l1 r l2 :
  run_loop settings now k l = Ok ds → l = l1 ++ r :: l2 →
  ∃ ds1 d ds2, ds = ds1 ++ d :: ds2 ∧ length ds1 = length l1 ∧
    rd_object_id d = rn_object_id r ∧
    rd_keep d =
      (if is_completed r
       then in_window settings now r
            && (k + Z.of_nat (length (filter (λ x, in_window settings now x = true) l1))
                <? max_runs_per_target settings)
       else true).
Proof.
  revert k ds l1. induction l as [|x l IH]; intros k ds l1; [by destruct l1|].
  simpl. intros H E. apply result_bind_Ok in H as ([] & _ & H).
  apply result_bind_Ok in H as ([kp rs] & Hw & H).
  assert (in_window settings now x = is_completed x && kp) as Hx
    by (unfold in_window; by rewrite Hw).
  destruct l1 as [|y l1]; simpl in E; injection E as <- ->.
  - exists []. rewrite Hx. simpl in *. destruct (is_completed x) eqn:Ec; simpl in *.
    + destruct kp; simpl in *; [destruct (Z.leb_spec (max_runs_per_target settings) k)|];
        apply result_bind_Ok in H as (ds' & _ & [= <-]); do 2 eexists; split_and!; try done;
        symmetry; simpl; [apply Z.ltb_ge|apply Z.ltb_lt]; lia.
    + apply result_bind_Ok in H as (ds' & _ & [= <-]). do 2 eexists. split_and!; [done..|].
      simpl. destruct (run_window_always settings now x Ec) as [? Hw']. congruence.
  - simpl in H. destruct (is_completed x && kp) eqn:Ew; simpl in H;
      [rewrite filter_cons_True by done
      |rewrite filter_cons_False by (rewrite Hx; done)].
    + destruct (Z.leb_spec (max_runs_per_target settings) k);
        apply result_bind_Ok in H as (ds' & Hr & [= <-]);
        destruct (IH _ _ l1 Hr eq_refl) as (ds1 & d & ds2 & -> & Hlen & Hid & Hk);
        eexists (_ :: ds1), d, ds2; simpl; rewrite Hlen, Hk; split_and!; try done;
        destruct (is_completed r), (in_window settings now r); try done; simpl;
        apply eq_true_iff_eq; rewrite !Z.ltb_lt; lia.
    + apply result_bind_Ok in H as (ds' & Hr & [= <-]).
      destruct (IH _ _ l1 Hr eq_refl) as (ds1 & d & ds2 & -> & Hlen & Hid & Hk).
      eexists (_ :: ds1), d, ds2. simpl. by rewrite Hlen, Hk.
Qed.

Lemma run_loop_ids settings now l : ∀ k ds,
  run_loop settings now k l = Ok ds → map rd_object_id ds = map rn_object_id l.
Proof.
  induction l as [|r l IH]; intros k ds Hr; simpl in Hr; [by injection Hr as <-|].
  apply result_bind_Ok in Hr as (? & _ & Hr). apply result_bind_Ok in Hr as (kr & _ & Hr).
  destruct (is_completed r && kr.1); [destruct (_ <=? k)|];
    apply result_bind_Ok in Hr as (ds' & Hl & [= <-]); simpl; f_equal; by eapply IH.
Qed.

Lemma plan_runs_ids settings runs now ds i :
  plan_runs settings runs now = Ok ds → i ∈ map rd_object_id ds → i ∈ map rn_object_id runs.
Proof.
  intros (o & Ho & H)%result_bind_Ok Hi. unfold sorted_newest in Ho.
  case_match; [|done]. injection Ho as <-. rewrite (run_loop_ids _ _ _ _ _ H) in Hi.
  apply list_elem_of_fmap in Hi as (r & -> & Hr). apply elem_of_sort_by in Hr.
  by apply list_elem_of_fmap_2.
Qed.

(** The run planner never deletes an active run or a run of unknown
    status, and keeps a completed run exactly when it is inside its window
    and fewer than [max_runs_per_target] newer completed runs are. *)
Theorem plan_runs_functional settings runs now ds r :
  NoDup (map rn_object_id runs) → plan_runs settings runs now = Ok ds → r ∈ runs →
  ∃ d, d ∈ ds ∧ rd_object_id d = rn_object_id r ∧
    (rd_keep d = true ↔
       is_completed r = false ∨
       in_window settings now r = true ∧
       Z.of_nat (length (filter (λ x, newer_by run_time rn_object_id x r
                                      ∧ in_window settings now x = true) runs))
         < max_runs_per_target settings).
Proof.
  intros Hnd (o & Ho & H)%result_bind_Ok Hr. unfold sorted_newest in Ho.
  case_match; [|done]. injection Ho as <-.
  change (key_geb _ _) with (key_geb run_time rn_object_id) in H.
  pose proof (sort_newest_first run_time rn_object_id runs Hnd) as Hl.
  assert (r ∈ sort_by (key_geb run_time rn_object_id) runs) as Hin by (by apply elem_of_sort_by).
  apply list_elem_of_split in Hin as (l1 & l2 & E).
  destruct (run_loop_split _ _ _ _ _ l1 r l2 H E) as (ds1 & d & ds2 & -> & _ & Hid & Hk).
  exists d. split_and!; [set_solver|done|]. rewrite Hk.
  assert (length (filter (λ x, newer_by run_time rn_object_id x r
      ∧ in_window settings now x = true) runs)
    = length (filter (λ x, in_window settings now x = true) l1)) as ->.
  { rewrite <-(count_newer run_time rn_object_id l1 l2 r) by (by rewrite <-E).
    rewrite list_filter_filter, <-E.
    erewrite list_filter_iff; [by rewrite sort_by_perm|]. intros x. simpl. tauto. }
  destruct (is_completed r) eqn:Ec.
  - rewrite andb_true_iff, Z.ltb_lt. split; [intros [? ?]; right; split; [done|lia]|].
    intros [?|[? ?]]; [done|]. split; [done|lia].
  - split; auto.
Qed.

(** ** Which policy applies *)

Record Policy := { policy_pk : Z }.

(** A foreign key and the row it points to. *)
Definition fk_id (p : option Policy) : option Z := policy_pk <$> p.

Record TargetPolicies := {
  retention_override : option Policy;
  (** [policy_override], with its [retention_policy]. *)
  policy_override : option (Z * Policy);
  target_remote_retention_policy : option Policy;
}.

Record StoragePolicies := {
  enforce_retention_policy : bool;
  local_retention_policy : option Policy;
  storage_remote_retention_policy : option Policy;
}.

(* src: services/retention.py 111 132 effective_retention_policy *)
Definition effective_retention_policy (target : TargetPolicies)
    (storage : option StoragePolicies) : option Policy :=
  match storage with
  | Some s =>
      if enforce_retention_policy s && truthy_id (fk_id (local_retention_policy s))
      then local_retention_policy s
      else if truthy_id (fk_id (retention_override target)) then retention_override target
      else if truthy_id (fst <$> policy_override target) then snd <$> policy_override target
      else if truthy_id (fk_id (local_retention_policy s)) then local_retention_policy s
      else None
  | None =>
      if truthy_id (fk_id (retention_override target)) then retention_override target
      else if truthy_id (fst <$> policy_override target) then snd <$> policy_override target
      else None
  end.

(* src: services/retention.py 135 138 effective_local_retention_policy *)
Definition effective_local_retention_policy (target : TargetPolicies)
    (storage : StoragePolicies) : option Policy :=
  effective_retention_policy target (Some storage).

(* src: services/retention.py 141 154 effective_remote_retention_policy *)
Definition effective_remote_retention_policy (target : TargetPolicies)
    (destination : StoragePolicies) : option Policy :=
  let own := storage_remote_retention_policy destination in
  if enforce_retention_policy destination && truthy_id (fk_id own) then own
  else if truthy_id (fk_id (target_remote_retention_policy target))
  then target_remote_retention_policy target
  else if truthy_id (fk_id own) then own
  else None.

(* src: services/retention.py 157 164 effective_remote_retention_policy_id *)
Definition effective_remote_retention_policy_id (target : TargetPolicies)
    (destination : StoragePolicies) : option Z :=
  let own := fk_id (storage_remote_retention_policy destination) in
  if enforce_retention_policy destination && truthy_id own then own
  else if truthy_id (fk_id (target_remote_retention_policy target))
  then fk_id (target_remote_retention_policy target)
  else own.

(* src: services/retention.py 167 176 local_retention_policy_source *)
Definition local_retention_policy_source (target : TargetPolicies)
    (storage : StoragePolicies) : string :=
  if enforce_retention_policy storage && truthy_id (fk_id (local_retention_policy storage))
  then "Storage enforced"
  else if truthy_id (fk_id (retention_override target)) then "Device override"
  else if truthy_id (fst <$> policy_override target) then "Backup policy"
  else if truthy_id (fk_id (local_retention_policy storage)) then "Storage default"
  else "Keep indefinitely".

(* src: services/retention.py 179 186 remote_retention_policy_source *)
Definition remote_retention_policy_source (target : TargetPolicies)
    (destination : StoragePolicies) : string :=
  let own := fk_id (storage_remote_retention_policy destination) in
  if enforce_retention_policy destination && truthy_id own then "Storage enforced"
  else if truthy_id (fk_id (target_remote_retention_policy target)) then "Device override"
  else if truthy_id own then "Storage default"
  else "Keep indefinitely".

(* src: services/retention.py 189 206 has_recorded_remote_copy *)
Definition has_recorded_remote_copy (replicas : list (option Z * bool * string)) : bool :=
  existsb (λ '(remote_deleted_at, remote_available, remote_path),
    bool_decide (remote_deleted_at = None)
    && (remote_available || negb (bool_decide (remote_path = "")))) replicas.

(** Primary keys are positive, so a foreign key is true exactly when set. *)
Definition positive_fk (p : option Policy) : Prop :=
  ∀ q, p = Some q → 0 < policy_pk q.

Lemma truthy_fk p : positive_fk p → truthy_id (fk_id p) = bool_decide (is_Some p).
Proof.
  intros H. destruct p as [q|]; simpl; [|done]. specialize (H q eq_refl).
  destruct (Z.eqb_spec (policy_pk q) 0); [lia|done].
Qed.

(** The label shown for a storage names the rule that chose the policy,
    and "Keep indefinitely" is shown exactly when no policy applies; the
    id-only resolver used under row locks agrees with the row resolver. *)
Theorem policy_resolution_consistent target storage :
  positive_fk (retention_override target) →
  positive_fk (target_remote_retention_policy target) →
  positive_fk (local_retention_policy storage) →
  positive_fk (storage_remote_retention_policy storage) →
  (∀ p q, policy_override target = Some (p, q) → 0 < p) →
  (effective_local_retention_policy target storage = None ↔
     local_retention_policy_source target storage = "Keep indefinitely") ∧
  (effective_remote_retention_policy target storage = None ↔
     remote_retention_policy_source target storage = "Keep indefinitely") ∧
  effective_remote_retention_policy_id target storage =
    fk_id (effective_remote_retention_policy target storage).
Proof.
  intros H1 H2 H3 H4 H5.
  assert (truthy_id (fst <$> policy_override target)
    = bool_decide (is_Some (policy_override target))) as E5.
  { destruct (policy_override target) as [[p q]|]; simpl; [|done].
    specialize (H5 p q eq_refl). destruct (Z.eqb_spec p 0); [lia|done]. }
  unfold effective_local_retention_policy, effective_retention_policy,
    local_retention_policy_source, effective_remote_retention_policy,
    remote_retention_policy_source, effective_remote_retention_policy_id.
  rewrite E5, !truthy_fk by done.
  destruct (retention_override target), (target_remote_retention_policy target),
    (local_retention_policy storage), (storage_remote_retention_policy storage),
    (enforce_retention_policy storage), (policy_override target) as [[]|]; simpl;
    repeat split; done.
Qed.

(** ** When planning fails *)

(** The window of [days] days before [now] stays inside the calendar. *)
Definition window_fits (now days : Z) : Prop :=
  0 <= days <= 999999999 ∧ instant_min <= now - days * us_per_day < instant_end.

Lemma minus_days_fits now days :
  window_fits now days → minus_days now days = Ok (now - days * us_per_day).
Proof.
  intros [? ?]. unfold minus_days.
  destruct (Z.ltb_spec 999999999 (Z.abs days)); [lia|].
  destruct (Z.ltb_spec (now - days * us_per_day) instant_min); [lia|].
  destruct (Z.leb_spec instant_end (now - days * us_per_day)); [lia|]. done.
Qed.

Lemma run_window_fits settings now run :
  window_fits now (unchanged_run_days settings) →
  window_fits now (changed_run_days settings) →
  window_fits now (failed_run_days settings) →
  ∃ kr, run_window settings now run = Ok kr.
Proof.
  intros Hu Hc Hf. unfold run_window, within_exact_days.
  rewrite !minus_days_fits by done. repeat case_match; simpl; eauto.
Qed.

Lemma run_loop_ok settings now k l :
  (∀ run, ∃ kr, run_window settings now run = Ok kr) →
  Forall (λ r, is_aware (rn_timestamp r) = true) l →
  ∃ ds, run_loop settings now k l = Ok ds ∧ map rd_object_id ds = map rn_object_id l.
Proof.
  intros Hw. revert k. induction l as [|x l IH]; intros k Ha; simpl; [by eexists|].
  apply Forall_cons in Ha as [Hx Ha]. unfold require_aware. rewrite Hx. simpl.
  destruct (Hw x) as [kr ->]. simpl.
  repeat case_match; edestruct IH as (ds & -> & E); try done; simpl; eexists;
    split; (done || simpl; by rewrite E).
Qed.

(** C4: Planning is total: with aware datetimes and windows inside the
    calendar it returns a plan with one decision per revision and per run. *)
Theorem build_retention_plan_total settings revs runs now :
  planner_input settings revs →
  Forall (λ r, is_aware (rn_timestamp r) = true) runs →
  window_fits now (keep_all_days settings) →
  window_fits now (unchanged_run_days settings) →
  window_fits now (changed_run_days settings) →
  window_fits now (failed_run_days settings) →
  ∃ p, build_retention_plan settings revs runs (Aware now) = Ok p ∧
    map rd_object_id (revision_decisions p) ≡ₚ map rc_object_id revs ∧
    map rd_object_id (run_decisions p) ≡ₚ map rn_object_id runs ∧
    revisions_to_keep p + revisions_to_delete p = Z.of_nat (length revs) ∧
    runs_to_keep p + runs_to_delete p = Z.of_nat (length runs).
Proof.
  intros Hin Ha Hk Hu Hc Hf. unfold build_retention_plan. simpl.
  destruct (plan_revisions_ok settings revs now) as (m & Hm & ->); [apply Hin|by rewrite minus_days_fits|].
  simpl. unfold plan_runs. rewrite sorted_newest_aware by done. simpl.
  set (runs' := sort_by _ runs). assert (runs' ≡ₚ runs) as Hp by apply sort_by_perm.
  destruct (run_loop_ok settings now 0 runs') as (ds & -> & E).
  { intros run. by apply run_window_fits. }
  { by rewrite Hp. }
  simpl. eexists. split; [done|]. simpl.
  assert (map rd_object_id (apply_cap (max_revisions_per_target settings)
    (map (revision_decision m) (sort_by order revs))) ≡ₚ map rc_object_id revs) as Er.
  { rewrite apply_cap_ids, map_map. simpl. by rewrite sort_by_perm. }
  assert (map rd_object_id ds ≡ₚ map rn_object_id runs) as En by (by rewrite E, Hp).
  split_and!; [done|done|..].
  - unfold revisions_to_delete. simpl. apply Permutation_length in Er.
    rewrite !length_map in Er. lia.
  - unfold runs_to_delete. simpl. apply Permutation_length in En.
    rewrite !length_map in En. lia.
Qed.

(** A keep-all window that reaches before year 1 makes every plan raise
    [OverflowError], even a plan over no revisions: [RetentionPolicy] puts no
    upper bound on [keep_all_days]. *)
Theorem keep_all_window_overflow settings revs runs now :
  Forall (λ r, is_aware (rc_created r) = true) revs →
  now - keep_all_days settings * us_per_day < instant_min →
  build_retention_plan settings revs runs (Aware now) = Err OverflowError.
Proof.
  intros Ha Ho. unfold build_retention_plan, plan_revisions. simpl.
  rewrite sorted_newest_aware by done. simpl.
  rewrite (proj2 (require_all_aware_ok _)) by (by rewrite Forall_map, sort_by_perm).
  simpl. unfold revision_reasons, minus_days.
  destruct (999999999 <? _); simpl; [done|].
  by rewrite (proj2 (Z.ltb_lt _ _) Ho).
Qed.

(** ** Witnesses: a small history, planned at day 20000 (2024-10-04) *)

Definition w_now : Z := 20000 * us_per_day + 3600000000.

Definition w_settings (cap : option Z) : RetentionSettings :=
  {| keep_all_days := 7; daily_days := 30; weekly_weeks := 12; monthly_months := 12;
     minimum_changed_revisions := 1; unchanged_run_days := 90; changed_run_days := 180;
     failed_run_days := 180; max_runs_per_target := 2; max_revisions_per_target := cap |}.

Definition w_rev (id day : Z) (protected changed : bool) : RevisionCandidate :=
  {| rc_object_id := id; rc_created := Aware (day * us_per_day);
     rc_protected := protected; rc_content_changed := changed |}.

(** Recent, two on one day, a protected old one, and an expired one. *)
Definition w_revs : list RevisionCandidate :=
  [w_rev 1 19000 true true; w_rev 2 19001 false true; w_rev 3 19990 false true;
   w_rev 4 19990 false false; w_rev 5 19998 false true].

Definition w_run (id day : Z) (status : string) : RunCandidate :=
  {| rn_object_id := id; rn_timestamp := Aware (day * us_per_day); rn_status := status |}.

Definition w_runs : list RunCandidate :=
  [w_run 1 19999 "running"; w_run 2 19998 "success_changed"; w_run 3 19997 "failed";
   w_run 4 19996 "success_unchanged"; w_run 5 19000 "failed"].

Definition w_plan (cap : option Z) : list RetentionDecision :=
  match plan_revisions (w_settings cap) w_revs w_now with Ok ds => ds | Err _ => [] end.

Definition w_run_plan : list RetentionDecision :=
  match plan_runs (w_settings None) w_runs w_now with Ok ds => ds | Err _ => [] end.

Example w_plan_kept : map (λ d, (rd_object_id d, rd_keep d)) (w_plan None) =
  [(5, true); (4, true); (3, false); (2, false); (1, true)].
Proof. vm_compute. reflexivity. Qed.

Example w_plan_capped : map (λ d, (rd_object_id d, rd_keep d)) (w_plan (Some 2)) =
  [(5, true); (4, false); (3, false); (2, false); (1, true)].
Proof. vm_compute. reflexivity. Qed.

Lemma w_input cap : (∀ c, cap = Some c → 0 <= c) → planner_input (w_settings cap) w_revs.
Proof.
  intros Hc. split; [| |done|done].
  - apply NoDup_ListNoDup. repeat constructor; simpl; intuition discriminate.
  - repeat constructor.
Qed.

Lemma plan_revisions_implements_rules_witness :
  map rd_object_id (w_plan None) = [5; 4; 3; 2; 1] ∧
  ∀ r, r ∈ w_revs → ∃ d, d ∈ w_plan None ∧ rd_object_id d = rc_object_id r ∧
    (rd_keep d = true ↔ ∃ x, keep_reason (w_settings None) w_now w_revs r x) ∧
    (∀ x, x ≠ "Outside retention windows" →
      x ∈ rd_reasons d ↔ keep_reason (w_settings None) w_now w_revs r x).
Proof.
  apply (plan_revisions_implements_rules (w_settings None) w_revs w_now (w_plan None));
    [by apply w_input|reflexivity|vm_compute; reflexivity].
Defined.

Lemma plan_revisions_keeps_mandatory_witness :
  ∃ d, d ∈ w_plan (Some 1) ∧ rd_object_id d = 1 ∧ rd_keep d = true.
Proof.
  apply (plan_revisions_keeps_mandatory (w_settings (Some 1)) w_revs w_now (w_plan (Some 1))
    (w_rev 1 19000 true true));
    [apply w_input; intros ? [= <-]; done|vm_compute; reflexivity|left|by right].
Defined.

Lemma plan_revisions_respects_cap_witness :
  Z.of_nat (length (kept (w_plan (Some 2)))) <= 2.
Proof.
  apply (plan_revisions_respects_cap (w_settings (Some 2)) w_revs w_now (w_plan (Some 2)) 2);
    [apply w_input; intros ? [= <-]; done|reflexivity|done|vm_compute; reflexivity].
Defined.

Lemma plan_revisions_idempotent_witness :
  ∃ ds', plan_revisions (w_settings (Some 2)) (survivors w_revs (w_plan (Some 2))) w_now
    = Ok ds' ∧ Forall (λ d, rd_keep d = true) ds'.
Proof.
  apply (plan_revisions_idempotent (w_settings (Some 2)) w_revs w_now (w_plan (Some 2)));
    [apply w_input; intros ? [= <-]; done|vm_compute; reflexivity].
Defined.

(** Run 4 is in its window, but two newer completed runs are kept. *)
Lemma plan_runs_functional_witness :
  ∃ d, d ∈ w_run_plan ∧ rd_object_id d = 4 ∧
    (rd_keep d = true ↔
       is_completed (w_run 4 19996 "success_unchanged") = false ∨
       in_window (w_settings None) w_now (w_run 4 19996 "success_unchanged") = true ∧
       Z.of_nat (length (filter (λ x,
         newer_by run_time rn_object_id x (w_run 4 19996 "success_unchanged")
         ∧ in_window (w_settings None) w_now x = true) w_runs)) < 2).
Proof.
  apply (plan_runs_functional (w_settings None) w_runs w_now w_run_plan
    (w_run 4 19996 "success_unchanged")).
  - apply NoDup_ListNoDup. repeat constructor; simpl; intuition discriminate.
  - vm_compute. reflexivity.
  - do 3 right. left.
Defined.

Lemma policy_resolution_consistent_witness :
  let t := {| retention_override := None; policy_override := Some (3, {| policy_pk := 4 |});
              target_remote_retention_policy := Some {| policy_pk := 5 |} |} in
  let s := {| enforce_retention_policy := true;
              local_retention_policy := None;
              storage_remote_retention_policy := Some {| policy_pk := 6 |} |} in
  effective_remote_retention_policy_id t s = Some 6.
Proof.
  intros t s. refine (proj2 (proj2 (policy_resolution_consistent t s _ _ _ _ _)));
    repeat intro; simpl in *; simplify_eq; done.
Defined.

Lemma build_retention_plan_total_witness :
  ∃ p, build_retention_plan (w_settings None) w_revs w_runs (Aware w_now) = Ok p ∧
    map rd_object_id (revision_decisions p) ≡ₚ map rc_object_id w_revs ∧
    map rd_object_id (run_decisions p) ≡ₚ map rn_object_id w_runs ∧
    revisions_to_keep p + revisions_to_delete p = 5 ∧
    runs_to_keep p + runs_to_delete p = 5.
Proof.
  apply (build_retention_plan_total (w_settings None) w_revs w_runs w_now);
    [by apply w_input|repeat constructor|split; vm_compute; done..].
Defined.

(** A million days is a valid [PositiveIntegerField] value. *)
Lemma keep_all_window_overflow_witness :
  let s := {| keep_all_days := 1000000; daily_days := 30; weekly_weeks := 12;
     monthly_months := 12; minimum_changed_revisions := 10; unchanged_run_days := 90;
     changed_run_days := 180; failed_run_days := 180; max_runs_per_target := 500;
     max_revisions_per_target := None |} in
  build_retention_plan s w_revs w_runs (Aware w_now) = Err OverflowError.
Proof.
  intros s. apply (keep_all_window_overflow s w_revs w_runs w_now);
    [repeat constructor|vm_compute; reflexivity].
Defined.
