(* ===== verification/Zones.v ===== *)
(** * Time zones: what the schedulers use of [zoneinfo]

    A zone is its transition table, the data of the tz database: the offset
    before the first transition, then each transition instant with the offset
    from then on.  [offset_at], [fold_at] and [wall_offset] are the lookups of
    [ZoneInfo.utcoffset] and [ZoneInfo.fromutc] (PEP 495).  All quantities are
    microseconds. *)

From Stdlib Require Import ZArith Lia.
From stdpp Require Import base list.
From S2P Require Import Prelude Calendar.
#[local] Open Scope Z_scope.

Record tzdata := {
  tz_before : Z;
  tz_transitions : list (Z * Z);
}.

(** A datetime of some zone: its wall clock and its [fold]. *)
Record local_dt := { wall : Z; fold : bool }.

Fixpoint offset_from (prev : Z) (l : list (Z * Z)) (u : Z) : Z :=
  match l with
  | [] => prev
  | (t, o) :: l' => if t <=? u then offset_from o l' u else prev
  end.

(** [fromutc] sets [fold] when the wall clock repeats after a transition. *)
Fixpoint fold_from (prev : Z) (l : list (Z * Z)) (u : Z) (cur : bool) : bool :=
  match l with
  | [] => cur
  | (t, o) :: l' => if t <=? u then fold_from o l' u (u - t <? prev - o) else cur
  end.

(** The wall-clock lookup: with [fold = 0] a transition takes effect at the
    later of its two wall clocks, with [fold = 1] at the earlier. *)
Fixpoint wall_offset_from (prev : Z) (l : list (Z * Z)) (w : Z) (f : bool) : Z :=
  match l with
  | [] => prev
  | (t, o) :: l' =>
      if t + (if f then Z.min prev o else Z.max prev o) <=? w
      then wall_offset_from o l' w f
      else prev
  end.

Definition offset_at (tz : tzdata) (u : Z) : Z :=
  offset_from (tz_before tz) (tz_transitions tz) u.
Definition fold_at (tz : tzdata) (u : Z) : bool :=
  fold_from (tz_before tz) (tz_transitions tz) u false.
Definition wall_offset (tz : tzdata) (d : local_dt) : Z :=
  wall_offset_from (tz_before tz) (tz_transitions tz) (wall d) (fold d).

(** [d.astimezone(zone)] and [d.astimezone(UTC)]. *)
Definition to_local (tz : tzdata) (u : Z) : local_dt :=
  {| wall := u + offset_at tz u; fold := fold_at tz u |}.
Definition to_utc (tz : tzdata) (d : local_dt) : Z := wall d - wall_offset tz d.

(** [datetime.combine(date, time, tzinfo=zone)] with a [time] of the database,
    whose [fold] is 0. *)
Definition combine (day time : Z) : local_dt :=
  {| wall := day * us_per_day + time; fold := false |}.

(** [d + timedelta]: wall-clock arithmetic, with [fold] 0. *)
Definition plus_us (d : local_dt) (us : Z) : local_dt :=
  {| wall := wall d + us; fold := false |}.

Definition UTC : tzdata := {| tz_before := 0; tz_transitions := [] |}.

(** ** Facts *)

(** Offsets are less than a day and transitions at least two days apart, as
    in the tz database. *)
Fixpoint tz_wf_from (prev : Z) (l : list (Z * Z)) : Prop :=
  Z.abs prev < us_per_day ∧
  match l with
  | [] => True
  | (t, o) :: l' =>
      tz_wf_from o l' ∧
      match l' with [] => True | (t', _) :: _ => t + 2 * us_per_day <= t' end
  end.
Definition tz_wf (tz : tzdata) : Prop := tz_wf_from (tz_before tz) (tz_transitions tz).

Lemma tz_wf_prev prev l : tz_wf_from prev l → Z.abs prev < us_per_day.
Proof. destruct l as [|[t o] l]; simpl; tauto. Qed.

Lemma wall_offset_bound prev l w f :
  tz_wf_from prev l → Z.abs (wall_offset_from prev l w f) < us_per_day.
Proof.
  revert prev. induction l as [|[t o] l IH]; intros prev Hwf; simpl.
  - by apply tz_wf_prev in Hwf.
  - case_match; [|by apply tz_wf_prev in Hwf]. apply IH. apply Hwf.
Qed.

Lemma offset_bound prev l u :
  tz_wf_from prev l → Z.abs (offset_from prev l u) < us_per_day.
Proof.
  revert prev. induction l as [|[t o] l IH]; intros prev Hwf; simpl.
  - by apply tz_wf_prev in Hwf.
  - case_match; [|by apply tz_wf_prev in Hwf]. apply IH. apply Hwf.
Qed.

(** A wall clock at or after a transition is an instant at or after it. *)
Lemma wall_after_transition prev t o l w :
  tz_wf_from prev ((t, o) :: l) → t + Z.max prev o <= w →
  t <= w - wall_offset_from o l w false.
Proof.
  revert prev t o. induction l as [|[t1 o1] l IH]; intros prev t o Hwf Hw; simpl; [lia|].
  destruct Hwf as (_ & Hwf & Hgap). case_match eqn:E; [|lia].
  apply Z.leb_le in E. apply (IH o) in E; [|done]. unfold us_per_day in *. lia.
Qed.

Lemma later_wall_from prev l u w cur :
  tz_wf_from prev l → fold_from prev l u cur = false →
  u + offset_from prev l u < w → u < w - wall_offset_from prev l w false.
Proof.
  revert prev cur. induction l as [|[t o] l IH]; intros prev cur Hwf Hf Hw; simpl in *; [lia|].
  destruct (Z.leb_spec t u) as [Htu|Htu]; destruct (Z.leb_spec (t + Z.max prev o) w) as [Hw'|Hw'].
  - eapply IH; [apply Hwf|exact Hf|exact Hw].
  - exfalso. destruct Hwf as (Hp & Hwf & Hgap).
    pose proof (offset_bound _ _ u Hwf) as Hb. pose proof (tz_wf_prev _ _ Hwf) as Ho.
    unfold us_per_day in *.
    destruct l as [|[t1 o1] l']; simpl in *; [apply Z.ltb_ge in Hf; lia|].
    destruct (Z.leb_spec t1 u); [lia|apply Z.ltb_ge in Hf; lia].
  - pose proof (wall_after_transition prev t o l w Hwf Hw'). lia.
  - lia.
Qed.

(** A wall clock later than that of an instant outside a fold is a later
    instant. *)
Lemma later_wall_later tz u w :
  tz_wf tz → fold_at tz u = false → wall (to_local tz u) < w →
  u < to_utc tz {| wall := w; fold := false |}.
Proof.
  intros Hwf Hf Hw. unfold to_utc, wall_offset. simpl.
  apply (later_wall_from _ _ u _ false); done.
Qed.

(** How far a conversion can move a wall clock. *)
Lemma to_utc_bound tz d : tz_wf tz → Z.abs (to_utc tz d - wall d) < us_per_day.
Proof.
  intros Hwf. unfold to_utc, wall_offset.
  pose proof (wall_offset_bound _ _ (wall d) (fold d) Hwf). lia.
Qed.

Lemma to_local_bound tz u : tz_wf tz → Z.abs (wall (to_local tz u) - u) < us_per_day.
Proof. intros Hwf. simpl. pose proof (offset_bound _ _ u Hwf). unfold offset_at. lia. Qed.

Lemma utc_roundtrip u : to_utc UTC (to_local UTC u) = u.
Proof. unfold to_utc, to_local, offset_at, wall_offset. simpl. lia. Qed.

Lemma UTC_wf : tz_wf UTC.
Proof. split; done. Qed.
