(* ===== verification/Models.v ===== *)
(** * The data model: [choices.py] and [models.py]

    Choice fields as enumerations with the value the database stores, one
    record per model with the fields the services read or write, and the
    tables.  A foreign key is the key of its row.  Datetimes are instants in
    microseconds (the database returns aware values); a time of day is
    microseconds from midnight. *)

From Stdlib Require Import ZArith Lia.
From stdpp Require Import base gmap sets list strings.
From S2P Require Import Prelude Json Calendar.
#[local] Open Scope string_scope.
#[local] Open Scope list_scope.
#[local] Open Scope Z_scope.

(** ** Choices *)

(* src: choices.py 10 12 ScheduleTypeChoices *)
Inductive ScheduleType := ST_INTERVAL | ST_DAILY.

(* src: choices.py 15 17 StoreModeChoices *)
Inductive StoreMode := SM_CHANGED_ONLY | SM_EVERY_SUCCESS.

(* src: choices.py 20 23 AddressPreferenceChoices *)
Inductive AddressPreference := AP_OOB_FIRST | AP_PRIMARY4_FIRST | AP_PRIMARY6_FIRST.

(* src: choices.py 26 29 ConnectionProtocolChoices *)
Inductive ConnectionProtocol := CP_AUTOMATIC | CP_SSH | CP_TELNET.

(* src: choices.py 32 35 SSHHostKeyPolicyChoices *)
Inductive SSHHostKeyPolicy := HP_STRICT | HP_TRUST_ON_FIRST_USE | HP_DISABLED.

(* src: choices.py 38 40 AuthTypeChoices *)
Inductive AuthType := AT_PASSWORD | AT_SSH_KEY.

(* src: choices.py 43 45 ReceiverModeChoices *)
Inductive ReceiverMode := RM_DIRECT | RM_REVERSE_TUNNEL.

(* src: choices.py 48 50 ReceiverProtocolChoices *)
Inductive ReceiverProtocol := RX_SFTP | RX_FTP.

(* src: choices.py 53 58 DestinationProtocolChoices *)
Inductive DestinationProtocol := DP_LOCAL | DP_SFTP | DP_FTP | DP_NFS | DP_SMB.

(* src: choices.py 81 83 FtpAuditFrequencyChoices *)
Inductive FtpAuditFrequency := AF_DAILY | AF_WEEKLY.

(* src: choices.py 86 89 FtpAuditStatusChoices *)
Inductive FtpAuditStatus := AS_HEALTHY | AS_PROBLEMS | AS_FAILED.

(* src: choices.py 102 105 SSHHostKeyStatusChoices *)
Inductive SSHHostKeyStatus := HK_PENDING | HK_TRUSTED | HK_REJECTED.

(* src: choices.py 108 113 ReplicaStatusChoices *)
Inductive ReplicaStatus := RP_PENDING | RP_QUEUED | RP_RUNNING | RP_SUCCESS | RP_FAILED.

(* src: choices.py 116 121 TargetStatusChoices *)
Inductive TargetStatus := TS_NEVER | TS_HEALTHY | TS_FAILED | TS_STALE | TS_DISABLED.

(* src: choices.py 124 128 RunSourceChoices *)
Inductive RunSource := SRC_SCHEDULED | SRC_MANUAL | SRC_RETRY | SRC_PRE_CHANGE.

(* src: choices.py 131 139 RunStatusChoices *)
Inductive RunStatus :=
  | RS_QUEUED | RS_RUNNING | RS_SUCCESS_UNCHANGED | RS_SUCCESS_CHANGED
  | RS_PARTIAL | RS_FAILED | RS_ERRORED | RS_SKIPPED.

#[export] Instance ScheduleType_eq_dec : EqDecision ScheduleType.
Proof. solve_decision. Defined.
#[export] Instance StoreMode_eq_dec : EqDecision StoreMode.
Proof. solve_decision. Defined.
#[export] Instance AddressPreference_eq_dec : EqDecision AddressPreference.
Proof. solve_decision. Defined.
#[export] Instance ConnectionProtocol_eq_dec : EqDecision ConnectionProtocol.
Proof. solve_decision. Defined.
#[export] Instance SSHHostKeyPolicy_eq_dec : EqDecision SSHHostKeyPolicy.
Proof. solve_decision. Defined.
#[export] Instance AuthType_eq_dec : EqDecision AuthType.
Proof. solve_decision. Defined.
#[export] Instance ReceiverMode_eq_dec : EqDecision ReceiverMode.
Proof. solve_decision. Defined.
#[export] Instance ReceiverProtocol_eq_dec : EqDecision ReceiverProtocol.
Proof. solve_decision. Defined.
#[export] Instance DestinationProtocol_eq_dec : EqDecision DestinationProtocol.
Proof. solve_decision. Defined.
#[export] Instance FtpAuditFrequency_eq_dec : EqDecision FtpAuditFrequency.
Proof. solve_decision. Defined.
#[export] Instance FtpAuditStatus_eq_dec : EqDecision FtpAuditStatus.
Proof. solve_decision. Defined.
#[export] Instance SSHHostKeyStatus_eq_dec : EqDecision SSHHostKeyStatus.
Proof. solve_decision. Defined.
#[export] Instance ReplicaStatus_eq_dec : EqDecision ReplicaStatus.
Proof. solve_decision. Defined.
#[export] Instance TargetStatus_eq_dec : EqDecision TargetStatus.
Proof. solve_decision. Defined.
#[export] Instance RunSource_eq_dec : EqDecision RunSource.
Proof. solve_decision. Defined.
#[export] Instance RunStatus_eq_dec : EqDecision RunStatus.
Proof. solve_decision. Defined.

(* src: choices.py 124 128 RunSourceChoices *)
Definition run_source_value (s : RunSource) : string :=
  match s with
  | SRC_SCHEDULED => "scheduled" | SRC_MANUAL => "manual"
  | SRC_RETRY => "retry" | SRC_PRE_CHANGE => "pre_change"
  end.

(* src: choices.py 131 139 RunStatusChoices *)
Definition run_status_value (s : RunStatus) : string :=
  match s with
  | RS_QUEUED => "queued" | RS_RUNNING => "running"
  | RS_SUCCESS_UNCHANGED => "success_unchanged"
  | RS_SUCCESS_CHANGED => "success_changed"
  | RS_PARTIAL => "partial" | RS_FAILED => "failed"
  | RS_ERRORED => "errored" | RS_SKIPPED => "skipped"
  end.

(* src: choices.py 70 74 REPLICATED_DESTINATION_PROTOCOLS *)
Definition REPLICATED_DESTINATION_PROTOCOLS : list DestinationProtocol :=
  [DP_FTP; DP_NFS; DP_SMB].
(* src: choices.py 75 78 MOUNTED_DESTINATION_PROTOCOLS *)
Definition MOUNTED_DESTINATION_PROTOCOLS : list DestinationProtocol := [DP_NFS; DP_SMB].
(* src: choices.py 64 69 MANAGED_DESTINATION_PROTOCOLS *)
Definition MANAGED_DESTINATION_PROTOCOLS : list DestinationProtocol :=
  [DP_LOCAL; DP_FTP; DP_NFS; DP_SMB].

Definition is_replicated (p : DestinationProtocol) : bool :=
  bool_decide (p ∈ REPLICATED_DESTINATION_PROTOCOLS).
Definition is_mounted (p : DestinationProtocol) : bool :=
  bool_decide (p ∈ MOUNTED_DESTINATION_PROTOCOLS).

(** ** Models *)

(* src: models.py 43 66 OperationalSettings *)
Record OperationalSettings := {
  os_disabled_driver_ids : list string;
  os_retention_scheduler_enabled : bool;
  os_remote_retention_scheduler_enabled : bool;
  os_retention_scheduler_batch_size : Z;
  os_events_enabled : bool;
  os_notify_on_every_failure : bool;
  os_download_zip_encryption_enabled : bool;
}.
#[export] Instance eta_OperationalSettings : Eta OperationalSettings := λ r,
  {| os_disabled_driver_ids := os_disabled_driver_ids r;
     os_retention_scheduler_enabled := os_retention_scheduler_enabled r;
     os_remote_retention_scheduler_enabled := os_remote_retention_scheduler_enabled r;
     os_retention_scheduler_batch_size := os_retention_scheduler_batch_size r;
     os_events_enabled := os_events_enabled r;
     os_notify_on_every_failure := os_notify_on_every_failure r;
     os_download_zip_encryption_enabled := os_download_zip_encryption_enabled r |}.

(* src: models.py 95 112 RetentionPolicy *)
Record RetentionPolicy := {
  lp_pk : Z;
  lp_keep_all_days : Z;
  lp_daily_days : Z;
  lp_weekly_weeks : Z;
  lp_monthly_months : Z;
  lp_minimum_changed_revisions : Z;
  lp_unchanged_run_days : Z;
  lp_changed_run_days : Z;
  lp_failed_run_days : Z;
  lp_max_runs_per_target : Z;
}.
#[export] Instance eta_RetentionPolicy : Eta RetentionPolicy := λ r,
  {| lp_pk := lp_pk r; lp_keep_all_days := lp_keep_all_days r;
     lp_daily_days := lp_daily_days r; lp_weekly_weeks := lp_weekly_weeks r;
     lp_monthly_months := lp_monthly_months r;
     lp_minimum_changed_revisions := lp_minimum_changed_revisions r;
     lp_unchanged_run_days := lp_unchanged_run_days r;
     lp_changed_run_days := lp_changed_run_days r;
     lp_failed_run_days := lp_failed_run_days r;
     lp_max_runs_per_target := lp_max_runs_per_target r |}.

(* src: models.py 123 137 RemoteRetentionPolicy *)
Record RemoteRetentionPolicy := {
  rpol_pk : Z;
  rpol_keep_all_days : Z;
  rpol_daily_days : Z;
  rpol_weekly_weeks : Z;
  rpol_monthly_months : Z;
  rpol_minimum_changed_revisions : Z;
  rpol_max_copies_per_target : Z;
}.
#[export] Instance eta_RemoteRetentionPolicy : Eta RemoteRetentionPolicy := λ r,
  {| rpol_pk := rpol_pk r; rpol_keep_all_days := rpol_keep_all_days r;
     rpol_daily_days := rpol_daily_days r; rpol_weekly_weeks := rpol_weekly_weeks r;
     rpol_monthly_months := rpol_monthly_months r;
     rpol_minimum_changed_revisions := rpol_minimum_changed_revisions r;
     rpol_max_copies_per_target := rpol_max_copies_per_target r |}.

(* src: models.py 148 173 BackupPolicy *)
Record BackupPolicy := {
  po_pk : Z;
  po_enabled : bool;
  po_schedule_type : ScheduleType;
  po_interval_minutes : option Z;
  po_time_of_day : option Z;
  po_timezone_mode : string;
  po_jitter_minutes : Z;
  po_connection_timeout : Z;
  po_command_timeout : Z;
  po_max_retries : Z;
  po_retry_backoff_minutes : list Z;
  po_store_mode : StoreMode;
  po_retention_policy : Z;
}.
#[export] Instance eta_BackupPolicy : Eta BackupPolicy := λ r,
  {| po_pk := po_pk r; po_enabled := po_enabled r; po_schedule_type := po_schedule_type r;
     po_interval_minutes := po_interval_minutes r; po_time_of_day := po_time_of_day r;
     po_timezone_mode := po_timezone_mode r; po_jitter_minutes := po_jitter_minutes r;
     po_connection_timeout := po_connection_timeout r;
     po_command_timeout := po_command_timeout r; po_max_retries := po_max_retries r;
     po_retry_backoff_minutes := po_retry_backoff_minutes r;
     po_store_mode := po_store_mode r; po_retention_policy := po_retention_policy r |}.

(** The check constraint [ncb_policy_schedule_fields]. *)
(* src: models.py 179 196 BackupPolicy *)
Definition policy_schedule_fields (p : BackupPolicy) : bool :=
  match po_schedule_type p with
  | ST_INTERVAL =>
      bool_decide (is_Some (po_interval_minutes p)) && bool_decide (po_time_of_day p = None)
  | ST_DAILY =>
      bool_decide (po_interval_minutes p = None) && bool_decide (is_Some (po_time_of_day p))
  end.

(* src: models.py 212 234 ConnectionProfile *)
Record ConnectionProfile := {
  cp_pk : Z;
  cp_protocol : ConnectionProtocol;
  cp_address_preference : AddressPreference;
  cp_port : Z;
  cp_connect_timeout : Z;
  cp_command_timeout : Z;
  cp_keepalive : Z;
  cp_verify_host_key : bool;
  cp_auto_trust_first_host_key : bool;
  cp_known_hosts_path : string;
}.
#[export] Instance eta_ConnectionProfile : Eta ConnectionProfile := λ r,
  {| cp_pk := cp_pk r; cp_protocol := cp_protocol r;
     cp_address_preference := cp_address_preference r; cp_port := cp_port r;
     cp_connect_timeout := cp_connect_timeout r; cp_command_timeout := cp_command_timeout r;
     cp_keepalive := cp_keepalive r; cp_verify_host_key := cp_verify_host_key r;
     cp_auto_trust_first_host_key := cp_auto_trust_first_host_key r;
     cp_known_hosts_path := cp_known_hosts_path r |}.

(* src: models.py 262 270 CredentialProfile *)
Record CredentialProfile := {
  cr_pk : Z;
  cr_provider_id : string;
  cr_secret_reference : string;
  cr_auth_type : AuthType;
}.
#[export] Instance eta_CredentialProfile : Eta CredentialProfile := λ r,
  {| cr_pk := cr_pk r; cr_provider_id := cr_provider_id r;
     cr_secret_reference := cr_secret_reference r; cr_auth_type := cr_auth_type r |}.

(* src: models.py 293 438 BackupDestination *)
Record BackupDestination := {
  ds_pk : Z;
  ds_is_default : bool;
  ds_enabled : bool;
  ds_auto_replicate : bool;
  ds_integrity_audit_enabled : bool;
  ds_integrity_audit_frequency : FtpAuditFrequency;
  ds_integrity_audit_time : Z;
  ds_integrity_audit_weekday : Z;
  ds_next_integrity_audit_at : option Z;
  ds_last_integrity_audit_at : option Z;
  ds_last_integrity_audit_status : option FtpAuditStatus;
  ds_last_integrity_audit_problem_count : Z;
  ds_protocol : DestinationProtocol;
  ds_allow_insecure_ftp : bool;
  ds_host : string;
  ds_port : option Z;
  ds_base_path : string;
  ds_mount_path : string;
  ds_credential_profile : option Z;
  ds_connect_timeout : option Z;
  ds_max_retries : option Z;
  ds_retry_delay_minutes : option Z;
  ds_max_artifact_size : option Z;
  ds_local_retention_policy : option Z;
  ds_remote_retention_policy : option Z;
  ds_enforce_retention_policy : bool;
  ds_host_key_type : string;
  ds_host_key_public : string;
  ds_host_key_fingerprint_sha256 : string;
  ds_last_success_at : option Z;
  ds_last_error_code : string;
  ds_last_error_message : string;
}.
#[export] Instance eta_BackupDestination : Eta BackupDestination := λ r,
  {| ds_pk := ds_pk r; ds_is_default := ds_is_default r; ds_enabled := ds_enabled r;
     ds_auto_replicate := ds_auto_replicate r;
     ds_integrity_audit_enabled := ds_integrity_audit_enabled r;
     ds_integrity_audit_frequency := ds_integrity_audit_frequency r;
     ds_integrity_audit_time := ds_integrity_audit_time r;
     ds_integrity_audit_weekday := ds_integrity_audit_weekday r;
     ds_next_integrity_audit_at := ds_next_integrity_audit_at r;
     ds_last_integrity_audit_at := ds_last_integrity_audit_at r;
     ds_last_integrity_audit_status := ds_last_integrity_audit_status r;
     ds_last_integrity_audit_problem_count := ds_last_integrity_audit_problem_count r;
     ds_protocol := ds_protocol r; ds_allow_insecure_ftp := ds_allow_insecure_ftp r;
     ds_host := ds_host r; ds_port := ds_port r; ds_base_path := ds_base_path r;
     ds_mount_path := ds_mount_path r; ds_credential_profile := ds_credential_profile r;
     ds_connect_timeout := ds_connect_timeout r; ds_max_retries := ds_max_retries r;
     ds_retry_delay_minutes := ds_retry_delay_minutes r;
     ds_max_artifact_size := ds_max_artifact_size r;
     ds_local_retention_policy := ds_local_retention_policy r;
     ds_remote_retention_policy := ds_remote_retention_policy r;
     ds_enforce_retention_policy := ds_enforce_retention_policy r;
     ds_host_key_type := ds_host_key_type r; ds_host_key_public := ds_host_key_public r;
     ds_host_key_fingerprint_sha256 := ds_host_key_fingerprint_sha256 r;
     ds_last_success_at := ds_last_success_at r; ds_last_error_code := ds_last_error_code r;
     ds_last_error_message := ds_last_error_message r |}.

(* src: models.py 780 851 SftpReceiverProfile *)
Record SftpReceiverProfile := {
  rx_pk : Z;
  rx_enabled : bool;
  rx_protocol : ReceiverProtocol;
  rx_mode : ReceiverMode;
  rx_credential_profile : Z;
  rx_advertised_host : string;
  rx_advertised_port : Z;
  rx_bridge_host : string;
  rx_bridge_port : Z;
  rx_remote_bind_host : string;
  rx_remote_bind_port : Z;
  rx_upload_directory : string;
  rx_export_timeout : Z;
  rx_max_upload_size : Z;
  rx_passive_port_start : Z;
  rx_passive_port_end : Z;
}.
#[export] Instance eta_SftpReceiverProfile : Eta SftpReceiverProfile := λ r,
  {| rx_pk := rx_pk r; rx_enabled := rx_enabled r; rx_protocol := rx_protocol r;
     rx_mode := rx_mode r; rx_credential_profile := rx_credential_profile r;
     rx_advertised_host := rx_advertised_host r; rx_advertised_port := rx_advertised_port r;
     rx_bridge_host := rx_bridge_host r; rx_bridge_port := rx_bridge_port r;
     rx_remote_bind_host := rx_remote_bind_host r;
     rx_remote_bind_port := rx_remote_bind_port r;
     rx_upload_directory := rx_upload_directory r; rx_export_timeout := rx_export_timeout r;
     rx_max_upload_size := rx_max_upload_size r;
     rx_passive_port_start := rx_passive_port_start r;
     rx_passive_port_end := rx_passive_port_end r |}.

(* src: models.py 935 964 PlatformMapping *)
Record PlatformMapping := {
  pm_pk : Z;
  pm_platform : Z;
  pm_driver_id : string;
  pm_connection_profile : option Z;
  pm_credential_profile : option Z;
  pm_receiver_profile : option Z;
  pm_enabled : bool;
  pm_driver_options : gmap string json;
}.
#[export] Instance eta_PlatformMapping : Eta PlatformMapping := λ r,
  {| pm_pk := pm_pk r; pm_platform := pm_platform r; pm_driver_id := pm_driver_id r;
     pm_connection_profile := pm_connection_profile r;
     pm_credential_profile := pm_credential_profile r;
     pm_receiver_profile := pm_receiver_profile r; pm_enabled := pm_enabled r;
     pm_driver_options := pm_driver_options r |}.

(** What the plugin reads of NetBox's [dcim.Device]. *)
Record Device := {
  dv_pk : Z;
  dv_name : string;
  dv_platform : option Z;
  dv_oob_ip : option string;
  dv_primary_ip4 : option string;
  dv_primary_ip6 : option string;
  dv_site_time_zone : option string;
}.
#[export] Instance eta_Device : Eta Device := λ r,
  {| dv_pk := dv_pk r; dv_name := dv_name r; dv_platform := dv_platform r;
     dv_oob_ip := dv_oob_ip r; dv_primary_ip4 := dv_primary_ip4 r;
     dv_primary_ip6 := dv_primary_ip6 r; dv_site_time_zone := dv_site_time_zone r |}.

(* src: models.py 995 1069 BackupTarget *)
Record BackupTarget := {
  tg_pk : Z;
  tg_device : Z;
  tg_enabled : bool;
  tg_policy_override : option Z;
  tg_retention_override : option Z;
  tg_remote_retention_policy : option Z;
  tg_credential_override : option Z;
  tg_connection_override : option Z;
  tg_receiver_override : option Z;
  tg_driver_override : string;
  tg_driver_options_override : gmap string json;
  tg_next_run_at : option Z;
  tg_last_attempt_at : option Z;
  tg_last_success_at : option Z;
  tg_last_change_at : option Z;
  tg_status : TargetStatus;
  tg_consecutive_failures : Z;
  tg_last_revision : option Z;
  tg_created : option Z;
  (** The stamp NetBox puts on a row it saves; kept for targets only, nothing
      under src/ reads it. *)
  tg_last_updated : option Z;
}.
#[export] Instance eta_BackupTarget : Eta BackupTarget := λ r,
  {| tg_pk := tg_pk r; tg_device := tg_device r; tg_enabled := tg_enabled r;
     tg_policy_override := tg_policy_override r;
     tg_retention_override := tg_retention_override r;
     tg_remote_retention_policy := tg_remote_retention_policy r;
     tg_credential_override := tg_credential_override r;
     tg_connection_override := tg_connection_override r;
     tg_receiver_override := tg_receiver_override r;
     tg_driver_override := tg_driver_override r;
     tg_driver_options_override := tg_driver_options_override r;
     tg_next_run_at := tg_next_run_at r; tg_last_attempt_at := tg_last_attempt_at r;
     tg_last_success_at := tg_last_success_at r; tg_last_change_at := tg_last_change_at r;
     tg_status := tg_status r; tg_consecutive_failures := tg_consecutive_failures r;
     tg_last_revision := tg_last_revision r; tg_created := tg_created r;
     tg_last_updated := tg_last_updated r |}.

(* src: models.py 1113 1146 SSHHostKey *)
Record SSHHostKey := {
  hk_pk : Z;
  hk_target : Z;
  hk_address : string;
  hk_port : Z;
  hk_key_type : string;
  hk_public_key : string;
  hk_fingerprint_sha256 : string;
  hk_fingerprint_md5 : string;
  hk_status : SSHHostKeyStatus;
  hk_first_seen_at : Z;
  hk_last_seen_at : Z;
  hk_approved_at : option Z;
  hk_approved_by : option Z;
  hk_rejected_at : option Z;
}.
#[export] Instance eta_SSHHostKey : Eta SSHHostKey := λ r,
  {| hk_pk := hk_pk r; hk_target := hk_target r; hk_address := hk_address r;
     hk_port := hk_port r; hk_key_type := hk_key_type r; hk_public_key := hk_public_key r;
     hk_fingerprint_sha256 := hk_fingerprint_sha256 r;
     hk_fingerprint_md5 := hk_fingerprint_md5 r; hk_status := hk_status r;
     hk_first_seen_at := hk_first_seen_at r; hk_last_seen_at := hk_last_seen_at r;
     hk_approved_at := hk_approved_at r; hk_approved_by := hk_approved_by r;
     hk_rejected_at := hk_rejected_at r |}.

(* src: models.py 1180 1200 ConfigRevision *)
Record ConfigRevision := {
  rv_pk : Z;
  rv_target : Z;
  rv_revision_uuid : string;
  rv_normalized_hash : string;
  rv_normalizer_version : string;
  rv_driver_id : string;
  rv_content_changed : bool;
  rv_protected : bool;
  rv_previous_revision : option Z;
  rv_created : Z;
}.
#[export] Instance eta_ConfigRevision : Eta ConfigRevision := λ r,
  {| rv_pk := rv_pk r; rv_target := rv_target r; rv_revision_uuid := rv_revision_uuid r;
     rv_normalized_hash := rv_normalized_hash r;
     rv_normalizer_version := rv_normalizer_version r; rv_driver_id := rv_driver_id r;
     rv_content_changed := rv_content_changed r; rv_protected := rv_protected r;
     rv_previous_revision := rv_previous_revision r; rv_created := rv_created r |}.

(* src: models.py 1210 1226 ConfigArtifact *)
Record ConfigArtifact := {
  ar_pk : Z;
  ar_revision : Z;
  ar_artifact_type : string;
  ar_format : string;
  ar_storage_key : string;
  ar_size : Z;
  ar_raw_hash : string;
  ar_normalized_hash : string;
  ar_is_primary : bool;
  ar_local_available : bool;
  ar_local_deleted_at : option Z;
}.
#[export] Instance eta_ConfigArtifact : Eta ConfigArtifact := λ r,
  {| ar_pk := ar_pk r; ar_revision := ar_revision r; ar_artifact_type := ar_artifact_type r;
     ar_format := ar_format r; ar_storage_key := ar_storage_key r; ar_size := ar_size r;
     ar_raw_hash := ar_raw_hash r; ar_normalized_hash := ar_normalized_hash r;
     ar_is_primary := ar_is_primary r; ar_local_available := ar_local_available r;
     ar_local_deleted_at := ar_local_deleted_at r |}.

(* src: models.py 1246 1276 RevisionReplica *)
Record RevisionReplica := {
  rp_pk : Z;
  rp_revision : Z;
  rp_destination : Z;
  rp_status : ReplicaStatus;
  rp_attempts : Z;
  rp_queued_at : Z;
  rp_started_at : option Z;
  rp_finished_at : option Z;
  rp_next_retry_at : option Z;
  rp_bytes_transferred : Z;
  rp_remote_path : string;
  rp_remote_available : bool;
  rp_remote_deleted_at : option Z;
  rp_error_code : string;
  rp_error_message : string;
  rp_job_id : option Z;
}.
#[export] Instance eta_RevisionReplica : Eta RevisionReplica := λ r,
  {| rp_pk := rp_pk r; rp_revision := rp_revision r; rp_destination := rp_destination r;
     rp_status := rp_status r; rp_attempts := rp_attempts r; rp_queued_at := rp_queued_at r;
     rp_started_at := rp_started_at r; rp_finished_at := rp_finished_at r;
     rp_next_retry_at := rp_next_retry_at r; rp_bytes_transferred := rp_bytes_transferred r;
     rp_remote_path := rp_remote_path r; rp_remote_available := rp_remote_available r;
     rp_remote_deleted_at := rp_remote_deleted_at r; rp_error_code := rp_error_code r;
     rp_error_message := rp_error_message r; rp_job_id := rp_job_id r |}.

(* src: models.py 1309 1350 BackupRun *)
Record BackupRun := {
  run_pk : Z;
  run_target : Z;
  run_source : RunSource;
  run_scheduled_for : option Z;
  run_dedupe_key : option string;
  run_queued_at : Z;
  run_started_at : option Z;
  run_finished_at : option Z;
  run_status : RunStatus;
  run_attempt_number : Z;
  run_error_code : string;
  run_error_message : string;
  run_revision : option Z;
  run_changed : bool;
  run_raw_changed : bool;
  run_job_id : option Z;
  run_triggered_by : option Z;
}.
#[export] Instance eta_BackupRun : Eta BackupRun := λ r,
  {| run_pk := run_pk r; run_target := run_target r; run_source := run_source r;
     run_scheduled_for := run_scheduled_for r; run_dedupe_key := run_dedupe_key r;
     run_queued_at := run_queued_at r; run_started_at := run_started_at r;
     run_finished_at := run_finished_at r; run_status := run_status r;
     run_attempt_number := run_attempt_number r; run_error_code := run_error_code r;
     run_error_message := run_error_message r; run_revision := run_revision r;
     run_changed := run_changed r; run_raw_changed := run_raw_changed r;
     run_job_id := run_job_id r; run_triggered_by := run_triggered_by r |}.
