(* ===== verification/DestinationPaths.v ===== *)
(** * Readable paths at a destination: [services/destination_paths.py] and the
    naming functions of [services/ftp_helpers.py]

    A revision is copied to a directory named after its device, its UTC time
    and its key.  The theorems say that the name of a device cannot leave its
    directory, whatever it contains, and that two revisions never share one. *)

From Stdlib Require Import ZArith Lia Strings.Ascii.
From stdpp Require Import base gmap list strings pretty numbers.
From S2P Require Import Prelude Strings Text Calendar Models.
#[local] Open Scope string_scope.
#[local] Open Scope list_scope.
#[local] Open Scope Z_scope.

(** The class [A-Za-z0-9._-], the complement of [_UNSAFE_SEGMENT]. *)
(* src: services/destination_paths.py 9 9 _UNSAFE_SEGMENT *)
Definition is_path_char (a : ascii) : bool :=
  is_upper a || is_lower a || is_digit a || char_in "._-" a.

Definition dash : ascii := "-"%char.

(* src: services/destination_paths.py 11 11 _MAX_DEVICE_SEGMENT_LENGTH *)
Definition MAX_DEVICE_SEGMENT_LENGTH : nat := 128.
(* src: services/destination_paths.py 12 12 _MAX_BACKUP_DEVICE_SEGMENT_LENGTH *)
Definition MAX_BACKUP_DEVICE_SEGMENT_LENGTH : nat := 96.

Section paths.
(** [unicodedata.normalize("NFKD", s)] *)
Context (nfkd : string → string).

(* src: services/destination_paths.py 15 23 device_directory_name *)
Definition device_directory_name (device_name : option string) (device_id : Z) : string :=
  let normalized := nfkd (default "" device_name) in
  let ascii_name := filter_chars (λ a, (N_of_ascii a <? 128)%N) normalized in
  let safe_name := sub_runs (λ a, negb (is_path_char a)) dash (strip is_space ascii_name) in
  let safe_name := strip (char_in "._-") (sub_runs (char_in "-") dash safe_name) in
  let safe_name := join "-" (filter (λ part, strip (char_in ".") part ≠ "")
                               (split_on dash safe_name)) in
  let safe_name := strip_right (char_in "._-")
                     (string_take MAX_DEVICE_SEGMENT_LENGTH safe_name) in
  if bool_decide (safe_name = "") then "device-" +:+ pretty device_id else safe_name.

(* src: services/destination_paths.py 26 40 revision_destination_path *)
Definition revision_destination_path (base_path : string) (device_name : option string)
    (device_id : Z) (revision_uuid : string) : string :=
  "/" +:+ strip_left (char_in "/")
    (posix_join (posix_join (posix_join (posix_join (strip (char_in "/") base_path) "devices")
       (device_directory_name device_name device_id)) "revisions") revision_uuid).

(** Two digits, as [%m] and its like print them. *)
Definition two_digits (n : Z) : string :=
  if n <? 10 then "0" +:+ pretty n else pretty n.

(* src: services/destination_paths.py 54 58 backup_creation_timestamp *)
Definition backup_creation_timestamp (created_at : datetime) : string :=
  let i := dt_key created_at in
  let day := date_of i in
  let seconds := (i - day * us_per_day) / 1000000 in
  pretty (year_of day) +:+ "-" +:+ two_digits (month_of day) +:+ "-"
  +:+ two_digits (day_of_month day) +:+ "_" +:+ two_digits (seconds / 3600) +:+ "-"
  +:+ two_digits (seconds / 60 mod 60) +:+ "-" +:+ two_digits (seconds mod 60).

(* src: services/destination_paths.py 43 51 backup_filename_stem *)
Definition backup_filename_stem (device_name : option string) (device_id : Z)
    (created_at : datetime) : string :=
  let device_segment := device_directory_name device_name device_id in
  strip_right (char_in "._-") (string_take MAX_BACKUP_DEVICE_SEGMENT_LENGTH device_segment)
  +:+ "_" +:+ backup_creation_timestamp created_at.

(* src: services/destination_paths.py 61 93 ftp_revision_destination_path *)
Definition ftp_revision_destination_path (base_path : string) (device_name : option string)
    (device_id : Z) (created_at : datetime) (revision_id : option Z)
    (revision_uuid : option string) : result string :=
  let path := posix_join (posix_join (posix_join (posix_join
      (strip (char_in "/") base_path) "devices")
      (device_directory_name device_name device_id)) "backups")
      (backup_creation_timestamp created_at) in
  path ← match revision_id, revision_uuid with
         | Some id, _ =>
             if id <=? 0 then Err (ValueError "revision_id must be a positive integer")
             else Ok (path +:+ "-r" +:+ pretty id)
         | None, Some uuid => Ok (posix_join path uuid)
         | None, None => Ok path
         end;
  Ok ("/" +:+ strip_left (char_in "/") path).

(** ** Names of files *)

(** [PurePosixPath(s).name] *)
Definition path_name (s : string) : string := default "" (list.last (path_parts s)).

(* src: services/ftp_helpers.py 25 29 artifact_filename *)
Definition artifact_filename (storage_key artifact_type : string) : string :=
  let filename := path_name storage_key in
  if negb (bool_decide (filename = "")) && negb (bool_decide (filename ∈ ["."; ".."]))
  then filename else artifact_type +:+ ".bin".

(** ["".join(PurePosixPath(name).suffixes)] of a plain name. *)
Definition joined_suffixes (name : string) : string :=
  let name := path_name name in
  if bool_decide (last_char name = Some "."%char) then ""
  else match split_on "." (strip_left (char_in ".") name) with
       | [] => ""
       | _ :: suffixes => foldr (λ s acc, "." +:+ s +:+ acc) "" suffixes
       end.

(* src: services/ftp_helpers.py 32 59 readable_artifact_filename *)
Definition readable_artifact_filename (device_name : option string) (device_id : Z)
    (created : datetime) (storage_key artifact_type : string) (is_primary : bool)
    (stem_override : option string) : string :=
  let original := artifact_filename storage_key artifact_type in
  let suffix := joined_suffixes original in
  let suffix :=
    if bool_decide (suffix = "") || (24 <? String.length suffix)%nat
       || negb (all_chars (λ a, is_upper a || is_lower a || is_digit a || char_in "." a) suffix)
    then ".bin" else suffix in
  let stem := match stem_override with
    | Some s => if bool_decide (s = "") then backup_filename_stem device_name device_id created
                else s
    | None => backup_filename_stem device_name device_id created
    end in
  if is_primary then stem +:+ suffix
  else
    let safe_type := string_take 48 (device_directory_name (Some artifact_type) 0) in
    let safe_type := if bool_decide (safe_type = "") then "artifact" else safe_type in
    stem +:+ "_" +:+ safe_type +:+ suffix.

(** The root of a POSIX path: exactly two leading slashes are kept. *)
Definition posix_root (s : string) : string :=
  if starts_with "//" s && negb (starts_with "///" s) then "//"
  else if is_absolute s then "/" else "".

(** [PurePosixPath(s).parts], the root included. *)
Definition pure_parts (s : string) : list string :=
  (if is_absolute s then [posix_root s] else []) ++ path_parts s.

(* src: services/ftp_helpers.py 62 66 uses_readable_ftp_layout *)
Definition uses_readable_ftp_layout (remote_path : string) : bool :=
  match reverse (pure_parts remote_path) with
  | _ :: parent :: rest =>
      bool_decide (parent = "backups") || bool_decide (head rest = Some "backups")
  | _ => false
  end.

(* src: services/ftp_helpers.py 69 84 validate_direct_filename *)
Definition validate_direct_filename (filename : string) : result unit :=
  if bool_decide (filename = "") || negb (bool_decide (path_name filename = filename))
     || bool_decide (filename ∈ ["."; ".."]) || has_char backslash filename
     || has_char nul filename || negb (all_chars (λ a, (32 <=? N_of_ascii a)%N) filename)
  then Err (DestinationError "DELETE_FILESET_INVALID"
              "An FTP revision filename is not safe to delete.")
  else Ok tt.
End paths.

(* src: services/ftp_helpers.py 87 101 is_missing_ftp_error *)
Definition is_missing_ftp_error (text : string) : bool :=
  let message := to_lower (strip is_space text) in
  if negb (starts_with "550" message) then false
  else existsb (λ marker, contains_text marker message)
    ["not found"; "no such"; "does not exist"; "cannot find"; "no files"; "empty"].

(* src: services/ftp_helpers.py 104 115 is_denied_ftp_error *)
Definition is_denied_ftp_error (text : string) : bool :=
  let message := to_lower (strip is_space text) in
  existsb (λ marker, contains_text marker message)
    ["permission"; "denied"; "not allowed"; "access is denied"; "access denied"].

(* src: services/ftp_helpers.py 118 119 join_ftp_path *)
Definition join_ftp_path (base : string) (parts : list string) : string :=
  foldl posix_join (strip_right (char_in "/") base) parts.

(* src: services/ftp_helpers.py 122 123 absolute_ftp_path *)
Definition absolute_ftp_path (path : string) : string :=
  "/" +:+ strip_left (char_in "/") path.

(** ** Device directories *)

Lemma path_char_excludes s c :
  all_chars is_path_char s = true → is_path_char c = false → has_char c s = false.
Proof. apply all_chars_no_char. Qed.

Lemma path_char_digit a : is_digit a = true → is_path_char a = true.
Proof. unfold is_path_char. intros ->. by rewrite orb_true_r. Qed.

Lemma pretty_path_chars n : 0 <= n → all_chars is_path_char (pretty n) = true.
Proof. intros Hn. eapply all_chars_weaken; [exact path_char_digit|by apply pretty_digits]. Qed.

Section facts.
Context (nfkd : string → string).

Lemma pretty_Z_path_chars (z : Z) : all_chars is_path_char (pretty z) = true.
Proof.
  destruct z as [|p|p]; [done|by apply pretty_path_chars|].
  change (all_chars is_path_char (String "-"%char (pretty (Z.pos p))) = true).
  by apply (pretty_path_chars (Z.pos p)).
Qed.

Lemma device_directory_name_chars name id :
  all_chars is_path_char (device_directory_name nfkd name id) = true.
Proof.
  unfold device_directory_name. cbv zeta. case_bool_decide.
  { by rewrite all_chars_app, pretty_Z_path_chars. }
  apply all_chars_strip_right, all_chars_take, all_chars_join; [done|].
  apply Forall_filtered, all_chars_split, all_chars_strip_right, all_chars_strip_left.
  apply (all_chars_sub_runs _ _ is_path_char); [done..|].
  apply (all_chars_sub_runs _ _ (λ _, true)); [done|by intros a _ ?%negb_false_iff|].
  generalize (strip is_space (filter_chars (λ a, (N_of_ascii a <? 128)%N) (nfkd (default "" name)))).
  intros s. by induction s.
Qed.

(** A device name never leaves its directory: whatever it contains, the
    directory name is one component, neither empty nor a dot name. *)
Lemma device_directory_name_dots name id :
  0 <= id →
  device_directory_name nfkd name id ≠ "" ∧
  (∀ a, last_char (device_directory_name nfkd name id) = Some a → a ≠ "."%char).
Proof.
  intros Hid. unfold device_directory_name. cbv zeta. case_bool_decide as H; [split|split; [done|]].
  - done.
  - intros a Ha ->. assert (all_chars is_digit (pretty id) = true) as Hd by by apply pretty_digits.
    apply last_char_app in Ha as [s' Hs].
    assert (has_char "."%char ("device-" +:+ pretty id) = true) as Hc
      by (rewrite Hs, has_char_app; cbn; by rewrite orb_true_r).
    rewrite has_char_app, (has_char_pretty _ id) in Hc by done. done.
  - intros a Ha ->. apply strip_right_last in Ha. done.
Qed.

Lemma device_directory_name_part name id :
  0 <= id →
  let s := device_directory_name nfkd name id in
  path_parts s = [s] ∧ is_absolute s = false ∧ s ≠ ".." ∧ all_chars is_path_char s = true.
Proof.
  intros Hid s. pose proof (device_directory_name_chars name id) as Hc.
  destruct (device_directory_name_dots name id Hid) as [Hne Hdot]. fold s in Hc, Hne, Hdot.
  assert (has_char slash s = false) as Hslash by by eapply path_char_excludes.
  assert (s ≠ ".") by (intros E; rewrite E in Hdot; by apply (Hdot "."%char)).
  split_and!; [by apply path_parts_single| |intros E; rewrite E in Hdot; by apply (Hdot "."%char)|done].
  destruct s as [|a s']; [done|]. cbn [is_absolute has_char] in *.
  by apply orb_false_iff in Hslash as [? _].
Qed.
End facts.

(** ** Remote directories *)

Lemma two_digits_has_char c n : c ≠ "-"%char → is_digit c = false → has_char c (two_digits n) = false.
Proof.
  intros Hd Hc. unfold two_digits. destruct (n <? 10); [|by apply has_char_pretty].
  rewrite has_char_app, (has_char_pretty c n) by done. cbn [has_char].
  rewrite bool_decide_eq_false_2; [done|]. by intros <-.
Qed.

(** A stamp is made of digits, dashes and the underscore. *)
Lemma timestamp_has_char c t :
  c ≠ "-"%char → c ≠ "_"%char → is_digit c = false →
  has_char c (backup_creation_timestamp t) = false.
Proof.
  intros Hd Hu Hc. unfold backup_creation_timestamp. cbv zeta.
  rewrite !has_char_app, !two_digits_has_char, has_char_pretty by done. cbn [has_char].
  rewrite !bool_decide_eq_false_2 by congruence. done.
Qed.

Lemma timestamp_head t : ∃ a s, backup_creation_timestamp t = String a s.
Proof.
  unfold backup_creation_timestamp. cbv zeta.
  destruct (pretty (year_of (date_of (dt_key t)))) as [|a s]; eexists _, _; reflexivity.
Qed.

Lemma single_part_relative s : path_parts s = [s] → is_absolute s = false.
Proof.
  intros H. assert (s ∈ path_parts s) as Hin by (rewrite H; by left).
  apply path_parts_in in Hin as (Hne & _ & Hs). destruct s as [|a s]; [done|].
  cbn [is_absolute has_char] in *. by apply orb_false_iff in Hs as [? _].
Qed.

(** Joining one component after the other. *)
Lemma path_parts_join_part a b :
  path_parts b = [b] → path_parts (posix_join a b) = path_parts a ++ [b].
Proof. intros Hb. rewrite path_parts_join by by apply single_part_relative. by rewrite Hb. Qed.

Lemma posix_join_snoc a b t : is_absolute b = false → b ≠ "" →
  posix_join a b +:+ t = posix_join a (b +:+ t).
Proof.
  intros Hb Hne. unfold posix_join.
  assert (is_absolute (b +:+ t) = false) as -> by by destruct b.
  rewrite Hb. destruct (bool_decide (a = "") || _); by rewrite <-!append_assoc.
Qed.

Section remote.
Context (nfkd : string → string).

Lemma revision_leaf_part created id :
  path_parts (backup_creation_timestamp created +:+ "-r" +:+ pretty (id : Z)) =
    [backup_creation_timestamp created +:+ "-r" +:+ pretty id].
Proof.
  apply path_parts_single.
  - by rewrite !has_char_app, timestamp_has_char, has_char_pretty.
  - destruct (timestamp_head created) as (a & s & ->). done.
  - destruct (timestamp_head created) as (a & s & ->). cbn. intros [= _ H].
    by destruct s.
Qed.

Lemma ftp_revision_path_parts base name device_id created id uuid path :
  0 <= device_id →
  ftp_revision_destination_path nfkd base name device_id created (Some id) uuid = Ok path →
  0 < id ∧ is_absolute path = true ∧
  path_parts path = path_parts base ++
    ["devices"; device_directory_name nfkd name device_id; "backups";
     backup_creation_timestamp created +:+ "-r" +:+ pretty id].
Proof.
  intros Hd. unfold ftp_revision_destination_path. cbv zeta.
  destruct (Z.leb_spec id 0) as [|Hid]; [done|]. intros [= <-].
  split_and!; [done|done|].
  destruct (device_directory_name_part nfkd name device_id Hd) as (Hp & _ & _ & _).
  rewrite posix_join_snoc.
  - change ("/" +:+ ?x) with (String slash x).
    rewrite path_parts_slash, path_parts_strip_left.
    rewrite path_parts_join_part by apply revision_leaf_part.
    rewrite (path_parts_join_part _ "backups") by done.
    rewrite (path_parts_join_part _ _ Hp), (path_parts_join_part _ "devices") by done.
    rewrite path_parts_strip. by rewrite <-!(assoc_L (++)).
  - destruct (timestamp_head created) as (a & s & E). pose proof (timestamp_has_char slash created) as H.
    rewrite E in H |- *. cbn [is_absolute has_char] in *.
    by destruct (orb_false_elim _ _ (H ltac:(done) ltac:(done) ltac:(done))).
  - destruct (timestamp_head created) as (a & s & ->). done.
Qed.

Lemma revision_leaf_inj t1 t2 (i j : Z) :
  backup_creation_timestamp t1 +:+ "-r" +:+ pretty i
    = backup_creation_timestamp t2 +:+ "-r" +:+ pretty j →
  i = j.
Proof.
  intros H.
  assert (∀ t k, split_on "r"%char (backup_creation_timestamp t +:+ "-r" +:+ pretty (k : Z))
                 = [backup_creation_timestamp t +:+ "-"; pretty k]) as Hs.
  { intros t k.
    change ("-r" +:+ pretty k) with ("-" +:+ String "r"%char (pretty k)).
    rewrite append_assoc, split_on_app.
    - rewrite split_on_none; [done|by apply has_char_pretty].
    - by rewrite has_char_app, timestamp_has_char. }
  apply (f_equal (split_on "r"%char)) in H. rewrite !Hs in H. injection H as _ H.
  by apply (inj pretty) in H.
Qed.
End remote.

Section properties.
Context (nfkd : string → string).

(** whatever a device is called, its directory at a destination is one
    plain path component: characters of [A-Za-z0-9._-] only, not empty, not
    [.] or [..], not absolute, so that joining it under a base path names a
    direct child of that base. *)
Theorem device_directory_name_safe name id base :
  0 <= id →
  let s := device_directory_name nfkd name id in
  all_chars is_path_char s = true ∧ s ≠ "" ∧ s ≠ "." ∧ s ≠ ".." ∧
  path_parts (posix_join base s) = path_parts base ++ [s].
Proof.
  intros Hid s. destruct (device_directory_name_part nfkd name id Hid) as (Hp & _ & Hd & Hc).
  destruct (path_parts_in s s) as (Hne & Hdot & _); [fold s in Hp; rewrite Hp; by left|].
  split_and!; [done..|]. by apply path_parts_join_part.
Qed.

(** the directory a new revision is written to is an absolute path whose
    components are those of the base path, [devices], the device's directory,
    [backups] and a leaf with the creation time and the revision's key; two
    revisions never share a directory, whatever their devices and times: equal
    components give equal keys. *)
Theorem ftp_revision_path_unique base base' name name' device device' created created' id id'
    uuid uuid' path path' :
  0 <= device → 0 <= device' →
  ftp_revision_destination_path nfkd base name device created (Some id) uuid = Ok path →
  ftp_revision_destination_path nfkd base' name' device' created' (Some id') uuid' = Ok path' →
  is_absolute path = true ∧
  path_parts path = path_parts base ++
    ["devices"; device_directory_name nfkd name device; "backups";
     backup_creation_timestamp created +:+ "-r" +:+ pretty id] ∧
  (path_parts path = path_parts path' → id = id').
Proof.
  intros Hd Hd' H H'. apply ftp_revision_path_parts in H as (_ & Habs & Hparts); [|done].
  apply ftp_revision_path_parts in H' as (_ & _ & Hparts'); [|done].
  split_and!; [done..|]. rewrite Hparts, Hparts'.
  intros E%(f_equal list.last). rewrite !list.last_app in E. cbn in E. injection E as E.
  by apply revision_leaf_inj in E.
Qed.

Lemma plain_name_valid s :
  all_chars is_path_char s = true → has_char "_"%char s = true →
  validate_direct_filename s = Ok tt.
Proof.
  intros Hc Hu. assert (s ≠ "" ∧ s ≠ "." ∧ s ≠ "..") as (H0 & H1 & H2)
    by (split_and!; intros ->; done).
  unfold validate_direct_filename, path_name.
  rewrite path_parts_single by (try done; by eapply path_char_excludes).
  rewrite !(path_char_excludes s) by done. cbn [list.last default].
  rewrite (all_chars_weaken is_path_char _ s) by (try done; intros [[] [] [] [] [] [] [] []]; done).
  rewrite (bool_decide_eq_false_2 (s = "")), (bool_decide_eq_true_2 (id s = s)) by done.
  rewrite (bool_decide_eq_false_2 (s ∈ _)); [done|]. set_solver.
Qed.


Lemma timestamp_chars t : all_chars is_path_char (backup_creation_timestamp t) = true.
Proof.
  assert (∀ n, all_chars is_path_char (two_digits n) = true) as H.
  { intros n. unfold two_digits. destruct (n <? 10); [|apply pretty_Z_path_chars].
    rewrite all_chars_app. by rewrite pretty_Z_path_chars. }
  unfold backup_creation_timestamp. cbv zeta. by rewrite !all_chars_app, !H, pretty_Z_path_chars.
Qed.

Lemma stem_chars name device created :
  all_chars is_path_char (backup_filename_stem nfkd name device created) = true.
Proof.
  unfold backup_filename_stem. cbv zeta. rewrite !all_chars_app, timestamp_chars.
  rewrite all_chars_strip_right; [done|]. by apply all_chars_take, device_directory_name_chars.
Qed.

Lemma stem_underscore name device created :
  has_char "_"%char (backup_filename_stem nfkd name device created) = true.
Proof.
  unfold backup_filename_stem. cbv zeta. rewrite has_char_app.
  change ("_" +:+ ?x) with (String "_"%char x). cbn [has_char].
  by rewrite bool_decide_eq_true_2, orb_true_r.
Qed.

Lemma safe_type_chars artifact_type :
  let safe_type := string_take 48 (device_directory_name nfkd (Some artifact_type) 0) in
  all_chars is_path_char (if bool_decide (safe_type = "") then "artifact" else safe_type) = true.
Proof.
  intros safe_type. case_bool_decide; [done|].
  by apply all_chars_take, device_directory_name_chars.
Qed.

(** The names of replica files, with the stem of the device or an override. *)
Lemma readable_name_chars name device created storage_key artifact_type is_primary override :
  (∀ s, override = Some s → all_chars is_path_char s = true ∧ has_char "_"%char s = true) →
  let filename :=
    readable_artifact_filename nfkd name device created storage_key artifact_type is_primary override in
  all_chars is_path_char filename = true ∧ has_char "_"%char filename = true.
Proof.
  intros Hstem filename. subst filename. unfold readable_artifact_filename. cbv zeta.
  set (stem := match override with Some _ => _ | None => _ end).
  assert (all_chars is_path_char stem = true ∧ has_char "_"%char stem = true) as [Hc Hu].
  { unfold stem. destruct override as [s|]; [case_bool_decide; [|by apply Hstem]|];
      by rewrite stem_chars, stem_underscore. }
  match goal with |- context [if ?b then ".bin" else _] => destruct b eqn:Hsuffix end;
    [|apply orb_false_iff in Hsuffix as [_ Hsuffix%negb_false_iff]];
    [assert (all_chars is_path_char ".bin" = true) as Hs by done|
     eapply (all_chars_weaken _ is_path_char) in Hsuffix as Hs;
       [|intros [[] [] [] [] [] [] [] []]; done]].
  all: destruct is_primary; rewrite ?all_chars_app, ?has_char_app, Hc, Hu; split; try done.
  all: by rewrite Hs, safe_type_chars.
Qed.

(** the name a replica file gets is always accepted when the file is
    deleted again: whatever the device is called, whatever the storage key and
    the artifact type are, it is one component of plain characters. *)
Theorem readable_filename_deletable name device created storage_key artifact_type is_primary :
  0 <= device →
  validate_direct_filename
    (readable_artifact_filename nfkd name device created storage_key artifact_type is_primary None)
  = Ok tt.
Proof.
  intros Hd. destruct (readable_name_chars name device created storage_key artifact_type is_primary
                         None ltac:(done)). by apply plain_name_valid.
Qed.
End properties.

(** ** Concrete names *)

Module DestinationPathsExamples.
Abbreviation ascii_nfkd := (λ s : string, s).
Abbreviation created := (Aware 1767225599000000).

Example hostile_name :
  device_directory_name ascii_nfkd (Some " ../../etc//passwd ") 7 = "etc-passwd" ∧
  device_directory_name ascii_nfkd (Some "..-..-..") 7 = "device-7" ∧
  device_directory_name ascii_nfkd None 7 = "device-7".
Proof. split_and!; vm_compute; reflexivity. Qed.

Lemma device_directory_name_safe_witness :
  0 <= 7 ∧ path_parts (posix_join "/backups" (device_directory_name ascii_nfkd (Some "../x") 7))
           = ["backups"; "x"].
Proof.
  split; [lia|].
  destruct (device_directory_name_safe ascii_nfkd (Some "../x") 7 "/backups" ltac:(lia))
    as (_ & _ & _ & _ & H).
  exact H.
Defined.

Abbreviation path_of := (λ device id, ftp_revision_destination_path ascii_nfkd "/backups"
  (Some "core-1") device created (Some id) None).

Lemma ftp_revision_path_unique_witness :
  path_of 7 41 = Ok "/backups/devices/core-1/backups/2025-12-31_23-59-59-r41" ∧
  path_of 8 42 = Ok "/backups/devices/core-1/backups/2025-12-31_23-59-59-r42" ∧
  path_parts "/backups/devices/core-1/backups/2025-12-31_23-59-59-r41"
    ≠ path_parts "/backups/devices/core-1/backups/2025-12-31_23-59-59-r42".
Proof.
  assert (path_of 7 41 = Ok "/backups/devices/core-1/backups/2025-12-31_23-59-59-r41") as E1
    by (vm_compute; reflexivity).
  assert (path_of 8 42 = Ok "/backups/devices/core-1/backups/2025-12-31_23-59-59-r42") as E2
    by (vm_compute; reflexivity).
  split_and!; [exact E1|exact E2|]. intros E.
  destruct (ftp_revision_path_unique ascii_nfkd _ _ _ _ 7 8 _ _ _ _ _ _ _ _
              ltac:(lia) ltac:(lia) E1 E2) as (_ & _ & H).
  discriminate (H E).
Defined.

Lemma readable_filename_deletable_witness :
  0 <= 7 ∧ validate_direct_filename
    (readable_artifact_filename ascii_nfkd (Some "core/1") 7 created "a/../b.tar.gz" "../cfg" false
       None) = Ok tt.
Proof. split; [lia|]. apply readable_filename_deletable. lia. Defined.
End DestinationPathsExamples.
