(* ===== verification/World.v ===== *)
(** * Tables, transactions and hooks

    The database as one table per model, and the world the services act on:
    the database, the callbacks registered with [transaction.on_commit], and
    the two kinds of storage, whose states belong to their implementations.
    [atomic] is Django's [transaction.atomic]: an exception restores the
    database and drops the callbacks of the block, and leaves the storages as
    they are.  When the outermost block commits its callbacks move to
    [w_committed], the list Django runs right after the commit. *)

From Stdlib Require Import ZArith Lia.
From stdpp Require Import base gmap sets list strings.
From S2P Require Import Prelude Calendar Models.
#[local] Open Scope string_scope.
#[local] Open Scope list_scope.
#[local] Open Scope Z_scope.

(* src: events.py 17 24 BACKUP_FAILED *)
Inductive EventType :=
  | BACKUP_FAILED | BACKUP_RECOVERED | TARGET_STALE | BACKUP_STUCK
  | REPLICA_FAILED | REPLICA_RECOVERED | FTP_AUDIT_FAILED | FTP_AUDIT_RECOVERED.

#[export] Instance EventType_eq_dec : EqDecision EventType.
Proof. solve_decision. Defined.

(** The callbacks the plugin registers: the lambdas of [queue_*_event] in
    [events.py], and the replica callbacks of [services/django_repository.py]. *)
Inductive Hook :=
  | EmitRunEvent (event : EventType) (run_id : Z)
  | EmitTargetEvent (event : EventType) (target_id : Z)
  | EmitReplicaEvent (event : EventType) (replica_id : Z)
  | EmitDestinationEvent (event : EventType) (destination_id : Z)
  | QueueRevisionReplicas (revision_id : Z)
  | EnsureRevisionReplicas (revision_id : Z).

#[export] Instance Hook_eq_dec : EqDecision Hook.
Proof. solve_decision. Defined.

(** ** NetBox's job table

    Rows of [core.models.Job] as the plugin sees them.  The states are those
    of [JobStatusChoices]; [ENQUEUED_STATE_CHOICES] are the first three. *)
Inductive JobState := JS_PENDING | JS_SCHEDULED | JS_RUNNING | JS_TERMINATED.

#[export] Instance JobState_eq_dec : EqDecision JobState.
Proof. solve_decision. Defined.

Record JobRow := {
  job_name : string;
  (** The object a job is attached to: its model and its key. *)
  job_object : option (string * Z);
  job_argument : Z;
  job_state : JobState;
  job_queue_name : string;
}.
#[export] Instance eta_JobRow : Eta JobRow := λ r,
  {| job_name := job_name r; job_object := job_object r; job_argument := job_argument r;
     job_state := job_state r; job_queue_name := job_queue_name r |}.

Definition job_enqueued (j : JobRow) : bool :=
  bool_decide (job_state j ≠ JS_TERMINATED).

(** NetBox core: [JobRunner.enqueue] and [Job.delete] on the job table. *)
Class NetBoxCore := {
  job_enqueue : JobRow → gmap Z JobRow → result (Z * gmap Z JobRow);
  job_delete : Z → gmap Z JobRow → result (gmap Z JobRow);
}.

(** What the plugin relies on: enqueueing adds one pending row under a new
    identifier, deleting removes exactly the row. *)
Class NetBoxCoreLaws `{NetBoxCore} : Prop := {
  job_enqueue_new : ∀ req jobs id jobs', job_enqueue req jobs = Ok (id, jobs') →
    jobs !! id = None ∧ jobs' = <[id := req <| job_state := JS_PENDING |>]> jobs;
  job_delete_removes : ∀ id jobs jobs', job_delete id jobs = Ok jobs' →
    jobs' = base.delete id jobs;
}.

(** ** The database *)
Record DB := {
  db_settings : option OperationalSettings;
  db_local_policies : gmap Z RetentionPolicy;
  db_remote_policies : gmap Z RemoteRetentionPolicy;
  db_policies : gmap Z BackupPolicy;
  db_connections : gmap Z ConnectionProfile;
  db_credentials : gmap Z CredentialProfile;
  db_receivers : gmap Z SftpReceiverProfile;
  db_mappings : gmap Z PlatformMapping;
  db_devices : gmap Z Device;
  db_targets : gmap Z BackupTarget;
  db_destinations : gmap Z BackupDestination;
  db_host_keys : gmap Z SSHHostKey;
  db_revisions : gmap Z ConfigRevision;
  db_artifacts : gmap Z ConfigArtifact;
  db_replicas : gmap Z RevisionReplica;
  db_runs : gmap Z BackupRun;
  db_jobs : gmap Z JobRow;
  (** The next primary key. *)
  db_next : Z;
}.
#[export] Instance eta_DB : Eta DB := λ r,
  {| db_settings := db_settings r; db_local_policies := db_local_policies r;
     db_remote_policies := db_remote_policies r; db_policies := db_policies r;
     db_connections := db_connections r; db_credentials := db_credentials r;
     db_receivers := db_receivers r; db_mappings := db_mappings r;
     db_devices := db_devices r; db_targets := db_targets r;
     db_destinations := db_destinations r; db_host_keys := db_host_keys r;
     db_revisions := db_revisions r; db_artifacts := db_artifacts r;
     db_replicas := db_replicas r; db_runs := db_runs r; db_jobs := db_jobs r;
     db_next := db_next r |}.

(** The states of the primary storage and of the remote storages. *)
Class Externals := { files : Type; remote : Type }.

Record World `{Externals} := {
  w_db : DB;
  w_hooks : list Hook;
  w_depth : nat;
  w_committed : list Hook;
  w_files : files;
  w_remote : remote;
  (** What [timezone.now()] answers when a saved row is stamped. *)
  w_clock : Z;
}.
#[export] Instance eta_World `{Externals} : Eta World := λ r,
  {| w_db := w_db r; w_hooks := w_hooks r; w_depth := w_depth r;
     w_committed := w_committed r; w_files := w_files r; w_remote := w_remote r;
     w_clock := w_clock r |}.

Section world.
Context `{Externals}.

(** [with transaction.atomic(): m] *)
Definition atomic {A} (m : M World A) : M World A := λ w,
  match m (w <| w_depth := S (w_depth w) |>) with
  | (Ok a, w') =>
      let w' := w' <| w_depth := w_depth w |> in
      (Ok a, match w_depth w with
             | O => w' <| w_hooks := [] |> <| w_committed := w_committed w' ++ w_hooks w' |>
             | S _ => w'
             end)
  | (Err e, w') =>
      (Err e, w' <| w_db := w_db w |> <| w_hooks := w_hooks w |> <| w_depth := w_depth w |>)
  end.

(** [transaction.on_commit(hook)]: at once when no block is open. *)
Definition on_commit (h : Hook) : M World unit := modify (λ w,
  match w_depth w with
  | O => w <| w_committed := w_committed w ++ [h] |>
  | S _ => w <| w_hooks := w_hooks w ++ [h] |>
  end).

Definition on_db (f : DB → DB) : M World unit := modify (λ w, w <| w_db := f (w_db w) |>).
Definition read {A} (f : DB → A) : M World A := gets (λ w, f (w_db w)).

(** [Model.objects.get(pk=...)] *)
Definition get {A} (model : string) (table : DB → gmap Z A) (pk : Z) : M World A := λ w,
  match table (w_db w) !! pk with
  | Some r => (Ok r, w)
  | None => (Err (DoesNotExist model), w)
  end.

(** The key of a row to be inserted. *)
Definition next_pk : M World Z := λ w,
  (Ok (db_next (w_db w)),
   w <| w_db := (w_db w) <| db_next := db_next (w_db w) + 1 |> |>).

Definition get_target := get "BackupTarget" db_targets.
Definition get_run := get "BackupRun" db_runs.
Definition get_revision := get "ConfigRevision" db_revisions.
Definition get_replica := get "RevisionReplica" db_replicas.
Definition get_destination := get "BackupDestination" db_destinations.

Definition put_target (t : BackupTarget) (db : DB) : DB :=
  db <| db_targets := <[tg_pk t := t]> (db_targets db) |>.
Definition put_run (r : BackupRun) (db : DB) : DB :=
  db <| db_runs := <[run_pk r := r]> (db_runs db) |>.
Definition put_revision (r : ConfigRevision) (db : DB) : DB :=
  db <| db_revisions := <[rv_pk r := r]> (db_revisions db) |>.
Definition put_artifact (a : ConfigArtifact) (db : DB) : DB :=
  db <| db_artifacts := <[ar_pk a := a]> (db_artifacts db) |>.
Definition put_replica (r : RevisionReplica) (db : DB) : DB :=
  db <| db_replicas := <[rp_pk r := r]> (db_replicas db) |>.
Definition put_destination (d : BackupDestination) (db : DB) : DB :=
  db <| db_destinations := <[ds_pk d := d]> (db_destinations db) |>.

(** The rows of a table. *)
Definition rows {A} (table : gmap Z A) : list A := (map_to_list table).*2.

(** Rows are stored under their own key. *)
Definition keyed {A} (pk : A → Z) (table : gmap Z A) : Prop :=
  ∀ k r, table !! k = Some r → pk r = k.

(** ** Facts *)

Lemma elem_of_rows {A} (table : gmap Z A) r : r ∈ rows table ↔ ∃ k, table !! k = Some r.
Proof.
  unfold rows. rewrite list_elem_of_fmap. split.
  - intros ([k x] & -> & Hx). exists k. by apply elem_of_map_to_list.
  - intros [k Hk]. exists (k, r). split; [done|]. by apply elem_of_map_to_list.
Qed.

Lemma elem_of_rows_keyed {A} (pk : A → Z) (table : gmap Z A) r :
  keyed pk table → r ∈ rows table ↔ table !! pk r = Some r.
Proof.
  intros Hk. rewrite elem_of_rows. split; [|eauto]. intros [k Hr]. by rewrite (Hk _ _ Hr).
Qed.

Lemma NoDup_rows {A} (pk : A → Z) (table : gmap Z A) :
  keyed pk table → NoDup (map pk (rows table)).
Proof.
  intros Hk. unfold rows. rewrite <-list_fmap_compose.
  assert (∀ l, (∀ x, x ∈ l → table !! x.1 = Some x.2) → map (pk ∘ snd) l = l.*1) as Hl.
  { induction l as [|[k x] l IH]; intros Hin; simpl; [done|]. f_equal.
    - apply (Hk k x). apply (Hin (k, x)). by left.
    - apply IH. intros y Hy. apply Hin. by right. }
  rewrite Hl; [apply NoDup_fst_map_to_list|].
  intros [k x] Hx. by apply elem_of_map_to_list.
Qed.

Lemma alter_as_insert {A} (f : A → A) (table : gmap Z A) k x :
  table !! k = Some x → alter f k table = <[k := f x]> table.
Proof.
  intros Hk. apply map_eq. intros j. destruct (decide (j = k)) as [->|Hj].
  - by rewrite lookup_alter_eq, Hk, lookup_insert_eq.
  - by rewrite lookup_alter_ne, lookup_insert_ne by done.
Qed.

Lemma keyed_insert {A} (pk : A → Z) (table : gmap Z A) k r :
  pk r = k → keyed pk table → keyed pk (<[k := r]> table).
Proof.
  intros Hr Hk j x. destruct (decide (k = j)) as [<-|Hne].
  - rewrite lookup_insert_eq. naive_solver.
  - rewrite lookup_insert_ne by done. apply Hk.
Qed.

Lemma keyed_empty {A} (pk : A → Z) : keyed pk ∅.
Proof. intros k r. by rewrite lookup_empty. Qed.

Lemma atomic_Ok {A} (m : M World A) w a w' :
  atomic m w = (Ok a, w') →
  ∃ w1, m (w <| w_depth := S (w_depth w) |>) = (Ok a, w1) ∧
    w_db w' = w_db w1 ∧ w_files w' = w_files w1 ∧ w_remote w' = w_remote w1 ∧
    w_depth w' = w_depth w.
Proof.
  unfold atomic. destruct (m _) as [[a'|e] w1]; [|done]. intros [= -> <-].
  exists w1. destruct (w_depth w); split_and!; done.
Qed.

Lemma atomic_Err {A} (m : M World A) w e w' :
  atomic m w = (Err e, w') →
  w_db w' = w_db w ∧ w_hooks w' = w_hooks w ∧ w_depth w' = w_depth w ∧
  ∃ w1, m (w <| w_depth := S (w_depth w) |>) = (Err e, w1) ∧
    w_files w' = w_files w1 ∧ w_remote w' = w_remote w1 ∧ w_committed w' = w_committed w1.
Proof.
  unfold atomic. destruct (m _) as [[a'|e'] w1]; [done|]. intros [= -> <-]. eauto 10.
Qed.

Lemma read_bind_run {A B} (f : DB → A) (k : A → M World B) w :
  (read f ≫= k) w = k (f (w_db w)) w.
Proof. done. Qed.

(** An invariant of the database, as one of the world. *)
Definition db_inv (I : DB → Prop) (w : World) : Prop := I (w_db w).

Lemma keeps_atomic {A} (I : DB → Prop) (m : M World A) :
  keeps (db_inv I) m → keeps (db_inv I) (atomic m).
Proof.
  intros Hm w [a|e] w' Hw HI.
  - apply atomic_Ok in Hw as (w1 & Hm1 & Hdb & _). unfold db_inv. rewrite Hdb.
    by apply (Hm _ _ _ Hm1).
  - apply atomic_Err in Hw as (Hdb & _). unfold db_inv. by rewrite Hdb.
Qed.

Lemma keeps_get {A} (I : DB → Prop) model (table : DB → gmap Z A) pk :
  keeps (db_inv I) (get model table pk).
Proof. intros w r w'. unfold get. case_match; intros [= <- <-]; done. Qed.

Lemma keeps_on_commit (I : DB → Prop) h : keeps (db_inv I) (on_commit h).
Proof. apply keeps_modify. intros w. unfold db_inv. by case_match. Qed.

Lemma keeps_on_db (I : DB → Prop) f :
  (∀ db, I db → I (f db)) → keeps (db_inv I) (on_db f).
Proof. intros Hf. apply keeps_modify. intros w. unfold db_inv. simpl. auto. Qed.

Lemma keeps_read_bind {A B} (I : DB → Prop) (g : DB → A) (f : A → M World B) :
  (∀ db, I db → keeps (db_inv I) (f (g db))) → keeps (db_inv I) (read g ≫= f).
Proof. intros Hf w r w' Hw HI. rewrite read_bind_run in Hw. exact (Hf _ HI _ _ _ Hw HI). Qed.

(** A computation on the database leaves the storages alone. *)
Definition outside (F : files) (R : remote) (w : World) : Prop := w_files w = F ∧ w_remote w = R.

Lemma outside_atomic {A} F R (m : M World A) :
  keeps (outside F R) m → keeps (outside F R) (atomic m).
Proof.
  intros Hm w [a|e] w' Hw HI.
  - apply atomic_Ok in Hw as (w1 & Hm1 & _ & Hf & Hr & _).
    apply (Hm _ _ _) in Hm1 as [? ?]; [split; congruence|done].
  - apply atomic_Err in Hw as (_ & _ & _ & w1 & Hm1 & Hf & Hr & _).
    apply (Hm _ _ _) in Hm1 as [? ?]; [split; congruence|done].
Qed.

Lemma outside_get {A} F R model (table : DB → gmap Z A) pk : keeps (outside F R) (get model table pk).
Proof. intros w r w'. unfold get. case_match; by intros [= <- <-]. Qed.
Lemma outside_on_db F R f : keeps (outside F R) (on_db f).
Proof. intros w r w' [= <- <-]. done. Qed.
Lemma outside_read {A} F R (f : DB → A) : keeps (outside F R) (read f).
Proof. apply keeps_gets. Qed.
Lemma outside_next_pk F R : keeps (outside F R) next_pk.
Proof. intros w r w' [= <- <-]. done. Qed.
Lemma outside_on_commit F R h : keeps (outside F R) (on_commit h).
Proof. intros w r w' [= <- <-]. by destruct (w_depth w). Qed.

Lemma get_Ok {A} model (table : DB → gmap Z A) pk w r w' :
  get model table pk w = (Ok r, w') ↔ table (w_db w) !! pk = Some r ∧ w' = w.
Proof. unfold get. case_match; naive_solver. Qed.
End world.

#[export] Hint Resolve keeps_atomic keeps_get keeps_on_commit : keeps.
#[export] Hint Resolve outside_atomic outside_get outside_on_db outside_read outside_next_pk
  outside_on_commit : keeps.

(** ** Concrete worlds for the examples *)
Module WorldExamples.
Definition no_externals : Externals := {| files := unit; remote := unit |}.

Definition empty_db : DB :=
  {| db_settings := None; db_local_policies := ∅; db_remote_policies := ∅; db_policies := ∅;
     db_connections := ∅; db_credentials := ∅; db_receivers := ∅; db_mappings := ∅;
     db_devices := ∅; db_targets := ∅; db_destinations := ∅; db_host_keys := ∅;
     db_revisions := ∅; db_artifacts := ∅; db_replicas := ∅; db_runs := ∅; db_jobs := ∅;
     db_next := 100 |}.

Definition world_of (db : DB) : @World no_externals :=
  {| w_db := db; w_hooks := []; w_depth := O; w_committed := [];
     w_files := tt : @files no_externals; w_remote := tt : @remote no_externals; w_clock := 0 |}.

(** A job table that satisfies the laws: keys are never reused. *)
Definition table_core : NetBoxCore :=
  {| job_enqueue := λ req jobs,
       let id := 1 + foldr (λ k, Z.max k) 0 (map fst (map_to_list jobs)) in
       Ok (id, <[id := req <| job_state := JS_PENDING |>]> jobs);
     job_delete := λ id jobs, Ok (base.delete id jobs) |}.

Lemma foldr_max_le (l : list Z) k : k ∈ l → k <= foldr (λ k, Z.max k) 0 l.
Proof.
  induction l as [|x l IH]; simpl; [by rewrite elem_of_nil|].
  rewrite elem_of_cons. intros [->|H]; [lia|]. specialize (IH H). lia.
Qed.

Lemma table_core_laws : @NetBoxCoreLaws table_core.
Proof.
  split.
  - intros req jobs id jobs' [= <- <-]. split; [|done].
    apply eq_None_not_Some. intros [j Hj]. apply elem_of_map_to_list in Hj.
    assert (1 + foldr (λ k, Z.max k) 0 (map fst (map_to_list jobs)) ∈ map fst (map_to_list jobs))
      as Hin by (exact (list_elem_of_fmap_2 fst _ _ Hj)).
    apply foldr_max_le in Hin. lia.
  - by intros id jobs jobs' [= <-].
Qed.
End WorldExamples.
