(* ===== verification/DriverSelection.v ===== *)
(** * Enabled drivers: [services/driver_selection.py]

    The installation-wide list of disabled drivers, the checks that keep it
    apart from the assignments, and the [save] methods that run them under
    the lock of the settings row. *)

From Stdlib Require Import ZArith Lia.
From stdpp Require Import base gmap sets list strings.
From S2P Require Import Prelude Calendar Models World.
#[local] Open Scope string_scope.
#[local] Open Scope list_scope.
#[local] Open Scope Z_scope.

(* src: services/driver_selection.py 14 17 SIAE_COMPATIBILITY_IDS *)
Definition SIAE_COMPATIBILITY_IDS : list string :=
  ["siae_smos_cli"; "siae_smos_ssh"; "siae_alfoplus"; "siae_alfoplus2";
   "siae_alfoplus80hd"; "siae_ags20"].

(* src: services/driver_selection.py 20 21 selection_id *)
Definition selection_id (driver_id : string) : string :=
  if bool_decide (driver_id ∈ SIAE_COMPATIBILITY_IDS) then "siae_smos_auto" else driver_id.

(* src: services/driver_selection.py 33 39 disabled_driver_ids *)
Definition disabled_driver_ids (db : DB) : list string :=
  match db_settings db with Some s => os_disabled_driver_ids s | None => [] end.

(* src: services/driver_selection.py 42 45 driver_is_enabled *)
Definition driver_is_enabled (driver_id : string) (disabled : list string) : bool :=
  negb (bool_decide (selection_id driver_id ∈ map selection_id disabled)).

(** The driver identifiers assigned to targets and mappings. *)
Definition assigned_driver_ids (db : DB) : list string :=
  filter (λ d, d ≠ "") (map tg_driver_override (rows (db_targets db))
                        ++ map pm_driver_id (rows (db_mappings db))).

(* src: services/driver_selection.py 48 56 driver_usage_counts *)
Definition driver_usage_counts (db : DB) : gmap string nat :=
  foldr (λ d, partial_alter (λ n, Some (S (default O n))) (selection_id d)) ∅
    (assigned_driver_ids db).

(* src: services/driver_selection.py 59 71 validate_disabled_drivers *)
Definition validate_disabled_drivers (db : DB) (values : list string) : result unit :=
  if existsb (λ v, bool_decide (is_Some (driver_usage_counts db !! selection_id v))) values
  then Err (ValidationError "These drivers are still assigned to devices or platform mappings.")
  else Ok tt.

(* src: services/driver_selection.py 83 85 validate_driver_assignment *)
Definition validate_driver_assignment (driver_id : string) (disabled : list string) : result unit :=
  if negb (bool_decide (driver_id = "")) && negb (driver_is_enabled driver_id disabled)
  then Err (ValidationError "This driver is disabled in Settings > Device drivers.")
  else Ok tt.

Section driver_selection.
Context `{Externals}.

(* src: models.py 87 92 OperationalSettings.save *)
Definition save_settings (s : OperationalSettings) : M World unit := atomic (
  db ← read id;
  _ ← lift (validate_disabled_drivers db (os_disabled_driver_ids s));
  on_db (λ db, db <| db_settings := Some s |>)).

(* src: models.py 1090 1098 BackupTarget.save *)
Definition save_target (t : BackupTarget) : M World unit := atomic (
  db ← read id;
  _ ← lift (validate_driver_assignment (tg_driver_override t) (disabled_driver_ids db));
  saved_at ← gets w_clock;
  on_db (put_target (t <| tg_last_updated := Some saved_at |>))).

(* src: models.py 984 992 PlatformMapping.save *)
Definition save_mapping (m : PlatformMapping) : M World unit := atomic (
  db ← read id;
  _ ← lift (validate_driver_assignment (pm_driver_id m) (disabled_driver_ids db));
  on_db (λ db, db <| db_mappings := <[pm_pk m := m]> (db_mappings db) |>)).

(** ** No device uses a disabled driver *)
Definition assignments_enabled (db : DB) : Prop :=
  ∀ d, d ∈ assigned_driver_ids db → driver_is_enabled d (disabled_driver_ids db) = true.

Lemma usage_counts_spec db s :
  is_Some (driver_usage_counts db !! s) ↔ ∃ d, d ∈ assigned_driver_ids db ∧ selection_id d = s.
Proof.
  unfold driver_usage_counts. induction (assigned_driver_ids db) as [|d l IH]; simpl.
  - rewrite lookup_empty. split; [by intros []|]. intros (d & Hd & _). by apply elem_of_nil in Hd.
  - destruct (decide (selection_id d = s)) as [<-|Hne].
    + rewrite lookup_partial_alter_eq. split; [|eauto]. intros _. exists d. split; [by left|done].
    + rewrite lookup_partial_alter_ne by done. rewrite IH. split.
      * intros (d' & Hd' & <-). exists d'. split; [by right|done].
      * intros (d' & Hd' & <-). apply elem_of_cons in Hd' as [->|Hd']; [done|eauto].
Qed.

Lemma driver_is_enabled_spec d disabled :
  driver_is_enabled d disabled = true ↔
    ∀ v, v ∈ disabled → selection_id v ≠ selection_id d.
Proof.
  unfold driver_is_enabled. rewrite negb_true_iff, bool_decide_eq_false, list_elem_of_fmap.
  split.
  - intros Hn v Hv E. apply Hn. eauto.
  - intros Hn (v & E & Hv). by eapply Hn.
Qed.

Lemma assigned_spec db d :
  d ∈ assigned_driver_ids db ↔ d ≠ "" ∧
    ((∃ k t, db_targets db !! k = Some t ∧ tg_driver_override t = d) ∨
     (∃ k m, db_mappings db !! k = Some m ∧ pm_driver_id m = d)).
Proof.
  unfold assigned_driver_ids. rewrite list_elem_of_filter, elem_of_app, !list_elem_of_fmap.
  setoid_rewrite elem_of_rows. naive_solver.
Qed.

Lemma save_target_Ok t w w' :
  save_target t w = (Ok tt, w') →
  w_db w' = put_target (t <| tg_last_updated := Some (w_clock w) |>) (w_db w) ∧
  w_files w' = w_files w ∧ w_remote w' = w_remote w ∧
  w_depth w' = w_depth w ∧
  (tg_driver_override t ≠ "" →
     driver_is_enabled (tg_driver_override t) (disabled_driver_ids (w_db w)) = true).
Proof.
  intros Hs. apply atomic_Ok in Hs as (w1 & Hs & -> & -> & -> & ->).
  apply M_bind_Ok in Hs as (db & w2 & [= <- <-] & Hs).
  apply M_bind_Ok in Hs as (u & w2 & [= Hv <-] & [= <-]). split_and!; try done.
  intros Hne. unfold validate_driver_assignment, Datatypes.id in Hv. simpl in Hv.
  rewrite bool_decide_eq_false_2 in Hv by done. simpl in Hv.
  destruct (driver_is_enabled _ _); [done|discriminate].
Qed.

(** Driver settings, targets and mappings can be saved in any order: a save
    that would leave a device or a platform with a disabled driver, also
    through one of the historical SIAE identifiers, is refused, so that no
    assigned driver is ever disabled. *)
Theorem saves_keep_assignments_enabled :
  (∀ s, keeps (db_inv assignments_enabled) (save_settings s)) ∧
  (∀ t, keeps (db_inv assignments_enabled) (save_target t)) ∧
  (∀ m, keeps (db_inv assignments_enabled) (save_mapping m)).
Proof.
  split_and!.
  - intros s. apply keeps_atomic. intros w r w'. rewrite read_bind_run, lift_bind_run.
    unfold Datatypes.id. destruct (validate_disabled_drivers _ _) as [[]|e] eqn:Hv;
      [|by intros [= <- <-]].
    intros [= <- <-] _ d Hd. unfold validate_disabled_drivers in Hv.
    destruct (existsb _ _) eqn:He; [done|]. apply driver_is_enabled_spec.
    intros v Hin Heq. rewrite <-not_true_iff_false, existsb_exists in He. apply He.
    exists v. split; [by apply list_elem_of_In|]. apply bool_decide_eq_true, usage_counts_spec.
    exists d. split; [exact Hd|done].
  - intros t. apply keeps_atomic. intros w r w'. rewrite read_bind_run, lift_bind_run.
    unfold Datatypes.id. destruct (validate_driver_assignment _ _) as [[]|e] eqn:Hv;
      [|by intros [= <- <-]].
    intros [= <- <-] Hok d Hd. unfold db_inv in Hok. simpl in *.
    apply assigned_spec in Hd as [Hne [(k & t' & Ht' & Hdt)|Hm]]; simpl in *.
    + apply lookup_insert_Some in Ht' as [[<- <-]|[_ Ht']].
      * unfold validate_driver_assignment in Hv. subst d.
        rewrite bool_decide_eq_false_2 in Hv by done. simpl in Hv.
        destruct (driver_is_enabled _ _) eqn:E; [done|discriminate].
      * apply Hok, assigned_spec. split; [done|]. left. by exists k, t'.
    + apply Hok, assigned_spec. auto.
  - intros m. apply keeps_atomic. intros w r w'. rewrite read_bind_run, lift_bind_run.
    unfold Datatypes.id. destruct (validate_driver_assignment _ _) as [[]|e] eqn:Hv;
      [|by intros [= <- <-]].
    intros [= <- <-] Hok d Hd. unfold db_inv in Hok. simpl in *.
    apply assigned_spec in Hd as [Hne [Ht|(k & m' & Hm' & Hdm)]]; simpl in *.
    + apply Hok, assigned_spec. auto.
    + apply lookup_insert_Some in Hm' as [[<- <-]|[_ Hm']].
      * unfold validate_driver_assignment in Hv. subst d.
        rewrite bool_decide_eq_false_2 in Hv by done. simpl in Hv.
        destruct (driver_is_enabled _ _) eqn:E; [done|discriminate].
      * apply Hok, assigned_spec. split; [done|]. right. by exists k, m'.
Qed.
End driver_selection.
