(* ===== verification/Events.v ===== *)
(** * Notifications: [events.py] and [services/runtime_controls.py]

    An event is registered with [on_commit], so that a failing notification
    cannot undo backup state; what the callback then does is NetBox's. *)

From Stdlib Require Import ZArith Lia.
From stdpp Require Import base gmap sets list strings.
From S2P Require Import Prelude Calendar Models World.
#[local] Open Scope string_scope.
#[local] Open Scope list_scope.
#[local] Open Scope Z_scope.

(* src: services/runtime_controls.py 10 13 RuntimeControls *)
Record RuntimeControls := {
  events_enabled : bool;
  notify_on_every_failure : bool;
}.

(** [settings.PLUGINS_CONFIG["netbox_config_backup"]]: the keys the services
    read.  The first two are optional in the file and have defaults. *)
Record PluginSettings := {
  ps_events_enabled : option bool;
  ps_notify_on_every_failure : option bool;
  ps_stale_run_minutes : Z;
  ps_dispatcher_batch_size : Z;
  ps_stale_target_grace_minutes : Z;
  ps_error_message_max_length : Z;
}.

Section events.
Context `{Externals} (plugin_settings : PluginSettings).

(* src: services/runtime_controls.py 16 35 get_runtime_controls *)
Definition get_runtime_controls : M World RuntimeControls := read (λ db,
  match db_settings db with
  | None =>
      {| events_enabled := default true (ps_events_enabled plugin_settings);
         notify_on_every_failure :=
           default false (ps_notify_on_every_failure plugin_settings) |}
  | Some s =>
      {| events_enabled := os_events_enabled s;
         notify_on_every_failure := os_notify_on_every_failure s |}
  end).

(* src: events.py 97 100 _events_enabled *)
Definition queue_hook (h : Hook) : M World unit :=
  controls ← get_runtime_controls;
  if events_enabled controls then on_commit h else mret tt.

(* src: events.py 59 67 queue_run_event *)
Definition queue_run_event (event : EventType) (run_id : Z) : M World unit :=
  queue_hook (EmitRunEvent event run_id).
(* src: events.py 70 76 queue_target_event *)
Definition queue_target_event (event : EventType) (target_id : Z) : M World unit :=
  queue_hook (EmitTargetEvent event target_id).
(* src: events.py 79 85 queue_replica_event *)
Definition queue_replica_event (event : EventType) (replica_id : Z) : M World unit :=
  queue_hook (EmitReplicaEvent event replica_id).
(* src: events.py 88 94 queue_destination_event *)
Definition queue_destination_event (event : EventType) (destination_id : Z) : M World unit :=
  queue_hook (EmitDestinationEvent event destination_id).

(** ** Facts *)

Definition events_on (db : DB) : bool :=
  match db_settings db with
  | None => default true (ps_events_enabled plugin_settings)
  | Some s => os_events_enabled s
  end.

(** The callbacks of a world, run or still to be run. *)
Definition all_hooks (w : World) : list Hook := w_committed w ++ w_hooks w.

Lemma queue_hook_run h w :
  ∃ w', queue_hook h w = (Ok tt, w') ∧ w_db w' = w_db w ∧ w_files w' = w_files w ∧
    w_remote w' = w_remote w ∧ w_depth w' = w_depth w ∧
    (w_depth w = O → w_hooks w' = w_hooks w ∧
       w_committed w' = w_committed w ++ if events_on (w_db w) then [h] else []) ∧
    (w_depth w ≠ O → w_committed w' = w_committed w ∧
       w_hooks w' = w_hooks w ++ if events_on (w_db w) then [h] else []).
Proof.
  unfold queue_hook, get_runtime_controls, read, gets, events_on, on_commit, modify.
  unfold mbind, M_bind. destruct (db_settings (w_db w)) as [s|]; simpl;
    case_match; simpl; try (destruct (w_depth w) eqn:E); eexists; split_and!;
    try done; simpl; rewrite ?app_nil_r; try done; by rewrite E.
Qed.

Lemma keeps_queue_hook (I : DB → Prop) h : keeps (db_inv I) (queue_hook h).
Proof.
  intros w r w' Hw HI. destruct (queue_hook_run h w) as (w1 & H1 & Hdb & _).
  rewrite H1 in Hw. injection Hw as <- <-. unfold db_inv. by rewrite Hdb.
Qed.
End events.

#[export] Hint Resolve keeps_queue_hook : keeps.
