(* ===== verification/Scheduling.v ===== *)
(** * Backup schedules: [services/scheduling.py]

    The next regular run of an interval or daily policy, its deterministic
    jitter, retries after failures, and the schedule columns of a target.
    [Zones.to_local]/[to_utc] stand for [astimezone]; a comparison of two
    datetimes of the same zone compares wall clocks, as Python does. *)

From Stdlib Require Import ZArith Lia.
From stdpp Require Import base gmap sets list strings pretty.
From S2P Require Import Prelude Hashing Calendar Zones Models.
#[local] Open Scope string_scope.
#[local] Open Scope list_scope.
#[local] Open Scope Z_scope.

(** Every [datetime] operation checks the year range 1..9999. *)
Definition in_range (i : Z) : bool := (instant_min <=? i) && (i <? instant_end).
Definition check_range (i : Z) : result Z :=
  if in_range i then Ok i else Err OverflowError.
Definition check_local (d : local_dt) : result local_dt :=
  if in_range (wall d) then Ok d else Err OverflowError.

Lemma check_range_Ok i r : check_range i = Ok r ↔ r = i ∧ in_range i = true.
Proof. unfold check_range. case_match; naive_solver. Qed.
Lemma check_local_Ok d r : check_local d = Ok r ↔ r = d ∧ in_range (wall d) = true.
Proof. unfold check_local. case_match; naive_solver. Qed.

(* src: services/scheduling.py 8 14 _deterministic_jitter_minutes *)
Definition deterministic_jitter_minutes (target_key policy_key local_date maximum : Z) : Z :=
  if maximum <=? 0 then 0
  else
    let seed := encode (pretty target_key +:+ ":" +:+ pretty policy_key +:+ ":"
                        +:+ isoformat_date local_date) in
    be_number (take 8 (sha256 seed)) mod (maximum + 1).

(* src: services/scheduling.py 60 69 _daily_candidate *)
Definition daily_candidate (policy : BackupPolicy) (candidate_date time_of_day target_key : Z)
    : result local_dt :=
  let candidate := combine candidate_date time_of_day in
  let jitter := deterministic_jitter_minutes target_key (po_pk policy) candidate_date
                  (po_jitter_minutes policy) in
  check_local (plus_us candidate (jitter * us_per_minute)).

Section scheduling.
(** [zoneinfo.ZoneInfo(name)] over the installed tz database, and Django's
    [settings.TIME_ZONE].  [KeyError] is [ZoneInfoNotFoundError]. *)
Context (zoneinfo : string → result tzdata) (TIME_ZONE : string).

(* src: services/scheduling.py 17 21 _zone *)
Definition zone (timezone_name : string) : result tzdata :=
  match zoneinfo timezone_name with
  | Err KeyError => Ok UTC
  | r => r
  end.

(* src: services/scheduling.py 40 45 calculate_next_run *)
Definition next_interval_run (interval after reference : Z) : result Z :=
  candidate ← check_range (after + interval);
  if candidate <=? reference
  then
    let missed := (reference - candidate) / interval + 1 in
    check_range (candidate + missed * interval)
  else Ok candidate.

(* src: services/scheduling.py 50 57 calculate_next_run *)
Definition next_daily_run (policy : BackupPolicy) (time_of_day reference target_key : Z)
    (timezone_name : string) : result Z :=
  tz ← zone timezone_name;
  local_reference ← check_local (to_local tz reference);
  let candidate_date := date_of (wall local_reference) in
  candidate ← daily_candidate policy candidate_date time_of_day target_key;
  candidate ←
    (if wall candidate <=? wall local_reference
     then daily_candidate policy (candidate_date + 1) time_of_day target_key
     else Ok candidate);
  check_range (to_utc tz candidate).

(* src: services/scheduling.py 24 57 calculate_next_run *)
Definition calculate_next_run (policy : BackupPolicy) (after : datetime) (target_key : Z)
    (timezone_name : string) (now : option datetime) : result Z :=
  let reference := default after now in
  if negb (is_aware after) || negb (is_aware reference)
  then Err (ValueError "Scheduling requires timezone-aware datetimes.")
  else
    match po_schedule_type policy with
    | ST_INTERVAL =>
        match po_interval_minutes policy with
        | Some minutes =>
            if minutes <=? 0
            then Err (ValueError "Interval policies require a positive interval_minutes value.")
            else next_interval_run (minutes * us_per_minute) (dt_key after) (dt_key reference)
        | None => Err (ValueError "Interval policies require a positive interval_minutes value.")
        end
    | ST_DAILY =>
        match po_time_of_day policy with
        | Some t => next_daily_run policy t (dt_key reference) target_key timezone_name
        | None => Err (ValueError "Daily policies require time_of_day.")
        end
    end.

(** [l[i]] of a Python list: a negative index counts from the end. *)
Definition py_index (l : list Z) (i : Z) : result Z :=
  let j := if i <? 0 then Z.of_nat (length l) + i else i in
  if j <? 0 then Err IndexError
  else match l !! Z.to_nat j with Some x => Ok x | None => Err IndexError end.

(* src: services/scheduling.py 72 92 calculate_failure_next_run *)
Definition calculate_failure_next_run (policy : option BackupPolicy) (failed_at : Z)
    (consecutive_failures target_key : Z) (timezone_name : string) : result (option Z) :=
  match policy with
  | None => Ok None
  | Some p =>
      if negb (po_enabled p) then Ok None
      else
        let backoff := po_retry_backoff_minutes p in
        if (consecutive_failures <=? po_max_retries p) && bool_decide (backoff ≠ [])
        then
          let index := Z.min (consecutive_failures - 1) (Z.of_nat (length backoff) - 1) in
          delay ← py_index backoff index;
          Some <$> check_range (failed_at + delay * us_per_minute)
        else
          Some <$> calculate_next_run p (Aware failed_at) target_key timezone_name None
  end.

(* src: services/scheduling.py 95 101 is_retry_scheduled *)
Definition is_retry_scheduled (policy : option BackupPolicy) (consecutive_failures : Z) : bool :=
  match policy with
  | None => false
  | Some p =>
      po_enabled p && bool_decide (po_retry_backoff_minutes p ≠ [])
      && (0 <? consecutive_failures) && (consecutive_failures <=? po_max_retries p)
  end.

(** A target with the rows it is joined to: [policy_override] and the time
    zone of [device.site]. *)
(* src: services/scheduling.py 104 111 target_timezone_name *)
Definition target_timezone_name (policy : option BackupPolicy) (site_time_zone : option string)
    : string :=
  match policy, site_time_zone with
  | Some p, Some tz =>
      if bool_decide (po_timezone_mode p = "site") && negb (bool_decide (tz = ""))
      then tz else TIME_ZONE
  | _, _ => TIME_ZONE
  end.

(* src: services/scheduling.py 114 123 calculate_target_next_run *)
Definition calculate_target_next_run (target : BackupTarget) (policy : option BackupPolicy)
    (site_time_zone : option string) (now : Z) : result (option Z) :=
  match policy with
  | None => Ok None
  | Some p =>
      if negb (tg_enabled target) || negb (po_enabled p) then Ok None
      else
        Some <$> calculate_next_run p (Aware now)
                   (if tg_pk target =? 0 then tg_device target else tg_pk target)
                   (target_timezone_name policy site_time_zone) None
  end.

(* src: services/scheduling.py 126 139 apply_target_schedule *)
Definition apply_target_schedule (target : BackupTarget) (policy : option BackupPolicy)
    (site_time_zone : option string) (now saved_at : Z) : result BackupTarget :=
  next ← calculate_target_next_run target policy site_time_zone now;
  let target := target <| tg_next_run_at := next |> <| tg_last_updated := Some saved_at |> in
  Ok (if negb (tg_enabled target) then target <| tg_status := TS_DISABLED |>
      else if bool_decide (tg_status target = TS_DISABLED) then
        target <| tg_status :=
          if negb (tg_consecutive_failures target =? 0) then TS_FAILED
          else if bool_decide (is_Some (tg_last_success_at target)) then TS_HEALTHY
          else TS_NEVER |>
      else target).

(** ** Facts *)

Lemma jitter_bounds target_key policy_key day maximum :
  0 <= deterministic_jitter_minutes target_key policy_key day maximum <= Z.max 0 maximum.
Proof.
  unfold deterministic_jitter_minutes. destruct (Z.leb_spec maximum 0); [lia|].
  pose proof (Z.mod_pos_bound (be_number (take 8 (sha256 (encode (pretty target_key +:+ ":"
    +:+ pretty policy_key +:+ ":" +:+ isoformat_date day))))) (maximum + 1)). lia.
Qed.

(** The least number of whole intervals that passes the reference. *)
Lemma next_interval_run_Ok interval after reference r :
  0 < interval → next_interval_run interval after reference = Ok r →
  reference < r ∧
  ∃ k, 1 <= k ∧ r = after + k * interval ∧
    (k = 1 ∨ after + (k - 1) * interval <= reference).
Proof.
  intros Hi H. apply result_bind_Ok in H as (c & [-> _]%check_range_Ok & H).
  destruct (Z.leb_spec (after + interval) reference) as [Hc|Hc].
  - apply check_range_Ok in H as [-> _].
    pose proof (Z.div_mod (reference - (after + interval)) interval ltac:(lia)).
    pose proof (Z.mod_pos_bound (reference - (after + interval)) interval Hi).
    set (q := (reference - (after + interval)) / interval) in *.
    assert (0 <= q) by (apply Z.div_pos; lia).
    split; [nia|]. exists (q + 2). split_and!; [lia|ring|right; nia].
  - injection H as <-. split; [lia|]. exists 1. split_and!; [lia|ring|by left].
Qed.

Lemma next_interval_run_total interval after reference :
  0 < interval → instant_min <= after → after <= reference →
  reference + interval < instant_end →
  ∃ r, next_interval_run interval after reference = Ok r ∧ r <= reference + interval.
Proof.
  intros Hi Ha Hr Hend.
  assert (∀ i, instant_min <= i < instant_end → check_range i = Ok i) as Hok.
  { intros i [H1 H2]. apply check_range_Ok. split; [done|]. unfold in_range.
    apply andb_true_iff. split; [by apply Z.leb_le|by apply Z.ltb_lt]. }
  unfold next_interval_run. rewrite Hok by lia. simpl.
  destruct (Z.leb_spec (after + interval) reference) as [Hc|Hc]; [|eexists; split; [done|lia]].
  pose proof (Z.div_mod (reference - (after + interval)) interval ltac:(lia)).
  pose proof (Z.mod_pos_bound (reference - (after + interval)) interval Hi).
  set (q := (reference - (after + interval)) / interval) in *.
  assert (0 <= q) by (apply Z.div_pos; lia).
  eexists. split; [apply Hok; split; nia|nia].
Qed.

Lemma daily_candidate_Ok policy day t key d :
  daily_candidate policy day t key = Ok d →
  fold d = false ∧ in_range (wall d) = true ∧
  wall d = day * us_per_day + t
    + deterministic_jitter_minutes key (po_pk policy) day (po_jitter_minutes policy)
      * us_per_minute.
Proof. unfold daily_candidate. intros [-> Hr]%check_local_Ok. done. Qed.

Lemma daily_candidate_total policy day t key :
  0 <= t → instant_min <= day * us_per_day →
  day * us_per_day + t + Z.max 0 (po_jitter_minutes policy) * us_per_minute < instant_end →
  ∃ d, daily_candidate policy day t key = Ok d.
Proof.
  intros Ht Hmin Hmax. unfold daily_candidate, check_local.
  pose proof (jitter_bounds key (po_pk policy) day (po_jitter_minutes policy)).
  destruct (in_range _) eqn:E; [by eexists|]. exfalso. revert E. unfold in_range. simpl.
  unfold us_per_minute in *.
  rewrite andb_false_iff, Z.leb_gt, Z.ltb_ge. lia.
Qed.

(** The daily candidate chosen for a reference: on its local date or the next,
    and later on the wall clock. *)
Lemma next_daily_run_Ok policy t reference key name tz r :
  0 <= t → zone name = Ok tz → next_daily_run policy t reference key name = Ok r →
  ∃ d day, r = to_utc tz d ∧ fold d = false ∧ wall (to_local tz reference) < wall d ∧
    (day = date_of (wall (to_local tz reference)) ∨
     day = date_of (wall (to_local tz reference)) + 1) ∧
    daily_candidate policy day t key = Ok d.
Proof.
  intros Ht Hz H. unfold next_daily_run in H. rewrite Hz in H. simpl in H.
  apply result_bind_Ok in H as (l & [-> _]%check_local_Ok & H).
  apply result_bind_Ok in H as (c & Hc & H).
  apply result_bind_Ok in H as (d & Hd & [-> _]%check_range_Ok).
  destruct (Z.leb_spec (wall c) (wall (to_local tz reference))) as [Hle|Hlt].
  - pose proof (daily_candidate_Ok _ _ _ _ _ Hc) as (_ & _ & Hwc).
    pose proof (daily_candidate_Ok _ _ _ _ _ Hd) as (Hf & _ & Hwd).
    exists d, (date_of (wall (to_local tz reference)) + 1).
    split_and!; [done|done| |by right|done].
    rewrite Hwd. pose proof (date_of_bounds (wall (to_local tz reference))).
    pose proof (jitter_bounds key (po_pk policy)
      (date_of (wall (to_local tz reference)) + 1) (po_jitter_minutes policy)).
    unfold us_per_minute, us_per_day in *. lia.
  - injection Hd as <-. pose proof (daily_candidate_Ok _ _ _ _ _ Hc) as (Hf & _ & _).
    eexists _, _. split_and!; [done|done|done|by left|done].
Qed.

(** How far a policy can look ahead. *)
Definition schedule_horizon (p : BackupPolicy) : Z :=
  match po_schedule_type p with
  | ST_INTERVAL => default 0 (po_interval_minutes p) * us_per_minute
  | ST_DAILY => Z.max 0 (po_jitter_minutes p) * us_per_minute + 3 * us_per_day
  end.

Definition schedule_ok (p : BackupPolicy) : Prop :=
  policy_schedule_fields p = true ∧
  (∀ m, po_interval_minutes p = Some m → 0 < m) ∧
  (∀ t, po_time_of_day p = Some t → 0 <= t < us_per_day).

Lemma next_daily_run_total policy t reference key name tz :
  0 <= t < us_per_day → zone name = Ok tz → tz_wf tz →
  instant_min + 3 * us_per_day <= reference →
  reference + Z.max 0 (po_jitter_minutes policy) * us_per_minute + 3 * us_per_day < instant_end →
  ∃ r, next_daily_run policy t reference key name = Ok r ∧
    r <= reference + Z.max 0 (po_jitter_minutes policy) * us_per_minute + 3 * us_per_day.
Proof.
  intros Ht Hz Hwf Hmin Hmax. unfold next_daily_run. rewrite Hz. simpl.
  pose proof (to_local_bound tz reference Hwf) as Hl.
  set (w := wall (to_local tz reference)) in *.
  pose proof (date_of_bounds w) as Hd.
  pose proof (jitter_bounds key (po_pk policy) (date_of w) (po_jitter_minutes policy)) as Hj.
  pose proof (jitter_bounds key (po_pk policy) (date_of w + 1) (po_jitter_minutes policy)) as Hj'.
  set (J := Z.max 0 (po_jitter_minutes policy)) in *.
  assert (check_local (to_local tz reference) = Ok (to_local tz reference)) as ->.
  { apply check_local_Ok. split; [done|]. fold w. unfold in_range, us_per_day, us_per_minute in *.
    apply andb_true_iff. rewrite Z.leb_le, Z.ltb_lt. lia. }
  unfold mbind, result_bind. fold w.
  destruct (daily_candidate_total policy (date_of w) t key) as [c Hc];
    [lia|unfold us_per_day, us_per_minute in *; lia..|].
  rewrite Hc. pose proof (daily_candidate_Ok _ _ _ _ _ Hc) as (_ & Hrc & Hwc).
  assert (∀ d, w < wall d <= w + us_per_day + J * us_per_minute →
    ∃ r, check_range (to_utc tz d) = Ok r ∧
      r <= reference + J * us_per_minute + 3 * us_per_day) as Hfin.
  { intros d Hwd. pose proof (to_utc_bound tz d Hwf). exists (to_utc tz d). split; [|lia].
    apply check_range_Ok. split; [done|]. unfold in_range, us_per_day, us_per_minute in *.
    apply andb_true_iff. rewrite Z.leb_le, Z.ltb_lt. lia. }
  destruct (Z.leb_spec (wall c) w) as [Hle|Hlt].
  - destruct (daily_candidate_total policy (date_of w + 1) t key) as [c' Hc'];
      [lia|unfold us_per_day, us_per_minute in *; lia..|].
    rewrite Hc'. apply Hfin. pose proof (daily_candidate_Ok _ _ _ _ _ Hc') as (_ & _ & Hwc').
    unfold us_per_day, us_per_minute in *. lia.
  - apply Hfin. unfold us_per_day, us_per_minute in *. lia.
Qed.

(** C5: With a valid policy the next run exists, lies strictly after the
    reference and no further than the policy's horizon; for a daily policy
    this needs the reference to be outside a repeated hour of the zone. *)
Theorem calculate_next_run_after_reference p after key name now tz :
  let reference := default after now in
  schedule_ok p → zone name = Ok tz → tz_wf tz →
  (po_schedule_type p = ST_DAILY → fold_at tz reference = false) →
  instant_min + 3 * us_per_day <= after → after <= reference →
  reference + schedule_horizon p < instant_end →
  ∃ r, calculate_next_run p (Aware after) key name (Aware <$> now) = Ok r ∧
    reference < r <= reference + schedule_horizon p.
Proof.
  intros reference (Hf & Hi & Ht) Hz Hwf Hfold Hmin Ha Hmax.
  unfold calculate_next_run, schedule_horizon in *.
  assert (default (Aware after) (Aware <$> now) = Aware reference) as -> by (by destruct now).
  simpl. unfold policy_schedule_fields in Hf.
  destruct (po_schedule_type p); apply andb_true_iff in Hf as [H1 H2];
    apply bool_decide_eq_true in H1; apply bool_decide_eq_true in H2.
  - destruct H1 as [m Hm]. rewrite Hm in *. specialize (Hi _ eq_refl). simpl in *.
    destruct (Z.leb_spec m 0); [lia|].
    assert (0 < m * us_per_minute) by (unfold us_per_minute; lia).
    destruct (next_interval_run_total (m * us_per_minute) after reference) as (r & Hr & Hle);
      [lia|unfold us_per_day in *; lia..|].
    exists r. split; [done|]. by apply next_interval_run_Ok in Hr as [? _].
  - destruct H2 as [t Htod]. rewrite Htod in *. specialize (Ht _ eq_refl).
    destruct (next_daily_run_total p t reference key name tz) as (r & Hr & Hle);
      [done..|lia|lia|].
    exists r. split; [done|]. split; [|lia].
    apply (next_daily_run_Ok p t reference key name tz) in Hr as (d & day & -> & Hfd & Hw & _);
      [|lia|done].
    replace d with {| wall := wall d; fold := false |} by (by destruct d as [? []]).
    apply later_wall_later; auto.
Qed.

(** The next run of an interval policy is a whole number of intervals
    after the last scheduled time, the least that lies after the reference:
    runs missed while the dispatcher was down are skipped, not queued up, and
    the phase of the schedule is kept. *)
Theorem calculate_next_run_interval_least p m after key name now r :
  po_schedule_type p = ST_INTERVAL → po_interval_minutes p = Some m → 0 < m →
  calculate_next_run p (Aware after) key name (Some (Aware now)) = Ok r →
  now < r ∧
  ∃ k, 1 <= k ∧ r = after + k * (m * us_per_minute) ∧
    ∀ j, 1 <= j → now < after + j * (m * us_per_minute) → k <= j.
Proof.
  intros Hs Hm Hpos H. unfold calculate_next_run in H. rewrite Hs, Hm in H. simpl in H.
  destruct (Z.leb_spec m 0); [lia|].
  apply next_interval_run_Ok in H as (Hlt & k & Hk & -> & Hmin); [|unfold us_per_minute; lia].
  split; [done|]. exists k. split_and!; [done|done|]. intros j Hj Hjn.
  destruct Hmin as [->|Hmin]; [done|]. unfold us_per_minute in *. nia.
Qed.

(** After a failure, an enabled policy gives the retry deadline exactly
    when [is_retry_scheduled] says so, and the next regular run otherwise;
    the delay is the backoff entry of the failure's number, the last one for
    later failures. *)
Theorem calculate_failure_next_run_cases p failed_at failures key name :
  po_enabled p = true → 0 < failures →
  (is_retry_scheduled (Some p) failures = true →
    ∃ delay, po_retry_backoff_minutes p
      !! Z.to_nat (Z.min failures (Z.of_nat (length (po_retry_backoff_minutes p))) - 1)
      = Some delay ∧
    calculate_failure_next_run (Some p) failed_at failures key name
    = Some <$> check_range (failed_at + delay * us_per_minute)) ∧
  (is_retry_scheduled (Some p) failures = false →
    calculate_failure_next_run (Some p) failed_at failures key name
    = Some <$> calculate_next_run p (Aware failed_at) key name None).
Proof.
  intros Hen Hpos. unfold is_retry_scheduled, calculate_failure_next_run. rewrite Hen. simpl.
  rewrite (proj2 (Z.ltb_lt 0 failures) Hpos), andb_true_r.
  split; intros H.
  - rewrite andb_comm in H. rewrite H. apply andb_true_iff in H as [_ Hb%bool_decide_eq_true].
    set (l := po_retry_backoff_minutes p) in *.
    assert (0 < Z.of_nat (length l)) as Hl by (destruct l; [done|simpl; lia]).
    destruct (lookup_lt_is_Some_2 l (Z.to_nat (Z.min failures (Z.of_nat (length l)) - 1)))
      as [delay Hd]; [lia|].
    exists delay. split; [done|]. unfold py_index.
    replace (Z.min (failures - 1) (Z.of_nat (length l) - 1))
      with (Z.min failures (Z.of_nat (length l)) - 1) by lia.
    destruct (Z.ltb_spec (Z.min failures (Z.of_nat (length l)) - 1) 0) as [Hlt|_]; [lia|].
    destruct (Z.ltb_spec (Z.min failures (Z.of_nat (length l)) - 1) 0) as [Hlt|_]; [lia|].
    by rewrite Hd.
  - rewrite andb_comm in H. by rewrite H.
Qed.

Lemma calculate_target_next_run_None target policy site now next :
  calculate_target_next_run target policy site now = Ok next →
  (next = None ↔ tg_enabled target = false ∨ policy = None ∨
     ∃ p, policy = Some p ∧ po_enabled p = false).
Proof.
  unfold calculate_target_next_run. destruct policy as [p|]; [|intros [= <-]; tauto].
  destruct (tg_enabled target), (po_enabled p) eqn:E; simpl;
    try (intros [= <-]; split; eauto; naive_solver).
  destruct (calculate_next_run _ _ _ _ _); simpl; [|done]. intros [= <-].
  split; [done|]. intros [?|[?|(q & [= <-] & ?)]]; congruence.
Qed.

(** C6: Applying the schedule leaves a target disabled exactly when it is not
    enabled, and keeps the status of an enabled one that was not disabled.  A
    re-enabled target comes back failed when it has failures on record, and
    otherwise healthy when it ever succeeded and never run when it did not.
    [next_run_at] is cleared exactly when nothing may run and is the policy's
    next run otherwise.  The row is stamped with the time of the save, no other
    column is touched, and repeating it at the same time changes nothing. *)
Theorem apply_target_schedule_correct target policy site now saved_at target' :
  apply_target_schedule target policy site now saved_at = Ok target' →
  (tg_status target' = TS_DISABLED ↔ tg_enabled target = false) ∧
  (tg_enabled target = true → tg_status target ≠ TS_DISABLED →
     tg_status target' = tg_status target) ∧
  (tg_enabled target = true → tg_status target = TS_DISABLED →
     (tg_status target' = TS_FAILED ↔ tg_consecutive_failures target ≠ 0) ∧
     (tg_status target' = TS_HEALTHY ↔
        tg_consecutive_failures target = 0 ∧ is_Some (tg_last_success_at target)) ∧
     (tg_status target' = TS_NEVER ↔
        tg_consecutive_failures target = 0 ∧ tg_last_success_at target = None)) ∧
  (tg_next_run_at target' = None ↔ tg_enabled target = false ∨ policy = None ∨
     ∃ p, policy = Some p ∧ po_enabled p = false) ∧
  (∀ p next, policy = Some p → tg_next_run_at target' = Some next →
     calculate_next_run p (Aware now)
       (if tg_pk target =? 0 then tg_device target else tg_pk target)
       (target_timezone_name policy site) None = Ok next) ∧
  tg_last_updated target' = Some saved_at ∧
  target' = target <| tg_next_run_at := tg_next_run_at target' |>
                   <| tg_last_updated := tg_last_updated target' |>
                   <| tg_status := tg_status target' |> ∧
  apply_target_schedule target' policy site now saved_at = Ok target'.
Proof.
  unfold apply_target_schedule. intros (next & Hn & [= Ht])%result_bind_Ok.
  pose proof (calculate_target_next_run_None _ _ _ _ _ Hn) as Hnone.
  assert (tg_next_run_at target' = next) as Hnext.
  { subst target'. repeat case_match; done. }
  assert (tg_enabled target' = tg_enabled target ∧ tg_pk target' = tg_pk target
    ∧ tg_device target' = tg_device target) as (He & Hp & Hd).
  { subst target'. repeat case_match; done. }
  rewrite Hnext. split_and!.
  - subst target'. simpl. destruct (tg_enabled target); simpl; [|done].
    case_bool_decide as Hs; simpl; [|naive_solver]. repeat case_match; naive_solver.
  - intros Hen Hs. subst target'. simpl. rewrite Hen. simpl. by rewrite bool_decide_eq_false_2.
  - intros Hen Hs. subst target'. simpl. rewrite Hen. simpl.
    rewrite bool_decide_eq_true_2 by done. simpl.
    clear. unfold is_Some. destruct (Z.eqb_spec (tg_consecutive_failures target) 0); simpl;
      [destruct (tg_last_success_at target); simpl|]; naive_solver.
  - done.
  - intros p n -> ->. revert Hn. unfold calculate_target_next_run.
    destruct (_ || _); [done|]. destruct (calculate_next_run _ _ _ _ _); simpl; congruence.
  - subst target'. simpl. repeat case_match; done.
  - subst target'. simpl. repeat case_match; done.
  - assert (calculate_target_next_run target' policy site now = Ok next) as ->.
    { rewrite <-Hn. unfold calculate_target_next_run. by rewrite He, Hp, Hd. }
    simpl. f_equal. subst target'. simpl.
    destruct (tg_enabled target) eqn:Hen; simpl; [|by rewrite Hen].
    case_bool_decide as Hs; simpl; rewrite Hen; simpl; [|by rewrite bool_decide_eq_false_2].
    by destruct (negb (tg_consecutive_failures target =? 0)),
      (bool_decide (is_Some (tg_last_success_at target))).
Qed.
End scheduling.

(** ** Concrete runs *)
Module SchedulingExamples.

(** 2024 in Europe/Bratislava: UTC+2 from March 31 to October 27, 01:00Z. *)
Definition bratislava_2024 : tzdata :=
  {| tz_before := 60 * us_per_minute;
     tz_transitions := [(1711846800000000, 120 * us_per_minute);
                        (1729990800000000, 60 * us_per_minute)] |}.
Definition zoneinfo (name : string) : result tzdata :=
  if bool_decide (name = "Europe/Bratislava") then Ok bratislava_2024
  else if bool_decide (name = "UTC") then Ok UTC else Err KeyError.

Definition daily_policy (minutes jitter : Z) : BackupPolicy :=
  {| po_pk := 7; po_enabled := true; po_schedule_type := ST_DAILY;
     po_interval_minutes := None; po_time_of_day := Some (minutes * us_per_minute);
     po_timezone_mode := "site"; po_jitter_minutes := jitter; po_connection_timeout := 15;
     po_command_timeout := 60; po_max_retries := 3; po_retry_backoff_minutes := [5; 15];
     po_store_mode := SM_CHANGED_ONLY; po_retention_policy := 1 |}.
Definition interval_policy (minutes : Z) : BackupPolicy :=
  (daily_policy 0 0) <| po_schedule_type := ST_INTERVAL |>
                     <| po_interval_minutes := Some minutes |> <| po_time_of_day := None |>.
Definition target (status : TargetStatus) (enabled : bool) : BackupTarget :=
  {| tg_pk := 3; tg_device := 11; tg_enabled := enabled; tg_policy_override := Some 7;
     tg_retention_override := None; tg_remote_retention_policy := None;
     tg_credential_override := None; tg_connection_override := None;
     tg_receiver_override := None; tg_driver_override := "";
     tg_driver_options_override := ∅; tg_next_run_at := None; tg_last_attempt_at := None;
     tg_last_success_at := Some 1729000000000000; tg_last_change_at := None;
     tg_status := status; tg_consecutive_failures := 0; tg_last_revision := None;
     tg_created := None; tg_last_updated := None |}.

(** 2024-06-15T10:00Z *)
Definition june : Z := 1718445600000000.

(** A daily policy at 02:45 asked at 2024-10-27T01:30Z, inside the repeated
    hour: the answer is 00:45Z, before the reference: the wall-clock comparison
    ignores [fold]. *)
Theorem next_run_in_repeated_hour :
  calculate_next_run zoneinfo (daily_policy 165 0) (Aware 1729992600000000) 3
    "Europe/Bratislava" None = Ok 1729989900000000
  ∧ 1729989900000000 < 1729992600000000.
Proof. split; [vm_compute; reflexivity|lia]. Qed.

Lemma calculate_next_run_after_reference_witness :
  ∃ r, calculate_next_run zoneinfo (daily_policy 165 30) (Aware june) 3
         "Europe/Bratislava" (Aware <$> None) = Ok r
    ∧ june < r <= june + schedule_horizon (daily_policy 165 30).
Proof.
  apply (calculate_next_run_after_reference zoneinfo (daily_policy 165 30) june 3
           "Europe/Bratislava" None bratislava_2024).
  - split; [reflexivity|]. split; [done|]. intros t [= <-]. unfold us_per_day, us_per_minute. lia.
  - reflexivity.
  - unfold tz_wf, bratislava_2024. simpl. unfold us_per_minute, us_per_day. lia.
  - reflexivity.
  - vm_compute. discriminate.
  - simpl. lia.
  - vm_compute. reflexivity.
Defined.

Lemma calculate_next_run_interval_least_witness :
  june + 25 * 60 * us_per_minute < june + 26 * 60 * us_per_minute ∧
  ∃ k, 1 <= k ∧ june + 26 * 60 * us_per_minute = june + k * (120 * us_per_minute) ∧
    ∀ j, 1 <= j → june + 25 * 60 * us_per_minute < june + j * (120 * us_per_minute) → k <= j.
Proof.
  apply (calculate_next_run_interval_least zoneinfo (interval_policy 120) 120 june 3 "UTC").
  - reflexivity.
  - reflexivity.
  - lia.
  - vm_compute. reflexivity.
Defined.

Lemma calculate_failure_next_run_cases_witness :
  calculate_failure_next_run zoneinfo (Some (interval_policy 120)) june 3 3 "UTC"
    = Ok (Some (june + 15 * us_per_minute)).
Proof.
  destruct (calculate_failure_next_run_cases zoneinfo (interval_policy 120) june 3 3 "UTC")
    as [Hretry _]; [reflexivity|lia|].
  destruct Hretry as (delay & Hd & ->); [reflexivity|].
  injection Hd as <-. vm_compute. reflexivity.
Defined.

Lemma apply_target_schedule_correct_witness :
  (tg_status ((target TS_HEALTHY true)
       <| tg_next_run_at := Some (june + 120 * us_per_minute) |>
       <| tg_last_updated := Some june |>) = TS_DISABLED ↔ true = false).
Proof.
  refine (proj1 (apply_target_schedule_correct zoneinfo "UTC" (target TS_DISABLED true)
           (Some (interval_policy 120)) None june june _ _)).
  vm_compute. reflexivity.
Defined.
End SchedulingExamples.
