(* ===== verification/AuditScheduling.v ===== *)
(** * Integrity audit schedules: [services/ftp_audit_scheduling.py]

    The next daily or weekly audit of a remote storage.  The candidate is the
    least wall clock of the configured kind after the local reference. *)

From Stdlib Require Import ZArith Lia.
From stdpp Require Import base gmap sets list strings.
From S2P Require Import Prelude Calendar Zones Models Scheduling.
#[local] Open Scope string_scope.
#[local] Open Scope list_scope.
#[local] Open Scope Z_scope.

Section audit_scheduling.
Context (zoneinfo : string → result tzdata).

(* src: services/ftp_audit_scheduling.py 9 13 _zone *)
Definition audit_zone (timezone_name : string) : result tzdata :=
  match zoneinfo timezone_name with
  | Err KeyError => Ok UTC
  | r => r
  end.

(* src: services/ftp_audit_scheduling.py 31 54 calculate_next_ftp_audit *)
Definition audit_candidate (destination : BackupDestination) (local_reference : local_dt)
    : result local_dt :=
  let candidate_date := date_of (wall local_reference) in
  match ds_integrity_audit_frequency destination with
  | AF_DAILY =>
      candidate ← check_local (combine candidate_date (ds_integrity_audit_time destination));
      if wall candidate <=? wall local_reference
      then check_local (plus_us candidate us_per_day)
      else Ok candidate
  | AF_WEEKLY =>
      let days_ahead :=
        (ds_integrity_audit_weekday destination - weekday candidate_date) mod 7 in
      candidate ← check_local
        (combine (candidate_date + days_ahead) (ds_integrity_audit_time destination));
      if wall candidate <=? wall local_reference
      then check_local (plus_us candidate (7 * us_per_day))
      else Ok candidate
  end.

(* src: services/ftp_audit_scheduling.py 16 54 calculate_next_ftp_audit *)
Definition calculate_next_ftp_audit (destination : BackupDestination) (after : datetime)
    (now : option datetime) (timezone_name : string) : result Z :=
  let reference := default after now in
  if negb (is_aware after) || negb (is_aware reference)
  then Err (ValueError "FTP audit scheduling requires timezone-aware datetimes.")
  else
    tz ← audit_zone timezone_name;
    local_reference ← check_local (to_local tz (dt_key reference));
    candidate ← audit_candidate destination local_reference;
    check_range (to_utc tz candidate).

(* src: services/ftp_audit_scheduling.py 57 74 calculate_destination_next_ftp_audit *)
Definition calculate_destination_next_ftp_audit (destination : BackupDestination) (now : Z)
    (timezone_name : string) : result (option Z) :=
  if negb (ds_enabled destination) || negb (ds_integrity_audit_enabled destination)
     || negb (is_replicated (ds_protocol destination))
  then Ok None
  else
    Some <$> calculate_next_ftp_audit destination (Aware now) (Some (Aware now)) timezone_name.

(** A wall clock at which the destination is to be audited. *)
Definition audit_wall (destination : BackupDestination) (w : Z) : Prop :=
  w - date_of w * us_per_day = ds_integrity_audit_time destination ∧
  (ds_integrity_audit_frequency destination = AF_WEEKLY →
     weekday (date_of w) = ds_integrity_audit_weekday destination).

Definition audit_fields_ok (destination : BackupDestination) : Prop :=
  0 <= ds_integrity_audit_time destination < us_per_day ∧
  0 <= ds_integrity_audit_weekday destination < 7.

Lemma date_of_combine day t : 0 <= t < us_per_day → date_of (day * us_per_day + t) = day.
Proof. unfold date_of, us_per_day. intros. Z.div_mod_to_equations. lia. Qed.

Lemma audit_candidate_least destination l d :
  audit_fields_ok destination → audit_candidate destination l = Ok d →
  fold d = false ∧ wall l < wall d <= wall l + 7 * us_per_day ∧
  audit_wall destination (wall d) ∧
  ∀ w, wall l < w → audit_wall destination w → wall d <= w.
Proof.
  intros [Ht Hwd] H. unfold audit_candidate in H.
  pose proof (date_of_bounds (wall l)) as Hb. unfold audit_wall.
  set (t := ds_integrity_audit_time destination) in *.
  set (wd := ds_integrity_audit_weekday destination) in *.
  set (day := date_of (wall l)) in *.
  assert (∀ day', weekday (day' + 7) = weekday day') as Hper.
  { intros. unfold weekday. Z.div_mod_to_equations. lia. }
  destruct (ds_integrity_audit_frequency destination) eqn:Hfreq.
  - apply result_bind_Ok in H as (c & [-> _]%check_local_Ok & H). simpl in H.
    destruct (Z.leb_spec (day * us_per_day + t) (wall l)) as [Hle|Hlt].
    + apply check_local_Ok in H as [-> _]. simpl.
      replace (day * us_per_day + t + us_per_day) with ((day + 1) * us_per_day + t) by ring.
      rewrite date_of_combine by done.
      split_and!; [done|lia|unfold us_per_day in *; lia|lia|done|].
      intros w Hw [Hwt _]. pose proof (date_of_bounds w).
      assert (day < date_of w); [|unfold us_per_day in *; lia].
      destruct (Z.lt_ge_cases day (date_of w)); [done|]. unfold us_per_day in *. lia.
    + injection H as <-. simpl. rewrite date_of_combine by done.
      split_and!; [done|lia|unfold us_per_day in *; lia|lia|done|].
      intros w Hw [Hwt _]. pose proof (date_of_bounds w).
      assert (day <= date_of w) by (apply date_of_mono; lia).
      unfold us_per_day in *. lia.
  - apply result_bind_Ok in H as (c & [-> _]%check_local_Ok & H). simpl in H.
    set (ahead := (wd - weekday day) mod 7) in *.
    assert (0 <= ahead < 7) as Hah by (apply Z.mod_pos_bound; lia).
    assert (weekday (day + ahead) = wd) as Hday.
    { unfold ahead, weekday in *. Z.div_mod_to_equations. lia. }
    assert (∀ d', day <= d' → weekday d' = wd → d' = day + ahead ∨ day + ahead + 7 <= d') as Hnext.
    { intros d' Hd' Hw. destruct (Z.lt_ge_cases d' (day + ahead + 7)); [left|by right].
      rewrite <-Hday in Hw. unfold weekday in Hw. Z.div_mod_to_equations. lia. }
    destruct (Z.leb_spec ((day + ahead) * us_per_day + t) (wall l)) as [Hle|Hlt].
    + apply check_local_Ok in H as [-> _]. simpl.
      replace ((day + ahead) * us_per_day + t + 7 * us_per_day)
        with ((day + ahead + 7) * us_per_day + t) by ring.
      rewrite date_of_combine by done. rewrite Hper.
      assert (ahead = 0) as Ha0 by (unfold us_per_day in *; lia).
      split_and!; [done|unfold us_per_day in *; lia|unfold us_per_day in *; lia|lia|done|].
      intros w Hw [Hwt Hwwd]. pose proof (date_of_bounds w).
      assert (day <= date_of w) as Hdw by (apply date_of_mono; lia).
      destruct (Hnext _ Hdw (Hwwd eq_refl)) as [E|?]; [|unfold us_per_day in *; lia].
      rewrite E in *. unfold us_per_day in *. lia.
    + injection H as <-. simpl. rewrite date_of_combine by done.
      split_and!; [done|lia|unfold us_per_day in *; lia|lia|done|].
      intros w Hw [Hwt Hwwd]. pose proof (date_of_bounds w).
      assert (day <= date_of w) as Hdw by (apply date_of_mono; lia).
      destruct (Hnext _ Hdw (Hwwd eq_refl)) as [E|?]; unfold us_per_day in *; lia.
Qed.

Lemma check_local_in d :
  instant_min <= wall d < instant_end → check_local d = Ok d.
Proof.
  intros [? ?]. apply check_local_Ok. split; [done|]. unfold in_range.
  apply andb_true_iff. split; [by apply Z.leb_le|by apply Z.ltb_lt].
Qed.

Lemma audit_candidate_total destination l :
  audit_fields_ok destination →
  instant_min + us_per_day <= wall l → wall l + 15 * us_per_day < instant_end →
  ∃ d, audit_candidate destination l = Ok d.
Proof.
  intros [Ht Hwd] Hmin Hmax. unfold audit_candidate.
  pose proof (date_of_bounds (wall l)) as Hb.
  pose proof (Z.mod_pos_bound
    (ds_integrity_audit_weekday destination - weekday (date_of (wall l))) 7 ltac:(lia)) as Hm.
  set (ahead := (_ mod 7)) in *. unfold mbind, result_bind.
  destruct (ds_integrity_audit_frequency destination);
    (rewrite check_local_in by (simpl; unfold us_per_day in *; lia)); simpl;
    (destruct (_ <=? _); [|by eexists]);
    rewrite check_local_in by (simpl; unfold us_per_day in *; lia); by eexists.
Qed.

(** A remote storage is next audited at the least wall clock after the
    local reference that has the configured time of day and, for a weekly
    audit, the configured weekday; outside a repeated hour of the zone that
    instant lies strictly after the reference. *)
Theorem calculate_next_ftp_audit_least destination after now name tz :
  let reference := default after now in
  audit_fields_ok destination → audit_zone name = Ok tz → tz_wf tz →
  instant_min + 3 * us_per_day <= reference → reference + 20 * us_per_day < instant_end →
  ∃ d, calculate_next_ftp_audit destination (Aware after) (Aware <$> now) name
         = Ok (to_utc tz d) ∧
    audit_wall destination (wall d) ∧ wall (to_local tz reference) < wall d ∧
    (∀ w, wall (to_local tz reference) < w → audit_wall destination w → wall d <= w) ∧
    (fold_at tz reference = false → reference < to_utc tz d).
Proof.
  intros reference Hok Hz Hwf Hmin Hmax. unfold calculate_next_ftp_audit.
  assert (default (Aware after) (Aware <$> now) = Aware reference) as -> by (by destruct now).
  pose proof (to_local_bound tz reference Hwf) as Hl.
  change (negb (is_aware (Aware after)) || negb (is_aware (Aware reference))) with false.
  unfold dt_key. rewrite Hz.
  destruct (audit_candidate_total destination (to_local tz reference) Hok) as [d Hd];
    [unfold us_per_day in *; lia..|].
  pose proof (audit_candidate_least _ _ _ Hok Hd) as (Hf & Hw & Haw & Hleast).
  pose proof (to_utc_bound tz d Hwf) as Hu.
  exists d. split_and!; [|done|lia|done|].
  - unfold mbind, result_bind.
    rewrite check_local_in by (unfold us_per_day in *; lia). rewrite Hd.
    apply check_range_Ok. split; [done|]. unfold in_range, us_per_day in *.
    apply andb_true_iff. rewrite Z.leb_le, Z.ltb_lt. lia.
  - intros Hfold. replace d with {| wall := wall d; fold := false |} by (by destruct d as [? []]).
    apply later_wall_later; [done..|lia].
Qed.
End audit_scheduling.

Module AuditExamples.
Definition weekly_ftp : BackupDestination :=
  {| ds_pk := 4; ds_is_default := false; ds_enabled := true; ds_auto_replicate := true;
     ds_integrity_audit_enabled := true; ds_integrity_audit_frequency := AF_WEEKLY;
     ds_integrity_audit_time := 240 * us_per_minute; ds_integrity_audit_weekday := 0;
     ds_next_integrity_audit_at := None; ds_last_integrity_audit_at := None;
     ds_last_integrity_audit_status := None; ds_last_integrity_audit_problem_count := 0;
     ds_protocol := DP_FTP; ds_allow_insecure_ftp := true; ds_host := "nas.example";
     ds_port := Some 21; ds_base_path := "netbox-config-backup"; ds_mount_path := "";
     ds_credential_profile := Some 1; ds_connect_timeout := Some 15; ds_max_retries := Some 3;
     ds_retry_delay_minutes := Some 15; ds_max_artifact_size := Some 1073741824;
     ds_local_retention_policy := None; ds_remote_retention_policy := None;
     ds_enforce_retention_policy := false; ds_host_key_type := ""; ds_host_key_public := "";
     ds_host_key_fingerprint_sha256 := ""; ds_last_success_at := None;
     ds_last_error_code := ""; ds_last_error_message := "" |}.

(** Saturday 2024-06-15T10:00Z: the audit is on Monday the 17th at 04:00
    local time, 02:00Z. *)
Example weekly_ftp_next :
  calculate_next_ftp_audit SchedulingExamples.zoneinfo weekly_ftp
    (Aware SchedulingExamples.june) None "Europe/Bratislava" = Ok 1718589600000000.
Proof. vm_compute. reflexivity. Qed.

Lemma calculate_next_ftp_audit_least_witness :
  ∃ d, calculate_next_ftp_audit SchedulingExamples.zoneinfo weekly_ftp
         (Aware SchedulingExamples.june) (Aware <$> None) "Europe/Bratislava"
       = Ok (to_utc SchedulingExamples.bratislava_2024 d) ∧ audit_wall weekly_ftp (wall d).
Proof.
  destruct (calculate_next_ftp_audit_least SchedulingExamples.zoneinfo weekly_ftp
    SchedulingExamples.june None "Europe/Bratislava" SchedulingExamples.bratislava_2024)
    as (d & H1 & H2 & _).
  - split; vm_compute; split; try discriminate; reflexivity.
  - reflexivity.
  - unfold tz_wf, SchedulingExamples.bratislava_2024. simpl. unfold us_per_minute, us_per_day. lia.
  - vm_compute. discriminate.
  - vm_compute. reflexivity.
  - exists d. split; [exact H1|exact H2].
Defined.
End AuditExamples.
