(* ===== verification/Health.v ===== *)
(** * Target health and stuck runs: [services/health.py]

    The status a target deserves at a given time, the refresh that stores it
    for every target and announces the newly stale ones, and the two readings
    of a stuck run: the Python predicate of one run and the SQL filter, here
    with SQL's three-valued comparisons. *)

From Stdlib Require Import ZArith Lia.
From stdpp Require Import base gmap sets list strings.
From S2P Require Import Prelude Calendar Zones Models World Events Scheduling.
#[local] Open Scope string_scope.
#[local] Open Scope list_scope.
#[local] Open Scope Z_scope.

(* src: services/health.py 32 36 TargetHealthEvaluation *)
Record TargetHealthEvaluation := {
  he_status : TargetStatus;
  he_expected_success_by : option Z;
  he_monitored : bool;
}.

(* src: services/health.py 39 47 TargetHealthRefreshSummary *)
Record TargetHealthRefreshSummary := {
  hs_evaluated : nat;
  hs_updated : nat;
  hs_healthy : nat;
  hs_stale : nat;
  hs_failed : nat;
  hs_never : nat;
  hs_disabled : nat;
}.

(** A target with the rows it is joined to. *)
Definition target_policy (db : DB) (t : BackupTarget) : option BackupPolicy :=
  k ← tg_policy_override t; db_policies db !! k.
Definition target_site_time_zone (db : DB) (t : BackupTarget) : option string :=
  d ← db_devices db !! tg_device t; dv_site_time_zone d.
Definition target_key (t : BackupTarget) : Z :=
  if tg_pk t =? 0 then tg_device t else tg_pk t.

Section health.
Context `{Externals} (plugin_settings : PluginSettings).
Context (zoneinfo : string → result tzdata) (TIME_ZONE : string).

Definition healthy_or_never (t : BackupTarget) : TargetStatus :=
  if bool_decide (is_Some (tg_last_success_at t)) then TS_HEALTHY else TS_NEVER.

(* src: services/health.py 50 94 evaluate_target_health *)
Definition evaluate_target_health (target : BackupTarget) (policy : option BackupPolicy)
    (site_time_zone : option string) (now : datetime) (grace_minutes : Z)
    : result TargetHealthEvaluation :=
  match now with
  | Naive _ => Err (ValueError "Target health evaluation requires a timezone-aware datetime.")
  | Aware now =>
      if grace_minutes <? 0
      then Err (ValueError "Target health grace cannot be negative.")
      else if negb (tg_enabled target)
      then Ok {| he_status := TS_DISABLED; he_expected_success_by := None;
                 he_monitored := false |}
      else if (0 <? tg_consecutive_failures target)
              || bool_decide (tg_status target = TS_FAILED)
      then Ok {| he_status := TS_FAILED; he_expected_success_by := None; he_monitored := true |}
      else
        let unmonitored := Ok {| he_status := healthy_or_never target;
                                 he_expected_success_by := None; he_monitored := false |} in
        match policy with
        | None => unmonitored
        | Some p =>
            if negb (po_enabled p) then unmonitored
            else
              match (match tg_last_success_at target with
                     | Some i => Some i | None => tg_created target end) with
              | None => Ok {| he_status := TS_NEVER; he_expected_success_by := None;
                              he_monitored := true |}
              | Some reference =>
                  match calculate_next_run zoneinfo p (Aware reference) (target_key target)
                          (target_timezone_name TIME_ZONE (Some p) site_time_zone)
                          (Some (Aware reference)) with
                  | Err (ValueError _) => unmonitored
                  | Err e => Err e
                  | Ok next_expected =>
                      deadline ← check_range (next_expected + grace_minutes * us_per_minute);
                      Ok {| he_status := if deadline <=? now then TS_STALE
                                         else healthy_or_never target;
                            he_expected_success_by := Some deadline;
                            he_monitored := true |}
                  end
              end
        end
  end.

Definition evaluate_row (db : DB) (now : datetime) (grace_minutes : Z) (t : BackupTarget)
    : result (BackupTarget * TargetStatus) :=
  e ← evaluate_target_health t (target_policy db t) (target_site_time_zone db t)
        now grace_minutes;
  Ok (t, he_status e).

(** The columns of [bulk_update(changed, ("status", "last_updated"))]. *)
Definition set_status (now : datetime) (s : TargetStatus) (t : BackupTarget) : BackupTarget :=
  t <| tg_status := s |>
    <| tg_last_updated := Some (dt_key now) |>.

Definition update_statuses (now : datetime) (changed : list (BackupTarget * TargetStatus))
    (targets : gmap Z BackupTarget) : gmap Z BackupTarget :=
  foldr (λ c, alter (set_status now c.2) (tg_pk c.1)) targets changed.

Definition count_status (s : TargetStatus) (evaluated : list (BackupTarget * TargetStatus)) : nat :=
  length (filter (λ c, c.2 = s) evaluated).

(* src: services/health.py 97 150 refresh_target_health *)
Definition refresh_target_health (now : datetime) (grace_minutes : Z)
    : M World TargetHealthRefreshSummary :=
  db ← read id;
  let targets := rows (db_targets db) in
  evaluated ← lift (mapM (evaluate_row db now grace_minutes) targets);
  let changed := filter (λ c, tg_status c.1 ≠ c.2) evaluated in
  let newly_stale := filter (λ c, c.2 = TS_STALE) changed in
  _ ← on_db (λ db, db <| db_targets := update_statuses now changed (db_targets db) |>);
  _ ← for_each newly_stale (λ c, queue_target_event plugin_settings World.TARGET_STALE (tg_pk c.1));
  mret {| hs_evaluated := length targets; hs_updated := length changed;
          hs_healthy := count_status TS_HEALTHY evaluated;
          hs_stale := count_status TS_STALE evaluated;
          hs_failed := count_status TS_FAILED evaluated;
          hs_never := count_status TS_NEVER evaluated;
          hs_disabled := count_status TS_DISABLED evaluated |}.

(* src: services/health.py 153 163 is_run_stuck *)
Definition is_run_stuck (run : BackupRun) (now : datetime) (timeout_minutes : Z) : result bool :=
  match now with
  | Naive _ => Err (ValueError "Stuck run evaluation requires a timezone-aware datetime.")
  | Aware now =>
      if timeout_minutes <=? 0 then Err (ValueError "Stuck run timeout must be positive.")
      else if negb (bool_decide (run_status run ∈ [RS_QUEUED; RS_RUNNING])) then Ok false
      else
        let reference :=
          match run_status run, run_started_at run with
          | RS_RUNNING, Some started => started
          | _, _ => run_queued_at run
          end in
        cutoff ← check_range (now - timeout_minutes * us_per_minute);
        Ok (reference <=? cutoff)
  end.

(** SQL's logic: [None] is [NULL], and a filter keeps the rows whose condition
    is true. *)
Definition sql_lte (a : option Z) (b : Z) : option bool := (λ x, x <=? b) <$> a.
Definition sql_and (a b : option bool) : option bool :=
  match a, b with
  | Some false, _ | _, Some false => Some false
  | Some true, Some true => Some true
  | _, _ => None
  end.
Definition sql_or (a b : option bool) : option bool :=
  match a, b with
  | Some true, _ | _, Some true => Some true
  | Some false, Some false => Some false
  | _, _ => None
  end.
Definition sql_eq {A} `{EqDecision A} (a b : A) : option bool := Some (bool_decide (a = b)).

(* src: services/health.py 166 172 stuck_run_query *)
Definition stuck_run_query (now timeout_minutes : Z) (run : BackupRun) : option bool :=
  let cutoff := now - timeout_minutes * us_per_minute in
  sql_or
    (sql_and (sql_eq (run_status run) RS_QUEUED) (sql_lte (Some (run_queued_at run)) cutoff))
    (sql_and (sql_eq (run_status run) RS_RUNNING)
       (sql_or (sql_lte (run_started_at run) cutoff)
          (sql_and (Some (bool_decide (run_started_at run = None)))
                   (sql_lte (Some (run_queued_at run)) cutoff)))).

(* src: services/health.py 175 181 stuck_run_queryset *)
Definition stuck_run_queryset (now timeout_minutes : Z) (runs : list BackupRun) : list BackupRun :=
  filter (λ run, stuck_run_query now timeout_minutes run = Some true) runs.

(* src: services/health.py 21 25 FAILURE_RUN_STATUSES *)
Definition FAILURE_RUN_STATUSES : list RunStatus := [RS_PARTIAL; RS_FAILED; RS_ERRORED].

(* src: services/health.py 184 185 failure_run_queryset *)
Definition failure_run_queryset (runs : list BackupRun) : list BackupRun :=
  filter (λ run, run_status run ∈ FAILURE_RUN_STATUSES) runs.

(** The SQL filter behind the dashboards and the reconciler selects
    exactly the runs the Python predicate calls stuck, also when a running
    row has no start time. *)
Theorem stuck_run_query_agrees run now timeout :
  0 < timeout → instant_min <= now - timeout * us_per_minute → now < instant_end →
  (stuck_run_query now timeout run = Some true ↔
     is_run_stuck run (Aware now) timeout = Ok true) ∧
  (stuck_run_query now timeout run ≠ Some true ↔
     is_run_stuck run (Aware now) timeout = Ok false).
Proof using Type.
  intros Ht Hmin Hmax.
  assert (is_run_stuck run (Aware now) timeout
    = Ok (bool_decide (stuck_run_query now timeout run = Some true))) as ->.
  { unfold is_run_stuck. destruct (Z.leb_spec timeout 0); [lia|].
    assert (check_range (now - timeout * us_per_minute) = Ok (now - timeout * us_per_minute)) as ->.
    { apply check_range_Ok. split; [done|]. unfold in_range, us_per_minute in *.
      apply andb_true_iff. rewrite Z.leb_le, Z.ltb_lt. lia. }
    unfold stuck_run_query, sql_eq. set (cutoff := now - timeout * us_per_minute).
    destruct (run_status run); simpl; try done;
      destruct (run_started_at run) as [s|]; simpl;
      destruct (run_queued_at run <=? cutoff) eqn:Eq; simpl; try done;
      destruct (s <=? cutoff) eqn:Es; simpl; done. }
  case_bool_decide as Hb; split; split; intros Hx; try done; by inversion Hx.
Qed.

(** ** The refresh *)

Lemma evaluate_stable t p site now g e :
  evaluate_target_health t p site now g = Ok e →
  evaluate_target_health (set_status now (he_status e) t) p site now g = Ok e.
Proof.
  unfold evaluate_target_health. destruct now as [now|]; [|done].
  destruct (g <? 0); [done|]. simpl. destruct (negb (tg_enabled t)); [done|].
  destruct ((0 <? tg_consecutive_failures t) || bool_decide (tg_status t = TS_FAILED)) eqn:Hf.
  - intros [= <-]. simpl. by rewrite orb_true_r.
  - apply orb_false_iff in Hf as [-> _]. simpl. intros Hx.
    assert (he_status e ≠ TS_FAILED) as Hne.
    { revert Hx. unfold healthy_or_never. repeat case_match; 
        try (intros [= <-]; done);
        intros (d & _ & [= <-])%result_bind_Ok; simpl; by repeat case_match. }
    rewrite bool_decide_eq_false_2 by done. exact Hx.
Qed.

Lemma update_statuses_other now changed m k :
  k ∉ map (λ c : BackupTarget * TargetStatus, tg_pk c.1) changed →
  update_statuses now changed m !! k = m !! k.
Proof.
  induction changed as [|c l IH]; simpl; [done|]. rewrite not_elem_of_cons.
  intros [Hk Hl]. rewrite lookup_alter_ne by done. auto.
Qed.

Lemma update_statuses_lookup now (changed : list (BackupTarget * TargetStatus)) m c t :
  NoDup (map (λ c : BackupTarget * TargetStatus, tg_pk c.1) changed) → c ∈ changed →
  m !! tg_pk c.1 = Some t →
  update_statuses now changed m !! tg_pk c.1 = Some (set_status now c.2 t).
Proof.
  induction changed as [|c' l IH]; [by rewrite elem_of_nil|]. simpl.
  rewrite NoDup_cons, elem_of_cons. intros [Hnin Hnd] [->|Hin] Hm.
  - rewrite lookup_alter_eq, update_statuses_other by done. by rewrite Hm.
  - rewrite lookup_alter_ne; [auto|]. intros E. apply Hnin. rewrite E.
    change (tg_pk c.1) with ((λ c : BackupTarget * TargetStatus, tg_pk c.1) c).
    by apply list_elem_of_fmap_2.
Qed.

(** What a refresh writes: the status of every target is its evaluation, and
    the rows whose status changes are stamped. *)
Definition refreshed (db : DB) (now : datetime) (g : Z) (targets : gmap Z BackupTarget) : Prop :=
  ∀ k t, db_targets db !! k = Some t →
    ∃ e, evaluate_target_health t (target_policy db t) (target_site_time_zone db t) now g = Ok e ∧
      targets !! k = Some (if bool_decide (tg_status t = he_status e) then t
                           else set_status now (he_status e) t).

Lemma refresh_db w now g :
  keyed tg_pk (db_targets (w_db w)) →
  ∀ evaluated, mapM (evaluate_row (w_db w) now g) (rows (db_targets (w_db w))) = Ok evaluated →
  let changed := filter (λ c : BackupTarget * TargetStatus, tg_status c.1 ≠ c.2) evaluated in
  refreshed (w_db w) now g (update_statuses now changed (db_targets (w_db w))) ∧
  NoDup (map (λ c : BackupTarget * TargetStatus, tg_pk c.1) changed) ∧
  ∀ t s, (t, s) ∈ changed ↔
    db_targets (w_db w) !! tg_pk t = Some t ∧ tg_status t ≠ s ∧
    evaluate_row (w_db w) now g t = Ok (t, s).
Proof.
  intros Hk evaluated He changed. apply mapM_Ok in He.
  assert (evaluated.*1 = rows (db_targets (w_db w))) as Hfst.
  { clear changed. induction He as [|t c l l' Hc _ IH]; simpl; [done|]. f_equal; [|done].
    apply result_bind_Ok in Hc as (e & _ & [= <-]). done. }
  assert (NoDup (map (λ c : BackupTarget * TargetStatus, tg_pk c.1) changed)) as Hnd.
  { unfold changed. apply (NoDup_map_sublist _ _ evaluated); [apply sublist_filter|].
    replace (map (λ c : BackupTarget * TargetStatus, tg_pk c.1) evaluated)
      with (map tg_pk (evaluated.*1)) by (by rewrite <-list_fmap_compose).
    rewrite Hfst. by apply NoDup_rows. }
  assert (∀ t s, (t, s) ∈ evaluated ↔ db_targets (w_db w) !! tg_pk t = Some t ∧
    evaluate_row (w_db w) now g t = Ok (t, s)) as Hin.
  { intros t s. split.
    - intros Hts. assert (t ∈ rows (db_targets (w_db w))) as Ht.
      { rewrite <-Hfst. apply list_elem_of_fmap. by exists (t, s). }
      split; [by apply elem_of_rows_keyed|].
      apply list_elem_of_lookup in Hts as [i Hi].
      destruct (Forall2_lookup_r _ _ _ _ _ He Hi) as (x & Hx & Hev). simpl in Hev.
      assert (x = t) as ->; [|done].
      apply result_bind_Ok in Hev as (e & _ & [= -> _]). done.
    - intros [Ht Hev]. apply (elem_of_rows_keyed _ _ _ Hk) in Ht.
      apply list_elem_of_lookup in Ht as [i Hi].
      destruct (Forall2_lookup_l _ _ _ _ _ He Hi) as (c & Hc & Hcv).
      rewrite Hev in Hcv. injection Hcv as <-. by apply list_elem_of_lookup_2 in Hc. }
  assert (∀ t s, (t, s) ∈ changed ↔ db_targets (w_db w) !! tg_pk t = Some t ∧ tg_status t ≠ s ∧
    evaluate_row (w_db w) now g t = Ok (t, s)) as Hch.
  { intros t s. unfold changed. rewrite list_elem_of_filter, Hin. simpl. tauto. }
  split_and!; [|done|done].
  intros k t Hkt. pose proof (Hk _ _ Hkt) as <-.
  assert (t ∈ rows (db_targets (w_db w))) as Ht by (by apply (elem_of_rows_keyed tg_pk)).
  rewrite <-Hfst in Ht. apply list_elem_of_fmap in Ht as ([t' s] & Heq & Hts). simpl in Heq. subst t'.
  pose proof (proj1 (Hin t s) Hts) as [_ Hev].
  apply result_bind_Ok in Hev as (e & Hev & [= Hes]). exists e. split; [done|].
  destruct (decide (tg_status t = s)) as [Heq|Hne].
  - rewrite update_statuses_other.
    + by rewrite bool_decide_eq_true_2 by congruence.
    + rewrite list_elem_of_fmap. intros ([t' s'] & Hpk & Hc). simpl in Hpk.
      apply Hch in Hc as (Ht' & Hne & Hev'). rewrite <-Hpk, Hkt in Ht'. injection Ht' as <-.
      unfold evaluate_row in Hev'. rewrite Hev in Hev'. simpl in Hev'. injection Hev' as <-.
      by rewrite Hes in Hne.
  - rewrite Hes, bool_decide_eq_false_2 by done.
    apply (update_statuses_lookup _ _ _ (t, s)); [done| |done].
    apply Hch. split_and!; [done..|]. unfold evaluate_row. rewrite Hev. simpl. by rewrite Hes.
Qed.

Lemma queue_target_events_run event l w :
  ∃ w', for_each l (λ c : BackupTarget * TargetStatus,
          queue_target_event plugin_settings event (tg_pk c.1)) w = (Ok tt, w') ∧
    w_db w' = w_db w ∧
    all_hooks w' ≡ₚ all_hooks w ++
      if events_on plugin_settings (w_db w)
      then map (λ c : BackupTarget * TargetStatus, EmitTargetEvent event (tg_pk c.1)) l else [].
Proof.
  revert w. induction l as [|c l IH]; intros w; simpl.
  - exists w. split_and!; [done..|]. case_match; by rewrite app_nil_r.
  - destruct (queue_hook_run plugin_settings (EmitTargetEvent event (tg_pk c.1)) w)
      as (w1 & H1 & Hdb & _ & _ & _ & H0 & HS).
    destruct (IH w1) as (w2 & H2 & Hdb2 & Hh). exists w2. split_and!.
    + unfold mbind, M_bind, queue_target_event. by rewrite H1.
    + congruence.
    + rewrite Hh, Hdb. unfold all_hooks. destruct (w_depth w) as [|n].
      * destruct (H0 eq_refl) as [-> ->]. destruct (events_on _ _); [|by rewrite !app_nil_r].
        simpl. by rewrite <-!app_assoc, (Permutation_app_comm [_] (w_hooks w ++ _)),
          <-!app_assoc, (Permutation_app_comm _ [_]).
      * destruct (HS ltac:(done)) as [-> ->]. destruct (events_on _ _); [|by rewrite !app_nil_r].
        simpl. by rewrite <-!app_assoc.
Qed.

Lemma update_statuses_is_Some now changed m k t' :
  update_statuses now changed m !! k = Some t' → is_Some (m !! k).
Proof.
  revert t'. induction changed as [|c l IH]; intros t'; simpl; [eauto|].
  destruct (decide (tg_pk c.1 = k)) as [<-|Hne].
  - rewrite lookup_alter_eq. destruct (update_statuses now l m !! _) eqn:E; [eauto|done].
  - rewrite lookup_alter_ne by done. apply IH.
Qed.

(** Once every status is its own evaluation there is nothing to write. *)
Lemma refresh_nothing w now g :
  keyed tg_pk (db_targets (w_db w)) →
  (∀ k t, db_targets (w_db w) !! k = Some t →
     evaluate_row (w_db w) now g t = Ok (t, tg_status t)) →
  ∃ summary, refresh_target_health now g w = (Ok summary, w) ∧ hs_updated summary = 0%nat.
Proof.
  intros Hk Hall.
  assert (mapM (evaluate_row (w_db w) now g) (rows (db_targets (w_db w)))
    = Ok (map (λ t, (t, tg_status t)) (rows (db_targets (w_db w))))) as Hm.
  { apply mapM_Ok, Forall2_fmap_r, Forall_Forall2_diag, Forall_forall. intros t [k Ht]%elem_of_rows.
    by apply (Hall k). }
  unfold refresh_target_health, read, gets, lift, mbind, M_bind, id. rewrite Hm.
  rewrite filter_none_nil.
  - assert (w <| w_db := (w_db w) <| db_targets := db_targets (w_db w) |> |> = w) as Hw
      by (by destruct w as [[]]).
    simpl. rewrite Hw. eexists. by split.
  - intros [t s] Hin. simpl. apply list_elem_of_fmap in Hin as (t' & [= -> ->] & _). by intros [].
Qed.

(** C7: A refresh gives every target the status its evaluation calls for and
    changes nothing else, registers one stale event for exactly the targets
    that become stale, and repeating it at the same time updates nothing. *)
Theorem refresh_target_health_correct w now g summary w' :
  keyed tg_pk (db_targets (w_db w)) →
  refresh_target_health now g w = (Ok summary, w') →
  refreshed (w_db w) now g (db_targets (w_db w')) ∧
  w_db w' = (w_db w) <| db_targets := db_targets (w_db w') |> ∧
  (∃ stale, NoDup stale ∧
    (∀ k, k ∈ stale ↔ ∃ t t', db_targets (w_db w) !! k = Some t ∧
       db_targets (w_db w') !! k = Some t' ∧
       tg_status t ≠ TS_STALE ∧ tg_status t' = TS_STALE) ∧
    all_hooks w' ≡ₚ all_hooks w ++
      if events_on plugin_settings (w_db w)
      then map (EmitTargetEvent World.TARGET_STALE) stale else []) ∧
  ∃ summary', refresh_target_health now g w' = (Ok summary', w') ∧ hs_updated summary' = 0%nat.
Proof.
  intros Hk Hr. unfold refresh_target_health in Hr.
  apply M_bind_Ok in Hr as (db & w0 & [= <- <-] & Hr).
  apply M_bind_Ok in Hr as (evaluated & w0 & [= He <-] & Hr).
  apply M_bind_Ok in Hr as ([] & w1 & [= <-] & Hr).
  destruct (refresh_db w now g Hk evaluated He) as (Href & Hnd & Hch).
  set (changed := filter (λ c : BackupTarget * TargetStatus, tg_status c.1 ≠ c.2) evaluated) in *.
  set (newly := filter (λ c : BackupTarget * TargetStatus, c.2 = TS_STALE) changed) in *.
  set (w1 := w <| w_db := _ |>) in Hr.
  apply M_bind_Ok in Hr as ([] & w2 & Hq & [= _ <-]).
  destruct (queue_target_events_run World.TARGET_STALE newly w1) as (w3 & Hq' & Hdb & Hh).
  unfold id in Hq. rewrite Hq' in Hq. injection Hq as <-.
  assert (db_targets (w_db w3) = update_statuses now changed (db_targets (w_db w))) as Ht
    by (by rewrite Hdb).
  split_and!.
  - by rewrite Ht.
  - rewrite Ht, Hdb. done.
  - exists (map (λ c : BackupTarget * TargetStatus, tg_pk c.1) newly). split_and!.
    + apply (NoDup_map_sublist _ _ changed); [apply sublist_filter|done].
    + intros k. rewrite list_elem_of_fmap, Ht. split.
      * intros ([t s] & -> & Hc). unfold newly in Hc.
        apply list_elem_of_filter in Hc as [Hs Hc]. simpl in *. subst s.
        pose proof (proj1 (Hch _ _) Hc) as (Hkt & Hne & _).
        exists t, (set_status now TS_STALE t). split_and!; [done| |done|done].
        by apply (update_statuses_lookup _ _ _ (t, TS_STALE)).
      * intros (t & t' & Hkt & Hkt' & Hne & Hst). pose proof (Hk _ _ Hkt) as <-.
        destruct (Href _ _ Hkt) as (e & Hev & Hkt''). rewrite Hkt' in Hkt''.
        injection Hkt'' as ->. case_bool_decide as Hse; [done|]. simpl in Hst.
        exists (t, TS_STALE). split; [done|]. apply list_elem_of_filter. split; [done|].
        apply Hch. split_and!; [done..|]. unfold evaluate_row. rewrite Hev. simpl. by rewrite Hst.
    + rewrite Hh. unfold w1 at 1. rewrite <-list_fmap_compose. done.
  - apply refresh_nothing; rewrite Ht.
    + intros k t' Ht'. destruct (update_statuses_is_Some _ _ _ _ _ Ht') as [t Hkt].
      destruct (Href _ _ Hkt) as (e & _ & Hn). rewrite Ht' in Hn. injection Hn as ->.
      rewrite <-(Hk _ _ Hkt). by case_bool_decide.
    + intros k t' Ht'. destruct (update_statuses_is_Some _ _ _ _ _ Ht') as [t Hkt].
      destruct (Href _ _ Hkt) as (e & Hev & Hn). rewrite Ht' in Hn. injection Hn as ->.
      unfold evaluate_row. rewrite Hdb.
      change (target_policy (w_db w1)) with (target_policy (w_db w)).
      change (target_site_time_zone (w_db w1)) with (target_site_time_zone (w_db w)).
      case_bool_decide as Hse; [rewrite Hev; simpl; by rewrite <-Hse|].
      apply evaluate_stable in Hev.
      change (target_policy (w_db w) (set_status now (he_status e) t))
        with (target_policy (w_db w) t).
      change (target_site_time_zone (w_db w) (set_status now (he_status e) t))
        with (target_site_time_zone (w_db w) t).
      by rewrite Hev.
Qed.

(** The status of an evaluation: disabled exactly for a disabled target,
    failed exactly for an enabled one with failures on record, stale exactly
    when the deadline of the next expected success has passed, and otherwise
    healthy or never by whether there has been a success. *)
Theorem evaluate_target_health_table t p site now g e :
  evaluate_target_health t p site (Aware now) g = Ok e →
  (he_status e = TS_DISABLED ↔ tg_enabled t = false) ∧
  (he_status e = TS_FAILED ↔
     tg_enabled t = true ∧ (0 < tg_consecutive_failures t ∨ tg_status t = TS_FAILED)) ∧
  (he_status e = TS_STALE ↔ ∃ deadline, he_expected_success_by e = Some deadline ∧ deadline <= now) ∧
  (he_status e = TS_HEALTHY → is_Some (tg_last_success_at t)) ∧
  (he_status e = TS_NEVER → tg_last_success_at t = None) ∧
  (is_Some (he_expected_success_by e) → ∃ q, p = Some q ∧ po_enabled q = true).
Proof.
  unfold evaluate_target_health, healthy_or_never. destruct (g <? 0); [done|].
  destruct (tg_enabled t); simpl; [|intros [= <-]; simpl; naive_solver].
  destruct (Z.ltb_spec 0 (tg_consecutive_failures t)) as [Hc|Hc]; simpl.
  { intros [= <-]. simpl. naive_solver. }
  case_bool_decide as Hs; [intros [= <-]; simpl; naive_solver|].
  assert (¬ (0 < tg_consecutive_failures t ∨ tg_status t = TS_FAILED)) as Hnf by (intros []; [lia|done]).
  assert (∀ o m, o = None → m = false →
    Ok {| he_status := if bool_decide (is_Some (tg_last_success_at t)) then TS_HEALTHY else TS_NEVER;
          he_expected_success_by := o; he_monitored := m |} = Ok e →
    (he_status e = TS_DISABLED ↔ true = false) ∧
    (he_status e = TS_FAILED ↔
       true = true ∧ (0 < tg_consecutive_failures t ∨ tg_status t = TS_FAILED)) ∧
    (he_status e = TS_STALE ↔
       ∃ deadline, he_expected_success_by e = Some deadline ∧ deadline <= now) ∧
    (he_status e = TS_HEALTHY → is_Some (tg_last_success_at t)) ∧
    (he_status e = TS_NEVER → tg_last_success_at t = None) ∧
    (is_Some (he_expected_success_by e) → ∃ q, p = Some q ∧ po_enabled q = true)) as Hun.
  { intros o m -> -> [= <-]. destruct (tg_last_success_at t); simpl; naive_solver. }
  destruct p as [q|]; [|by apply Hun]. destruct (po_enabled q) eqn:Hq; simpl; [|by apply Hun].
  destruct (match tg_last_success_at t with Some i => Some i | None => tg_created t end)
    as [reference|] eqn:Hr.
  - destruct (calculate_next_run _ _ _ _ _) as [n|[]]; try done; try (by apply Hun).
    intros (d & _ & [= <-])%result_bind_Ok. simpl.
    assert ((if d <=? now then TS_STALE else healthy_or_never t) = TS_STALE ↔
      ∃ deadline, Some d = Some deadline ∧ deadline <= now) as Hst.
    { unfold healthy_or_never. destruct (Z.leb_spec d now).
      - split; [|done]. intros _. by exists d.
      - split; [by case_bool_decide|]. intros (? & [= <-] & ?). lia. }
    unfold healthy_or_never in Hst.
    split_and!; [| |exact Hst| | |intros _; by exists q]; clear Hst;
      destruct (d <=? now), (tg_last_success_at t); simpl.
    all: first [done|split; [done|by intros ?]|split; [done|tauto]].
  - intros [= <-]. simpl. destruct (tg_last_success_at t); [done|]. naive_solver.
Qed.
End health.

Module HealthExamples.
Import SchedulingExamples WorldExamples.
#[local] Existing Instance no_externals.

Definition settings : PluginSettings :=
  {| ps_events_enabled := None; ps_notify_on_every_failure := None; ps_stale_run_minutes := 120;
     ps_dispatcher_batch_size := 100; ps_stale_target_grace_minutes := 60;
     ps_error_message_max_length := 1000 |}.

(** One target whose last success is months ago, on a two-hour interval. *)
Definition db : DB :=
  empty_db <| db_policies := {[7 := interval_policy 120]} |>
           <| db_targets := {[3 := target TS_HEALTHY true]} |>.

Definition run (status : RunStatus) (started : option Z) : BackupRun :=
  {| run_pk := 9; run_target := 3; run_source := SRC_MANUAL; run_scheduled_for := None;
     run_dedupe_key := None; run_queued_at := june; run_started_at := started;
     run_finished_at := None; run_status := status; run_attempt_number := 1;
     run_error_code := ""; run_error_message := ""; run_revision := None; run_changed := false;
     run_raw_changed := false; run_job_id := None; run_triggered_by := None |}.

Lemma stuck_run_query_agrees_witness :
  stuck_run_query (june + 121 * us_per_minute) 120 (run RS_RUNNING None) = Some true ∧
  is_run_stuck (run RS_RUNNING None) (Aware (june + 121 * us_per_minute)) 120 = Ok true.
Proof.
  assert (stuck_run_query (june + 121 * us_per_minute) 120 (run RS_RUNNING None) = Some true)
    as Hs by (vm_compute; reflexivity).
  split; [exact Hs|].
  refine (proj1 (proj1 (stuck_run_query_agrees (run RS_RUNNING None)
    (june + 121 * us_per_minute) 120 _ _ _)) Hs).
  - lia.
  - vm_compute. discriminate.
  - vm_compute. reflexivity.
Defined.

Lemma evaluate_target_health_table_witness :
  TS_STALE = TS_STALE ↔ ∃ deadline, Some (1729000000000000 + 180 * us_per_minute) = Some deadline
    ∧ deadline <= 1739000000000000.
Proof.
  refine (proj1 (proj2 (proj2 (evaluate_target_health_table zoneinfo "UTC"
    (target TS_HEALTHY true) (Some (interval_policy 120)) None 1739000000000000 60
    {| he_status := TS_STALE; he_expected_success_by := Some _; he_monitored := true |} _)))).
  vm_compute. reflexivity.
Defined.

Lemma refresh_target_health_correct_witness :
  refreshed zoneinfo "UTC" db (Aware 1739000000000000) 60
    (db_targets (w_db (refresh_target_health settings zoneinfo "UTC" (Aware 1739000000000000) 60
                         (world_of db)).2)).
Proof.
  refine (proj1 (refresh_target_health_correct settings zoneinfo "UTC" (world_of db)
    (Aware 1739000000000000) 60
    {| hs_evaluated := 1; hs_updated := 1; hs_healthy := 0; hs_stale := 1; hs_failed := 0;
       hs_never := 0; hs_disabled := 0 |} _ _ _)).
  - intros k r Hr. simpl in Hr. apply lookup_singleton_Some in Hr as [<- <-]. reflexivity.
  - vm_compute. reflexivity.
Defined.
End HealthExamples.
