(* ===== verification/RevisionChain.v ===== *)
(** * The revision chain: [services/revision_chain.py]

    After revisions are removed, the kept ones of a target are linked again
    in order of creation, and the target points to the newest. *)

From Stdlib Require Import ZArith Lia Sorted.
From stdpp Require Import base gmap sets list strings sorting.
From S2P Require Import Prelude Calendar Models World DriverSelection.
#[local] Open Scope string_scope.
#[local] Open Scope list_scope.
#[local] Open Scope Z_scope.

Section revision_chain.
Context `{Externals}.

(** [revision.save(update_fields=("previous_revision", "last_updated"))] *)
Definition save_previous (pk : Z) (previous : option Z) : M World unit := on_db (λ db,
  db <| db_revisions := alter (λ r, r <| rv_previous_revision := previous |>) pk
                          (db_revisions db) |>).
(** [target.save(update_fields=("last_revision", "last_updated"))], with the
    driver check of [BackupTarget.save]. *)
Definition save_last_revision (target : BackupTarget) (latest : option Z) : M World unit := atomic (
  db ← read id;
  _ ← lift (validate_driver_assignment (tg_driver_override target) (disabled_driver_ids db));
  saved_at ← gets w_clock;
  on_db (λ db, db <| db_targets :=
    alter (λ t, t <| tg_last_revision := latest |> <| tg_last_updated := Some saved_at |>)
      (tg_pk target) (db_targets db) |>)).

(* src: services/revision_chain.py 7 10 relink_kept_revisions *)
Definition kept_revisions (revisions : list ConfigRevision) (deleted_ids : gset Z)
    : list ConfigRevision :=
  sort_by (key_leb rv_created rv_pk) (filter (λ r, rv_pk r ∉ deleted_ids) revisions).

(* src: services/revision_chain.py 4 21 relink_kept_revisions *)
Definition relink_kept_revisions (target : BackupTarget) (revisions : list ConfigRevision)
    (deleted_ids : gset Z) : M World unit :=
  let kept := kept_revisions revisions deleted_ids in
  _ ← for_fold kept None (λ previous_id revision,
        _ ← (if bool_decide (rv_previous_revision revision ≠ previous_id)
             then save_previous (rv_pk revision) previous_id else mret tt);
        mret (Some (rv_pk revision)));
  let latest_id := rv_pk <$> last kept in
  if bool_decide (tg_last_revision target ≠ latest_id)
  then save_last_revision target latest_id else mret tt.

(** ** Facts *)

(** The rows after linking [kept] behind [previous]. *)
Fixpoint linked (previous : option Z) (kept : list ConfigRevision)
    (table : gmap Z ConfigRevision) : gmap Z ConfigRevision :=
  match kept with
  | [] => table
  | r :: kept' =>
      linked (Some (rv_pk r)) kept'
        (if bool_decide (rv_previous_revision r ≠ previous)
         then alter (λ r, r <| rv_previous_revision := previous |>) (rv_pk r) table
         else table)
  end.

Lemma relink_loop_run kept previous w :
  ∃ p, for_fold kept previous (λ previous_id revision,
        _ ← (if bool_decide (rv_previous_revision revision ≠ previous_id)
             then save_previous (rv_pk revision) previous_id else mret tt);
        mret (Some (rv_pk revision))) w
  = (Ok p, w <| w_db := (w_db w) <| db_revisions :=
                  linked previous kept (db_revisions (w_db w)) |> |>).
Proof.
  revert previous w. induction kept as [|r kept IH]; intros previous w.
  - exists previous. simpl. unfold mret, M_ret. f_equal. by destruct w as [[]].
  - simpl. unfold mbind, M_bind. case_bool_decide; simpl.
    + destruct (IH (Some (rv_pk r)) (w <| w_db := (w_db w) <| db_revisions :=
        alter (λ x, x <| rv_previous_revision := previous |>) (rv_pk r) (db_revisions (w_db w))
        |> |>)) as [p Hp].
      exists p. etransitivity; [exact Hp|]. done.
    + destruct (IH (Some (rv_pk r)) w) as [p Hp]. exists p. exact Hp.
Qed.

Lemma linked_other previous kept table k :
  k ∉ map rv_pk kept → linked previous kept table !! k = table !! k.
Proof.
  revert previous table. induction kept as [|r kept IH]; intros previous table; simpl; [done|].
  rewrite not_elem_of_cons. intros [Hk Hkept]. rewrite IH by done.
  case_bool_decide; [|done]. by rewrite lookup_alter_ne.
Qed.

Lemma linked_lookup previous kept table i r :
  NoDup (map rv_pk kept) → (∀ x, x ∈ kept → table !! rv_pk x = Some x) →
  kept !! i = Some r →
  linked previous kept table !! rv_pk r =
    Some (r <| rv_previous_revision :=
      match i with O => previous | S j => rv_pk <$> kept !! j end |>).
Proof.
  revert previous table i. induction kept as [|x kept IH]; intros previous table i; [done|].
  simpl. intros [Hx Hnd]%NoDup_cons Ht Hi.
  destruct i as [|i]; simpl in Hi.
  - injection Hi as <-. rewrite linked_other by done. pose proof (Ht x ltac:(by left)) as Hr.
    case_bool_decide as Hp; [by rewrite lookup_alter_eq, Hr|].
    rewrite Hr. f_equal. rewrite <-Hp. by destruct x.
  - rewrite (IH (Some (rv_pk x)) _ i Hnd); [by destruct i| |done].
    intros y Hy. rewrite <-(Ht y) by (by right). case_bool_decide; [|done].
    apply lookup_alter_ne. intros E. apply Hx. rewrite E. by apply list_elem_of_fmap_2.
Qed.

(** The target pointing to [latest]: saved, and stamped, when that is new. *)
Definition retipped (target : BackupTarget) (latest : option Z) (clock : Z) : BackupTarget :=
  if bool_decide (tg_last_revision target = latest) then target
  else target <| tg_last_revision := latest |> <| tg_last_updated := Some clock |>.

(** C9: Relinking succeeds, keeps exactly the revisions not deleted, ordered by
    creation; each kept row points to the kept row just before it and the
    first to none; the target points to the last, and is stamped with the time
    of the save when that is a change; nothing else changes. *)
Theorem relink_kept_revisions_chain target revisions deleted w :
  let kept := kept_revisions revisions deleted in
  NoDup (map rv_pk revisions) →
  (∀ r, r ∈ revisions → db_revisions (w_db w) !! rv_pk r = Some r) →
  db_targets (w_db w) !! tg_pk target = Some target →
  validate_driver_assignment (tg_driver_override target) (disabled_driver_ids (w_db w)) = Ok tt →
  (∀ r, r ∈ kept ↔ r ∈ revisions ∧ rv_pk r ∉ deleted) ∧
  (∀ i j r q, (i < j)%nat → kept !! i = Some r → kept !! j = Some q →
     rv_created r < rv_created q ∨ rv_created r = rv_created q ∧ rv_pk r < rv_pk q) ∧
  ∃ w' revs, relink_kept_revisions target revisions deleted w = (Ok tt, w') ∧
    w_db w' = (w_db w) <| db_revisions := revs |>
      <| db_targets := <[tg_pk target := retipped target (rv_pk <$> last kept) (w_clock w)]>
                         (db_targets (w_db w)) |> ∧
    w_files w' = w_files w ∧ w_remote w' = w_remote w ∧ w_depth w' = w_depth w ∧
    (∀ i r, kept !! i = Some r →
       revs !! rv_pk r = Some (r <| rv_previous_revision :=
         match i with O => None | S j => rv_pk <$> kept !! j end |>)) ∧
    (∀ k, k ∉ map rv_pk kept → revs !! k = db_revisions (w_db w) !! k).
Proof.
  intros kept Hnd Hrows Htarget Hdriver.
  assert (∀ r, r ∈ kept ↔ r ∈ revisions ∧ rv_pk r ∉ deleted) as Hin.
  { intros r. unfold kept, kept_revisions. rewrite elem_of_sort_by, list_elem_of_filter. tauto. }
  assert (NoDup (map rv_pk kept)) as Hnk.
  { unfold kept, kept_revisions.
    eapply NoDup_Permutation_proper; [by rewrite sort_by_perm|].
    eapply NoDup_map_sublist; [apply sublist_filter|done]. }
  split_and!; [done| |].
  - intros i j r q Hij Hi Hj.
    assert (StronglySorted (λ x y, key_leb rv_created rv_pk x y = true) kept) as Hs
      by (apply sort_by_sorted; eauto using key_leb_trans).
    pose proof (StronglySorted_lookup _ _ _ _ _ _ Hs Hi Hj Hij) as Hle.
    apply key_leb_spec in Hle. assert (rv_pk r ≠ rv_pk q); [|lia].
    intros E. assert (i = j); [|lia].
    eapply (NoDup_lookup (map rv_pk kept)); [done| |]; rewrite list_lookup_fmap.
    + by rewrite Hi.
    + by rewrite Hj, E.
  - unfold relink_kept_revisions. fold kept. rewrite M_bind_run.
    destruct (relink_loop_run kept None w) as [p ->].
    set (w1 := w <| w_db := _ |>).
    set (revs := linked None kept (db_revisions (w_db w))).
    assert (∃ w', (if bool_decide (tg_last_revision target ≠ rv_pk <$> last kept)
                   then save_last_revision target (rv_pk <$> last kept) else mret tt) w1
                  = (Ok tt, w') ∧
      w_db w' = (w_db w) <| db_revisions := revs |>
        <| db_targets := <[tg_pk target := retipped target (rv_pk <$> last kept) (w_clock w)]>
                           (db_targets (w_db w)) |> ∧
      w_files w' = w_files w ∧ w_remote w' = w_remote w ∧ w_depth w' = w_depth w)
      as (w' & Hrun & Hdb & Hf & Hr & Hd).
    { case_bool_decide as Hl.
      - unfold save_last_revision, atomic. rewrite read_bind_run, lift_bind_run.
        change (disabled_driver_ids _) with (disabled_driver_ids (w_db w)). rewrite Hdriver.
        eexists. split; [reflexivity|].
        unfold retipped. rewrite bool_decide_eq_false_2 by done.
        rewrite <-(alter_as_insert (λ t, t <| tg_last_revision := rv_pk <$> last kept |>
                     <| tg_last_updated := Some (w_clock w) |>) _ _ _ Htarget).
        simpl. by destruct (w_depth w).
      - exists w1. split_and!; try done. rewrite insert_id; [by destruct w as [[]]|].
        unfold retipped. by rewrite bool_decide_eq_true_2. }
    exists w', revs. split_and!; try done.
    + intros i r Hi. apply linked_lookup; [done| |done].
      intros x Hx. apply Hrows. by apply Hin.
    + intros k. apply linked_other.
Qed.

(** What relinking may change, however it ends: the links of the revisions and
    the last revision of the targets. *)
Definition unlinked (r : ConfigRevision) : ConfigRevision := r <| rv_previous_revision := None |>.
Definition untipped (t : BackupTarget) : BackupTarget :=
  t <| tg_last_revision := None |> <| tg_last_updated := None |>.

Definition relinked (db db' : DB) : Prop :=
  db' = db <| db_revisions := db_revisions db' |> <| db_targets := db_targets db' |> ∧
  unlinked <$> db_revisions db' = unlinked <$> db_revisions db ∧
  untipped <$> db_targets db' = untipped <$> db_targets db.

Lemma relinked_refl db : relinked db db.
Proof. by destruct db. Qed.

Lemma relinked_trans db1 db2 db3 : relinked db1 db2 → relinked db2 db3 → relinked db1 db3.
Proof.
  intros (E1 & R1 & T1) (E2 & R2 & T2). split_and!; [|congruence..].
  rewrite E2, E1. by destruct db1.
Qed.

Lemma fmap_alter_same {A B} (g : A → B) (f : A → A) k (table : gmap Z A) :
  (∀ x, g (f x) = g x) → g <$> alter f k table = g <$> table.
Proof.
  intros Hg. apply map_eq. intros j. rewrite !lookup_fmap.
  destruct (decide (j = k)) as [->|Hj].
  - rewrite lookup_alter_eq. destruct (table !! k); simpl; [by rewrite Hg|done].
  - by rewrite lookup_alter_ne.
Qed.

Definition keeps_links {A} (m : M World A) : Prop :=
  ∀ w r w', m w = (r, w') → relinked (w_db w) (w_db w') ∧ w_files w' = w_files w ∧
    w_remote w' = w_remote w.

Lemma keeps_links_ret {A} (a : A) : keeps_links (mret a).
Proof. intros w r w' [= <- <-]. split; [apply relinked_refl|done]. Qed.

Lemma keeps_links_bind {A B} (m : M World A) (f : A → M World B) :
  keeps_links m → (∀ a, keeps_links (f a)) → keeps_links (m ≫= f).
Proof.
  intros Hm Hf w r w'. rewrite M_bind_run. destruct (m w) as [[a|e] w1] eqn:E.
  - intros Hw. apply Hm in E as (H1 & Hf1 & Hr1). apply Hf in Hw as (H2 & Hf2 & Hr2).
    split_and!; [by eapply relinked_trans|congruence|congruence].
  - intros [= <- <-]. by apply Hm in E.
Qed.

Lemma keeps_links_for_fold {A B} (l : list A) (body : B → A → M World B) acc :
  (∀ acc x, keeps_links (body acc x)) → keeps_links (for_fold l acc body).
Proof.
  intros Hb. revert acc. induction l; intros acc; simpl; [apply keeps_links_ret|].
  apply keeps_links_bind; auto.
Qed.

Lemma keeps_links_previous pk previous : keeps_links (save_previous pk previous).
Proof.
  intros w r w' [= <- <-]. simpl. split_and!; try done.
  split_and!; simpl; [by destruct (w_db w)|by apply fmap_alter_same|done].
Qed.

Lemma keeps_links_last target latest : keeps_links (save_last_revision target latest).
Proof.
  intros w [a|e] w' Hw.
  - apply atomic_Ok in Hw as (w1 & Hw & -> & -> & -> & _). rewrite read_bind_run, lift_bind_run in Hw.
    destruct (validate_driver_assignment _ _); [|done]. injection Hw as _ <-. simpl.
    split_and!; try done. split_and!; simpl; [by destruct (w_db w)|done|by apply fmap_alter_same].
  - apply atomic_Err in Hw as (-> & _ & _ & w1 & Hw & -> & -> & _).
    rewrite read_bind_run, lift_bind_run in Hw.
    destruct (validate_driver_assignment _ _); [done|]. injection Hw as _ <-.
    split_and!; [apply relinked_refl|done|done].
Qed.

Lemma relink_keeps_links target revisions deleted :
  keeps_links (relink_kept_revisions target revisions deleted).
Proof.
  apply keeps_links_bind.
  - apply keeps_links_for_fold. intros p r. apply keeps_links_bind; [|intros; apply keeps_links_ret].
    case_bool_decide; [apply keeps_links_previous|apply keeps_links_ret].
  - intros _. cbv zeta beta. case_bool_decide; [apply keeps_links_last|apply keeps_links_ret].
Qed.
End revision_chain.

Module ChainExamples.
Import WorldExamples.
#[local] Existing Instance no_externals.

Definition revision (pk created : Z) (previous : option Z) : ConfigRevision :=
  {| rv_pk := pk; rv_target := 3; rv_revision_uuid := ""; rv_normalized_hash := "";
     rv_normalizer_version := "1"; rv_driver_id := "fake"; rv_content_changed := true;
     rv_protected := false; rv_previous_revision := previous; rv_created := created |}.
Definition target : BackupTarget :=
  {| tg_pk := 3; tg_device := 11; tg_enabled := true; tg_policy_override := None;
     tg_retention_override := None; tg_remote_retention_policy := None;
     tg_credential_override := None; tg_connection_override := None;
     tg_receiver_override := None; tg_driver_override := "";
     tg_driver_options_override := ∅; tg_next_run_at := None; tg_last_attempt_at := None;
     tg_last_success_at := None; tg_last_change_at := None; tg_status := TS_HEALTHY;
     tg_consecutive_failures := 0; tg_last_revision := Some 3; tg_created := None;
     tg_last_updated := None |}.
Definition chain : list ConfigRevision :=
  [revision 3 30 (Some 2); revision 2 20 (Some 1); revision 1 10 None].
Definition db : DB :=
  empty_db <| db_revisions := {[1 := revision 1 10 None; 2 := revision 2 20 (Some 1);
                                3 := revision 3 30 (Some 2)]} |>
           <| db_targets := {[3 := target]} |>.

(** Deleting the middle revision links the third to the first. *)
Lemma relink_kept_revisions_chain_witness :
  ∃ w' revs, relink_kept_revisions target chain {[2]} (world_of db) = (Ok tt, w') ∧
    w_db w' = db <| db_revisions := revs |>
      <| db_targets := <[3 := target]> (db_targets db) |> ∧
    revs !! 3 = Some (revision 3 30 (Some 1)).
Proof.
  destruct (relink_kept_revisions_chain target chain {[2]} (world_of db))
    as (_ & _ & w' & revs & Hrun & Hdb & _ & _ & _ & Hkept & _).
  - repeat constructor; set_solver.
  - intros r Hr. unfold chain in Hr.
    repeat (apply elem_of_cons in Hr as [->|Hr]; [reflexivity|]). by apply elem_of_nil in Hr.
  - reflexivity.
  - reflexivity.
  - exists w', revs. split; [exact Hrun|]. split; [exact Hdb|]. apply (Hkept 1%nat (revision 3 30 (Some 2))). reflexivity.
Defined.
End ChainExamples.
