(* ===== verification/Deletion.v ===== *)
(** * Deleting rows, with the cascades of the models

    [QuerySet.delete()] on revisions and runs.  Artifacts and replicas go with
    their revision; the links of runs, of later revisions and of targets are
    set to null ([on_delete] in [models.py]). *)

From Stdlib Require Import ZArith Lia.
From stdpp Require Import base gmap sets list strings.
From S2P Require Import Prelude Calendar Models World.
#[local] Open Scope string_scope.
#[local] Open Scope list_scope.
#[local] Open Scope Z_scope.

(** A nullable foreign key whose row is deleted. *)
Definition set_null (ids : gset Z) (k : option Z) : option Z :=
  match k with
  | Some i => if bool_decide (i ∈ ids) then None else Some i
  | None => None
  end.

(* src: models.py 1063 1069 BackupTarget *)
Definition target_without (ids : gset Z) (t : BackupTarget) : BackupTarget :=
  t <| tg_last_revision ::= set_null ids |>.
(* src: models.py 1194 1200 ConfigRevision *)
Definition revision_without (ids : gset Z) (r : ConfigRevision) : ConfigRevision :=
  r <| rv_previous_revision ::= set_null ids |>.
(* src: models.py 1334 1340 BackupRun *)
Definition run_without (ids : gset Z) (r : BackupRun) : BackupRun :=
  r <| run_revision ::= set_null ids |>.

(** [ConfigRevision.objects.filter(pk__in=ids).delete()] *)
Definition delete_revisions (ids : gset Z) (db : DB) : DB :=
  db <| db_revisions := revision_without ids <$> filter (λ kr, kr.1 ∉ ids) (db_revisions db) |>
     <| db_artifacts := filter (λ ka, ar_revision ka.2 ∉ ids) (db_artifacts db) |>
     <| db_replicas := filter (λ kr, rp_revision kr.2 ∉ ids) (db_replicas db) |>
     <| db_runs := run_without ids <$> db_runs db |>
     <| db_targets := target_without ids <$> db_targets db |>.

(** [BackupRun.objects.filter(pk__in=ids).delete()] *)
Definition delete_runs (ids : gset Z) (db : DB) : DB :=
  db <| db_runs := filter (λ kr, kr.1 ∉ ids) (db_runs db) |>.

Lemma set_null_out ids k : (∀ i, k = Some i → i ∉ ids) → set_null ids k = k.
Proof. destruct k as [i|]; [|done]. intros Hi. simpl. by rewrite bool_decide_eq_false_2 by auto. Qed.

Lemma delete_revisions_kept ids db k r :
  db_revisions db !! k = Some r → k ∉ ids →
  db_revisions (delete_revisions ids db) !! k = Some (revision_without ids r).
Proof. intros Hr Hk. simpl. rewrite lookup_fmap. rewrite (map_lookup_filter_Some_2 _ _ k r); done. Qed.

Lemma delete_revisions_gone ids db k :
  k ∈ ids → db_revisions (delete_revisions ids db) !! k = None.
Proof.
  intros Hk. simpl. rewrite lookup_fmap. rewrite map_lookup_filter_None_2; [done|].
  right. intros x _ Hx. by apply Hx.
Qed.

Lemma delete_revisions_artifact ids db k a :
  db_artifacts (delete_revisions ids db) !! k = Some a ↔
  db_artifacts db !! k = Some a ∧ ar_revision a ∉ ids.
Proof. simpl. by rewrite map_lookup_filter_Some. Qed.

Lemma delete_revisions_replica ids db k p :
  db_replicas (delete_revisions ids db) !! k = Some p ↔
  db_replicas db !! k = Some p ∧ rp_revision p ∉ ids.
Proof. simpl. by rewrite map_lookup_filter_Some. Qed.
