(* ===== verification/Storage.v ===== *)
(** * The storage contract: [storage/base.py]

    [ConfigStorage] as a type class: the operations on the state of a primary
    storage, and the laws the pipeline and the cleanup services rely on.  An
    object lives at a location; two keys may name the same one.  Every
    operation may fail with [StorageError]; the laws say what is left then. *)

From Stdlib Require Import ZArith Lia.
From stdpp Require Import base gmap list strings.
From S2P Require Import Prelude Hashing World.
#[local] Open Scope string_scope.
#[local] Open Scope list_scope.
#[local] Open Scope Z_scope.

(* src: storage/base.py 16 20 StorageObject *)
Record StorageObject := {
  so_key : string;
  so_size : Z;
  so_metadata : list (string * string);
}.

Definition is_storage_error (e : exn) : bool :=
  match e with StorageError _ => true | _ => false end.

(* src: storage/base.py 23 59 ConfigStorage *)
Class ConfigStorage `{Externals} := {
  st_put : string → bytes → list (string * string) → M files StorageObject;
  st_get : string → M files bytes;
  st_exists : string → M files bool;
  st_delete : string → M files unit;
  st_stage_delete : string → string → M files (option string);
  st_restore_staged_delete : string → string → M files unit;
  st_purge_staged_delete : string → M files unit;
}.

(** The contract, over the locations of an implementation: [loc_of] is where
    a key points, [object] what is stored there, [storage_ok] the invariant
    of the implementation's state. *)
Class ConfigStorageLaws `{ConfigStorage} := {
  loc : Type;
  loc_eq_dec :: EqDecision loc;
  loc_of : string → option loc;
  object : files → loc → option bytes;
  storage_ok : files → Prop;

  put_Ok : ∀ k c md s o s', storage_ok s → st_put k c md s = (Ok o, s') →
    storage_ok s' ∧ so_key o = k ∧ so_size o = Z.of_nat (length c) ∧
    ∃ l, loc_of k = Some l ∧ object s' l = Some c ∧ ∀ j, j ≠ l → object s' j = object s j;
  put_Err : ∀ k c md s e s', storage_ok s → st_put k c md s = (Err e, s') →
    storage_ok s' ∧
    ∀ j, is_Some (object s j) → loc_of k ≠ Some j → object s' j = object s j;

  get_Ok : ∀ k s c s', storage_ok s → st_get k s = (Ok c, s') →
    storage_ok s' ∧ (∀ j, object s' j = object s j) ∧
    ∃ l, loc_of k = Some l ∧ object s l = Some c;

  delete_Ok : ∀ k s s', storage_ok s → st_delete k s = (Ok tt, s') →
    storage_ok s' ∧
    ∃ l, loc_of k = Some l ∧ object s' l = None ∧ ∀ j, j ≠ l → object s' j = object s j;
  delete_Err : ∀ k s e s', storage_ok s → st_delete k s = (Err e, s') →
    storage_ok s' ∧ ∀ j, object s' j = object s j;
  (** A key that names a location fails with [StorageError] only. *)
  delete_raises : ∀ k s e s', storage_ok s → is_Some (loc_of k) →
    st_delete k s = (Err e, s') → is_storage_error e = true;

  stage_Some : ∀ k ns s k' s', storage_ok s → st_stage_delete k ns s = (Ok (Some k'), s') →
    storage_ok s' ∧ ∃ l l' c, loc_of k = Some l ∧ loc_of k' = Some l' ∧ l ≠ l' ∧
      object s l = Some c ∧ object s l' = None ∧ object s' l = None ∧ object s' l' = Some c ∧
      ∀ j, j ≠ l → j ≠ l' → object s' j = object s j;
  stage_None : ∀ k ns s s', storage_ok s → st_stage_delete k ns s = (Ok None, s') →
    storage_ok s' ∧ (∀ j, object s' j = object s j) ∧
    ∃ l, loc_of k = Some l ∧ object s l = None;
  stage_Err : ∀ k ns s e s', storage_ok s → st_stage_delete k ns s = (Err e, s') →
    storage_ok s' ∧ ∀ j, object s' j = object s j;

  restore_Ok : ∀ k k' s s', storage_ok s → st_restore_staged_delete k k' s = (Ok tt, s') →
    storage_ok s' ∧ ∃ l l' c, loc_of k = Some l ∧ loc_of k' = Some l' ∧ l ≠ l' ∧
      object s l' = Some c ∧ object s l = None ∧ object s' l' = None ∧ object s' l = Some c ∧
      ∀ j, j ≠ l → j ≠ l' → object s' j = object s j;
  restore_Err : ∀ k k' s e s', storage_ok s → st_restore_staged_delete k k' s = (Err e, s') →
    storage_ok s' ∧ ∀ j, object s' j = object s j;
  restore_raises : ∀ k k' s e s', storage_ok s → is_Some (loc_of k) → is_Some (loc_of k') →
    st_restore_staged_delete k k' s = (Err e, s') → is_storage_error e = true;

  purge_Ok : ∀ k' s s', storage_ok s → st_purge_staged_delete k' s = (Ok tt, s') →
    storage_ok s' ∧
    ∃ l', loc_of k' = Some l' ∧ object s' l' = None ∧ ∀ j, j ≠ l' → object s' j = object s j;
  purge_Err : ∀ k' s e s', storage_ok s → st_purge_staged_delete k' s = (Err e, s') →
    storage_ok s' ∧ ∀ j, object s' j = object s j;
  purge_raises : ∀ k' s e s', storage_ok s → is_Some (loc_of k') →
    st_purge_staged_delete k' s = (Err e, s') → is_storage_error e = true;
}.

(** A storage operation inside a service: it acts on [w_files] only. *)
Definition on_files `{Externals} {A} (m : M files A) : M World A := λ w,
  let '(r, s) := m (w_files w) in (r, w <| w_files := s |>).

Lemma keeps_on_files `{Externals} {A} (I : DB → Prop) (m : M files A) :
  keeps (db_inv I) (on_files m).
Proof. intros w r w'. unfold on_files. destruct (m _) as [r' s]. by intros [= <- <-]. Qed.

#[export] Hint Resolve keeps_on_files : keeps.

(** A storage, in the states [reliable], whose deletes succeed and whose
    failing writes leave nothing behind. *)
Class ReliableStorage `{ConfigStorageLaws} (reliable : files → Prop) : Prop := {
  reliable_put : ∀ k c md s r s', storage_ok s → reliable s → st_put k c md s = (r, s') →
    reliable s' ∧
    (is_ok r = false → ∀ l, object s l = None → object s' l = None);
  reliable_delete : ∀ k s r s', storage_ok s → reliable s → is_Some (loc_of k) →
    st_delete k s = (r, s') → reliable s' ∧ is_ok r = true;
}.

(** A storage in memory, for the examples: it refuses the empty key. *)
Module MemoryStorage.
Definition memory : Externals := {| files := gmap string bytes; remote := gset (string * string) |}.

Definition guard_key {A} (k : string) (m : M (gmap string bytes) A) : M (gmap string bytes) A :=
  if bool_decide (k = "") then raise (StorageError "Invalid storage key.") else m.

Abbreviation objects := (gmap string bytes).

Definition memory_put (k : string) (c : bytes) (md : list (string * string))
    : M objects StorageObject := guard_key k (
  _ ← modify <[k := c]>;
  mret {| so_key := k; so_size := Z.of_nat (length c); so_metadata := md |}).
Definition memory_get (k : string) : M objects bytes := guard_key k (λ s,
  match s !! k with Some c => (Ok c, s) | None => (Err (StorageError "Missing."), s) end).
Definition memory_exists (k : string) : M objects bool :=
  guard_key k (gets (λ s : objects, bool_decide (is_Some (s !! k)))).
Definition memory_delete (k : string) : M objects unit :=
  guard_key k (modify (base.delete k)).
Definition memory_stage (k ns : string) : M objects (option string) := guard_key k (λ s,
  let k' := ".trash/" +:+ ns +:+ "/" +:+ k in
  match s !! k, s !! k' with
  | None, _ => (Ok None, s)
  | Some _, Some _ => (Err (StorageError "Occupied."), s)
  | Some c, None => (Ok (Some k'), <[k' := c]> (base.delete k s))
  end).
Definition memory_restore (k k' : string) : M objects unit := guard_key k (guard_key k' (λ s,
  match s !! k, s !! k' with
  | None, Some c => (Ok tt, <[k := c]> (base.delete k' s))
  | _, _ => (Err (StorageError "Not staged."), s)
  end)).

Definition memory_storage : @ConfigStorage memory :=
  @Build_ConfigStorage memory memory_put memory_get memory_exists memory_delete
    memory_stage memory_restore memory_delete.

Lemma guard_key_run {A} k (m : M (gmap string bytes) A) s r s' :
  guard_key k m s = (r, s') →
  (k = "" ∧ s' = s ∧ r = Err (StorageError "Invalid storage key.")) ∨
  (k ≠ "" ∧ m s = (r, s')).
Proof. unfold guard_key. case_bool_decide; [intros [= <- <-]|]; auto. Qed.

Definition memory_loc (k : string) : option string :=
  if bool_decide (k = "") then None else Some k.

Lemma memory_loc_Some k : k ≠ "" → memory_loc k = Some k.
Proof. intros. unfold memory_loc. by rewrite bool_decide_eq_false_2. Qed.

Definition memory_laws : @ConfigStorageLaws memory memory_storage.
Proof.
  apply (@Build_ConfigStorageLaws memory memory_storage string _ memory_loc
           (λ s k, s !! k) (λ _, True)); simpl.
  - intros k c md s o s' _ [(_ & _ & ?)|[Hk [= <- <-]]]%guard_key_run; [done|].
    split_and!; try done. exists k. split_and!; [by apply memory_loc_Some|apply lookup_insert_eq|].
    intros j Hj. by apply lookup_insert_ne.
  - intros k c md s e s' _ [(-> & -> & ?)|[Hk [=]]]%guard_key_run. done.
  - intros k s c s' _ [(_ & _ & ?)|[Hk Hr]]%guard_key_run; [done|].
    destruct (s !! k) eqn:E; [|done]. injection Hr as <- <-. split_and!; [done|done|].
    exists k. split; [by apply memory_loc_Some|done].
  - intros k s s' _ [(_ & _ & ?)|[Hk [= <-]]]%guard_key_run; [done|]. split; [done|].
    exists k. split_and!; [by apply memory_loc_Some|apply lookup_delete_eq|].
    intros j Hj. by apply lookup_delete_ne.
  - intros k s e s' _ [(-> & -> & ?)|[Hk [=]]]%guard_key_run. done.
  - intros k s e s' _ [l Hl] [(-> & -> & [= ->])|[Hk [=]]]%guard_key_run. done.
  - intros k ns s k' s' _ [(_ & _ & ?)|[Hk Hr]]%guard_key_run; [done|]. split; [done|].
    destruct (s !! k) as [c|] eqn:E; [|done]. cbv zeta in Hr.
    set (q := ".trash/" +:+ ns +:+ "/" +:+ k) in Hr. destruct (s !! q) eqn:E'; [done|].
    injection Hr as <- <-. assert (k ≠ q) as Hne by congruence.
    assert (q ≠ "") as Hq by done. exists k, q, c.
    split_and!; [by apply memory_loc_Some|by apply memory_loc_Some|done|done|done| | |].
    + rewrite lookup_insert_ne by done. apply lookup_delete_eq.
    + apply lookup_insert_eq.
    + intros j Hj Hj'. by rewrite lookup_insert_ne, lookup_delete_ne by done.
  - intros k ns s s' _ [(_ & _ & ?)|[Hk Hr]]%guard_key_run; [done|]. split; [done|].
    cbv zeta in Hr. destruct (s !! k) eqn:E;
      [by destruct (s !! (".trash/" +:+ ns +:+ "/" +:+ k))|]. injection Hr as <-.
    split; [done|]. exists k. split; [by apply memory_loc_Some|done].
  - intros k ns s e s' _ [(-> & -> & ?)|[Hk Hr]]%guard_key_run; [done|].
    cbv zeta in Hr. destruct (s !! k); [|done].
    destruct (s !! (".trash/" +:+ ns +:+ "/" +:+ k)); [|done]. by injection Hr as <- <-.
  - intros k k' s s' _ [(_ & _ & ?)|[Hk [(_ & _ & ?)|[Hk' Hr]]%guard_key_run]]%guard_key_run;
      [done|done|]. split; [done|].
    destruct (s !! k) eqn:E; [done|]. destruct (s !! k') as [c|] eqn:E'; [|done].
    injection Hr as <-. assert (k ≠ k') as Hne by congruence. exists k, k', c.
    split_and!; [by apply memory_loc_Some|by apply memory_loc_Some|done|done|done| | |].
    + rewrite lookup_insert_ne by done. apply lookup_delete_eq.
    + apply lookup_insert_eq.
    + intros j Hj Hj'. by rewrite lookup_insert_ne, lookup_delete_ne by done.
  - intros k k' s e s' _ [(-> & -> & ?)|[Hk [(-> & -> & ?)|[Hk' Hr]]%guard_key_run]]%guard_key_run;
      [done|done|].
    destruct (s !! k) eqn:E; [by injection Hr as <- <-|].
    destruct (s !! k') eqn:E'; [done|by injection Hr as <- <-].
  - intros k k' s e s' _ _ _ [(_ & _ & [= ->])|[Hk [(_ & _ & [= ->])|[Hk' Hr]]%guard_key_run]]%guard_key_run;
      [done|done|]. destruct (s !! k); [by injection Hr as <- <-|].
    destruct (s !! k'); [done|by injection Hr as <- <-].
  - intros k s s' _ [(_ & _ & ?)|[Hk [= <-]]]%guard_key_run; [done|]. split; [done|].
    exists k. split_and!; [by apply memory_loc_Some|apply lookup_delete_eq|].
    intros j Hj. by apply lookup_delete_ne.
  - intros k s e s' _ [(-> & -> & ?)|[Hk [=]]]%guard_key_run. done.
  - intros k s e s' _ _ [(_ & _ & [= ->])|[Hk [=]]]%guard_key_run. done.
Defined.

Lemma memory_reliable : @ReliableStorage memory memory_storage memory_laws (λ _, True).
Proof.
  split; simpl.
  - intros k c md s r s' _ _ [(-> & -> & ->)|[Hk [= <- <-]]]%guard_key_run; done.
  - intros k s r s' _ _ [l Hl] [(-> & -> & ->)|[Hk [= <- <-]]]%guard_key_run; done.
Qed.
End MemoryStorage.
