(* ===== verification/LocalStorage.v ===== *)
(** * The local storage: [storage/local.py]

    [LocalConfigStorage] over a file system: a tree of directories and files
    addressed by absolute resolved paths.  [resolve] is [Path.resolve], an
    arbitrary function, so symbolic links are covered.  Every system call
    takes one entry of [fs_faults] and raises [OSError] when it is true. *)

From Stdlib Require Import ZArith Lia Strings.Ascii.
From stdpp Require Import base gmap list strings.
From S2P Require Import Prelude Strings Hashing World Storage.
#[local] Open Scope string_scope.
#[local] Open Scope list_scope.
#[local] Open Scope Z_scope.

Abbreviation path := (list string).

Inductive node :=
  | Dir
  | File (content : bytes).

#[export] Instance node_eq_dec : EqDecision node.
Proof. solve_decision. Defined.

Record fs := {
  fs_nodes : gmap path node;
  fs_faults : list bool;
}.
#[export] Instance eta_fs : Eta fs := λ r,
  {| fs_nodes := fs_nodes r; fs_faults := fs_faults r |}.

(** ** System calls *)

Definition os_call : M fs unit := λ s,
  match fs_faults s with
  | [] => (Ok tt, s)
  | b :: f => ((if b then Err OSError else Ok tt), s <| fs_faults := f |>)
  end.

Definition is_file (p : path) (s : fs) : bool :=
  match fs_nodes s !! p with Some (File _) => true | _ => false end.
Definition path_exists (p : path) (s : fs) : bool :=
  match fs_nodes s !! p with Some _ => true | None => false end.

(** [path.mkdir(parents=True, exist_ok=True)], from the top down. *)
Fixpoint mkdirs (done rest : path) : M fs unit :=
  match rest with
  | [] => mret tt
  | c :: rest' =>
      let p := done ++ [c] in
      n ← gets (λ s, fs_nodes s !! p);
      _ ← match n with
          | Some Dir => mret tt
          | Some (File _) => raise OSError
          | None => _ ← os_call; modify (λ s, s <| fs_nodes := <[p := Dir]> (fs_nodes s) |>)
          end;
      mkdirs p rest'
  end.

Definition write_file (p : path) (content : bytes) : M fs unit :=
  modify (λ s, s <| fs_nodes := <[p := File content]> (fs_nodes s) |>).

(** [os.replace(src, dst)] of a regular file. *)
Definition os_replace (src dst : path) : M fs unit :=
  _ ← os_call;
  n ← gets (λ s, (fs_nodes s !! src, fs_nodes s !! dst));
  match n with
  | (Some (File c), (None | Some (File _))) =>
      modify (λ s, s <| fs_nodes := <[dst := File c]> (base.delete src (fs_nodes s)) |>)
  | _ => raise OSError
  end.

(** [path.unlink(missing_ok=True)] *)
Definition unlink (p : path) : M fs unit :=
  _ ← os_call;
  n ← gets (λ s, fs_nodes s !! p);
  match n with
  | None => mret tt
  | Some (File _) => modify (λ s, s <| fs_nodes := base.delete p (fs_nodes s) |>)
  | Some Dir => raise OSError
  end.

(** [except OSError as exc: raise StorageError(message) from exc] *)
Definition os_guard {A} (message : string) (m : M fs A) : M fs A :=
  try_catch m (λ e, if is_os_error e then raise (StorageError message) else raise e).

Section local_storage.
Context (root : path) (resolve : path → path).
(** The name [tempfile.mkstemp] finds free in a directory. *)
Context (mkstemp_name : gmap path node → path → string → string).

(* src: storage/local.py 22 31 LocalConfigStorage._path *)
Definition local_path (key : string) : result path :=
  if bool_decide (key = "") || has_char backslash key
  then Err (StorageError "Invalid storage key.")
  else if is_absolute key
          || existsb (λ p, bool_decide (p ∈ [""; "."; ".."])) (path_parts key)
  then Err (StorageError "Invalid storage key.")
  else if has_char nul key then Err (ValueError "embedded null byte")
  else
    let candidate := resolve (root ++ path_parts key) in
    if bool_decide (candidate = root) || negb (bool_decide (root `prefix_of` candidate))
    then Err (StorageError "Storage key escapes the configured root.")
    else Ok candidate.

Definition parent (p : path) : path := removelast p.

(* src: storage/local.py 33 71 LocalConfigStorage.put *)
Definition local_put (key : string) (content : bytes) (metadata : list (string * string))
    : M fs StorageObject :=
  p ← lift (local_path key);
  _ ← os_guard "Local configuration write failed." (
    _ ← mkdirs [] (parent p);
    _ ← os_call;
    name ← gets (λ s, mkstemp_name (fs_nodes s) (parent p) (List.last p ""));
    let temp := parent p ++ [name] in
    _ ← write_file temp [];
    _ ← try_catch
          (_ ← os_call;
           _ ← os_call;
           _ ← write_file temp content;
           os_replace temp p)
          (λ e, _ ← try_catch (unlink temp) (λ _, mret tt); raise e);
    os_call);
  mret {| so_key := key; so_size := Z.of_nat (length content); so_metadata := metadata |}.

(* src: storage/local.py 73 77 LocalConfigStorage.get *)
Definition local_get (key : string) : M fs bytes :=
  p ← lift (local_path key);
  os_guard "Local configuration read failed." (
    _ ← os_call;
    n ← gets (λ s, fs_nodes s !! p);
    match n with Some (File c) => mret c | _ => raise OSError end).

(* src: storage/local.py 79 80 LocalConfigStorage.exists *)
Definition local_exists (key : string) : M fs bool :=
  p ← lift (local_path key); gets (is_file p).

(* src: storage/local.py 82 86 LocalConfigStorage.delete *)
Definition local_delete (key : string) : M fs unit :=
  p ← lift (local_path key);
  os_guard "Local configuration delete failed." (unlink p).

(** [re.fullmatch(r"[A-Za-z0-9_-]{1,100}", namespace)] *)
Definition namespace_ok (namespace : string) : bool :=
  all_chars (λ a, is_upper a || is_lower a || is_digit a
                  || bool_decide (a = "_"%char) || bool_decide (a = "-"%char)) namespace
  && (1 <=? String.length namespace)%nat && (String.length namespace <=? 100)%nat.

(* src: storage/local.py 88 106 LocalConfigStorage.stage_delete *)
Definition local_stage_delete (key namespace : string) : M fs (option string) :=
  if negb (namespace_ok namespace)
  then raise (StorageError "Invalid storage quarantine namespace.")
  else
    source ← lift (local_path key);
    present ← gets (is_file source);
    if negb present then mret None
    else
      let staged_key := ".retention-trash/" +:+ namespace +:+ "/" +:+ key in
      destination ← lift (local_path staged_key);
      _ ← os_guard "Local configuration quarantine failed." (
        occupied ← gets (path_exists destination);
        if (occupied : bool)
        then raise (StorageError "Storage quarantine object already exists.")
        else _ ← mkdirs [] (parent destination); os_replace source destination);
      mret (Some staged_key).

(* src: storage/local.py 108 122 LocalConfigStorage.restore_staged_delete *)
Definition local_restore_staged_delete (key staged_key : string) : M fs unit :=
  source ← lift (local_path staged_key);
  present ← gets (is_file source);
  if negb present then raise (StorageError "Quarantined configuration object is missing.")
  else
    destination ← lift (local_path key);
    os_guard "Local configuration restore failed." (
      occupied ← gets (path_exists destination);
      if (occupied : bool)
      then raise (StorageError "Configuration restore destination already exists.")
      else _ ← mkdirs [] (parent destination); os_replace source destination).

(* src: storage/local.py 124 126 LocalConfigStorage.purge_staged_delete *)
Definition local_purge_staged_delete (staged_key : string) : M fs unit :=
  local_delete staged_key.

(** ** The tree *)

Definition proper_prefix (q p : path) : Prop := q `prefix_of` p ∧ q ≠ p.

Record tree_ok (nodes : gmap path node) : Prop := {
  tree_top : nodes !! [] = Some Dir;
  tree_dirs : ∀ p n q, nodes !! p = Some n → proper_prefix q p → nodes !! q = Some Dir;
}.

Definition file_at (s : fs) (p : path) : option bytes :=
  match fs_nodes s !! p with Some (File c) => Some c | _ => None end.

Lemma proper_prefix_snoc q p c : proper_prefix q (p ++ [c]) ↔ q `prefix_of` p.
Proof.
  unfold proper_prefix. split.
  - intros [[k Hk] Hne]. destruct k as [|x k _] using rev_ind.
    + rewrite app_nil_r in Hk. congruence.
    + rewrite app_assoc in Hk. apply app_inj_tail in Hk as [-> ->]. by exists k.
  - intros Hq. split; [by apply prefix_app_r|]. intros ->.
    apply prefix_length in Hq. rewrite length_app in Hq. simpl in Hq. lia.
Qed.

Lemma tree_insert nodes p n :
  tree_ok nodes → (∀ q, proper_prefix q p → nodes !! q = Some Dir) → p ≠ [] →
  (nodes !! p = Some Dir → n = Dir) → tree_ok (<[p := n]> nodes).
Proof.
  intros [Htop Hdirs] Hp Hne Hn. split; [by rewrite lookup_insert_ne|].
  intros p' n' q Hp' Hq. destruct (decide (p = p')) as [<-|Hpp].
  - destruct Hq as [Hq Hqp]. rewrite lookup_insert_ne by done. by apply Hp.
  - rewrite lookup_insert_ne in Hp' by done.
    destruct (decide (p = q)) as [<-|Hpq]; [|rewrite lookup_insert_ne by done; eauto].
    rewrite lookup_insert_eq. f_equal. apply Hn. eauto.
Qed.

Lemma tree_delete_file nodes p c :
  tree_ok nodes → nodes !! p = Some (File c) → tree_ok (base.delete p nodes).
Proof.
  intros [Htop Hdirs] Hp. split.
  - rewrite lookup_delete_ne; [done|]. intros ->. congruence.
  - intros p' n q Hp' Hq. apply lookup_delete_Some in Hp' as [Hpp Hp'].
    pose proof (Hdirs _ _ _ Hp' Hq) as Hd.
    rewrite lookup_delete_ne; [done|]. intros ->. congruence.
Qed.

(** What a step that creates directories may do. *)
Definition only_dirs (s s' : fs) : Prop :=
  tree_ok (fs_nodes s') ∧ (∀ q, fs_nodes s !! q ≠ None → fs_nodes s' !! q = fs_nodes s !! q) ∧
  (∀ q, fs_nodes s !! q = None → fs_nodes s' !! q = None ∨ fs_nodes s' !! q = Some Dir).

Lemma only_dirs_refl s : tree_ok (fs_nodes s) → only_dirs s s.
Proof. unfold only_dirs. auto. Qed.

Lemma only_dirs_trans s1 s2 s3 : only_dirs s1 s2 → only_dirs s2 s3 → only_dirs s1 s3.
Proof.
  intros (_ & Hk & Hn) (Ht & Hk' & Hn'). unfold only_dirs. split_and!; [done| |].
  - intros q Hq. rewrite <-(Hk q Hq). apply Hk'. by rewrite (Hk q Hq).
  - intros q Hq. destruct (Hn q Hq) as [H|H]; [auto|].
    right. rewrite <-H. apply Hk'. by rewrite H.
Qed.

Lemma only_dirs_files s s' q : only_dirs s s' → file_at s' q = file_at s q.
Proof.
  intros (_ & Hk & Hn). unfold file_at. destruct (fs_nodes s !! q) eqn:E.
  - rewrite Hk, E by (by rewrite E). done.
  - by destruct (Hn q E) as [->| ->].
Qed.

Lemma os_call_run s r s' :
  os_call s = (r, s') → fs_nodes s' = fs_nodes s ∧ (r = Ok tt ∨ r = Err OSError).
Proof. unfold os_call. destruct (fs_faults s) as [|[] f]; intros [= <- <-]; auto. Qed.

Lemma mkdirs_run rest : ∀ done s r s',
  mkdirs done rest s = (r, s') → tree_ok (fs_nodes s) →
  (∀ q, q `prefix_of` done → fs_nodes s !! q = Some Dir) →
  only_dirs s s' ∧ (r = Ok tt ∨ r = Err OSError) ∧
  (r = Ok tt → ∀ q, q `prefix_of` done ++ rest → fs_nodes s' !! q = Some Dir).
Proof.
  induction rest as [|c rest IH]; intros done s r s' H Hok Hd.
  - injection H as <- <-. rewrite app_nil_r. split_and!; [by apply only_dirs_refl|auto|auto].
  - cbn [mkdirs] in H. unfold gets at 1 in H. unfold mbind at 1, M_bind at 1 in H.
    assert (∀ s1, tree_ok (fs_nodes s1) → only_dirs s s1 →
      fs_nodes s1 !! (done ++ [c]) = Some Dir → mkdirs (done ++ [c]) rest s1 = (r, s') →
      only_dirs s s' ∧ (r = Ok tt ∨ r = Err OSError) ∧
      (r = Ok tt → ∀ q, q `prefix_of` done ++ c :: rest → fs_nodes s' !! q = Some Dir)) as Hgo.
    { intros s1 Hok1 Hod1 Hc Hm. destruct (IH _ _ _ _ Hm Hok1) as (Hod & Hr & Hq).
      - intros q Hq. destruct (decide (q = done ++ [c])) as [->|Hne]; [done|].
        assert (q `prefix_of` done) as Hqd by (by apply (proper_prefix_snoc q done c)).
        destruct Hod1 as (_ & Hk & _). rewrite (Hk q); rewrite (Hd q Hqd); done.
      - split_and!; [by eapply only_dirs_trans|done|].
        intros Hr' q Hq'. apply Hq; [done|]. by rewrite <-app_assoc. }
    destruct (fs_nodes s !! (done ++ [c])) as [[|content]|] eqn:En.
    + apply (Hgo s); [done|by apply only_dirs_refl|done|exact H].
    + injection H as <- <-. split_and!; [by apply only_dirs_refl|auto|done].
    + unfold mbind at 1, M_bind at 1 in H. unfold mbind at 1, M_bind at 1 in H.
      destruct (os_call s) as [r0 s0] eqn:Ec.
      apply os_call_run in Ec as [Hn Hr0].
      assert (only_dirs s s0) as Hod0 by (unfold only_dirs; rewrite ?Hn; auto).
      destruct Hr0 as [-> | ->]; [|injection H as <- <-; split_and!; auto; done].
      simpl in H. eapply Hgo; [| | |exact H]; simpl; rewrite ?Hn.
      * apply tree_insert; [done| | |by rewrite En].
        -- intros q Hq. apply Hd. by apply (proper_prefix_snoc q done c).
        -- by destruct done.
      * unfold only_dirs. split_and!; simpl; rewrite ?Hn.
        -- apply tree_insert; [done| | |by rewrite En].
           ++ intros q Hq. apply Hd. by apply (proper_prefix_snoc q done c).
           ++ by destruct done.
        -- intros q Hq. rewrite lookup_insert_ne; [done|]. intros <-. by rewrite En in Hq.
        -- intros q Hq. destruct (decide (done ++ [c] = q)) as [<-|Hne].
           ++ rewrite lookup_insert_eq. by right.
           ++ rewrite lookup_insert_ne by done. by left.
      * by rewrite lookup_insert_eq.
Qed.

Lemma file_at_Some s p c : file_at s p = Some c ↔ fs_nodes s !! p = Some (File c).
Proof. unfold file_at. repeat case_match; naive_solver. Qed.

Lemma is_file_spec p s : is_file p s = true ↔ is_Some (file_at s p).
Proof. unfold is_file, file_at. repeat case_match; split; intros Hx; try done; by destruct Hx. Qed.

Lemma file_at_nodes s s' : fs_nodes s' = fs_nodes s → ∀ q, file_at s' q = file_at s q.
Proof. intros E q. unfold file_at. by rewrite E. Qed.

(** Moving a file to a place whose directories exist. *)
Lemma os_replace_run src dst s r s' :
  os_replace src dst s = (r, s') → tree_ok (fs_nodes s) →
  (∀ q, proper_prefix q dst → fs_nodes s !! q = Some Dir) →
  (r = Ok tt ∧ tree_ok (fs_nodes s') ∧ ∃ c, file_at s src = Some c ∧ file_at s' dst = Some c ∧
     (src ≠ dst → file_at s' src = None) ∧
     ∀ q, q ≠ src → q ≠ dst → file_at s' q = file_at s q) ∨
  (r = Err OSError ∧ fs_nodes s' = fs_nodes s).
Proof.
  intros H Hok Hd. unfold os_replace, mbind, M_bind in H.
  destruct (os_call s) as [r0 s0] eqn:Ec. apply os_call_run in Ec as [Hn Hr0].
  destruct Hr0 as [-> | ->]; [|injection H as <- <-; auto].
  unfold gets in H. rewrite Hn in H.
  destruct (fs_nodes s !! src) as [[|c]|] eqn:Es; try (injection H as <- <-; auto; fail).
  destruct (fs_nodes s !! dst) as [[|c']|] eqn:Ed; try (injection H as <- <-; auto; fail).
  all: injection H as <- <-; left; split; [done|]; rewrite Hn.
  all: assert (dst ≠ []) as Hne by (intros ->; pose proof (tree_top _ Hok); congruence).
  all: split; [apply tree_insert; [by eapply tree_delete_file| |done|]|].
  all: try (intros q Hq; pose proof (Hd q Hq); rewrite lookup_delete_ne; [done|congruence]).
  all: try (intros Hx%lookup_delete_Some; naive_solver).
  all: exists c; unfold file_at; simpl; rewrite Es; split; [done|].
  all: split; [by rewrite lookup_insert_eq|].
  all: split; [intros Hsd; by rewrite lookup_insert_ne, lookup_delete_eq by done|].
  all: intros q Hq1 Hq2; by rewrite lookup_insert_ne, lookup_delete_ne by done.
Qed.

Lemma unlink_run p s r s' :
  unlink p s = (r, s') → tree_ok (fs_nodes s) →
  (r = Ok tt ∧ tree_ok (fs_nodes s') ∧ file_at s' p = None ∧
     ∀ q, q ≠ p → file_at s' q = file_at s q) ∨
  (r = Err OSError ∧ fs_nodes s' = fs_nodes s).
Proof.
  intros H Hok. unfold unlink, mbind, M_bind in H.
  destruct (os_call s) as [r0 s0] eqn:Ec. apply os_call_run in Ec as [Hn Hr0].
  destruct Hr0 as [-> | ->]; [|injection H as <- <-; auto].
  unfold gets in H. rewrite Hn in H.
  destruct (fs_nodes s !! p) as [[|c]|] eqn:Ep; injection H as <- <-; auto.
  - left. rewrite Hn. split_and!; [done|by eapply tree_delete_file| |].
    + unfold file_at. simpl. by rewrite lookup_delete_eq.
    + intros q Hq. unfold file_at. simpl. by rewrite lookup_delete_ne.
  - left. rewrite Hn. split_and!; [done|done| |].
    + unfold file_at. by rewrite Hn, Ep.
    + intros q Hq. by apply file_at_nodes.
Qed.

Lemma os_guard_run {A} message (m : M fs A) s r s' :
  os_guard message m s = (r, s') →
  ∃ r0, m s = (r0, s') ∧
    r = match r0 with
        | Err e => if is_os_error e then Err (StorageError message) else Err e
        | r0 => r0
        end.
Proof.
  unfold os_guard, try_catch. destruct (m s) as [[a|e] s0]; [by intros [= <- <-]; eauto|].
  intros H. exists (Err e). destruct (is_os_error e); by injection H as <- <-.
Qed.

Lemma local_path_below key p : local_path key = Ok p → proper_prefix root p.
Proof.
  unfold local_path.
  destruct (bool_decide (key = "") || _); [done|]. destruct (is_absolute key || _); [done|].
  destruct (has_char nul key); [done|].
  destruct (bool_decide (resolve _ = root)) eqn:H1; [done|].
  destruct (bool_decide (root `prefix_of` _)) eqn:H2; [|done]. intros [= <-].
  apply bool_decide_eq_false in H1. apply bool_decide_eq_true in H2. split; [done|congruence].
Qed.

Lemma parent_last key p : local_path key = Ok p → p = parent p ++ [List.last p ""].
Proof.
  intros [Hp Hne]%local_path_below. unfold parent. apply app_removelast_last.
  intros ->. apply prefix_nil_inv in Hp. congruence.
Qed.

(** Make the directories of a place, then move a file there. *)
Lemma move_run key dst src s r s' :
  local_path key = Ok dst →
  (_ ← mkdirs [] (parent dst); os_replace src dst) s = (r, s') → tree_ok (fs_nodes s) →
  file_at s dst = None →
  (r = Ok tt ∧ tree_ok (fs_nodes s') ∧ ∃ c, file_at s src = Some c ∧ src ≠ dst ∧
     file_at s' dst = Some c ∧ file_at s' src = None ∧
     ∀ q, q ≠ src → q ≠ dst → file_at s' q = file_at s q) ∨
  (r = Err OSError ∧ tree_ok (fs_nodes s') ∧ ∀ q, file_at s' q = file_at s q).
Proof.
  intros Hp H Hok Hdst. pose proof (parent_last _ _ Hp) as Hpl.
  unfold mbind, M_bind in H. destruct (mkdirs [] (parent dst) s) as [r0 s0] eqn:Em.
  destruct (mkdirs_run _ _ _ _ _ Em Hok) as (Hod & Hr0 & Hdirs).
  { intros q ->%prefix_nil_inv. apply Hok. }
  destruct Hr0 as [-> | ->].
  - apply os_replace_run in H as [(-> & Hok' & c & Hs & Hd & Hsrc & Hq)|(-> & Hn)].
    + left. rewrite (only_dirs_files s s0 src Hod) in Hs.
      assert (src ≠ dst) as Hne by congruence.
      split_and!; [done|done|]. exists c. split_and!; auto.
      intros q H1 H2. by rewrite Hq, (only_dirs_files s s0).
    + right. split_and!; [done|rewrite Hn; apply Hod|].
      intros q. rewrite (file_at_nodes s0 s') by done. by apply only_dirs_files.
    + apply Hod.
    + intros q Hq. apply Hdirs; [done|]. simpl. rewrite Hpl in Hq. by apply proper_prefix_snoc in Hq.
  - injection H as <- <-. right. split_and!; [done|apply Hod|]. intros q. by apply only_dirs_files.
Qed.

(** ** The contract *)

Definition local_loc (key : string) : option path :=
  match local_path key with Ok p => Some p | Err _ => None end.

Lemma local_loc_Ok key p : local_path key = Ok p → local_loc key = Some p.
Proof. unfold local_loc. by intros ->. Qed.

Lemma path_exists_file p s : path_exists p s = false → file_at s p = None.
Proof. unfold path_exists, file_at. by case_match. Qed.

Lemma local_delete_run key s r s' :
  local_delete key s = (r, s') → tree_ok (fs_nodes s) →
  tree_ok (fs_nodes s') ∧
  match r with
  | Ok _ => ∃ p, local_loc key = Some p ∧ file_at s' p = None ∧
              ∀ q, q ≠ p → file_at s' q = file_at s q
  | Err _ => ∀ q, file_at s' q = file_at s q
  end.
Proof.
  intros H Hok. unfold local_delete in H. rewrite lift_bind_run in H.
  destruct (local_path key) as [p|e] eqn:Hp; [|by injection H as <- <-].
  apply os_guard_run in H as (r0 & H & ->).
  apply unlink_run in H as [(-> & Hok' & H1 & H2)|(-> & Hn)]; [| |done].
  - split; [done|]. exists p. split_and!; [by apply local_loc_Ok|done|done].
  - rewrite Hn. split; [done|]. intros q. by apply file_at_nodes.
Qed.

Lemma local_stage_run key ns s r s' :
  local_stage_delete key ns s = (r, s') → tree_ok (fs_nodes s) →
  tree_ok (fs_nodes s') ∧
  match r with
  | Ok (Some key') => ∃ p p' c, local_loc key = Some p ∧ local_loc key' = Some p' ∧ p ≠ p' ∧
      file_at s p = Some c ∧ file_at s p' = None ∧ file_at s' p = None ∧ file_at s' p' = Some c ∧
      ∀ q, q ≠ p → q ≠ p' → file_at s' q = file_at s q
  | Ok None => (∀ q, file_at s' q = file_at s q) ∧ ∃ p, local_loc key = Some p ∧ file_at s p = None
  | Err _ => ∀ q, file_at s' q = file_at s q
  end.
Proof.
  intros H Hok. unfold local_stage_delete in H.
  destruct (negb (namespace_ok ns)); [by injection H as <- <-|].
  rewrite lift_bind_run in H.
  destruct (local_path key) as [p|e] eqn:Hp; [|by injection H as <- <-].
  rewrite gets_bind_run in H.
  destruct (is_file p s) eqn:Hf; cbv beta iota delta [negb] in H.
  2: { injection H as <- <-. split_and!; [done|done|]. exists p. split; [by apply local_loc_Ok|].
       destruct (file_at s p) eqn:E; [|done].
       assert (is_file p s = true) by (apply is_file_spec; eauto). congruence. }
  set (key' := ".retention-trash/" +:+ _) in *. cbv zeta in H.
  rewrite lift_bind_run in H.
  destruct (local_path key') as [p'|e] eqn:Hp'; [|by injection H as <- <-].
  rewrite M_bind_run in H.
  destruct (os_guard _ _ s) as [r0 s0] eqn:Hg.
  apply os_guard_run in Hg as (r1 & Hg & ->).
  rewrite gets_bind_run in Hg.
  destruct (path_exists p' s) eqn:He; [injection Hg as <- <-; by injection H as <- <-|].
  apply (move_run key') in Hg as [(-> & Hok' & c & H1 & Hne & H2 & H3 & H4)|(-> & Hok' & H1)];
    [| |done..|by apply path_exists_file].
  - injection H as <- <-. split; [done|]. exists p, p', c.
    split_and!; try done; try by apply local_loc_Ok. by apply path_exists_file.
  - by injection H as <- <-.
Qed.

Lemma local_restore_run key key' s r s' :
  local_restore_staged_delete key key' s = (r, s') → tree_ok (fs_nodes s) →
  tree_ok (fs_nodes s') ∧
  match r with
  | Ok _ => ∃ p p' c, local_loc key = Some p ∧ local_loc key' = Some p' ∧ p ≠ p' ∧
      file_at s p' = Some c ∧ file_at s p = None ∧ file_at s' p' = None ∧ file_at s' p = Some c ∧
      ∀ q, q ≠ p → q ≠ p' → file_at s' q = file_at s q
  | Err _ => ∀ q, file_at s' q = file_at s q
  end.
Proof.
  intros H Hok. unfold local_restore_staged_delete in H. rewrite lift_bind_run in H.
  destruct (local_path key') as [p'|e] eqn:Hp'; [|by injection H as <- <-].
  rewrite gets_bind_run in H.
  destruct (is_file p' s) eqn:Hf; cbv beta iota delta [negb] in H; [|by injection H as <- <-].
  rewrite lift_bind_run in H.
  destruct (local_path key) as [p|e] eqn:Hp; [|by injection H as <- <-].
  apply os_guard_run in H as (r1 & H & ->).
  rewrite gets_bind_run in H.
  destruct (path_exists p s) eqn:He; [by injection H as <- <-|].
  apply (move_run key) in H as [(-> & Hok' & c & H1 & Hne & H2 & H3 & H4)|(-> & Hok' & H1)];
    [| |done..|by apply path_exists_file].
  - split; [done|]. exists p, p', c.
    split_and!; try done; try by apply local_loc_Ok. by apply path_exists_file. intros; by apply H4.
  - done.
Qed.

Lemma local_get_run key s r s' :
  local_get key s = (r, s') → fs_nodes s' = fs_nodes s ∧
  ∀ c, r = Ok c → ∃ p, local_loc key = Some p ∧ file_at s p = Some c.
Proof.
  intros H. unfold local_get in H. rewrite lift_bind_run in H.
  destruct (local_path key) as [p|e] eqn:Hp; [|by injection H as <- <-].
  apply os_guard_run in H as (r0 & H & ->). rewrite M_bind_run in H.
  destruct (os_call s) as [r1 s1] eqn:Ec. apply os_call_run in Ec as [Hn Hr1].
  destruct Hr1 as [-> | ->]; [|by injection H as <- <-].
  rewrite gets_bind_run, Hn in H.
  destruct (fs_nodes s !! p) as [[|c]|] eqn:E; injection H as <- <-; split; try done.
  intros c' [= <-]. exists p. split; [by apply local_loc_Ok|]. by apply file_at_Some.
Qed.

Lemma write_file_bind_run {B} p content (f : unit → M fs B) s :
  (write_file p content ≫= f) s
  = f tt (s <| fs_nodes := <[p := File content]> (fs_nodes s) |>).
Proof. done. Qed.

Definition mkstemp_fresh : Prop :=
  ∀ nodes dir prefix, nodes !! (dir ++ [mkstemp_name nodes dir prefix]) = None.

Lemma write_new_file s temp content :
  tree_ok (fs_nodes s) → (∀ q, proper_prefix q temp → fs_nodes s !! q = Some Dir) →
  file_at s temp ≠ None ∨ fs_nodes s !! temp = None → temp ≠ [] →
  tree_ok (<[temp := File content]> (fs_nodes s)).
Proof.
  intros Hok Hd Hn Hne. apply tree_insert; [done..|]. intros Hdir. exfalso.
  unfold file_at in Hn. rewrite Hdir in Hn. naive_solver.
Qed.

(** Filling the temporary file and moving it into place. *)
Lemma fill_and_replace_run temp p content s r s' :
  (_ ← os_call; _ ← os_call; _ ← write_file temp content; os_replace temp p) s = (r, s') →
  tree_ok (fs_nodes s) → is_Some (file_at s temp) →
  (∀ q, proper_prefix q temp → fs_nodes s !! q = Some Dir) →
  (∀ q, proper_prefix q p → fs_nodes s !! q = Some Dir) → temp ≠ [] →
  tree_ok (fs_nodes s') ∧
  ((r = Ok tt ∧ file_at s' p = Some content ∧ (temp ≠ p → file_at s' temp = None)) ∨
   (r = Err OSError ∧ (temp ≠ p → file_at s' p = file_at s p) ∧ is_Some (file_at s' temp))) ∧
  ∀ q, q ≠ temp → q ≠ p → file_at s' q = file_at s q.
Proof.
  intros H Hok Ht Hdt Hdp Hne. rewrite M_bind_run in H.
  destruct (os_call s) as [r1 s1] eqn:E1. apply os_call_run in E1 as [Hn1 Hr1].
  pose proof (file_at_nodes s s1 Hn1) as Hf1.
  destruct Hr1 as [-> | ->].
  2: { injection H as <- <-. rewrite Hn1. split_and!; [done|right; rewrite !Hf1; auto|intros; apply Hf1]. }
  rewrite M_bind_run in H.
  destruct (os_call s1) as [r2 s2] eqn:E2. apply os_call_run in E2 as [Hn2 Hr2].
  rewrite Hn1 in Hn2. pose proof (file_at_nodes s s2 Hn2) as Hf2.
  destruct Hr2 as [-> | ->].
  2: { injection H as <- <-. rewrite Hn2. split_and!; [done|right; rewrite !Hf2; auto|intros; apply Hf2]. }
  rewrite write_file_bind_run, Hn2 in H.
  set (s3 := s2 <| fs_nodes := _ |>) in H.
  assert (tree_ok (fs_nodes s3)) as Hok3.
  { apply write_new_file; [done|done|left; by destruct Ht as [? ->]|done]. }
  assert (∀ q, q ≠ temp → file_at s3 q = file_at s q) as Hf3.
  { intros q Hq. unfold file_at, s3. simpl. by rewrite lookup_insert_ne. }
  assert (file_at s3 temp = Some content) as Ht3.
  { unfold file_at, s3. simpl. by rewrite lookup_insert_eq. }
  apply os_replace_run in H as [(-> & Hok' & c & H1 & H2 & H3 & H4)|(-> & Hn)]; [| |done|].
  - rewrite Ht3 in H1. injection H1 as <-. split_and!; [done|left; auto|].
    intros q Hq Hqp. rewrite H4 by done. by apply Hf3.
  - rewrite Hn. pose proof (file_at_nodes s3 s' Hn) as Hf. split_and!; [done|right|].
    + split_and!; [done| |by rewrite Hf, Ht3]. intros Hne'. rewrite Hf. by apply Hf3.
    + intros q Hq _. rewrite Hf. by apply Hf3.
  - intros q Hq. unfold s3. simpl. rewrite lookup_insert_ne; [by apply Hdp|].
    intros <-. pose proof (Hdp _ Hq) as Hd. destruct Ht as [c Hc]. apply file_at_Some in Hc.
    congruence.
Qed.

Lemma local_put_run key content md s r s' :
  mkstemp_fresh → local_put key content md s = (r, s') → tree_ok (fs_nodes s) →
  tree_ok (fs_nodes s') ∧
  match r with
  | Ok o => so_key o = key ∧ so_size o = Z.of_nat (length content) ∧
      ∃ p, local_loc key = Some p ∧ file_at s' p = Some content ∧
        ∀ q, q ≠ p → file_at s' q = file_at s q
  | Err _ => ∀ q, (is_Some (file_at s q) ∨ ¬ proper_prefix root q → local_loc key ≠ Some q →
                     file_at s' q = file_at s q) ∧
      (local_loc key = Some q → is_Some (file_at s q) →
         file_at s' q = file_at s q ∨ file_at s' q = Some content)
  end.
Proof.
  intros Hfresh H Hok. unfold local_put in H. rewrite lift_bind_run in H.
  destruct (local_path key) as [p|e] eqn:Hp; [|injection H as <- <-; auto].
  pose proof (parent_last _ _ Hp) as Hpl. pose proof (local_loc_Ok _ _ Hp) as Hloc.
  rewrite M_bind_run in H. destruct (os_guard _ _ s) as [rg sg] eqn:Hg.
  apply os_guard_run in Hg as (r0 & Hg & ->).
  enough (tree_ok (fs_nodes sg) ∧
    (r0 = Ok tt ∧ file_at sg p = Some content ∧ (∀ q, q ≠ p → file_at sg q = file_at s q) ∨
     r0 = Err OSError ∧ ∀ q, is_Some (file_at s q) ∨ ¬ proper_prefix root q →
       (q ≠ p → file_at sg q = file_at s q) ∧
       (q = p → file_at sg q = file_at s q ∨ file_at sg q = Some content))) as Hmain.
  { destruct Hmain as (Hokg & [(-> & H1 & H2)|(-> & H1)]); injection H as <- <-; split; try done.
    - split_and!; [done|done|]. exists p. done.
    - intros q. rewrite Hloc. split; [intros Hq Hne|intros [= ->] Hq].
      + apply H1; [done|]. congruence.
      + apply H1; auto. }
  clear H. rewrite M_bind_run in Hg.
  destruct (mkdirs [] (parent p) s) as [r1 s1] eqn:Em.
  destruct (mkdirs_run _ _ _ _ _ Em Hok) as (Hod & Hr1 & Hdirs).
  { intros q ->%prefix_nil_inv. apply Hok. }
  pose proof (λ q, only_dirs_files s s1 q Hod) as Hf1.
  destruct Hr1 as [-> | ->].
  2: { injection Hg as <- <-. split; [apply Hod|]. right. split; [done|]. auto. }
  specialize (Hdirs eq_refl). simpl in Hdirs.
  rewrite M_bind_run in Hg.
  destruct (os_call s1) as [r2 s2] eqn:E2. apply os_call_run in E2 as [Hn2 Hr2].
  pose proof (file_at_nodes s1 s2 Hn2) as Hf2.
  destruct Hr2 as [-> | ->].
  2: { injection Hg as <- <-. rewrite Hn2. split; [apply Hod|]. right. split; [done|].
       intros q _. rewrite Hf2, Hf1. auto. }
  rewrite gets_bind_run, Hn2 in Hg. cbv zeta in Hg.
  set (name := mkstemp_name _ _ _) in Hg. set (temp := parent p ++ [name]) in Hg.
  assert (fs_nodes s1 !! temp = None) as Htemp by apply Hfresh.
  assert (∀ q, proper_prefix q temp → fs_nodes s1 !! q = Some Dir) as Hdt.
  { intros q Hq. apply Hdirs. by apply (proper_prefix_snoc q _ name). }
  assert (∀ q, proper_prefix q p → fs_nodes s1 !! q = Some Dir) as Hdp.
  { intros q Hq. apply Hdirs. rewrite Hpl in Hq. by apply proper_prefix_snoc in Hq. }
  assert (temp ≠ []) as Htne by (unfold temp; by destruct (parent p)).
  rewrite write_file_bind_run, Hn2 in Hg.
  set (s3 := s2 <| fs_nodes := _ |>) in Hg.
  assert (tree_ok (fs_nodes s3)) as Hok3 by (apply write_new_file; [apply Hod|auto..]).
  assert (∀ q, q ≠ temp → file_at s3 q = file_at s q) as Hf3.
  { intros q Hq. unfold s3, file_at. simpl. rewrite lookup_insert_ne by done. apply Hf1. }
  assert (file_at s temp = None) as Hst.
  { rewrite <-Hf1. unfold file_at. by rewrite Htemp. }
  assert (∀ q, proper_prefix q temp ∨ proper_prefix q p → fs_nodes s3 !! q = Some Dir) as Hd3.
  { intros q Hq. unfold s3. simpl. rewrite lookup_insert_ne; [naive_solver|].
    intros <-. assert (fs_nodes s1 !! temp = Some Dir) by naive_solver. congruence. }
  rewrite M_bind_run in Hg. unfold try_catch at 1 in Hg.
  destruct ((_ ← os_call; _ ← os_call; _ ← write_file temp content; os_replace temp p) s3)
    as [r4 s4] eqn:E4.
  apply fill_and_replace_run in E4 as (Hok4 & Hr4 & Hq4); [|done| |auto|auto|done].
  2: { unfold s3, file_at. simpl. rewrite lookup_insert_eq. eauto. }
  destruct Hr4 as [(-> & Hp4 & Ht4)|(-> & Hp4 & Ht4)].
  - apply os_call_run in Hg as [Hn Hr]. rewrite Hn. split; [done|].
    pose proof (file_at_nodes s4 sg Hn) as Hfg.
    assert (∀ q, q ≠ p → file_at sg q = file_at s q) as Hrest.
    { intros q Hq. rewrite Hfg. destruct (decide (q = temp)) as [->|Hqt].
      - rewrite Hst. by apply Ht4.
      - rewrite Hq4 by done. by apply Hf3. }
    destruct Hr as [-> | ->]; [left|right]; rewrite ?Hfg; [auto|].
    split; [done|]. intros q _. split; [apply Hrest|]. intros ->. rewrite Hfg. auto.
  - rewrite M_bind_run in Hg. unfold try_catch at 1 in Hg.
    destruct (unlink temp s4) as [r5 s5] eqn:E5.
    assert (tree_ok (fs_nodes s5) ∧ ∀ q, q ≠ temp → file_at s5 q = file_at s4 q) as [Hok5 Hf5].
    { apply unlink_run in E5 as [(_ & ? & _ & ?)|(_ & Hn)]; [| |done].
      - done.
      - rewrite Hn. split; [done|]. intros q _. by apply file_at_nodes. }
    assert (r0 = Err OSError ∧ sg = s5) as [-> ->]
      by (destruct r5 as [[]|]; injection Hg as <- <-; done).
    split; [done|]. right. split; [done|]. intros q Hq.
    assert (q ≠ temp) as Hqt.
    { intros ->. destruct Hq as [Hq|Hq]; [rewrite Hst in Hq; by destruct Hq|]. apply Hq.
      apply proper_prefix_snoc. pose proof (local_path_below _ _ Hp) as Hb.
      rewrite Hpl in Hb. by apply proper_prefix_snoc in Hb. }
    rewrite Hf5 by done. split; intros Hqp.
    + rewrite Hq4 by done. by apply Hf3.
    + left. subst q. rewrite Hp4 by done. by apply Hf3.
Qed.

(** C10: Key confinement: whatever the key, the symbolic links of the tree and
    the system calls that fail, no operation creates, changes or removes a
    file that is not below the storage root. *)
Theorem local_storage_confined s q :
  mkstemp_fresh → tree_ok (fs_nodes s) → ¬ proper_prefix root q →
  (∀ key content md, file_at (local_put key content md s).2 q = file_at s q) ∧
  (∀ key, file_at (local_delete key s).2 q = file_at s q) ∧
  (∀ key ns, file_at (local_stage_delete key ns s).2 q = file_at s q) ∧
  (∀ key key', file_at (local_restore_staged_delete key key' s).2 q = file_at s q) ∧
  (∀ key', file_at (local_purge_staged_delete key' s).2 q = file_at s q).
Proof.
  intros Hfresh Hok Hq.
  assert (∀ key, local_loc key ≠ Some q) as Hloc.
  { intros key. unfold local_loc. destruct (local_path key) as [p|] eqn:Hp; [|done].
    intros [= ->]. by apply local_path_below in Hp. }
  assert (∀ key, file_at (local_delete key s).2 q = file_at s q) as Hdel.
  { intros key. destruct (local_delete key s) as [[u|e] s'] eqn:E;
      apply local_delete_run in E as [_ Hs]; auto.
    destruct Hs as (p & Hp & _ & Hs). apply Hs. intros ->. by apply (Hloc key). }
  split_and!; [|exact Hdel| | |exact Hdel].
  - intros key content md. destruct (local_put key content md s) as [[o|e] s'] eqn:E;
      apply local_put_run in E as [_ Hs]; auto.
    + destruct Hs as (_ & _ & p & Hp & _ & Hs). apply Hs. intros ->. by apply (Hloc key).
    + apply (Hs q); auto.
  - intros key ns. destruct (local_stage_delete key ns s) as [[[k'|]|e] s'] eqn:E;
      apply local_stage_run in E as [_ Hs]; auto; [|by destruct Hs].
    destruct Hs as (p & p' & c & Hp & Hp' & _ & _ & _ & _ & _ & Hs).
    apply Hs; intros ->; by eapply Hloc.
  - intros key key'. destruct (local_restore_staged_delete key key' s) as [[u|e] s'] eqn:E;
      apply local_restore_run in E as [_ Hs]; auto.
    destruct Hs as (p & p' & c & Hp & Hp' & _ & _ & _ & _ & _ & Hs).
    apply Hs; intros ->; by eapply Hloc.
Qed.

(** C11: A write is atomic: when it succeeds the object is the new content and
    every other object is untouched; when any of its system calls fails, the
    object a key had before is there unchanged or is the complete new content,
    and every other object is untouched. *)
Theorem local_put_atomic key content md s r s' p old :
  mkstemp_fresh → tree_ok (fs_nodes s) →
  local_put key content md s = (r, s') → local_path key = Ok p → file_at s p = Some old →
  (is_ok r = true → file_at s' p = Some content) ∧
  (file_at s' p = Some old ∨ file_at s' p = Some content) ∧
  (∀ q, q ≠ p → is_Some (file_at s q) → file_at s' q = file_at s q).
Proof.
  intros Hfresh Hok H Hp Hold. apply local_put_run in H as [_ Hs]; [|done..].
  pose proof (local_loc_Ok _ _ Hp) as Hloc. destruct r as [o|e].
  - destruct Hs as (_ & _ & p' & Hp' & Hc & Hs).
    rewrite Hloc in Hp'. injection Hp' as <-. rewrite Hc. split_and!; [done|by right|auto].
  - split_and!; [done| |].
    + rewrite <-Hold. apply (Hs p); [done|by rewrite Hold].
    + intros q Hq Hex. apply (Hs q); [by left|]. rewrite Hloc. congruence.
Qed.

(** C12: What is written is read back, byte for byte and with its size, from
    every key that names the same object, as long as no system call fails;
    deleting the key afterwards makes the read fail. *)
Theorem local_put_get_roundtrip key content md s o s1 key' :
  mkstemp_fresh → tree_ok (fs_nodes s) →
  local_put key content md s = (Ok o, s1) → fs_faults s1 = [] →
  local_path key' = local_path key →
  so_size o = Z.of_nat (length content) ∧
  local_get key' s1 = (Ok content, s1) ∧
  ∃ s2, local_delete key s1 = (Ok tt, s2) ∧
    local_get key' s2 = (Err (StorageError "Local configuration read failed."), s2).
Proof.
  intros Hfresh Hok H Hf Hk. pose proof H as H0.
  apply local_put_run in H as [Hok1 (_ & Hsize & p & Hp & Hc & _)]; [|done..].
  assert (local_path key = Ok p) as Hpath.
  { unfold local_loc in Hp. destruct (local_path key); [congruence|done]. }
  assert (∀ s, fs_faults s = [] → os_call s = (Ok tt, s)) as Hcall.
  { intros s' E. unfold os_call. by rewrite E. }
  apply file_at_Some in Hc. split_and!; [done| |].
  - unfold local_get. rewrite lift_bind_run, Hk, Hpath. unfold os_guard, try_catch.
    rewrite M_bind_run, Hcall, gets_bind_run, Hc by done. done.
  - unfold local_delete. rewrite lift_bind_run, Hpath. unfold os_guard, try_catch, unlink.
    rewrite M_bind_run, Hcall, gets_bind_run, Hc by done. eexists. split; [done|].
    unfold local_get. rewrite lift_bind_run, Hk, Hpath. unfold os_guard, try_catch.
    rewrite M_bind_run, Hcall, gets_bind_run by done. simpl. by rewrite lookup_delete_eq.
Qed.

(** The two operations of a rollback fail with [StorageError] only, on keys
    that name locations. *)
Lemma local_loc_path key p : local_loc key = Some p → local_path key = Ok p.
Proof. unfold local_loc. destruct (local_path key); [by intros [= ->]|done]. Qed.

Lemma local_delete_raises key p s e s' :
  tree_ok (fs_nodes s) → local_loc key = Some p → local_delete key s = (Err e, s') →
  is_storage_error e = true.
Proof.
  intros Hok Hp%local_loc_path H. unfold local_delete in H. rewrite lift_bind_run, Hp in H.
  apply os_guard_run in H as (r0 & H & E). by apply unlink_run in H as [(-> & _)|(-> & _)];
    [discriminate E|injection E as ->|].
Qed.

Lemma local_restore_raises key key' p p' s e s' :
  tree_ok (fs_nodes s) → local_loc key = Some p → local_loc key' = Some p' →
  local_restore_staged_delete key key' s = (Err e, s') → is_storage_error e = true.
Proof.
  intros Hok Hp%local_loc_path Hp'%local_loc_path H.
  unfold local_restore_staged_delete in H. rewrite lift_bind_run, Hp', gets_bind_run in H.
  destruct (negb (is_file p' s)); [by injection H as <- <-|].
  rewrite lift_bind_run, Hp in H. apply os_guard_run in H as (r0 & H & E).
  rewrite gets_bind_run in H. destruct (path_exists p s) eqn:He.
  { injection H as <- <-. by injection E as ->. }
  by apply (move_run key) in H as [(-> & _)|(-> & _)];
    [discriminate E|injection E as ->|..|apply path_exists_file].
Qed.

(** ** The instance *)
Definition local_externals (R : Type) : Externals := {| files := fs; remote := R |}.

Definition local_config_storage (R : Type) : @ConfigStorage (local_externals R) :=
  @Build_ConfigStorage (local_externals R) local_put local_get local_exists local_delete
    local_stage_delete local_restore_staged_delete local_purge_staged_delete.

Definition local_config_storage_laws (R : Type) (Hfresh : mkstemp_fresh) :
  @ConfigStorageLaws (local_externals R) (local_config_storage R).
Proof.
  apply (@Build_ConfigStorageLaws (local_externals R) (local_config_storage R) path _ local_loc
    file_at (λ s : fs, tree_ok (fs_nodes s))); simpl.
  - intros k c md s o s' Hok H. by apply local_put_run in H as [? ?].
  - intros k c md s e s' Hok H. apply local_put_run in H as [? Hs]; [|done..].
    split; [done|]. intros j Hj Hne. apply (Hs j); auto.
  - intros k s c s' Hok H. apply local_get_run in H as [Hn Hc]. rewrite Hn.
    split_and!; [done|intros; by apply file_at_nodes|by apply Hc].
  - intros k s s' Hok H. by apply local_delete_run in H as [? ?].
  - intros k s e s' Hok H. by apply local_delete_run in H as [? ?].
  - intros k s e s' Hok [p Hp] H. exact (local_delete_raises _ _ _ _ _ Hok Hp H).
  - intros k ns s k' s' Hok H. by apply local_stage_run in H as [? ?].
  - intros k ns s s' Hok H. apply local_stage_run in H as [? [? ?]]; done.
  - intros k ns s e s' Hok H. by apply local_stage_run in H as [? ?].
  - intros k k' s s' Hok H. by apply local_restore_run in H as [? ?].
  - intros k k' s e s' Hok H. by apply local_restore_run in H as [? ?].
  - intros k k' s e s' Hok [p Hp] [p' Hp'] H. exact (local_restore_raises _ _ _ _ _ _ _ Hok Hp Hp' H).
  - intros k' s s' Hok H. by apply local_delete_run in H as [? ?].
  - intros k' s e s' Hok H. by apply local_delete_run in H as [? ?].
  - intros k' s e s' Hok [p Hp] H. exact (local_delete_raises _ _ _ _ _ Hok Hp H).
Defined.
End local_storage.

(** ** A concrete file system *)
Module LocalStorageExamples.
Definition long_name (n : nat) : string := String.concat "" (replicate (S n) "x").
Definition longest (paths : list path) : nat :=
  foldr (λ p acc, Nat.max (String.length (List.last p "")) acc) O paths.
Definition mkstemp_name (nodes : gmap path node) (dir : path) (prefix : string) : string :=
  long_name (longest (map fst (map_to_list nodes))).

Lemma long_name_length n : String.length (long_name n) = S n.
Proof.
  unfold long_name. induction n as [|n IH]; [done|].
  change (String.length (String "x" (String.concat "" (replicate (S n) "x"))) = S (S n)).
  simpl String.length. f_equal. exact IH.
Qed.

Lemma longest_le p paths : p ∈ paths → (String.length (List.last p "") <= longest paths)%nat.
Proof.
  induction paths as [|x paths IH]; [by rewrite elem_of_nil|].
  rewrite elem_of_cons. simpl. intros [->|Hp]; [lia|]. specialize (IH Hp). lia.
Qed.

Lemma mkstemp_name_fresh : mkstemp_fresh mkstemp_name.
Proof.
  intros nodes dir prefix. apply eq_None_not_Some. intros [n Hn].
  apply elem_of_map_to_list in Hn.
  pose proof (longest_le _ _ (list_elem_of_fmap_2 fst _ _ Hn)) as Hle. cbn [fst] in Hle.
  rewrite List.last_last in Hle. unfold mkstemp_name in Hle at 1.
  rewrite long_name_length in Hle. revert Hle. apply Nat.nle_succ_diag_l.
Qed.

Definition root : path := ["srv"; "backups"].
Definition plain (p : path) : path := p.
Definition key : string := "devices/1/revisions/u/running.cfg".

(** An empty storage, and the same with one object. *)
Definition start : fs :=
  {| fs_nodes := <[["etc"; "passwd"] := File (encode "root")]> (<[["etc"] := Dir]>
                 (<[["srv"; "backups"] := Dir]> (<[["srv"] := Dir]> {[ [] := Dir ]})));
     fs_faults := [] |}.
Definition put_start := local_put root plain mkstemp_name key (encode "hostname a") [] start.

Ltac insert_below :=
  let q := fresh "q" in let k := fresh "k" in let Hk := fresh "Hk" in let Hne := fresh "Hne" in
  apply tree_insert;
  [| intros q [[k Hk] Hne];
     destruct q as [|x1 [|x2 [|x3 q]]]; simplify_eq/=; try reflexivity; try done;
     by destruct q
   | discriminate | by vm_compute ].

Lemma start_ok : tree_ok (fs_nodes start).
Proof.
  unfold start, fs_nodes. do 4 insert_below.
  split; [reflexivity|]. intros p n q [<- <-]%lookup_singleton_Some [[k Hk] Hne].
  by destruct q.
Qed.

Lemma local_storage_confined_witness :
  file_at (local_put root plain mkstemp_name "../../etc/passwd" (encode "x") [] start).2
    ["etc"; "passwd"] = Some (encode "root").
Proof.
  refine (proj1 (local_storage_confined root plain mkstemp_name start ["etc"; "passwd"] _ _ _)
            "../../etc/passwd" (encode "x") []).
  - exact mkstemp_name_fresh.
  - exact start_ok.
  - intros [[k Hk] _]. discriminate Hk.
Defined.

Lemma local_put_get_roundtrip_witness :
  local_get root plain "devices//1/revisions/./u/running.cfg" put_start.2
  = (Ok (encode "hostname a"), put_start.2).
Proof.
  refine (proj1 (proj2 (local_put_get_roundtrip root plain mkstemp_name key (encode "hostname a")
    [] start {| so_key := key; so_size := 10; so_metadata := [] |} put_start.2
    "devices//1/revisions/./u/running.cfg" _ _ _ _ _))).
  - exact mkstemp_name_fresh.
  - exact start_ok.
  - vm_compute. reflexivity.
  - vm_compute. reflexivity.
  - vm_compute. reflexivity.
Defined.

(** Overwriting with a disk that fails at the fourth system call. *)
Definition one_object : fs :=
  {| fs_nodes := <[["srv"; "backups"; "a"] := File (encode "old")]> (fs_nodes start);
     fs_faults := [false; false; false; true] |}.

Lemma local_put_atomic_witness :
  let r := local_put root plain mkstemp_name "a" (encode "new") [] one_object in
  is_ok r.1 = false ∧
  (file_at r.2 ["srv"; "backups"; "a"] = Some (encode "old")
   ∨ file_at r.2 ["srv"; "backups"; "a"] = Some (encode "new")).
Proof.
  cbv zeta. split; [vm_compute; reflexivity|].
  refine (proj1 (proj2 (local_put_atomic root plain mkstemp_name "a" (encode "new") [] one_object
    _ _ ["srv"; "backups"; "a"] (encode "old") _ _ (surjective_pairing _) _ _))).
  - exact mkstemp_name_fresh.
  - unfold one_object, fs_nodes at 1. insert_below. exact start_ok.
  - vm_compute. reflexivity.
  - vm_compute. reflexivity.
Defined.
End LocalStorageExamples.
