(* ===== verification/Destination.v ===== *)
(** * External destinations: [services/destination.py], [destination_types.py]

    What a destination backend promises to the services that call it, and the
    dispatch on the protocol.  A backend sees a destination, a revision and
    the database, and changes the remote storages only.  The laws speak of the
    places where copies lie: a place is given by the endpoint of a destination
    and a remote path, and two destinations may well share one. *)

From Stdlib Require Import ZArith Lia.
From stdpp Require Import base gmap sets list strings pretty.
From S2P Require Import Prelude Hashing Models World Storage.
#[local] Open Scope string_scope.
#[local] Open Scope list_scope.
#[local] Open Scope Z_scope.

(* src: services/destination_types.py 15 19 ReplicationResult *)
Record ReplicationResult := {
  rr_remote_path : string;
  rr_bytes_transferred : Z;
  rr_artifact_count : Z;
}.

(** [DeletedFtpRevisionResult] and [DeletedMountedRevisionResult]. *)
(* src: services/destination_mounted.py 32 40 DeletedMountedRevisionResult *)
Record DeletedRevisionResult := {
  dr_remote_path : string;
  dr_expected_file_count : Z;
  dr_deleted_file_count : Z;
  dr_missing_file_count : Z;
  dr_deleted_bytes : Z;
  dr_directory_removed : bool;
  dr_already_absent : bool;
}.

(** An entry of the issues of a reconciliation. *)
(* src: services/destination_mounted.py 294 305 reconcile_mounted_destination *)
Record ReconciliationIssue := {
  ri_replica_id : Z;
  ri_revision_id : Z;
  ri_revision_uuid : string;
  ri_device : string;
  ri_filename : string;
  ri_artifact_type : string;
  ri_problem : string;
}.

(** The dictionary the reconciliations return. *)
(* src: services/destination_mounted.py 232 248 reconcile_mounted_destination *)
Record ReconciliationSummary := {
  rs_success : bool;
  rs_safe_message : string;
  rs_checked_replicas : Z;
  rs_healthy_replicas : Z;
  rs_failed_replicas : Z;
  rs_skipped_replicas : Z;
  rs_checked_files : Z;
  rs_verified_bytes : Z;
  rs_missing_files : Z;
  rs_size_mismatches : Z;
  rs_hash_mismatches : Z;
  rs_unreadable_files : Z;
  rs_issues : list ReconciliationIssue;
  rs_issues_truncated : bool;
}.
#[export] Instance eta_ReconciliationSummary : Eta ReconciliationSummary := λ r,
  {| rs_success := rs_success r; rs_safe_message := rs_safe_message r;
     rs_checked_replicas := rs_checked_replicas r;
     rs_healthy_replicas := rs_healthy_replicas r; rs_failed_replicas := rs_failed_replicas r;
     rs_skipped_replicas := rs_skipped_replicas r; rs_checked_files := rs_checked_files r;
     rs_verified_bytes := rs_verified_bytes r; rs_missing_files := rs_missing_files r;
     rs_size_mismatches := rs_size_mismatches r; rs_hash_mismatches := rs_hash_mismatches r;
     rs_unreadable_files := rs_unreadable_files r;
     rs_issues := rs_issues r; rs_issues_truncated := rs_issues_truncated r |}.

(** One destination module.  Reconciliation is read-only. *)
Record Backend `{Externals} := {
  be_test : BackupDestination → DB → M remote unit;
  be_replicate : BackupDestination → ConfigRevision → option string → DB → files →
    M remote ReplicationResult;
  be_reconcile : BackupDestination → option (list RevisionReplica) → DB → remote →
    result ReconciliationSummary;
  be_delete : RevisionReplica → DB → M remote DeletedRevisionResult;
}.

(** [destination_ftp], [destination_mounted] and what is left of
    [destination_sftp] for installations that still have SFTP profiles. *)
Class Backends `{Externals} := {
  ftp_backend : Backend;
  mounted_backend : Backend;
  sftp_test : BackupDestination → DB → M remote unit;
  sftp_replicate : BackupDestination → ConfigRevision → DB → files → M remote ReplicationResult;
}.

(** ** Places *)

(** What of a destination says where its copies lie, besides the path: the
    columns that [BackupDestination.clean] freezes while copies exist, without
    the base path, which is part of every remote path. *)
Record Endpoint := {
  en_protocol : DestinationProtocol;
  en_host : string;
  en_port : option Z;
  en_mount_path : string;
  en_credential_profile : option Z;
}.

Definition endpoint (d : BackupDestination) : Endpoint :=
  {| en_protocol := ds_protocol d; en_host := ds_host d; en_port := ds_port d;
     en_mount_path := ds_mount_path d; en_credential_profile := ds_credential_profile d |}.

(** The place a replica row points to. *)
Definition replica_place {L} (place : Endpoint → string → L) (db : DB) (r : RevisionReplica) : option L :=
  (λ d, place (endpoint d) (rp_remote_path r)) <$> db_destinations db !! rp_destination r.

(** The contract of a backend for the protocols it [serves], over [copy_at r
    l]: there is a copy at the place [l].  An empty recorded path counts as
    none.  Nothing is said about which endpoints and paths share a place. *)
Record BackendLaws `{Externals} {L : Type} (serves : DestinationProtocol → bool)
    (place : Endpoint → string → L) (copy_at : remote → L → Prop) (b : Backend) : Prop := {
  replicate_path : ∀ d rv path db fs r res r',
    be_replicate b d rv path db fs r = (Ok res, r') →
    match path with Some p => p ≠ "" → rr_remote_path res = p | None => rr_remote_path res ≠ "" end;
  replicate_copy : ∀ d rv path db fs r res r', serves (ds_protocol d) = true →
    be_replicate b d rv path db fs r = (Ok res, r') →
    copy_at r' (place (endpoint d) (rr_remote_path res));
  replicate_other : ∀ d rv p db fs r x r' l, serves (ds_protocol d) = true → p ≠ "" →
    be_replicate b d rv (Some p) db fs r = (x, r') → l ≠ place (endpoint d) p →
    copy_at r' l ↔ copy_at r l;
  delete_copy : ∀ d rep db r res r', db_destinations db !! rp_destination rep = Some d →
    serves (ds_protocol d) = true → be_delete b rep db r = (Ok res, r') →
    ¬ copy_at r' (place (endpoint d) (rp_remote_path rep));
  delete_other : ∀ d rep db r x r' l, db_destinations db !! rp_destination rep = Some d →
    serves (ds_protocol d) = true → be_delete b rep db r = (x, r') →
    l ≠ place (endpoint d) (rp_remote_path rep) → copy_at r' l ↔ copy_at r l;
  delete_shrinks : ∀ d rep db r x r' l, db_destinations db !! rp_destination rep = Some d →
    serves (ds_protocol d) = true → be_delete b rep db r = (x, r') → copy_at r' l → copy_at r l;
}.

Definition serves_ftp (p : DestinationProtocol) : bool := bool_decide (p = DP_FTP).
Definition serves_mounted (p : DestinationProtocol) : bool := bool_decide (p ∈ [DP_NFS; DP_SMB]).

Class BackendsLaws `{Backends} := {
  location : Type;
  location_eq :: EqDecision location;
  place : Endpoint → string → location;
  copy_at : remote → location → Prop;
  ftp_laws : BackendLaws serves_ftp place copy_at ftp_backend;
  mounted_laws : BackendLaws serves_mounted place copy_at mounted_backend;
}.

(** A backend operation inside a service: it acts on [w_remote] only. *)
Definition on_remote `{Externals} {A} (m : M remote A) : M World A := λ w,
  let '(r, s) := m (w_remote w) in (r, w <| w_remote := s |>).

Lemma keeps_on_remote `{Externals} {A} (I : DB → Prop) (m : M remote A) :
  keeps (db_inv I) (on_remote m).
Proof. intros w r w'. unfold on_remote. destruct (m _) as [r' s]. by intros [= <- <-]. Qed.
#[export] Hint Resolve keeps_on_remote : keeps.

Section destination.
Context `{Externals} `{!Backends}.

(* src: services/destination.py 30 37 test_destination *)
Definition test_destination (d : BackupDestination) : M World unit :=
  db ← read id;
  match ds_protocol d with
  | DP_FTP => on_remote (be_test ftp_backend d db)
  | DP_NFS | DP_SMB => on_remote (be_test mounted_backend d db)
  | DP_SFTP => on_remote (sftp_test d db)
  | DP_LOCAL =>
      raise (DestinationError "PROTOCOL_UNSUPPORTED" "This storage type cannot be tested.")
  end.

(* src: services/destination.py 40 60 replicate_revision *)
Definition replicate_revision (d : BackupDestination) (rv : ConfigRevision)
    (recorded_remote_path : option string) : M World ReplicationResult :=
  db ← read id;
  fs ← gets w_files;
  match ds_protocol d with
  | DP_FTP => on_remote (be_replicate ftp_backend d rv recorded_remote_path db fs)
  | DP_NFS | DP_SMB => on_remote (be_replicate mounted_backend d rv recorded_remote_path db fs)
  | DP_SFTP => on_remote (sftp_replicate d rv db fs)
  | DP_LOCAL =>
      raise (DestinationError "PROTOCOL_UNSUPPORTED" "This storage type cannot receive replicas.")
  end.

(** With [replicas], the call of the backend's own function. *)
(* src: services/destination.py 63 71 reconcile_destination *)
Definition reconcile_destination (d : BackupDestination) : M World ReconciliationSummary :=
  db ← read id;
  r ← gets w_remote;
  match ds_protocol d with
  | DP_FTP => lift (be_reconcile ftp_backend d None db r)
  | DP_NFS | DP_SMB => lift (be_reconcile mounted_backend d None db r)
  | _ => raise (DestinationError "PROTOCOL_UNSUPPORTED"
           "Integrity reconciliation is not available for this storage type.")
  end.

(* src: services/replication.py 360 370 reconcile_destination_for_replicas *)
Definition reconcile_destination_for_replicas (d : BackupDestination)
    (replicas : list RevisionReplica) : M World ReconciliationSummary :=
  db ← read id;
  r ← gets w_remote;
  match ds_protocol d with
  | DP_FTP => lift (be_reconcile ftp_backend d (Some replicas) db r)
  | DP_NFS | DP_SMB => lift (be_reconcile mounted_backend d (Some replicas) db r)
  | _ => reconcile_destination d
  end.

(* src: services/destination.py 74 82 delete_revision_replica *)
Definition delete_revision_replica (d : BackupDestination) (replica : RevisionReplica)
    : M World DeletedRevisionResult :=
  db ← read id;
  match ds_protocol d with
  | DP_FTP => on_remote (be_delete ftp_backend replica db)
  | DP_NFS | DP_SMB => on_remote (be_delete mounted_backend replica db)
  | _ => raise (DestinationError "DELETE_PROTOCOL_UNSUPPORTED"
           "This storage type does not support managed revision deletion.")
  end.

(** ** Facts *)

(** A computation that touches the remote storages only. *)
Definition remote_only {A} (m : M World A) : Prop := ∀ w r w', m w = (r, w') →
  w' = w <| w_remote := w_remote w' |>.

Lemma remote_only_db {A} (m : M World A) w r w' : remote_only m → m w = (r, w') →
  w_db w' = w_db w ∧ w_files w' = w_files w ∧ w_hooks w' = w_hooks w ∧
  w_depth w' = w_depth w ∧ w_committed w' = w_committed w.
Proof. intros Hm Hw. rewrite (Hm _ _ _ Hw). done. Qed.

Lemma remote_only_keeps {A} (I : DB → Prop) (m : M World A) :
  remote_only m → keeps (db_inv I) m.
Proof.
  intros Hm w r w' Hw. destruct (remote_only_db m w r w' Hm Hw) as [Hd _].
  unfold db_inv. by rewrite Hd.
Qed.

Lemma replicate_revision_remote_only d rv path : remote_only (replicate_revision d rv path).
Proof.
  intros w r w'. unfold replicate_revision, on_remote, raise. rewrite read_bind_run, gets_bind_run.
  destruct (ds_protocol d); repeat case_match; intros [= <- <-]; destruct w; done.
Qed.

Lemma delete_revision_replica_remote_only d rep : remote_only (delete_revision_replica d rep).
Proof.
  intros w r w'. unfold delete_revision_replica, on_remote, raise. rewrite read_bind_run.
  destruct (ds_protocol d); repeat case_match; intros [= <- <-]; destruct w; done.
Qed.

Lemma reconcile_for_replicas_pure d reps w r w' :
  reconcile_destination_for_replicas d reps w = (r, w') → w' = w.
Proof.
  unfold reconcile_destination_for_replicas, reconcile_destination, lift, raise.
  rewrite read_bind_run, gets_bind_run.
  destruct (ds_protocol d); rewrite ?read_bind_run, ?gets_bind_run; congruence.
Qed.

Context `{!BackendsLaws}.

(** Copies at other places are left alone. *)
Lemma delete_revision_replica_run d rep w r w' :
  db_destinations (w_db w) !! rp_destination rep = Some d →
  delete_revision_replica d rep w = (r, w') →
  (∀ res, r = Ok res → ¬ copy_at (w_remote w') (place (endpoint d) (rp_remote_path rep))) ∧
  (∀ l, l ≠ place (endpoint d) (rp_remote_path rep) → copy_at (w_remote w') l ↔ copy_at (w_remote w) l) ∧
  (∀ l, copy_at (w_remote w') l → copy_at (w_remote w) l).
Proof.
  unfold delete_revision_replica, on_remote, raise. rewrite read_bind_run. unfold id. intros Hd Hw.
  destruct (ds_protocol d) eqn:Ep.
  3: destruct (be_delete ftp_backend rep (w_db w) (w_remote w)) as [x s] eqn:E.
  4, 5: destruct (be_delete mounted_backend rep (w_db w) (w_remote w)) as [x s] eqn:E.
  1, 2: by injection Hw as <- <-.
  all: injection Hw as <- <-; split_and!; [intros res ->|intros l Hl|intros l Hl].
  all: first [ eapply (delete_shrinks _ _ _ _ ftp_laws); by rewrite ?Ep
             | eapply (delete_shrinks _ _ _ _ mounted_laws); by rewrite ?Ep
             | eapply (delete_copy _ _ _ _ ftp_laws); by rewrite ?Ep
             | eapply (delete_copy _ _ _ _ mounted_laws); by rewrite ?Ep
             | eapply (delete_other _ _ _ _ ftp_laws); by rewrite ?Ep
             | eapply (delete_other _ _ _ _ mounted_laws); by rewrite ?Ep ].
Qed.

Lemma replicate_revision_run d rv p w r w' : p ≠ "" →
  is_replicated (ds_protocol d) = true → replicate_revision d rv (Some p) w = (r, w') →
  (∀ res, r = Ok res → rr_remote_path res = p ∧ copy_at (w_remote w') (place (endpoint d) p)) ∧
  (∀ l, l ≠ place (endpoint d) p → copy_at (w_remote w') l ↔ copy_at (w_remote w) l).
Proof.
  unfold replicate_revision, on_remote. rewrite read_bind_run, gets_bind_run. unfold id.
  intros Hne Hp Hw.
  assert (∀ b serves, BackendLaws serves place copy_at b → serves (ds_protocol d) = true →
    (let '(x, s) := be_replicate b d rv (Some p) (w_db w) (w_files w) (w_remote w) in
     (x, w <| w_remote := s |>)) = (r, w') →
    (∀ res, r = Ok res → rr_remote_path res = p ∧ copy_at (w_remote w') (place (endpoint d) p)) ∧
    (∀ l, l ≠ place (endpoint d) p → copy_at (w_remote w') l ↔ copy_at (w_remote w) l)) as Hb.
  { intros b serves Hlaws Hs. destruct (be_replicate _ _ _ _ _ _ _) as [x s] eqn:E. intros [= <- <-].
    split; [intros res ->|intros l Hl].
    - pose proof (replicate_path _ _ _ _ Hlaws _ _ _ _ _ _ _ _ E Hne) as Hpath.
      pose proof (replicate_copy _ _ _ _ Hlaws _ _ _ _ _ _ _ _ Hs E) as Hc. by rewrite Hpath in Hc.
    - exact (replicate_other _ _ _ _ Hlaws _ _ _ _ _ _ _ _ _ Hs Hne E Hl). }
  destruct (ds_protocol d) eqn:Ep; try discriminate Hp.
  - by apply (Hb _ _ ftp_laws).
  - by apply (Hb _ _ mounted_laws).
  - by apply (Hb _ _ mounted_laws).
Qed.
End destination.

(** Destinations in memory, for the examples: the set of the copies by host
    and path.  The base path "offline" fails every call. *)
Module MemoryDestination.
Import MemoryStorage.

Definition copies := gset (string * string).

Definition offline {A} (d : BackupDestination) (m : M copies A) : M copies A :=
  if bool_decide (ds_base_path d = "offline")
  then raise (DestinationError "DESTINATION_UNREACHABLE" "The destination is not reachable.")
  else m.

Definition memory_replicate (d : BackupDestination) (rv : ConfigRevision) (path : option string)
    (_ : DB) (_ : @files memory) : M copies ReplicationResult := offline d (
  let p := default "/revision" path in
  _ ← modify (λ c : copies, {[ (ds_host d, p) ]} ∪ c);
  mret {| rr_remote_path := p; rr_bytes_transferred := 1; rr_artifact_count := 1 |}).

Definition memory_reconcile (d : BackupDestination) (reps : option (list RevisionReplica))
    (_ : DB) (c : copies) : result ReconciliationSummary :=
  let missing := filter (λ r, (ds_host d, rp_remote_path r) ∉ c) (default [] reps) in
  let n := Z.of_nat (length missing) in
  Ok {| rs_success := n =? 0; rs_safe_message := "";
        rs_checked_replicas := Z.of_nat (length (default [] reps));
        rs_healthy_replicas := 0; rs_failed_replicas := n; rs_skipped_replicas := 0;
        rs_checked_files := 0; rs_verified_bytes := 0; rs_missing_files := n;
        rs_size_mismatches := 0; rs_hash_mismatches := 0; rs_unreadable_files := 0;
        rs_issues := []; rs_issues_truncated := false |}.

Definition memory_delete_copy (rep : RevisionReplica) (db : DB)
    : M copies DeletedRevisionResult :=
  d ← lift (require (DoesNotExist "BackupDestination") (db_destinations db !! rp_destination rep));
  _ ← modify (λ c : copies, c ∖ {[ (ds_host d, rp_remote_path rep) ]});
  mret {| dr_remote_path := rp_remote_path rep; dr_expected_file_count := 1;
          dr_deleted_file_count := 1; dr_missing_file_count := 0; dr_deleted_bytes := 1;
          dr_directory_removed := true; dr_already_absent := false |}.

Definition memory_backend : @Backend memory :=
  @Build_Backend memory (λ _ _, mret tt) memory_replicate memory_reconcile memory_delete_copy.

Definition memory_backends : @Backends memory :=
  @Build_Backends memory memory_backend memory_backend (λ _ _, mret tt)
    (λ d rv db fs, memory_replicate d rv None db fs).

Definition memory_place (e : Endpoint) (p : string) : string * string := (en_host e, p).
Definition memory_copy_at (c : copies) (l : string * string) : Prop := l ∈ c.

Lemma memory_backend_laws serves :
  @BackendLaws memory (string * string) serves memory_place memory_copy_at memory_backend.
Proof.
  split; unfold memory_copy_at, memory_place; simpl; unfold memory_replicate, memory_delete_copy, offline.
  - intros d rv path db fs r res r'. case_bool_decide; [done|]. intros [= <- <-]. by destruct path.
  - intros d rv path db fs r res r' _. case_bool_decide; [done|]. intros [= <- <-]. set_solver.
  - intros d rv p db fs r x r' l _ _. case_bool_decide; intros [= <- <-]; set_solver.
  - intros d rep db r res r' Hd _. rewrite Hd. intros [= <- <-]. simpl. set_solver.
  - intros d rep db r x r' l Hd _. rewrite Hd. intros [= <- <-]. simpl. set_solver.
  - intros d rep db r x r' l Hd _. rewrite Hd. intros [= <- <-]. simpl. set_solver.
Qed.

Definition memory_destination_laws : @BackendsLaws memory memory_backends :=
  @Build_BackendsLaws memory memory_backends (string * string) _ memory_place memory_copy_at
    (memory_backend_laws serves_ftp) (memory_backend_laws serves_mounted).

Definition ftp (pk : Z) (base_path : string) : BackupDestination :=
  {| ds_pk := pk; ds_is_default := false; ds_enabled := true; ds_auto_replicate := true;
     ds_integrity_audit_enabled := false; ds_integrity_audit_frequency := AF_DAILY;
     ds_integrity_audit_time := 0; ds_integrity_audit_weekday := 0;
     ds_next_integrity_audit_at := None; ds_last_integrity_audit_at := None;
     ds_last_integrity_audit_status := None; ds_last_integrity_audit_problem_count := 0;
     ds_protocol := DP_FTP; ds_allow_insecure_ftp := true; ds_host := pretty pk; ds_port := Some 21;
     ds_base_path := base_path; ds_mount_path := ""; ds_credential_profile := Some 8;
     ds_connect_timeout := Some 15; ds_max_retries := Some 1; ds_retry_delay_minutes := Some 10;
     ds_max_artifact_size := Some 1000; ds_local_retention_policy := None;
     ds_remote_retention_policy := None; ds_enforce_retention_policy := false;
     ds_host_key_type := ""; ds_host_key_public := ""; ds_host_key_fingerprint_sha256 := "";
     ds_last_success_at := None; ds_last_error_code := ""; ds_last_error_message := "" |}.
End MemoryDestination.
