(* ===== verification/Staging.v ===== *)
(** * Reversible file deletion: the quarantine the cleanup services share

    [services/retention_cleanup.py] and [services/revision_deletion.py] move
    the files they delete to a quarantine inside a transaction, put them back
    when the transaction fails, and purge them after it committed.  This file
    has the loops, written once for the services that write them alike, and
    what they do to the objects of any storage that keeps the contract. *)

From Stdlib Require Import ZArith Lia.
From stdpp Require Import base gmap sets list strings.
From S2P Require Import Prelude Hashing Calendar Models World Storage.
#[local] Open Scope string_scope.
#[local] Open Scope list_scope.
#[local] Open Scope Z_scope.

(** The local state of a service: the list [staged] of original and staged
    keys, which survives into the handlers. *)
Record SFrame `{Externals} := { sf_world : World; sf_staged : list (string * string) }.
#[export] Instance eta_SFrame `{Externals} : Eta SFrame := λ r,
  {| sf_world := sf_world r; sf_staged := sf_staged r |}.

Section staging.
Context `{Externals} `{!ConfigStorage}.

Definition in_service {A} (m : M World A) : M SFrame A := λ f,
  let '(r, w) := m (sf_world f) in (r, f <| sf_world := w |>).

(** [with transaction.atomic():] around code that also appends to [staged]. *)
Definition atomic_service {A} (m : M SFrame A) : M SFrame A := λ f,
  let '(r, f') := m (f <| sf_world ::= λ w, w <| w_depth := S (w_depth w) |> |>) in
  let '(r', w') := atomic (λ _, (r, sf_world f')) (sf_world f) in
  (r', f' <| sf_world := w' |>).

(* src: services/retention_cleanup.py 184 190 execute_retention_cleanup *)
Definition stage_artifacts (namespace : string) (artifacts : list ConfigArtifact)
    : M SFrame Z :=
  for_fold artifacts 0 (λ missing artifact,
    staged_key ← in_service (on_files (st_stage_delete (ar_storage_key artifact) namespace));
    match staged_key with
    | None => mret (missing + 1)
    | Some key =>
        _ ← modify (λ f, f <| sf_staged := sf_staged f ++ [(ar_storage_key artifact, key)] |>);
        mret missing
    end).

(** The result is [failed]. *)
(* src: services/retention_cleanup.py 264 271 _restore_staged *)
Definition restore_staged (staged : list (string * string)) : M World bool :=
  for_fold (reverse staged) false (λ failed keys,
    try_catch
      (_ ← on_files (st_restore_staged_delete keys.1 keys.2); mret failed)
      (λ e, match e with StorageError _ => mret true | e => raise e end)).

(** The result is [purge_failures]. *)
(* src: services/retention_cleanup.py 244 249 execute_retention_cleanup *)
Definition purge_staged (staged : list (string * string)) : M World Z :=
  for_fold staged 0 (λ failures keys,
    try_catch
      (_ ← on_files (st_purge_staged_delete keys.2); mret failures)
      (λ e, match e with StorageError _ => mret (failures + 1) | e => raise e end)).

(** ** What the loops do to the objects *)
Context `{HS : !ConfigStorageLaws}.

Abbreviation objects_of := (λ w : World, object (w_files w)).

(** [o'] is [o] with the objects of [staged] moved, in order. *)
Inductive moved : list (string * string) → (loc → option bytes) → (loc → option bytes) → Prop :=
  | moved_nil o o' : (∀ l, o' l = o l) → moved [] o o'
  | moved_snoc staged k k' l l' o o1 o' :
      moved staged o o1 → loc_of k = Some l → loc_of k' = Some l' → l ≠ l' →
      is_Some (o1 l) → o1 l' = None → o' l = None → o' l' = o1 l →
      (∀ j, j ≠ l → j ≠ l' → o' j = o1 j) →
      moved (staged ++ [(k, k')]) o o'.

Lemma moved_ext staged o o1 o2 : moved staged o o1 → (∀ l, o2 l = o1 l) → moved staged o o2.
Proof.
  intros Hm He. destruct Hm as [o o' Ho|staged k k' l l' o oa o' Hm Hl Hl' Hne H1 H2 H3 H4 H5].
  - constructor. intros l. by rewrite He, Ho.
  - eapply moved_snoc; [exact Hm|exact Hl|exact Hl'|done|done|done|by rewrite He|by rewrite He|].
    intros j Hj Hj'. by rewrite He, H5.
Qed.

(** Objects that are not staged stay where they are. *)
Lemma moved_keeps staged o o' l :
  moved staged o o' → is_Some (o l) → (∀ k, k ∈ staged.*1 → loc_of k ≠ Some l) →
  o' l = o l ∧ ∀ k, k ∈ staged.*2 → loc_of k ≠ Some l.
Proof.
  induction 1 as [o o' Ho|staged k k' l0 l' o o1 o' Hm IH Hl Hl' Hne H1 H2 H3 H4 H5]; intros Hs Hk.
  - split; [done|]. by intros k ?%elem_of_nil.
  - rewrite fmap_app in Hk. destruct IH as [IH1 IH2]; [done| |].
    { intros x Hx. apply Hk, elem_of_app. by left. }
    assert (l ≠ l0) as Hl0.
    { intros ->. apply (Hk k); [|done]. apply elem_of_app. right. by left. }
    assert (l ≠ l') as Hl1.
    { intros ->. rewrite IH1 in H2. rewrite H2 in Hs. by destruct Hs. }
    split; [by rewrite H5|]. intros x. rewrite fmap_app, elem_of_app.
    intros [Hx|Hx]; [by apply IH2|]. apply elem_of_cons in Hx as [->|Hx]; [simpl; congruence|].
    by apply elem_of_nil in Hx.
Qed.

Lemma moved_located staged o o' k k' :
  moved staged o o' → (k, k') ∈ staged → is_Some (loc_of k) ∧ is_Some (loc_of k').
Proof.
  induction 1 as [|staged x x' l l' o o1 o' Hm IH Hl Hl' Hne H1 H2 H3 H4 H5].
  - by intros ?%elem_of_nil.
  - intros [?|Hx]%elem_of_app; [auto|].
    apply elem_of_cons in Hx as [[= -> ->]|Hx]; [eauto|by apply elem_of_nil in Hx].
Qed.

Lemma stage_artifacts_run namespace artifacts : ∀ n f r f' o,
  for_fold artifacts n (λ missing artifact,
    staged_key ← in_service (on_files (st_stage_delete (ar_storage_key artifact) namespace));
    match staged_key with
    | None => mret (missing + 1)
    | Some key =>
        _ ← modify (λ f, f <| sf_staged := sf_staged f ++ [(ar_storage_key artifact, key)] |>);
        mret missing
    end) f = (r, f') →
  storage_ok (w_files (sf_world f)) → moved (sf_staged f) o (objects_of (sf_world f)) →
  w_db (sf_world f') = w_db (sf_world f) ∧ storage_ok (w_files (sf_world f')) ∧
  moved (sf_staged f') o (objects_of (sf_world f')) ∧
  ∃ staged, sf_staged f' = sf_staged f ++ staged ∧
    (∀ k, k ∈ staged.*1 → k ∈ map ar_storage_key artifacts) ∧
    ∀ m, r = Ok m → n <= m ∧
      m + Z.of_nat (length staged) = n + Z.of_nat (length artifacts).
Proof.
  induction artifacts as [|a artifacts IH]; intros n f r f' o Hm Hok Hmv; simpl in Hm.
  { injection Hm as <- <-. split_and!; try done. exists []. rewrite app_nil_r.
    split_and!; [done|by intros k ?%elem_of_nil|]. intros m [= <-]. simpl. lia. }
  rewrite !M_bind_run in Hm. unfold in_service at 1, on_files at 1 in Hm.
  destruct (st_stage_delete _ _ (w_files (sf_world f))) as [[[key|]|e] s'] eqn:E.
  - apply stage_Some in E as (Hok' & l & l' & c & Hl & Hl' & Hne & H1 & H2 & H3 & H4 & H5);
      [|done]. simpl in Hm.
    apply (IH _ _ _ _ o) in Hm as (Hdb & Hok'' & Hmv' & staged & Hs & Hk & Hc); [|done|].
    + split_and!; [done|done|done|]. simpl in Hs.
      exists ((ar_storage_key a, key) :: staged). rewrite Hs, <-app_assoc. split_and!; [done| |].
      * intros k. simpl. intros [->|Hx]%elem_of_cons; [by left|right; by apply Hk].
      * intros m Hr. specialize (Hc m Hr). simpl length. lia.
    + simpl. eapply moved_snoc; [exact Hmv|exact Hl|exact Hl'|done|by rewrite H1|done|done| |done].
      by rewrite H4, H1.
  - apply stage_None in E as (Hok' & Hobj & _); [|done]. simpl in Hm.
    apply (IH _ _ _ _ o) in Hm as (Hdb & Hok'' & Hmv' & staged & Hs & Hk & Hc); [|done|].
    + split_and!; [done|done|done|]. exists staged. split_and!; [done| |].
      * intros k Hx. right. by apply Hk.
      * intros m Hr. specialize (Hc m Hr). simpl length. lia.
    + simpl. by eapply moved_ext.
  - apply stage_Err in E as [Hok' Hobj]; [|done]. simpl in Hm. injection Hm as <- <-.
    split_and!; [done|done|by eapply moved_ext|]. exists []. rewrite app_nil_r.
    split_and!; [done|by intros k ?%elem_of_nil|done].
Qed.

(** The places a deletion under a namespace moves files to. *)
Definition quarantine_at (namespace : string) (l : loc) : Prop :=
  ∃ k s k' s', storage_ok s ∧ st_stage_delete k namespace s = (Ok (Some k'), s') ∧
    loc_of k' = Some l.

Definition artifact_loc (a : ConfigArtifact) : option loc := loc_of (ar_storage_key a).

Definition file_absent (s : files) (a : ConfigArtifact) : bool :=
  match artifact_loc a with
  | Some l => match object s l with Some _ => false | None => true end
  | None => true
  end.

Lemma file_absent_same s s' (artifacts : list ConfigArtifact) :
  (∀ a l, a ∈ artifacts → artifact_loc a = Some l → object s' l = object s l) →
  filter (λ a, file_absent s' a = true) artifacts = filter (λ a, file_absent s a = true) artifacts.
Proof.
  induction artifacts as [|a artifacts IH]; intros Hs; [done|].
  assert (file_absent s' a = file_absent s a) as Ha.
  { unfold file_absent. destruct (artifact_loc a) as [l|] eqn:E; [|done].
    rewrite (Hs a l); [done|by left|done]. }
  rewrite !filter_cons, Ha. case_decide; [f_equal|]; apply IH; intros b l Hb; apply Hs; by right.
Qed.

(** What is counted as missing: the files that were not there. *)
Lemma stage_artifacts_missing namespace artifacts : ∀ n f m f',
  for_fold artifacts n (λ missing artifact,
    staged_key ← in_service (on_files (st_stage_delete (ar_storage_key artifact) namespace));
    match staged_key with
    | None => mret (missing + 1)
    | Some key =>
        _ ← modify (λ f, f <| sf_staged := sf_staged f ++ [(ar_storage_key artifact, key)] |>);
        mret missing
    end) f = (Ok m, f') →
  storage_ok (w_files (sf_world f)) → NoDup (map artifact_loc artifacts) →
  (∀ a l, a ∈ artifacts → artifact_loc a = Some l → ¬ quarantine_at namespace l) →
  m = n + Z.of_nat (length (filter (λ a, file_absent (w_files (sf_world f)) a = true) artifacts)).
Proof.
  induction artifacts as [|a artifacts IH]; intros n f m f' Hm Hok Hnd Hq; simpl in Hm.
  { injection Hm as <- _. simpl. lia. }
  apply NoDup_cons in Hnd as [Hnin Hnd].
  assert (∀ b l, b ∈ artifacts → artifact_loc b = Some l → ¬ quarantine_at namespace l) as Hq'
    by (intros b l Hb; apply Hq; by right).
  rewrite !M_bind_run in Hm. unfold in_service at 1, on_files at 1 in Hm.
  destruct (st_stage_delete _ _ (w_files (sf_world f))) as [[[key|]|e] s'] eqn:E; [| |done].
  - pose proof E as E0.
    apply stage_Some in E as (Hok' & l & l' & c & Hl & Hl' & Hne & H1 & H2 & H3 & H4 & H5); [|done].
    apply IH in Hm; [|done..]. simpl in Hm. rewrite Hm. clear Hm. f_equal.
    rewrite filter_cons_False.
    + rewrite (file_absent_same (w_files (sf_world f))); [done|]. intros b j Hb Hj. apply H5.
      * intros ->. apply Hnin, list_elem_of_fmap. exists b. unfold artifact_loc in *. split; [congruence|done].
      * intros ->. apply (Hq' b l' Hb Hj). by exists (ar_storage_key a), (w_files (sf_world f)), key, s'.
    + unfold file_absent, artifact_loc. by rewrite Hl, H1.
  - apply stage_None in E as (Hok' & Hobj & l & Hl & Habs); [|done].
    apply IH in Hm; [|done..]. simpl in Hm. rewrite Hm. clear Hm.
    rewrite filter_cons_True.
    + simpl length. rewrite (file_absent_same (w_files (sf_world f)) s' artifacts) by auto. lia.
    + unfold file_absent, artifact_loc. by rewrite Hl, Habs.
Qed.

(** Moving files does not reach the remote storages. *)
Lemma stage_artifacts_remote namespace artifacts n f r f' :
  for_fold artifacts n (λ missing artifact,
    staged_key ← in_service (on_files (st_stage_delete (ar_storage_key artifact) namespace));
    match staged_key with
    | None => mret (missing + 1)
    | Some key =>
        _ ← modify (λ f, f <| sf_staged := sf_staged f ++ [(ar_storage_key artifact, key)] |>);
        mret missing
    end) f = (r, f') → w_remote (sf_world f') = w_remote (sf_world f).
Proof.
  intros Hm. refine (keeps_for_fold (λ f', w_remote (sf_world f') = w_remote (sf_world f)) _ _ _ _
    _ _ _ Hm eq_refl). clear. intros missing artifact. apply keeps_bind.
  - intros g x g' Hg. unfold in_service, on_files in Hg.
    destruct (st_stage_delete _ _ _) as [y s]. by injection Hg as <- <-.
  - intros [key|]; [|apply keeps_ret]. apply keeps_bind; [|intros; apply keeps_ret].
    by apply keeps_modify.
Qed.

Lemma on_files_remote {A} R (m : M files A) : keeps (λ w, w_remote w = R) (on_files m).
Proof. intros w r w' Hm. unfold on_files in Hm. destruct (m _) as [y s]. by injection Hm as <- <-. Qed.

Lemma restore_staged_remote R staged : keeps (λ w, w_remote w = R) (restore_staged staged).
Proof.
  apply keeps_for_fold. intros failed keys. apply keeps_try.
  - apply keeps_bind; [apply on_files_remote|intros; apply keeps_ret].
  - intros e. case_match; auto with keeps.
Qed.

Lemma purge_staged_remote R staged : keeps (λ w, w_remote w = R) (purge_staged staged).
Proof.
  apply keeps_for_fold. intros failed keys. apply keeps_try.
  - apply keeps_bind; [apply on_files_remote|intros; apply keeps_ret].
  - intros e. case_match; auto with keeps.
Qed.

Definition located (staged : list (string * string)) : Prop :=
  ∀ k k', (k, k') ∈ staged → is_Some (loc_of k) ∧ is_Some (loc_of k').

Lemma located_app s1 s2 : located (s1 ++ s2) ↔ located s1 ∧ located s2.
Proof.
  unfold located. split.
  - intros Hl. split; intros k k' Hk; apply Hl, elem_of_app; auto.
  - intros [H1 H2] k k' [Hk|Hk]%elem_of_app; auto.
Qed.

Lemma restore_staged_run staged : ∀ failed w,
  storage_ok (w_files w) → located staged →
  ∃ b w', for_fold (reverse staged) failed (λ failed keys,
      try_catch
        (_ ← on_files (st_restore_staged_delete keys.1 keys.2); mret failed)
        (λ e, match e with StorageError _ => mret true | e => raise e end)) w = (Ok b, w') ∧
    w_db w' = w_db w ∧ storage_ok (w_files w') ∧ (failed = true → b = true) ∧
    ∀ o, moved staged o (objects_of w) → b = false → ∀ l, object (w_files w') l = o l.
Proof.
  induction staged as [|[k k'] staged IH] using rev_ind; intros failed w Hok Hloc.
  { exists failed, w. split_and!; try done. intros o Hm _ l.
    inversion Hm as [? ? Ho|? ? ? ? ? ? ? ? ? ? ? ? ? ? ? ? ? Hnil]; [apply Ho|].
    by destruct staged. }
  apply located_app in Hloc as [Hloc Hlast].
  destruct (Hlast k k' ltac:(by left)) as [Hk Hk'].
  rewrite reverse_app. simpl. rewrite M_bind_run. unfold try_catch at 1. rewrite M_bind_run.
  unfold on_files at 1.
  destruct (st_restore_staged_delete k k' (w_files w)) as [[[]|e] s'] eqn:E.
  - apply restore_Ok in E as (Hok' & l & l' & c & Hl & Hl' & Hne & R1 & R2 & R3 & R4 & R5); [|done].
    pose (w1 := w <| w_files := s' |>). destruct (IH failed w1 Hok' Hloc) as (b & w2 & Hrun & Hd & Hok2 & Hb & Hmv).
    exists b, w2. split_and!; [exact Hrun|done|done|done|].
    intros o Hm Hbf. apply (Hmv o); [|done].
    inversion Hm as [? ? Ho Heq|staged0 x x' m m' ? o1 ? Hm0 Hx Hx' Hne0 H1 H2 H3 H4 H5 Heq];
      [by destruct staged|].
    apply app_inj_tail in Heq as [-> [= -> ->]]. subst.
    rewrite Hl in Hx. rewrite Hl' in Hx'. injection Hx as <-. injection Hx' as <-.
    eapply moved_ext; [exact Hm0|]. intros j. simpl.
    destruct (decide (j = l)) as [->|Hj]; [by rewrite R4, <-R1|].
    destruct (decide (j = l')) as [->|Hj']; [by rewrite R3|].
    by rewrite R5, H5.
  - pose proof (restore_raises _ _ _ _ _ Hok Hk Hk' E) as He.
    apply restore_Err in E as [Hok' Hobj]; [|done]. destruct e; try discriminate He.
    pose (w1 := w <| w_files := s' |>). destruct (IH true w1 Hok' Hloc) as (b & w2 & Hrun & Hd & Hok2 & Hb & _).
    exists b, w2. split_and!; [exact Hrun|done|done|auto|].
    intros o _ Hbf. by rewrite Hb in Hbf.
Qed.

Lemma purge_staged_run staged : ∀ n w,
  storage_ok (w_files w) → located staged →
  ∃ m w', for_fold staged n (λ failures keys,
      try_catch
        (_ ← on_files (st_purge_staged_delete keys.2); mret failures)
        (λ e, match e with StorageError _ => mret (failures + 1) | e => raise e end)) w
      = (Ok m, w') ∧
    w_db w' = w_db w ∧ storage_ok (w_files w') ∧ n <= m ∧
    (∀ l, (∀ k, k ∈ staged.*2 → loc_of k ≠ Some l) →
       object (w_files w') l = object (w_files w) l) ∧
    (∀ l, object (w_files w) l = None → object (w_files w') l = None) ∧
    (m = n → ∀ k l, k ∈ staged.*2 → loc_of k = Some l → object (w_files w') l = None).
Proof.
  induction staged as [|[k k'] staged IH]; intros n w Hok Hloc.
  { exists n, w. split_and!; try done; try lia. by intros _ k l ?%elem_of_nil. }
  destruct (Hloc k k' ltac:(by left)) as [_ Hk'].
  assert (located staged) as Hloc' by (intros x x' Hx; apply Hloc; by right).
  simpl. rewrite M_bind_run. unfold try_catch at 1. rewrite M_bind_run. unfold on_files at 1.
  destruct (st_purge_staged_delete k' (w_files w)) as [[[]|e] s'] eqn:E.
  - apply purge_Ok in E as (Hok' & l0 & Hl0 & P1 & P2); [|done].
    pose (w1 := w <| w_files := s' |>). destruct (IH n w1 Hok' Hloc')
      as (m & w2 & Hrun & Hd & Hok2 & Hn & Ho & Hnone & Hgone).
    assert (∀ l, object (w_files w) l = None → object s' l = None) as Hs'.
    { intros l Hl. destruct (decide (l = l0)) as [->|Hne]; [done|by rewrite P2]. }
    exists m, w2. split_and!; [exact Hrun|done|done|done| | |].
    + intros l Hl. rewrite Ho by (intros x Hx; apply Hl; by right). simpl. apply P2.
      intros ->. apply (Hl k'); [by left|done].
    + intros l Hl. by apply Hnone, Hs'.
    + intros Hm x l [->|Hx]%elem_of_cons Hl; [|by apply (Hgone Hm x)].
      apply Hnone. simpl. congruence.
  - pose proof (purge_raises _ _ _ _ Hok Hk' E) as He.
    apply purge_Err in E as [Hok' Hobj]; [|done]. destruct e; try discriminate He.
    pose (w1 := w <| w_files := s' |>). destruct (IH (n + 1) w1 Hok' Hloc')
      as (m & w2 & Hrun & Hd & Hok2 & Hn & Ho & Hnone & Hgone).
    exists m, w2. split_and!; [exact Hrun|done|done|lia| | |lia].
    + intros l Hl. rewrite Ho by (intros x Hx; apply Hl; by right). simpl. by rewrite Hobj.
    + intros l Hl. apply Hnone. simpl. by rewrite Hobj.
Qed.

(** ** The shape of a service *)

(** [try: with transaction.atomic(): body; except Exception as exc: restore
    and raise what [wrap] says; then purge]. *)
(* src: services/retention_cleanup.py 68 261 execute_retention_cleanup *)
Definition with_quarantine {A} (body : M SFrame A) (wrap : bool → exn → exn)
    (finish : A → Z → A) : M World A := λ w,
  match atomic_service body {| sf_world := w; sf_staged := [] |} with
  | (Ok summary, f) =>
      (purge_failures ← purge_staged (sf_staged f);
       mret (finish summary purge_failures)) (sf_world f)
  | (Err e, f) =>
      (failed ← restore_staged (sf_staged f); raise (wrap failed e)) (sf_world f)
  end.

(** The body touches the files by staging only. *)
Definition only_stages {A} (body : M SFrame A) (w : World) : Prop :=
  ∀ w0 r f, w_db w0 = w_db w → w_files w0 = w_files w →
    body {| sf_world := w0; sf_staged := [] |} = (r, f) →
    storage_ok (w_files (sf_world f)) ∧
    moved (sf_staged f) (objects_of w) (objects_of (sf_world f)).

Lemma atomic_const {A} (r : result A) w1 w :
  ∃ w', atomic (λ _, (r, w1)) w = (r, w') ∧ w_files w' = w_files w1 ∧
    (w_db w' = if is_ok r then w_db w1 else w_db w) ∧ w_remote w' = w_remote w1.
Proof.
  unfold atomic. destruct r; [|by eexists]. eexists. split; [done|]. by destruct (w_depth w).
Qed.

(** Whatever the storage does, the database follows the body alone. *)
Definition sf_inv (I : DB → Prop) (f : SFrame) : Prop := I (w_db (sf_world f)).

Lemma keeps_in_service {A} I (m : M World A) : keeps (db_inv I) m → keeps (sf_inv I) (in_service m).
Proof.
  intros Hm f r f' Hf HI. unfold in_service in Hf. destruct (m (sf_world f)) as [x w] eqn:E.
  injection Hf as <- <-. exact (Hm _ _ _ E HI).
Qed.

Lemma keeps_stage_artifacts I namespace artifacts :
  keeps (sf_inv I) (stage_artifacts namespace artifacts).
Proof.
  apply keeps_for_fold. intros missing artifact. apply keeps_bind.
  - apply keeps_in_service, keeps_on_files.
  - intros [key|]; [|apply keeps_ret]. apply keeps_bind; [by apply keeps_modify|].
    intros; apply keeps_ret.
Qed.

Lemma keeps_restore_staged I staged : keeps (db_inv I) (restore_staged staged).
Proof.
  apply keeps_for_fold. intros failed keys. apply keeps_try.
  - apply keeps_bind; [apply keeps_on_files|intros; apply keeps_ret].
  - intros e. case_match; auto with keeps.
Qed.

Lemma keeps_purge_staged I staged : keeps (db_inv I) (purge_staged staged).
Proof.
  apply keeps_for_fold. intros failed keys. apply keeps_try.
  - apply keeps_bind; [apply keeps_on_files|intros; apply keeps_ret].
  - intros e. case_match; auto with keeps.
Qed.

(** The rows at the end are those before, or those the body left. *)
Lemma with_quarantine_db {A} (body : M SFrame A) wrap finish w r w' :
  with_quarantine body wrap finish w = (r, w') →
  w_db w' = w_db w ∨ ∃ w0 summary f, w_db w0 = w_db w ∧
    body {| sf_world := w0; sf_staged := [] |} = (Ok summary, f) ∧ w_db w' = w_db (sf_world f).
Proof.
  unfold with_quarantine, atomic_service.
  set (w0 := w <| w_depth := S (w_depth w) |>).
  change ({| sf_world := w; sf_staged := [] |} <| sf_world ::= λ w, w <| w_depth := S (w_depth w) |> |>)
    with ({| sf_world := w0; sf_staged := [] |}).
  destruct (body {| sf_world := w0; sf_staged := [] |}) as [rb f] eqn:Eb. simpl sf_world.
  destruct (atomic_const rb (sf_world f) w) as (w1 & Ea & _ & Hd1 & _). rewrite Ea.
  destruct rb as [summary|e]; simpl; rewrite M_bind_run.
  - destruct (purge_staged (sf_staged f) w1) as [y w2] eqn:E.
    pose proof (keeps_purge_staged (λ db, db = w_db w1) _ _ _ _ E eq_refl) as Hd2.
    intros Hm. right. exists w0, summary, f. split_and!; [done..|].
    assert (w' = w2) as -> by (destruct y; by injection Hm). etrans; [exact Hd2|exact Hd1].
  - destruct (restore_staged (sf_staged f) w1) as [y w2] eqn:E.
    pose proof (keeps_restore_staged (λ db, db = w_db w1) _ _ _ _ E eq_refl) as Hd2.
    intros Hm. left. assert (w' = w2) as -> by (destruct y; by injection Hm).
    etrans; [exact Hd2|exact Hd1].
Qed.

Lemma keeps_with_quarantine {A} I (body : M SFrame A) wrap finish :
  keeps (sf_inv I) body → keeps (db_inv I) (with_quarantine body wrap finish).
Proof.
  intros Hb w r w' Hm HI. unfold db_inv in *.
  apply with_quarantine_db in Hm as [->|(w0 & s & f & Hd & Hf & ->)]; [done|].
  apply (Hb _ _ _ Hf). unfold sf_inv. simpl. by rewrite Hd.
Qed.

Lemma with_quarantine_run {A} (body : M SFrame A) wrap finish w r w' :
  storage_ok (w_files w) → only_stages body w → with_quarantine body wrap finish w = (r, w') →
  storage_ok (w_files w') ∧
  match r with
  | Err e => w_db w' = w_db w ∧ ∃ failed e0, e = wrap failed e0 ∧
      (failed = false → ∀ l, object (w_files w') l = object (w_files w) l) ∧
      ∃ w0 f, w_db w0 = w_db w ∧ w_files w0 = w_files w ∧ w_remote w0 = w_remote w ∧
        body {| sf_world := w0; sf_staged := [] |} = (Err e0, f) ∧
        w_remote w' = w_remote (sf_world f)
  | Ok res => ∃ w0 summary f failures, res = finish summary failures ∧ w_db w0 = w_db w ∧
      w_files w0 = w_files w ∧
      body {| sf_world := w0; sf_staged := [] |} = (Ok summary, f) ∧
      w_db w' = w_db (sf_world f) ∧
      (∀ l, is_Some (object (w_files w) l) → (∀ k, k ∈ (sf_staged f).*1 → loc_of k ≠ Some l) →
         object (w_files w') l = object (w_files w) l) ∧
      w_remote w0 = w_remote w ∧ w_remote w' = w_remote (sf_world f)
  end.
Proof.
  intros Hok Hbody Hm. unfold with_quarantine, atomic_service in Hm.
  set (w0 := w <| w_depth := S (w_depth w) |>).
  assert (w_db w0 = w_db w ∧ w_files w0 = w_files w) as [Hd0 Hf0] by done.
  change ({| sf_world := w; sf_staged := [] |} <| sf_world ::= λ w, w <| w_depth := S (w_depth w) |> |>)
    with ({| sf_world := w0; sf_staged := [] |}) in Hm.
  destruct (body {| sf_world := w0; sf_staged := [] |}) as [rb f] eqn:Eb.
  destruct (Hbody w0 rb f Hd0 Hf0 Eb) as [Hokf Hmv].
  assert (located (sf_staged f)) as Hloc by (intros k k' Hk; by eapply moved_located).
  simpl sf_world in Hm. destruct (atomic_const rb (sf_world f) w) as (w1 & Ea & Hf1 & Hd1 & Hr1).
  rewrite Ea in Hm. rewrite <-Hf1 in Hokf.
  assert (moved (sf_staged f) (objects_of w) (objects_of w1)) as Hmv1 by by rewrite Hf1.
  destruct rb as [summary|e]; simpl in Hm, Hd1; rewrite M_bind_run in Hm.
  - destruct (purge_staged_run (sf_staged f) 0 w1 Hokf Hloc)
      as (m & w2 & Hrun & Hd & Hok2 & _ & Ho & _).
    pose proof (purge_staged_remote (w_remote w1) _ _ _ _ Hrun eq_refl) as Hr2. cbv beta in Hr2.
    unfold purge_staged in Hm. rewrite Hrun in Hm. injection Hm as <- <-.
    split; [done|]. exists w0, summary, f, m. split_and!; try done; [by rewrite Hd| |by rewrite Hr2].
    intros l Hl Hk. destruct (moved_keeps _ _ _ _ Hmv1 Hl Hk) as [Hl1 Hl2].
    by rewrite Ho, Hl1.
  - destruct (restore_staged_run (sf_staged f) false w1 Hokf Hloc)
      as (b & w2 & Hrun & Hd & Hok2 & _ & Hback).
    pose proof (restore_staged_remote (w_remote w1) _ _ _ _ Hrun eq_refl) as Hr2. cbv beta in Hr2.
    unfold restore_staged in Hm. rewrite Hrun in Hm. injection Hm as <- <-.
    split; [done|]. split; [by rewrite Hd|]. exists b, e. split_and!; [done| |].
    + intros Hb. by apply (Hback (objects_of w)).
    + exists w0, f. split_and!; try done. by rewrite Hr2.
Qed.
End staging.
