(* ===== verification/Repository.v ===== *)
(** * The backup repository: [services/repository.py], [services/django_repository.py]

    The only writer of run results.  Every operation is one transaction; a
    save checks the two partial unique constraints of [BackupRun]. *)

From Stdlib Require Import ZArith Lia Strings.Ascii.
From stdpp Require Import base gmap sets list strings sorting pretty.
From S2P Require Import Prelude Json Strings Calendar Zones Models World DriverSelection Events.
From S2P Require Import Scheduling Health.
#[local] Open Scope string_scope.
#[local] Open Scope list_scope.
#[local] Open Scope Z_scope.

(** ** Data *)

(* src: drivers/base.py 21 31 ConnectionParameters *)
Record ConnectionParameters := {
  cn_protocol : ConnectionProtocol;
  cn_port : Z;
  cn_connect_timeout : Z;
  cn_command_timeout : Z;
  cn_keepalive : Z;
  cn_verify_host_key : bool;
  cn_auto_trust_first_host_key : bool;
  cn_known_hosts_path : string;
  cn_trusted_host_keys : list string;
}.

(* src: drivers/base.py 34 51 ReceiverParameters *)
Record ReceiverParameters := {
  rc_profile_id : Z;
  rc_mode : ReceiverMode;
  rc_advertised_host : string;
  rc_advertised_port : Z;
  rc_bridge_host : string;
  rc_bridge_port : Z;
  rc_remote_bind_host : string;
  rc_remote_bind_port : Z;
  rc_upload_directory : string;
  rc_inbox_path : list string;
  rc_protocol : ReceiverProtocol;
  rc_export_timeout : Z;
  rc_max_upload_bytes : Z;
  rc_passive_port_start : Z;
  rc_passive_port_end : Z;
}.

(* src: services/repository.py 12 27 ExecutionContext *)
Record ExecutionContext := {
  ec_run_id : option Z;
  ec_target_id : Z;
  ec_device_id : Z;
  ec_device_name : string;
  ec_driver_id : string;
  ec_address : option string;
  ec_connection : ConnectionParameters;
  ec_driver_options : gmap string json;
  ec_store_mode : StoreMode;
  ec_secret_provider_id : option string;
  ec_secret_reference : option string;
  ec_receiver : option ReceiverParameters;
  ec_receiver_secret_provider_id : option string;
  ec_receiver_secret_reference : option string;
}.
#[export] Instance eta_ExecutionContext : Eta ExecutionContext := λ r,
  {| ec_run_id := ec_run_id r; ec_target_id := ec_target_id r;
     ec_device_id := ec_device_id r; ec_device_name := ec_device_name r;
     ec_driver_id := ec_driver_id r; ec_address := ec_address r;
     ec_connection := ec_connection r; ec_driver_options := ec_driver_options r;
     ec_store_mode := ec_store_mode r; ec_secret_provider_id := ec_secret_provider_id r;
     ec_secret_reference := ec_secret_reference r; ec_receiver := ec_receiver r;
     ec_receiver_secret_provider_id := ec_receiver_secret_provider_id r;
     ec_receiver_secret_reference := ec_receiver_secret_reference r |}.

(* src: services/repository.py 30 34 RevisionSnapshot *)
Record RevisionSnapshot := {
  sn_revision_id : Z;
  sn_normalized_hash : string;
  sn_primary_raw_hash : string;
}.

(* src: services/repository.py 37 45 StoredArtifactRecord *)
Record StoredArtifactRecord := {
  sr_artifact_type : string;
  sr_format : string;
  sr_storage_key : string;
  sr_size : Z;
  sr_raw_hash : string;
  sr_normalized_hash : string;
  sr_is_primary : bool;
}.

(** ** Constraints *)

(* src: choices.py 131 133 RunStatusChoices *)
Definition run_is_active (r : BackupRun) : bool :=
  bool_decide (run_status r ∈ [RS_QUEUED; RS_RUNNING]).

(* src: models.py 1354 1365 BackupRun *)
Definition run_conflict (r other : BackupRun) : bool :=
  negb (run_pk other =? run_pk r) && (run_target other =? run_target r)
  && (run_is_active r && run_is_active other
      || match run_dedupe_key r, run_dedupe_key other with
         | Some a, Some b => bool_decide (a = b)
         | _, _ => false
         end).

Section repository.
Context `{Externals} (plugin_settings : PluginSettings).
Context (zoneinfo : string → result tzdata) (TIME_ZONE : string).

(** [run.save()] under the unique constraints. *)
Definition save_run (r : BackupRun) : M World unit := λ w,
  if existsb (run_conflict r) (rows (db_runs (w_db w)))
  then (Err IntegrityError, w)
  else (Ok tt, w <| w_db := put_run r (w_db w) |>).

(** ** The execution context *)

(* src: services/django_repository.py 156 164 DjangoBackupRepository._select_address *)
Definition select_address (device : Device) (connection : option ConnectionProfile)
    : option string :=
  let candidates :=
    match (match connection with
           | Some c => cp_address_preference c
           | None => AP_PRIMARY4_FIRST end) with
    | AP_OOB_FIRST => [dv_oob_ip device; dv_primary_ip4 device; dv_primary_ip6 device]
    | AP_PRIMARY4_FIRST => [dv_primary_ip4 device; dv_primary_ip6 device; dv_oob_ip device]
    | AP_PRIMARY6_FIRST => [dv_primary_ip6 device; dv_primary_ip4 device; dv_oob_ip device]
    end in
  head (omap id candidates).

(** The first row of a related table: [target.x or mapping.x]. *)
Definition or_else {A} (a b : option A) : option A :=
  match a with Some x => Some x | None => b end.
Definition row {A} (table : gmap Z A) (key : option Z) : option A := k ← key; table !! k.

(* src: models.py 1168 1171 SSHHostKey.known_hosts_line *)
Definition known_hosts_line (host : string) (port : Z) (key_type public_key : string) : string :=
  (if port =? 22 then host else "[" +:+ host +:+ "]:" +:+ pretty port)
  +:+ " " +:+ key_type +:+ " " +:+ public_key.

(* src: services/django_repository.py 72 79 DjangoBackupRepository.get_target_execution_context *)
Definition trusted_host_keys (db : DB) (target : BackupTarget) (address : option string) (port : Z)
    : list SSHHostKey :=
  filter (λ k, hk_target k = tg_pk target ∧ Some (hk_address k) = address ∧ hk_port k = port
               ∧ hk_status k = HK_TRUSTED) (rows (db_host_keys db)).

(** The resolved [receiver_root] setting and [Path.resolve]. *)
Context (receiver_base : list string) (resolve : list string → list string).

(* src: receiver/paths.py 4 6 receiver_profile_root *)
Definition receiver_profile_root (profile_id : Z) : list string :=
  receiver_base ++ ["profile-" +:+ pretty profile_id].

(* src: receiver/paths.py 9 26 receiver_inbox_path *)
Definition receiver_inbox_path (profile_id : Z) (upload_directory : string)
    : result (list string) :=
  if bool_decide (upload_directory ∈ [""; "."; ".."]) || has_char slash upload_directory
     || has_char backslash upload_directory || has_char nul upload_directory
  then Err (ValueError "Invalid receiver upload directory.")
  else
    let profile_root := receiver_profile_root profile_id in
    let r := resolve (profile_root ++ [upload_directory]) in
    if negb (bool_decide (removelast r = profile_root))
    then Err (ValueError "Receiver upload directory escapes the profile root.")
    else Ok r.

(* src: services/django_repository.py 115 141 DjangoBackupRepository.get_target_execution_context *)
Definition receiver_parameters (r : SftpReceiverProfile) : result ReceiverParameters :=
  inbox ← receiver_inbox_path (rx_pk r) (rx_upload_directory r);
  Ok
  {| rc_profile_id := rx_pk r; rc_mode := rx_mode r;
     rc_advertised_host := rx_advertised_host r; rc_advertised_port := rx_advertised_port r;
     rc_bridge_host := rx_bridge_host r; rc_bridge_port := rx_bridge_port r;
     rc_remote_bind_host := rx_remote_bind_host r;
     rc_remote_bind_port := rx_remote_bind_port r;
     rc_upload_directory := rx_upload_directory r;
     rc_inbox_path := inbox;
     rc_protocol := rx_protocol r; rc_export_timeout := rx_export_timeout r;
     rc_max_upload_bytes := rx_max_upload_size r;
     rc_passive_port_start := rx_passive_port_start r;
     rc_passive_port_end := rx_passive_port_end r |}.

(** The enabled mapping of the device's platform. *)
Definition platform_mapping (db : DB) (device : Device) : option PlatformMapping :=
  head (filter (λ m, Some (pm_platform m) = dv_platform device ∧ pm_enabled m = true)
          (rows (db_mappings db))).

(* src: services/django_repository.py 38 148 DjangoBackupRepository.get_target_execution_context *)
Definition get_target_execution_context (target_id : Z) : M World ExecutionContext :=
  target ← get_target target_id;
  db ← read id;
  device ← get "Device" db_devices (tg_device target);
  let mapping := platform_mapping db device in
  let driver_id :=
    if bool_decide (tg_driver_override target = "")
    then match mapping with Some m => pm_driver_id m | None => "" end
    else tg_driver_override target in
  let credential := row (db_credentials db)
    (or_else (tg_credential_override target) (m ← mapping; pm_credential_profile m)) in
  let connection := row (db_connections db)
    (or_else (tg_connection_override target) (m ← mapping; pm_connection_profile m)) in
  let receiver := row (db_receivers db)
    (or_else (tg_receiver_override target) (m ← mapping; pm_receiver_profile m)) in
  let policy := target_policy db target in
  let address := select_address device connection in
  let port := match connection with Some c => cp_port c | None => 22 end in
  receiver_params ← lift match receiver with
    | Some r => Some <$> receiver_parameters r
    | None => Ok None
    end;
  let receiver_credential := r ← receiver; db_credentials db !! rx_credential_profile r in
  mret {|
    ec_run_id := None;
    ec_target_id := tg_pk target;
    ec_device_id := dv_pk device;
    ec_device_name := dv_name device;
    ec_driver_id := driver_id;
    ec_address := address;
    ec_connection := {|
      cn_protocol := match connection with Some c => cp_protocol c | None => CP_AUTOMATIC end;
      cn_port := port;
      cn_connect_timeout :=
        match connection, policy with
        | Some c, _ => cp_connect_timeout c
        | None, Some p => po_connection_timeout p
        | None, None => 15
        end;
      cn_command_timeout :=
        match connection, policy with
        | Some c, _ => cp_command_timeout c
        | None, Some p => po_command_timeout p
        | None, None => 60
        end;
      cn_keepalive := match connection with Some c => cp_keepalive c | None => 30 end;
      cn_verify_host_key :=
        match connection with Some c => cp_verify_host_key c | None => true end;
      cn_auto_trust_first_host_key :=
        match connection with Some c => cp_auto_trust_first_host_key c | None => false end;
      cn_known_hosts_path :=
        match connection with Some c => cp_known_hosts_path c | None => "" end;
      cn_trusted_host_keys :=
        map (λ k, known_hosts_line (hk_address k) (hk_port k) (hk_key_type k) (hk_public_key k))
          (trusted_host_keys db target address port) |};
    ec_driver_options :=
      tg_driver_options_override target
      ∪ match mapping with
        | Some m => if bool_decide (pm_driver_id m = driver_id) then pm_driver_options m else ∅
        | None => ∅
        end;
    ec_store_mode := match policy with Some p => po_store_mode p | None => SM_CHANGED_ONLY end;
    ec_secret_provider_id := cr_provider_id <$> credential;
    ec_secret_reference := cr_secret_reference <$> credential;
    ec_receiver := receiver_params;
    ec_receiver_secret_provider_id := cr_provider_id <$> receiver_credential;
    ec_receiver_secret_reference := cr_secret_reference <$> receiver_credential |}.

(* src: services/django_repository.py 34 36 DjangoBackupRepository.get_execution_context *)
Definition get_execution_context (run_id : Z) : M World ExecutionContext :=
  run ← get_run run_id;
  context ← get_target_execution_context (run_target run);
  mret (context <| ec_run_id := Some (run_pk run) |>).

(** ** Results *)

(* src: services/django_repository.py 166 183 DjangoBackupRepository.mark_running *)
Definition mark_running (run_id started_at : Z) : M World unit := atomic (
  run ← get_run run_id;
  if negb (bool_decide (run_status run = RS_QUEUED))
  then raise (ValueError ("Run " +:+ pretty run_id +:+ " is not queued."))
  else save_run (run <| run_status := RS_RUNNING |> <| run_started_at := Some started_at |>
                     <| run_error_code := "" |> <| run_error_message := "" |>)).

(** [ConfigRevision.objects.filter(target=...).order_by("-created").first()];
    the database breaks ties its own way, here by the larger key. *)
Definition latest_revision (db : DB) (target_id : Z) : option ConfigRevision :=
  head (sort_by (key_geb rv_created rv_pk)
          (filter (λ r, rv_target r = target_id) (rows (db_revisions db)))).

Definition artifacts_of (db : DB) (revision_id : Z) : list ConfigArtifact :=
  filter (λ a, ar_revision a = revision_id) (rows (db_artifacts db)).

(* src: services/django_repository.py 185 201 DjangoBackupRepository.get_latest_revision *)
Definition get_latest_revision (target_id : Z) : M World (option RevisionSnapshot) :=
  db ← read id;
  match latest_revision db target_id with
  | None => mret None
  | Some revision =>
      match head (filter (λ a, ar_is_primary a = true) (artifacts_of db (rv_pk revision))) with
      | None => raise (ValueError
          ("Revision " +:+ pretty (rv_pk revision) +:+ " has no primary artifact."))
      | Some primary =>
          mret (Some {| sn_revision_id := rv_pk revision;
                        sn_normalized_hash := rv_normalized_hash revision;
                        sn_primary_raw_hash := ar_raw_hash primary |})
      end
  end.

(* src: services/django_repository.py 383 388 DjangoBackupRepository._target_was_unhealthy *)
Definition target_was_unhealthy (target : BackupTarget) : bool :=
  (0 <? tg_consecutive_failures target)
  || bool_decide (tg_status target ∈ [TS_FAILED; TS_STALE]).

(* src: services/django_repository.py 362 381 DjangoBackupRepository._mark_target_success *)
Definition mark_target_success (target : BackupTarget) (revision : option Z) (finished_at : Z)
    (content_changed : bool) : M World unit :=
  db ← read id;
  let target := target <| tg_status := TS_HEALTHY |> <| tg_last_attempt_at := Some finished_at |>
    <| tg_last_success_at := Some finished_at |> <| tg_consecutive_failures := 0 |> in
  let target := match revision with
    | Some r => target <| tg_last_revision := Some r |> | None => target end in
  let target := if content_changed
    then target <| tg_last_change_at := Some finished_at |> else target in
  next ← match tg_next_run_at target with
    | Some n => mret (Some n)
    | None => lift (calculate_target_next_run zoneinfo TIME_ZONE target (target_policy db target)
                      (target_site_time_zone db target) finished_at)
    end;
  save_target (target <| tg_next_run_at := next |>).

(* src: services/django_repository.py 203 235 DjangoBackupRepository.commit_unchanged *)
Definition commit_unchanged (run_id : Z) (raw_changed : bool) (finished_at : Z)
    : M World (option Z) := atomic (
  run ← get_run run_id;
  target ← get_target (run_target run);
  db ← read id;
  let latest := rv_pk <$> latest_revision db (tg_pk target) in
  let was_unhealthy := target_was_unhealthy target in
  _ ← save_run (run <| run_status := RS_SUCCESS_UNCHANGED |>
                    <| run_finished_at := Some finished_at |> <| run_changed := false |>
                    <| run_raw_changed := raw_changed |> <| run_revision := latest |>);
  _ ← mark_target_success target latest finished_at false;
  _ ← (if was_unhealthy then queue_run_event plugin_settings BACKUP_RECOVERED (run_pk run)
       else mret tt);
  _ ← match latest with
      | Some revision_id => on_commit (EnsureRevisionReplicas revision_id)
      | None => mret tt
      end;
  mret latest).

(** Inserting rows under the unique constraints of [ConfigRevision] and
    [ConfigArtifact]. *)
Definition create_revision (r : ConfigRevision) : M World unit := λ w,
  if existsb (λ x, bool_decide (rv_revision_uuid x = rv_revision_uuid r))
       (rows (db_revisions (w_db w)))
  then (Err IntegrityError, w)
  else (Ok tt, w <| w_db := put_revision r (w_db w) |>).

(* src: models.py 1228 1240 ConfigArtifact *)
Definition artifact_conflict (a other : ConfigArtifact) : bool :=
  bool_decide (ar_storage_key other = ar_storage_key a)
  || (ar_revision other =? ar_revision a)
     && (bool_decide (ar_artifact_type other = ar_artifact_type a)
         || ar_is_primary a && ar_is_primary other).

Definition create_artifact (revision_id : Z) (item : StoredArtifactRecord) : M World unit :=
  pk ← next_pk;
  let a := {| ar_pk := pk; ar_revision := revision_id; ar_artifact_type := sr_artifact_type item;
              ar_format := sr_format item; ar_storage_key := sr_storage_key item;
              ar_size := sr_size item; ar_raw_hash := sr_raw_hash item;
              ar_normalized_hash := sr_normalized_hash item; ar_is_primary := sr_is_primary item;
              ar_local_available := true; ar_local_deleted_at := None |} in
  existing ← read (λ db, rows (db_artifacts db));
  if existsb (artifact_conflict a) existing then raise IntegrityError
  else on_db (put_artifact a).

(** The arguments of a new revision that the pipeline computes. *)
Record NewRevision := {
  nr_revision_uuid : string;
  nr_normalized_hash : string;
  nr_normalizer_version : string;
  nr_driver_id : string;
  nr_content_changed : bool;
  nr_raw_changed : bool;
  nr_artifacts : list StoredArtifactRecord;
}.

(** [created] is the row's [auto_now_add] time. *)
(* src: services/django_repository.py 237 298 DjangoBackupRepository.commit_revision *)
Definition commit_revision (run_id : Z) (n : NewRevision) (created finished_at : Z)
    : M World Z := atomic (
  run ← get_run run_id;
  target ← get_target (run_target run);
  db ← read id;
  let previous := rv_pk <$> latest_revision db (tg_pk target) in
  let was_unhealthy := target_was_unhealthy target in
  pk ← next_pk;
  _ ← create_revision {|
    rv_pk := pk; rv_target := tg_pk target; rv_revision_uuid := nr_revision_uuid n;
    rv_normalized_hash := nr_normalized_hash n;
    rv_normalizer_version := nr_normalizer_version n; rv_driver_id := nr_driver_id n;
    rv_content_changed := nr_content_changed n; rv_protected := false;
    rv_previous_revision := previous; rv_created := created |};
  _ ← for_each (nr_artifacts n) (create_artifact pk);
  _ ← save_run (run <| run_status := if nr_content_changed n then RS_SUCCESS_CHANGED
                                     else RS_SUCCESS_UNCHANGED |>
                    <| run_finished_at := Some finished_at |>
                    <| run_changed := nr_content_changed n |>
                    <| run_raw_changed := nr_raw_changed n |> <| run_revision := Some pk |>);
  _ ← mark_target_success target (Some pk) finished_at (nr_content_changed n);
  _ ← (if was_unhealthy then queue_run_event plugin_settings BACKUP_RECOVERED (run_pk run)
       else mret tt);
  _ ← on_commit (QueueRevisionReplicas pk);
  mret pk).

(* src: services/dispatcher.py 190 198 failure_next_run *)
Definition failure_next_run (db : DB) (target : BackupTarget) (failed_at failures : Z)
    : result (option Z) :=
  calculate_failure_next_run zoneinfo (target_policy db target) failed_at failures (tg_pk target)
    (target_timezone_name TIME_ZONE (target_policy db target) (target_site_time_zone db target)).

(* src: services/django_repository.py 312 360 DjangoBackupRepository.mark_failed *)
Definition mark_failed (run_id : Z) (status : RunStatus) (error_code error_message : string)
    (finished_at : Z) : M World unit := atomic (
  run ← get_run run_id;
  target ← get_target (run_target run);
  let first_failure := tg_consecutive_failures target =? 0 in
  _ ← save_run (run <| run_status := status |> <| run_finished_at := Some finished_at |>
                    <| run_error_code := error_code |> <| run_error_message := error_message |>);
  let failures := tg_consecutive_failures target + 1 in
  db ← read id;
  next ← lift (failure_next_run db target finished_at failures);
  _ ← save_target (target <| tg_status := TS_FAILED |>
                          <| tg_last_attempt_at := Some finished_at |>
                          <| tg_consecutive_failures := failures |> <| tg_next_run_at := next |>);
  controls ← get_runtime_controls plugin_settings;
  if first_failure || notify_on_every_failure controls
  then queue_run_event plugin_settings
         (if bool_decide (error_code = "STALE_RUN") then BACKUP_STUCK else BACKUP_FAILED)
         (run_pk run)
  else mret tt).
End repository.
