(* ===== verification/RevisionFiles.v ===== *)
(** * The files of a revision at a destination

    The part of [services/destination_ftp.py] that both destination backends
    share: the check of a recorded path against its revision, the names and
    hashes expected there, and the manifest that is written last. *)

From Stdlib Require Import ZArith Lia Strings.Ascii.
From stdpp Require Import base gmap sets list strings pretty numbers.
From S2P Require Import Prelude Strings Text Hashing Json Calendar Models World.
From S2P Require Import DestinationPaths Repository.
#[local] Open Scope string_scope.
#[local] Open Scope list_scope.
#[local] Open Scope Z_scope.

(** What the code reads of a revision through its relations. *)
Record RevisionView := {
  vw_revision : ConfigRevision;
  vw_device_id : Z;
  vw_device_name : string;
  vw_artifacts : list ConfigArtifact;
}.

(** [revision.target.device] and [revision.artifacts.all()], which orders the
    artifacts by their type. *)
(* src: models.py 1228 1229 ConfigArtifact *)
Definition revision_view (db : DB) (rv : ConfigRevision) : result RevisionView :=
  target ← require (DoesNotExist "BackupTarget") (db_targets db !! rv_target rv);
  device ← require (DoesNotExist "Device") (db_devices db !! tg_device target);
  Ok {| vw_revision := rv; vw_device_id := tg_device target; vw_device_name := dv_name device;
        vw_artifacts := sort_by (λ a b, string_leb (ar_artifact_type a) (ar_artifact_type b))
                          (artifacts_of db (rv_pk rv)) |}.

(** ** Paths *)

(** [posixpath.normpath] *)
Definition norm_component (rooted : bool) (acc : list string) (c : string) : list string :=
  if bool_decide (c ∈ [""; "."]) then acc
  else if negb (bool_decide (c = "..")) || negb rooted && bool_decide (acc = [])
          || bool_decide (list.last acc = Some "..") then acc ++ [c]
  else removelast acc.
Definition normpath (s : string) : string :=
  if bool_decide (s = "") then "."
  else
    let root := posix_root s in
    let path := root +:+ join "/" (foldl (norm_component (negb (bool_decide (root = "")))) []
                                     (split_on slash s)) in
    if bool_decide (path = "") then "." else path.

Definition unsafe_text (s : string) : bool :=
  has_char backslash s || has_char nul s || negb (all_chars (λ a, (32 <=? N_of_ascii a)%N) s).

Definition canonical_base (base_path : string) : string :=
  "/" +:+ strip (char_in "/") base_path.

(* src: services/destination_ftp.py 1319 1333 _validate_recorded_revision_path *)
Definition recorded_path_invalid (base_path remote_path : string) : bool :=
  bool_decide (remote_path = "") || negb (starts_with "/" remote_path)
  || negb (bool_decide (remote_path = normpath remote_path))
  || negb (bool_decide (canonical_base base_path = normpath (canonical_base base_path)))
  || unsafe_text remote_path || unsafe_text (strip (char_in "/") base_path).

Definition path_mismatch (error_code message : string) {A} : result A :=
  Err (DestinationError error_code message).

Section revision_files.
Context (nfkd : string → string).

(** What the last components must be, for a layout and their number. *)
(* src: services/destination_ftp.py 1350 1362 _validate_recorded_revision_path *)
Definition revision_leaves (v : RevisionView) (layout : string) (count : nat) : option (list (list string)) :=
  let uuid := rv_revision_uuid (vw_revision v) in
  let timestamp := backup_creation_timestamp (Aware (rv_created (vw_revision v))) in
  if bool_decide (layout = "revisions") && (count =? 3)%nat then Some [[uuid]]
  else if bool_decide (layout = "backups") && (count =? 3)%nat then
    Some [[timestamp]; [timestamp +:+ "-r" +:+ pretty (rv_pk (vw_revision v))]]
  else if bool_decide (layout = "backups") && (count =? 4)%nat then Some [[timestamp; uuid]]
  else None.

(** The layout and the device directory of a path. *)
(* src: services/destination_ftp.py 1309 1368 _validate_recorded_revision_path *)
Definition validate_recorded_revision_path (base_path : string) (v : RevisionView)
    (remote_path error_code : string) : result (string * string) :=
  let remote_parts := pure_parts remote_path in
  let prefix := "/" :: drop 1 (pure_parts (canonical_base base_path)) ++ ["devices"] in
  let suffix := drop (length prefix) remote_parts in
  if recorded_path_invalid base_path remote_path
     || negb (bool_decide (take (length prefix) remote_parts = prefix))
     || negb (bool_decide (length suffix ∈ [3; 4]%nat))
  then path_mismatch error_code
    "The recorded FTP revision path is not safe or does not match this revision."
  else
    match suffix with
    | device_segment :: layout :: leaf =>
        if negb (bool_decide
             (device_directory_name nfkd (Some device_segment) (vw_device_id v) = device_segment))
        then path_mismatch error_code
          "The recorded FTP revision path contains an invalid device directory."
        else
          match revision_leaves v layout (length suffix) with
          | None => path_mismatch error_code
              "The recorded FTP revision path uses an unsupported layout."
          | Some leaves =>
              if bool_decide (leaf ∈ leaves) then Ok (layout, device_segment)
              else path_mismatch error_code
                "The recorded FTP revision path does not match this revision."
          end
    | _ => path_mismatch error_code ""
    end.

(** [parts[-n]] *)
Definition part_from_end (parts : list string) (n : nat) : option string :=
  nth_error (reverse parts) (n - 1).

(* src: services/destination_ftp.py 1371 1382 _readable_stem_from_revision_path *)
Definition readable_stem (revision_path : string) (v : RevisionView) : option string :=
  let parts := pure_parts revision_path in
  let segment :=
    if (4 <=? length parts)%nat && bool_decide (part_from_end parts 3 = Some "backups")
    then part_from_end parts 4
    else if (3 <=? length parts)%nat && bool_decide (part_from_end parts 2 = Some "backups")
    then part_from_end parts 3
    else None in
  s ← segment;
  Some (backup_filename_stem nfkd (Some s) (vw_device_id v) (Aware (rv_created (vw_revision v)))).

(** ** The expected files *)

(* src: services/destination_ftp.py 61 66 ExpectedRemoteFile *)
Record ExpectedRemoteFile := {
  ef_filename : string;
  ef_size : Z;
  ef_sha256 : string;
  ef_artifact_type : string;
}.

Definition MANIFEST_FILENAME : string := "_netbox_manifest.json".

Definition revision_filename (v : RevisionView) (readable_names : bool) (stem : option string)
    (a : ConfigArtifact) : string :=
  if readable_names
  then readable_artifact_filename nfkd (Some (vw_device_name v)) (vw_device_id v)
         (Aware (rv_created (vw_revision v))) (ar_storage_key a) (ar_artifact_type a)
         (ar_is_primary a) stem
  else artifact_filename (ar_storage_key a) (ar_artifact_type a).

(** The override of the device directory; an empty one counts as none. *)
Definition manifest_device_directory (v : RevisionView) (override : option string) : string :=
  match override with
  | Some s => if bool_decide (s = "")
              then device_directory_name nfkd (Some (vw_device_name v)) (vw_device_id v) else s
  | None => device_directory_name nfkd (Some (vw_device_name v)) (vw_device_id v)
  end.

Definition manifest_artifact (a : ConfigArtifact) (filename : string) : json :=
  JObject [("artifact_type", JString (ar_artifact_type a)); ("format", JString (ar_format a));
           ("filename", JString filename); ("size", JNumber (ar_size a));
           ("sha256", JString (ar_raw_hash a)); ("primary", JBool (ar_is_primary a))].

Definition manifest_value (v : RevisionView) (readable_names : bool) (stem override : option string)
    : json :=
  JObject [("schema", JNumber (if readable_names then 2 else 1));
           ("revision_uuid", JString (rv_revision_uuid (vw_revision v)));
           ("device_id", JNumber (vw_device_id v));
           ("device_name", JString (vw_device_name v));
           ("device_directory", JString (manifest_device_directory v override));
           ("driver_id", JString (rv_driver_id (vw_revision v)));
           ("created", JString (isoformat_utc (rv_created (vw_revision v))));
           ("artifacts", JList (map (λ a, manifest_artifact a (revision_filename v readable_names stem a))
                                  (vw_artifacts v)))].

(* src: services/destination_ftp.py 888 929 _build_manifest *)
Definition build_manifest (v : RevisionView) (readable_names : bool) (stem override : option string)
    : bytes :=
  encode (dumps (manifest_value v readable_names stem override)).

Fixpoint expected_artifacts (v : RevisionView) (readable_names : bool) (stem : option string)
    (filenames : list string) (artifacts : list ConfigArtifact) : result (list ExpectedRemoteFile) :=
  match artifacts with
  | [] => Ok []
  | a :: rest =>
      let filename := revision_filename v readable_names stem a in
      if bool_decide (filename ∈ filenames)
      then Err (DestinationError "ARTIFACT_NAME_CONFLICT"
        "Two revision artifacts resolve to the same FTP filename.")
      else
        files ← expected_artifacts v readable_names stem (filenames ++ [filename]) rest;
        Ok ({| ef_filename := filename; ef_size := ar_size a; ef_sha256 := ar_raw_hash a;
               ef_artifact_type := ar_artifact_type a |} :: files)
  end.

(* src: services/destination_ftp.py 839 885 _expected_revision_files *)
Definition expected_revision_files (v : RevisionView) (readable_names : bool)
    (stem override : option string) : result (list ExpectedRemoteFile) :=
  files ← expected_artifacts v readable_names stem [] (vw_artifacts v);
  let manifest := build_manifest v readable_names stem override in
  Ok (files ++ [{| ef_filename := MANIFEST_FILENAME; ef_size := Z.of_nat (length manifest);
                   ef_sha256 := sha256_hex manifest; ef_artifact_type := "manifest" |}]).

(** ** Checking a manifest *)

Definition MANIFEST_KEYS : list string :=
  ["schema"; "revision_uuid"; "device_id"; "device_name"; "device_directory"; "driver_id";
   "created"; "artifacts"].

(** How deep a document may nest before Python raises [RecursionError], which
    is a [RuntimeError] and which the code does not catch. *)
Context (recursion_limit : nat).

(** [{e.artifact_type: e for e in files if ...}.get(t)] *)
Definition file_of_type (files : list ExpectedRemoteFile) (t : string) : option ExpectedRemoteFile :=
  list.last (filter (λ e, ef_artifact_type e ≠ "manifest" ∧ ef_artifact_type e = t) files).

Definition manifest_device_segment (revision_path : string) : option string :=
  let parts := pure_parts revision_path in
  if (length parts <? 3)%nat then None
  else if (4 <=? length parts)%nat && bool_decide (part_from_end parts 3 = Some "backups")
  then part_from_end parts 4
  else part_from_end parts 3.

(** [json.loads(content.decode("utf-8"), ...)], or nothing on a [ValueError]. *)
Definition load_manifest (content : bytes) : result (option json) :=
  let text := String.string_of_list_byte content in
  match utf8_decode text with
  | None => Ok None
  | Some _ =>
      match loads recursion_limit text with
      | Ok v => Ok (Some v)
      | Err (ValueError _) => Ok None
      | Err e => Err e
      end
  end.

Definition field_equals (payload : list (string * json)) (key : string) (v : json) : bool :=
  py_equal (default JNull (json_field key payload)) v.

(* src: services/destination_ftp.py 1154 1223 _manifest_matches_revision *)
Definition manifest_matches_revision (content : bytes) (v : RevisionView) (revision_path : string)
    (expected_files : list ExpectedRemoteFile) : result bool :=
  loaded ← load_manifest content;
  match loaded, manifest_device_segment revision_path with
  | Some (JObject payload), Some device_segment =>
      let readable := uses_readable_ftp_layout revision_path in
      let header :=
        bool_decide ((list_to_set payload.*1 : gset string) = list_to_set MANIFEST_KEYS)
        && match json_field "device_name" payload with Some (JString _) => true | _ => false end
        && field_equals payload "schema" (JNumber (if readable then 2 else 1))
        && field_equals payload "revision_uuid" (JString (rv_revision_uuid (vw_revision v)))
        && field_equals payload "device_id" (JNumber (vw_device_id v))
        && field_equals payload "device_directory" (JString device_segment)
        && field_equals payload "driver_id" (JString (rv_driver_id (vw_revision v)))
        && field_equals payload "created" (JString (isoformat_utc (rv_created (vw_revision v)))) in
      Ok (header &&
        match mapM (λ a, manifest_artifact a ∘ ef_filename
                           <$> file_of_type expected_files (ar_artifact_type a)) (vw_artifacts v) with
        | None => false
        | Some artifacts => field_equals payload "artifacts" (JList artifacts)
        end)
  | _, _ => Ok false
  end.
End revision_files.

(** ** The manifest that is written is accepted *)

Definition text_ok (s : string) : Prop := is_Some (utf8_decode s).
Definition number_ok (n : Z) : Prop := (String.length (pretty n) <= max_str_digits)%nat.

(** Texts are valid UTF-8, numbers are within Python's limit on digits, and
    the artifacts have distinct types, none of them "manifest". *)
Record manifest_ok (v : RevisionView) (filename : ConfigArtifact → string) (directory : string) : Prop := {
  mo_header : Forall text_ok [rv_revision_uuid (vw_revision v); vw_device_name v; directory;
                              rv_driver_id (vw_revision v); isoformat_utc (rv_created (vw_revision v))];
  mo_device : number_ok (vw_device_id v);
  mo_artifacts : Forall (λ a, text_ok (ar_artifact_type a) ∧ text_ok (ar_format a)
                   ∧ text_ok (filename a) ∧ text_ok (ar_raw_hash a) ∧ number_ok (ar_size a))
                   (vw_artifacts v);
  mo_types : NoDup (map ar_artifact_type (vw_artifacts v));
  mo_reserved : "manifest" ∉ map ar_artifact_type (vw_artifacts v);
}.

(** The same revision after its device was renamed. *)
Definition renamed (v : RevisionView) (name : string) : RevisionView :=
  {| vw_revision := vw_revision v; vw_device_id := vw_device_id v; vw_device_name := name;
     vw_artifacts := vw_artifacts v |}.

Section manifest.
Context (nfkd : string → string) (recursion_limit : nat).
Context (Hlimit : (3 <= recursion_limit)%nat).

Lemma manifest_artifact_printable a name :
  text_ok (ar_artifact_type a) ∧ text_ok (ar_format a) ∧ text_ok name
    ∧ text_ok (ar_raw_hash a) ∧ number_ok (ar_size a) →
  printable (manifest_artifact a name).
Proof.
  intros (H1 & H2 & H3 & H4 & H5). apply printable_object. split.
  - by apply (bool_decide_unpack _).
  - repeat (apply list.Forall_cons; split; [split; [by eexists|done]|]). constructor.
Qed.

Lemma manifest_printable v readable stem override :
  manifest_ok v (revision_filename nfkd v readable stem) (manifest_device_directory nfkd v override) →
  printable (manifest_value nfkd v readable stem override).
Proof.
  intros [Hh Hd Ha _ _]. rewrite !list.Forall_cons in Hh. destruct Hh as (? & ? & ? & ? & ? & _).
  apply printable_object. split; [by apply (bool_decide_unpack _)|].
  repeat (apply list.Forall_cons; split; [split; [by eexists|]|]); try done.
  - by destruct readable; vm_compute; lia.
  - apply printable_list. apply list.Forall_forall. intros y (a & -> & Hin)%list_elem_of_fmap.
    rewrite list.Forall_forall in Ha. by apply manifest_artifact_printable, Ha.
Qed.

Lemma manifest_nesting v readable stem override :
  (nesting (manifest_value nfkd v readable stem override) <= 3)%nat.
Proof.
  apply nesting_object. repeat (apply list.Forall_cons; split; [simpl; lia|]).
  apply list.Forall_cons. split; [|constructor]. cbn [snd]. apply nesting_list. apply list.Forall_forall. intros y (a & -> & _)%list_elem_of_fmap.
  simpl. lia.
Qed.

Lemma load_build_manifest v readable stem override :
  manifest_ok v (revision_filename nfkd v readable stem) (manifest_device_directory nfkd v override) →
  load_manifest recursion_limit (build_manifest nfkd v readable stem override)
    = Ok (Some (sort_keys (manifest_value nfkd v readable stem override))).
Proof.
  intros Hok. apply manifest_printable in Hok as Hp. unfold load_manifest, build_manifest, encode.
  rewrite String.string_of_list_byte_of_string.
  destruct (ascii_decodes (dumps (manifest_value nfkd v readable stem override))) as [cs ->].
  { apply print_ascii, printable_sort_keys, Hp. }
  rewrite loads_dumps; [done|done|]. pose proof (manifest_nesting v readable stem override). lia.
Qed.

(** The fields of the manifest, whatever their values are. *)
Lemma sorted_manifest a b c d e f g h :
  sort_by (λ x y : string * json, string_leb x.1 y.1)
    [("schema", a); ("revision_uuid", b); ("device_id", c); ("device_name", d);
     ("device_directory", e); ("driver_id", f); ("created", g); ("artifacts", h)]
  = [("artifacts", h); ("created", g); ("device_directory", e); ("device_id", c);
     ("device_name", d); ("driver_id", f); ("revision_uuid", b); ("schema", a)].
Proof. reflexivity. Qed.

Lemma expected_artifacts_spec v readable stem artifacts : ∀ filenames files,
  NoDup filenames → expected_artifacts nfkd v readable stem filenames artifacts = Ok files →
  files = map (λ a, {| ef_filename := revision_filename nfkd v readable stem a; ef_size := ar_size a;
                       ef_sha256 := ar_raw_hash a; ef_artifact_type := ar_artifact_type a |}) artifacts ∧
  NoDup (filenames ++ map ef_filename files).
Proof.
  induction artifacts as [|a artifacts IH]; intros filenames files Hnd H; cbn [expected_artifacts] in H.
  - injection H as <-. simpl. by rewrite app_nil_r.
  - cbv zeta in H. case_bool_decide as Hin; [done|]. apply result_bind_Ok in H as (l & Hl & [= <-]).
    apply IH in Hl as [-> Hnd'].
    2: { apply list.NoDup_app. split_and!; [done| |by apply NoDup_singleton].
         by intros x Hx ->%list_elem_of_singleton. }
    split; [done|]. by rewrite <-app_assoc in Hnd'.
Qed.

Lemma expected_revision_files_spec v readable stem override files :
  expected_revision_files nfkd v readable stem override = Ok files →
  ∃ manifest, ef_filename manifest = MANIFEST_FILENAME ∧ ef_artifact_type manifest = "manifest" ∧
  files = map (λ a, {| ef_filename := revision_filename nfkd v readable stem a; ef_size := ar_size a;
                       ef_sha256 := ar_raw_hash a; ef_artifact_type := ar_artifact_type a |})
            (vw_artifacts v) ++ [manifest] ∧
  NoDup (map (revision_filename nfkd v readable stem) (vw_artifacts v)).
Proof.
  intros (l & Hl & [= <-])%result_bind_Ok.
  apply expected_artifacts_spec in Hl as [-> Hnd]; [|by constructor].
  eexists. split; [|split; [|split; [reflexivity|]]]; [done..|].
  simpl in Hnd. by rewrite map_map in Hnd.
Qed.

Lemma manifest_name_in v readable stem override files :
  expected_revision_files nfkd v readable stem override = Ok files →
  MANIFEST_FILENAME ∈ map ef_filename files.
Proof.
  intros (manifest & Hm & _ & -> & _)%expected_revision_files_spec.
  rewrite map_app. apply elem_of_app. right. simpl. rewrite Hm. by left.
Qed.

Lemma file_of_type_in files t e : file_of_type files t = Some e → e ∈ files.
Proof. unfold file_of_type. intros H%last_Some_elem_of. by apply list_elem_of_filter in H as [_ H]. Qed.

(** With distinct types, the dictionary by type finds the file of each artifact. *)
Lemma file_of_type_found (f : ConfigArtifact → ExpectedRemoteFile) artifacts manifest a :
  (∀ a, ef_artifact_type (f a) = ar_artifact_type a) → ef_artifact_type manifest = "manifest" →
  NoDup (map ar_artifact_type artifacts) → "manifest" ∉ map ar_artifact_type artifacts →
  a ∈ artifacts → file_of_type (map f artifacts ++ [manifest]) (ar_artifact_type a) = Some (f a).
Proof.
  intros Hf Hm Hnd Hres Hin. unfold file_of_type.
  assert (ar_artifact_type a ≠ "manifest") as Ha.
  { intros E. apply Hres. rewrite <-E. by apply list_elem_of_fmap_2. }
  assert (filter (λ e, ef_artifact_type e ≠ "manifest" ∧ ef_artifact_type e = ar_artifact_type a)
            (map f artifacts ++ [manifest]) = [f a]) as ->; [|done].
  rewrite list.filter_app. rewrite (filter_none_nil _ [manifest]), app_nil_r.
  2: { intros x ->%list_elem_of_singleton [Hx _]. congruence. }
  clear Hres. induction artifacts as [|b artifacts IH]; [by apply elem_of_nil in Hin|].
  apply list.NoDup_cons in Hnd as [Hb Hnd]. cbn [map]. rewrite list.filter_cons.
  apply elem_of_cons in Hin as [->|Hin].
  - rewrite decide_True by (rewrite Hf; done). f_equal. apply filter_none_nil.
    intros x (c & -> & Hc)%list_elem_of_fmap [_ E]. rewrite Hf in E. apply Hb. rewrite <-E.
    by apply list_elem_of_fmap_2.
  - rewrite decide_False; [by apply IH|]. intros [_ E]. rewrite Hf in E. apply Hb. rewrite E.
    by apply list_elem_of_fmap_2.
Qed.

Lemma renamed_filename v name (readable : bool) stem a :
  (readable = true → ∃ s, stem = Some s ∧ s ≠ "") →
  revision_filename nfkd (renamed v name) readable stem a = revision_filename nfkd v readable stem a.
Proof.
  unfold revision_filename. destruct readable; [|done]. intros Hs. destruct (Hs eq_refl) as (s & -> & Hne).
  unfold readable_artifact_filename. cbv zeta. by rewrite (bool_decide_eq_false_2 (s = "")).
Qed.

Lemma renamed_found v name (readable : bool) stem override files :
  (readable = true → ∃ s, stem = Some s ∧ s ≠ "") →
  NoDup (map ar_artifact_type (vw_artifacts v)) → "manifest" ∉ map ar_artifact_type (vw_artifacts v) →
  expected_revision_files nfkd (renamed v name) readable stem override = Ok files →
  mapM (λ a, manifest_artifact a ∘ ef_filename <$> file_of_type files (ar_artifact_type a)) (vw_artifacts v)
    = Some (map (λ a, manifest_artifact a (revision_filename nfkd v readable stem a)) (vw_artifacts v)).
Proof.
  intros Hstem Hnd Hres (manifest & _ & Hm & -> & _)%expected_revision_files_spec.
  apply mapM_Some. apply Forall2_fmap_r, Forall_Forall2_diag, list.Forall_forall. intros a Ha.
  rewrite (file_of_type_found _ (vw_artifacts v) manifest a) by done. simpl.
  by rewrite renamed_filename.
Qed.

(** The header of a manifest that was written for [v]. *)
Lemma built_fields v readable stem override payload :
  sort_keys (manifest_value nfkd v readable stem override) = JObject payload →
  payload = [("artifacts", sort_keys (JList (map (λ a, manifest_artifact a
                (revision_filename nfkd v readable stem a)) (vw_artifacts v))));
             ("created", JString (isoformat_utc (rv_created (vw_revision v))));
             ("device_directory", JString (manifest_device_directory nfkd v override));
             ("device_id", JNumber (vw_device_id v)); ("device_name", JString (vw_device_name v));
             ("driver_id", JString (rv_driver_id (vw_revision v)));
             ("revision_uuid", JString (rv_revision_uuid (vw_revision v)));
             ("schema", JNumber (if readable then 2 else 1))].
Proof.
  unfold manifest_value. cbn [sort_keys map fst snd]. rewrite sorted_manifest.
  by intros [= <-].
Qed.
End manifest.

Section manifest_theorem.
Context (nfkd : string → string) (recursion_limit : nat).

Ltac listed := first [by apply list_elem_of_here | apply list_elem_of_further; listed].

(** The content of [manifest_round_trip], for the audits. *)
Lemma built_manifest_matches v name path stem override override' files segment :
  (3 <= recursion_limit)%nat →
  let readable := uses_readable_ftp_layout path in
  manifest_device_segment path = Some segment → manifest_device_directory nfkd v override = segment →
  manifest_ok v (revision_filename nfkd v readable stem) segment →
  (readable = true → ∃ s, stem = Some s ∧ s ≠ "") →
  expected_revision_files nfkd (renamed v name) readable stem override' = Ok files →
  let manifest := build_manifest nfkd v readable stem override in
  manifest_matches_revision recursion_limit manifest (renamed v name) path files = Ok true ∧
  ∀ v' path' files', rv_revision_uuid (vw_revision v') ≠ rv_revision_uuid (vw_revision v) →
    manifest_matches_revision recursion_limit manifest v' path' files' = Ok false.
Proof.
  intros Hlimit readable Hseg Hdir Hok Hstem Hfiles manifest. rewrite <-Hdir in Hok.
  pose proof (load_build_manifest nfkd recursion_limit Hlimit _ _ _ _ Hok) as Hload.
  destruct (sort_keys (manifest_value nfkd v readable stem override)) as [| | | | | |payload] eqn:E;
    [done..|]. fold manifest in Hload. pose proof (built_fields _ _ _ _ _ _ E) as Hp.
  assert (∀ k x y, (k, x) ∈ payload → field_equals payload k y = py_equal x y) as Hfield.
  { intros k x y Hin. unfold field_equals. rewrite (json_field_in _ k x); [done| |done].
    rewrite Hp. by apply (bool_decide_unpack _). }
  assert (json_field "device_name" payload = Some (JString (vw_device_name v))) as Hname
    by (by rewrite Hp).
  assert (payload.*1 ≡ₚ MANIFEST_KEYS) as Hkeys.
  { rewrite Hp. by apply (bool_decide_unpack _). }
  unfold manifest_matches_revision. rewrite Hload. cbn [mbind result_bind]. split.
  - rewrite Hseg. fold readable. f_equal.
    change (vw_artifacts (renamed v name)) with (vw_artifacts v).
    change (vw_revision (renamed v name)) with (vw_revision v).
    change (vw_device_id (renamed v name)) with (vw_device_id v).
    rewrite (renamed_found nfkd v name readable stem override' files Hstem
      (mo_types _ _ _ Hok) (mo_reserved _ _ _ Hok) Hfiles), Hname.
    assert (bool_decide ((list_to_set payload.*1 : gset string) = list_to_set MANIFEST_KEYS) = true)
      as -> by (apply bool_decide_eq_true_2; by rewrite Hkeys).
    rewrite (Hfield "schema" (JNumber (if readable then 2 else 1))) by (rewrite Hp; listed).
    rewrite (Hfield "revision_uuid" (JString (rv_revision_uuid (vw_revision v)))) by (rewrite Hp; listed).
    rewrite (Hfield "device_id" (JNumber (vw_device_id v))) by (rewrite Hp; listed).
    rewrite (Hfield "device_directory" (JString (manifest_device_directory nfkd v override)))
      by (rewrite Hp; listed).
    rewrite (Hfield "driver_id" (JString (rv_driver_id (vw_revision v)))) by (rewrite Hp; listed).
    rewrite (Hfield "created" (JString (isoformat_utc (rv_created (vw_revision v)))))
      by (rewrite Hp; listed).
    erewrite (Hfield "artifacts") by (rewrite Hp; by left).
    rewrite py_equal_sort_keys by (apply printable_list, list.Forall_forall;
      intros y (a & -> & Ha)%list_elem_of_fmap; pose proof (mo_artifacts _ _ _ Hok) as Hall;
      rewrite list.Forall_forall in Hall; by apply manifest_artifact_printable, Hall).
    cbn [py_equal number_of]. rewrite Hdir, !Z.eqb_refl, !bool_decide_eq_true_2 by done. done.
  - intros v' path' files' Hne. destruct (manifest_device_segment path') as [segment'|]; [|done].
    rewrite (Hfield "revision_uuid" (JString (rv_revision_uuid (vw_revision v)))) by (rewrite Hp; listed).
    cbn [py_equal]. rewrite (bool_decide_eq_false_2 (rv_revision_uuid (vw_revision v) = _)) by congruence.
    by rewrite !andb_false_r, !andb_false_l.
Qed.

(** C29: The manifest that is written next to a copy is accepted by every later
    check of it, also after the device was renamed: for a revision whose texts
    are valid and whose artifact types are distinct, and for a path with the
    device directory the manifest names, reading the manifest back and
    comparing it with the revision succeeds.  It identifies the revision: no
    revision with another UUID accepts it, at whatever path. *)
Theorem manifest_round_trip v name path stem override override' files segment :
  (3 <= recursion_limit)%nat →
  let readable := uses_readable_ftp_layout path in
  manifest_device_segment path = Some segment → manifest_device_directory nfkd v override = segment →
  manifest_ok v (revision_filename nfkd v readable stem) segment →
  (readable = true → ∃ s, stem = Some s ∧ s ≠ "") →
  expected_revision_files nfkd (renamed v name) readable stem override' = Ok files →
  let manifest := build_manifest nfkd v readable stem override in
  manifest_matches_revision recursion_limit manifest (renamed v name) path files = Ok true ∧
  ∀ v' path' files', rv_revision_uuid (vw_revision v') ≠ rv_revision_uuid (vw_revision v) →
    manifest_matches_revision recursion_limit manifest v' path' files' = Ok false.
Proof. exact (built_manifest_matches v name path stem override override' files segment). Qed.
End manifest_theorem.
