(* ===== verification/AuditSummary.v ===== *)
(** * What the integrity audits of both destination backends share

    [reconcile_mounted_destination] and [reconcile_ftp_destination] count the
    verdicts on the expected files in the same way. *)

From Stdlib Require Import ZArith Lia.
From stdpp Require Import base gmap sets list strings.
From S2P Require Import Prelude Models World Destination RevisionFiles.
#[local] Open Scope string_scope.
#[local] Open Scope list_scope.
#[local] Open Scope Z_scope.

Inductive verdict := V_ok | V_missing | V_size_mismatch | V_hash_mismatch | V_unreadable.
#[export] Instance verdict_eq_dec : EqDecision verdict.
Proof. solve_decision. Defined.
Definition verdict_name (v : verdict) : string :=
  match v with
  | V_ok => "ok" | V_missing => "missing" | V_size_mismatch => "size_mismatch"
  | V_hash_mismatch => "hash_mismatch" | V_unreadable => "unreadable"
  end.

Definition initial_summary (message : string) (skipped : Z) : ReconciliationSummary :=
  {| rs_success := true;
     rs_safe_message := message;
     rs_checked_replicas := 0; rs_healthy_replicas := 0; rs_failed_replicas := 0;
     rs_skipped_replicas := skipped; rs_checked_files := 0; rs_verified_bytes := 0;
     rs_missing_files := 0; rs_size_mismatches := 0; rs_hash_mismatches := 0;
     rs_unreadable_files := 0; rs_issues := []; rs_issues_truncated := false |}.

Definition count_problem (v : verdict) (s : ReconciliationSummary) : ReconciliationSummary :=
  match v with
  | V_ok => s
  | V_missing => s <| rs_missing_files ::= Z.succ |>
  | V_size_mismatch => s <| rs_size_mismatches ::= Z.succ |>
  | V_hash_mismatch => s <| rs_hash_mismatches ::= Z.succ |>
  | V_unreadable => s <| rs_unreadable_files ::= Z.succ |>
  end.

Definition add_issue (issue_limit : Z) (issue : ReconciliationIssue) (s : ReconciliationSummary)
    : ReconciliationSummary :=
  if Z.of_nat (length (rs_issues s)) <? issue_limit then s <| rs_issues ::= λ l, l ++ [issue] |>
  else s <| rs_issues_truncated := true |>.

(** What one expected file adds: whether the copy failed, and the summary. *)
Definition record_file (issue_limit : Z) (replica : RevisionReplica) (v : RevisionView)
    (e : ExpectedRemoteFile) (failed : bool) (summary : ReconciliationSummary) (x : verdict * Z)
    : bool * ReconciliationSummary :=
  let '(state, actual_size) := x in
  if bool_decide (state = V_ok)
  then (failed, summary <| rs_verified_bytes ::= Z.add actual_size |>)
  else (true, add_issue issue_limit
    {| ri_replica_id := rp_pk replica; ri_revision_id := rv_pk (vw_revision v);
       ri_revision_uuid := rv_revision_uuid (vw_revision v); ri_device := vw_device_name v;
       ri_filename := ef_filename e; ri_artifact_type := ef_artifact_type e;
       ri_problem := verdict_name state |} (count_problem state summary)).

Definition count_replica (acc : bool * ReconciliationSummary) : ReconciliationSummary :=
  if acc.1 then acc.2 <| rs_failed_replicas ::= Z.succ |>
  else acc.2 <| rs_healthy_replicas ::= Z.succ |>.

Definition auditable (d : BackupDestination) (r : RevisionReplica) : Prop :=
  rp_destination r = ds_pk d ∧ rp_status r = RP_SUCCESS ∧ rp_remote_available r = true
  ∧ rp_remote_deleted_at r = None.
#[export] Instance auditable_dec d r : Decision (auditable d r).
Proof. unfold auditable. solve_decision. Defined.

Definition problem_count (s : ReconciliationSummary) : Z :=
  rs_missing_files s + rs_size_mismatches s + rs_hash_mismatches s + rs_unreadable_files s.
