(* ===== verification/RecordedPaths.v ===== *)
(** * Recorded paths of revisions

    The path of a copy is recorded when it is made and checked before every
    later use.  A path that passes lies under the base path and belongs to
    the revision; and every path the code generates passes, also after the
    device was renamed. *)

From Stdlib Require Import ZArith Lia Strings.Ascii.
From stdpp Require Import base gmap sets list strings pretty numbers.
From S2P Require Import Prelude Strings Text Hashing Json Calendar Models World.
From S2P Require Import DestinationPaths RevisionFiles.
#[local] Open Scope string_scope.
#[local] Open Scope list_scope.
#[local] Open Scope Z_scope.

(** ** The names of device directories are fixed points *)

Definition edge_char : ascii → bool := char_in "._-".
Definition good_part (p : string) : Prop := strip (char_in ".") p ≠ "".

(** What [device_directory_name] leaves alone. *)
Record clean_name (s : string) : Prop := {
  cn_chars : all_chars is_path_char s = true;
  cn_head : ∃ a t, s = String a t ∧ edge_char a = false;
  cn_last : ∀ a, last_char s = Some a → edge_char a = false;
  cn_length : (String.length s <= MAX_DEVICE_SEGMENT_LENGTH)%nat;
  cn_parts : Forall good_part (split_on dash s);
}.

Lemma edge_split a : edge_char a = false → a ≠ "."%char ∧ a ≠ "_"%char ∧ a ≠ dash.
Proof. intros H. split_and!; intros ->; done. Qed.

Lemma good_part_last p a : last_char p = Some a → edge_char a = false → good_part p.
Proof.
  intros Hl Ha. apply (strip_nonempty _ p a); [by apply last_char_has|].
  apply edge_split in Ha as (Ha & _). unfold char_in. cbn [has_char].
  by rewrite bool_decide_eq_false_2.
Qed.

(** Runs of dashes: none is longer than one when no part is empty. *)
Lemma sub_dashes s :
  Forall (λ p, p ≠ "") (tail (split_on dash s)) → sub_runs (char_in "-") dash s = s.
Proof.
  induction s as [|a s IH]; intros H; [done|]. cbn [split_on] in H. rewrite sub_runs_cons.
  destruct (split_on_cons dash s) as (p & ps & E). rewrite E in H, IH.
  destruct (decide (a = dash)) as [->|Ha].
  - cbn [tail] in H. apply list.Forall_cons in H as [Hp Hps].
    change (char_in "-" dash) with true. cbv iota.
    destruct s as [|b s]; [done|].
    assert (char_in "-" b = false) as ->.
    { unfold char_in. cbn [has_char]. rewrite bool_decide_eq_false_2; [done|].
      intros <-. cbn [split_on] in E. rewrite decide_True in E by done. by injection E as <- _. }
    by rewrite IH.
  - assert (char_in "-" a = false) as ->
      by (unfold char_in; cbn [has_char]; by rewrite bool_decide_eq_false_2).
    by rewrite IH.
Qed.

Section names.
Context (nfkd : string → string).
(** NFKD leaves ASCII text as it is (Unicode Standard Annex 15). *)
Context (Hnfkd : ∀ s, all_chars is_ascii s = true → nfkd s = s).

Lemma path_char_ascii a : is_path_char a = true → is_ascii a = true.
Proof. by destruct a as [[] [] [] [] [] [] [] []]. Qed.

Lemma clean_name_fixed s id : clean_name s → device_directory_name nfkd (Some s) id = s.
Proof using Hnfkd.
  intros [Hc (a & t & -> & Ha) Hl Hlen Hp]. unfold device_directory_name, default, Datatypes.id. cbv zeta.
  assert (all_chars is_ascii (String a t) = true) as Hascii
    by (by eapply all_chars_weaken; [exact path_char_ascii|]).
  rewrite Hnfkd by done. rewrite filter_chars_id.
  2: { eapply all_chars_weaken; [|exact Hc]. by intros [[] [] [] [] [] [] [] []]. }
  assert (∀ b, is_path_char b = true → is_space b = false) as Hsp
    by (by intros [[] [] [] [] [] [] [] []]).
  rewrite (strip_id is_space).
  2: { apply Hsp. by apply andb_true_iff in Hc as [? _]. }
  2: { intros b Hb%last_char_has. apply Hsp. by eapply all_chars_has. }
  rewrite (sub_runs_none (λ a, negb (is_path_char a))).
  2: { eapply all_chars_weaken; [|exact Hc]. by intros b ->. }
  assert (Forall (λ p, p ≠ "") (split_on dash (String a t))) as Hne
    by (eapply list.Forall_impl; [exact Hp|]; by intros p Hp' ->).
  rewrite sub_dashes by (destruct (split_on dash (String a t)); [done|];
    by apply list.Forall_cons in Hne as [_ ?]).
  rewrite (strip_id (char_in "._-")) by done.
  rewrite filter_all_id by (intros p Hin; rewrite list.Forall_forall in Hp; by apply Hp).
  assert (join "-" (split_on dash (String a t)) = String a t) as -> by apply (join_split dash).
  rewrite string_take_all by done.
  rewrite (strip_right_id (char_in "._-") (String a t) Hl). by rewrite bool_decide_eq_false_2.
Qed.
End names.

Section results.
Context (nfkd : string → string).

(** Keys have at most 121 digits, so that [device-<key>] fits the limit. *)
Definition key_ok (id : Z) : Prop := 0 <= id ∧ (String.length (pretty id) <= 121)%nat.

Lemma digits_part (n : Z) : 0 <= n → good_part (pretty n) ∧ has_char dash (pretty n) = false ∧
  ∀ a, last_char (pretty n) = Some a → edge_char a = false.
Proof.
  intros Hn. pose proof (pretty_digits n Hn) as Hd.
  assert (∀ a, is_digit a = true → edge_char a = false) as He by (by intros [[] [] [] [] [] [] [] []]).
  assert (∀ a, last_char (pretty n) = Some a → edge_char a = false) as Hl.
  { intros a Ha%last_char_has. apply He. by eapply all_chars_has. }
  split_and!; [|by apply (all_chars_no_char is_digit)|done].
  assert (∃ a, last_char (pretty n) = Some a) as [a Ha]; [|by apply (good_part_last _ a); auto].
  destruct n as [|p|p]; [by exists "0"%char| |lia].
  destruct (pretty_pos p) as (a & t & -> & _). clear. revert a.
  induction t as [|b t IH]; intros a; [by exists a|]. destruct (IH b) as [c Hc]. exists c. exact Hc.
Qed.

Lemma last_char_append s t a : last_char (s +:+ String a t) = last_char (String a t).
Proof.
  induction s as [|b s IH]; [done|]. change (String b s +:+ ?u) with (String b (s +:+ u)).
  rewrite <-IH. by destruct s.
Qed.

Lemma fallback_clean id : key_ok id → clean_name ("device-" +:+ pretty id).
Proof.
  intros [Hid Hlen]. destruct (digits_part id Hid) as (Hg & Hdash & Hl). split.
  - rewrite all_chars_app. by rewrite pretty_path_chars.
  - by eexists _, _.
  - intros a. destruct (pretty id) as [|b t] eqn:E; [by intros _; destruct id|].
    rewrite last_char_append. apply Hl.
  - rewrite string_length_app. unfold MAX_DEVICE_SEGMENT_LENGTH. simpl (String.length "device-"). lia.
  - change ("device-" +:+ pretty id) with ("device" +:+ String dash (pretty id)).
    rewrite split_on_app, (split_on_none _ _ Hdash) by done. repeat constructor; done.
Qed.

Lemma device_directory_clean name id : key_ok id → clean_name (device_directory_name nfkd name id).
Proof.
  intros Hid. pose proof (device_directory_name_chars nfkd name id) as Hc.
  revert Hc. unfold device_directory_name. cbv zeta.
  set (t := strip (char_in "._-") _). set (parts := filter _ (split_on dash t)).
  set (u := join "-" parts). set (s := strip_right _ _).
  case_bool_decide as Hs; intros Hc; [by apply fallback_clean|].
  assert (Forall good_part (split_on dash u)) as Hu.
  { unfold u. change "-" with (String dash "").
    assert (Forall (λ p, has_char dash p = false) parts) as Hnd.
    { apply list.Forall_forall. intros p [_ Hp]%list_elem_of_filter. by eapply split_on_no_sep. }
    destruct (decide (parts = [])) as [E|E].
    - exfalso. apply Hs. unfold s, u. rewrite E. done.
    - rewrite split_join by done. apply list.Forall_forall. by intros p [Hp _]%list_elem_of_filter. }
  destruct (strip_right_split (char_in "._-") (string_take MAX_DEVICE_SEGMENT_LENGTH u)) as (w & Ew & _).
  destruct (string_take_split MAX_DEVICE_SEGMENT_LENGTH u) as [w' Ew']. fold s in Ew.
  assert (u = s +:+ (w +:+ w')) as Eu by (by rewrite append_assoc, <-Ew, <-Ew').
  assert (∀ a, last_char s = Some a → edge_char a = false) as Hl
    by (intros a; apply strip_right_last).
  split; [done| |done| |].
  - destruct s as [|a s']; [done|]. exists a, s'. split; [done|].
    change (u = String a (s' +:+ (w +:+ w'))) in Eu.
    destruct t as [|b t'] eqn:Et.
    { exfalso. unfold u, parts in Eu. vm_compute in Eu. done. }
    pose proof (strip_head _ _ _ _ Et) as Hb. pose proof (edge_split _ Hb) as (Hdot & _ & Hdash).
    enough (a = b) as -> by done.
    destruct (split_on_cons dash t') as (p & ps & E).
    assert (parts = String b p :: filter (λ p, strip (char_in ".") p ≠ "") ps) as Ep.
    { unfold parts. cbn [split_on]. rewrite decide_False, E by done.
      rewrite filter_cons_True; [done|]. apply (strip_nonempty _ _ b).
      - cbn [has_char]. by rewrite bool_decide_eq_true_2.
      - unfold char_in. cbn [has_char]. by rewrite bool_decide_eq_false_2 by congruence. }
    unfold u in Eu. rewrite Ep in Eu. destruct (filter _ ps) in Eu; by injection Eu as <- _.
  - etransitivity; [apply strip_right_length|]. apply string_take_length.
  - apply (split_on_prefix _ _ _ (w +:+ w')); [|by rewrite <-Eu].
    intros p Hp.
    assert (∃ a, last_char s = Some a) as [a Ha].
    { clear -Hs. destruct s as [|a s]; [done|]. clear Hs. revert a.
      induction s as [|b s IH]; intros a; [by exists a|]. destruct (IH b) as [c Hc']. by exists c. }
    apply (good_part_last p a); [|by apply Hl].
    apply (split_on_last dash s); [done|done|]. by apply Hl, edge_split in Ha as (_ & _ & ?).
Qed.
End results.

(** ** What an accepted path looks like *)

(** A component that names a direct child. *)
Definition plain_part (c : string) : Prop :=
  c ≠ "" ∧ c ≠ "." ∧ c ≠ ".." ∧ has_char slash c = false.

(** Rooted normalisation leaves no dot names. *)
Lemma norm_components_plain comps : ∀ acc,
  Forall (λ c, has_char slash c = false) comps →
  Forall plain_part acc →
  Forall plain_part
    (foldl (norm_component true) acc comps).
Proof.
  induction comps as [|c comps IH]; intros acc Hc Hacc; [done|]. cbn [foldl].
  apply list.Forall_cons in Hc as [Hs Hc]. apply IH; [done|]. unfold norm_component.
  case_bool_decide as Hdot; [done|]. cbn [negb andb]. rewrite orb_false_r.
  assert (list.last acc ≠ Some "..") as Hlast.
  { intros Hl. rewrite list.Forall_forall in Hacc.
    destruct (Hacc "..") as (_ & _ & ? & _); [|done]. by apply list.last_Some_elem_of. }
  rewrite (bool_decide_eq_false_2 (list.last acc = _)), orb_false_r by done.
  case_bool_decide as Hdd; cbn [negb].
  - destruct acc as [|x acc _] using rev_ind; [done|]. rewrite removelast_last.
    by apply list.Forall_app in Hacc as [? _].
  - apply list.Forall_app. split; [done|]. repeat constructor; try done; set_solver.
Qed.

Lemma path_parts_joined ps :
  Forall plain_part ps →
  path_parts (join "/" ps) = ps.
Proof.
  intros H. destruct ps as [|p ps]; [done|]. unfold path_parts.
  change "/" with (String slash "").
  rewrite split_join; [|done|eapply list.Forall_impl; [exact H|by intros x (_ & _ & _ & ?)]].
  apply filter_all_id. intros x Hx. rewrite list.Forall_forall in H. destruct (H x Hx) as (? & ? & _). set_solver.
Qed.

Lemma norm_components_id ps : ∀ acc,
  Forall plain_part ps → foldl (norm_component true) acc ps = acc ++ ps.
Proof.
  induction ps as [|p ps IH]; intros acc H; [by rewrite app_nil_r|].
  apply list.Forall_cons in H as [(Hp & Hd & Hdd & _) H]. cbn [foldl].
  assert (norm_component true acc p = acc ++ [p]) as ->; [|by rewrite IH, <-app_assoc].
  unfold norm_component. rewrite bool_decide_eq_false_2 by set_solver.
  by rewrite (bool_decide_eq_false_2 (p = "..")).
Qed.

Lemma posix_root_single u : is_absolute u = false → posix_root (String slash u) = "/".
Proof.
  intros Hu. unfold posix_root, starts_with. destruct u as [|a u]; [done|].
  assert (String.prefix "//" (String slash (String a u)) = false) as ->; [|done].
  cbn [is_absolute] in Hu. apply bool_decide_eq_false in Hu.
  destruct (String.prefix "//" (String slash (String a u))) eqn:E; [|done].
  apply String.prefix_correct in E. cbn [String.length String.substring] in E.
  by injection E as ->.
Qed.

Lemma posix_root_absolute s : is_absolute s = true →
  ∃ u, s = String slash u ∧ (posix_root s = "/" ∨ posix_root s = "//").
Proof.
  destruct s as [|a s]; [done|]. cbn [is_absolute]. intros ->%bool_decide_eq_true. exists s.
  split; [done|]. unfold posix_root. cbn [is_absolute]. rewrite bool_decide_eq_true_2 by done.
  case_match; auto.
Qed.

Lemma join_relative ps : Forall plain_part ps → is_absolute (join "/" ps) = false.
Proof.
  intros H. destruct H as [|p ps (Hp & _ & _ & Hs) _]; [done|].
  destruct p as [|a p]; [done|]. cbn [has_char] in Hs. apply orb_false_iff in Hs as [Ha _].
  by destruct ps.
Qed.

Lemma normpath_plain ps : Forall plain_part ps →
  normpath ("/" +:+ join "/" ps) = "/" +:+ join "/" ps.
Proof.
  intros H. unfold normpath. change ("/" +:+ join "/" ps) with (String slash (join "/" ps)).
  rewrite bool_decide_eq_false_2 by done. rewrite posix_root_single by by apply join_relative.
  cbv zeta. cbn [split_on]. rewrite decide_True by done. cbn [foldl].
  change (norm_component _ [] "") with ([] : list string).
  rewrite (bool_decide_eq_false_2 ("/" = "")) by done. cbn [negb].
  assert (foldl (norm_component true) [] (split_on slash (join "/" ps)) = ps) as ->; [|done].
  destruct ps as [|p ps]; [done|]. change "/" with (String slash "").
  rewrite split_join; [by rewrite norm_components_id|done|].
  eapply list.Forall_impl; [exact H|]. by intros x (_ & _ & _ & ?).
Qed.

(** An absolute path that is its own normal form has plain components only. *)
Lemma normal_parts s : is_absolute s = true → s = normpath s →
  Forall plain_part (path_parts s) ∧ s = posix_root s +:+ join "/" (path_parts s).
Proof.
  intros Habs Hn. destruct (posix_root_absolute s Habs) as (u & Hs & Hroot).
  unfold normpath in Hn. rewrite bool_decide_eq_false_2 in Hn by (by rewrite Hs). cbv zeta in Hn.
  assert (bool_decide (posix_root s = "") = false) as Er
    by (apply bool_decide_eq_false_2; by destruct Hroot as [-> | ->]).
  rewrite Er in Hn. cbn [negb] in Hn. set (ps := foldl _ _ _) in Hn.
  assert (Forall plain_part ps) as Hps.
  { apply norm_components_plain; [|constructor]. apply list.Forall_forall.
    intros p Hp. by eapply split_on_no_sep. }
  rewrite bool_decide_eq_false_2 in Hn by (by destruct Hroot as [-> | ->]).
  assert (path_parts (posix_root s +:+ join "/" ps) = path_parts (join "/" ps)) as E.
  { destruct Hroot as [-> | ->].
    - by apply (path_parts_slash (join "/" ps)).
    - change ("//" +:+ ?x) with (String slash (String slash x)). by rewrite !path_parts_slash. }
  rewrite <-Hn, path_parts_joined in E by done. by rewrite E.
Qed.

Lemma strip_relative s : is_absolute (strip (char_in "/") s) = false.
Proof.
  destruct (strip (char_in "/") s) as [|a t] eqn:E; [done|]. apply strip_head in E.
  cbn [is_absolute]. apply bool_decide_eq_false_2. intros ->. done.
Qed.

Lemma strip_left_relative s : is_absolute s = false → strip_left (char_in "/") s = s.
Proof.
  destruct s as [|a s]; [done|]. cbn [is_absolute]. intros Ha%bool_decide_eq_false. apply strip_left_id.
  unfold char_in. cbn [has_char]. rewrite bool_decide_eq_false_2; [done|]. by intros <-.
Qed.

Lemma canonical_base_parts base : pure_parts (canonical_base base) = "/" :: path_parts base.
Proof.
  unfold canonical_base, pure_parts. change ("/" +:+ ?x) with (String slash x).
  cbn [is_absolute]. rewrite bool_decide_eq_true_2 by done.
  rewrite posix_root_single by apply strip_relative. by rewrite path_parts_slash, path_parts_strip.
Qed.

(** *** Joining plain components *)

Lemma join_snoc sep ps c : ps ≠ [] → join sep (ps ++ [c]) = join sep ps +:+ sep +:+ c.
Proof.
  induction ps as [|p [|q ps] IH]; [done|done|]. intros _.
  change (p +:+ sep +:+ join sep ((q :: ps) ++ [c])
          = (p +:+ sep +:+ join sep (q :: ps)) +:+ sep +:+ c).
  rewrite IH by done. by rewrite <-!append_assoc.
Qed.

Lemma join_append sep ps c t : join sep (ps ++ [c]) +:+ t = join sep (ps ++ [c +:+ t]).
Proof.
  destruct (decide (ps = [])) as [->|Hne]; [done|]. by rewrite !join_snoc, <-!append_assoc by done.
Qed.

Lemma join_last_char ps : Forall plain_part ps → last_char (join "/" ps) ≠ Some slash.
Proof.
  destruct ps as [|p ps _] using rev_ind; [done|].
  intros [_ Hp]%list.Forall_app. apply list.Forall_cons in Hp as [(Hne & _ & _ & Hs) _].
  assert (last_char p ≠ Some slash) as Hl by (intros H%last_char_has; congruence).
  destruct (decide (ps = [])) as [->|Hps]; [done|]. rewrite join_snoc by done.
  destruct p as [|a p]; [done|]. rewrite append_assoc, last_char_append. exact Hl.
Qed.

Lemma posix_join_plain ps c :
  Forall plain_part ps → plain_part c → posix_join (join "/" ps) c = join "/" (ps ++ [c]).
Proof.
  intros Hps Hc. unfold posix_join.
  assert (is_absolute c = false) as -> by (by apply (join_relative [c]), list.Forall_singleton).
  destruct (decide (ps = [])) as [->|Hne]; [done|].
  rewrite (bool_decide_eq_false_2 (last_char _ = _)) by by apply join_last_char.
  rewrite join_snoc, bool_decide_eq_false_2; [done| |done].
  destruct ps as [|p ps]; [done|]. apply list.Forall_cons in Hps as [(Hp & _) _].
  destruct p as [|a p]; [done|]. by destruct ps.
Qed.

Lemma path_chars_plain s :
  all_chars is_path_char s = true → s ≠ "" → s ≠ "." → s ≠ ".." → plain_part s.
Proof. intros Hc ???. split_and!; [done..|]. by eapply path_char_excludes. Qed.

Section accepted.
Context (nfkd : string → string).

Lemma recorded_path_parts base v remote error_code layout segment :
  validate_recorded_revision_path nfkd base v remote error_code = Ok (layout, segment) →
  let uuid := rv_revision_uuid (vw_revision v) in
  let timestamp := backup_creation_timestamp (Aware (rv_created (vw_revision v))) in
  is_absolute remote = true ∧ Forall plain_part (path_parts remote) ∧ unsafe_text remote = false ∧
  ∃ leaf, path_parts remote = path_parts base ++ "devices" :: segment :: layout :: leaf ∧
    (layout = "revisions" ∧ leaf = [uuid] ∨ layout = "backups" ∧
     (leaf = [timestamp] ∨ leaf = [timestamp +:+ "-r" +:+ pretty (rv_pk (vw_revision v))] ∨
      leaf = [timestamp; uuid])).
Proof.
  intros Hv uuid timestamp. unfold validate_recorded_revision_path in Hv. cbv zeta in Hv.
  rewrite canonical_base_parts in Hv. cbn [drop] in Hv.
  change (drop 0 (path_parts base)) with (path_parts base) in Hv.
  set (prefix := "/" :: path_parts base ++ ["devices"]) in Hv.
  destruct (recorded_path_invalid base remote || _ || _) eqn:E; [done|].
  apply orb_false_iff in E as [E _]. apply orb_false_iff in E as [Hinv Hpre].
  apply negb_false_iff, bool_decide_eq_true in Hpre.
  unfold recorded_path_invalid in Hinv. rewrite !orb_false_iff, !negb_false_iff in Hinv.
  destruct Hinv as (((((_ & Habs) & Hnorm%bool_decide_eq_true) & _) & Hsafe) & _).
  assert (is_absolute remote = true) as Habs'.
  { destruct remote as [|a r]; [done|]. cbn [is_absolute]. apply bool_decide_eq_true_2.
    unfold starts_with in Habs. apply String.prefix_correct in Habs. by injection Habs as ->. }
  destruct (normal_parts remote Habs' Hnorm) as [Hplain _].
  split_and!; [done..|].
  assert (pure_parts remote = prefix ++ drop (length prefix) (pure_parts remote)) as Hparts
    by (rewrite <-Hpre at 1; by rewrite take_drop).
  destruct (drop (length prefix) (pure_parts remote)) as [|segment' [|layout' leaf]] eqn:Ed; [done..|].
  destruct (negb _) in Hv; [done|].
  destruct (revision_leaves v layout' _) as [leaves|] eqn:El; [|done].
  case_bool_decide as Hin; [|done]. injection Hv as -> ->.
  exists leaf. split.
  - unfold pure_parts in Hparts. rewrite Habs' in Hparts. unfold prefix in Hparts.
    cbn [app] in Hparts. injection Hparts as _ ->. by rewrite <-app_assoc.
  - unfold revision_leaves in El. cbv zeta in El.
    destruct (bool_decide (layout = "revisions") && _) eqn:E1.
    { apply andb_true_iff in E1 as [->%bool_decide_eq_true _]. injection El as <-.
      apply list_elem_of_singleton in Hin. auto. }
    destruct (bool_decide (layout = "backups") && _) eqn:E2.
    { apply andb_true_iff in E2 as [->%bool_decide_eq_true _]. injection El as <-.
      rewrite elem_of_cons, list_elem_of_singleton in Hin. destruct Hin; auto. }
    clear E2. destruct (bool_decide (layout = "backups") && _) eqn:E3; [|done].
    apply andb_true_iff in E3 as [->%bool_decide_eq_true _]. injection El as <-.
    apply list_elem_of_singleton in Hin. auto.
Qed.

Lemma checked_path_string base v remote error_code layout segment :
  validate_recorded_revision_path nfkd base v remote error_code = Ok (layout, segment) →
  remote = "/" +:+ join "/" (path_parts remote) ∧ Forall plain_part (path_parts remote).
Proof.
  intros Hv. pose proof Hv as (Habs & Hplain & _)%recorded_path_parts. split; [|done].
  unfold validate_recorded_revision_path in Hv. cbv zeta in Hv.
  destruct (recorded_path_invalid base remote) eqn:Hinv; [done|]. cbn [orb] in Hv.
  rewrite canonical_base_parts in Hv. cbn [drop] in Hv.
  destruct (bool_decide (take _ (pure_parts remote) = _)) eqn:E; [|done].
  apply bool_decide_eq_true in E. unfold pure_parts in E. rewrite Habs in E. cbn [app length take] in E.
  injection E as Hroot _. unfold recorded_path_invalid in Hinv. rewrite !orb_false_iff in Hinv.
  destruct Hinv as (((((_ & _) & Hnorm%negb_false_iff%bool_decide_eq_true) & _) & _) & _).
  destruct (normal_parts remote Habs Hnorm) as [_ Hs]. by rewrite Hroot in Hs.
Qed.

(** C30: A recorded path that passes the check lies under the base path of its
    destination and belongs to its revision: it is absolute, its components
    are those of the base, [devices], a device directory, a layout and a leaf
    made of the revision's time, key or UUID; no component is empty, a dot
    name or contains a separator; and it holds no backslash, NUL or control
    character. *)
Theorem recorded_path_confined base v remote error_code layout segment :
  validate_recorded_revision_path nfkd base v remote error_code = Ok (layout, segment) →
  let uuid := rv_revision_uuid (vw_revision v) in
  let timestamp := backup_creation_timestamp (Aware (rv_created (vw_revision v))) in
  is_absolute remote = true ∧ Forall plain_part (path_parts remote) ∧ unsafe_text remote = false ∧
  ∃ leaf, path_parts remote = path_parts base ++ "devices" :: segment :: layout :: leaf ∧
    (layout = "revisions" ∧ leaf = [uuid] ∨ layout = "backups" ∧
     (leaf = [timestamp] ∨ leaf = [timestamp +:+ "-r" +:+ pretty (rv_pk (vw_revision v))] ∨
      leaf = [timestamp; uuid])).
Proof. apply recorded_path_parts. Qed.

Definition safe_char (a : ascii) : bool :=
  negb (bool_decide (a = backslash)) && negb (bool_decide (a = nul)) && (32 <=? N_of_ascii a)%N.

Lemma unsafe_text_chars s : unsafe_text s = negb (all_chars safe_char s).
Proof.
  induction s as [|a s IH]; [done|]. unfold unsafe_text in *. cbn [has_char all_chars].
  assert (∀ b c d e f g : bool, b || c || negb d = negb e →
    (f || b) || (g || c) || negb ((32 <=? N_of_ascii a)%N && d)
      = negb (negb f && negb g && (32 <=? N_of_ascii a)%N && e)) as H.
  { intros b c d e f g He. destruct b, c, d, e, f, g, (32 <=? N_of_ascii a)%N; done. }
  unfold safe_char. by apply H.
Qed.

Lemma path_chars_safe s : all_chars is_path_char s = true → all_chars safe_char s = true.
Proof. apply all_chars_weaken. by intros [[] [] [] [] [] [] [] []]. Qed.

(** A base path as the check of recorded paths asks for it. *)
Definition base_ok (base : string) : Prop :=
  canonical_base base = normpath (canonical_base base) ∧ unsafe_text (strip (char_in "/") base) = false.

Lemma base_parts base : base_ok base →
  Forall plain_part (path_parts base) ∧ strip (char_in "/") base = join "/" (path_parts base) ∧
  Forall (λ p, all_chars safe_char p = true) (path_parts base).
Proof.
  intros [Hn Hs]. unfold canonical_base in Hn. change ("/" +:+ ?x) with (String slash x) in Hn.
  destruct (normal_parts (String slash (strip (char_in "/") base))) as [Hp He]; [done|done|].
  rewrite posix_root_single, path_parts_slash, path_parts_strip in He by apply strip_relative.
  rewrite path_parts_slash, path_parts_strip in Hp. split_and!; [done|by injection He|].
  rewrite unsafe_text_chars, negb_false_iff in Hs. rewrite <-path_parts_strip.
  apply Forall_filtered. by apply all_chars_split.
Qed.

Lemma generated_path_string base name device created id uuid path :
  base_ok base → 0 <= device →
  ftp_revision_destination_path nfkd base (Some name) device created (Some id) uuid = Ok path →
  let parts := path_parts base ++ ["devices"; device_directory_name nfkd (Some name) device; "backups";
                 backup_creation_timestamp created +:+ "-r" +:+ pretty id] in
  path = "/" +:+ join "/" parts ∧ Forall plain_part parts ∧
  Forall (λ p, all_chars safe_char p = true) parts.
Proof.
  intros Hb Hd H parts. destruct (base_parts base Hb) as (Hp & Hs & Hsafe).
  destruct (device_directory_name_part nfkd (Some name) device Hd) as (_ & Hrel & Hdd & Hc).
  pose proof (device_directory_name_dots nfkd (Some name) device Hd) as [Hne Hdot].
  assert (plain_part (device_directory_name nfkd (Some name) device)) as Hdir.
  { apply path_chars_plain; [done|done| |done]. intros E. rewrite E in Hdot. by apply (Hdot "."%char). }
  set (ts := backup_creation_timestamp created) in *.
  assert (all_chars is_path_char ts = true) as Htc by apply timestamp_chars.
  assert (all_chars is_path_char (ts +:+ "-r" +:+ pretty id) = true) as Hleaf
    by (by rewrite !all_chars_app, Htc, pretty_Z_path_chars).
  assert (plain_part ts ∧ plain_part (ts +:+ "-r" +:+ pretty id)) as [Hts Hl].
  { destruct (timestamp_head created) as (a & t & E).
    assert (ts ≠ "." ∧ ts ≠ "..") as [??].
    { split; intros E'; pose proof (timestamp_has_char "."%char created) as Hdt; fold ts in Hdt;
        rewrite E' in Hdt; by discriminate Hdt. }
    split; apply path_chars_plain; try done; fold ts in E; rewrite ?E; try done.
    all: intros E'; apply (f_equal (has_char "r"%char)) in E';
      rewrite <-E, !has_char_app in E'; by rewrite orb_true_r in E'. }
  assert (Forall plain_part parts) as Hparts.
  { apply list.Forall_app. split; [done|]. repeat (apply list.Forall_cons; split; [done|]). constructor. }
  split_and!; [|done|].
  - unfold ftp_revision_destination_path in H. destruct (id <=? 0); [done|]. injection H as <-.
    rewrite Hs. fold ts.
    rewrite (posix_join_plain _ "devices"), posix_join_plain, posix_join_plain, posix_join_plain
      by (done || (repeat (apply list.Forall_app; split); try done; by apply list.Forall_singleton)).
    rewrite join_append, <-!app_assoc. unfold parts. cbn [app].
    change ("/" +:+ ?x) with (String slash x). f_equal.
    apply strip_left_relative. by apply join_relative.
  - apply list.Forall_app. split; [done|].
    repeat (apply list.Forall_cons; split; [by apply path_chars_safe|]). constructor.
Qed.

(** Every path that the code generates for a revision passes the check of
    recorded paths later on, whatever the device is called by then, with the
    device directory it was generated with; and unless that directory is
    itself called [backups], the readers of the path (file names, manifest)
    find the same directory in it.  The base path is one that
    passes the check itself. *)
Theorem generated_path_accepted base name v uuid path error_code :
  (∀ s, all_chars is_ascii s = true → nfkd s = s) →
  base_ok base → key_ok (vw_device_id v) →
  ftp_revision_destination_path nfkd base (Some name) (vw_device_id v)
    (Aware (rv_created (vw_revision v))) (Some (rv_pk (vw_revision v))) uuid = Ok path →
  let segment := device_directory_name nfkd (Some name) (vw_device_id v) in
  validate_recorded_revision_path nfkd base v path error_code = Ok ("backups", segment) ∧
  uses_readable_ftp_layout path = true ∧
  (segment ≠ "backups" →
    manifest_device_segment path = Some segment ∧
    readable_stem nfkd path v = Some (backup_filename_stem nfkd (Some segment) (vw_device_id v)
                                        (Aware (rv_created (vw_revision v))))).
Proof.
  intros Hnfkd Hb Hid Hpath segment.
  destruct (generated_path_string _ _ _ _ _ _ _ Hb (proj1 Hid) Hpath) as (-> & Hplain & Hsafe).
  fold segment in Hplain, Hsafe |- *.
  set (ts := backup_creation_timestamp _) in *. set (leaf := ts +:+ "-r" +:+ pretty _) in *.
  set (parts := path_parts base ++ _) in *.
  assert (pure_parts ("/" +:+ join "/" parts) = "/" :: parts) as Hpure.
  { unfold pure_parts. change ("/" +:+ ?x) with (String slash x).
    cbn [is_absolute]. rewrite bool_decide_eq_true_2, posix_root_single by (done || by apply join_relative).
    by rewrite path_parts_slash, path_parts_joined. }
  assert (reverse ("/" :: parts) = leaf :: "backups" :: segment :: "devices" :: reverse ("/" :: path_parts base))
    as Hrev by (unfold parts; by rewrite app_comm_cons, reverse_app).
  assert (4 <= length ("/" :: parts))%nat as Hlen by (unfold parts; simpl; rewrite length_app; simpl; lia).
  split_and!.
  - unfold validate_recorded_revision_path. cbv zeta. rewrite canonical_base_parts, Hpure. cbn [drop].
    set (prefix := "/" :: path_parts base ++ ["devices"]).
    assert ("/" :: parts = prefix ++ [segment; "backups"; leaf]) as E
      by (unfold parts, prefix; cbn [app]; by rewrite <-app_assoc).
    assert (drop 0 (path_parts base) = path_parts base) as -> by done. fold prefix.
    rewrite E, take_app_length, drop_app_length. cbn [length].
    assert (recorded_path_invalid base ("/" +:+ join "/" parts) = false) as ->.
    { unfold recorded_path_invalid. rewrite normpath_plain by done. destruct Hb as [Hb1 Hb2].
      rewrite (bool_decide_eq_true_2 _ Hb1), (bool_decide_eq_true_2 _ (eq_refl _)), Hb2.
      rewrite bool_decide_eq_false_2 by done.
      assert (unsafe_text ("/" +:+ join "/" parts) = false) as ->
        by (rewrite unsafe_text_chars, all_chars_app, (all_chars_join safe_char) by done; done).
      change ("/" +:+ ?x) with (String slash x). unfold starts_with.
      by destruct (join "/" parts). }
    rewrite bool_decide_eq_true_2 by done. cbn [orb negb].
    rewrite (clean_name_fixed nfkd Hnfkd) by by apply device_directory_clean.
    assert (bool_decide (3%nat ∈ [3%nat; 4%nat]) = true) as -> by done.
    rewrite (bool_decide_eq_true_2 (segment = segment)) by done. cbn [negb].
    unfold revision_leaves. cbv zeta. fold ts. fold leaf.
    change (bool_decide ("backups" = "revisions") && _) with false.
    change (bool_decide ("backups" = "backups") && (3 =? 3)%nat) with true. cbv iota.
    rewrite bool_decide_eq_true_2; [done|]. right. by left.
  - unfold uses_readable_ftp_layout. by rewrite Hpure, Hrev.
  - intros Hseg. unfold manifest_device_segment, readable_stem. cbv zeta. rewrite Hpure.
    unfold part_from_end. rewrite Hrev. cbn [nth_error Nat.sub].
    destruct (Nat.ltb_spec (length ("/" :: parts)) 3); [lia|].
    destruct (Nat.leb_spec 4 (length ("/" :: parts))); [|lia].
    destruct (Nat.leb_spec 3 (length ("/" :: parts))); [|lia].
    rewrite (bool_decide_eq_false_2 (Some segment = _)) by congruence. by split.
Qed.
End accepted.

(** ** The names of the expected files *)

Definition types_plain (v : RevisionView) : Prop :=
  Forall (λ a, has_char slash (ar_artifact_type a) = false) (vw_artifacts v).

Section names_plain.
Context (nfkd : string → string).

Lemma artifact_filename_plain storage_key artifact_type :
  has_char slash artifact_type = false → plain_part (artifact_filename storage_key artifact_type).
Proof.
  intros Ht. unfold artifact_filename. cbv zeta.
  destruct (bool_decide (path_name storage_key = "")) eqn:E1;
    [|destruct (bool_decide (path_name storage_key ∈ ["."; ".."])) eqn:E2]; cbn [negb andb].
  1, 2: split_and!; [..|by rewrite has_char_app, Ht]; intros E;
    apply (f_equal (has_char "b"%char)) in E; by rewrite has_char_app, orb_true_r in E.
  apply bool_decide_eq_false in E1, E2. rewrite not_elem_of_cons, list_elem_of_singleton in E2.
  split_and!; [done|apply E2..|]. unfold path_name in *.
  destruct (list.last (path_parts storage_key)) as [p|] eqn:E; [|done]. cbn [default].
  apply list.last_Some_elem_of, path_parts_in in E as (_ & _ & E). exact E.
Qed.

Lemma revision_filename_plain v (readable : bool) stem a :
  has_char slash (ar_artifact_type a) = false →
  (∀ s, stem = Some s → all_chars is_path_char s = true ∧ has_char "_"%char s = true) →
  plain_part (revision_filename nfkd v readable stem a).
Proof.
  intros Ht Hs. unfold revision_filename. destruct readable; [|by apply artifact_filename_plain].
  destruct (readable_name_chars nfkd (Some (vw_device_name v)) (vw_device_id v)
    (Aware (rv_created (vw_revision v))) (ar_storage_key a) (ar_artifact_type a) (ar_is_primary a)
    stem Hs) as [Hc Hu].
  apply path_chars_plain; [done|..]; by intros E; rewrite E in Hu.
Qed.

Lemma readable_stem_chars path v s :
  readable_stem nfkd path v = Some s →
  all_chars is_path_char s = true ∧ has_char "_"%char s = true.
Proof.
  unfold readable_stem. cbv zeta. intros (seg & _ & [= <-])%bind_Some.
  split; [by apply stem_chars|apply stem_underscore].
Qed.

Lemma expected_names_plain v readable path override files :
  types_plain v →
  expected_revision_files nfkd v readable (readable_stem nfkd path v) override = Ok files →
  Forall plain_part (map ef_filename files).
Proof.
  intros Ht (manifest & Hm & _ & -> & _)%expected_revision_files_spec.
  rewrite map_app, list.Forall_app, map_map. split; [|simpl; rewrite Hm; by apply list.Forall_singleton].
  unfold types_plain in Ht. rewrite list.Forall_forall in Ht. apply list.Forall_forall.
  intros name (a & -> & Ha)%list_elem_of_fmap. apply revision_filename_plain; [by apply Ht|].
  intros s. by apply readable_stem_chars.
Qed.
End names_plain.

Lemma bin_not_manifest w : w +:+ ".bin" ≠ MANIFEST_FILENAME.
Proof. do 22 (destruct w as [|? w]; [done|]). done. Qed.
