(* ===== verification/Validation.v ===== *)
(** * Validation of the models: [models.py]

    The [clean] methods, which Django calls before a form or a serializer
    saves a row, and the check constraints of the tables.  [super().clean()],
    NetBox's check of custom fields, is not modelled. *)

From Stdlib Require Import ZArith Lia Strings.Ascii.
From stdpp Require Import base gmap sets list strings pretty.
From S2P Require Import Prelude Strings Text Models World DriverSelection Repository Destination.
From S2P Require Import RevisionFiles RecordedPaths.
#[local] Open Scope string_scope.
#[local] Open Scope list_scope.
#[local] Open Scope Z_scope.

(** [raise ValidationError({field: message})] *)
Definition field_error {A} (field message : string) : result A := Err (FieldErrors [(field, message)]).

(** One entry of a dictionary of errors. *)
Definition error_if (b : bool) (field message : string) : list (string * string) :=
  if b then [(field, message)] else [].

(** ** White space of Python texts

    [str.isspace] of a code point and [str.strip] of a text in UTF-8. *)
Definition utf8 (l : list N) : string := String.string_of_list_ascii (map ascii_of_N l).
Definition unicode_spaces : list string :=
  [utf8 [194; 133]; utf8 [194; 160]; utf8 [225; 154; 128]; utf8 [226; 128; 168]; utf8 [226; 128; 169];
   utf8 [226; 128; 175]; utf8 [226; 129; 159]; utf8 [227; 128; 128]]%N
  ++ map (λ n, utf8 [226; 128; 128 + N.of_nat n]%N) (seq 0 11).
Definition py_isspace (c : string) : bool :=
  match c with String a "" => is_space a | _ => bool_decide (c ∈ unicode_spaces) end.
Fixpoint drop_spaces (l : list string) : list string :=
  match l with c :: l' => if py_isspace c then drop_spaces l' else l | [] => [] end.
Definition py_strip (s : string) : string :=
  foldr String.append "" (reverse (drop_spaces (reverse (drop_spaces (code_points s))))).

(** ** Storages *)

Definition is_local (d : BackupDestination) : bool := bool_decide (ds_protocol d = DP_LOCAL).

(** The protocol of the default storage is fixed, and no other becomes it. *)
(* src: models.py 542 562 BackupDestination.clean *)
Definition clean_identity (original : option BackupDestination) (d : BackupDestination) : result unit :=
  match original with
  | None => Ok tt
  | Some o =>
      if is_local o && (negb (is_local d) || negb (ds_is_default d))
      then field_error "protocol" "The default Local storage type cannot be changed."
      else if negb (is_local o) && is_local d
      then field_error "protocol" "The system default Local storage already exists."
      else Ok tt
  end.

Definition not_local (b : bool) (field : string) : list (string * string) :=
  error_if b field "This remote transport setting does not apply to the Local storage.".

(* src: models.py 563 609 BackupDestination.clean *)
Definition local_errors (d : BackupDestination) : list (string * string) :=
  error_if (negb (ds_is_default d)) "is_default" "The Local storage must be the system default."
  ++ error_if (negb (ds_enabled d)) "enabled" "The default Local storage cannot be disabled."
  ++ error_if (ds_auto_replicate d) "auto_replicate"
       "The primary Local storage is written directly, not replicated."
  ++ error_if (ds_integrity_audit_enabled d) "integrity_audit_enabled"
       "Remote integrity audits do not apply to the Local storage."
  ++ error_if (truthy_id (ds_credential_profile d)) "credential_profile"
       "The Local storage does not use remote credentials."
  ++ error_if (negb (bool_decide (ds_host d = ""))) "host" "The Local storage does not use a remote host."
  ++ error_if (bool_decide (is_Some (ds_port d))) "port" "The Local storage does not use a remote port."
  ++ error_if (negb (bool_decide (ds_base_path d = ""))) "base_path"
       "The Local storage path is managed by the deployment."
  ++ error_if (negb (bool_decide (ds_mount_path d = ""))) "mount_path"
       "The Local storage does not use a network mount path."
  ++ not_local (bool_decide (is_Some (ds_connect_timeout d))) "connect_timeout"
  ++ not_local (bool_decide (is_Some (ds_max_retries d))) "max_retries"
  ++ not_local (bool_decide (is_Some (ds_retry_delay_minutes d))) "retry_delay_minutes"
  ++ not_local (bool_decide (is_Some (ds_max_artifact_size d))) "max_artifact_size"
  ++ error_if (truthy_id (ds_remote_retention_policy d)) "remote_retention_policy"
       "Select a local retention profile for the Local storage."
  ++ error_if (ds_enforce_retention_policy d && negb (truthy_id (ds_local_retention_policy d)))
       "local_retention_policy" "Select a local retention profile before enforcing it.".

Definition required_remote (value : option Z) (field : string) : list (string * string) :=
  error_if (bool_decide (value = None)) field "This remote-storage field is required.".

(* src: models.py 611 651 BackupDestination.clean *)
Definition remote_errors (d : BackupDestination) : list (string * string) :=
  let mounted := is_mounted (ds_protocol d) in
  error_if (ds_is_default d) "is_default" "Only the Local storage can be the system default."
  ++ error_if (truthy_id (ds_local_retention_policy d)) "local_retention_policy"
       "Select a remote retention profile for a remote storage."
  ++ error_if (ds_enforce_retention_policy d && negb (truthy_id (ds_remote_retention_policy d)))
       "remote_retention_policy" "Select a remote retention profile before enforcing it."
  ++ required_remote (ds_max_retries d) "max_retries"
  ++ required_remote (ds_retry_delay_minutes d) "retry_delay_minutes"
  ++ required_remote (ds_max_artifact_size d) "max_artifact_size"
  ++ (if mounted then []
      else required_remote (ds_port d) "port"
           ++ required_remote (ds_credential_profile d) "credential_profile"
           ++ required_remote (ds_connect_timeout d) "connect_timeout")
  ++ (if mounted
      then error_if (bool_decide (ds_mount_path d = "")) "mount_path"
             "Select the directory containing the mounted share."
           ++ error_if (negb (bool_decide (ds_host d = ""))) "host"
                "Mounted network storage does not use a server field."
           ++ error_if (bool_decide (is_Some (ds_port d))) "port"
                "Mounted network storage does not use a port field."
           ++ error_if (truthy_id (ds_credential_profile d)) "credential_profile"
                "Mount credentials are managed by Docker or the operating system."
           ++ error_if (bool_decide (is_Some (ds_connect_timeout d))) "connect_timeout"
                "Mounted network storage does not use a connection timeout."
      else error_if (negb (bool_decide (ds_mount_path d = ""))) "mount_path"
             "Only NFS and SMB3 storage profiles use a mount path.").

Definition raise_errors (errors : list (string * string)) : result unit :=
  match errors with [] => Ok tt | _ => Err (FieldErrors errors) end.

(** A copy that is recorded and was not deleted. *)
Definition live_copy (d : BackupDestination) (r : RevisionReplica) : Prop :=
  rp_destination r = ds_pk d ∧ rp_remote_deleted_at r = None ∧ rp_remote_path r ≠ "".
#[export] Instance live_copy_dec d r : Decision (live_copy d r).
Proof. unfold live_copy. solve_decision. Defined.

Definition frozen {A} `{EqDecision A} (new old : A) (field : string) : list (string * string) :=
  error_if (negb (bool_decide (new = old))) field
    "This endpoint field cannot be changed while remote copies exist. Create a new storage for a different endpoint or path.".

(* src: models.py 653 690 BackupDestination.clean *)
Definition clean_endpoint (db : DB) (saved : bool) (d : BackupDestination) : result unit :=
  if saved && bool_decide (filter (live_copy d) (rows (db_replicas db)) ≠ []) then
    o ← require (DoesNotExist "BackupDestination") (db_destinations db !! ds_pk d);
    raise_errors (
      frozen (ds_protocol d) (ds_protocol o) "protocol"
      ++ frozen (ds_host d) (ds_host o) "host" ++ frozen (ds_port d) (ds_port o) "port"
      ++ frozen (ds_base_path d) (ds_base_path o) "base_path"
      ++ frozen (ds_mount_path d) (ds_mount_path o) "mount_path"
      ++ frozen (ds_credential_profile d) (ds_credential_profile o) "credential_profile")
  else Ok tt.

(* src: models.py 691 706 BackupDestination.clean *)
Definition clean_protocol (db : DB) (d : BackupDestination) : result unit :=
  let ftp := bool_decide (ds_protocol d = DP_FTP) in
  if ftp && negb (ds_allow_insecure_ftp d)
  then field_error "allow_insecure_ftp" "Confirm that this destination may use unencrypted FTP."
  else
    _ ← (if ftp && truthy_id (ds_credential_profile d) then
           c ← require (DoesNotExist "CredentialProfile")
                 (ds_credential_profile d ≫= λ k, db_credentials db !! k);
           if bool_decide (cr_auth_type c = AT_PASSWORD) then Ok tt
           else field_error "credential_profile" "FTP destinations require password credentials."
         else Ok tt);
    if ds_integrity_audit_enabled d && negb (is_replicated (ds_protocol d))
    then field_error "integrity_audit_enabled" "Automatic integrity audits require remote storage."
    else Ok tt.

(* src: models.py 707 725 BackupDestination.clean *)
Definition clean_address (d : BackupDestination) : result unit :=
  if negb (is_mounted (ds_protocol d)) then
    if bool_decide (ds_host d = "") || existsb py_isspace (code_points (ds_host d))
       || existsb (λ c, has_char c (ds_host d)) [slash; backslash; "["%char; "]"%char; nul]
    then field_error "host" "Enter a valid server host name or address." else Ok tt
  else
    let mount_path := py_strip (ds_mount_path d) in
    if negb (starts_with "/" mount_path) || bool_decide (mount_path = "/")
       || has_char backslash mount_path || has_char nul mount_path
       || existsb (λ p, bool_decide (p ∈ [""; "."; ".."])) (tail (split_on slash mount_path))
    then field_error "mount_path" "Use an absolute Linux path below an allowed mount root." else Ok tt.

(** [path.replace("\", "/")] *)
Definition slashes (s : string) : string :=
  String.string_of_list_ascii (map (λ a, if bool_decide (a = backslash) then slash else a)
                                 (String.list_ascii_of_string s)).

(* src: models.py 726 738 BackupDestination.clean *)
Definition clean_base_path (d : BackupDestination) : result unit :=
  let p := py_strip (ds_base_path d) in
  let parts := split_on slash (slashes p) in
  if bool_decide (p = "") || bool_decide (p = ".") || has_char backslash p || has_char nul p
     || negb (all_chars (λ a, (32 <=? N_of_ascii a)%N) p) || bool_decide (".." ∈ parts)
  then field_error "base_path" "Use a safe POSIX path without backslashes or '..' segments."
  else Ok tt.

(* src: models.py 739 745 BackupDestination.clean *)
Definition clean_host_key (d : BackupDestination) : result unit :=
  let key_values := [ds_host_key_type d; ds_host_key_public d; ds_host_key_fingerprint_sha256 d] in
  if bool_decide (Exists (λ v, v ≠ "") key_values) && bool_decide (Exists (λ v, v = "") key_values)
  then Err (ValidationError "The approved SFTP host key is incomplete.") else Ok tt.

(** [saved] is [bool(self.pk)]. *)
(* src: models.py 540 745 BackupDestination.clean *)
Definition destination_clean (db : DB) (saved : bool) (d : BackupDestination) : result unit :=
  _ ← clean_identity (if saved then db_destinations db !! ds_pk d else None) d;
  if is_local d then raise_errors (local_errors d)
  else
    _ ← raise_errors (remote_errors d);
    _ ← clean_endpoint db saved d;
    _ ← clean_protocol db d;
    _ ← clean_address d;
    _ ← clean_base_path d;
    clean_host_key d.

(** The check constraints of the table. *)
(* src: models.py 455 537 BackupDestination *)
Definition destination_constraints (d : BackupDestination) : bool :=
  let null (v : option Z) := bool_decide (v = None) in
  let mounted := is_mounted (ds_protocol d) in
  let timing := negb (null (ds_max_retries d)) && negb (null (ds_retry_delay_minutes d))
                && negb (null (ds_max_artifact_size d)) in
  (if is_local d then ds_is_default d && null (ds_remote_retention_policy d)
   else negb (ds_is_default d) && null (ds_local_retention_policy d))
  && (negb (is_local d)
      || (ds_enabled d && negb (ds_auto_replicate d) && negb (ds_integrity_audit_enabled d)
          && negb (ds_allow_insecure_ftp d) && bool_decide (ds_base_path d = "")
          && null (ds_connect_timeout d) && null (ds_credential_profile d)
          && bool_decide (ds_host d = "") && bool_decide (ds_mount_path d = "")
          && null (ds_max_artifact_size d) && null (ds_max_retries d) && null (ds_port d)
          && null (ds_retry_delay_minutes d)))
  && (is_local d
      || (mounted && null (ds_credential_profile d) && null (ds_port d) && null (ds_connect_timeout d)
          && timing && bool_decide (ds_host d = "") && negb (bool_decide (ds_mount_path d = ""))
          && negb (bool_decide (ds_base_path d = "")))
      || (negb mounted && negb (null (ds_credential_profile d)) && negb (null (ds_port d))
          && negb (null (ds_connect_timeout d)) && timing && negb (bool_decide (ds_host d = ""))
          && negb (bool_decide (ds_base_path d = "")) && bool_decide (ds_mount_path d = "")))
  && (negb (ds_enforce_retention_policy d)
      || (if is_local d then negb (null (ds_local_retention_policy d))
          else negb (null (ds_remote_retention_policy d)))).

(** The unique constraint: there is one local storage. *)
(* src: models.py 450 454 BackupDestination *)
Definition one_local_storage (db : DB) (d : BackupDestination) : bool :=
  negb (is_local d)
  || forallb (λ o, (ds_pk o =? ds_pk d) || negb (is_local o)) (rows (db_destinations db)).

(* src: models.py 747 752 BackupDestination.known_hosts_line *)
Definition destination_known_hosts_line (d : BackupDestination) : string :=
  if negb (bool_decide (ds_protocol d = DP_SFTP)) || bool_decide (ds_host_key_public d = "") then ""
  else
    (if bool_decide (ds_port d = Some 22) then ds_host d
     else "[" +:+ ds_host d +:+ "]:" +:+ match ds_port d with Some p => pretty p | None => "None" end)
    +:+ " " +:+ ds_host_key_type d +:+ " " +:+ ds_host_key_public d.

(** ** Other models *)

(* src: models.py 78 85 OperationalSettings.clean *)
Definition clean_settings (db : DB) (s : OperationalSettings) : result unit :=
  match validate_disabled_drivers db (os_disabled_driver_ids s) with
  | Err (ValidationError message) => field_error "disabled_driver_ids" message
  | r => r
  end.

(** The entries of the list are integers by their type. *)
(* src: models.py 197 206 BackupPolicy.clean *)
Definition clean_policy (p : BackupPolicy) : result unit :=
  if negb (bool_decide (po_timezone_mode p ∈ ["site"; "plugin_default"]))
  then field_error "timezone_mode" "Unsupported timezone mode."
  else if existsb (λ v, v <? 0) (po_retry_backoff_minutes p)
  then field_error "retry_backoff_minutes" "Enter a list of non-negative integers."
  else Ok tt.

(* src: models.py 242 247 ConnectionProfile.clean *)
Definition clean_connection (c : ConnectionProfile) : ConnectionProfile :=
  if bool_decide (cp_protocol c = CP_TELNET) || negb (cp_verify_host_key c)
  then c <| cp_verify_host_key := false |> <| cp_auto_trust_first_host_key := false |>
         <| cp_known_hosts_path := "" |>
  else c.

(* src: models.py 249 255 ConnectionProfile.host_key_policy *)
Definition host_key_policy (c : ConnectionProfile) : SSHHostKeyPolicy :=
  if negb (cp_verify_host_key c) then HP_DISABLED
  else if cp_auto_trust_first_host_key c then HP_TRUST_ON_FIRST_USE
  else HP_STRICT.

(* src: models.py 858 886 SftpReceiverProfile.clean *)
Definition clean_receiver (r : SftpReceiverProfile) : result unit :=
  let direct := bool_decide (rx_mode r = RM_DIRECT) in
  _ ← (if bool_decide (rx_protocol r = RX_FTP) then
         if negb direct then field_error "mode" "The legacy FTP receiver supports direct mode only."
         else if rx_passive_port_end r <? rx_passive_port_start r
         then field_error "passive_port_end" "The last passive port must not be lower than the first."
         else if 99 <? rx_passive_port_end r - rx_passive_port_start r
         then field_error "passive_port_end" "Configure at most 100 passive FTP ports."
         else Ok tt
       else Ok tt);
  if direct && bool_decide (rx_advertised_host r = "")
  then field_error "advertised_host" "This address is required in direct mode."
  else if bool_decide (rx_bridge_host r = "")
  then field_error "bridge_host" "The worker bridge address is required."
  else if bool_decide (rx_upload_directory r = "") || bool_decide (rx_upload_directory r ∈ ["."; ".."])
          || has_char slash (rx_upload_directory r) || has_char backslash (rx_upload_directory r)
          || has_char nul (rx_upload_directory r)
  then field_error "upload_directory" "Use one plain directory name without slashes."
  else Ok tt.

Definition has_any (chars : list ascii) (s : string) : bool := existsb (λ c, has_char c s) chars.
Definition cr : ascii := ascii_of_N 13.
Definition lf : ascii := ascii_of_N 10.

(* src: models.py 1157 1166 SSHHostKey.clean *)
Definition clean_host_key_row (k : SSHHostKey) : result unit :=
  if bool_decide (hk_address k = "") || has_any [cr; lf; nul] (hk_address k)
  then field_error "address" "Enter a valid management address."
  else if bool_decide (hk_key_type k = "") || has_any [" "%char; cr; lf; nul] (hk_key_type k)
  then field_error "key_type" "The SSH key type is invalid."
  else if bool_decide (hk_public_key k = "") || has_any [" "%char; cr; lf; nul] (hk_public_key k)
  then field_error "public_key" "The SSH public key is invalid."
  else Ok tt.

Section drivers.
(** [driver_registry.contains] *)
Context (contains : string → bool).

(* src: models.py 969 979 PlatformMapping.clean *)
Definition clean_mapping (db : DB) (m : PlatformMapping) : result unit :=
  if negb (contains (pm_driver_id m)) then field_error "driver_id" "Unknown registered backup driver."
  else match validate_driver_assignment (pm_driver_id m) (disabled_driver_ids db) with
       | Err (ValidationError message) => field_error "driver_id" message
       | r => r
       end.

(* src: models.py 1074 1085 BackupTarget.clean *)
Definition clean_target (db : DB) (t : BackupTarget) : result unit :=
  if bool_decide (tg_driver_override t = "") then Ok tt
  else if negb (contains (tg_driver_override t))
  then field_error "driver_override" "Unknown registered backup driver."
  else match validate_driver_assignment (tg_driver_override t) (disabled_driver_ids db) with
       | Err (ValidationError message) => field_error "driver_override" message
       | r => r
       end.
End drivers.

(** ** What validation establishes *)

Lemma raise_errors_Ok errors : raise_errors errors = Ok tt → errors = [].
Proof. by destruct errors. Qed.

Lemma error_if_nil b field message : error_if b field message = [] ↔ b = false.
Proof. by destruct b. Qed.

Lemma truthy_none (v : option Z) : (∀ k, v = Some k → 0 < k) → truthy_id v = false → v = None.
Proof.
  destruct v as [k|]; [|done]. intros Hk. specialize (Hk k eq_refl). unfold truthy_id.
  destruct (Z.eqb_spec k 0); [lia|done].
Qed.

(** Keys of rows are positive. *)
Record keys_positive (d : BackupDestination) : Prop := {
  kp_credential : ∀ k, ds_credential_profile d = Some k → 0 < k;
  kp_local : ∀ k, ds_local_retention_policy d = Some k → 0 < k;
  kp_remote : ∀ k, ds_remote_retention_policy d = Some k → 0 < k;
}.

(** What [error_if] in a clean list of errors says, for [simplify_errors]. *)
Ltac simplify_errors H :=
  repeat match type of H with
  | _ ++ _ = [] => let H1 := fresh "H" in apply app_eq_nil in H as [H1 H]; simplify_errors H1
  end;
  unfold not_local, required_remote in H; rewrite ?error_if_nil in H.

(** The conditions of a clean list of errors as rewrite rules. *)
Ltac conditions :=
  repeat match goal with
  | H : negb _ = false |- _ => apply negb_false_iff in H
  | H : bool_decide (is_Some ?x) = false |- _ =>
      apply bool_decide_eq_false in H; apply eq_None_not_Some in H
  | Hk : ∀ k, ?x = Some k → 0 < k, H : truthy_id ?x = false |- _ =>
      apply (truthy_none _ Hk) in H
  end;
  repeat match goal with H : ?x = _ |- context [?x] => rewrite H end.

Lemma clean_local_constraints d :
  keys_positive d → is_local d = true → local_errors d = [] → ds_allow_insecure_ftp d = false →
  destination_constraints d = true.
Proof.
  intros [Hc _ Hr] Hl He Hi. unfold local_errors in He. simplify_errors He.
  unfold destination_constraints. cbv zeta. conditions.
  destruct (ds_enforce_retention_policy d); [|done].
  destruct (ds_local_retention_policy d); [done|]. done.
Qed.

Lemma clean_remote_constraints d :
  keys_positive d → is_local d = false → remote_errors d = [] → ds_base_path d ≠ "" →
  (is_mounted (ds_protocol d) = false → ds_host d ≠ "") →
  destination_constraints d = true.
Proof.
  intros [Hc Hl' Hr] Hl He Hb Hh. apply (bool_decide_eq_false_2 (ds_base_path d = "")) in Hb.
  unfold remote_errors in He. cbv zeta in He. unfold destination_constraints. cbv zeta.
  destruct (is_mounted (ds_protocol d)); cbv beta iota in He.
  - simplify_errors He. conditions. destruct (ds_enforce_retention_policy d); [|done].
    destruct (ds_remote_retention_policy d); [done|]. done.
  - specialize (Hh eq_refl). apply (bool_decide_eq_false_2 (ds_host d = "")) in Hh. simplify_errors He.
    conditions. destruct (ds_enforce_retention_policy d); [|done].
    destruct (ds_remote_retention_policy d); [done|]. done.
Qed.

Lemma clean_remote_Ok db saved d :
  is_local d = false → destination_clean db saved d = Ok tt →
  clean_identity (if saved then db_destinations db !! ds_pk d else None) d = Ok tt ∧
  remote_errors d = [] ∧ clean_endpoint db saved d = Ok tt ∧ clean_protocol db d = Ok tt ∧
  clean_address d = Ok tt ∧ clean_base_path d = Ok tt.
Proof.
  intros Hl Hc. unfold destination_clean in Hc. rewrite Hl in Hc.
  apply result_bind_Ok in Hc as ([] & H1 & Hc). apply result_bind_Ok in Hc as ([] & H2%raise_errors_Ok & Hc).
  apply result_bind_Ok in Hc as ([] & H3 & Hc). apply result_bind_Ok in Hc as ([] & H4 & Hc).
  apply result_bind_Ok in Hc as ([] & H5 & Hc). apply result_bind_Ok in Hc as ([] & H6 & _). done.
Qed.

(** An edited storage is local exactly when it was. *)
Lemma clean_one_local db d o :
  keyed ds_pk (db_destinations db) → db_destinations db !! ds_pk d = Some o →
  (∀ x, x ∈ rows (db_destinations db) → one_local_storage db x = true) →
  destination_clean db true d = Ok tt → one_local_storage db d = true.
Proof.
  intros Hkey Ho Hone Hc. unfold destination_clean in Hc.
  apply result_bind_Ok in Hc as ([] & Hi & _). unfold clean_identity in Hi. rewrite Ho in Hi.
  destruct (is_local d) eqn:Hl; [|by unfold one_local_storage; rewrite Hl].
  destruct (is_local o) eqn:Hol; [|done]. pose proof (Hkey _ _ Ho) as Hpk.
  assert (o ∈ rows (db_destinations db)) as Hin by (apply elem_of_rows; eauto).
  specialize (Hone o Hin). unfold one_local_storage in *. by rewrite Hl, <-Hpk, Hol in *.
Qed.

(** C31: Validation implies the constraints of the table: a storage that
    [clean] accepts satisfies the check constraints, whatever its type, provided
    that the default storage does not allow insecure FTP, the one field of
    those constraints that [clean] does not look at; and editing a storage
    keeps the local one unique.  (That a second one is not created is left to
    the database.) *)
Theorem clean_destination_constraints db saved d :
  keys_positive d → (is_local d = true → ds_allow_insecure_ftp d = false) →
  destination_clean db saved d = Ok tt →
  destination_constraints d = true ∧
  (∀ o, saved = true → db_destinations db !! ds_pk d = Some o →
     keyed ds_pk (db_destinations db) →
     (∀ x, x ∈ rows (db_destinations db) → one_local_storage db x = true) →
     one_local_storage db d = true).
Proof.
  intros Hk Hi Hc. split.
  2: { intros o -> Ho Hkey Hone. by eapply clean_one_local. }
  destruct (is_local d) eqn:Hl.
  - unfold destination_clean in Hc. rewrite Hl in Hc.
    apply result_bind_Ok in Hc as ([] & _ & Hc%raise_errors_Ok). apply clean_local_constraints; auto.
  - apply clean_remote_Ok in Hc as (_ & Hr & _ & _ & Ha & Hb); [|done].
    apply clean_remote_constraints; [done..| |].
    + intros E. unfold clean_base_path in Hb. by rewrite E in Hb.
    + intros Hm E. unfold clean_address in Ha. by rewrite Hm, E in Ha.
Qed.

Lemma frozen_nil {A} `{EqDecision A} (new old : A) field : frozen new old field = [] ↔ new = old.
Proof.
  unfold frozen. rewrite error_if_nil. rewrite negb_false_iff. apply bool_decide_eq_true.
Qed.

(** C32: The endpoint of a storage that holds copies does not change: as long as
    a copy is recorded and not deleted, [clean] accepts only the protocol,
    host, port, paths and credentials that are saved, so that a recorded path
    keeps naming the same place. *)
Theorem clean_destination_endpoint db d o r :
  db_destinations db !! ds_pk d = Some o → is_local o = false →
  r ∈ rows (db_replicas db) → live_copy d r →
  destination_clean db true d = Ok tt →
  ds_protocol d = ds_protocol o ∧ ds_host d = ds_host o ∧ ds_port d = ds_port o ∧
  ds_base_path d = ds_base_path o ∧ ds_mount_path d = ds_mount_path o ∧
  ds_credential_profile d = ds_credential_profile o.
Proof.
  intros Ho Hol Hr Hlive Hc. destruct (is_local d) eqn:Hl.
  { unfold destination_clean in Hc. apply result_bind_Ok in Hc as ([] & Hi & _).
    unfold clean_identity in Hi. by rewrite Ho, Hol, Hl in Hi. }
  apply clean_remote_Ok in Hc as (_ & _ & He & _); [|done]. unfold clean_endpoint in He.
  rewrite bool_decide_eq_true_2 in He.
  2: { intros E. assert (r ∈ filter (live_copy d) (rows (db_replicas db))) as Hin
         by (by apply list_elem_of_filter). rewrite E in Hin. by apply elem_of_nil in Hin. }
  cbn [andb] in He. rewrite Ho in He. cbn [require mbind result_bind] in He.
  apply raise_errors_Ok in He.
  repeat match type of He with _ ++ _ = [] =>
    let H := fresh in apply app_eq_nil in He as [H He]; apply frozen_nil in H
  end.
  apply frozen_nil in He. by split_and!.
Qed.

(** Validation is weaker than the check of recorded paths.  A base path
    with an empty or a [.] component is accepted by [clean], but no path below
    it ever passes [_validate_recorded_revision_path]: every replication,
    audit and deletion at that storage fails.  A normalised one is what the
    paths of revisions rely on. *)
Theorem clean_base_path_unusable d :
  clean_base_path d = Ok tt → py_strip (ds_base_path d) = ds_base_path d →
  (canonical_base (ds_base_path d) = normpath (canonical_base (ds_base_path d)) →
     base_ok (ds_base_path d)) ∧
  (canonical_base (ds_base_path d) ≠ normpath (canonical_base (ds_base_path d)) →
     ∀ nfkd v remote error_code,
       is_ok (validate_recorded_revision_path nfkd (ds_base_path d) v remote error_code) = false).
Proof.
  unfold clean_base_path. intros Hb Hs. rewrite Hs in Hb. cbv zeta in Hb. split.
  - intros Hn. split; [done|]. rewrite unsafe_text_chars. apply negb_false_iff.
    apply all_chars_strip_right, all_chars_strip_left.
    destruct (bool_decide _ || _ || _ || _ || _ || _) eqn:E; [done|]. rewrite !orb_false_iff in E.
    destruct E as (((((_ & _) & Hbs) & Hnul) & Hctl%negb_false_iff) & _).
    clear -Hbs Hnul Hctl. revert Hbs Hnul Hctl. generalize (ds_base_path d). intros s.
    induction s as [|a s IH]; [done|]. cbn [has_char all_chars]. unfold safe_char.
    rewrite !orb_false_iff, !andb_true_iff, !bool_decide_eq_false.
    intros [H1 H2] [H3 H4] [H5 H6]. split_and!; [| |done|by apply IH].
    all: apply negb_true_iff, bool_decide_eq_false; congruence.
  - intros Hn nfkd v remote error_code. unfold validate_recorded_revision_path. cbv zeta.
    assert (recorded_path_invalid (ds_base_path d) remote = true) as ->; [|done].
    unfold recorded_path_invalid. rewrite (bool_decide_eq_false_2 (canonical_base _ = _)) by done.
    cbn [negb]. by rewrite orb_true_r.
Qed.

(** ** Concrete storages *)

Module ValidationExamples.
Definition password : CredentialProfile :=
  {| cr_pk := 8; cr_provider_id := "environment"; cr_secret_reference := "X"; cr_auth_type := AT_PASSWORD |}.
Definition saved : BackupDestination := MemoryDestination.ftp 5 "/backups".
Definition copy : RevisionReplica :=
  {| rp_pk := 100; rp_revision := 20; rp_destination := 5; rp_status := RP_SUCCESS; rp_attempts := 1;
     rp_queued_at := 0; rp_started_at := None; rp_finished_at := None; rp_next_retry_at := None;
     rp_bytes_transferred := 0; rp_remote_path := "/backups/x"; rp_remote_available := true;
     rp_remote_deleted_at := None; rp_error_code := ""; rp_error_message := ""; rp_job_id := None |}.
Definition db : DB :=
  WorldExamples.empty_db <| db_credentials := {[8 := password]} |> <| db_destinations := {[5 := saved]} |>
    <| db_replicas := {[100 := copy]} |>.

(** Renaming the host of a storage with copies is refused. *)
Example endpoint_refused : is_ok (destination_clean db true (saved <| ds_host := "other" |>)) = false.
Proof. vm_compute. reflexivity. Qed.

Example default_storage_needs_ftp_flag :
  let local := saved <| ds_protocol := DP_LOCAL |> <| ds_is_default := true |> <| ds_auto_replicate := false |>
    <| ds_host := "" |> <| ds_port := None |> <| ds_base_path := "" |> <| ds_credential_profile := None |>
    <| ds_connect_timeout := None |> <| ds_max_retries := None |> <| ds_retry_delay_minutes := None |>
    <| ds_max_artifact_size := None |> in
  destination_clean WorldExamples.empty_db false local = Ok tt ∧ destination_constraints local = false.
Proof. vm_compute. split; reflexivity. Qed.

Lemma saved_keys : keys_positive saved.
Proof. split; intros k E; [injection E as <-; lia|discriminate E|discriminate E]. Qed.

Example clean_destination_constraints_witness :
  destination_clean db true saved = Ok tt ∧ destination_constraints saved = true.
Proof.
  assert (destination_clean db true saved = Ok tt) as H by (vm_compute; reflexivity). split; [exact H|].
  refine (proj1 (clean_destination_constraints db true saved saved_keys _ H)). intros Hl. discriminate Hl.
Defined.

(** [clean] accepts a second local storage; the unique constraint does not. *)
Example second_local_storage :
  let local := saved <| ds_pk := 9 |> <| ds_protocol := DP_LOCAL |> <| ds_is_default := true |>
    <| ds_auto_replicate := false |> <| ds_allow_insecure_ftp := false |>
    <| ds_host := "" |> <| ds_port := None |> <| ds_base_path := "" |> <| ds_credential_profile := None |>
    <| ds_connect_timeout := None |> <| ds_max_retries := None |> <| ds_retry_delay_minutes := None |>
    <| ds_max_artifact_size := None |> in
  let db := db <| db_destinations := {[1 := local <| ds_pk := 1 |>]} |> in
  destination_clean db false local = Ok tt ∧ one_local_storage db local = false.
Proof. vm_compute. split; reflexivity. Qed.

(** Another timeout is accepted, and the endpoint is as it was. *)
Definition slower : BackupDestination := saved <| ds_connect_timeout := Some 60 |>.
Example clean_destination_endpoint_witness :
  destination_clean db true slower = Ok tt ∧ ds_host slower = "5" ∧ ds_base_path slower = "/backups".
Proof.
  assert (destination_clean db true slower = Ok tt) as H by (vm_compute; reflexivity).
  destruct (clean_destination_endpoint db slower saved copy)
    as (_ & Hhost & _ & Hbase & _); [vm_compute; reflexivity| | | |exact H|].
  - vm_compute. reflexivity.
  - vm_compute. left.
  - split_and!; done.
  - split; [exact H|]. split; [rewrite Hhost; vm_compute; reflexivity|exact Hbase].
Defined.

Example clean_base_path_unusable_witness :
  clean_base_path (MemoryDestination.ftp 5 "nas//backups") = Ok tt ∧
  ∀ nfkd v remote error_code,
    is_ok (validate_recorded_revision_path nfkd "nas//backups" v remote error_code) = false.
Proof.
  split; [vm_compute; reflexivity|].
  refine (proj2 (clean_base_path_unusable (MemoryDestination.ftp 5 "nas//backups") _ _) _).
  - vm_compute. reflexivity.
  - vm_compute. reflexivity.
  - vm_compute. discriminate.
Defined.
End ValidationExamples.
