(* ===== verification/FtpClient.v ===== *)
(** * FTP sessions: [ftplib] as [services/destination_ftp.py] uses it

    A server is an arbitrary machine: it answers every command as it likes
    and its state is its own.  A session holds the server and the commands
    sent so far; the methods of [ftplib.FTP] send commands and turn replies
    into results and exceptions the way the library does.

    What is proved here holds for every server: the state it reaches is the
    state the commands sent lead to, and a computation that sends only
    commands of a kind is shown to do so by the rules of [keeps]. *)

From Stdlib Require Import ZArith Lia Strings.Ascii.
From stdpp Require Import base gmap sets list strings.
From S2P Require Import Prelude Strings Text Hashing Json.
#[local] Open Scope string_scope.
#[local] Open Scope list_scope.
#[local] Open Scope Z_scope.

(** ** The wire *)

Inductive FtpCommand :=
  | F_connect (host : string) (port : Z)   (* the TCP connection *)
  | F_welcome                              (* the greeting of the server *)
  | F_user (user : string)
  | F_pass (password : string)
  | F_acct (account : string)
  | F_type (code : string)
  | F_cwd (path : string)
  | F_mkd (path : string)
  | F_rmd (path : string)
  | F_dele (path : string)
  | F_rnfr (path : string)
  | F_rnto (path : string)
  | F_size (path : string)
  | F_quit
  | F_nlst (path : option string)
  | F_retr (path : string)
  | F_stor (path : string) (content : bytes).

(** What reading one reply gives: a reply, or a failure of the connection.
    The texts are those of the exceptions. *)
Inductive Answer :=
  | Reply (line : string)
  | Refused (text : string)
  | TimedOut (text : string)
  | Broken (text : string)
  | Overlong (text : string)
  | Closed.

(** A transfer on a data connection: a failure to open it (PASV or EPSV,
    then the TCP connection), the replies before the data, the second of
    them read only after a reply 2xx, the data, a failure while it is
    transferred, and the reply at the end. *)
Record Transfer := {
  tf_channel : option Answer;
  tf_first : Answer;
  tf_second : Answer;
  tf_chunks : list bytes;
  tf_broken : option Answer;
  tf_final : Answer;
}.

Class FtpServer (R : Type) := {
  ftp_answer : FtpCommand → R → Answer * R;
  ftp_transfer : FtpCommand → R → Transfer * R;
}.

Definition is_transfer (c : FtpCommand) : bool :=
  match c with F_nlst _ | F_retr _ | F_stor _ _ => true | _ => false end.

(** The state a command leaves the server in. *)
Definition ftp_step `{FtpServer R} (r : R) (c : FtpCommand) : R :=
  if is_transfer c then (ftp_transfer c r).2 else (ftp_answer c r).2.

Definition command_text (c : FtpCommand) : string :=
  match c with
  | F_user s | F_pass s | F_acct s | F_type s | F_cwd s | F_mkd s | F_rmd s | F_dele s
  | F_rnfr s | F_rnto s | F_size s | F_retr s | F_stor s _ => s
  | F_nlst s => default "" s
  | F_connect _ _ | F_welcome | F_quit => ""
  end.

(** [ss_output] is what a callback of a download writes elsewhere: the
    members of the archive a recovery builds. *)
Record Session (R : Type) := {
  ss_server : R;
  ss_sent : list FtpCommand;
  ss_open : bool;
  ss_output : list (string * bytes);
}.
Arguments ss_server {R}.
Arguments ss_sent {R}.
Arguments ss_open {R}.
Arguments ss_output {R}.
#[export] Instance eta_Session R : Eta (Session R) := λ s,
  {| ss_server := ss_server s; ss_sent := ss_sent s; ss_open := ss_open s;
     ss_output := ss_output s |}.

(** [except ftplib.all_errors] *)
Definition is_ftp_error (e : exn) : bool :=
  match e with
  | FtpErrorTemp _ | FtpErrorPerm _ | FtpError _ | EOFError => true
  | e => is_os_error e
  end.

(** [str(exc)] *)
Definition exn_text (e : exn) : string :=
  match e with
  | FtpErrorTemp t | FtpErrorPerm t | FtpError t | SocketError t | TimeoutError t
  | ConnectionRefusedError t => t
  | _ => ""
  end.

Definition first_char (s : string) : string := string_take 1 s.

(** ** Reading replies *)

(** [FTP.getresp] *)
Definition getresp (a : Answer) : result string :=
  match a with
  | Reply line =>
      match utf8_decode line with
      | None => Err (ValueError "invalid utf-8")
      | Some _ =>
          if bool_decide (first_char line ∈ ["1"; "2"; "3"]) then Ok line
          else if bool_decide (first_char line = "4") then Err (FtpErrorTemp line)
          else if bool_decide (first_char line = "5") then Err (FtpErrorPerm line)
          else Err (FtpError line)
      end
  | Refused t => Err (ConnectionRefusedError t)
  | TimedOut t => Err (TimeoutError t)
  | Broken t => Err (SocketError t)
  | Overlong t => Err (FtpError t)
  | Closed => Err EOFError
  end.

(** [FTP.voidresp] *)
Definition voidresp (a : Answer) : result string :=
  resp ← getresp a;
  if bool_decide (first_char resp = "2") then Ok resp else Err (FtpError resp).

(** What ended an attempt: an unexpected reply is an [error_reply]. *)
Definition failed_with (a : option Answer) : result unit :=
  match a with
  | None => Ok tt
  | Some a => resp ← getresp a; Err (FtpError resp)
  end.

(** [FTP.ntransfercmd], after the command is sent. *)
Definition open_transfer (t : Transfer) : result unit :=
  _ ← failed_with (tf_channel t);
  resp ← getresp (tf_first t);
  resp ← if bool_decide (first_char resp = "2") then getresp (tf_second t) else Ok resp;
  if bool_decide (first_char resp = "1") then Ok tt else Err (FtpError resp).

(** [int(s)] on ASCII text. *)
Fixpoint int_digits (s : string) (value : Z) (after_digit : bool) : option Z :=
  match s with
  | EmptyString => if after_digit then Some value else None
  | String a s' =>
      if is_digit a then int_digits s' (value * 10 + (Z.of_N (N_of_ascii a) - 48)) true
      else if bool_decide (a = "_"%char) && after_digit then int_digits s' value false
      else None
  end.
Definition py_int (s : string) : result Z :=
  let s := strip is_space s in
  let '(sign, digits) := match s with
    | String a s' => if bool_decide (a = "-"%char) then (-1, s')
                     else if bool_decide (a = "+"%char) then (1, s') else (1, s)
    | EmptyString => (1, s)
    end in
  if (max_str_digits <? String.length (filter_chars is_digit digits))%nat
  then Err (ValueError "Exceeds the limit for integer string conversion")
  else match int_digits digits 0 false with
       | Some n => Ok (sign * n)
       | None => Err (ValueError "invalid literal for int()")
       end.

(** The lines of a text read with universal newlines. *)
Fixpoint universal_newlines (s : string) : string :=
  match s with
  | EmptyString => ""
  | String a s' =>
      if bool_decide (a = ascii_of_N 13)
      then match s' with
           | String b s'' => if bool_decide (b = ascii_of_N 10)
                             then String b (universal_newlines s'')
                             else String (ascii_of_N 10) (universal_newlines s')
           | EmptyString => String (ascii_of_N 10) ""
           end
      else String a (universal_newlines s')
  end.
Definition text_lines (s : string) : list string :=
  let lines := split_on (ascii_of_N 10) (universal_newlines s) in
  if bool_decide (list.last lines = Some "") then removelast lines else lines.

Section client.
Context {R : Type} `{!FtpServer R}.

Definition sent (c : FtpCommand) (s : Session R) : Session R :=
  s <| ss_server ::= λ r, ftp_step r c |> <| ss_sent ::= λ l, l ++ [c] |>.

(** [FTP.putcmd] and the server's answer.  [FTP.putline] refuses line breaks. *)
Definition check_line (c : FtpCommand) : result unit :=
  if has_char (ascii_of_N 13) (command_text c) || has_char (ascii_of_N 10) (command_text c)
  then Err (ValueError "an illegal newline character should not be contained")
  else Ok tt.
Definition exchange (c : FtpCommand) : M (Session R) Answer := λ s,
  match check_line c with
  | Ok _ => (Ok (ftp_answer c (ss_server s)).1, sent c s)
  | Err e => (Err e, s)
  end.
Definition transfer (c : FtpCommand) : M (Session R) Transfer := λ s,
  match check_line c with
  | Ok _ => (Ok (ftp_transfer c (ss_server s)).1, sent c s)
  | Err e => (Err e, s)
  end.

Definition sendcmd (c : FtpCommand) : M (Session R) string := a ← exchange c; lift (getresp a).
Definition voidcmd (c : FtpCommand) : M (Session R) unit :=
  a ← exchange c; _ ← lift (voidresp a); mret tt.

(** ** The methods of [ftplib.FTP]

    Paths here are absolute, so that the special cases of [FTP.cwd] for [..]
    and the empty path do not arise. *)
Definition ftp_connect (timeout : option Z) (host : string) (port : option Z) : M (Session R) unit :=
  port ← lift (require TypeError port);
  _ ← lift (if bool_decide (timeout = Some 0)
            then Err (ValueError "Non-blocking socket (timeout=0) is not supported") else Ok tt);
  a ← exchange (F_connect host (if 0 <? port then port else 21));
  _ ← lift (match a with Reply _ => Ok "" | a => getresp a end);
  _ ← modify (λ s, s <| ss_open := true |>);
  _ ← sendcmd F_welcome; mret tt.

Definition ftp_login (user password : string) : M (Session R) unit :=
  let user := if bool_decide (user = "") then "anonymous" else user in
  let password := if bool_decide (user = "anonymous") && bool_decide (password ∈ [""; "-"])
                  then password +:+ "anonymous@" else password in
  resp ← sendcmd (F_user user);
  resp ← (if bool_decide (first_char resp = "3") then sendcmd (F_pass password) else mret resp);
  resp ← (if bool_decide (first_char resp = "3") then sendcmd (F_acct "") else mret resp);
  if bool_decide (first_char resp = "2") then mret tt else raise (FtpError resp).

Definition ftp_cwd (path : string) : M (Session R) unit := voidcmd (F_cwd path).
Definition ftp_mkd (path : string) : M (Session R) unit := voidcmd (F_mkd path).
Definition ftp_rmd (path : string) : M (Session R) unit := voidcmd (F_rmd path).
Definition ftp_type (code : string) : M (Session R) unit := voidcmd (F_type code).

Definition ftp_delete (path : string) : M (Session R) unit :=
  resp ← sendcmd (F_dele path);
  if bool_decide (string_take 3 resp ∈ ["250"; "200"]) then mret tt else raise (FtpError resp).

Definition ftp_rename (source target : string) : M (Session R) unit :=
  resp ← sendcmd (F_rnfr source);
  if bool_decide (first_char resp = "3") then voidcmd (F_rnto target) else raise (FtpError resp).

Definition ftp_size (path : string) : M (Session R) (option Z) :=
  resp ← sendcmd (F_size path);
  if bool_decide (string_take 3 resp = "213")
  then n ← lift (py_int (String.substring 3 (String.length resp) resp)); mret (Some n)
  else mret None.

(** [FTP.retrbinary]: the callback gets the chunks in turn. *)
Definition ftp_retrbinary {B} (path : string) (start : B) (callback : B → bytes → M (Session R) B)
    : M (Session R) B :=
  _ ← ftp_type "I";
  t ← transfer (F_retr path);
  _ ← lift (open_transfer t);
  acc ← for_fold (tf_chunks t) start callback;
  _ ← lift (failed_with (tf_broken t));
  _ ← lift (voidresp (tf_final t));
  mret acc.

Definition ftp_storbinary (path : string) (content : bytes) : M (Session R) unit :=
  _ ← ftp_type "I";
  t ← transfer (F_stor path content);
  _ ← lift (open_transfer t);
  _ ← lift (failed_with (tf_broken t));
  _ ← lift (voidresp (tf_final t));
  mret tt.

(** [FTP.nlst], through [FTP.retrlines]. *)
Definition ftp_nlst (path : option string) : M (Session R) (list string) :=
  _ ← sendcmd (F_type "A");
  t ← transfer (F_nlst path);
  _ ← lift (open_transfer t);
  let text := String.string_of_list_byte (concat (tf_chunks t)) in
  match utf8_decode text with
  | None => raise (ValueError "invalid utf-8")
  | Some _ =>
      _ ← lift (failed_with (tf_broken t));
      _ ← lift (voidresp (tf_final t));
      mret (text_lines text)
  end.

Definition ftp_quit : M (Session R) unit :=
  _ ← voidcmd F_quit; modify (λ s, s <| ss_open := false |>).
Definition ftp_close : M (Session R) unit := modify (λ s, s <| ss_open := false |>).

(** ** What a session does to the server *)

(** From [s0] to [s], only commands of [P] were sent, and the server went
    where they lead. *)
Definition followed (P : FtpCommand → Prop) (s0 s : Session R) : Prop :=
  ∃ t, ss_sent s = ss_sent s0 ++ t ∧ Forall P t ∧ ss_server s = foldl ftp_step (ss_server s0) t.

Lemma followed_refl P s : followed P s s.
Proof. exists []. by rewrite app_nil_r. Qed.

Lemma followed_weaken (P Q : FtpCommand → Prop) s0 s :
  (∀ c, P c → Q c) → followed P s0 s → followed Q s0 s.
Proof. intros HPQ (t & H1 & H2 & H3). exists t. split_and!; [done| |done]. eapply list.Forall_impl; eauto. Qed.

Lemma followed_trans P s0 s1 s2 : followed P s0 s1 → followed P s1 s2 → followed P s0 s2.
Proof.
  intros (t & H1 & H2 & H3) (u & H4 & H5 & H6). exists (t ++ u).
  rewrite H4, H1, H6, H3, foldl_app. split_and!; [by rewrite app_assoc| |done].
  by apply list.Forall_app.
Qed.

(** A computation that keeps [followed P] from one start keeps it from all. *)
Lemma keeps_followed_run {A} P (m : M (Session R) A) s r s' :
  (∀ s0, keeps (followed P s0) m) → m s = (r, s') → followed P s s'.
Proof. intros Hm Hrun. exact (Hm s _ _ _ Hrun (followed_refl P s)). Qed.

(** An invariant of the server that the commands of [P] keep. *)
Lemma followed_invariant P (I : R → Prop) s0 s :
  (∀ c r, P c → I r → I (ftp_step r c)) → followed P s0 s → I (ss_server s0) → I (ss_server s).
Proof.
  intros HI (t & _ & Ht & ->). generalize (ss_server s0) as r. induction Ht as [|c t Hc Ht IH]; intros r Hr.
  - done.
  - simpl. by apply IH, HI.
Qed.

Context (P : FtpCommand → Prop) (s0 : Session R).

Lemma followed_sent c s : P c → followed P s0 s → followed P s0 (sent c s).
Proof.
  intros Hc (t & H1 & H2 & H3). exists (t ++ [c]). destruct s. cbn in *. subst.
  split_and!; [by rewrite app_assoc| |by rewrite foldl_app].
  apply list.Forall_app. by split; [|apply list.Forall_singleton].
Qed.

Lemma keeps_exchange c : P c → keeps (followed P s0) (exchange c).
Proof.
  intros Hc s r s'. unfold exchange. destruct (check_line c); intros [= <- <-]; [|done].
  by apply followed_sent.
Qed.

Lemma keeps_transfer c : P c → keeps (followed P s0) (transfer c).
Proof.
  intros Hc s r s'. unfold transfer. destruct (check_line c); intros [= <- <-]; [|done].
  by apply followed_sent.
Qed.

(** An update of the session that sends nothing. *)
Lemma keeps_followed_modify (f : Session R → Session R) :
  (∀ s, ss_sent (f s) = ss_sent s ∧ ss_server (f s) = ss_server s) →
  keeps (followed P s0) (modify f).
Proof using. intros Hf s r s' [= <- <-] (t & H). exists t. destruct (Hf s) as [-> ->]. done. Qed.
End client.
#[export] Hint Resolve keeps_exchange keeps_transfer keeps_followed_modify : keeps.

(** Commands that leave the files of the server alone. *)
Definition is_read (c : FtpCommand) : bool :=
  match c with
  | F_mkd _ | F_rmd _ | F_dele _ | F_rnfr _ | F_rnto _ | F_stor _ _ => false
  | _ => true
  end.
Definition allows_reads (P : FtpCommand → Prop) : Prop := ∀ c, is_read c = true → P c.

#[export] Hint Extern 1 (is_read _ = true) => reflexivity : keeps.

Section methods.
Context {R : Type} `{!FtpServer R} (P : FtpCommand → Prop) (s0 : Session R).

Lemma keeps_sendcmd c : P c → keeps (followed P s0) (sendcmd c).
Proof. intros Hc. unfold sendcmd. keep_steps. Qed.
Lemma keeps_voidcmd c : P c → keeps (followed P s0) (voidcmd c).
Proof. intros Hc. unfold voidcmd. keep_steps. Qed.
#[local] Hint Resolve keeps_sendcmd keeps_voidcmd : keeps.

Lemma keeps_ftp_mkd p : P (F_mkd p) → keeps (followed P s0) (ftp_mkd p).
Proof. apply keeps_voidcmd. Qed.
Lemma keeps_ftp_rmd p : P (F_rmd p) → keeps (followed P s0) (ftp_rmd p).
Proof. apply keeps_voidcmd. Qed.
Lemma keeps_ftp_delete p : P (F_dele p) → keeps (followed P s0) (ftp_delete p).
Proof. intros Hp. unfold ftp_delete. keep_steps. Qed.
Lemma keeps_ftp_rename p q : P (F_rnfr p) → P (F_rnto q) → keeps (followed P s0) (ftp_rename p q).
Proof. intros Hp Hq. unfold ftp_rename. keep_steps. Qed.

Context (Hreads : allows_reads P).
#[local] Hint Extern 1 (P _) => (apply Hreads; reflexivity) : keeps.

Lemma keeps_ftp_connect timeout host port : keeps (followed P s0) (ftp_connect timeout host port).
Proof. unfold ftp_connect. keep_steps. Qed.
Lemma keeps_ftp_login user password : keeps (followed P s0) (ftp_login user password).
Proof. unfold ftp_login. cbv zeta. keep_steps. Qed.
Lemma keeps_ftp_type code : keeps (followed P s0) (ftp_type code).
Proof. unfold ftp_type. keep_steps. Qed.
Lemma keeps_ftp_cwd p : keeps (followed P s0) (ftp_cwd p).
Proof. unfold ftp_cwd. keep_steps. Qed.
Lemma keeps_ftp_size p : keeps (followed P s0) (ftp_size p).
Proof. unfold ftp_size. keep_steps. Qed.
#[local] Hint Resolve keeps_ftp_type : keeps.
Lemma keeps_ftp_nlst p : keeps (followed P s0) (ftp_nlst p).
Proof. unfold ftp_nlst. keep_steps. Qed.
Lemma keeps_ftp_quit : keeps (followed P s0) ftp_quit.
Proof. unfold ftp_quit. keep_steps. Qed.
Lemma keeps_ftp_retrbinary {B} p (start : B) callback :
  (∀ acc b, keeps (followed P s0) (callback acc b)) →
  keeps (followed P s0) (ftp_retrbinary p start callback).
Proof. intros Hc. unfold ftp_retrbinary. keep_steps. Qed.
Lemma keeps_ftp_storbinary p content :
  P (F_stor p content) → keeps (followed P s0) (ftp_storbinary p content).
Proof. intros Hp. unfold ftp_storbinary. keep_steps. Qed.
End methods.
#[export] Hint Resolve keeps_ftp_mkd keeps_ftp_rmd keeps_ftp_delete keeps_ftp_rename keeps_ftp_connect
  keeps_ftp_login keeps_ftp_type keeps_ftp_cwd keeps_ftp_size keeps_ftp_nlst keeps_ftp_quit
  keeps_ftp_retrbinary keeps_ftp_storbinary : keeps.
