(* ===== verification/MountedFiles.v ===== *)
(** * The files of a mounted share: [services/destination_mounted.py]

    The file system the worker sees, with symbolic links and mount points, the
    calls of [os] and [pathlib] that the module makes on it, and the helpers of
    the module that put, verify and guard single files.  Every call takes one
    entry of [mf_faults], which may make it fail; a write may also store less
    than it was given, with or without an error. *)

From Stdlib Require Import ZArith Lia Strings.Ascii.
From stdpp Require Import base gmap sets list strings.
From S2P Require Import Prelude Strings Text Hashing World Models LocalStorage DestinationPaths.
From S2P Require Import AuditSummary.
#[local] Open Scope string_scope.
#[local] Open Scope list_scope.
#[local] Open Scope Z_scope.

Inductive inode :=
  | IDir
  | IFile (content : bytes)
  | ILink (rooted : bool) (target : path).

#[export] Instance inode_eq_dec : EqDecision inode.
Proof. solve_decision. Defined.

(** [Torn n reported]: a write that stores [n] bytes; any other call fails
    with it when it is reported. *)
Inductive fault := Denied | Failed | Torn (stored : nat) (reported : bool).

Record mfs := {
  mf_nodes : gmap path inode;
  mf_mounts : gset path;
  mf_faults : list (option fault);
}.
#[export] Instance eta_mfs : Eta mfs := λ r,
  {| mf_nodes := mf_nodes r; mf_mounts := mf_mounts r; mf_faults := mf_faults r |}.

(** ** Resolution of paths

    [follow] says whether a link in the last place is followed; without it
    the last component need not exist.  [depth] bounds how deep links nest,
    which their number does unless they loop. *)
Fixpoint walk (nodes : gmap path inode) (depth : nat) (follow : bool) {struct depth}
    : path → path → result path :=
  fix go (base rest : path) {struct rest} : result path :=
    match rest with
    | [] => Ok base
    | c :: rest' =>
        if bool_decide (c = "..") then go (removelast base) rest'
        else
          let p := base ++ [c] in
          match nodes !! p, rest' with
          | None, [] => if follow then Err FileNotFoundError else Ok p
          | None, _ => Err FileNotFoundError
          | Some IDir, _ => go p rest'
          | Some (IFile _), [] => Ok p
          | Some (IFile _), _ => Err OSError
          | Some (ILink rooted target), _ =>
              if bool_decide (rest' = []) && negb follow then Ok p
              else
                match depth with
                | O => Err OSError
                | S d =>
                    q ← walk nodes d true (if rooted then [] else base) target;
                    if bool_decide (rest' = []) then Ok q
                    else if bool_decide (nodes !! q = Some IDir) then go q rest' else Err OSError
                end
          end
    end.

Definition resolve_path (nodes : gmap path inode) (follow : bool) (p : path) : result path :=
  walk nodes (S (size nodes)) follow [] p.

Definition node_at (nodes : gmap path inode) (follow : bool) (p : path) : option inode :=
  match resolve_path nodes follow p with Ok q => nodes !! q | Err _ => None end.

Definition inode_is_file (n : option inode) : bool :=
  match n with Some (IFile _) => true | _ => false end.
Definition inode_is_dir (n : option inode) : bool :=
  match n with Some IDir => true | _ => false end.
Definition inode_is_link (n : option inode) : bool :=
  match n with Some (ILink _ _) => true | _ => false end.

(** ** System calls *)

Definition fault_error (f : option fault) : option exn :=
  match f with
  | None | Some (Torn _ false) => None
  | Some Denied => Some PermissionError
  | Some (Failed | Torn _ true) => Some OSError
  end.

Definition take_fault : M mfs (option fault) := λ s,
  match mf_faults s with
  | [] => (Ok None, s)
  | f :: rest => (Ok f, s <| mf_faults := rest |>)
  end.

Definition sys : M mfs unit :=
  f ← take_fault;
  match fault_error f with Some e => raise e | None => mret tt end.

(** [stat] and [lstat] as [pathlib] uses them: that there is nothing, a
    component that is no directory and a loop of links are answers. *)
Definition m_lookup (follow : bool) (p : path) : M mfs (option inode) :=
  _ ← sys; gets (λ s, node_at (mf_nodes s) follow p).

Definition m_exists (p : path) : M mfs bool := n ← m_lookup true p; mret (bool_decide (n ≠ None)).
Definition m_is_file (p : path) : M mfs bool := n ← m_lookup true p; mret (inode_is_file n).
Definition m_is_dir (p : path) : M mfs bool := n ← m_lookup true p; mret (inode_is_dir n).
Definition m_is_symlink (p : path) : M mfs bool := n ← m_lookup false p; mret (inode_is_link n).

(** [Path.resolve(strict=True)] *)
Definition m_resolve (p : path) : M mfs path :=
  _ ← sys; nodes ← gets mf_nodes; lift (resolve_path nodes true p).

(** [path.read_bytes()]; [path.stat().st_size] is called for regular files only. *)
Definition m_read (p : path) : M mfs bytes :=
  q ← m_resolve p;
  n ← gets (λ s, mf_nodes s !! q);
  match n with Some (IFile c) => mret c | _ => raise OSError end.
Definition m_size (p : path) : M mfs Z := c ← m_read p; mret (Z.of_nat (length c)).

Definition set_node (p : path) (n : inode) : M mfs unit :=
  modify (λ s, s <| mf_nodes ::= <[p := n]> |>).
Definition clear_node (p : path) : M mfs unit :=
  modify (λ s, s <| mf_nodes ::= base.delete p |>).

(** The entry of a directory that a path names, and what is there. *)
Definition m_entry (p : path) : M mfs (path * option inode) :=
  _ ← sys;
  nodes ← gets mf_nodes;
  q ← lift (resolve_path nodes false p);
  mret (q, nodes !! q).

(** [os.mkdir(path)] *)
Definition m_mkdir (p : path) : M mfs unit :=
  e ← m_entry p;
  match e.2 with None => set_node e.1 IDir | Some _ => raise FileExistsError end.

(** [os.open(path, O_WRONLY | O_CREAT | O_EXCL)] *)
Definition m_create (p : path) : M mfs path :=
  e ← m_entry p;
  match e.2 with
  | None => _ ← set_node e.1 (IFile []); mret e.1
  | Some _ => raise FileExistsError
  end.

(** [handle.write(content)] and [handle.flush()] on a new file. *)
Definition m_write (q : path) (content : bytes) : M mfs unit :=
  f ← take_fault;
  match f with
  | Some (Torn n _) => set_node q (IFile (take n content))
  | Some _ => mret tt
  | None => set_node q (IFile content)
  end;;
  match fault_error f with Some e => raise e | None => mret tt end.

(** [path.unlink()] *)
Definition m_unlink (p : path) : M mfs unit :=
  e ← m_entry p;
  match e.2 with
  | None => raise FileNotFoundError
  | Some IDir => raise OSError
  | Some _ => clear_node e.1
  end.

(** [path.unlink(missing_ok=True)] in [try: ... except OSError: pass]. *)
Definition m_unlink_quietly (p : path) : M mfs unit :=
  try_catch (m_unlink p) (λ e, if is_os_error e then mret tt else raise e).

(** The names in a directory. *)
Definition entry_name (dir q : path) : option string :=
  match reverse q with
  | c :: up => if bool_decide (reverse up = dir) then Some c else None
  | [] => None
  end.
Definition entries (nodes : gmap path inode) (dir : path) : list string :=
  omap (λ x, entry_name dir x.1) (map_to_list nodes).

(** [path.iterdir()], read to its end. *)
Definition m_iterdir (p : path) : M mfs (list string) :=
  q ← m_resolve p;
  nodes ← gets mf_nodes;
  match nodes !! q with Some IDir => mret (entries nodes q) | _ => raise OSError end.

(** [path.rmdir()] *)
Definition m_rmdir (p : path) : M mfs unit :=
  e ← m_entry p;
  s ← gets id;
  match e.2 with
  | None => raise FileNotFoundError
  | Some IDir =>
      if bool_decide (entries (mf_nodes s) e.1 = []) && negb (bool_decide (e.1 ∈ mf_mounts s))
         && negb (bool_decide (e.1 = []))
      then clear_node e.1 else raise OSError
  | Some _ => raise OSError
  end.

(** [path.mkdir(parents=True, exist_ok=True)] of [pathlib]; the path is given
    from its last component up. *)
Definition mkdir_exists (p : path) (e : exn) : M mfs unit :=
  dir ← m_is_dir p; if (dir : bool) then mret tt else raise e.
Definition mkdir_here (p : path) : M mfs unit :=
  try_catch (m_mkdir p) (λ e,
    match e with
    | FileNotFoundError => raise e
    | e => if is_os_error e then mkdir_exists p e else raise e
    end).
Fixpoint mkdir_parents (up : path) : M mfs unit :=
  try_catch (m_mkdir (reverse up)) (λ e,
    match e with
    | FileNotFoundError =>
        match up with
        | [] => raise e
        | _ :: up' => _ ← mkdir_parents up'; mkdir_here (reverse up)
        end
    | e => if is_os_error e then mkdir_exists (reverse up) e else raise e
    end).
Definition m_mkdirs (p : path) : M mfs unit := mkdir_parents (reverse p).

(** ** The helpers of the module *)

(** [except DestinationError: raise / except PermissionError / except OSError] *)
Definition os_errors {A} (denied failed : exn) (m : M mfs A) : M mfs A :=
  try_catch m (λ e,
    match e with
    | PermissionError => raise denied
    | e => if is_os_error e then raise failed else raise e
    end).

(** [Path(text)], made absolute. *)
Definition as_path (cwd : path) (text : string) : path :=
  if is_absolute text then path_parts text else cwd ++ path_parts text.

(** [directory / name] *)
Definition child (dir : path) (name : string) : path := as_path dir name.

Record MountSettings := {
  ms_network_storage_mount_roots : list string;
  ms_network_storage_require_mountpoint : bool;
  ms_cwd : path;
}.

Section helpers.
Context (settings : MountSettings).

(** The loop over the configured roots. *)
Fixpoint below_allowed_root (root : path) (roots : list string) : M mfs bool :=
  match roots with
  | [] => mret false
  | configured :: rest =>
      let configured_root_path := as_path (ms_cwd settings) configured in
      allowed ← try_catch
        (link ← m_is_symlink configured_root_path;
         if (link : bool) then mret false
         else
           allowed_root ← m_resolve configured_root_path;
           mret (negb (bool_decide (allowed_root = [])) && bool_decide (allowed_root `prefix_of` root)))
        (λ e, if is_os_error e then mret false else raise e);
      if (allowed : bool) then mret true else below_allowed_root root rest
  end.

(** [os.path.ismount(root)] of a resolved directory. *)
Definition m_ismount (root : path) : M mfs bool :=
  try_catch
    (_ ← sys; _ ← sys; gets (λ s, bool_decide (root ∈ mf_mounts s) || bool_decide (root = [])))
    (λ e, if is_os_error e then mret false else raise e).

(* src: services/destination_mounted.py 414 462 _destination_root *)
Definition destination_root (destination : BackupDestination) : M mfs path :=
  let roots := ms_network_storage_mount_roots settings in
  if bool_decide (roots = [])
  then raise (DestinationError "MOUNT_ROOT_NOT_CONFIGURED"
    "No allowed network-storage mount root is configured for this deployment.")
  else
    root ← try_catch
      (let configured_path := as_path (ms_cwd settings) (ds_mount_path destination) in
       link ← m_is_symlink configured_path;
       if (link : bool)
       then raise (DestinationError "MOUNT_PATH_NOT_ALLOWED"
         "The configured network-storage mount path cannot be a symbolic link.")
       else m_resolve configured_path)
      (λ e, if is_os_error e
            then raise (DestinationError "MOUNT_UNAVAILABLE"
              "The configured network-storage mount is not available to the NetBox worker.")
            else raise e);
    dir ← m_is_dir root;
    link ← (if (dir : bool) then m_is_symlink root else mret true);
    if (link : bool)
    then raise (DestinationError "MOUNT_UNAVAILABLE" "The configured mount path is not a directory.")
    else
      allowed ← below_allowed_root root roots;
      if negb allowed
      then raise (DestinationError "MOUNT_PATH_NOT_ALLOWED"
        "The mounted storage path is outside the deployment's allowed mount roots.")
      else
        active ← (if ms_network_storage_require_mountpoint settings then m_ismount root else mret true);
        if negb active
        then raise (DestinationError "MOUNT_NOT_ACTIVE"
          "The configured NFS/SMB3 directory is not an active mount in the NetBox worker.")
        else mret root.
End helpers.

(** The last check of the code, that the path stays below [root], holds by
    construction of the path. *)
(* src: services/destination_mounted.py 465 476 _safe_path *)
Definition safe_path (root : path) (remote_path : string) : result path :=
  let parts := drop 1 (pure_parts remote_path) in
  if negb (is_absolute remote_path)
     || existsb (λ p, bool_decide (p ∈ [""; "."; ".."])) parts
  then Err (DestinationError "DESTINATION_PATH_INVALID" "The mounted-storage path is unsafe.")
  else Ok (root ++ parts).

(* src: services/destination_mounted.py 479 487 _reject_symlink_path *)
Fixpoint reject_symlink_path (current parts : path) : M mfs unit :=
  match parts with
  | [] => mret tt
  | part :: rest =>
      let current := current ++ [part] in
      present ← m_exists current;
      link ← (if (present : bool) then m_is_symlink current else mret false);
      if (link : bool)
      then raise (DestinationError "DESTINATION_PATH_INVALID"
        "The mounted-storage path contains a symbolic link.")
      else reject_symlink_path current rest
  end.

(* src: services/destination_mounted.py 490 502 _write_new_file *)
Definition write_new_file (p : path) (content : bytes) : M mfs unit :=
  q ← m_create p;
  try_catch (_ ← m_write q content; sys) (λ e, _ ← m_unlink_quietly p; raise e).

(** [except FileNotFoundError] and [except OSError] of the two checks. *)
Definition reading (m : M mfs (verdict * Z)) : M mfs (verdict * Z) :=
  try_catch m (λ e,
    match e with
    | FileNotFoundError => mret (V_missing, 0)
    | e => if is_os_error e then mret (V_unreadable, 0) else raise e
    end).

(** [path.is_symlink() or not path.is_file()] *)
Definition not_regular (p : path) : M mfs bool :=
  link ← m_is_symlink p;
  if (link : bool) then mret true else file ← m_is_file p; mret (negb file).

(* src: services/destination_mounted.py 533 550 _verify_file *)
Definition verify_file (p : path) (size : Z) (sha256 : string) : M mfs (verdict * Z) :=
  reading (
    skip ← not_regular p;
    if (skip : bool) then mret (V_missing, 0)
    else
      st_size ← m_size p;
      if negb (st_size =? size) then mret (V_size_mismatch, st_size)
      else
        content ← m_read p;
        if negb (bool_decide (sha256_hex content = sha256)) then mret (V_hash_mismatch, st_size)
        else mret (V_ok, st_size)).

(** The fuel stands for Python's limit on recursion. *)
(* src: services/destination_mounted.py 505 530 _put_immutable *)
Fixpoint put_immutable (fuel : nat) (p : path) (content : bytes) (digest : string) : M mfs bool :=
  match fuel with
  | O => raise RuntimeError
  | S fuel =>
      let size := Z.of_nat (length content) in
      present ← m_exists p;
      if (present : bool)
      then
        state ← verify_file p size digest;
        if bool_decide (state.1 = V_ok) then mret false
        else raise (DestinationError "DESTINATION_CONFLICT"
          "A different object already exists at the immutable revision path.")
      else
        retry ← try_catch (_ ← write_new_file p content; mret false)
          (λ e, match e with FileExistsError => mret true | e => raise e end);
        if (retry : bool) then put_immutable fuel p content digest
        else
          state ← verify_file p size digest;
          if negb (bool_decide (state.1 = V_ok))
          then raise (DestinationError "DESTINATION_VERIFY_FAILED"
            "A mounted-storage artifact failed verification after writing it.")
          else mret true
  end.

(** ** Trees *)

Record mtree (nodes : gmap path inode) : Prop := {
  mt_top : nodes !! [] = Some IDir;
  mt_parent : ∀ p c, is_Some (nodes !! (p ++ [c])) → nodes !! p = Some IDir;
}.

(** A directory on the way to which there is no link. *)
Definition plain_dir (nodes : gmap path inode) (p : path) : Prop :=
  ∀ q, q `prefix_of` p → nodes !! q = Some IDir.

Lemma prefix_of_snoc (q p : path) c : q `prefix_of` p ++ [c] ↔ q `prefix_of` p ∨ q = p ++ [c].
Proof.
  split.
  - intros [k E]. destruct k as [|x k _] using rev_ind; [right; by rewrite app_nil_r in E|].
    left. rewrite app_assoc in E. apply app_inj_tail in E as [-> _]. by exists k.
  - intros [H| ->]; [by apply prefix_app_r|done].
Qed.

Lemma plain_dir_snoc nodes p c :
  plain_dir nodes (p ++ [c]) ↔ plain_dir nodes p ∧ nodes !! (p ++ [c]) = Some IDir.
Proof.
  split.
  - intros H. split; [|by apply H]. intros q Hq. apply H, prefix_of_snoc. by left.
  - intros [Hp Hn] q [Hq| ->]%prefix_of_snoc; auto.
Qed.

Lemma plain_dir_at nodes p : plain_dir nodes p → nodes !! p = Some IDir.
Proof. intros H. by apply H. Qed.

Lemma plain_dir_app nodes p q : plain_dir nodes (p ++ q) → plain_dir nodes p.
Proof. intros H x Hx. apply H. by apply prefix_app_r. Qed.

Lemma tree_plain nodes p : mtree nodes → nodes !! p = Some IDir → plain_dir nodes p.
Proof.
  intros [Ht Hp]. induction p as [|c p IH] using rev_ind; intros H.
  - intros q ->%prefix_nil_inv. done.
  - apply plain_dir_snoc. split; [|done]. apply IH, (Hp _ c). by rewrite H.
Qed.

Lemma tree_insert_node nodes p c n :
  mtree nodes → nodes !! p = Some IDir → (nodes !! (p ++ [c]) = Some IDir → n = IDir) →
  mtree (<[p ++ [c] := n]> nodes).
Proof.
  intros [Ht Hp] Hd Hn. split.
  - rewrite lookup_insert_ne; [done|]. by destruct p.
  - intros q x Hq. destruct (decide (p ++ [c] = q)) as [<-|Hne].
    + rewrite lookup_insert_eq. f_equal. apply Hn.
      rewrite lookup_insert_ne in Hq; [by eapply Hp|].
      intros E%(f_equal length). rewrite !length_app in E. simpl in E. lia.
    + rewrite lookup_insert_ne by done.
      destruct (decide (p ++ [c] = q ++ [x])) as [E|Hne'].
      * apply app_inj_tail in E as [-> ->]. done.
      * rewrite lookup_insert_ne in Hq by done. by eapply Hp.
Qed.

Lemma tree_empty : mtree {[ [] := IDir ]}.
Proof.
  split; [by rewrite lookup_singleton_eq|]. intros p c [n Hn].
  apply lookup_singleton_Some in Hn as [E _]. by destruct p.
Qed.

Lemma tree_delete_node nodes p :
  mtree nodes → p ≠ [] → (∀ c, nodes !! (p ++ [c]) = None) → mtree (base.delete p nodes).
Proof.
  intros [Ht Hp] Hne Hc. split; [by rewrite lookup_delete_ne|].
  intros q x [n Hq]. apply lookup_delete_Some in Hq as [Hqp Hq].
  rewrite lookup_delete_ne; [by eapply Hp|]. intros ->. by rewrite Hc in Hq.
Qed.

Lemma tree_file_leaf nodes p c : mtree nodes → nodes !! p ≠ Some IDir → nodes !! (p ++ [c]) = None.
Proof.
  intros [_ Hp] Hn. destruct (nodes !! (p ++ [c])) eqn:E; [|done].
  destruct Hn. eapply Hp. by rewrite E.
Qed.

Lemma entry_name_spec dir q c : entry_name dir q = Some c ↔ q = dir ++ [c].
Proof.
  unfold entry_name. split.
  - destruct (reverse q) as [|x up] eqn:E; [done|]. case_bool_decide as H; [|done].
    intros [= ->]. rewrite <-(reverse_involutive q), E, reverse_cons. by rewrite H.
  - intros ->. rewrite reverse_snoc. by rewrite reverse_involutive, bool_decide_eq_true_2.
Qed.

Lemma elem_of_entries nodes dir c : c ∈ entries nodes dir ↔ is_Some (nodes !! (dir ++ [c])).
Proof.
  unfold entries. rewrite list_elem_of_omap. split.
  - intros ([q n] & Hin & Hq%entry_name_spec). simpl in Hq. subst q.
    apply elem_of_map_to_list in Hin. by exists n.
  - intros [n Hn]. exists (dir ++ [c], n).
    split; [by apply elem_of_map_to_list|by apply entry_name_spec].
Qed.

(** ** Facts about the resolution of paths *)

Lemma walk_cons nodes d follow base c rest :
  walk nodes d follow base (c :: rest) =
    if bool_decide (c = "..") then walk nodes d follow (removelast base) rest
    else
      let p := base ++ [c] in
      match nodes !! p, rest with
      | None, [] => if follow then Err FileNotFoundError else Ok p
      | None, _ => Err FileNotFoundError
      | Some IDir, _ => walk nodes d follow p rest
      | Some (IFile _), [] => Ok p
      | Some (IFile _), _ => Err OSError
      | Some (ILink rooted target), _ =>
          if bool_decide (rest = []) && negb follow then Ok p
          else
            match d with
            | O => Err OSError
            | S d' =>
                q ← walk nodes d' true (if rooted then [] else base) target;
                if bool_decide (rest = []) then Ok q
                else if bool_decide (nodes !! q = Some IDir) then walk nodes d follow q rest
                else Err OSError
            end
      end.
Proof. by destruct d. Qed.

Lemma walk_nil nodes d follow base : walk nodes d follow base [] = Ok base.
Proof. by destruct d. Qed.

(** Along directories, a path is its own resolution. *)
Lemma walk_plain nodes d follow rest tail : ∀ base,
  plain_dir nodes (base ++ rest) → ".." ∉ rest →
  walk nodes d follow base (rest ++ tail) = walk nodes d follow (base ++ rest) tail.
Proof.
  induction rest as [|c rest IH]; intros base Hp Hdots; [by rewrite app_nil_r|].
  apply not_elem_of_cons in Hdots as [Hc Hdots].
  assert (base ++ c :: rest = (base ++ [c]) ++ rest) as E by (by rewrite <-app_assoc).
  rewrite E in Hp |- *. cbn [app]. rewrite walk_cons, bool_decide_eq_false_2 by done.
  cbv zeta. rewrite (plain_dir_at _ _ (plain_dir_app _ _ _ Hp)). by apply IH.
Qed.

Lemma removelast_dir nodes base :
  mtree nodes → nodes !! base = Some IDir → nodes !! removelast base = Some IDir.
Proof.
  intros Ht Hb. destruct base as [|x base _] using rev_ind; [done|].
  rewrite removelast_last. eapply (mt_parent _ Ht). by rewrite Hb.
Qed.

Definition entry_of (nodes : gmap path inode) (rest q : path) : Prop :=
  ∃ up c, q = up ++ [c] ∧ nodes !! up = Some IDir ∧ list.last rest = Some c.

(** A resolution ends at a node, or, where the last component is not followed,
    at an entry of a directory. *)
Lemma walk_Ok nodes : mtree nodes → ∀ d follow rest base q,
  nodes !! base = Some IDir → walk nodes d follow base rest = Ok q →
  is_Some (nodes !! q) ∨ follow = false ∧ entry_of nodes rest q.
Proof.
  intros Ht. induction d as [d IHd] using lt_wf_ind. intros follow.
  induction rest as [|c rest IH]; intros base q Hb H.
  { rewrite walk_nil in H. injection H as <-. left. by rewrite Hb. }
  rewrite walk_cons in H. case_bool_decide as Hc.
  { apply IH in H as [H|[-> (up & x & -> & ? & ?)]]; [by left| |by apply removelast_dir].
    right. split; [done|]. exists up, x. split_and!; [done..|]. by destruct rest. }
  cbv zeta in H. destruct (nodes !! (base ++ [c])) as [[|content|rooted target]|] eqn:E.
  - apply IH in H as [H|[-> (up & x & -> & ? & ?)]]; [by left| |done].
    right. split; [done|]. exists up, x. split_and!; [done..|]. by destruct rest.
  - left. destruct rest; [|done]. injection H as <-. by rewrite E.
  - destruct (bool_decide (rest = []) && negb follow); [injection H as <-; left; by rewrite E|].
    destruct d as [|d]; [done|].
    destruct (walk nodes d true (if rooted then [] else base) target) as [q'|] eqn:Eq; [|done].
    cbn [mbind result_bind] in H.
    assert (is_Some (nodes !! q')) as Hq'.
    { apply IHd in Eq as [?|[? _]]; [done|done|lia|]. destruct rooted; [apply Ht|done]. }
    case_bool_decide as Hr; [injection H as <-; by left|].
    case_bool_decide as Hd; [|done].
    apply IH in H as [H|[-> (up & x & -> & ? & ?)]]; [by left| |done].
    right. split; [done|]. exists up, x. split_and!; [done..|]. by destruct rest.
  - destruct rest; [|done]. destruct follow; [done|]. injection H as <-.
    right. split; [done|]. by exists base, c.
Qed.

(** New nodes and more fuel do not change where a path leads. *)
Lemma walk_mono nodes nodes' : nodes ⊆ nodes' → ∀ d d' follow rest base q,
  (d <= d')%nat → walk nodes d follow base rest = Ok q → walk nodes' d' follow base rest = Ok q.
Proof.
  intros Hsub. induction d as [d IHd] using lt_wf_ind. intros d' follow.
  induction rest as [|c rest IH]; intros base q Hd H.
  { rewrite walk_nil in H |- *. done. }
  rewrite walk_cons in H |- *. case_bool_decide as Hc; [by apply IH|].
  cbv zeta in H |- *. destruct (nodes !! (base ++ [c])) as [[|content|rooted target]|] eqn:E.
  - rewrite (lookup_weaken _ _ _ _ E Hsub). by apply IH.
  - by rewrite (lookup_weaken _ _ _ _ E Hsub).
  - rewrite (lookup_weaken _ _ _ _ E Hsub).
    destruct (bool_decide (rest = []) && negb follow); [done|].
    destruct d as [|d]; [done|]. destruct d' as [|d']; [lia|].
    destruct (walk nodes d true (if rooted then [] else base) target) as [q'|] eqn:Eq; [|done].
    rewrite (IHd d ltac:(lia) d' _ _ _ q' ltac:(lia) Eq). cbn [mbind result_bind] in H |- *.
    case_bool_decide; [done|]. case_bool_decide as Hq; [|done].
    rewrite bool_decide_eq_true_2 by (by eapply lookup_weaken). by apply IH.
  - destruct rest; [|done]. destruct follow; [done|]. injection H as <-.
    destruct (nodes' !! (base ++ [c])) as [[|?|? ?]|]; [|done..]. by rewrite walk_nil.
Qed.

Section resolution.
Context (nodes : gmap path inode).

(** What a name in a plain directory is. *)
Lemma node_at_entry dir c :
  plain_dir nodes dir → ".." ∉ dir → c ≠ ".." →
  resolve_path nodes false (dir ++ [c]) = Ok (dir ++ [c]) ∧
  (∀ n, nodes !! (dir ++ [c]) = Some n → inode_is_link (Some n) = false →
    resolve_path nodes true (dir ++ [c]) = Ok (dir ++ [c])) ∧
  (nodes !! (dir ++ [c]) = None → resolve_path nodes true (dir ++ [c]) = Err FileNotFoundError).
Proof.
  intros Hp Hd Hc. unfold resolve_path.
  rewrite !(walk_plain nodes _ _ dir) by done. rewrite !walk_cons, bool_decide_eq_false_2 by done.
  cbv zeta. cbn [app]. split_and!.
  - destruct (nodes !! (dir ++ [c])) as [[| |]|]; [|done..]. by rewrite walk_nil.
  - intros [| |] -> ?; [|done..]. by rewrite walk_nil.
  - by intros ->.
Qed.

Lemma resolve_plain dir follow :
  plain_dir nodes dir → ".." ∉ dir → resolve_path nodes follow dir = Ok dir.
Proof.
  intros Hp Hd. unfold resolve_path. rewrite <-(app_nil_r dir) at 1.
  by rewrite walk_plain, walk_nil.
Qed.

Lemma node_at_plain dir follow :
  plain_dir nodes dir → ".." ∉ dir → node_at nodes follow dir = Some IDir.
Proof. intros Hp Hd. unfold node_at. rewrite resolve_plain by done. by apply plain_dir_at. Qed.

Lemma node_at_name dir c :
  plain_dir nodes dir → ".." ∉ dir → c ≠ ".." →
  node_at nodes false (dir ++ [c]) = nodes !! (dir ++ [c]).
Proof. intros Hp Hd Hc. unfold node_at. by rewrite (proj1 (node_at_entry dir c Hp Hd Hc)). Qed.
End resolution.

(** ** What the calls leave alone *)

Definition on_tree (J : gmap path inode → gset path → Prop) (s : mfs) : Prop :=
  J (mf_nodes s) (mf_mounts s).

Lemma keeps_take_fault J : keeps (on_tree J) take_fault.
Proof. intros s r s'. unfold take_fault. by destruct (mf_faults s); intros [= <- <-]. Qed.
#[export] Hint Resolve keeps_take_fault : keeps.

Section read_only.
Context (I : mfs → Prop) (HI : keeps I take_fault).
#[local] Hint Resolve HI : keeps.

Lemma keeps_sys : keeps I sys.
Proof. unfold sys. keep_steps. Qed.
#[local] Hint Resolve keeps_sys : keeps.

Lemma keeps_lookup follow p : keeps I (m_lookup follow p).
Proof. unfold m_lookup. keep_steps. Qed.
#[local] Hint Resolve keeps_lookup : keeps.

Lemma keeps_exists p : keeps I (m_exists p).
Proof. unfold m_exists. keep_steps. Qed.
Lemma keeps_is_file p : keeps I (m_is_file p).
Proof. unfold m_is_file. keep_steps. Qed.
Lemma keeps_is_dir p : keeps I (m_is_dir p).
Proof. unfold m_is_dir. keep_steps. Qed.
Lemma keeps_is_symlink p : keeps I (m_is_symlink p).
Proof. unfold m_is_symlink. keep_steps. Qed.
Lemma keeps_resolve p : keeps I (m_resolve p).
Proof. unfold m_resolve. keep_steps. Qed.
#[local] Hint Resolve keeps_exists keeps_is_file keeps_is_dir keeps_is_symlink keeps_resolve : keeps.

Lemma keeps_read p : keeps I (m_read p).
Proof. unfold m_read. keep_steps. Qed.
#[local] Hint Resolve keeps_read : keeps.
Lemma keeps_size p : keeps I (m_size p).
Proof. unfold m_size. keep_steps. Qed.
Lemma keeps_entry p : keeps I (m_entry p).
Proof. unfold m_entry. keep_steps. Qed.
Lemma keeps_iterdir p : keeps I (m_iterdir p).
Proof. unfold m_iterdir. keep_steps. Qed.
#[local] Hint Resolve keeps_size keeps_entry keeps_iterdir : keeps.

Lemma keeps_not_regular p : keeps I (not_regular p).
Proof. unfold not_regular. keep_steps. Qed.
#[local] Hint Resolve keeps_not_regular : keeps.

Lemma keeps_verify_file p size sha256 : keeps I (verify_file p size sha256).
Proof. unfold verify_file, reading. keep_steps. Qed.

Lemma keeps_reject_symlink_path parts : ∀ current, keeps I (reject_symlink_path current parts).
Proof. induction parts as [|c parts IH]; intros current; cbn [reject_symlink_path]; keep_steps. Qed.

Lemma keeps_below_allowed_root settings root roots :
  keeps I (below_allowed_root settings root roots).
Proof. induction roots as [|x roots IH]; cbn [below_allowed_root]; keep_steps. Qed.
Lemma keeps_ismount root : keeps I (m_ismount root).
Proof. unfold m_ismount. keep_steps. Qed.
#[local] Hint Resolve keeps_below_allowed_root keeps_ismount : keeps.

Lemma keeps_destination_root settings d : keeps I (destination_root settings d).
Proof. unfold destination_root. keep_steps. Qed.
End read_only.
#[export] Hint Resolve keeps_sys keeps_lookup keeps_exists keeps_is_file keeps_is_dir
  keeps_is_symlink keeps_resolve keeps_read keeps_size keeps_entry keeps_iterdir keeps_not_regular
  keeps_verify_file keeps_reject_symlink_path keeps_below_allowed_root keeps_ismount
  keeps_destination_root : keeps.

(** A step after which the tree is as it was. *)
Definition same_tree (s s' : mfs) : Prop :=
  mf_nodes s' = mf_nodes s ∧ mf_mounts s' = mf_mounts s.

Lemma same_tree_refl s : same_tree s s.
Proof. done. Qed.
#[export] Hint Resolve same_tree_refl : core.

Lemma keeps_same {A} (m : M mfs A) s r s' :
  (∀ J, keeps (on_tree J) m) → m s = (r, s') → same_tree s s'.
Proof. intros Hm H. by apply (Hm (λ n k, n = mf_nodes s ∧ k = mf_mounts s) _ _ _ H). Qed.

(** Splits a run of [m ≫= f] with a read-only [m]. *)
Lemma read_only_bind {A B} (m : M mfs A) (f : A → M mfs B) s r s' :
  (∀ J, keeps (on_tree J) m) → (m ≫= f) s = (r, s') →
  (∃ e, r = Err e ∧ m s = (Err e, s') ∧ same_tree s s') ∨
  ∃ a s1, m s = (Ok a, s1) ∧ same_tree s s1 ∧ f a s1 = (r, s').
Proof.
  intros Hm H. rewrite M_bind_run in H. destruct (m s) as [[a|e] s1] eqn:E.
  - right. exists a, s1. split_and!; [done| |done]. by eapply keeps_same.
  - left. injection H as <- <-. exists e. split_and!; [done..|]. by eapply keeps_same.
Qed.

Lemma sys_run s r s' : sys s = (r, s') →
  same_tree s s' ∧ (r = Ok tt ∨ r = Err PermissionError ∨ r = Err OSError).
Proof.
  intros H. split; [by eapply keeps_same, H; auto with keeps|].
  unfold sys in H. rewrite M_bind_run in H. destruct (take_fault s) as [[f|e] s1] eqn:E.
  - destruct f as [[| |n []]|]; cbn [fault_error] in H; injection H as <- <-; auto.
  - unfold take_fault in E. by destruct (mf_faults s).
Qed.

Lemma entry_Ok p s q n s' : m_entry p s = (Ok (q, n), s') →
  same_tree s s' ∧ resolve_path (mf_nodes s) false p = Ok q ∧ n = mf_nodes s !! q.
Proof.
  intros H. assert (same_tree s s') as Hs by (eapply keeps_same, H; auto with keeps).
  split; [done|]. unfold m_entry in H. rewrite M_bind_run in H.
  destruct (sys s) as [[[]|] s1] eqn:E; [|done]. apply sys_run in E as [[En Em] _].
  rewrite gets_bind_run, lift_bind_run in H.
  destruct (resolve_path (mf_nodes s1) false p) as [q'|] eqn:Eq; [|done].
  injection H as <- <- <-. by rewrite En in Eq |- *.
Qed.

(** ** Creating directories *)

(** What the last component names is what is found when it is no link. *)
Lemma walk_follow nodes d rest : ∀ base q n,
  walk nodes d false base rest = Ok q → nodes !! q = Some n → inode_is_link (Some n) = false →
  walk nodes d true base rest = Ok q.
Proof.
  induction rest as [|c rest IH]; intros base q n H Hq Hn.
  { by rewrite walk_nil in H |- *. }
  rewrite walk_cons in H |- *. case_bool_decide; [by eapply IH|]. cbv zeta in H |- *.
  destruct (nodes !! (base ++ [c])) as [[|content|rooted target]|] eqn:E.
  - by eapply IH.
  - done.
  - rewrite andb_false_r. destruct (decide (rest = [])) as [->|Hr].
    { injection H as <-. rewrite E in Hq. by injection Hq as <-. }
    rewrite !bool_decide_eq_false_2 in H by done. rewrite !bool_decide_eq_false_2 by done.
    destruct d as [|d]; [done|]. cbn [andb] in H.
    destruct (walk nodes d true (if rooted then [] else base) target) as [q'|]; [|done].
    cbn [mbind result_bind] in H |- *. case_bool_decide; [|done]. by eapply IH.
  - destruct rest; [|done]. injection H as <-. by rewrite E in Hq.
Qed.

Lemma walk_no_dots nodes : ∀ d follow rest base q,
  ".." ∉ base → walk nodes d follow base rest = Ok q → ".." ∉ q.
Proof.
  induction d as [d IHd] using lt_wf_ind. intros follow.
  induction rest as [|c rest IH]; intros base q Hb H.
  { rewrite walk_nil in H. by injection H as <-. }
  assert (∀ x : path, ".." ∉ x → ".." ∉ removelast x) as Hlast.
  { intros x Hx. destruct x as [|y x _] using rev_ind; [done|].
    rewrite removelast_last. set_solver. }
  rewrite walk_cons in H. case_bool_decide as Hc; [exact (IH _ _ (Hlast _ Hb) H)|].
  assert (".." ∉ base ++ [c]) as Hp by set_solver.
  cbv zeta in H. destruct (nodes !! (base ++ [c])) as [[|content|rooted target]|] eqn:E.
  - by eapply IH.
  - destruct rest; [|done]. by injection H as <-.
  - destruct (bool_decide (rest = []) && negb follow); [by injection H as <-|].
    destruct d as [|d]; [done|].
    destruct (walk nodes d true (if rooted then [] else base) target) as [q'|] eqn:Eq; [|done].
    cbn [mbind result_bind] in H. apply IHd in Eq; [|lia|destruct rooted; [apply not_elem_of_nil|done]].
    case_bool_decide; [by injection H as <-|]. case_bool_decide; [|done]. exact (IH _ _ Eq H).
  - destruct rest; [|done]. destruct follow; [done|]. by injection H as <-.
Qed.

Section added.
Context (P : path → inode → Prop) (s0 : mfs).

(** The tree has only grown, by nodes that satisfy [P]. *)
Definition grown (nodes : gmap path inode) (mounts : gset path) : Prop :=
  mtree nodes ∧ mounts = mf_mounts s0 ∧ mf_nodes s0 ⊆ nodes ∧
  ∀ q n, mf_nodes s0 !! q = None → nodes !! q = Some n → P q n.
End added.
Abbreviation added P s0 := (on_tree (grown P s0)).

Lemma added_insert P s0 s s' q n :
  added P s0 s → mf_mounts s' = mf_mounts s → entry_of (mf_nodes s) [List.last q ""] q →
  mf_nodes s !! q = None → mf_nodes s' = <[q := n]> (mf_nodes s) → P q n → added P s0 s'.
Proof.
  intros (Ht & Hm & Hsub & HP) Hm' (up & c & -> & Hup & _) Hq E Hn. unfold on_tree, grown.
  rewrite E, Hm'. split_and!.
  - apply tree_insert_node; [done..|congruence].
  - done.
  - by apply insert_subseteq_r; [apply (lookup_weaken_None _ (mf_nodes s))|].
  - intros q' n' Hq' H. destruct (decide (up ++ [c] = q')) as [<-|Hne].
    + rewrite lookup_insert_eq in H. by injection H as <-.
    + rewrite lookup_insert_ne in H by done. by apply HP.
Qed.

(** [q] is a free entry that [p] names. *)
Definition free_entry (nodes : gmap path inode) (p q : path) : Prop :=
  resolve_path nodes false p = Ok q ∧ nodes !! q = None ∧ entry_of nodes p q.

Lemma entry_of_last nodes p q : entry_of nodes p q → entry_of nodes [List.last q ""] q.
Proof. intros (up & c & -> & Hup & _). exists up, c. by rewrite last_last. Qed.

Lemma entry_free p s q s' :
  mtree (mf_nodes s) → m_entry p s = (Ok (q, None), s') → same_tree s s' ∧ free_entry (mf_nodes s) p q.
Proof.
  intros Ht H. apply entry_Ok in H as (Hs & Hq & Hn). split; [done|]. split_and!; [done|done|].
  apply (walk_Ok _ Ht) in Hq as [[x Hx]|[_ H]]; [congruence|done|apply Ht].
Qed.

Lemma mkdir_run p s r s' : mtree (mf_nodes s) → m_mkdir p s = (r, s') →
  (∃ e, r = Err e ∧ same_tree s s') ∨
  (r = Ok tt ∧ ∃ q, free_entry (mf_nodes s) p q ∧ mf_mounts s' = mf_mounts s ∧
     mf_nodes s' = <[q := IDir]> (mf_nodes s)).
Proof.
  intros Ht H. apply read_only_bind in H as [(e & -> & _ & Hs)|([q [n|]] & s1 & E & Hs & H)];
    [left; eauto|..|auto with keeps].
  - injection H as <- <-. left. eauto.
  - apply (entry_free _ _ _ _ Ht) in E as [[En Em] Hq]. injection H as <- <-. right.
    split; [done|]. exists q. cbn. by rewrite En, Em.
Qed.

Lemma mkdir_added P s0 p : (∀ q, P q IDir) → keeps (added P s0) (m_mkdir p).
Proof.
  intros HP s r s' H Ha. apply mkdir_run in H as [(e & -> & [En Em])|(-> & q & Hq & Hm & En)]; [..|apply Ha].
  - unfold on_tree. by rewrite En, Em.
  - destruct Hq as (_ & Hq & He). eapply added_insert; [done|done|by eapply entry_of_last|done..|apply HP].
Qed.

Section mkdirs.
Context (P : path → inode → Prop) (s0 : mfs) (HP : ∀ q, P q IDir).
#[local] Hint Resolve mkdir_added : keeps.

Lemma mkdir_exists_added p e : keeps (added P s0) (mkdir_exists p e).
Proof. unfold mkdir_exists. keep_steps. Qed.
#[local] Hint Resolve mkdir_exists_added : keeps.

Lemma mkdir_here_added p : keeps (added P s0) (mkdir_here p).
Proof. unfold mkdir_here. keep_steps. Qed.
#[local] Hint Resolve mkdir_here_added : keeps.

Lemma mkdir_parents_added up : keeps (added P s0) (mkdir_parents up).
Proof. induction up as [|c up IH]; cbn [mkdir_parents]; keep_steps. Qed.

Lemma mkdirs_added p : keeps (added P s0) (m_mkdirs p).
Proof. apply mkdir_parents_added. Qed.
End mkdirs.

Lemma grown_refl P s : mtree (mf_nodes s) → added P s s.
Proof. intros Ht. split_and!; [done|done|done|]. intros q n H1 H2. congruence. Qed.

Lemma lookup_run follow p s n s' : m_lookup follow p s = (Ok n, s') →
  same_tree s s' ∧ n = node_at (mf_nodes s) follow p.
Proof.
  intros H. unfold m_lookup in H. apply read_only_bind in H as [(e & ? & _)|(u & s1 & _ & [En Em] & H)];
    [done|..|auto with keeps].
  injection H as <- <-. split; [done|]. by rewrite En.
Qed.

Lemma is_dir_run p s b s' : m_is_dir p s = (Ok b, s') →
  same_tree s s' ∧ b = inode_is_dir (node_at (mf_nodes s) true p).
Proof. intros (n & s1 & [Hs ->]%lookup_run & [= <- <-])%M_bind_Ok. done. Qed.

Lemma is_symlink_run p s b s' : m_is_symlink p s = (Ok b, s') →
  same_tree s s' ∧ b = inode_is_link (node_at (mf_nodes s) false p).
Proof. intros (n & s1 & [Hs ->]%lookup_run & [= <- <-])%M_bind_Ok. done. Qed.

Lemma exists_run p s b s' : m_exists p s = (Ok b, s') →
  same_tree s s' ∧ b = bool_decide (node_at (mf_nodes s) true p ≠ None).
Proof. intros (n & s1 & [Hs ->]%lookup_run & [= <- <-])%M_bind_Ok. done. Qed.

Lemma try_catch_Ok {W A} (m : M W A) h w a w' : try_catch m h w = (Ok a, w') →
  m w = (Ok a, w') ∨ ∃ e w1, m w = (Err e, w1) ∧ h e w1 = (Ok a, w').
Proof. unfold try_catch. destruct (m w) as [[x|e] w1] eqn:E; eauto. Qed.

Lemma node_is_dir nodes p : inode_is_dir (node_at nodes true p) = true → node_at nodes true p = Some IDir.
Proof. by destruct (node_at nodes true p) as [[]|]. Qed.

(** What a path leads to after its entry was filled with something that is no link. *)
Lemma filled_entry nodes p q n :
  free_entry nodes p q → inode_is_link (Some n) = false → node_at (<[q := n]> nodes) true p = Some n.
Proof.
  intros (Hq & Hn & _) Hl. unfold node_at, resolve_path.
  apply (walk_mono _ (<[q := n]> nodes)) with (d' := S (size (<[q := n]> nodes))) in Hq.
  - rewrite (walk_follow _ _ _ _ q n Hq) by (done || by rewrite lookup_insert_eq).
    by rewrite lookup_insert_eq.
  - by apply insert_subseteq_r.
  - rewrite map_size_insert_None by done. lia.
Qed.

Lemma mkdir_Ok p s s' : mtree (mf_nodes s) → m_mkdir p s = (Ok tt, s') →
  node_at (mf_nodes s') true p = Some IDir.
Proof.
  intros Ht [(e & ? & _)|(_ & q & Hq & _ & ->)]%mkdir_run; [done| |done]. by apply filled_entry.
Qed.

Lemma mkdir_exists_Ok p e s s' : mkdir_exists p e s = (Ok tt, s') → node_at (mf_nodes s') true p = Some IDir.
Proof.
  intros (b & s1 & [[En _] Hb]%is_dir_run & H)%M_bind_Ok. destruct b; [|done]. injection H as <-.
  rewrite En. by apply node_is_dir.
Qed.

Lemma mkdir_here_Ok p s s' : mtree (mf_nodes s) → mkdir_here p s = (Ok tt, s') →
  node_at (mf_nodes s') true p = Some IDir.
Proof.
  intros Ht [H|(e & s1 & _ & H)]%try_catch_Ok; [by eapply mkdir_Ok|].
  destruct e; cbn [is_os_error] in H; try done; by eapply mkdir_exists_Ok.
Qed.

Lemma mkdirs_Ok p s s' : mtree (mf_nodes s) → m_mkdirs p s = (Ok tt, s') →
  node_at (mf_nodes s') true p = Some IDir.
Proof.
  unfold m_mkdirs. intros Ht. rewrite <-(reverse_involutive p) at 2.
  generalize (reverse p) as up. clear p. intros up. destruct up as [|c up]; cbn [mkdir_parents];
    (intros [H|(e & s1 & E & H)]%try_catch_Ok; [by eapply mkdir_Ok|]);
    destruct e; cbn [is_os_error] in H; try done; try by eapply mkdir_exists_Ok.
  apply M_bind_Ok in H as ([] & s2 & Hup & H). eapply mkdir_here_Ok, H.
  pose proof (mkdir_parents_added (λ _ _, True) s1 ltac:(done) up _ _ _ Hup) as Ha.
  apply Ha. apply grown_refl.
  by apply mkdir_run in E as [(? & _ & [-> _])|[? _]].
Qed.

(** The directories below [root] are then real ones. *)
Lemma reject_symlink_plain nodes rest : ∀ base s s',
  mf_nodes s = nodes → mtree nodes → plain_dir nodes base → ".." ∉ base → ".." ∉ rest →
  node_at nodes true (base ++ rest) = Some IDir →
  reject_symlink_path base rest s = (Ok tt, s') → plain_dir nodes (base ++ rest).
Proof.
  induction rest as [|c rest IH]; intros base s s' En Ht Hb Hd Hr Hn H; [by rewrite app_nil_r|].
  apply not_elem_of_cons in Hr as [Hc Hr]. cbn [reject_symlink_path] in H.
  apply M_bind_Ok in H as (present & s1 & [[E1 _] Hp]%exists_run & H).
  apply M_bind_Ok in H as (link & s2 & Hl & H). destruct link; [done|].
  assert (base ++ c :: rest = (base ++ [c]) ++ rest) as Eapp by (by rewrite <-app_assoc).
  assert (mf_nodes s2 = nodes) as E2.
  { destruct present; [apply is_symlink_run in Hl as [[-> _] _]|injection Hl as <-]; congruence. }
  assert (∀ x, nodes !! (base ++ [c]) = Some x → inode_is_link (Some x) = true →
            node_at nodes true (base ++ [c]) = None) as Hlink.
  { intros x Hx Hxl. destruct present.
    - apply is_symlink_run in Hl as [_ Hl]. rewrite E1, En, node_at_name, Hx in Hl by done. congruence.
    - symmetry in Hp. rewrite En in Hp. apply bool_decide_eq_false in Hp.
      destruct (node_at nodes true (base ++ [c])); [|done]. by destruct Hp. }
  unfold node_at, resolve_path in Hn, Hlink. rewrite !walk_plain in Hn, Hlink by done.
  cbn [app] in Hn, Hlink. rewrite walk_cons, bool_decide_eq_false_2 in Hn by done. cbv zeta in Hn.
  rewrite walk_cons, bool_decide_eq_false_2 in Hlink by done. cbv zeta in Hlink.
  destruct (nodes !! (base ++ [c])) as [[|content|rooted target]|] eqn:E.
  - rewrite Eapp. eapply IH, H; try done.
    + by apply plain_dir_snoc.
    + set_solver.
    + unfold node_at, resolve_path. rewrite <-(app_nil_r (base ++ [c])) in Hn at 1.
      rewrite walk_plain; [|by apply plain_dir_snoc|set_solver]. by rewrite app_nil_r in Hn.
  - destruct rest; [|done]. congruence.
  - specialize (Hlink _ eq_refl eq_refl). rewrite !andb_false_r in Hn, Hlink.
    rewrite !bool_decide_eq_true_2 in Hlink by done.
    destruct (walk nodes (size nodes) true _ target) as [q|] eqn:Eq; [|done].
    cbn [mbind result_bind] in Hlink. apply (walk_Ok _ Ht) in Eq as [[x Hx]|[? _]]; [|done|].
    + rewrite Hx in Hlink. done.
    + destruct rooted; [apply Ht|by apply plain_dir_at].
  - by destruct rest.
Qed.

(** ** Single files *)

(** One more regular file, in an entry that was free. *)
Definition new_file (p : path) (s s' : mfs) : Prop :=
  ∃ q x, free_entry (mf_nodes s) p q ∧ mf_mounts s' = mf_mounts s ∧
    mf_nodes s' = <[q := IFile x]> (mf_nodes s).

Lemma same_tree_trans s1 s2 s3 : same_tree s1 s2 → same_tree s2 s3 → same_tree s1 s3.
Proof. intros [? ?] [? ?]. split; congruence. Qed.

Lemma same_tree_sym s1 s2 : same_tree s1 s2 → same_tree s2 s1.
Proof. by intros [? ?]. Qed.

Lemma new_file_same p s1 s2 s3 : same_tree s1 s2 → new_file p s2 s3 → new_file p s1 s3.
Proof. intros [En Em] (q & x & Hq & Hm & Hn). exists q, x. by rewrite <-En, <-Em. Qed.

Lemma new_file_same_r p s1 s2 s3 : new_file p s1 s2 → same_tree s2 s3 → new_file p s1 s3.
Proof. intros (q & x & Hq & Hm & Hn) [En Em]. exists q, x. by rewrite En, Em. Qed.

Lemma create_run p s r s' : mtree (mf_nodes s) → m_create p s = (r, s') →
  (∃ e, r = Err e ∧ same_tree s s') ∨
  (∃ q, r = Ok q ∧ free_entry (mf_nodes s) p q ∧ mf_mounts s' = mf_mounts s ∧
     mf_nodes s' = <[q := IFile []]> (mf_nodes s)).
Proof.
  intros Ht H. apply read_only_bind in H as [(e & -> & _ & Hs)|([q [n|]] & s1 & E & Hs & H)];
    [left; eauto|..|auto with keeps].
  - injection H as <- <-. left. eauto.
  - apply (entry_free _ _ _ _ Ht) in E as [[En Em] Hq]. injection H as <- <-. right.
    exists q. cbn. by rewrite En, Em.
Qed.

(** A write on an open file changes that file only. *)
Lemma write_run q content s r s' : m_write q content s = (r, s') →
  mf_mounts s' = mf_mounts s ∧ r ≠ Err FileExistsError ∧
  (mf_nodes s' = mf_nodes s ∨ ∃ x, mf_nodes s' = <[q := IFile x]> (mf_nodes s)).
Proof.
  unfold m_write, take_fault. intros H. rewrite M_bind_run in H.
  destruct (mf_faults s) as [|[[| |n []]|] faults]; cbn in H; injection H as <- <-; cbn; eauto.
Qed.

(** What is left when the new file is removed again. *)
Lemma unlink_new p q x s s1 r s' :
  free_entry (mf_nodes s) p q → mf_mounts s1 = mf_mounts s → mf_nodes s1 = <[q := IFile x]> (mf_nodes s) →
  m_unlink_quietly p s1 = (r, s') → same_tree s s' ∨ new_file p s s'.
Proof.
  intros Hq Hm En H.
  assert (∀ s2, same_tree s1 s2 → new_file p s s2) as Hkept.
  { intros s2 [E1 E2]. exists q, x. rewrite E1, E2. done. }
  assert (resolve_path (mf_nodes s1) false p = Ok q) as Hres.
  { rewrite En. destruct Hq as (Hq & Hn & _). unfold resolve_path in *.
    eapply walk_mono, Hq; [by apply insert_subseteq_r|]. rewrite map_size_insert_None by done. lia. }
  unfold m_unlink_quietly, try_catch in H.
  destruct (m_unlink p s1) as [[[]|e] s2] eqn:E.
  - injection H as <- <-. left. unfold m_unlink in E.
    apply M_bind_Ok in E as ([q' n] & s3 & (E3 & Hq' & ->)%entry_Ok & E). cbn in E.
    rewrite Hres in Hq'. injection Hq' as <-. rewrite En, lookup_insert_eq in E.
    injection E as <-. destruct E3 as [E3 E4]. split; cbn; [|congruence].
    rewrite E3, En, delete_insert_eq. destruct Hq as (_ & Hn & _). by rewrite delete_id.
  - right. apply Hkept. assert (same_tree s1 s2) as Hs2.
    { unfold m_unlink in E. apply read_only_bind in E as
        [(e' & _ & _ & Hs)|([q' n] & s3 & (_ & _ & _)%entry_Ok & Hs & E)]; [done|..|auto with keeps].
      cbn in E. destruct n as [[]|]; try done; by injection E as _ <-. }
    destruct (is_os_error e); injection H as <- <-; done.
Qed.

Lemma write_new_file_run p content s r s' :
  mtree (mf_nodes s) → write_new_file p content s = (r, s') →
  (∃ e, r = Err e ∧ same_tree s s') ∨ new_file p s s' ∧ r ≠ Err FileExistsError.
Proof.
  intros Ht H. unfold write_new_file in H. rewrite M_bind_run in H.
  destruct (m_create p s) as [rc s1] eqn:E.
  apply (create_run _ _ _ _ Ht) in E as [(e & -> & Hs)|(q & -> & Hq & Hm & En)].
  { injection H as <- <-. eauto. }
  assert (∀ s2, mf_mounts s2 = mf_mounts s1 → (mf_nodes s2 = mf_nodes s1 ∨
            ∃ x, mf_nodes s2 = <[q := IFile x]> (mf_nodes s1)) →
            ∃ x, mf_mounts s2 = mf_mounts s ∧ mf_nodes s2 = <[q := IFile x]> (mf_nodes s)) as Hfile.
  { intros s2 E2 [E3|[x E3]]; [exists []|exists x]; rewrite E2, E3, En, Hm; [done|].
    by rewrite insert_insert_eq. }
  unfold try_catch in H. destruct ((_ ← m_write q content; sys) s1) as [rw s2] eqn:E.
  assert (mf_mounts s2 = mf_mounts s1 ∧ rw ≠ Err FileExistsError ∧
            (mf_nodes s2 = mf_nodes s1 ∨ ∃ x, mf_nodes s2 = <[q := IFile x]> (mf_nodes s1)))
    as (Hm2 & Hrw & Hn2).
  { rewrite M_bind_run in E. destruct (m_write q content s1) as [rx sx] eqn:Ex.
    apply write_run in Ex as (Em & Hr & Hn). destruct rx as [[]|e].
    - apply sys_run in E as [[E1 E2] Hr2]. rewrite E1, E2. split_and!; [done| |done].
      by destruct Hr2 as [->|[->| ->]].
    - by injection E as <- <-. }
  destruct (Hfile s2 Hm2 Hn2) as (x & E1 & E2). destruct rw as [[]|e].
  - injection H as <- <-. right. split; [|done]. by exists q, x.
  - rewrite M_bind_run in H. destruct (m_unlink_quietly p s2) as [ru su] eqn:Eu.
    assert (same_tree s su ∨ new_file p s su) as Hsu by by eapply unlink_new.
    destruct ru as [[]|e'].
    + injection H as <- <-. destruct Hsu as [Hsu|Hsu]; [left; eauto|right]. split; [done|congruence].
    + (* only errors of the operating system are swallowed, and no other occurs *)
      injection H as <- <-. destruct Hsu as [Hsu|Hsu]; [left; eauto|right]. split; [done|].
      unfold m_unlink_quietly, try_catch in Eu. destruct (m_unlink p s2) as [[|e2] s3]; [done|].
      destruct (is_os_error e2) eqn:Ee; [done|]. injection Eu as -> ->. by intros [= ->].
Qed.

Definition holds_file (nodes : gmap path inode) (p : path) (size : Z) (sha256 : string) : Prop :=
  inode_is_link (node_at nodes false p) = false ∧
  ∃ c, node_at nodes true p = Some (IFile c) ∧ Z.of_nat (length c) = size ∧ sha256_hex c = sha256.

Lemma read_run p s c s' : m_read p s = (Ok c, s') →
  same_tree s s' ∧ node_at (mf_nodes s) true p = Some (IFile c).
Proof.
  unfold m_read, m_resolve. intros H.
  assert (same_tree s s') as Hs by (eapply (keeps_same (m_read p)), H; auto with keeps).
  split; [done|]. apply M_bind_Ok in H as (q & s1 & Hq & H).
  apply M_bind_Ok in Hq as ([] & s2 & [[En _] _]%sys_run & Hq).
  rewrite gets_bind_run in H. cbv beta in Hq. rewrite gets_bind_run in Hq. apply lift_Ok in Hq as [Hq ->].
  unfold node_at. rewrite En in H, Hq. rewrite Hq.
  destruct (mf_nodes s !! q) as [[]|]; try done. by injection H as <- _.
Qed.

Lemma verify_file_Ok p size sha256 s n s' :
  verify_file p size sha256 s = (Ok (V_ok, n), s') → holds_file (mf_nodes s) p size sha256 ∧ n = size.
Proof.
  unfold verify_file, reading. intros [H|(e & s1 & _ & H)]%try_catch_Ok.
  2: { destruct e; cbn in H; discriminate H. }
  apply M_bind_Ok in H as (skip & s1 & Hskip & H). destruct skip; [done|].
  apply M_bind_Ok in Hskip as (link & s2 & [[E2 _] Hl]%is_symlink_run & Hskip).
  destruct link; [done|].
  apply M_bind_Ok in Hskip as (file & s3 & Hf & [= _ <-]).
  apply M_bind_Ok in Hf as (nd & s4' & [[E3 _] _]%lookup_run & [= _ <-]).
  apply M_bind_Ok in H as (st & s4 & Hst & H).
  apply M_bind_Ok in Hst as (c & s5 & [[E4 _] Hc]%read_run & [= <- <-]).
  destruct (Z.eqb_spec (Z.of_nat (length c)) size) as [Hsz|]; [|done]. cbn [negb] in H.
  apply M_bind_Ok in H as (c' & s6 & [_ Hc']%read_run & H).
  rewrite E4, Hc in Hc'. injection Hc' as <-.
  case_bool_decide as Hd; [|done]. injection H as <- _. split; [|done].
  rewrite E3, E2 in Hc. split; [congruence|]. by exists c.
Qed.

Lemma put_immutable_run fuel p content digest : ∀ s r s',
  mtree (mf_nodes s) → put_immutable fuel p content digest s = (r, s') →
  (same_tree s s' ∨ new_file p s s') ∧
  (∀ b, r = Ok b → holds_file (mf_nodes s') p (Z.of_nat (length content)) digest).
Proof.
  induction fuel as [|fuel IH]; intros s r s' Ht H.
  { injection H as <- <-. split; [by left|done]. }
  cbn [put_immutable] in H. cbv zeta in H.
  apply read_only_bind in H as [(e & -> & _ & Hs)|(present & s1 & _ & Hs1 & H)];
    [split; [by left|done]|..|auto with keeps].
  assert (mtree (mf_nodes s1)) as Ht1 by (by rewrite (proj1 Hs1)).
  assert (∀ s2 x size sha n, verify_file p size sha s2 = (Ok x, n) → x.1 = V_ok →
            holds_file (mf_nodes s2) p size sha) as Hverify.
  { intros s2 [v k] size sha n Hv Hx. cbn in Hx. subst v. by eapply verify_file_Ok. }
  destruct present.
  - apply read_only_bind in H as [(e & -> & _ & Hs)|(x & s2 & Hx & Hs2 & H)];
      [split; [left; by eapply same_tree_trans|done]|..|auto with keeps].
    assert (same_tree s s2) as Hs by (by eapply same_tree_trans).
    case_bool_decide as Hok; injection H as <- <-; (split; [by left|]); [|done].
    intros _ _. rewrite (proj1 Hs2). by eapply Hverify.
  - rewrite M_bind_run in H.
    destruct (try_catch _ _ s1) as [rt s2] eqn:E. unfold try_catch in E. rewrite M_bind_run in E.
    destruct (write_new_file p content s1) as [rw s3] eqn:Ew.
    apply (write_new_file_run _ _ _ _ _ Ht1) in Ew.
    assert (same_tree s s3 ∨ new_file p s s3) as Hs3.
    { destruct Ew as [(e & _ & Hs)|[Hn _]]; [left; by eapply same_tree_trans|right; by eapply new_file_same]. }
    assert (s2 = s3 ∧ (rt = Ok true ∧ same_tree s s3 ∨ rt = Ok false ∨ ∃ e, rt = Err e)) as [-> Hrt].
    { destruct rw as [[]|e]; [injection E as <- <-; eauto|].
      destruct (decide (e = FileExistsError)) as [->|He].
      - injection E as <- <-. split; [done|]. left. split; [done|].
        destruct Ew as [(e & _ & Hs)|[_ ?]]; [by eapply same_tree_trans|congruence].
      - destruct e; injection E as <- <-; eauto; done. }
    destruct Hrt as [[-> Hs]|[->|[e ->]]].
    + apply IH in H as [H Hok]; [|by rewrite (proj1 Hs)]. split; [|done].
      destruct H as [H|H]; [left; by eapply same_tree_trans|right; by eapply new_file_same].
    + apply read_only_bind in H as [(e & -> & _ & Hs)|(x & s4 & Hx & Hs4 & H)];
        [split; [|done]|..|auto with keeps].
      { destruct Hs3 as [?|?]; [left; by eapply same_tree_trans|right; by eapply new_file_same_r]. }
      assert (same_tree s s4 ∨ new_file p s s4) as H4.
      { destruct Hs3 as [?|?]; [left; by eapply same_tree_trans|right; by eapply new_file_same_r]. }
      case_bool_decide as Hok; injection H as <- <-; (split; [done|]); [|done].
      intros _ _. rewrite (proj1 Hs4). by eapply Hverify.
    + injection H as <- <-. by split.
Qed.
