(* ===== verification/MountedDestination.v ===== *)
(** * Destinations on a mounted share: [services/destination_mounted.py]

    The operations of the module on the file system of [MountedFiles], and
    what they leave there in every outcome: a copy that was made is complete
    and nothing that existed before was changed; a deletion removes the files
    of its revision and no other. *)

From Stdlib Require Import ZArith Lia Strings.Ascii.
From stdpp Require Import base gmap sets list strings pretty.
From S2P Require Import Prelude Strings Text Hashing Json Calendar Models World Storage.
From S2P Require Import LocalStorage DestinationPaths Destination RevisionFiles RecordedPaths.
From S2P Require Import AuditSummary.
From S2P Require Import MountedFiles.
#[local] Open Scope string_scope.
#[local] Open Scope list_scope.
#[local] Open Scope Z_scope.

(* src: services/destination_mounted.py 406 411 _require_mounted_protocol *)
Definition require_mounted_protocol (d : BackupDestination) : M mfs unit :=
  if is_mounted (ds_protocol d) then mret tt
  else raise (DestinationError "PROTOCOL_UNSUPPORTED"
    "This operation requires an NFS or SMB3 mounted storage profile.").

Definition test_payload : bytes :=
  String.list_byte_of_string ("netbox-config-backup-mounted-storage-test" +:+ String (ascii_of_N 10) "").

Definition MAX_MANIFEST_SIZE : Z := 1024 * 1024.

Section mounted.
Context `{Externals} `{!ConfigStorage}.
Context (settings : MountSettings) (nfkd : string → string) (recursion_limit : nat).

(** ** Connection test

    [token] is [uuid.uuid4().hex].  A success returns a fixed dictionary. *)
(* src: services/destination_mounted.py 49 95 test_mounted_destination *)
Definition test_mounted_destination (token : string) (d : BackupDestination) : M mfs unit :=
  _ ← require_mounted_protocol d;
  root ← destination_root settings d;
  directory ← lift (safe_path root (canonical_base (ds_base_path d)));
  let test_path := directory ++ [".netbox-config-backup-test-" +:+ token] in
  finally
    (os_errors
       (DestinationError "DESTINATION_PATH_DENIED"
          "The NetBox worker cannot write to the mounted storage directory.")
       (DestinationError "DESTINATION_TEST_FAILED" "The mounted storage write verification failed.")
       (_ ← m_mkdirs directory;
        _ ← reject_symlink_path root (drop (length root) directory);
        _ ← write_new_file test_path test_payload;
        content ← m_read test_path;
        if negb (bool_decide (content = test_payload))
        then raise (DestinationError "DESTINATION_VERIFY_FAILED"
          "The mounted-storage test object could not be verified after writing it.")
        else
          _ ← m_unlink test_path;
          present ← m_exists test_path;
          if (present : bool)
          then raise (DestinationError "DESTINATION_DELETE_FAILED"
            "The mounted-storage test object still exists after deletion.")
          else mret tt))
    (m_unlink_quietly test_path).

(** ** Replication *)

(** One artifact: what was transferred so far and the primary storage. *)
Definition put_artifact (d : BackupDestination) (directory : path)
    (expected_files : list ExpectedRemoteFile) (acc : Z * files) (a : ConfigArtifact)
    : M mfs (Z * files) :=
  match ds_max_artifact_size d with
  | None => raise TypeError
  | Some max_artifact_size =>
      if max_artifact_size <? ar_size a
      then raise (DestinationError "ARTIFACT_TOO_LARGE"
        "An artifact exceeds the mounted storage size limit.")
      else
        match st_get (ar_storage_key a) acc.2 with
        | (Err e, _) =>
            if is_storage_error e
            then raise (DestinationError "PRIMARY_ARTIFACT_MISSING"
              "A primary backup artifact could not be read for replication.")
            else raise e
        | (Ok content, fs) =>
            let digest := sha256_hex content in
            if negb (Z.of_nat (length content) =? ar_size a)
               || negb (bool_decide (digest = ar_raw_hash a))
            then raise (DestinationError "PRIMARY_ARTIFACT_INVALID"
              "A primary backup artifact failed integrity verification.")
            else
              match file_of_type expected_files (ar_artifact_type a) with
              | None => raise KeyError
              | Some expected =>
                  written ← put_immutable recursion_limit (child directory (ef_filename expected))
                              content digest;
                  mret (acc.1 + (if (written : bool) then Z.of_nat (length content) else 0), fs)
              end
        end
  end.

(** The path, the expected files and the manifest of a replication. *)
Definition replication_plan (d : BackupDestination) (v : RevisionView) (recorded : option string)
    : result (string * list ExpectedRemoteFile * bytes) :=
  revision_path ← match recorded with
    | Some p => if bool_decide (p = "") then ftp_revision_destination_path nfkd (ds_base_path d)
                  (Some (vw_device_name v)) (vw_device_id v) (Aware (rv_created (vw_revision v)))
                  (Some (rv_pk (vw_revision v))) None else Ok p
    | None => ftp_revision_destination_path nfkd (ds_base_path d)
                  (Some (vw_device_name v)) (vw_device_id v) (Aware (rv_created (vw_revision v)))
                  (Some (rv_pk (vw_revision v))) None
    end;
  checked ← validate_recorded_revision_path nfkd (ds_base_path d) v revision_path
              "REPLICATION_PATH_INVALID";
  let readable_names := uses_readable_ftp_layout revision_path in
  let stem := readable_stem nfkd revision_path v in
  expected_files ← expected_revision_files nfkd v readable_names stem (Some checked.2);
  Ok (revision_path, expected_files,
      build_manifest nfkd v readable_names stem (Some checked.2)).

(* src: services/destination_mounted.py 98 195 replicate_revision_mounted *)
Definition replicate_revision_mounted (d : BackupDestination) (v : RevisionView)
    (recorded : option string) (fs : files) : M mfs ReplicationResult :=
  _ ← require_mounted_protocol d;
  if negb (ds_enabled d)
  then raise (DestinationError "DESTINATION_DISABLED" "The mounted storage is disabled.")
  else if bool_decide (vw_artifacts v = [])
  then raise (DestinationError "NO_ARTIFACTS" "The revision contains no backup artifacts.")
  else
    plan ← lift (replication_plan d v recorded);
    let '(revision_path, expected_files, manifest) := plan in
    root ← destination_root settings d;
    directory ← lift (safe_path root revision_path);
    transferred ← os_errors
      (DestinationError "DESTINATION_PATH_DENIED"
         "The NetBox worker cannot write to the mounted storage directory.")
      (DestinationError "DESTINATION_WRITE_FAILED"
         "The revision could not be written to mounted storage.")
      (_ ← m_mkdirs directory;
       _ ← reject_symlink_path root (drop (length root) directory);
       acc ← for_fold (vw_artifacts v) (0, fs) (put_artifact d directory expected_files);
       written ← put_immutable recursion_limit (child directory MANIFEST_FILENAME) manifest
                   (sha256_hex manifest);
       mret (acc.1 + (if (written : bool) then Z.of_nat (length manifest) else 0)));
    mret {| rr_remote_path := revision_path; rr_bytes_transferred := transferred;
            rr_artifact_count := Z.of_nat (length (vw_artifacts v)) |}.

(** ** Integrity audit *)

(* src: services/destination_mounted.py 553 585 _verify_manifest_file *)
Definition verify_manifest_file (p : path) (v : RevisionView) (revision_path : string)
    (expected_files : list ExpectedRemoteFile) : M mfs (verdict * Z) :=
  reading (
    skip ← not_regular p;
    if (skip : bool) then mret (V_missing, 0)
    else
      size ← m_size p;
      if MAX_MANIFEST_SIZE <? size then mret (V_size_mismatch, size)
      else
        content ← m_read p;
        matches ← lift (manifest_matches_revision recursion_limit content v revision_path expected_files);
        if negb matches then mret (V_hash_mismatch, size) else mret (V_ok, size)).

Definition MOUNTED_HEALTHY : string :=
  "All expected mounted-storage copies passed integrity verification.".

(** One expected file: whether the copy failed, and the summary. *)
Definition audit_file (issue_limit : Z) (replica : RevisionReplica) (v : RevisionView)
    (directory : path) (expected_files : list ExpectedRemoteFile)
    (acc : bool * ReconciliationSummary) (e : ExpectedRemoteFile)
    : M mfs (bool * ReconciliationSummary) :=
  let summary := acc.2 <| rs_checked_files ::= Z.succ |> in
  let p := child directory (ef_filename e) in
  x ← (if bool_decide (ef_artifact_type e = "manifest")
       then verify_manifest_file p v (rp_remote_path replica) expected_files
       else verify_file p (ef_size e) (ef_sha256 e));
  mret (record_file issue_limit replica v e acc.1 summary x).

Definition audit_replica (issue_limit : Z) (d : BackupDestination) (db : DB) (root : path)
    (summary : ReconciliationSummary) (replica : RevisionReplica) : M mfs ReconciliationSummary :=
  revision ← lift (require (DoesNotExist "ConfigRevision") (db_revisions db !! rp_revision replica));
  v ← lift (revision_view db revision);
  let revision_path := rp_remote_path replica in
  checked ← lift (validate_recorded_revision_path nfkd (ds_base_path d) v revision_path
                    "RECONCILIATION_PATH_INVALID");
  expected_files ← lift (expected_revision_files nfkd v (uses_readable_ftp_layout revision_path)
                           (readable_stem nfkd revision_path v) (Some checked.2));
  directory ← lift (safe_path root revision_path);
  let summary := summary <| rs_checked_replicas ::= Z.succ |> in
  acc ← for_fold expected_files (false, summary)
          (audit_file issue_limit replica v directory expected_files);
  mret (count_replica acc).

(** Without a selection, the replicas of the destination by their key. *)
Definition audited_replicas (d : BackupDestination) (db : DB) (replicas : option (list RevisionReplica))
    : list RevisionReplica :=
  match replicas with
  | Some l => l
  | None => sort_by (key_leb rp_pk rp_pk)
              (filter (λ r, rp_destination r = ds_pk d) (map snd (map_to_list (db_replicas db))))
  end.

Definition finish_summary (s : ReconciliationSummary) : ReconciliationSummary :=
  if negb (problem_count s =? 0)
  then s <| rs_success := false |>
         <| rs_safe_message := "The integrity audit found " +:+ pretty (problem_count s)
              +:+ " problem(s) in " +:+ pretty (rs_failed_replicas s) +:+ " revision copy/copies." |>
  else if rs_checked_replicas s =? 0
  then s <| rs_safe_message := "There are no successful revision copies to audit yet." |>
  else s.

(* src: services/destination_mounted.py 198 323 reconcile_mounted_destination *)
Definition reconcile_mounted_destination (d : BackupDestination)
    (replicas : option (list RevisionReplica)) (issue_limit : Z) (db : DB)
    : M mfs ReconciliationSummary :=
  _ ← require_mounted_protocol d;
  let all_supplied := audited_replicas d db replicas in
  let supplied := filter (auditable d) all_supplied in
  let skipped := Z.of_nat (length all_supplied) - Z.of_nat (length supplied) in
  root ← destination_root settings d;
  summary ← for_fold supplied (initial_summary MOUNTED_HEALTHY skipped) (audit_replica issue_limit d db root);
  mret (finish_summary summary).

(** ** Deletion *)

Record deletion := { dl_deleted : Z; dl_missing : Z; dl_bytes : Z }.

Definition delete_file (directory : path) (acc : deletion) (item : ExpectedRemoteFile)
    : M mfs deletion :=
  let p := child directory (ef_filename item) in
  present ← m_exists p;
  if negb present
  then mret {| dl_deleted := dl_deleted acc; dl_missing := dl_missing acc + 1; dl_bytes := dl_bytes acc |}
  else
    unsafe ← not_regular p;
    if (unsafe : bool)
    then raise (DestinationError "DELETE_FILESET_INVALID"
      "The revision directory contains an unsafe file entry.")
    else
      size ← m_size p;
      _ ← m_unlink p;
      mret {| dl_deleted := dl_deleted acc + 1; dl_missing := dl_missing acc;
              dl_bytes := dl_bytes acc + size |}.

(* src: services/destination_mounted.py 326 403 delete_revision_replica_mounted *)
Definition delete_revision_replica_mounted (d : BackupDestination) (v : RevisionView)
    (replica : RevisionReplica) : M mfs DeletedRevisionResult :=
  _ ← require_mounted_protocol d;
  if negb (ds_enabled d)
  then raise (DestinationError "DESTINATION_DISABLED"
    "The mounted storage is disabled and no remote file was deleted.")
  else
    let remote_path := rp_remote_path replica in
    checked ← lift (validate_recorded_revision_path nfkd (ds_base_path d) v remote_path
                      "DELETE_PATH_INVALID");
    expected ← lift (expected_revision_files nfkd v (uses_readable_ftp_layout remote_path)
                       (readable_stem nfkd remote_path v) (Some checked.2));
    root ← destination_root settings d;
    directory ← lift (safe_path root remote_path);
    present ← m_exists directory;
    let count := Z.of_nat (length expected) in
    if negb present
    then mret {| dr_remote_path := remote_path; dr_expected_file_count := count;
                 dr_deleted_file_count := 0; dr_missing_file_count := count; dr_deleted_bytes := 0;
                 dr_directory_removed := false; dr_already_absent := true |}
    else
      _ ← reject_symlink_path root (drop (length root) directory);
      actual_names ← m_iterdir directory;
      if bool_decide (Exists (λ n, n ∉ map ef_filename expected) actual_names)
      then raise (DestinationError "DELETE_FILESET_CONFLICT"
        "The revision directory contains unknown files and was not deleted.")
      else
        acc ← os_errors
          (DestinationError "DESTINATION_DELETE_DENIED"
             "The NetBox worker cannot delete the expired mounted-storage copy.")
          (DestinationError "DESTINATION_DELETE_FAILED"
             "The mounted-storage revision copy could not be deleted safely.")
          (acc ← for_fold expected {| dl_deleted := 0; dl_missing := 0; dl_bytes := 0 |}
                   (delete_file directory);
           _ ← m_rmdir directory; mret acc);
        mret {| dr_remote_path := remote_path; dr_expected_file_count := count;
                dr_deleted_file_count := dl_deleted acc; dr_missing_file_count := dl_missing acc;
                dr_deleted_bytes := dl_bytes acc; dr_directory_removed := true;
                dr_already_absent := false |}.
End mounted.

(** ** What the pieces leave behind *)

Lemma os_errors_Ok {A} denied failed (m : M mfs A) s a s' :
  os_errors denied failed m s = (Ok a, s') → m s = (Ok a, s').
Proof.
  unfold os_errors. intros [H|(e & s1 & _ & H)]%try_catch_Ok; [done|].
  by destruct e; cbn in H; try discriminate H.
Qed.

Lemma keeps_os_errors {A} I denied failed (m : M mfs A) : keeps I m → keeps I (os_errors denied failed m).
Proof. intros Hm. unfold os_errors. apply keeps_try; [done|]. intros e. destruct e; cbn [is_os_error]; auto with keeps. Qed.
#[export] Hint Resolve keeps_os_errors : keeps.

Lemma keeps_require_mounted I d : keeps I (require_mounted_protocol d).
Proof. unfold require_mounted_protocol. keep_steps. Qed.
#[export] Hint Resolve keeps_require_mounted : keeps.

Lemma resolve_run p s q s' : m_resolve p s = (Ok q, s') →
  same_tree s s' ∧ resolve_path (mf_nodes s) true p = Ok q.
Proof.
  intros H. assert (same_tree s s') as Hs by (eapply keeps_same, H; auto with keeps).
  split; [done|]. unfold m_resolve in H. apply M_bind_Ok in H as ([] & s1 & [[En _] _]%sys_run & H).
  rewrite gets_bind_run in H. apply lift_Ok in H as [H _]. by rewrite En in H.
Qed.

(** The root of a destination is a directory without links on its way. *)
Lemma destination_root_Ok settings d s root s' :
  mtree (mf_nodes s) → destination_root settings d s = (Ok root, s') →
  same_tree s s' ∧ plain_dir (mf_nodes s) root ∧ ".." ∉ root.
Proof.
  intros Ht H. assert (same_tree s s') as Hs by (eapply keeps_same, H; auto with keeps).
  split; [done|]. unfold destination_root in H. case_bool_decide; [done|].
  apply M_bind_Ok in H as (r & s1 & [Hr|(e & s2 & _ & Hr)]%try_catch_Ok & H).
  2: destruct (is_os_error e); discriminate Hr.
  apply M_bind_Ok in Hr as (link & s2 & [[E2 _] _]%is_symlink_run & Hr).
  destruct link; [done|]. apply resolve_run in Hr as [[E1 _] Hr]. rewrite E2 in Hr, E1.
  apply M_bind_Ok in H as (dir & s3 & [[E3 _] Hd]%is_dir_run & H).
  apply M_bind_Ok in H as (lk & s4 & Hlk & H). destruct lk; [done|]. destruct dir; [|done].
  apply is_symlink_run in Hlk as [_ Hlk]. rewrite E3, E1 in Hlk. rewrite E1 in Hd.
  assert (r = root) as ->.
  { apply M_bind_Ok in H as (al & s5 & _ & H). destruct (negb al); [done|].
    apply M_bind_Ok in H as (ac & s6 & _ & H). destruct (negb ac); [done|]. by injection H. }
  assert (".." ∉ root) as Hdots by (eapply walk_no_dots, Hr; apply not_elem_of_nil).
  split; [|done]. apply (tree_plain _ _ Ht). apply walk_Ok in Hr as [[n Hn]|[? _]]; [|done|done|apply Ht].
  destruct root as [|c up _] using rev_ind; [apply Ht|].
  assert (plain_dir (mf_nodes s) up) as Hup.
  { apply (tree_plain _ _ Ht). eapply (mt_parent _ Ht). by rewrite Hn. }
  assert ((".." ∉ up) ∧ c ≠ "..") as [Hdu Hc] by (split; set_solver).
  rewrite node_at_name, Hn in Hlk by done. unfold node_at in Hd.
  destruct (node_at_entry _ up c Hup Hdu Hc) as (_ & He & _).
  rewrite (He n Hn (eq_sym Hlk)), Hn in Hd. destruct n; done.
Qed.

(** What the checks of a mount establish: the configured path is no link and
    leads to a real directory below one of the allowed roots, which is an
    active mount point when the deployment asks for one. *)
Definition real_mount (settings : MountSettings) (s : mfs) (d : BackupDestination) (root : path) : Prop :=
  let at_cwd := as_path (ms_cwd settings) in
  inode_is_link (node_at (mf_nodes s) false (at_cwd (ds_mount_path d))) = false ∧
  resolve_path (mf_nodes s) true (at_cwd (ds_mount_path d)) = Ok root ∧
  plain_dir (mf_nodes s) root ∧
  (∃ configured allowed, configured ∈ ms_network_storage_mount_roots settings ∧
     inode_is_link (node_at (mf_nodes s) false (at_cwd configured)) = false ∧
     resolve_path (mf_nodes s) true (at_cwd configured) = Ok allowed ∧
     allowed ≠ [] ∧ allowed `prefix_of` root) ∧
  (ms_network_storage_require_mountpoint settings = true → root ∈ mf_mounts s).

Lemma below_allowed_root_true settings root roots : ∀ s s',
  below_allowed_root settings root roots s = (Ok true, s') →
  ∃ configured allowed, configured ∈ roots ∧
    inode_is_link (node_at (mf_nodes s) false (as_path (ms_cwd settings) configured)) = false ∧
    resolve_path (mf_nodes s) true (as_path (ms_cwd settings) configured) = Ok allowed ∧
    allowed ≠ [] ∧ allowed `prefix_of` root.
Proof.
  induction roots as [|configured roots IH]; intros s s' H; [done|]. cbn [below_allowed_root] in H.
  cbv zeta in H. apply M_bind_Ok in H as (allowed & s1 & Ht & H).
  assert (same_tree s s1) as [En _] by (eapply keeps_same, Ht; intros J; keep_steps).
  destruct allowed.
  - apply try_catch_Ok in Ht as [Ht|(e & s2 & _ & Hr)]; [|by destruct (is_os_error e)].
    apply M_bind_Ok in Ht as (link & s2 & [[E2 _] Hl]%is_symlink_run & Ht). destruct link; [done|].
    apply M_bind_Ok in Ht as (a & s3 & [_ Ha]%resolve_run & [= Hb _]). rewrite E2 in Ha.
    apply andb_true_iff in Hb as [Hne%negb_true_iff%bool_decide_eq_false Hp%bool_decide_eq_true].
    exists configured, a. split_and!; [by left|done..].
  - apply IH in H as (c & a & Hc & Ha). rewrite En in Ha. exists c, a. split; [by right|done].
Qed.

Lemma destination_root_real settings d s root s' :
  mtree (mf_nodes s) → destination_root settings d s = (Ok root, s') → real_mount settings s d root.
Proof.
  intros Ht H. pose proof (destination_root_Ok _ _ _ _ _ Ht H) as (_ & Hplain & _).
  unfold destination_root in H. case_bool_decide; [done|].
  apply M_bind_Ok in H as (r & s1 & [Hr|(e & s2 & _ & Hr)]%try_catch_Ok & H).
  2: destruct (is_os_error e); discriminate Hr.
  apply M_bind_Ok in Hr as (link & s2 & [[E2 M2] Hl]%is_symlink_run & Hr).
  destruct link; [done|]. apply resolve_run in Hr as [[E1 M1] Hr].
  apply M_bind_Ok in H as (dir & s3 & [[E3 M3] _]%is_dir_run & H).
  apply M_bind_Ok in H as (lk & s4 & Hlk & H). destruct lk; [done|].
  assert (same_tree s3 s4) as [E4 M4] by (eapply keeps_same, Hlk; destruct dir; auto with keeps).
  apply M_bind_Ok in H as (al & s5 & Hal & H). destruct al; [|done].
  assert (same_tree s4 s5) as [E5 M5] by (eapply keeps_same, Hal; auto with keeps).
  apply below_allowed_root_true in Hal. cbn [negb] in H.
  apply M_bind_Ok in H as (ac & s6 & Hac & H). destruct ac; [|done]. injection H as -> _.
  rewrite E2 in Hr. rewrite E4, E3, E1, E2 in Hal. split_and!; [done..|].
  intros Hreq. rewrite Hreq in Hac. unfold m_ismount in Hac.
  apply try_catch_Ok in Hac as [Hac|(e & s7 & _ & Hac)]; [|by destruct (is_os_error e)].
  apply M_bind_Ok in Hac as ([] & s7 & [[_ M7] _]%sys_run & Hac).
  apply M_bind_Ok in Hac as ([] & s8 & [[_ M8] _]%sys_run & [= Hac _]).
  rewrite M8, M7, M5, M4, M3, M1, M2 in Hac.
  apply orb_true_iff in Hac as [Hac%bool_decide_eq_true|Hac%bool_decide_eq_true]; [done|].
  destruct Hal as (c & a & _ & _ & _ & Hne & Hpre). rewrite Hac in Hpre. by apply prefix_nil_inv in Hpre.
Qed.

Lemma safe_path_Ok root remote directory :
  safe_path root remote = Ok directory →
  directory = root ++ path_parts remote ∧ is_absolute remote = true ∧ ".." ∉ path_parts remote.
Proof.
  unfold safe_path. destruct (is_absolute remote) eqn:Ha; [|done].
  assert (drop 1 (pure_parts remote) = path_parts remote) as -> by (unfold pure_parts; by rewrite Ha).
  cbn [negb orb].
  destruct (existsb _ _) eqn:E; [done|]. intros [= <-]. split_and!; [done..|].
  intros Hin. apply Bool.not_true_iff_false in E. apply E. apply existsb_exists.
  exists "..". split; [by apply list_elem_of_In|done].
Qed.

Lemma child_plain directory name : plain_part name → child directory name = directory ++ [name].
Proof.
  intros (H1 & H2 & H3 & H4). unfold child, as_path.
  destruct name as [|a name]; [done|].
  destruct (is_absolute (String a name)) eqn:Ha.
  { cbn in Ha. apply bool_decide_eq_true in Ha as ->. done. }
  by rewrite path_parts_single.
Qed.

(** ** Replication *)

Definition has_file (nodes : gmap path inode) (q : path) (size : Z) (sha256 : string) : Prop :=
  ∃ c, nodes !! q = Some (IFile c) ∧ Z.of_nat (length c) = size ∧ sha256_hex c = sha256.

Lemma has_file_mono nodes nodes' q size sha256 :
  nodes ⊆ nodes' → has_file nodes q size sha256 → has_file nodes' q size sha256.
Proof. intros Hsub (c & Hc & ?). exists c. split; [by eapply lookup_weaken|done]. Qed.

Lemma holds_has_file nodes directory name size sha256 :
  plain_dir nodes directory → ".." ∉ directory → plain_part name →
  holds_file nodes (child directory name) size sha256 ↔ has_file nodes (directory ++ [name]) size sha256.
Proof.
  intros Hp Hd Hn. rewrite child_plain by done.
  destruct (node_at_entry nodes directory name Hp Hd ltac:(apply Hn)) as (_ & He & Hnone).
  unfold holds_file, has_file. rewrite node_at_name by (done || apply Hn). unfold node_at. split.
  - intros [Hl (c & Hc & H)]. exists c. split; [|done].
    destruct (nodes !! (directory ++ [name])) as [n|] eqn:E.
    + rewrite (He n eq_refl Hl) in Hc. by rewrite E in Hc.
    + by rewrite (Hnone eq_refl) in Hc.
  - intros (c & Hc & H). rewrite Hc. split; [done|]. exists c. by rewrite (He _ Hc eq_refl), Hc.
Qed.

(** The nodes a replication may add: directories, and files that are named
    after the expected ones. *)
Definition new_node (directory : path) (names : list string) (q : path) (n : inode) : Prop :=
  n = IDir ∨ ∃ name x, name ∈ names ∧ n = IFile x ∧ list.last q = list.last (child directory name) ∧
    (plain_part name → q = directory ++ [name]).

Lemma new_file_node directory names name s q x :
  plain_dir (mf_nodes s) directory → ".." ∉ directory → name ∈ names →
  free_entry (mf_nodes s) (child directory name) q → new_node directory names q (IFile x).
Proof.
  intros Hp Hd Hin (Hq & _ & (up & c & -> & _ & Hl)). right. exists name, x.
  split_and!; [done|done|by rewrite last_snoc|]. intros Hn. rewrite child_plain in Hq by done.
  destruct (node_at_entry (mf_nodes s) directory name Hp Hd ltac:(apply Hn)) as (He & _).
  rewrite He in Hq. by injection Hq as <-.
Qed.

Lemma put_immutable_added directory names name fuel content digest s0 :
  plain_dir (mf_nodes s0) directory → ".." ∉ directory → name ∈ names →
  keeps (added (new_node directory names) s0)
        (put_immutable fuel (child directory name) content digest).
Proof.
  intros Hp Hd Hin s r s' H Ha. pose proof Ha as (Ht & _ & Hsub & _).
  apply put_immutable_run in H as [[[En Em]|(q & x & Hq & Hm & En)] _]; [..|done].
  - unfold on_tree. by rewrite En, Em.
  - destruct Hq as (Hres & Hfree & He). eapply added_insert; [done|done|by eapply entry_of_last|done..|].
    eapply (new_file_node directory names name s); [|done|done|done].
    intros y Hy. eapply lookup_weaken, Hsub. by apply Hp.
Qed.

Lemma put_immutable_has directory name fuel content digest s b s' :
  mtree (mf_nodes s) → plain_dir (mf_nodes s') directory → ".." ∉ directory → plain_part name →
  put_immutable fuel (child directory name) content digest s = (Ok b, s') →
  has_file (mf_nodes s') (directory ++ [name]) (Z.of_nat (length content)) digest.
Proof.
  intros Ht Hp Hd Hn H. apply put_immutable_run in H as [_ H]; [|done].
  apply holds_has_file; [done..|]. by eapply H.
Qed.

Section replication.
Context `{Externals} `{!ConfigStorage}.
Context (settings : MountSettings) (nfkd : string → string) (recursion_limit : nat).

Lemma put_artifact_run d directory files acc a s b s' :
  put_artifact recursion_limit d directory files acc a s = (Ok b, s') →
  ∃ e content w, file_of_type files (ar_artifact_type a) = Some e ∧
    put_immutable recursion_limit (child directory (ef_filename e)) content (sha256_hex content) s
      = (Ok w, s') ∧
    Z.of_nat (length content) = ar_size a ∧ sha256_hex content = ar_raw_hash a.
Proof.
  unfold put_artifact. intros Hrun. destruct (ds_max_artifact_size d) as [m|]; [|done].
  destruct (m <? ar_size a); [done|].
  destruct (st_get _ _) as [[content|e] fs]; [|by destruct (is_storage_error e)].
  cbv zeta in Hrun. destruct (negb _ || negb _) eqn:E; [done|].
  apply orb_false_iff in E as [E1 E2]. apply negb_false_iff, Z.eqb_eq in E1.
  apply negb_false_iff, bool_decide_eq_true in E2.
  destruct (file_of_type _ _) as [e|] eqn:Ee; [|done].
  apply M_bind_Ok in Hrun as (w & s1 & Hput & [= _ <-]). by exists e, content, w.
Qed.

Lemma put_artifact_added d directory files acc a s0 :
  plain_dir (mf_nodes s0) directory → ".." ∉ directory →
  keeps (added (new_node directory (map ef_filename files)) s0)
        (put_artifact recursion_limit d directory files acc a).
Proof.
  intros Hp Hd. unfold put_artifact. repeat case_match; try solve [auto with keeps].
  apply keeps_bind; [|intros w; auto with keeps]. apply put_immutable_added; [done..|].
  apply list_elem_of_fmap_2. by eapply file_of_type_in.
Qed.

(** The copy of [v] at [directory] is complete. *)
Definition complete_copy (nodes : gmap path inode) (v : RevisionView) (directory : path)
    (files : list ExpectedRemoteFile) (manifest : bytes) : Prop :=
  plain_dir nodes directory ∧
  has_file nodes (directory ++ [MANIFEST_FILENAME]) (Z.of_nat (length manifest)) (sha256_hex manifest) ∧
  ∀ a, a ∈ vw_artifacts v → ∃ e, file_of_type files (ar_artifact_type a) = Some e ∧
    (plain_part (ef_filename e) →
     has_file nodes (directory ++ [ef_filename e]) (ar_size a) (ar_raw_hash a)).

(** The part of a replication that writes. *)
Definition write_copy (d : BackupDestination) (v : RevisionView) (root directory : path)
    (files : list ExpectedRemoteFile) (manifest : bytes) (fs : World.files) : M mfs Z :=
  _ ← m_mkdirs directory;
  _ ← reject_symlink_path root (drop (length root) directory);
  acc ← for_fold (vw_artifacts v) (0, fs) (put_artifact recursion_limit d directory files);
  written ← put_immutable recursion_limit (child directory MANIFEST_FILENAME) manifest (sha256_hex manifest);
  mret (acc.1 + (if (written : bool) then Z.of_nat (length manifest) else 0)).

Lemma plain_grown P s0 s directory :
  added P s0 s → plain_dir (mf_nodes s0) directory → plain_dir (mf_nodes s) directory.
Proof. intros (_ & _ & Hsub & _) Hp q Hq. eapply lookup_weaken, Hsub. by apply Hp. Qed.

Lemma put_artifacts_Ok d v directory files fs s b s' :
  mtree (mf_nodes s) → plain_dir (mf_nodes s) directory → ".." ∉ directory →
  for_fold (vw_artifacts v) (0, fs) (put_artifact recursion_limit d directory files) s = (Ok b, s') →
  added (new_node directory (map ef_filename files)) s s' ∧
  ∀ a, a ∈ vw_artifacts v → ∃ e, file_of_type files (ar_artifact_type a) = Some e ∧
    (plain_part (ef_filename e) →
     has_file (mf_nodes s') (directory ++ [ef_filename e]) (ar_size a) (ar_raw_hash a)).
Proof.
  intros Ht Hp Hd Hrun.
  apply (for_fold_Ok (added (new_node directory (map ef_filename files)) s)
           (λ a s', ∃ e, file_of_type files (ar_artifact_type a) = Some e ∧
              (plain_part (ef_filename e) →
               has_file (mf_nodes s') (directory ++ [ef_filename e]) (ar_size a) (ar_raw_hash a))))
    in Hrun; [done|..|by apply grown_refl].
  - intros a acc w c w' _ Ha Hput.
    assert (added (new_node directory (map ef_filename files)) s w') as Ha'
      by (by eapply put_artifact_added in Hput; eauto).
    split; [done|]. apply put_artifact_run in Hput as (e & content & wr & He & Hput & Hlen & Hsha).
    exists e. split; [done|]. intros Hn. rewrite <-Hlen, <-Hsha.
    eapply put_immutable_has, Hput; [apply Ha|by eapply plain_grown|done..].
  - intros a y acc w c w' _ Ha (e & He & Hy) Hput. exists e. split; [done|]. intros Hn.
    eapply has_file_mono, Hy, Hn.
    assert (plain_dir (mf_nodes w) directory) as Hpw by by eapply plain_grown.
    pose proof (put_artifact_added d directory files acc a w Hpw Hd _ _ _ Hput
      (grown_refl _ _ (proj1 Ha))) as (_ & _ & Hsub & _). done.
Qed.

Lemma write_copy_run d v root parts files manifest fs s r s' :
  mtree (mf_nodes s) → plain_dir (mf_nodes s) root → ".." ∉ root ++ parts →
  MANIFEST_FILENAME ∈ map ef_filename files →
  write_copy d v root (root ++ parts) files manifest fs s = (r, s') →
  ∃ s1, added (λ _ n, n = IDir) s s1 ∧
    ((same_tree s1 s' ∧ is_ok r = false) ∨
     (plain_dir (mf_nodes s1) (root ++ parts) ∧
      added (new_node (root ++ parts) (map ef_filename files)) s1 s' ∧
      (∀ n, r = Ok n → complete_copy (mf_nodes s') v (root ++ parts) files manifest))).
Proof.
  intros Ht Hroot Hdots Hman Hrun. unfold write_copy in Hrun. rewrite drop_app_length in Hrun.
  rewrite M_bind_run in Hrun. destruct (m_mkdirs (root ++ parts) s) as [rm s1] eqn:Emk.
  assert (added (λ _ n, n = IDir) s s1) as H1.
  { by eapply mkdirs_added, grown_refl; [|exact Emk|]. }
  exists s1. split; [done|]. pose proof H1 as (Ht1 & _ & _ & _).
  destruct rm as [[]|e]; [|left; by injection Hrun as <- <-].
  apply read_only_bind in Hrun as [(e & -> & _ & Hs)|([] & s2 & Hrej & Hs & Hrun)];
    [by left|..|auto with keeps].
  right. assert (plain_dir (mf_nodes s1) (root ++ parts)) as Hplain.
  { eapply reject_symlink_plain, Hrej; [done|done|by eapply plain_grown|set_solver|set_solver|].
    exact (mkdirs_Ok _ _ _ Ht Emk). }
  split; [done|]. destruct Hs as [En Em].
  assert (added (new_node (root ++ parts) (map ef_filename files)) s1 s2) as H2.
  { unfold on_tree. rewrite En, Em. by apply grown_refl. }
  rewrite M_bind_run in Hrun.
  destruct (for_fold _ _ _ s2) as [rf s3] eqn:Ef.
  assert (added (new_node (root ++ parts) (map ef_filename files)) s1 s3) as H3.
  { eapply keeps_for_fold, H2; [|exact Ef]. intros acc a. by apply put_artifact_added. }
  destruct rf as [acc|e]; [|injection Hrun as <- <-; done].
  rewrite M_bind_run in Hrun.
  destruct (put_immutable _ _ _ _ s3) as [rp s4] eqn:Ep.
  assert (added (new_node (root ++ parts) (map ef_filename files)) s1 s4) as H4.
  { eapply put_immutable_added, H3; [done..|exact Ep]. }
  destruct rp as [w|e]; injection Hrun as <- <-; (split; [done|]); [|done]. intros n _.
  assert (plain_dir (mf_nodes s3) (root ++ parts)) as Hp3 by by eapply plain_grown.
  assert (plain_dir (mf_nodes s4) (root ++ parts)) as Hp4 by by eapply plain_grown.
  split_and!; [done| |].
  - eapply put_immutable_has, Ep; [apply H3|done..].
  - apply put_artifacts_Ok in Ef as [_ Hall]; [|by rewrite En|by rewrite En|done].
    intros a (e & He & Ha)%Hall. exists e. split; [done|]. intros Hn.
    eapply has_file_mono, Ha, Hn.
    pose proof (put_immutable_added (root ++ parts) (map ef_filename files) MANIFEST_FILENAME
      _ _ _ s3 Hp3 Hdots Hman _ _ _ Ep (grown_refl _ _ (proj1 H3))) as (_ & _ & Hsub & _). done.
Qed.
End replication.

Section replicate.
Context `{Externals} `{!ConfigStorage}.
Context (settings : MountSettings) (nfkd : string → string) (recursion_limit : nat).

Lemma replication_plan_Ok d v recorded path files manifest :
  replication_plan nfkd d v recorded = Ok (path, files, manifest) →
  ∃ layout segment, validate_recorded_revision_path nfkd (ds_base_path d) v path
                      "REPLICATION_PATH_INVALID" = Ok (layout, segment) ∧
  (∀ p, recorded = Some p → p ≠ "" → path = p) ∧
  expected_revision_files nfkd v (uses_readable_ftp_layout path) (readable_stem nfkd path v)
    (Some segment) = Ok files ∧
  manifest = build_manifest nfkd v (uses_readable_ftp_layout path) (readable_stem nfkd path v) (Some segment).
Proof.
  unfold replication_plan. intros (p & Hp & Hrest)%result_bind_Ok.
  apply result_bind_Ok in Hrest as ([layout segment] & Hv & Hrest). cbv zeta in Hrest.
  apply result_bind_Ok in Hrest as (fl & Hfl & [= <- <- <-]). exists layout, segment.
  split_and!; [done| |done..]. intros q -> Hq.
  by rewrite bool_decide_eq_false_2 in Hp by done; injection Hp.
Qed.

(** A replication either changes nothing, or runs [write_copy]. *)
Lemma replicate_mounted_run d v recorded fs s r s' :
  mtree (mf_nodes s) →
  replicate_revision_mounted settings nfkd recursion_limit d v recorded fs s = (r, s') →
  (same_tree s s' ∧ is_ok r = false) ∨
  ∃ path files manifest root rw s1 s2, replication_plan nfkd d v recorded = Ok (path, files, manifest) ∧
    same_tree s s1 ∧ destination_root settings d s1 = (Ok root, s2) ∧ same_tree s s2 ∧
    plain_dir (mf_nodes s) root ∧ (".." ∉ root ++ path_parts path) ∧
    write_copy recursion_limit d v root (root ++ path_parts path) files manifest fs s2 = (rw, s') ∧
    is_ok r = is_ok rw ∧ (∀ res, r = Ok res → rr_remote_path res = path).
Proof.
  intros Ht Hrun. unfold replicate_revision_mounted in Hrun.
  apply read_only_bind in Hrun as [(e & -> & _ & Hs)|([] & s1 & _ & Hs & Hrun)];
    [by left|..|auto with keeps].
  destruct (negb (ds_enabled d)); [left; by injection Hrun as <- <-|].
  case_bool_decide; [left; by injection Hrun as <- <-|].
  rewrite lift_bind_run in Hrun.
  destruct (replication_plan nfkd d v recorded) as [[[path files] manifest]|e] eqn:Eplan;
    [|left; by injection Hrun as <- <-].
  apply read_only_bind in Hrun as [(e & -> & _ & Hs2)|(root & s2 & Hroot & Hs2 & Hrun)];
    [left; split; [by eapply same_tree_trans|done]|..|auto with keeps].
  assert (same_tree s s2) as Hs' by by eapply same_tree_trans.
  rewrite lift_bind_run in Hrun.
  destruct (safe_path root path) as [directory|e] eqn:Esafe; [|left; by injection Hrun as <- <-].
  apply safe_path_Ok in Esafe as (-> & _ & Hdots). right.
  assert (mtree (mf_nodes s1)) as Ht1 by (by rewrite (proj1 Hs)).
  destruct (destination_root_Ok _ _ _ _ _ Ht1 Hroot) as (_ & Hplain & Hrd). rewrite (proj1 Hs) in Hplain.
  fold (write_copy recursion_limit d v root (root ++ path_parts path) files manifest fs) in Hrun.
  rewrite M_bind_run in Hrun. unfold os_errors, try_catch in Hrun.
  destruct (write_copy _ _ _ _ _ _ _ _ s2) as [rw s3] eqn:Ew.
  exists path, files, manifest, root, rw, s1, s2.
  assert (".." ∉ root ++ path_parts path) as Hd by set_solver.
  destruct rw as [n|e].
  - injection Hrun as <- <-. split_and!; try done. by intros res [= <-].
  - destruct e; cbn in Hrun; injection Hrun as <- <-; by split_and!.
Qed.

(** C25: A replication to a mounted share, whatever call fails and however much
    of a write is stored, changes nothing that existed: it adds directories,
    and regular files in the directory of the copy under the expected names,
    below the mount.  The mount is the real directory the configured path
    leads to, without a link at its end, below an allowed root, and an active
    mount point when the deployment asks for one.  When the replication
    reports success the copy is complete: its directory is a real one without
    a link on the way and holds the manifest and every artifact of the
    revision with its recorded size and digest.  The artifact types of the
    revision are assumed to hold no slash. *)
Theorem replicate_mounted_complete d v recorded fs s r s' :
  mtree (mf_nodes s) → types_plain v →
  replicate_revision_mounted settings nfkd recursion_limit d v recorded fs s = (r, s') →
  mtree (mf_nodes s') ∧ mf_nodes s ⊆ mf_nodes s' ∧
  (∀ q n, mf_nodes s !! q = None → mf_nodes s' !! q = Some n → n = IDir ∨
     ∃ path files manifest root name x, replication_plan nfkd d v recorded = Ok (path, files, manifest) ∧
       real_mount settings s d root ∧ name ∈ map ef_filename files ∧
       q = root ++ path_parts path ++ [name] ∧ n = IFile x) ∧
  (∀ res, r = Ok res → ∃ files manifest root,
     replication_plan nfkd d v recorded = Ok (rr_remote_path res, files, manifest) ∧
     let directory := root ++ path_parts (rr_remote_path res) in
     real_mount settings s d root ∧ plain_dir (mf_nodes s') directory ∧
     has_file (mf_nodes s') (directory ++ [MANIFEST_FILENAME]) (Z.of_nat (length manifest))
       (sha256_hex manifest) ∧
     ∀ a, a ∈ vw_artifacts v → ∃ e, file_of_type files (ar_artifact_type a) = Some e ∧
       has_file (mf_nodes s') (directory ++ [ef_filename e]) (ar_size a) (ar_raw_hash a)).
Proof.
  intros Ht Htypes Hrun. apply (replicate_mounted_run _ _ _ _ _ _ _ Ht) in Hrun as
    [[[En Em] Hr]|(path & files & manifest & root & rw & s1 & s2 & Hplan & [E1 M1] & Hreal & [E2 M2] & Hroot & Hdots
                   & Hw & Hrw & Hpath)].
  2: apply destination_root_real in Hreal; [|by rewrite E1]; unfold real_mount in Hreal; rewrite E1, M1 in Hreal.
  { rewrite En. split_and!; [done|done|congruence|by intros res ->]. }
  pose proof Hplan as (layout & segment & _ & _ & Hfiles & _)%replication_plan_Ok.
  pose proof (expected_names_plain _ _ _ _ _ _ Htypes Hfiles) as Hnames.
  rewrite list.Forall_forall in Hnames.
  apply write_copy_run in Hw as (s3 & (Ht3 & _ & Hsub3 & Hnew3) & Hw);
    [|by rewrite E2|by rewrite E2|done|by eapply manifest_name_in].
  rewrite E2 in Hsub3, Hnew3. destruct Hw as [[[E4 _] Hf]|(Hp & (Ht4 & _ & Hsub4 & Hnew4) & Hok)].
  - rewrite E4. split_and!; [done..| |].
    + intros q n H1 H2. left. by eapply Hnew3.
    + intros res ->. rewrite Hf in Hrw. done.
  - split_and!; [done|by etrans| |].
    + intros q n H1 H2. destruct (mf_nodes s3 !! q) as [n'|] eqn:E3.
      * left. pose proof (lookup_weaken _ _ _ _ E3 Hsub4). simplify_eq. by eapply Hnew3.
      * destruct (Hnew4 q n E3 H2) as [->|(name & x & Hin & -> & _ & Hq)]; [by left|].
        right. exists path, files, manifest, root, name, x. rewrite app_assoc.
        split_and!; [done..|by apply Hq, Hnames|done].
    + intros res ->. destruct rw as [n|]; [|done]. specialize (Hok n eq_refl) as (H1 & H2 & H3).
      rewrite (Hpath _ eq_refl). exists files, manifest, root. cbv zeta. split_and!; [done..|].
      intros a (e & He & Ha)%H3. exists e. split; [done|]. apply Ha, Hnames.
      apply list_elem_of_fmap_2. by eapply file_of_type_in.
Qed.
End replicate.
