(* ===== verification/MountedAudit.v ===== *)
(** * Audits and deletions on a mounted share

    A copy that was made is healthy for a later audit, also after the device
    was renamed; a deletion removes the files of its revision and its
    directory, or leaves both; the connection test leaves nothing behind. *)

From Stdlib Require Import ZArith Lia Strings.Ascii.
From stdpp Require Import base gmap sets list strings pretty.
From S2P Require Import Prelude Strings Text Hashing Json Calendar Models World Storage.
From S2P Require Import LocalStorage DestinationPaths Destination RevisionFiles RecordedPaths.
From S2P Require Import AuditSummary.
From S2P Require Import MountedFiles MountedDestination.
#[local] Open Scope string_scope.
#[local] Open Scope list_scope.
#[local] Open Scope Z_scope.

(** ** What the path says about the manifest *)

Section path_facts.
Context (nfkd : string → string).

Lemma checked_path_reverse base v remote error_code layout segment :
  validate_recorded_revision_path nfkd base v remote error_code = Ok (layout, segment) →
  ∃ up leaf, reverse (pure_parts remote) = leaf ++ layout :: segment :: "devices" :: up ++ ["/"] ∧
    ((layout = "revisions" ∧ ∃ x, leaf = [x]) ∨
     (layout = "backups" ∧ ((∃ x, leaf = [x]) ∨ ∃ x y, leaf = [x; y]))).
Proof.
  intros Hv. pose proof Hv as (Habs & _ & _ & leaf & Hparts & Hleaf)%recorded_path_parts.
  exists (reverse (path_parts base)), (reverse leaf). split.
  - unfold pure_parts. rewrite Habs, Hparts. unfold validate_recorded_revision_path in Hv. cbv zeta in Hv.
    assert (posix_root remote = "/") as ->.
    { destruct (recorded_path_invalid base remote) eqn:E1; [done|]. cbn [orb] in Hv.
      rewrite canonical_base_parts in Hv. cbn [drop] in Hv.
      destruct (bool_decide (take _ (pure_parts remote) = _)) eqn:E; [|done].
      apply bool_decide_eq_true in E. unfold pure_parts in E. rewrite Habs in E. by injection E. }
    cbn [app]. rewrite reverse_cons, reverse_app, !reverse_cons. rewrite <-!app_assoc. done.
  - destruct Hleaf as [[-> ->]|[-> Hleaf]]; [left|right]; (split; [done|]); [by eexists|].
    destruct Hleaf as [->|[->| ->]]; [left; by eexists|left; by eexists|right]. by eexists _, _.
Qed.

(** Unless the device directory is itself called [backups]. *)
Lemma checked_path_manifest base v remote error_code layout segment :
  validate_recorded_revision_path nfkd base v remote error_code = Ok (layout, segment) →
  segment ≠ "backups" →
  manifest_device_segment remote = Some segment ∧
  (uses_readable_ftp_layout remote = true →
   readable_stem nfkd remote v = Some (backup_filename_stem nfkd (Some segment) (vw_device_id v)
                                         (Aware (rv_created (vw_revision v))))).
Proof.
  intros (up & leaf & Hr & Hl)%checked_path_reverse Hs.
  assert (length (pure_parts remote) = length (reverse (pure_parts remote))) as Hlen
    by (by rewrite length_reverse).
  unfold manifest_device_segment, uses_readable_ftp_layout, readable_stem, part_from_end. cbv zeta.
  rewrite Hlen, Hr. clear Hlen Hr.
  destruct Hl as [[-> [x ->]]|[-> [[x ->]|(x & y & ->)]]]; cbn [app nth_error Nat.sub length].
  all: rewrite ?length_app; cbn [length].
  all: repeat (destruct (Nat.ltb_spec _ _) as [?|_]; [lia|]).
  all: repeat match goal with |- context [(?a <=? ?b)%nat] =>
         rewrite (proj2 (Nat.leb_le a b)) by lia end.
  all: cbn [andb head].
  - rewrite (bool_decide_eq_false_2 (Some segment = _)) by congruence. split; [done|].
    rewrite (bool_decide_eq_false_2 ("revisions" = _)) by done. cbn [orb]. done.
  - rewrite (bool_decide_eq_false_2 (Some segment = _)) by congruence. split; [done|].
    intros _. by rewrite bool_decide_eq_true_2.
  - rewrite !(bool_decide_eq_true_2 (Some "backups" = _)) by done. done.
Qed.

(** The check does not depend on the name of the device. *)
Lemma validate_renamed base v name remote error_code :
  validate_recorded_revision_path nfkd base (renamed v name) remote error_code =
  validate_recorded_revision_path nfkd base v remote error_code.
Proof. done. Qed.

Lemma validate_error_code base v remote e1 e2 x :
  validate_recorded_revision_path nfkd base v remote e1 = Ok x →
  validate_recorded_revision_path nfkd base v remote e2 = Ok x.
Proof.
  unfold validate_recorded_revision_path. cbv zeta. unfold path_mismatch.
  repeat case_match; congruence.
Qed.

Lemma expected_artifacts_renamed v name (readable : bool) stem artifacts : ∀ filenames,
  (readable = true → ∃ s, stem = Some s ∧ s ≠ "") →
  expected_artifacts nfkd (renamed v name) readable stem filenames artifacts =
  expected_artifacts nfkd v readable stem filenames artifacts.
Proof.
  induction artifacts as [|a artifacts IH]; intros filenames Hs; [done|]. cbn [expected_artifacts].
  cbv zeta. rewrite renamed_filename by done. case_bool_decide; [done|]. by rewrite IH.
Qed.
End path_facts.

(** ** Calls that do not fail *)

Definition quiet (s : mfs) : Prop := mf_faults s = [].

Lemma sys_quiet s : quiet s → sys s = (Ok tt, s).
Proof. intros Hq. unfold sys. rewrite M_bind_run. unfold take_fault. by rewrite Hq. Qed.

Lemma lookup_quiet follow p s : quiet s → m_lookup follow p s = (Ok (node_at (mf_nodes s) follow p), s).
Proof. intros Hq. unfold m_lookup. by rewrite M_bind_run, sys_quiet. Qed.

Lemma read_quiet p c s :
  quiet s → node_at (mf_nodes s) true p = Some (IFile c) → m_read p s = (Ok c, s).
Proof.
  intros Hq Hn. unfold m_read, m_resolve. rewrite !M_bind_run, sys_quiet by done.
  rewrite gets_bind_run. unfold lift, node_at in *.
  destruct (resolve_path (mf_nodes s) true p) as [q|]; [|done]. rewrite gets_bind_run. by rewrite Hn.
Qed.

Lemma not_regular_quiet p c s :
  quiet s → inode_is_link (node_at (mf_nodes s) false p) = false →
  node_at (mf_nodes s) true p = Some (IFile c) → not_regular p s = (Ok false, s).
Proof.
  intros Hq Hl Hn. unfold not_regular, m_is_symlink, m_is_file.
  rewrite !M_bind_run, lookup_quiet by done. cbn. rewrite Hl.
  rewrite !M_bind_run, lookup_quiet by done. cbn. by rewrite Hn.
Qed.

Lemma size_quiet p c s :
  quiet s → node_at (mf_nodes s) true p = Some (IFile c) → m_size p s = (Ok (Z.of_nat (length c)), s).
Proof. intros Hq Hn. unfold m_size. by rewrite M_bind_run, (read_quiet _ _ _ Hq Hn). Qed.

Lemma verify_file_quiet p size sha256 s :
  quiet s → holds_file (mf_nodes s) p size sha256 →
  verify_file p size sha256 s = (Ok (V_ok, size), s).
Proof.
  intros Hq (Hl & c & Hc & <- & <-). unfold verify_file, reading, try_catch.
  rewrite M_bind_run, (not_regular_quiet _ c) by done.
  rewrite M_bind_run, (size_quiet _ _ _ Hq Hc). rewrite Z.eqb_refl. cbn [negb].
  rewrite M_bind_run, (read_quiet _ _ _ Hq Hc). by rewrite bool_decide_eq_true_2.
Qed.

Section audit.
Context `{Externals} `{!ConfigStorage}.
Context (settings : MountSettings) (nfkd : string → string) (recursion_limit : nat).

Lemma verify_manifest_quiet p v path files content s :
  quiet s → inode_is_link (node_at (mf_nodes s) false p) = false →
  node_at (mf_nodes s) true p = Some (IFile content) →
  Z.of_nat (length content) <= MAX_MANIFEST_SIZE →
  manifest_matches_revision recursion_limit content v path files = Ok true →
  verify_manifest_file recursion_limit p v path files s = (Ok (V_ok, Z.of_nat (length content)), s).
Proof.
  intros Hq Hl Hc Hsize Hm. unfold verify_manifest_file, reading, try_catch.
  rewrite M_bind_run, (not_regular_quiet _ content) by done.
  rewrite M_bind_run, (size_quiet _ _ _ Hq Hc).
  destruct (Z.ltb_spec MAX_MANIFEST_SIZE (Z.of_nat (length content))); [lia|].
  rewrite M_bind_run, (read_quiet _ _ _ Hq Hc). rewrite lift_bind_run, Hm. done.
Qed.

(** A summary in which only checks were counted. *)
Definition only_counted (sm sm' : ReconciliationSummary) : Prop :=
  sm' = sm <| rs_checked_files := rs_checked_files sm' |> <| rs_verified_bytes := rs_verified_bytes sm' |>.

Lemma only_counted_refl sm : only_counted sm sm.
Proof. by destruct sm. Qed.

Lemma only_counted_trans s1 s2 s3 : only_counted s1 s2 → only_counted s2 s3 → only_counted s1 s3.
Proof. intros H1 H2. unfold only_counted in *. rewrite H2, H1. by destruct s1. Qed.

(** What the audit asks of an expected file. *)
Definition file_healthy (nodes : gmap path inode) (v : RevisionView) (remote : string)
    (directory : path) (files : list ExpectedRemoteFile) (e : ExpectedRemoteFile) : Prop :=
  let p := child directory (ef_filename e) in
  if bool_decide (ef_artifact_type e = "manifest")
  then inode_is_link (node_at nodes false p) = false ∧
       ∃ content, node_at nodes true p = Some (IFile content) ∧
         Z.of_nat (length content) <= MAX_MANIFEST_SIZE ∧
         manifest_matches_revision recursion_limit content v remote files = Ok true
  else holds_file nodes p (ef_size e) (ef_sha256 e).

Lemma audit_file_quiet limit replica v directory files sm e s :
  quiet s → file_healthy (mf_nodes s) v (rp_remote_path replica) directory files e →
  ∃ sm', audit_file recursion_limit limit replica v directory files (false, sm) e s = (Ok (false, sm'), s)
    ∧ only_counted sm sm' ∧ rs_checked_files sm' = rs_checked_files sm + 1.
Proof.
  intros Hq Hh. unfold file_healthy in Hh. cbv zeta in Hh. unfold audit_file.
  destruct (bool_decide (ef_artifact_type e = "manifest")).
  - destruct Hh as (Hl & content & Hc & Hsize & Hm).
    rewrite M_bind_run, (verify_manifest_quiet _ _ _ _ content) by done.
    unfold record_file. rewrite bool_decide_eq_true_2 by done. eexists. split; [done|].
    destruct sm. unfold only_counted. cbn. split; [done|lia].
  - rewrite M_bind_run, verify_file_quiet by done.
    unfold record_file. rewrite bool_decide_eq_true_2 by done. eexists. split; [done|].
    destruct sm. unfold only_counted. cbn. split; [done|lia].
Qed.

Lemma audit_files_quiet limit replica v directory all files s : ∀ sm,
  quiet s → Forall (file_healthy (mf_nodes s) v (rp_remote_path replica) directory all) files →
  ∃ sm', for_fold files (false, sm) (audit_file recursion_limit limit replica v directory all) s
           = (Ok (false, sm'), s)
    ∧ only_counted sm sm' ∧ rs_checked_files sm' = rs_checked_files sm + Z.of_nat (length files).
Proof.
  induction files as [|e files IH]; intros sm Hq Hf; cbn [for_fold].
  - exists sm. split; [done|]. split; [apply only_counted_refl|simpl; lia].
  - apply list.Forall_cons in Hf as [He Hf].
    destruct (audit_file_quiet limit replica v directory all sm e s Hq He) as (sm1 & E1 & H1 & C1).
    destruct (IH sm1 Hq Hf) as (sm2 & E2 & H2 & C2). exists sm2.
    rewrite M_bind_run, E1. split_and!; [done|by eapply only_counted_trans|].
    rewrite C2, C1. cbn [length]. lia.
Qed.
End audit.

Lemma keeps_quiet s0 : quiet s0 → keeps (λ s, s = s0) take_fault.
Proof. intros Hq s r s' H ->. unfold take_fault in H. rewrite Hq in H. by injection H as _ <-. Qed.

Lemma destination_root_quiet settings d s r s' :
  quiet s → destination_root settings d s = (r, s') → s' = s.
Proof. intros Hq Hr. by eapply (keeps_destination_root (λ x, x = s)); [apply keeps_quiet|exact Hr|]. Qed.

(** Where the mount is depends on its path only, and stays while the tree grows. *)
Lemma destination_root_resolves settings d s root s' :
  destination_root settings d s = (Ok root, s') →
  resolve_path (mf_nodes s) true (as_path (ms_cwd settings) (ds_mount_path d)) = Ok root.
Proof.
  intros Hrun. unfold destination_root in Hrun. case_bool_decide; [done|].
  apply M_bind_Ok in Hrun as (r & s1 & [Hr|(e & s2 & _ & Hr)]%try_catch_Ok & Hrun).
  2: destruct (is_os_error e); discriminate Hr.
  apply M_bind_Ok in Hr as (link & s2 & [[E2 _] _]%is_symlink_run & Hr).
  destruct link; [done|]. apply resolve_run in Hr as [_ Hr]. rewrite E2 in Hr. rewrite Hr. f_equal.
  apply M_bind_Ok in Hrun as (dir & s3 & _ & Hrun). apply M_bind_Ok in Hrun as (lk & s4 & _ & Hrun).
  destruct lk; [done|]. apply M_bind_Ok in Hrun as (al & s5 & _ & Hrun). destruct (negb al); [done|].
  apply M_bind_Ok in Hrun as (ac & s6 & _ & Hrun). destruct (negb ac); [done|]. by injection Hrun.
Qed.

Lemma resolve_mono nodes nodes' follow p q :
  nodes ⊆ nodes' → resolve_path nodes follow p = Ok q → resolve_path nodes' follow p = Ok q.
Proof.
  intros Hsub. apply walk_mono; [done|]. apply map_subseteq_size in Hsub. lia.
Qed.

Section healthy.
Context `{Externals} `{!ConfigStorage}.
Context (settings : MountSettings) (nfkd : string → string) (recursion_limit : nat).

(** A copy whose manifest an audit can read: its texts are valid, it is not
    too long, and its device directory is not called [backups]. *)
Definition manifest_auditable (base : string) (v : RevisionView) (remote : string) : Prop :=
  ∃ layout segment,
    validate_recorded_revision_path nfkd base v remote "RECONCILIATION_PATH_INVALID" = Ok (layout, segment) ∧
    segment ≠ "backups" ∧
    let readable := uses_readable_ftp_layout remote in
    let stem := readable_stem nfkd remote v in
    manifest_ok v (revision_filename nfkd v readable stem) segment ∧
    Z.of_nat (length (build_manifest nfkd v readable stem (Some segment))) <= MAX_MANIFEST_SIZE.

Lemma manifest_auditable_stem base v remote layout segment :
  validate_recorded_revision_path nfkd base v remote "RECONCILIATION_PATH_INVALID" = Ok (layout, segment) →
  segment ≠ "backups" → uses_readable_ftp_layout remote = true →
  ∃ s, readable_stem nfkd remote v = Some s ∧ s ≠ "".
Proof.
  intros Hv Hs Hr. destruct (checked_path_manifest _ _ _ _ _ _ _ Hv Hs) as [_ Hst].
  specialize (Hst Hr). rewrite Hst. eexists. split; [done|].
  pose proof (stem_underscore nfkd (Some segment) (vw_device_id v) (Aware (rv_created (vw_revision v)))) as Hu.
  intros E. by rewrite E in Hu.
Qed.

(** The files the audit expects for the renamed device are those that were written. *)
Lemma audited_files v name readable stem override files :
  (readable = true → ∃ s, stem = Some s ∧ s ≠ "") →
  expected_revision_files nfkd v readable stem override = Ok files →
  ∃ files', expected_revision_files nfkd (renamed v name) readable stem override = Ok files' ∧
    (∀ e, e ∈ files' → ef_artifact_type e = "manifest" ∧ ef_filename e = MANIFEST_FILENAME ∨
       ∃ a, a ∈ vw_artifacts v ∧ e = {| ef_filename := revision_filename nfkd v readable stem a;
              ef_size := ar_size a; ef_sha256 := ar_raw_hash a; ef_artifact_type := ar_artifact_type a |}) ∧
    length files' = S (length (vw_artifacts v)).
Proof.
  intros Hstem (l & Hl & _)%result_bind_Ok.
  pose proof Hl as [El _]%expected_artifacts_spec; [|constructor].
  unfold expected_revision_files. cbn [vw_artifacts renamed].
  rewrite (expected_artifacts_renamed nfkd v name) by done. rewrite Hl. eexists. split; [done|].
  split; [|rewrite El, length_app, length_map; simpl; lia].
  intros e [He| ->%list_elem_of_singleton]%elem_of_app; [right|by left].
  rewrite El in He. apply list_elem_of_fmap in He as (a & -> & Ha). by exists a.
Qed.

Lemma replicate_mounted_Ok d v recorded fs s res s1 :
  mtree (mf_nodes s) →
  replicate_revision_mounted settings nfkd recursion_limit d v recorded fs s = (Ok res, s1) →
  ∃ files manifest root s2 s3,
    replication_plan nfkd d v recorded = Ok (rr_remote_path res, files, manifest) ∧
    same_tree s s2 ∧ destination_root settings d s2 = (Ok root, s3) ∧
    (".." ∉ root ++ path_parts (rr_remote_path res)) ∧ mtree (mf_nodes s1) ∧ mf_nodes s ⊆ mf_nodes s1 ∧
    complete_copy (mf_nodes s1) v (root ++ path_parts (rr_remote_path res)) files manifest.
Proof.
  intros Ht Hrun. apply (replicate_mounted_run _ _ _ _ _ _ _ _ _ _ Ht) in Hrun as
    [[_ ?]|(path & files & manifest & root & rw & s2 & s3 & Hplan & Hs & Hr & [E2 M2] & Hroot & Hdots
            & Hw & Hrw & Hpath)]; [done|].
  rewrite (Hpath _ eq_refl). destruct rw as [n|]; [|done].
  pose proof Hplan as (layout & segment & _ & _ & Hfiles & _)%replication_plan_Ok.
  apply write_copy_run in Hw as (s4 & (Ht4 & _ & Hsub4 & _) & Hw);
    [|by rewrite E2|by rewrite E2|done|by eapply manifest_name_in].
  destruct Hw as [[_ ?]|(_ & (Ht1 & _ & Hsub & _) & Hok)]; [done|].
  exists files, manifest, root, s2, s3. rewrite E2 in Hsub4.
  split_and!; [done..|by etrans|by eapply Hok].
Qed.

(** What is stored at [q] is no collision of the hash of [content]. *)
Definition no_collision (nodes : gmap path inode) (q : path) (content : bytes) : Prop :=
  ∀ c, nodes !! q = Some (IFile c) → sha256_hex c = sha256_hex content → c = content.

(** The expected files of an audit are healthy on the copy that was written. *)
Lemma written_copy_healthy v name remote root files files' layout segment base nodes :
  let readable := uses_readable_ftp_layout remote in
  let stem := readable_stem nfkd remote v in
  let directory := root ++ path_parts remote in
  let manifest := build_manifest nfkd v readable stem (Some segment) in
  (3 <= recursion_limit)%nat → types_plain v →
  validate_recorded_revision_path nfkd base v remote "RECONCILIATION_PATH_INVALID" = Ok (layout, segment) →
  segment ≠ "backups" → segment ≠ "" →
  manifest_ok v (revision_filename nfkd v readable stem) segment →
  expected_revision_files nfkd v readable stem (Some segment) = Ok files →
  expected_revision_files nfkd (renamed v name) readable stem (Some segment) = Ok files' →
  Z.of_nat (length manifest) <= MAX_MANIFEST_SIZE →
  ".." ∉ directory →
  complete_copy nodes v directory files manifest →
  no_collision nodes (directory ++ [MANIFEST_FILENAME]) manifest →
  Forall (file_healthy recursion_limit nodes (renamed v name) remote directory files') files'.
Proof.
  intros readable stem directory manifest Hlimit Htypes Hv Hseg Hne Hok Hfiles Hfiles' Hsize Hdots
    (Hp & Hm & Ha) Hcoll.
  pose proof (checked_path_manifest _ _ _ _ _ _ _ Hv Hseg) as [Hdev _].
  assert (readable = true → ∃ s, stem = Some s ∧ s ≠ "") as Hstem
    by (intros; by eapply manifest_auditable_stem).
  pose proof (expected_names_plain nfkd v readable remote (Some segment) files Htypes Hfiles) as Hnames.
  rewrite list.Forall_forall in Hnames.
  destruct (audited_files v name readable stem (Some segment) files Hstem Hfiles)
    as (files2 & Hfiles2 & Hin & _).
  rewrite Hfiles' in Hfiles2. injection Hfiles2 as <-.
  apply list.Forall_forall. intros e He. destruct (Hin e He) as [[Et En]|(a & Hain & ->)].
  - unfold file_healthy. cbv zeta. rewrite bool_decide_eq_true_2, En by done.
    pose proof Hm as (c & Hc & _ & Hsha). apply Hcoll in Hsha as ->; [|done].
    apply holds_has_file in Hm as [Hl (c & Hc' & _)]; [|done|done|by split_and!].
    split; [done|]. exists manifest. rewrite child_plain in Hl, Hc' |- * by by split_and!.
    destruct (node_at_entry nodes directory MANIFEST_FILENAME Hp Hdots ltac:(done)) as (_ & Hent & _).
    unfold node_at in Hc' |- *. rewrite (Hent _ Hc eq_refl), Hc in Hc' |- *.
    split_and!; [done|done|].
    by apply (built_manifest_matches nfkd recursion_limit v name remote stem (Some segment)
      (Some segment) files' segment); [done|done|simpl; by rewrite bool_decide_eq_false_2|..].
  - unfold file_healthy. cbv zeta. cbn [ef_artifact_type ef_filename ef_size ef_sha256].
    rewrite bool_decide_eq_false_2.
    2: { intros E. apply (mo_reserved _ _ _ Hok). rewrite <-E. by apply list_elem_of_fmap_2. }
    destruct (Ha a Hain) as (e & Hfound & Hfile). apply expected_revision_files_spec in Hfiles as
      (mf & _ & Hmt & -> & _).
    rewrite (file_of_type_found (λ a, {| ef_filename := revision_filename nfkd v readable stem a;
      ef_size := ar_size a; ef_sha256 := ar_raw_hash a; ef_artifact_type := ar_artifact_type a |})
      (vw_artifacts v) mf a) in Hfound; [|done|done|apply Hok|apply Hok|done].
    injection Hfound as <-. cbn [ef_filename] in Hfile.
    assert (plain_part (revision_filename nfkd v readable stem a)) as Hplain.
    { apply revision_filename_plain.
      - unfold types_plain in Htypes. rewrite list.Forall_forall in Htypes. by apply Htypes.
      - intros s0. by apply readable_stem_chars. }
    apply holds_has_file; [done..|]. by apply Hfile.
Qed.

Lemma checked_segment base v remote error_code layout segment :
  validate_recorded_revision_path nfkd base v remote error_code = Ok (layout, segment) → segment ≠ "".
Proof.
  intros (_ & Hplain & _ & leaf & Hparts & _)%recorded_path_parts.
  rewrite Hparts, list.Forall_forall in Hplain. apply Hplain. apply elem_of_app. right. right. by left.
Qed.

Lemma replicate_mounted_protocol d v recorded fs s res s1 :
  replicate_revision_mounted settings nfkd recursion_limit d v recorded fs s = (Ok res, s1) →
  is_mounted (ds_protocol d) = true.
Proof.
  unfold replicate_revision_mounted, require_mounted_protocol.
  intros ([] & s2 & Hp & _)%M_bind_Ok. by destruct (is_mounted (ds_protocol d)).
Qed.

(** One replica in a quiet file system. *)
Lemma audit_replica_quiet limit d db root sm replica rv v layout segment files s :
  quiet s →
  db_revisions db !! rp_revision replica = Some rv → revision_view db rv = Ok v →
  validate_recorded_revision_path nfkd (ds_base_path d) v (rp_remote_path replica)
    "RECONCILIATION_PATH_INVALID" = Ok (layout, segment) →
  expected_revision_files nfkd v (uses_readable_ftp_layout (rp_remote_path replica))
    (readable_stem nfkd (rp_remote_path replica) v) (Some segment) = Ok files →
  safe_path root (rp_remote_path replica) = Ok (root ++ path_parts (rp_remote_path replica)) →
  Forall (file_healthy recursion_limit (mf_nodes s) v (rp_remote_path replica)
            (root ++ path_parts (rp_remote_path replica)) files) files →
  ∃ sm', audit_replica nfkd recursion_limit limit d db root sm replica s = (Ok sm', s) ∧
    rs_checked_files sm' = rs_checked_files sm + Z.of_nat (length files) ∧
    ∃ n b, sm' = sm <| rs_checked_replicas ::= Z.succ |> <| rs_healthy_replicas ::= Z.succ |>
                   <| rs_checked_files := n |> <| rs_verified_bytes := b |>.
Proof.
  intros Hq Hrv Hv Hval Hfiles Hsafe Hh. unfold audit_replica.
  rewrite lift_bind_run, Hrv. cbn [require]. rewrite lift_bind_run, Hv, lift_bind_run, Hval.
  cbn [snd]. rewrite lift_bind_run, Hfiles, lift_bind_run, Hsafe.
  destruct (audit_files_quiet recursion_limit limit replica v _ files files s
    (sm <| rs_checked_replicas ::= Z.succ |>) Hq Hh) as (sm1 & E1 & C1 & N1).
  rewrite M_bind_run, E1. eexists. split; [done|]. unfold count_replica. cbn [fst snd].
  split; [transitivity (rs_checked_files sm1); [by destruct sm1|rewrite N1; by destruct sm]|]. unfold only_counted in C1. exists (rs_checked_files sm1), (rs_verified_bytes sm1).
  rewrite C1 at 1. by destruct sm.
Qed.

(** C26: A copy that was made passes the audits that follow, also after its
    device was renamed, provided that its manifest can be audited: the device
    directory of its path is not called [backups] (such copies never pass),
    the manifest has at most 1 MiB, its texts and numbers are well formed, and
    the types of its artifacts are distinct and none is [manifest].  No type
    may hold a slash, and the manifest that is stored is not another document
    with the same SHA-256.  Then, as long as the tree is as the replication
    left it, the mount is reachable and no call fails, the reconciliation of
    the replica reports success, one healthy replica and no failed one, having
    checked every artifact and the manifest. *)
Theorem replicated_copy_audits_healthy d v name recorded fs s res s1 s2 root s3 replica db limit rv :
  (3 <= recursion_limit)%nat → mtree (mf_nodes s) → types_plain v →
  manifest_auditable (ds_base_path d) v (rr_remote_path res) →
  replicate_revision_mounted settings nfkd recursion_limit d v recorded fs s = (Ok res, s1) →
  same_tree s1 s2 → quiet s2 → destination_root settings d s2 = (Ok root, s3) →
  (∀ layout segment, validate_recorded_revision_path nfkd (ds_base_path d) v (rr_remote_path res)
     "RECONCILIATION_PATH_INVALID" = Ok (layout, segment) → no_collision (mf_nodes s1)
     (root ++ path_parts (rr_remote_path res) ++ [MANIFEST_FILENAME])
     (build_manifest nfkd v (uses_readable_ftp_layout (rr_remote_path res))
        (readable_stem nfkd (rr_remote_path res) v) (Some segment))) →
  auditable d replica → rp_remote_path replica = rr_remote_path res →
  db_revisions db !! rp_revision replica = Some rv → revision_view db rv = Ok (renamed v name) →
  ∃ summary,
    reconcile_mounted_destination settings nfkd recursion_limit d (Some [replica]) limit db s2
      = (Ok summary, s2) ∧
    rs_success summary = true ∧ rs_healthy_replicas summary = 1 ∧ rs_failed_replicas summary = 0 ∧
    rs_checked_files summary = Z.of_nat (length (vw_artifacts v)) + 1 ∧ rs_issues summary = [].
Proof.
  intros Hlimit Ht Htypes (layout & segment & Hval & Hseg & Hok & Hsize) Hrep [En Em] Hq Hroot Hcoll
    Haud Hpath Hrv Hview.
  pose proof (destination_root_quiet _ _ _ _ _ Hq Hroot) as ->.
  pose proof (replicate_mounted_protocol _ _ _ _ _ _ _ Hrep) as Hmounted.
  apply (replicate_mounted_Ok _ _ _ _ _ _ _ Ht) in Hrep as
    (files & manifest & root' & s4 & s5 & Hplan & [E4 _] & Hroot' & Hdots & Ht1 & Hsub & Hcopy).
  assert (root' = root) as ->.
  { apply destination_root_resolves in Hroot', Hroot. rewrite E4 in Hroot'. rewrite En in Hroot.
    apply (resolve_mono _ _ _ _ _ Hsub) in Hroot'. congruence. }
  apply replication_plan_Ok in Hplan as (layout' & segment' & Hval' & _ & Hfiles & ->).
  eapply validate_error_code in Hval'. rewrite Hval in Hval'. injection Hval' as <- <-.
  destruct (audited_files v name _ _ _ _ (λ Hr, manifest_auditable_stem _ _ _ _ _ Hval Hseg Hr) Hfiles)
    as (files' & Hfiles' & _ & Hlen).
  pose proof (written_copy_healthy v name _ root files files' layout segment _ (mf_nodes s1)
    Hlimit Htypes Hval Hseg (checked_segment _ _ _ _ _ _ Hval) Hok Hfiles Hfiles' Hsize Hdots Hcopy) as Hh.
  rewrite <-app_assoc in Hh. specialize (Hh (Hcoll _ _ Hval)). rewrite <-Hpath in *.
  unfold reconcile_mounted_destination, require_mounted_protocol. rewrite Hmounted.
  rewrite ret_bind_run. cbv zeta. cbn [audited_replicas].
  rewrite filter_cons_True by done. rewrite filter_nil. rewrite M_bind_run, Hroot.
  set (sm := initial_summary _ _).
  destruct (audit_replica_quiet limit d db root sm replica rv (renamed v name) layout segment files' s2
    Hq Hrv Hview Hval Hfiles') as (sm' & E' & N' & n & b & Hsm'); [|by rewrite En|].
  { unfold safe_path. apply recorded_path_parts in Hval as (Habs & Hplain & _). rewrite Habs.
    assert (drop 1 (pure_parts (rp_remote_path replica)) = path_parts (rp_remote_path replica)) as ->
      by (unfold pure_parts; by rewrite Habs).
    destruct (existsb _ _) eqn:Ex; [|done]. apply existsb_exists in Ex as (c & Hc & Hbad).
    apply list_elem_of_In in Hc. rewrite list.Forall_forall in Hplain.
    destruct (Hplain c Hc) as (? & ? & ? & _). apply bool_decide_eq_true in Hbad. set_solver. }
  cbn [for_fold]. rewrite M_bind_run, M_bind_run, E'. eexists. split; [done|].
  unfold finish_summary. rewrite Hsm' in N' |- *. subst sm. cbn in N' |- *.
  split_and!; [done..| |done]. rewrite N', Hlen. change (0 + Z.of_nat (S (length (vw_artifacts v))) = Z.of_nat (length (vw_artifacts v)) + 1). lia.
Qed.
End healthy.

(** ** Deletion *)

(** The last component of a path names what is unlinked. *)
Lemma walk_last nodes : mtree nodes → ∀ d rest base q,
  nodes !! base = Some IDir → walk nodes d false base rest = Ok q →
  nodes !! q = Some IDir ∨ list.last q = list.last rest.
Proof.
  intros Ht d rest. induction rest as [|c rest IH]; intros base q Hb Hw.
  { rewrite walk_nil in Hw. injection Hw as <-. by left. }
  assert (rest = [] ∨ list.last (c :: rest) = list.last rest) as Hlast by (destruct rest; auto).
  assert (∀ base', nodes !! base' = Some IDir → walk nodes d false base' rest = Ok q →
            nodes !! q = Some IDir ∨ list.last q = list.last (c :: rest)) as Hrest.
  { intros base' Hb' Hw'. destruct Hlast as [->| ->]; [|by eapply IH].
    rewrite walk_nil in Hw'. injection Hw' as <-. by left. }
  rewrite walk_cons in Hw. case_bool_decide; [by eapply Hrest, Hw; apply removelast_dir|].
  cbv zeta in Hw. destruct (nodes !! (base ++ [c])) as [[|content|rooted target]|] eqn:E.
  - by eapply Hrest.
  - destruct rest; [|done]. injection Hw as <-. right. by rewrite last_snoc.
  - destruct (decide (rest = [])) as [->|Hr].
    { injection Hw as <-. right. by rewrite last_snoc. }
    rewrite !bool_decide_eq_false_2 in Hw by done. cbn [andb] in Hw. destruct d as [|d]; [done|].
    destruct (walk nodes d true _ target) as [q'|]; [|done]. cbn [mbind result_bind] in Hw.
    case_bool_decide; [|done]. by eapply Hrest.
  - destruct rest; [|done]. injection Hw as <-. right. by rewrite last_snoc.
Qed.

Section removed.
Context (Q : path → inode → Prop) (s0 : mfs).

(** The tree has only shrunk, by nodes that satisfy [Q]. *)
Definition shrunk (nodes : gmap path inode) (mounts : gset path) : Prop :=
  mtree nodes ∧ mounts = mf_mounts s0 ∧ nodes ⊆ mf_nodes s0 ∧
  ∀ q n, mf_nodes s0 !! q = Some n → nodes !! q = None → Q q n.
End removed.
Abbreviation removed Q s0 := (on_tree (shrunk Q s0)).

Lemma removed_refl Q s : mtree (mf_nodes s) → removed Q s s.
Proof. intros Ht. split_and!; [done|done|done|]. intros q n H1 H2. congruence. Qed.

Lemma removed_delete Q s0 s s' q n :
  removed Q s0 s → mf_mounts s' = mf_mounts s → mf_nodes s' = base.delete q (mf_nodes s) →
  mf_nodes s !! q = Some n → q ≠ [] → (∀ c, mf_nodes s !! (q ++ [c]) = None) → Q q n → removed Q s0 s'.
Proof.
  intros (Ht & Hm & Hsub & HQ) Hm' En Hq Hne Hc Hn. unfold on_tree, shrunk. rewrite Hm', En.
  split_and!; [by apply tree_delete_node|done| |].
  - etrans; [apply delete_subseteq|done].
  - intros q' n' H1 H2. destruct (decide (q = q')) as [<-|Hqq].
    + pose proof (lookup_weaken _ _ _ _ Hq Hsub). by simplify_eq.
    + rewrite lookup_delete_ne in H2 by done. by apply HQ.
Qed.

Lemma m_unlink_run p s r s' : m_unlink p s = (r, s') →
  (∃ e, r = Err e ∧ same_tree s s') ∨
  (r = Ok tt ∧ ∃ q n, resolve_path (mf_nodes s) false p = Ok q ∧ mf_nodes s !! q = Some n ∧ n ≠ IDir ∧
     mf_mounts s' = mf_mounts s ∧ mf_nodes s' = base.delete q (mf_nodes s)).
Proof.
  intros H. apply read_only_bind in H as [(e & -> & _ & Hs)|([q n] & s1 & E & Hs & H)];
    [left; eauto|..|auto with keeps].
  apply entry_Ok in E as ([En Em] & Hq & ->). cbn in H.
  destruct (mf_nodes s !! q) as [[| |]|] eqn:Eq; injection H as <- <-; [left; eauto| | |left; eauto].
  all: right; split; [done|]; exists q; eexists; cbn; by rewrite En, Em.
Qed.

Lemma m_rmdir_run p s r s' : m_rmdir p s = (r, s') →
  (∃ e, r = Err e ∧ same_tree s s') ∨
  (r = Ok tt ∧ ∃ q, resolve_path (mf_nodes s) false p = Ok q ∧ mf_nodes s !! q = Some IDir ∧ q ≠ [] ∧
     (∀ c, mf_nodes s !! (q ++ [c]) = None) ∧
     mf_mounts s' = mf_mounts s ∧ mf_nodes s' = base.delete q (mf_nodes s)).
Proof.
  intros H. apply read_only_bind in H as [(e & -> & _ & Hs)|([q n] & s1 & E & Hs & H)];
    [left; eauto|..|auto with keeps].
  apply entry_Ok in E as ([En Em] & Hq & ->). rewrite gets_bind_run in H. unfold id in H. cbn [fst snd] in H.
  destruct (mf_nodes s !! q) as [[| |]|] eqn:Eq; [|injection H as <- <-; left; eauto..].
  destruct (bool_decide _ && _ && _) eqn:Eb; [|injection H as <- <-; left; eauto].
  apply andb_true_iff in Eb as [[Hent _]%andb_true_iff Hne]. apply bool_decide_eq_true in Hent.
  apply negb_true_iff, bool_decide_eq_false in Hne. injection H as <- <-. right. split; [done|].
  exists q. split_and!; [done..| |done|cbn; by rewrite En].
  intros c. destruct (mf_nodes s !! (q ++ [c])) as [n|] eqn:Ec; [|done].
  assert (c ∈ entries (mf_nodes s1) q) as Hin by (apply elem_of_entries; by rewrite En, Ec).
  rewrite Hent in Hin. by apply elem_of_nil in Hin.
Qed.

(** What a deletion may remove before its directory: files named after the
    expected ones. *)
Definition old_node (directory : path) (names : list string) (q : path) (n : inode) : Prop :=
  n ≠ IDir ∧ ∃ name, name ∈ names ∧ list.last q = list.last (child directory name) ∧
    (plain_part name → q = directory ++ [name]).

Lemma plain_shrunk Q s0 s directory :
  (∀ q n, Q q n → n ≠ IDir) → removed Q s0 s →
  plain_dir (mf_nodes s0) directory → plain_dir (mf_nodes s) directory.
Proof.
  intros HQ (_ & _ & Hsub & Hrem) Hp q Hq. specialize (Hp q Hq).
  destruct (mf_nodes s !! q) as [n|] eqn:E.
  - pose proof (lookup_weaken _ _ _ _ E Hsub). congruence.
  - by destruct (HQ _ _ (Hrem _ _ Hp E)).
Qed.

Lemma delete_file_removed directory names acc e s0 :
  plain_dir (mf_nodes s0) directory → ".." ∉ directory → ef_filename e ∈ names →
  keeps (removed (old_node directory names) s0) (delete_file directory acc e).
Proof.
  intros Hp Hd Hin. unfold delete_file. apply keeps_bind; [auto with keeps|intros present].
  case_match; [auto with keeps|]. apply keeps_bind; [auto with keeps|intros bad].
  destruct bad; [auto with keeps|]. apply keeps_bind; [auto with keeps|intros size].
  apply keeps_bind; [|auto with keeps]. intros s r s' Hrun Ha.
  apply m_unlink_run in Hrun as [(e' & _ & [En Em])|(_ & q & n & Hq & Hn & Hdir & Hm & En)].
  { unfold on_tree. by rewrite En, Em. }
  pose proof Ha as (Ht & _ & _ & _).
  assert (q ≠ []) as Hne by (intros ->; pose proof (mt_top _ Ht); congruence).
  eapply removed_delete; [done|done|done|done|done| |].
  - intros c. apply tree_file_leaf; [done|congruence].
  - split; [done|]. exists (ef_filename e). split; [done|]. split.
    + pose proof Hq as [Hl|Hl]%walk_last; [congruence|done|done|apply Ht].
    + intros Hplain. rewrite child_plain in Hq by done.
      assert (plain_dir (mf_nodes s) directory) as Hps
        by (eapply plain_shrunk, Hp; [|done]; by intros ? ? [? _]).
      destruct (node_at_entry _ directory _ Hps Hd ltac:(apply Hplain)) as (He & _).
      rewrite He in Hq. by injection Hq as <-.
Qed.

Lemma delete_file_counts directory acc e s acc' s' :
  delete_file directory acc e s = (Ok acc', s') →
  dl_deleted acc' + dl_missing acc' = dl_deleted acc + dl_missing acc + 1.
Proof.
  unfold delete_file. intros (present & s1 & _ & Hrun)%M_bind_Ok. destruct present; cbn [negb] in Hrun.
  - apply M_bind_Ok in Hrun as (bad & s2 & _ & Hrun). destruct bad; [done|].
    apply M_bind_Ok in Hrun as (size & s3 & _ & Hrun). apply M_bind_Ok in Hrun as ([] & s4 & _ & [= <- _]).
    cbn. lia.
  - injection Hrun as <- _. cbn. lia.
Qed.

Lemma delete_files_count directory files : ∀ acc s acc' s',
  for_fold files acc (delete_file directory) s = (Ok acc', s') →
  dl_deleted acc' + dl_missing acc' = dl_deleted acc + dl_missing acc + Z.of_nat (length files).
Proof.
  induction files as [|e files IH]; intros acc s acc' s' Hrun; cbn [for_fold] in Hrun.
  - injection Hrun as <- _. cbn. lia.
  - apply M_bind_Ok in Hrun as (acc1 & s1 & H1%delete_file_counts & H2%IH). cbn [length]. lia.
Qed.

Lemma m_iterdir_run p s names s' : m_iterdir p s = (Ok names, s') →
  same_tree s s' ∧ ∃ q, resolve_path (mf_nodes s) true p = Ok q ∧ mf_nodes s !! q = Some IDir ∧
    names = entries (mf_nodes s) q.
Proof.
  intros Hrun. assert (same_tree s s') as Hs by (eapply keeps_same, Hrun; auto with keeps).
  split; [done|]. unfold m_iterdir in Hrun.
  apply M_bind_Ok in Hrun as (q & s1 & [[En _] Hq]%resolve_run & Hrun). rewrite gets_bind_run in Hrun.
  exists q. split; [done|]. rewrite En in Hrun. destruct (mf_nodes s !! q) as [[]|]; try done.
  split; [done|]. by injection Hrun.
Qed.

(** The loop and [rmdir]. *)
Definition remove_copy (directory : path) (expected : list ExpectedRemoteFile) : M mfs deletion :=
  acc ← for_fold expected {| dl_deleted := 0; dl_missing := 0; dl_bytes := 0 |} (delete_file directory);
  _ ← m_rmdir directory;
  mret acc.

Lemma remove_copy_run directory expected s r s' :
  mtree (mf_nodes s) → plain_dir (mf_nodes s) directory → ".." ∉ directory →
  remove_copy directory expected s = (r, s') →
  removed (λ q n, old_node directory (map ef_filename expected) q n ∨ q = directory ∧ n = IDir) s s' ∧
  (∀ acc, r = Ok acc → mf_nodes s' !! directory = None ∧
     dl_deleted acc + dl_missing acc = Z.of_nat (length expected)).
Proof.
  intros Ht Hp Hd Hrun. unfold remove_copy in Hrun. rewrite M_bind_run in Hrun.
  destruct (for_fold _ _ _ s) as [rf s1] eqn:Ef.
  assert (removed (old_node directory (map ef_filename expected)) s s1) as H1.
  { eapply (keeps_for_fold_in (removed (old_node directory (map ef_filename expected)) s)), removed_refl;
      [|exact Ef|done].
    intros acc e He. apply delete_file_removed; [done..|]. by apply list_elem_of_fmap_2. }
  assert (removed (λ q n, old_node directory (map ef_filename expected) q n ∨ q = directory ∧ n = IDir) s s1)
    as H2.
  { destruct H1 as (? & ? & ? & HQ). split_and!; [done..|]. intros q n Ha Hb. left. by apply HQ. }
  destruct rf as [acc|e]; [|injection Hrun as <- <-; by split].
  assert (plain_dir (mf_nodes s1) directory) as Hp1
    by (eapply plain_shrunk, Hp; [|exact H1]; by intros ? ? [? _]).
  rewrite M_bind_run in Hrun. destruct (m_rmdir directory s1) as [rr s2] eqn:Er.
  apply m_rmdir_run in Er as [(e & -> & [En Em])|(-> & q & Hq & Hn & Hne & Hc & Hm & En)].
  - injection Hrun as <- <-. split; [|done]. unfold on_tree. by rewrite En, Em.
  - rewrite resolve_plain in Hq by done. injection Hq as <-. injection Hrun as <- <-. split.
    + eapply removed_delete; [exact H2|done..|]. by right.
    + intros acc' [= <-]. split; [by rewrite En, lookup_delete_eq|].
      apply delete_files_count in Ef. cbn in Ef. lia.
Qed.

Section deletion.
Context `{Externals} `{!ConfigStorage}.
Context (settings : MountSettings) (nfkd : string → string) (recursion_limit : nat).

(** A deletion either changes nothing, or runs [remove_copy]. *)
Lemma delete_mounted_run d v replica s r s' :
  mtree (mf_nodes s) →
  delete_revision_replica_mounted settings nfkd d v replica s = (r, s') →
  (same_tree s s' ∧ ∀ res, r = Ok res → dr_already_absent res = true ∧
     ∃ root files s1 s2, same_tree s s1 ∧ destination_root settings d s1 = (Ok root, s2) ∧
       node_at (mf_nodes s) true (root ++ path_parts (rp_remote_path replica)) = None ∧
       dr_deleted_file_count res + dr_missing_file_count res = dr_expected_file_count res ∧
       dr_expected_file_count res = Z.of_nat (length files) ∧
       ∃ layout segment, validate_recorded_revision_path nfkd (ds_base_path d) v (rp_remote_path replica)
         "DELETE_PATH_INVALID" = Ok (layout, segment) ∧
       expected_revision_files nfkd v (uses_readable_ftp_layout (rp_remote_path replica))
         (readable_stem nfkd (rp_remote_path replica) v) (Some segment) = Ok files) ∨
  ∃ layout segment files root rw s1 s2 s3,
    validate_recorded_revision_path nfkd (ds_base_path d) v (rp_remote_path replica)
      "DELETE_PATH_INVALID" = Ok (layout, segment) ∧
    expected_revision_files nfkd v (uses_readable_ftp_layout (rp_remote_path replica))
      (readable_stem nfkd (rp_remote_path replica) v) (Some segment) = Ok files ∧
    same_tree s s1 ∧ destination_root settings d s1 = (Ok root, s2) ∧ same_tree s s3 ∧
    (".." ∉ root ++ path_parts (rp_remote_path replica)) ∧
    plain_dir (mf_nodes s) (root ++ path_parts (rp_remote_path replica)) ∧
    (∀ c, is_Some (mf_nodes s !! ((root ++ path_parts (rp_remote_path replica)) ++ [c])) →
       c ∈ map ef_filename files) ∧
    remove_copy (root ++ path_parts (rp_remote_path replica)) files s3 = (rw, s') ∧
    is_ok r = is_ok rw ∧
    (∀ res, r = Ok res → ∃ acc, rw = Ok acc ∧ dr_directory_removed res = true ∧
       dr_deleted_file_count res = dl_deleted acc ∧ dr_missing_file_count res = dl_missing acc ∧
       dr_expected_file_count res = Z.of_nat (length files)).
Proof.
  intros Ht Hrun. unfold delete_revision_replica_mounted in Hrun.
  apply read_only_bind in Hrun as [(e & -> & _ & Hs)|([] & s1 & _ & Hs & Hrun)];
    [by left|..|auto with keeps].
  destruct (negb (ds_enabled d)); [left; by injection Hrun as <- <-|]. cbv zeta in Hrun.
  rewrite lift_bind_run in Hrun.
  destruct (validate_recorded_revision_path _ _ _ _ _) as [[layout segment]|e] eqn:Hval;
    [|left; by injection Hrun as <- <-].
  rewrite lift_bind_run in Hrun. cbn [snd] in Hrun.
  destruct (expected_revision_files _ _ _ _ _) as [files|e] eqn:Hfiles; [|left; by injection Hrun as <- <-].
  apply read_only_bind in Hrun as [(e & -> & _ & Hs2)|(root & s2 & Hroot & Hs2 & Hrun)];
    [left; split; [by eapply same_tree_trans|done]|..|auto with keeps].
  assert (same_tree s s2) as Hs02 by by eapply same_tree_trans.
  rewrite lift_bind_run in Hrun.
  destruct (safe_path root _) as [directory|e] eqn:Esafe; [|left; by injection Hrun as <- <-].
  apply safe_path_Ok in Esafe as (-> & _ & Hdots).
  assert (mtree (mf_nodes s1)) as Ht1 by (by rewrite (proj1 Hs)).
  destruct (destination_root_Ok _ _ _ _ _ Ht1 Hroot) as (_ & Hplain & Hrd). rewrite (proj1 Hs) in Hplain.
  assert (".." ∉ root ++ path_parts (rp_remote_path replica)) as Hd by set_solver.
  apply read_only_bind in Hrun as [(e & -> & _ & Hs3)|(present & s3 & Hpres & Hs3 & Hrun)];
    [left; split; [by eapply same_tree_trans|done]|..|auto with keeps].
  assert (same_tree s s3) as Hs03 by by eapply same_tree_trans.
  apply exists_run in Hpres as [_ Hpres]. rewrite (proj1 Hs02) in Hpres.
  destruct (node_at (mf_nodes s) true (root ++ path_parts (rp_remote_path replica))) as [nd|] eqn:Hnode.
  2: { rewrite bool_decide_eq_false_2 in Hpres by (by intros []). subst present. left.
       injection Hrun as <- <-. split; [done|]. intros res [= <-]. split; [done|].
       exists root, files, s1, s2. cbn. split_and!; [done..|]. by exists layout, segment. }
  rewrite bool_decide_eq_true_2 in Hpres by done. subst present. cbn [negb] in Hrun.
  rewrite drop_app_length in Hrun.
  apply read_only_bind in Hrun as [(e & -> & _ & Hs4)|([] & s4 & Hrej & Hs4 & Hrun)];
    [left; split; [by eapply same_tree_trans|done]|..|auto with keeps].
  assert (same_tree s s4) as Hs04 by by eapply same_tree_trans.
  apply read_only_bind in Hrun as [(e & -> & _ & Hs5)|(names & s5 & Hnames & Hs5 & Hrun)];
    [left; split; [by eapply same_tree_trans|done]|..|auto with keeps].
  assert (same_tree s s5) as Hs05 by by eapply same_tree_trans.
  case_bool_decide as Hunk; [left; by injection Hrun as <- <-|].
  apply m_iterdir_run in Hnames as (_ & q & Hq & Hqd & ->). rewrite (proj1 Hs04) in Hq, Hqd, Hunk.
  assert (plain_dir (mf_nodes s) (root ++ path_parts (rp_remote_path replica))) as Hpd.
  { eapply reject_symlink_plain, Hrej; [apply Hs03|done|done|done|set_solver|].
    unfold node_at. by rewrite Hq. }
  rewrite resolve_plain in Hq by done. injection Hq as <-. right.
  fold (remove_copy (root ++ path_parts (rp_remote_path replica)) files) in Hrun.
  rewrite M_bind_run in Hrun. unfold os_errors, try_catch in Hrun.
  destruct (remove_copy _ _ s5) as [rw s6] eqn:Ew.
  exists layout, segment, files, root, rw, s1, s2, s5.
  assert (∀ c, is_Some (mf_nodes s !! ((root ++ path_parts (rp_remote_path replica)) ++ [c])) →
            c ∈ map ef_filename files) as Hknown.
  { intros c Hc. apply elem_of_entries in Hc. destruct (decide (c ∈ map ef_filename files)); [done|].
    destruct Hunk. apply list.Exists_exists. by exists c. }
  destruct rw as [acc|e].
  - injection Hrun as <- <-. split_and!; try done. intros res [= <-]. by exists acc.
  - destruct e; cbn in Hrun; injection Hrun as <- <-; by split_and!.
Qed.

(** C27: A deletion on a mounted share, whatever call fails, removes nothing but
    the files of its revision, under their expected names, and the directory
    of the copy: everything else stays as it was.  A directory with an unknown
    entry, or reached through a link, is left alone.  When the deletion reports
    success nothing is left at the recorded path, and its counts add up to the
    expected files. *)
Theorem delete_mounted_exact d v replica s r s' :
  mtree (mf_nodes s) → types_plain v →
  delete_revision_replica_mounted settings nfkd d v replica s = (r, s') →
  mtree (mf_nodes s') ∧ mf_nodes s' ⊆ mf_nodes s ∧
  (∀ q n, mf_nodes s !! q = Some n → mf_nodes s' !! q = None →
     ∃ layout segment files root, let directory := root ++ path_parts (rp_remote_path replica) in
       validate_recorded_revision_path nfkd (ds_base_path d) v (rp_remote_path replica)
         "DELETE_PATH_INVALID" = Ok (layout, segment) ∧
       expected_revision_files nfkd v (uses_readable_ftp_layout (rp_remote_path replica))
         (readable_stem nfkd (rp_remote_path replica) v) (Some segment) = Ok files ∧
       plain_dir (mf_nodes s) directory ∧
       (∀ c, is_Some (mf_nodes s !! (directory ++ [c])) → c ∈ map ef_filename files) ∧
       (q = directory ∧ n = IDir ∨ n ≠ IDir ∧ ∃ name, name ∈ map ef_filename files ∧ q = directory ++ [name])) ∧
  (∀ res, r = Ok res →
     dr_deleted_file_count res + dr_missing_file_count res = dr_expected_file_count res ∧
     (dr_already_absent res = true ∨ dr_directory_removed res = true) ∧
     ∃ s1 root s2, same_tree s s1 ∧ destination_root settings d s1 = (Ok root, s2) ∧
       node_at (mf_nodes s') true (root ++ path_parts (rp_remote_path replica)) = None).
Proof.
  intros Ht Htypes Hrun. apply (delete_mounted_run _ _ _ _ _ _ Ht) in Hrun as
    [[[En Em] Hr]|(layout & segment & files & root & rw & s1 & s2 & s3 & Hval & Hfiles & Hs1 & Hroot
                   & [E3 M3] & Hdots & Hp & Hknown & Hw & Hrw & Hres)].
  { rewrite En. split_and!; [done|done|congruence|]. intros res Hres.
    destruct (Hr res Hres) as (Habs & root & files & s1 & s2 & Hs1 & Hroot & Hnode & Hcount & _).
    split_and!; [done|by left|]. by exists s1, root, s2. }
  pose proof (expected_names_plain _ _ _ _ _ _ Htypes Hfiles) as Hnames.
  rewrite list.Forall_forall in Hnames.
  apply remove_copy_run in Hw as ((Ht' & _ & Hsub & Hrem) & Hok); [|by rewrite E3|by rewrite E3|done].
  rewrite E3 in Hsub, Hrem. split_and!; [done..| |].
  - intros q n H1 H2. exists layout, segment, files, root. cbv zeta. split_and!; [done..|].
    destruct (Hrem q n H1 H2) as [(Hn & name & Hin & _ & Hq)|[-> ->]]; [|by left].
    right. split; [done|]. exists name. split; [done|]. by apply Hq, Hnames.
  - intros res Hr. destruct (Hres res Hr) as (acc & -> & Hdir & Hd & Hm & Hc).
    destruct (Hok acc eq_refl) as [Hnone Hcount]. rewrite Hd, Hm, Hc. split_and!; [done|by right|].
    exists s1, root, s2. split_and!; [done..|].
    set (directory := root ++ path_parts (rp_remote_path replica)) in *.
    destruct directory as [|c up _] using rev_ind; [by rewrite (mt_top _ Ht') in Hnone|].
    assert (plain_dir (mf_nodes s') up) as Hup.
    { intros q Hq. destruct (mf_nodes s' !! q) as [n|] eqn:E.
      - pose proof (lookup_weaken _ _ _ _ E Hsub) as Es.
        rewrite (Hp q) in Es by by apply prefix_app_r. congruence.
      - assert (mf_nodes s !! q = Some IDir) as Hqd by (apply Hp; by apply prefix_app_r).
        destruct (Hrem q IDir Hqd E) as [[? _]|[-> _]]; [done|].
        apply prefix_length in Hq. rewrite length_app in Hq. simpl in Hq. lia. }
    assert ((".." ∉ up) ∧ c ≠ "..") as [Hdu Hdc] by (split; set_solver).
    destruct (node_at_entry (mf_nodes s') up c Hup Hdu Hdc) as (_ & _ & He).
    unfold node_at. by rewrite He.
Qed.
End deletion.
