(* ===== verification/MountedLaws.v ===== *)
(** * The mounted backend keeps the contract of a destination

    The operations of [destination_mounted] as a [Backend], on the one file
    system of the worker, and the proof that they satisfy [BackendLaws]: what
    the services rely on when they record, audit and delete copies.  A place
    is a directory; destinations may share a mount, or be mounted below one
    another.  A copy is at a place when its manifest is there.  The file system
    is one without symbolic links, so that a configured mount path says where
    its copies lie; what links can do is the subject of [MountedDestination]
    and [MountedAudit]. *)

From Stdlib Require Import ZArith Lia Strings.Ascii.
From stdpp Require Import base gmap sets list strings pretty.
From S2P Require Import Prelude Strings Text Hashing Json Calendar Models World Storage.
From S2P Require Import LocalStorage DestinationPaths Destination RevisionFiles RecordedPaths.
From S2P Require Import AuditSummary.
From S2P Require Import MountedFiles MountedDestination MountedAudit.
#[local] Open Scope string_scope.
#[local] Open Scope list_scope.
#[local] Open Scope Z_scope.

(** ** Trees without links *)

Definition link_free (nodes : gmap path inode) : Prop := ∀ p rooted target,
  nodes !! p ≠ Some (ILink rooted target).

Definition share_ok : mfs → Prop := on_tree (λ nodes _, mtree nodes ∧ link_free nodes).

Definition lexical_step (base : path) (c : string) : path :=
  if bool_decide (c = "..") then removelast base else base ++ [c].
Definition lexical (p : path) : path := foldl lexical_step [] p.

(** Without links a path leads where its components say. *)
Lemma walk_lexical nodes d follow rest : link_free nodes → ∀ base q,
  walk nodes d follow base rest = Ok q → q = foldl lexical_step base rest.
Proof.
  intros Hfree. induction rest as [|c rest IH]; intros base q H.
  { rewrite walk_nil in H. by injection H. }
  rewrite walk_cons in H. cbn [foldl]. unfold lexical_step at 2. case_bool_decide as Hc; [by apply IH|].
  cbv zeta in H. destruct (nodes !! (base ++ [c])) as [[|content|rooted target]|] eqn:E.
  - by apply IH.
  - destruct rest; [|done]. by injection H as <-.
  - by apply Hfree in E.
  - destruct rest; [|done]. destruct follow; [done|]. by injection H as <-.
Qed.

Lemma share_ok_added P s s' :
  (∀ q n, P q n → inode_is_link (Some n) = false) → added P s s' → share_ok s → share_ok s'.
Proof.
  intros HP (Ht & _ & Hsub & Hnew) [_ Hfree]. split; [done|]. intros p rooted target Hp.
  destruct (mf_nodes s !! p) as [n|] eqn:E.
  - pose proof (lookup_weaken _ _ _ _ E Hsub). apply (Hfree p rooted target). congruence.
  - specialize (HP _ _ (Hnew _ _ E Hp)). discriminate HP.
Qed.

Lemma share_ok_shrunk s s' : mtree (mf_nodes s') → mf_nodes s' ⊆ mf_nodes s → share_ok s → share_ok s'.
Proof.
  intros Ht Hsub [_ Hfree]. split; [done|]. intros p rooted target Hp.
  by apply (Hfree p rooted target), (lookup_weaken _ _ _ _ Hp Hsub).
Qed.

Lemma keeps_share_mkdirs dir : keeps share_ok (m_mkdirs dir).
Proof.
  intros s r s' Hm Hok. eapply (share_ok_added (λ _ n, n = IDir)), Hok; [by intros _ _ ->|].
  eapply mkdirs_added, grown_refl; [done|exact Hm|apply Hok].
Qed.

Lemma new_file_added p s s' :
  mtree (mf_nodes s) → new_file p s s' → added (λ _ n, ∃ x, n = IFile x) s s'.
Proof.
  intros Ht (q & x & (_ & Hq & He) & Hm & En).
  eapply added_insert; [by apply grown_refl|done|by eapply entry_of_last|done|done|by exists x].
Qed.

Lemma keeps_share_write q content : keeps share_ok (write_new_file q content).
Proof.
  intros s r s' Hm Hok. apply write_new_file_run in Hm as [(e & _ & [En Em])|[Hn _]]; [..|apply Hok].
  - unfold share_ok, on_tree. by rewrite En.
  - eapply (share_ok_added (λ _ n, ∃ x, n = IFile x)), Hok; [by intros _ _ [x ->]|]. by eapply new_file_added, Hn; apply Hok.
Qed.

Lemma keeps_share_unlink q : keeps share_ok (m_unlink q).
Proof.
  intros s r s' Hm Hok. apply m_unlink_run in Hm as [(e & _ & [En Em])|(_ & x & n & _ & Hn & Hd & _ & En)].
  - unfold share_ok, on_tree. by rewrite En.
  - eapply share_ok_shrunk, Hok; rewrite En; [|apply delete_subseteq].
    apply tree_delete_node; [apply Hok| |intros c; apply tree_file_leaf; [apply Hok|congruence]].
    intros ->. destruct Hok as [Ht _]. rewrite (mt_top _ Ht) in Hn. congruence.
Qed.
#[export] Hint Resolve keeps_share_mkdirs keeps_share_write keeps_share_unlink : keeps.

Lemma keeps_share_take : keeps share_ok take_fault.
Proof. apply keeps_take_fault. Qed.
#[export] Hint Resolve keeps_share_take : keeps.

Lemma keeps_share_test settings token d : keeps share_ok (test_mounted_destination settings token d).
Proof. unfold test_mounted_destination, m_unlink_quietly. keep_steps. Qed.

(** The directory of a destination. *)
Definition mount_root (settings : MountSettings) (mount_path : string) : path :=
  lexical (as_path (ms_cwd settings) mount_path).

Lemma share_root settings d s root s' :
  share_ok s → destination_root settings d s = (Ok root, s') → root = mount_root settings (ds_mount_path d).
Proof. intros [_ Hfree] Hroot%destination_root_resolves. by eapply walk_lexical. Qed.

Section keeping.
Context `{Externals} `{!ConfigStorage}.
Context (settings : MountSettings) (nfkd : string → string) (recursion_limit : nat).

Lemma replicate_mounted_grows d v recorded fs s r s' :
  mtree (mf_nodes s) →
  replicate_revision_mounted settings nfkd recursion_limit d v recorded fs s = (r, s') →
  added (λ _ n, inode_is_link (Some n) = false) s s'.
Proof.
  intros Ht Hrun. apply (replicate_mounted_run _ _ _ _ _ _ _ _ _ _ Ht) in Hrun as
    [[[En Em] _]|(path & files & manifest & root & rw & s1 & s2 & Hplan & _ & _ & [E2 M2] & Hroot & Hdots
                 & Hw & _ & _)].
  { unfold on_tree. rewrite En, Em. by apply grown_refl. }
  pose proof Hplan as (layout & segment & _ & _ & Hfiles & _)%replication_plan_Ok.
  apply write_copy_run in Hw as (s3 & (Ht3 & M3 & Hsub3 & Hnew3) & Hw);
    [|by rewrite E2|by rewrite E2|done|by eapply manifest_name_in].
  rewrite E2 in Hsub3, Hnew3.
  assert (∀ q n, mf_nodes s !! q = None → mf_nodes s3 !! q = Some n → inode_is_link (Some n) = false) as H3.
  { intros q n H1 H2. by rewrite (Hnew3 _ _ H1 H2). }
  destruct Hw as [[[E4 M4] _]|(_ & (Ht4 & M4 & Hsub4 & Hnew4) & _)].
  - unfold on_tree. rewrite E4, M4. split_and!; [done|congruence|done|done].
  - split_and!; [done|congruence|by etrans|]. intros q n H1 H2.
    destruct (mf_nodes s3 !! q) as [n'|] eqn:E3.
    + pose proof (lookup_weaken _ _ _ _ E3 Hsub4). simplify_eq. by eapply H3.
    + by destruct (Hnew4 _ _ E3 H2) as [->|(name & x & _ & -> & _)].
Qed.

Lemma keeps_share_replicate d v recorded fs :
  keeps share_ok (replicate_revision_mounted settings nfkd recursion_limit d v recorded fs).
Proof.
  intros s r s' Hrun Hok. eapply share_ok_added, Hok; [|eapply replicate_mounted_grows, Hrun; apply Hok]. auto.
Qed.

Lemma keeps_share_delete d v replica :
  keeps share_ok (delete_revision_replica_mounted settings nfkd d v replica).
Proof.
  intros s r s' Hrun Hok. pose proof Hok as [Ht _].
  apply (delete_mounted_run _ _ _ _ _ _ _ _ Ht) in Hrun as
    [[[En Em] _]|(layout & segment & files & root & rw & s1 & s2 & s3 & _ & _ & _ & _
                  & [E3 M3] & Hdots & Hpd & _ & Hw & _)].
  { unfold share_ok, on_tree. by rewrite En. }
  apply remove_copy_run in Hw as [(Ht' & _ & Hsub & _) _]; [|by rewrite E3|by rewrite E3|done].
  rewrite E3 in Hsub. by eapply share_ok_shrunk.
Qed.
End keeping.

(** ** The name of the manifest is no other file's *)

(** A file is named by one component, or its last component ends in [.bin]. *)
Lemma artifact_filename_last storage_key artifact_type directory :
  let name := artifact_filename storage_key artifact_type in
  plain_part name ∨ list.last (child directory name) ≠ Some MANIFEST_FILENAME.
Proof.
  cbv zeta. destruct (has_char slash artifact_type) eqn:Ht; [|left; by apply artifact_filename_plain].
  destruct (decide (plain_part (artifact_filename storage_key artifact_type))) as [?|Hn]; [by left|right].
  assert (artifact_filename storage_key artifact_type = artifact_type +:+ ".bin") as E.
  { unfold artifact_filename in *. cbv zeta in *. destruct (_ && _) eqn:Eb; [|done].
    destruct Hn. apply andb_true_iff in Eb as [E1%negb_true_iff%bool_decide_eq_false
      E2%negb_true_iff%bool_decide_eq_false].
    rewrite not_elem_of_cons, list_elem_of_singleton in E2. split_and!; [done|apply E2..|].
    unfold path_name in *. destruct (list.last (path_parts storage_key)) as [p|] eqn:El; [|done].
    apply list.last_Some_elem_of, path_parts_in in El. apply El. }
  rewrite E. clear Hn E.
  destruct (split_on_suffix slash ".bin" artifact_type eq_refl) as [w Hw].
  assert (list.last (path_parts (artifact_type +:+ ".bin")) = Some (w +:+ ".bin")) as Hl.
  { apply last_filter; [done|]. by destruct w as [|? [|? ?]]. }
  assert (list.last (child directory (artifact_type +:+ ".bin")) = Some (w +:+ ".bin")) as ->.
  { unfold child, as_path. destruct (is_absolute _); [done|].
    destruct (path_parts (artifact_type +:+ ".bin")) as [|x l _] using rev_ind; [done|].
    rewrite last_snoc in Hl. by rewrite app_assoc, last_snoc. }
  intros [= H]. by apply bin_not_manifest in H.
Qed.

Section names.
Context (nfkd : string → string).

Lemma manifest_node_name v readable path override files name directory :
  expected_revision_files nfkd v readable (readable_stem nfkd path v) override = Ok files →
  name ∈ map ef_filename files → list.last (child directory name) = Some MANIFEST_FILENAME →
  plain_part name.
Proof.
  intros (manifest & Hm & _ & -> & _)%expected_revision_files_spec Hin Hl.
  rewrite map_app, map_map in Hin. apply elem_of_app in Hin as [Hin|Hin].
  - apply list_elem_of_fmap in Hin as (a & -> & _). cbn [ef_filename] in *.
    unfold revision_filename in *. destruct readable.
    + destruct (readable_name_chars nfkd (Some (vw_device_name v)) (vw_device_id v)
        (Aware (rv_created (vw_revision v))) (ar_storage_key a) (ar_artifact_type a) (ar_is_primary a)
        (readable_stem nfkd path v) (λ s Hs, readable_stem_chars _ _ _ _ Hs)) as [Hc Hu].
      apply path_chars_plain; [done|..]; by intros E; rewrite E in Hu.
    + by destruct (artifact_filename_last (ar_storage_key a) (ar_artifact_type a) directory).
  - simpl in Hin. apply list_elem_of_singleton in Hin as ->. rewrite Hm. by split_and!.
Qed.
End names.

(** ** Manifests *)

Section manifests.
Context `{Externals} `{!ConfigStorage}.
Context (settings : MountSettings) (nfkd : string → string) (recursion_limit : nat).

(** The place of a copy at a destination. *)
Definition mount_place (mount_path remote_path : string) : path :=
  mount_root settings mount_path ++ path_parts remote_path.

Definition manifest_at (nodes : gmap path inode) (l : path) : Prop :=
  ∃ c, nodes !! (l ++ [MANIFEST_FILENAME]) = Some (IFile c).

Lemma replicate_manifests d v recorded fs s r s' l :
  share_ok s →
  replicate_revision_mounted settings nfkd recursion_limit d v recorded fs s = (r, s') →
  (manifest_at (mf_nodes s) l → manifest_at (mf_nodes s') l) ∧
  (manifest_at (mf_nodes s') l → manifest_at (mf_nodes s) l ∨
   ∃ path files manifest, replication_plan nfkd d v recorded = Ok (path, files, manifest) ∧
     l = mount_place (ds_mount_path d) path).
Proof.
  intros Hok Hrun. pose proof Hok as [Ht _]. split.
  { intros [c Hc]. exists c. apply replicate_mounted_grows in Hrun as (_ & _ & Hsub & _); [|done].
    by eapply lookup_weaken. }
  intros [c Hc]. apply (replicate_mounted_run _ _ _ _ _ _ _ _ _ _ Ht) in Hrun as
    [[[En _] _]|(path & files & manifest & root & rw & s1 & s2 & Hplan & [E1 _] & Hroot & [E2 _] & Hplain
                 & Hdots & Hw & _ & _)]; [left; exists c; congruence|].
  apply share_root in Hroot as ->; [|unfold share_ok, on_tree; by rewrite E1].
  pose proof Hplan as (layout & segment & Hval & _ & Hfiles & _)%replication_plan_Ok.
  apply write_copy_run in Hw as (s3 & (Ht3 & _ & Hsub3 & Hnew3) & Hw);
    [|by rewrite E2|by rewrite E2|done|by eapply manifest_name_in].
  rewrite E2 in Hsub3, Hnew3.
  assert (∀ c, mf_nodes s3 !! (l ++ [MANIFEST_FILENAME]) = Some (IFile c) → manifest_at (mf_nodes s) l) as H3.
  { intros c0 Hc0. destruct (mf_nodes s !! (l ++ [MANIFEST_FILENAME])) as [n|] eqn:E.
    - pose proof (lookup_weaken _ _ _ _ E Hsub3). exists c0. congruence.
    - by specialize (Hnew3 _ _ E Hc0). }
  destruct Hw as [[[E4 _] _]|(_ & (_ & _ & Hsub4 & Hnew4) & _)]; [left; apply (H3 c); congruence|].
  destruct (mf_nodes s3 !! (l ++ [MANIFEST_FILENAME])) as [n|] eqn:E.
  { left. apply (H3 c). pose proof (lookup_weaken _ _ _ _ E Hsub4). congruence. }
  right. exists path, files, manifest. split; [done|].
  destruct (Hnew4 _ _ E Hc) as [?|(name & x & Hin & _ & Hl & Hq)]; [done|].
  rewrite last_snoc in Hl.
  specialize (Hq (manifest_node_name _ _ _ _ _ _ _ _ Hfiles Hin (eq_sym Hl))).
  apply app_inj_tail in Hq as [Hq _]. exact Hq.
Qed.

Lemma replicate_manifest d v recorded fs s res s' :
  share_ok s →
  replicate_revision_mounted settings nfkd recursion_limit d v recorded fs s = (Ok res, s') →
  (∀ q, recorded = Some q → q ≠ "" → rr_remote_path res = q) ∧ rr_remote_path res ≠ "" ∧
  manifest_at (mf_nodes s') (mount_place (ds_mount_path d) (rr_remote_path res)).
Proof.
  intros Hok Hrun. pose proof Hok as [Ht _].
  apply (replicate_mounted_Ok _ _ _ _ _ _ _ _ _ _ Ht) in Hrun as
    (files & manifest & root & s2 & s3 & Hplan & [E2 _] & Hroot & _ & _ & _ & (_ & (c & Hc & _) & _)).
  apply share_root in Hroot as ->; [|unfold share_ok, on_tree; by rewrite E2].
  apply replication_plan_Ok in Hplan as (layout & segment & Hval & Hpath & _).
  destruct (checked_path_string _ _ _ _ _ _ _ Hval) as [Hs _].
  split_and!; [done|by rewrite Hs|by exists c].
Qed.

Lemma manifest_dir nodes l :
  mtree nodes → ".." ∉ l → manifest_at nodes l → nodes !! l = Some IDir ∧ node_at nodes true l = Some IDir.
Proof.
  intros Ht Hd [c Hc]. assert (nodes !! l = Some IDir) as Hl.
  { apply (mt_parent _ Ht _ MANIFEST_FILENAME). by rewrite Hc. }
  split; [done|]. apply node_at_plain; [by apply tree_plain|done].
Qed.

Lemma delete_manifests d v replica s r s' l :
  share_ok s →
  delete_revision_replica_mounted settings nfkd d v replica s = (r, s') →
  (manifest_at (mf_nodes s') l → manifest_at (mf_nodes s) l) ∧
  (manifest_at (mf_nodes s) l → manifest_at (mf_nodes s') l ∨
   l = mount_place (ds_mount_path d) (rp_remote_path replica)) ∧
  (is_ok r = true → ¬ manifest_at (mf_nodes s') (mount_place (ds_mount_path d) (rp_remote_path replica))).
Proof.
  intros Hok Hrun. pose proof Hok as [Ht _]. apply (delete_mounted_run _ _ _ _ _ _ _ _ Ht) in Hrun as
    [[[En _] Hr]|(layout & segment & files & root & rw & s1 & s2 & s3 & Hval & Hfiles & [E1 _] & Hroot
                  & [E3 _] & Hdots & Hpd & _ & Hw & Hrw & _)].
  { rewrite En. split_and!; [auto..|]. intros Hrok Hc. destruct r as [res|]; [|done].
    destruct (Hr res eq_refl) as (_ & root & files & s1 & s2 & [E1 _] & Hroot & Hnode & _ & _ & layout & segment & Hval & _).
    assert (".." ∉ root) as Hdots by (eapply destination_root_Ok; [|exact Hroot]; by rewrite E1).
    apply share_root in Hroot as ->; [|unfold share_ok, on_tree; by rewrite E1].
    apply manifest_dir in Hc as [_ Hc]; [|done|].
    - unfold mount_place in Hc. congruence.
    - destruct (checked_path_string _ _ _ _ _ _ _ Hval) as [_ Hplain].
      rewrite list.Forall_forall in Hplain. intros [?|Hin]%elem_of_app; [done|].
      by destruct (Hplain _ Hin) as (_ & _ & ? & _). }
  apply share_root in Hroot as ->; [|unfold share_ok, on_tree; by rewrite E1].
  apply remove_copy_run in Hw as [(Ht' & _ & Hsub & Hrem) Hgone]; [|by rewrite E3|by rewrite E3|done].
  rewrite E3 in Hsub, Hrem. split_and!.
  - intros [c Hc]. exists c. by eapply lookup_weaken.
  - intros [c Hc]. destruct (mf_nodes s' !! (l ++ [MANIFEST_FILENAME])) as [n|] eqn:E.
    { left. exists c. pose proof (lookup_weaken _ _ _ _ E Hsub). congruence. }
    right. destruct (Hrem _ _ Hc E) as [(_ & name & Hin & Hl & Hq)|[_ ?]]; [|done].
    rewrite last_snoc in Hl.
    specialize (Hq (manifest_node_name _ _ _ _ _ _ _ _ Hfiles Hin (eq_sym Hl))).
    apply app_inj_tail in Hq as [Hq _]. exact Hq.
  - intros Hrok Hc. destruct rw as [acc|]; [|by rewrite Hrw in Hrok].
    destruct (Hgone acc eq_refl) as [Hnone _].
    apply manifest_dir in Hc as [Hc _]; [|done|done]. unfold mount_place in Hc. congruence.
Qed.
End manifests.

(** ** The backend *)

Section backend.
Context (E : Externals) (S : @ConfigStorage E).
Context (settings : MountSettings) (nfkd : string → string) (recursion_limit : nat) (token : string).

(** The file system of the worker. *)
Definition shares : Type := { s : mfs | share_ok s }.

Definition mounted_externals : Externals := {| World.files := @World.files E; remote := shares |}.

Definition on_shares {A} (m : M mfs A) (Hm : keeps share_ok m) : M shares A := λ r,
  let x := m (`r) in (x.1, exist share_ok x.2 (Hm _ _ _ (surjective_pairing _) (proj2_sig r))).

Lemma on_shares_run {A} (m : M mfs A) Hm r x r' : on_shares m Hm r = (x, r') → m (`r) = (x, `r').
Proof. unfold on_shares. intros [= <- <-]. cbn. by destruct (m (`r)). Qed.

Definition share_replicate (d : BackupDestination) (rv : ConfigRevision) (recorded : option string)
    (db : DB) (fs : @World.files E) : M shares ReplicationResult :=
  match revision_view db rv with
  | Err e => raise e
  | Ok v =>
      on_shares (replicate_revision_mounted (H := E) settings nfkd recursion_limit d v recorded fs)
        (keeps_share_replicate settings nfkd recursion_limit d v recorded fs)
  end.

Definition share_delete (replica : RevisionReplica) (db : DB) : M shares DeletedRevisionResult :=
  match require (DoesNotExist "BackupDestination") (db_destinations db !! rp_destination replica),
        (rv ← require (DoesNotExist "ConfigRevision") (db_revisions db !! rp_revision replica);
         revision_view db rv) with
  | Ok d, Ok v =>
      on_shares (delete_revision_replica_mounted settings nfkd d v replica)
        (keeps_share_delete settings nfkd d v replica)
  | Err e, _ | _, Err e => raise e
  end.

Definition mounted_backend_instance : @Backend mounted_externals :=
  @Build_Backend mounted_externals
    (λ d db, on_shares (test_mounted_destination settings token d) (keeps_share_test settings token d))
    share_replicate
    (λ d replicas db r,
       (reconcile_mounted_destination settings nfkd recursion_limit d replicas 100 db (`r)).1)
    share_delete.

Definition share_place (e : Endpoint) (q : string) : path := mount_place settings (en_mount_path e) q.
Definition share_copy (r : shares) (l : path) : Prop := manifest_at (mf_nodes (`r)) l.

(** C28: The operations on mounted shares implement the contract of a
    destination that replication, audits and remote retention are proved
    against, on a worker's file system without symbolic links.  A place is a
    directory, given by the mount path of a destination and the path of a
    copy: destinations may share a mount or be nested.  A success of a
    replication leaves a copy at the place of the path it returns, which is
    the recorded one when there is one; a successful deletion leaves none at
    its place; and both leave the copies at every other place as they were,
    whatever call fails, no matter which destination they belong to. *)
Theorem mounted_backend_laws serves :
  @BackendLaws mounted_externals path serves share_place share_copy mounted_backend_instance.
Proof.
  split; unfold mounted_backend_instance; cbn [be_replicate be_delete].
  - intros d rv path db fs r res r' Hrun. unfold share_replicate in Hrun.
    destruct (revision_view db rv) as [v|]; [|done]. apply on_shares_run in Hrun.
    apply replicate_manifest in Hrun as (Hpath & Hne & _); [|apply (proj2_sig r)].
    destruct path as [q|]; [by apply Hpath|done].
  - intros d rv path db fs r res r' _ Hrun. unfold share_replicate in Hrun.
    destruct (revision_view db rv) as [v|]; [|done]. apply on_shares_run in Hrun.
    by apply replicate_manifest in Hrun as (_ & _ & Hc); [|apply (proj2_sig r)].
  - intros d rv q db fs r x r' l _ Hne Hrun Hl. unfold share_replicate in Hrun.
    destruct (revision_view db rv) as [v|]; [|injection Hrun as <- <-; done].
    apply on_shares_run in Hrun.
    destruct (replicate_manifests _ _ _ _ _ _ _ _ _ _ l (proj2_sig r) Hrun) as [Hold Hnew].
    split; [|apply Hold]. intros [?|(path & files & manifest & Hplan & ->)]%Hnew; [done|].
    destruct Hl. apply replication_plan_Ok in Hplan as (layout & segment & Hval & Hpath & _).
    unfold share_place. by rewrite (Hpath _ eq_refl Hne).
  - intros d replica db r res r' Hd _ Hrun. unfold share_delete in Hrun. rewrite Hd in Hrun. cbn [require] in Hrun.
    destruct (mbind _ _) as [v|]; [|done]. apply on_shares_run in Hrun.
    destruct (delete_manifests _ _ _ _ _ _ _ _ [] (proj2_sig r) Hrun) as (_ & _ & Hgone). by apply Hgone.
  - intros d replica db r x r' l Hd _ Hrun Hl. unfold share_delete in Hrun. rewrite Hd in Hrun. cbn [require] in Hrun.
    destruct (mbind _ _) as [v|]; [|injection Hrun as <- <-; done]. apply on_shares_run in Hrun.
    destruct (delete_manifests _ _ _ _ _ _ _ _ l (proj2_sig r) Hrun) as (Hsub & Hkeep & _).
    split; [apply Hsub|]. by intros [?|?]%Hkeep.
  - intros d replica db r x r' l Hd _ Hrun. unfold share_delete in Hrun. rewrite Hd in Hrun. cbn [require] in Hrun.
    destruct (mbind _ _) as [v|]; [|injection Hrun as <- <-; done]. apply on_shares_run in Hrun.
    by destruct (delete_manifests _ _ _ _ _ _ _ _ l (proj2_sig r) Hrun) as (Hsub & _).
Qed.
End backend.
