(* ===== verification/MountedExamples.v ===== *)
(** * Mounted shares and recorded paths on concrete data

    One revision, a share mounted at [/mnt/nas]: the theorems of
    [RevisionFiles], [RecordedPaths] and [Mounted*] applied there. *)

From Stdlib Require Import ZArith Lia.
From stdpp Require Import base gmap sets list strings pretty.
From S2P Require Import Prelude Strings Text Hashing Json Calendar Models World Storage.
From S2P Require Import LocalStorage DestinationPaths Destination RevisionFiles RecordedPaths.
From S2P Require Import AuditSummary.
From S2P Require Import Scheduling.
From S2P Require Import MountedFiles MountedDestination MountedAudit MountedLaws.
#[local] Open Scope string_scope.
#[local] Open Scope list_scope.
#[local] Open Scope Z_scope.

Module Mounted.
Import MemoryStorage.
#[local] Existing Instance memory.
#[local] Existing Instance memory_storage.

Abbreviation nfkd := (λ s : string, s).

Definition content : bytes := String.list_byte_of_string "hostname core".
Definition artifact : ConfigArtifact :=
  {| ar_pk := 40; ar_revision := 20; ar_artifact_type := "config"; ar_format := "text";
     ar_storage_key := "t3/cfg.txt"; ar_size := 13; ar_raw_hash := sha256_hex content;
     ar_normalized_hash := ""; ar_is_primary := true; ar_local_available := true;
     ar_local_deleted_at := None |}.
Definition revision : ConfigRevision :=
  {| rv_pk := 20; rv_target := 3; rv_revision_uuid := "u"; rv_normalized_hash := "h";
     rv_normalizer_version := "1"; rv_driver_id := "d"; rv_content_changed := true;
     rv_protected := false; rv_previous_revision := None; rv_created := 1700000000000000 |}.
Definition view (name : string) : RevisionView :=
  {| vw_revision := revision; vw_device_id := 11; vw_device_name := name; vw_artifacts := [artifact] |}.

Definition nfs : BackupDestination :=
  (MemoryDestination.ftp 5 "backups") <| ds_protocol := DP_NFS |> <| ds_mount_path := "/mnt/nas" |>.
Definition settings : MountSettings :=
  {| ms_network_storage_mount_roots := ["/mnt"]; ms_network_storage_require_mountpoint := true;
     ms_cwd := [] |}.
Definition share : mfs :=
  {| mf_nodes := <[["mnt"; "nas"] := IDir]> (<[["mnt"] := IDir]> {[ [] := IDir ]});
     mf_mounts := {[ ["mnt"; "nas"] ]}; mf_faults := [] |}.
Definition primary : @files memory := {["t3/cfg.txt" := content]}.

Definition made := replicate_revision_mounted settings nfkd 100 nfs (view "core/1") None primary share.
Example made_ok : rr_remote_path <$> made.1 =
  Ok "/backups/devices/core-1/backups/2023-11-14_22-13-20-r20".
Proof. vm_compute. reflexivity. Qed.

Lemma share_tree : mtree (mf_nodes share).
Proof.
  apply (tree_insert_node _ ["mnt"] "nas"); [|done|done].
  apply (tree_insert_node _ [] "mnt"); [|done|done]. apply tree_empty.
Qed.

Lemma view_types name : types_plain (view name).
Proof. by apply list.Forall_singleton. Qed.

Definition remote : string := "/backups/devices/core-1/backups/2023-11-14_22-13-20-r20".

Lemma view_manifest :
  manifest_ok (view "core/1") (revision_filename nfkd (view "core/1") true
    (readable_stem nfkd remote (view "core/1"))) "core-1".
Proof.
  split.
  - repeat (apply list.Forall_cons; split; [by eexists; vm_compute; reflexivity|]). constructor.
  - vm_compute. lia.
  - apply list.Forall_singleton. split_and!; try (by eexists; vm_compute; reflexivity). vm_compute. lia.
  - apply NoDup_singleton.
  - intros H%list_elem_of_singleton. done.
Qed.

Example manifest_round_trip_witness :
  let stem := readable_stem nfkd remote (view "core/1") in
  ∃ files, expected_revision_files nfkd (view "core/2") true stem (Some "core-1") = Ok files ∧
    manifest_matches_revision 100 (build_manifest nfkd (view "core/1") true stem (Some "core-1"))
      (view "core/2") remote files = Ok true.
Proof.
  intros stem. eexists. split; [vm_compute; reflexivity|].
  refine (proj1 (manifest_round_trip nfkd 100 (view "core/1") "core/2" remote stem (Some "core-1")
    (Some "core-1") _ "core-1" _ _ _ _ _ _)).
  - lia.
  - vm_compute. reflexivity.
  - done.
  - exact view_manifest.
  - intros _. eexists. split; [vm_compute; reflexivity|done].
  - vm_compute. reflexivity.
Defined.

Example recorded_path_confined_witness :
  validate_recorded_revision_path nfkd "backups" (view "renamed") remote "DELETE_PATH_INVALID"
    = Ok ("backups", "core-1") ∧ is_absolute remote = true.
Proof.
  assert (validate_recorded_revision_path nfkd "backups" (view "renamed") remote "DELETE_PATH_INVALID"
    = Ok ("backups", "core-1")) as H by (vm_compute; reflexivity).
  split; [exact H|exact (proj1 (recorded_path_confined nfkd _ _ _ _ _ _ H))].
Defined.

Example generated_path_accepted_witness :
  uses_readable_ftp_layout remote = true.
Proof.
  refine (proj1 (proj2 (generated_path_accepted nfkd "backups" "core/1" (view "core/1") None remote
    "DELETE_PATH_INVALID" _ _ _ _))).
  - done.
  - split; vm_compute; reflexivity.
  - split; vm_compute; [congruence|lia].
  - vm_compute. reflexivity.
Defined.

Example replicate_mounted_complete_witness : mf_nodes share ⊆ mf_nodes made.2.
Proof.
  refine (proj1 (proj2 (replicate_mounted_complete settings nfkd 100 nfs (view "core/1") None primary
    share made.1 made.2 share_tree (view_types _) _))).
  apply surjective_pairing.
Defined.

(** The device was renamed after the copy was made. *)
Definition device : Device :=
  {| dv_pk := 11; dv_name := "core/2"; dv_platform := None; dv_oob_ip := None;
     dv_primary_ip4 := None; dv_primary_ip6 := None; dv_site_time_zone := None |}.
Definition db : DB :=
  WorldExamples.empty_db <| db_destinations := {[5 := nfs]} |>
    <| db_targets := {[3 := SchedulingExamples.target TS_HEALTHY true]} |>
    <| db_devices := {[11 := device]} |> <| db_revisions := {[20 := revision]} |>
    <| db_artifacts := {[40 := artifact]} |>.
Definition replica : RevisionReplica :=
  {| rp_pk := 100; rp_revision := 20; rp_destination := 5; rp_status := RP_SUCCESS; rp_attempts := 1;
     rp_queued_at := 0; rp_started_at := None; rp_finished_at := None; rp_next_retry_at := None;
     rp_bytes_transferred := 0; rp_remote_path := remote; rp_remote_available := true;
     rp_remote_deleted_at := None; rp_error_code := ""; rp_error_message := ""; rp_job_id := None |}.

Definition made_result : ReplicationResult :=
  {| rr_remote_path := remote; rr_bytes_transferred := 367; rr_artifact_count := 1 |}.

Lemma made_run : replicate_revision_mounted settings nfkd 100 nfs (view "core/1") None primary share
  = (Ok made_result, made.2).
Proof. fold made. rewrite (surjective_pairing made) at 1.
  apply (f_equal (λ r, (r, made.2))). vm_compute. reflexivity.
Qed.

Lemma made_quiet : quiet made.2.
Proof. vm_compute. reflexivity. Qed.

Lemma made_root : destination_root settings nfs made.2 = (Ok ["mnt"; "nas"], made.2).
Proof.
  destruct (destination_root settings nfs made.2) as [r s] eqn:E.
  pose proof (destination_root_quiet _ _ _ _ _ made_quiet E) as ->.
  apply (f_equal (λ r, (r, made.2))).
  change r with ((r, made.2).1). rewrite <-E. vm_compute. reflexivity.
Qed.

Lemma made_auditable : manifest_auditable nfkd "backups" (view "core/1") remote.
Proof.
  exists "backups", "core-1". split; [vm_compute; reflexivity|]. split; [done|]. cbv zeta.
  replace (uses_readable_ftp_layout remote) with true by (vm_compute; reflexivity). split.
  - exact view_manifest.
  - vm_compute. congruence.
Qed.

Lemma made_manifest segment : segment = "core-1" →
  no_collision (mf_nodes made.2) (["mnt"; "nas"] ++ path_parts remote ++ [MANIFEST_FILENAME])
    (build_manifest nfkd (view "core/1") (uses_readable_ftp_layout remote)
       (readable_stem nfkd remote (view "core/1")) (Some segment)).
Proof.
  intros -> c Hc _.
  assert (mf_nodes made.2 !! (["mnt"; "nas"] ++ path_parts remote ++ [MANIFEST_FILENAME]) =
    Some (IFile (build_manifest nfkd (view "core/1") (uses_readable_ftp_layout remote)
       (readable_stem nfkd remote (view "core/1")) (Some "core-1")))) as E by (vm_compute; reflexivity).
  rewrite E in Hc. by injection Hc.
Qed.

Example replicated_copy_audits_healthy_witness :
  ∃ summary, reconcile_mounted_destination settings nfkd 100 nfs (Some [replica]) 100 db made.2
      = (Ok summary, made.2) ∧ rs_healthy_replicas summary = 1 ∧ rs_checked_files summary = 2.
Proof.
  destruct (replicated_copy_audits_healthy settings nfkd 100 nfs (view "core/1") "core/2" None primary share
    made_result made.2 made.2 ["mnt"; "nas"] made.2 replica db 100 revision)
    as (summary & Hrun & _ & Hh & _ & Hc & _).
  - lia.
  - exact share_tree.
  - apply view_types.
  - exact made_auditable.
  - exact made_run.
  - done.
  - exact made_quiet.
  - exact made_root.
  - intros layout segment Hv. apply made_manifest. vm_compute in Hv. by injection Hv as _ <-.
  - by split_and!.
  - done.
  - vm_compute. reflexivity.
  - vm_compute. reflexivity.
  - exists summary. split; [exact Hrun|]. split; [exact Hh|]. rewrite Hc. reflexivity.
Defined.

(** A device whose directory is called [backups]: its copy never passes. *)
Definition misread := replicate_revision_mounted settings nfkd 100 nfs (view "backups") None primary share.
Example backups_directory_misread :
  let path := "/backups/devices/backups/backups/2023-11-14_22-13-20-r20" in
  rr_remote_path <$> misread.1 = Ok path ∧
  map ri_problem <$> (rs_issues <$> (reconcile_mounted_destination settings nfkd 100 nfs
    (Some [replica <| rp_remote_path := path |>]) 100
    (db <| db_devices := {[11 := device <| dv_name := "backups" |>]} |>) misread.2).1)
    = Ok ["hash_mismatch"].
Proof. vm_compute. split; reflexivity. Qed.

(** A retry after a rename of the device meets the old manifest. *)
Example renamed_retry_conflicts :
  (replicate_revision_mounted settings nfkd 100 nfs (view "core/2") (Some remote) primary made.2).1 =
  Err (DestinationError "DESTINATION_CONFLICT"
    "A different object already exists at the immutable revision path.").
Proof. vm_compute. reflexivity. Qed.

(** A dangling link where a file is to be put. *)
Example dangling_link_recurses :
  (put_immutable 1000 ["mnt"; "nas"; "x"] [] ""
    (share <| mf_nodes ::= <[["mnt"; "nas"; "x"] := ILink true ["none"]]> |>)).1 = Err RuntimeError.
Proof. vm_compute. reflexivity. Qed.

Definition removed := delete_revision_replica_mounted settings nfkd nfs (view "core/2") replica made.2.

Example removed_all : mf_nodes removed.2 !! ["mnt"; "nas"; "backups"; "devices"; "core-1"; "backups";
  "2023-11-14_22-13-20-r20"] = None ∧ is_ok removed.1 = true.
Proof. vm_compute. by split. Qed.

Example delete_mounted_exact_witness : mf_nodes removed.2 ⊆ mf_nodes made.2.
Proof.
  refine (proj1 (proj2 (delete_mounted_exact settings nfkd nfs (view "core/2") replica made.2
    removed.1 removed.2 _ (view_types _) _))).
  - exact (proj1 (replicate_mounted_grows settings nfkd 100 _ _ _ _ _ _ _ share_tree made_run)).
  - apply surjective_pairing.
Defined.

(** A second destination with the same mount and base path: its copies lie at
    the same places, and deleting one deletes the copy of the first. *)
Definition twin : BackupDestination := nfs <| ds_pk := 6 |>.
Definition twin_removed :=
  delete_revision_replica_mounted settings nfkd twin (view "core/2") (replica <| rp_destination := 6 |>) made.2.

Example twin_shares_places :
  bool_decide (share_place settings (endpoint twin) remote = share_place settings (endpoint nfs) remote) = true ∧
  is_ok twin_removed.1 = true ∧
  mf_nodes twin_removed.2 !! (share_place settings (endpoint nfs) remote) = None.
Proof. vm_compute. by split_and!. Qed.

Example mounted_backend_laws_witness :
  @BackendLaws (mounted_externals memory) path serves_mounted (share_place settings) share_copy
    (mounted_backend_instance memory memory_storage settings nfkd 100 "token").
Proof. exact (mounted_backend_laws _ _ _ _ _ _ _). Defined.
End Mounted.
