(* ===== verification/RepositoryContract.v ===== *)
(** * What the pipeline relies on: [services/repository.py]

    [BackupRepository] as a type class, its laws, and the proof that
    [DjangoBackupRepository] satisfies them.  Every operation is a
    transaction: it either does what it says or leaves the database alone, and
    none touches the primary storage. *)

From Stdlib Require Import ZArith Lia.
From stdpp Require Import base gmap sets list strings sorting pretty.
From S2P Require Import Prelude Strings Calendar Zones Models World DriverSelection Events.
From S2P Require Import Scheduling Health Repository.
#[local] Open Scope string_scope.
#[local] Open Scope list_scope.
#[local] Open Scope Z_scope.

(* src: services/repository.py 48 85 BackupRepository *)
Class BackupRepository `{Externals} := {
  repo_get_execution_context : Z → M World ExecutionContext;
  repo_mark_running : Z → Z → M World unit;
  repo_get_latest_revision : Z → M World (option RevisionSnapshot);
  repo_commit_unchanged : Z → bool → Z → M World (option Z);
  repo_commit_revision : Z → NewRevision → Z → M World Z;
  repo_mark_failed : Z → RunStatus → string → string → Z → M World unit;
}.

Definition set_run (id : Z) (r : BackupRun) (db : DB) : DB :=
  db <| db_runs := <[id := r]> (db_runs db) |>.

Definition running (r : BackupRun) (t : Z) : BackupRun :=
  r <| run_status := RS_RUNNING |> <| run_started_at := Some t |>
    <| run_error_code := "" |> <| run_error_message := "" |>.

Definition artifact_row (pk revision_id : Z) (item : StoredArtifactRecord) : ConfigArtifact :=
  {| ar_pk := pk; ar_revision := revision_id; ar_artifact_type := sr_artifact_type item;
     ar_format := sr_format item; ar_storage_key := sr_storage_key item;
     ar_size := sr_size item; ar_raw_hash := sr_raw_hash item;
     ar_normalized_hash := sr_normalized_hash item; ar_is_primary := sr_is_primary item;
     ar_local_available := true; ar_local_deleted_at := None |}.

(** The run of a world, after an operation on run [id]. *)
Definition same_results (db db' : DB) : Prop :=
  db_revisions db' = db_revisions db ∧ db_artifacts db' = db_artifacts db.

(** [items] became the artifacts of revision [pk], and nothing else changed
    in the table. *)
Definition artifacts_added (pk : Z) (items : list StoredArtifactRecord) (db db' : DB) : Prop :=
  (∃ pks, NoDup pks ∧
     Forall2 (λ k item, db_artifacts db !! k = None ∧
                        db_artifacts db' !! k = Some (artifact_row k pk item)) pks items ∧
     ∀ k, k ∉ pks → db_artifacts db' !! k = db_artifacts db !! k) ∧
  NoDup (map sr_storage_key items) ∧
  ∀ k a, db_artifacts db !! k = Some a → ar_storage_key a ∉ map sr_storage_key items.

(** What a committed revision is, whatever the way to it. *)
Definition revision_committed (id pk t : Z) (n : NewRevision) (db db' : DB) : Prop :=
  artifacts_added pk (nr_artifacts n) db db' ∧
  (∃ rev, db_revisions db !! pk = None ∧ db_revisions db' = <[pk := rev]> (db_revisions db) ∧
     rv_revision_uuid rev = nr_revision_uuid n ∧
     rv_normalized_hash rev = nr_normalized_hash n ∧
     rv_content_changed rev = nr_content_changed n) ∧
  ∃ run, db_runs db' !! id = Some run ∧
    run_status run = (if nr_content_changed n then RS_SUCCESS_CHANGED
                      else RS_SUCCESS_UNCHANGED) ∧
    run_finished_at run = Some t ∧ run_changed run = nr_content_changed n ∧
    run_raw_changed run = nr_raw_changed n ∧ run_revision run = Some pk.

Lemma artifacts_added_ext pk items db1 db1' db2 db2' :
  db_artifacts db1 = db_artifacts db2 → db_artifacts db1' = db_artifacts db2' →
  artifacts_added pk items db1 db2' → artifacts_added pk items db2 db1'.
Proof. unfold artifacts_added. by intros -> ->. Qed.

Class BackupRepositoryLaws `{BackupRepository} := {
  repo_ok : DB → Prop;

  context_pure : ∀ id w r w', repo_get_execution_context id w = (r, w') → w' = w;
  latest_pure : ∀ id w r w', repo_get_latest_revision id w = (r, w') → w' = w;

  mark_running_law : ∀ id t w r w',
    repo_ok (w_db w) → repo_mark_running id t w = (r, w') →
    repo_ok (w_db w') ∧ w_files w' = w_files w ∧
    match r with
    | Ok _ => ∃ run, db_runs (w_db w) !! id = Some run ∧ run_status run = RS_QUEUED ∧
                w_db w' = set_run id (running run t) (w_db w)
    | Err _ => w_db w' = w_db w
    end;

  commit_unchanged_law : ∀ id raw t w r w',
    repo_ok (w_db w) → repo_commit_unchanged id raw t w = (r, w') →
    repo_ok (w_db w') ∧ w_files w' = w_files w ∧
    match r with
    | Ok rev => same_results (w_db w) (w_db w') ∧
        ∃ run, db_runs (w_db w') !! id = Some run ∧ run_status run = RS_SUCCESS_UNCHANGED ∧
          run_finished_at run = Some t ∧ run_changed run = false ∧ run_raw_changed run = raw ∧
          run_revision run = rev
    | Err _ => w_db w' = w_db w
    end;

  commit_revision_law : ∀ id n t w r w',
    repo_ok (w_db w) → repo_commit_revision id n t w = (r, w') →
    repo_ok (w_db w') ∧ w_files w' = w_files w ∧
    match r with
    | Ok pk => revision_committed id pk t n (w_db w) (w_db w')
    | Err _ => w_db w' = w_db w
    end;

  mark_failed_law : ∀ id status code message t w r w',
    repo_ok (w_db w) → repo_mark_failed id status code message t w = (r, w') →
    repo_ok (w_db w') ∧ w_files w' = w_files w ∧
    match r with
    | Ok _ => same_results (w_db w) (w_db w') ∧
        ∃ run, db_runs (w_db w') !! id = Some run ∧ run_status run = status ∧
          run_finished_at run = Some t ∧ run_error_code run = code ∧
          run_error_message run = message
    | Err _ => w_db w' = w_db w
    end;
}.

(** ** [DjangoBackupRepository] *)
Section django.
Context `{Externals} (plugin_settings : PluginSettings).
Context (zoneinfo : string → result tzdata) (TIME_ZONE : string).
Context (receiver_base : list string) (resolve : list string → list string).
(** The [auto_now_add] time of the revision. *)
Context (created : Z).

(* src: services/django_repository.py 33 36 DjangoBackupRepository *)
Definition django_repository : BackupRepository := {|
  repo_get_execution_context := get_execution_context receiver_base resolve;
  repo_mark_running := mark_running;
  repo_get_latest_revision := get_latest_revision;
  repo_commit_unchanged := commit_unchanged plugin_settings zoneinfo TIME_ZONE;
  repo_commit_revision := λ id n t,
    commit_revision plugin_settings zoneinfo TIME_ZONE id n created t;
  repo_mark_failed := mark_failed plugin_settings zoneinfo TIME_ZONE;
|}.

Record rows_ok (db : DB) : Prop := {
  rows_runs : keyed run_pk (db_runs db);
  rows_revisions : ∀ k, is_Some (db_revisions db !! k) → k < db_next db;
  rows_artifacts : ∀ k, is_Some (db_artifacts db !! k) → k < db_next db;
}.

(** The part of the world the contract speaks of is that of [s] and [db]. *)
Definition fixed (s : files) (db : DB) (w : World) : Prop :=
  w_files w = s ∧ db_runs (w_db w) = db_runs db ∧ db_revisions (w_db w) = db_revisions db ∧
  db_artifacts (w_db w) = db_artifacts db ∧ db_next (w_db w) = db_next db.

Lemma fixed_self w : fixed (w_files w) (w_db w) w.
Proof. done. Qed.

Lemma fixed_rows s db w : fixed s db w → rows_ok db → rows_ok (w_db w).
Proof. intros (_ & Hr & Hv & Ha & Hn) [H1 H2 H3]. split; rewrite ?Hr, ?Hv, ?Ha, ?Hn; auto. Qed.

Lemma fixed_results s db w : fixed s db w → same_results db (w_db w).
Proof. by intros (_ & _ & Hv & Ha & _). Qed.

Lemma keeps_fixed_on_commit s db h : keeps (fixed s db) (on_commit h).
Proof. apply keeps_modify. intros w. unfold fixed. by destruct (w_depth w). Qed.
Lemma keeps_fixed_get {A} s db model (table : DB → gmap Z A) pk :
  keeps (fixed s db) (get model table pk).
Proof. intros w r w'. unfold get. by case_match; intros [= <- <-]. Qed.
Lemma keeps_fixed_get_target s db pk : keeps (fixed s db) (get_target pk).
Proof. apply keeps_fixed_get. Qed.
Lemma keeps_fixed_read {A} s db (f : DB → A) : keeps (fixed s db) (read f).
Proof. apply keeps_gets. Qed.
Lemma keeps_fixed_queue s db h : keeps (fixed s db) (queue_hook plugin_settings h).
Proof.
  apply keeps_bind; [apply keeps_fixed_read|]. intros c. destruct (events_enabled c);
    [apply keeps_fixed_on_commit|apply keeps_ret].
Qed.
Lemma keeps_fixed_queue_run s db e k : keeps (fixed s db) (queue_run_event plugin_settings e k).
Proof. apply keeps_fixed_queue. Qed.
Lemma keeps_fixed_controls s db : keeps (fixed s db) (get_runtime_controls plugin_settings).
Proof. apply keeps_gets. Qed.
Lemma keeps_fixed_atomic {A} s db (m : M World A) :
  keeps (fixed s db) m → keeps (fixed s db) (atomic m).
Proof.
  intros Hm w [a|e] w' Hw Hf.
  - apply atomic_Ok in Hw as (w1 & Hw & Hd & Hs & _). pose proof (Hm _ _ _ Hw Hf) as Hw'; clear Hw.
    unfold fixed. by rewrite Hd, Hs.
  - apply atomic_Err in Hw as (Hd & _ & _ & w1 & Hw & Hs & _). pose proof (Hm _ _ _ Hw Hf) as Hw'; clear Hw.
    unfold fixed. rewrite Hd, Hs. destruct Hw' as [-> _]. split; [done|apply Hf].
Qed.
Lemma keeps_fixed_save_target s db t : keeps (fixed s db) (save_target t).
Proof.
  apply keeps_fixed_atomic, keeps_bind; [apply keeps_fixed_read|intros db'].
  apply keeps_bind; [apply keeps_lift|intros []]. by apply keeps_modify.
Qed.

#[local] Hint Resolve keeps_fixed_on_commit keeps_fixed_get
  keeps_fixed_get_target keeps_fixed_read keeps_fixed_queue
  keeps_fixed_queue_run keeps_fixed_controls
  keeps_fixed_atomic keeps_fixed_save_target : keeps.

Ltac fixed_steps :=
  repeat first [ solve [auto with keeps] | apply keeps_bind; [|intros ?] | case_match ].

Lemma keeps_fixed_success s db t r f c :
  keeps (fixed s db) (mark_target_success zoneinfo TIME_ZONE t r f c).
Proof. unfold mark_target_success. fixed_steps. Qed.
#[local] Hint Resolve keeps_fixed_success : keeps.

(** Reading the run, and the first save. *)
Lemma get_run_step {A} id (f : BackupRun → M World A) w r w' :
  rows_ok (w_db w) → (get_run id ≫= f) w = (r, w') →
  (db_runs (w_db w) !! id = None ∧ w' = w ∧ is_ok r = false) ∨
  ∃ run, db_runs (w_db w) !! id = Some run ∧ run_pk run = id ∧ f run w = (r, w').
Proof.
  intros Hok. rewrite M_bind_run. unfold get_run, get.
  destruct (db_runs (w_db w) !! id) as [run|] eqn:E.
  - intros Hf. right. exists run. split_and!; [done| |done]. by apply (rows_runs _ Hok) in E.
  - intros [= <- <-]. by left.
Qed.

Lemma save_run_fixed s db run w r w' :
  fixed s db w → save_run run w = (r, w') →
  match r with
  | Ok _ => fixed s (set_run (run_pk run) run db) w'
  | Err _ => w' = w
  end.
Proof.
  intros (Hs & Hr & Hv & Ha & Hn). unfold save_run.
  case_match; intros [= <- <-]; [done|]. unfold fixed. simpl. by rewrite Hr.
Qed.

(** The shape of every operation on a run: read it, do some work, save it,
    and go on without touching the run table again. *)
Definition run_changed_to (id : Z) (P : BackupRun → Prop) (w w' : World) : Prop :=
  ∃ run, P run ∧ fixed (w_files w) (set_run id run (w_db w)) w'.

Lemma run_operation {A} id (m : M World A) (P : A → BackupRun → Prop) w r w' :
  rows_ok (w_db w) → atomic m w = (r, w') →
  (∀ w0, w_db w0 = w_db w → w_files w0 = w_files w →
     ∀ r w1, m w0 = (r, w1) → w_files w1 = w_files w ∧
       ∀ a, r = Ok a → run_changed_to id (λ run, run_pk run = id ∧ P a run) w w1) →
  rows_ok (w_db w') ∧ w_files w' = w_files w ∧
  match r with
  | Ok a => same_results (w_db w) (w_db w') ∧
      ∃ run, db_runs (w_db w') !! id = Some run ∧ P a run
  | Err _ => w_db w' = w_db w
  end.
Proof.
  intros Hok Hm Hspec. destruct r as [a|e].
  - apply atomic_Ok in Hm as (w1 & Hm & Hd & Hf & _).
    apply Hspec in Hm as [Hf1 Ha]; [|done..].
    rewrite Hd, Hf.
    destruct (Ha a eq_refl) as (run & [Hpk HP] & Hfix).
    assert (rows_ok (set_run id run (w_db w))) as Hrows.
    { destruct Hok. split; try done. by apply keyed_insert. }
    split_and!; [by eapply fixed_rows|done|by apply fixed_results in Hfix|].
    exists run. destruct Hfix as (_ & -> & _). split; [apply lookup_insert_eq|done].
  - apply atomic_Err in Hm as (Hd & _ & _ & w1 & Hm & Hf & _).
    apply Hspec in Hm as [Hf1 _]; [|done..].
    by rewrite Hd, Hf.
Qed.

(** What a computation returns when it returns. *)
Definition returns {A} (a : A) (m : M World A) : Prop := ∀ w b w', m w = (Ok b, w') → b = a.

Lemma returns_ret {A} (a : A) : returns a (mret a).
Proof. by intros w b w' [= ->]. Qed.
Lemma returns_bind {A B} (a : A) (m : M World B) (f : B → M World A) :
  (∀ x, returns a (f x)) → returns a (m ≫= f).
Proof. intros Hf w b w' (x & w1 & _ & Hx)%M_bind_Ok. by apply Hf in Hx. Qed.
Lemma returns_unit (m : M World unit) : returns tt m.
Proof. by intros w [] w' _. Qed.

(** One step that leaves the tables alone. *)
Lemma fixed_bind {A B} s db (m : M World A) (f : A → M World B) w r w' :
  keeps (fixed s db) m → fixed s db w → (m ≫= f) w = (r, w') →
  (is_ok r = false ∧ fixed s db w') ∨
  ∃ a w1, m w = (Ok a, w1) ∧ fixed s db w1 ∧ f a w1 = (r, w').
Proof.
  intros Hm Hf Hb. rewrite M_bind_run in Hb. destruct (m w) as [[a|e] w1] eqn:E.
  - right. exists a, w1. split_and!; [done|by apply (Hm _ _ _ E)|done].
  - left. injection Hb as <- <-. split; [done|by apply (Hm _ _ _ E)].
Qed.

(** A save followed by work that leaves the three tables alone. *)
Lemma save_then_frame {A} id run (a0 : A) (k : M World A) w w0 r w1 :
  fixed (w_files w) (w_db w) w0 → run_pk run = id →
  (∀ s db, keeps (fixed s db) k) → returns a0 k →
  (save_run run ≫= λ _, k) w0 = (r, w1) →
  w_files w1 = w_files w ∧
  ∀ a, r = Ok a → a = a0 ∧ fixed (w_files w) (set_run id run (w_db w)) w1.
Proof.
  intros Hfix <- Hk Hret Hm. rewrite M_bind_run in Hm.
  destruct (save_run run w0) as [[u|e] w2] eqn:E; apply (save_run_fixed _ _ _ _ _ _ Hfix) in E.
  - pose proof (Hk _ _ _ _ _ Hm E) as Hw1. split; [apply Hw1|].
    intros a ->. split; [by apply Hret in Hm|done].
  - injection Hm as <- <-. simpl in E. subst w2. split; [apply Hfix|done].
Qed.

Lemma mark_running_django id t w r w' :
  rows_ok (w_db w) → mark_running id t w = (r, w') →
  rows_ok (w_db w') ∧ w_files w' = w_files w ∧
  match r with
  | Ok _ => ∃ run, db_runs (w_db w) !! id = Some run ∧ run_status run = RS_QUEUED ∧
              w_db w' = set_run id (running run t) (w_db w)
  | Err _ => w_db w' = w_db w
  end.
Proof.
  intros Hok Hm. destruct r as [u|e].
  - apply atomic_Ok in Hm as (w1 & Hm & -> & -> & _).
    apply get_run_step in Hm as [(_ & _ & ?)|(run & Hr & Hpk & Hm)]; [done| |exact Hok].
    case_bool_decide as Hq; simpl in Hm; [|discriminate].
    unfold save_run in Hm. case_match; [discriminate|]. injection Hm as <- <-. simpl.
    assert (put_run (running run t) (w_db w) = set_run id (running run t) (w_db w)) as E.
    { unfold put_run, set_run. simpl. by rewrite Hpk. }
    unfold running in E. rewrite E. split_and!; [|done|by exists run].
    destruct Hok. split; try done. by apply keyed_insert.
  - apply atomic_Err in Hm as (-> & _ & _ & w1 & Hm & -> & _).
    split_and!; [exact Hok| |done].
    apply get_run_step in Hm as [(_ & -> & _)|(run & Hr & Hpk & Hm)]; [done| |exact Hok].
    case_bool_decide; simpl in Hm; [|by injection Hm as _ <-].
    unfold save_run in Hm. case_match; by injection Hm as _ <-.
Qed.

Lemma commit_unchanged_django id raw t w r w' :
  rows_ok (w_db w) → commit_unchanged plugin_settings zoneinfo TIME_ZONE id raw t w = (r, w') →
  rows_ok (w_db w') ∧ w_files w' = w_files w ∧
  match r with
  | Ok rev => same_results (w_db w) (w_db w') ∧
      ∃ run, db_runs (w_db w') !! id = Some run ∧ run_status run = RS_SUCCESS_UNCHANGED ∧
        run_finished_at run = Some t ∧ run_changed run = false ∧ run_raw_changed run = raw ∧
        run_revision run = rev
  | Err _ => w_db w' = w_db w
  end.
Proof.
  intros Hok Hm.
  refine (run_operation id _ (λ rev run, run_status run = RS_SUCCESS_UNCHANGED ∧
    run_finished_at run = Some t ∧ run_changed run = false ∧ run_raw_changed run = raw ∧
    run_revision run = rev) _ _ _ Hok Hm _).
  intros w0 Hd0 Hf0 x w1 Hx.
  apply get_run_step in Hx as [(_ & -> & Hx)|(run & Hr & Hpk & Hx)]; [by destruct x| |by rewrite Hd0].
  apply (fixed_bind (w_files w) (w_db w)) in Hx as [[Hx Hf]|(target & w2 & _ & Hf & Hx)];
    [destruct x; [done|split; [apply Hf|done]]| |solve [auto with keeps]|by rewrite <-Hd0, <-Hf0].
  rewrite read_bind_run in Hx.
  eapply (save_then_frame id) in Hx as [Hf1 Hx]; [|done|done| |].
  - split; [done|]. intros a Ha. destruct (Hx a Ha) as [-> Hfix]. eexists. split; [|done].
    split_and!; done.
  - intros s db. fixed_steps.
  - repeat (apply returns_bind; intros). apply returns_ret.
Qed.

Lemma mark_failed_django id status code message t w r w' :
  rows_ok (w_db w) →
  mark_failed plugin_settings zoneinfo TIME_ZONE id status code message t w = (r, w') →
  rows_ok (w_db w') ∧ w_files w' = w_files w ∧
  match r with
  | Ok _ => same_results (w_db w) (w_db w') ∧
      ∃ run, db_runs (w_db w') !! id = Some run ∧ run_status run = status ∧
        run_finished_at run = Some t ∧ run_error_code run = code ∧
        run_error_message run = message
  | Err _ => w_db w' = w_db w
  end.
Proof.
  intros Hok Hm.
  refine (run_operation id _ (λ _ run, run_status run = status ∧
    run_finished_at run = Some t ∧ run_error_code run = code ∧ run_error_message run = message)
    _ _ _ Hok Hm _).
  intros w0 Hd0 Hf0 x w1 Hx.
  apply get_run_step in Hx as [(_ & -> & Hx)|(run & Hr & Hpk & Hx)]; [by destruct x| |by rewrite Hd0].
  apply (fixed_bind (w_files w) (w_db w)) in Hx as [[Hx Hf]|(target & w2 & _ & Hf & Hx)];
    [destruct x; [done|split; [apply Hf|done]]| |solve [auto with keeps]|by rewrite <-Hd0, <-Hf0].
  eapply (save_then_frame id) in Hx as [Hf1 Hx]; [|done|done| |apply returns_unit].
  - split; [done|]. intros a Ha. destruct (Hx a Ha) as [-> Hfix]. eexists. split; [|done].
    split_and!; done.
  - intros s db. fixed_steps.
Qed.

(** ** Inserting the artifacts *)

Definition below (db : DB) : Prop := ∀ k, is_Some (db_artifacts db !! k) → k < db_next db.

Lemma create_artifact_run pk item w r w' :
  create_artifact pk item w = (r, w') → below (w_db w) →
  w_files w' = w_files w ∧
  (is_ok r = true →
     let k := db_next (w_db w) in
     db_artifacts (w_db w) !! k = None ∧
     w_db w' = (w_db w) <| db_next := k + 1 |>
       <| db_artifacts := <[k := artifact_row k pk item]> (db_artifacts (w_db w)) |> ∧
     ∀ j a, db_artifacts (w_db w) !! j = Some a → ar_storage_key a ≠ sr_storage_key item).
Proof.
  unfold create_artifact, next_pk. rewrite M_bind_run. cbv zeta. rewrite read_bind_run. simpl.
  intros Hc Hb. destruct (existsb _ _) eqn:E; injection Hc as <- <-; split; try done.
  intros _. split_and!; [|done|].
  - destruct (_ !! db_next (w_db w)) eqn:Hk; [|done].
    specialize (Hb (db_next (w_db w)) ltac:(rewrite Hk; eauto)). lia.
  - intros j a Hj Hkey. rewrite <-not_true_iff_false, existsb_exists in E. apply E.
    exists a. split; [by apply list_elem_of_In, elem_of_rows; exists j|].
    unfold artifact_conflict. simpl. rewrite Hkey, bool_decide_eq_true_2 by done. done.
Qed.

Lemma below_next db k a :
  below db → k = db_next db →
  below (db <| db_next := k + 1 |> <| db_artifacts := <[k := a]> (db_artifacts db) |>).
Proof.
  intros Hb -> j. simpl. destruct (decide (db_next db = j)) as [<-|Hj].
  - lia.
  - rewrite lookup_insert_ne by done. intros Hs. specialize (Hb j Hs). lia.
Qed.

(** The artifacts of a revision, inserted one after the other. *)
Lemma create_artifacts_run pk items : ∀ w r w',
  for_each items (create_artifact pk) w = (r, w') → below (w_db w) →
  w_files w' = w_files w ∧
  (is_ok r = true →
     artifacts_added pk items (w_db w) (w_db w') ∧ below (w_db w') ∧
     db_next (w_db w) <= db_next (w_db w') ∧
     db_runs (w_db w') = db_runs (w_db w) ∧ db_revisions (w_db w') = db_revisions (w_db w)).
Proof.
  induction items as [|item items IH]; intros w r w' Hm Hb; simpl in Hm.
  { injection Hm as <- <-. split; [done|]. intros _. split_and!; try done.
    split_and!; [|apply NoDup_nil_2|intros k a _; apply not_elem_of_nil].
    exists []. split_and!; [apply NoDup_nil_2|constructor|done]. }
  rewrite M_bind_run in Hm. destruct (create_artifact pk item w) as [[u|e] w1] eqn:E.
  2: { injection Hm as <- <-. apply create_artifact_run in E as [Hf _]; done. }
  apply create_artifact_run in E as [Hf (Hnone & Hdb & Hfresh)%(λ H, H eq_refl)]; [|done].
  set (k := db_next (w_db w)) in *.
  assert (below (w_db w1)) as Hb1 by (rewrite Hdb; by apply below_next).
  apply IH in Hm as [Hf' Hm]; [|exact Hb1]. rewrite Hf', Hf. split; [done|].
  intros Hr. destruct (Hm Hr) as (((pks & Hnd & Hall & Hother) & Hkeys & Hdis) & Hb' & Hn & Hruns & Hrevs).
  rewrite Hdb in Hn, Hruns, Hrevs. simpl in Hn, Hruns, Hrevs.
  split_and!; [|done|lia|done|done].
  assert (∀ j, j ∈ pks → db_artifacts (w_db w1) !! j = None) as Hpks.
  { intros j [i Hi]%list_elem_of_lookup_1.
    destruct (Forall2_lookup_l _ _ _ _ _ Hall Hi) as (it & _ & ? & _). done. }
  assert (k ∉ pks) as Hk.
  { intros Hin. specialize (Hpks k Hin). rewrite Hdb in Hpks. simpl in Hpks.
    by rewrite lookup_insert_eq in Hpks. }
  split_and!.
  - exists (k :: pks). split_and!; [by constructor| |].
    + constructor.
      * split; [done|]. rewrite Hother, Hdb by done. apply lookup_insert_eq.
      * eapply Forall2_impl; [exact Hall|]. intros j it [Hj ?]. split; [|done].
        rewrite Hdb in Hj. simpl in Hj. by apply lookup_insert_None in Hj as [? _].
    + intros j [Hjk Hj]%not_elem_of_cons. rewrite Hother, Hdb by done. simpl.
      by rewrite lookup_insert_ne.
  - simpl. constructor; [|done]. apply (Hdis k (artifact_row k pk item)).
    rewrite Hdb. apply lookup_insert_eq.
  - intros j a Hj. simpl. apply not_elem_of_cons. split; [by apply (Hfresh j)|].
    apply (Hdis j). rewrite Hdb. simpl. rewrite lookup_insert_ne; [done|]. intros <-. congruence.
Qed.

Lemma create_revision_run rev w r w' :
  create_revision rev w = (r, w') →
  w_files w' = w_files w ∧ (is_ok r = true → w_db w' = put_revision rev (w_db w)).
Proof. unfold create_revision. by case_match; intros [= <- <-]. Qed.

Lemma atomic_run {A} (m : M World A) w r w' :
  atomic m w = (r, w') →
  ∃ w0 w1, w_db w0 = w_db w ∧ w_files w0 = w_files w ∧ m w0 = (r, w1) ∧
    w_files w' = w_files w1 ∧ w_db w' = if is_ok r then w_db w1 else w_db w.
Proof.
  intros Hm. destruct r as [a|e].
  - apply atomic_Ok in Hm as (w1 & Hm & -> & -> & _). by exists (w <| w_depth := S (w_depth w) |>), w1.
  - apply atomic_Err in Hm as (-> & _ & _ & w1 & Hm & -> & _). by exists (w <| w_depth := S (w_depth w) |>), w1.
Qed.

Lemma commit_revision_django id n t w r w' :
  rows_ok (w_db w) →
  commit_revision plugin_settings zoneinfo TIME_ZONE id n created t w = (r, w') →
  rows_ok (w_db w') ∧ w_files w' = w_files w ∧
  match r with
  | Ok pk => revision_committed id pk t n (w_db w) (w_db w')
  | Err _ => w_db w' = w_db w
  end.
Proof.
  intros Hok (w0 & w1 & Hd0 & Hf0 & Hm & -> & ->)%atomic_run.
  assert (w_files w1 = w_files w ∧ ∀ pk, r = Ok pk →
    rows_ok (w_db w1) ∧ revision_committed id pk t n (w_db w) (w_db w1)) as [Hf Hr].
  2: { destruct r as [pk|e]; simpl; [|done]. destruct (Hr pk eq_refl). done. }
  apply get_run_step in Hm as [(_ & -> & Hx)|(run & Hrun & Hpk & Hm)];
    [destruct r; done| |by rewrite Hd0].
  apply (fixed_bind (w_files w) (w_db w)) in Hm as [[Hx Hf]|(target & w2 & _ & Hf & Hm)];
    [destruct r; [done|split; [apply Hf|done]]| |solve [auto with keeps]|by rewrite <-Hd0, <-Hf0].
  rewrite read_bind_run in Hm. unfold next_pk in Hm. rewrite M_bind_run in Hm. cbv zeta in Hm.
  set (k := db_next (w_db w2)) in *. rewrite M_bind_run in Hm.
  destruct Hf as (Hfw & Hr & Hv & Ha & Hn).
  destruct (create_revision _ _) as [[u|e] w3] eqn:Hrev; apply create_revision_run in Hrev
    as [Hf3 Hrev]; [specialize (Hrev eq_refl)|injection Hm as <- <-; split; [by rewrite Hf3|done]].
  assert (below (w_db w3)) as Hb.
  { rewrite Hrev. intros j Hj. simpl in *. rewrite Ha in Hj. apply (rows_artifacts _ Hok) in Hj.
    unfold k. lia. }
  rewrite M_bind_run in Hm.
  destruct (for_each _ _ w3) as [[u'|e] w4] eqn:Harts; apply create_artifacts_run in Harts
    as [Hf4 Harts]; [specialize (Harts eq_refl)| exact Hb|
                     injection Hm as <- <-; split; [by rewrite Hf4, Hf3|done]|exact Hb].
  destruct Harts as (Hadd & Hb4 & Hn4 & Hr4 & Hv4). rewrite Hrev in Hn4, Hr4, Hv4.
  simpl in Hn4, Hr4, Hv4. rewrite Hr in Hr4. rewrite Hv in Hv4.
  eapply (save_then_frame id _ k _ w4) in Hm as [Hf1 Hm];
    [|apply fixed_self|exact Hpk| |repeat (apply returns_bind; intros); apply returns_ret].
  2: { intros s db. fixed_steps. }
  split; [by rewrite Hf1, Hf4, Hf3|]. intros pk Hpk'. destruct (Hm pk Hpk') as [-> Hfix].
  pose proof Hfix as (_ & Hr1 & Hv1 & Ha1 & _). split.
  - eapply fixed_rows; [exact Hfix|]. split; simpl.
    + rewrite Hr4. apply keyed_insert; [done|]. apply (rows_runs _ Hok).
    + rewrite Hv4. intros j [x [[<- _]|[_ Hj]]%lookup_insert_Some]; [lia|].
      pose proof (rows_revisions _ Hok j (ex_intro _ x Hj)). unfold k in Hn4. lia.
    + exact Hb4.
  - split_and!.
    + revert Hadd. apply artifacts_added_ext; [by rewrite Hrev, <-Ha|exact Ha1].
    + eexists. rewrite Hv1. simpl. rewrite Hv4. split_and!; [|done..].
      destruct (db_revisions (w_db w) !! k) as [x|] eqn:E; [|done].
      pose proof (rows_revisions _ Hok k (ex_intro _ x E)). unfold k in *. lia.
    + eexists. rewrite Hr1. simpl. rewrite lookup_insert_eq. done.
Qed.

(** Reading changes nothing. *)
Lemma keeps_eq_get {A} w0 model (table : DB → gmap Z A) pk : keeps (eq w0) (get model table pk).
Proof. intros w r w'. unfold get. by case_match; intros [= <- <-]. Qed.
Lemma keeps_eq_read {A} w0 (f : DB → A) : keeps (eq w0) (read f).
Proof. apply keeps_gets. Qed.
#[local] Hint Resolve keeps_eq_get keeps_eq_read : keeps.

Lemma context_reads w0 id : keeps (eq w0) (get_execution_context receiver_base resolve id).
Proof.
  unfold get_execution_context, get_target_execution_context, get_run, get_target.
  repeat first [ solve [auto with keeps] | apply keeps_bind; [|intros ?] | case_match ].
Qed.

Lemma latest_reads w0 id : keeps (eq w0) (get_latest_revision id).
Proof.
  unfold get_latest_revision.
  repeat first [ solve [auto with keeps] | apply keeps_bind; [|intros ?] | case_match ].
Qed.

Definition django_repository_laws : @BackupRepositoryLaws _ django_repository.
Proof.
  apply (@Build_BackupRepositoryLaws _ django_repository rows_ok); simpl.
  - intros id w r w' Hm. symmetry. by apply (context_reads w id _ _ _ Hm).
  - intros id w r w' Hm. symmetry. by apply (latest_reads w id _ _ _ Hm).
  - intros id t w r w'. apply mark_running_django.
  - intros id raw t w r w'. apply commit_unchanged_django.
  - intros id n t w r w'. apply commit_revision_django.
  - intros id status code message t w r w'. apply mark_failed_django.
Defined.
End django.
