(* ===== verification/RetentionCleanup.v ===== *)
(** * Executing a retention plan: [services/retention_cleanup.py]

    [execute_retention_cleanup] recomputes the plan of one target inside a
    transaction, quarantines the files of the expired revisions, removes the
    rows, and purges the files after the commit. *)

From Stdlib Require Import ZArith Lia.
From stdpp Require Import base gmap sets list strings sorting pretty.
From S2P Require Import Prelude Strings Hashing Calendar Retention Models World DriverSelection.
From S2P Require Import RevisionChain Deletion Storage Staging Repository.
#[local] Open Scope string_scope.
#[local] Open Scope list_scope.
#[local] Open Scope Z_scope.

(* src: services/retention_cleanup.py 42 51 RetentionCleanupSummary *)
Record RetentionCleanupSummary := {
  rcs_target_id : Z;
  rcs_run_count : Z;
  rcs_revision_count : Z;
  rcs_artifact_count : Z;
  rcs_artifact_bytes : Z;
  rcs_missing_artifact_count : Z;
  rcs_quarantine_purge_failures : Z;
  rcs_deferred_revision_count : Z;
}.
#[export] Instance eta_RetentionCleanupSummary : Eta RetentionCleanupSummary := λ r,
  {| rcs_target_id := rcs_target_id r; rcs_run_count := rcs_run_count r;
     rcs_revision_count := rcs_revision_count r; rcs_artifact_count := rcs_artifact_count r;
     rcs_artifact_bytes := rcs_artifact_bytes r;
     rcs_missing_artifact_count := rcs_missing_artifact_count r;
     rcs_quarantine_purge_failures := rcs_quarantine_purge_failures r;
     rcs_deferred_revision_count := rcs_deferred_revision_count r |}.

(** ** Reading the policies *)

(* src: services/retention.py 76 87 settings_from_policy *)
Definition settings_from_policy (policy : RetentionPolicy) : RetentionSettings := {|
  keep_all_days := lp_keep_all_days policy;
  daily_days := lp_daily_days policy;
  weekly_weeks := lp_weekly_weeks policy;
  monthly_months := lp_monthly_months policy;
  minimum_changed_revisions := lp_minimum_changed_revisions policy;
  unchanged_run_days := lp_unchanged_run_days policy;
  changed_run_days := lp_changed_run_days policy;
  failed_run_days := lp_failed_run_days policy;
  max_runs_per_target := lp_max_runs_per_target policy;
  max_revisions_per_target := None |}.

(* src: services/retention.py 90 108 settings_from_remote_policy *)
Definition settings_from_remote_policy (policy : RemoteRetentionPolicy) : RetentionSettings := {|
  keep_all_days := rpol_keep_all_days policy;
  daily_days := rpol_daily_days policy;
  weekly_weeks := rpol_weekly_weeks policy;
  monthly_months := rpol_monthly_months policy;
  minimum_changed_revisions := rpol_minimum_changed_revisions policy;
  unchanged_run_days := 0;
  changed_run_days := 0;
  failed_run_days := 0;
  max_runs_per_target := 1;
  max_revisions_per_target := Some (rpol_max_copies_per_target policy) |}.

(** The relations the resolvers of [services/retention.py] follow. *)
Definition policy_row (k : Z) : Policy := {| policy_pk := k |}.
Definition policies_of_target (db : DB) (target : BackupTarget) : TargetPolicies := {|
  retention_override := policy_row <$> tg_retention_override target;
  policy_override := k ← tg_policy_override target; p ← db_policies db !! k;
                     Some (k, policy_row (po_retention_policy p));
  target_remote_retention_policy := policy_row <$> tg_remote_retention_policy target |}.
Definition policies_of_storage (d : BackupDestination) : StoragePolicies := {|
  enforce_retention_policy := ds_enforce_retention_policy d;
  local_retention_policy := policy_row <$> ds_local_retention_policy d;
  storage_remote_retention_policy := policy_row <$> ds_remote_retention_policy d |}.

(** ** The plan *)

(* src: services/retention_cleanup.py 77 80 execute_retention_cleanup *)
Definition has_active_run (db : DB) (target_id : Z) : bool :=
  existsb (λ r, (run_target r =? target_id) && run_is_active r) (rows (db_runs db)).

(* src: services/retention_cleanup.py 85 92 execute_retention_cleanup *)
Definition default_local_storage (db : DB) : result BackupDestination :=
  match filter (λ d, ds_protocol d = DP_LOCAL ∧ ds_is_default d = true)
          (rows (db_destinations db)) with
  | [] => Err (DoesNotExist "BackupDestination")
  | [d] => Ok d
  | _ => Err (MultipleObjectsReturned "BackupDestination")
  end.

(* src: services/retention_cleanup.py 100 105 execute_retention_cleanup *)
Definition revisions_of (db : DB) (target_id : Z) : list ConfigRevision :=
  sort_by (key_geb rv_created rv_pk)
    (filter (λ r, rv_target r = target_id) (rows (db_revisions db))).

(** The replicas of a revision, in the order of their keys. *)
(* src: services/retention_cleanup.py 106 114 execute_retention_cleanup *)
Definition replicas_of (db : DB) (revision_id : Z) : list RevisionReplica :=
  sort_by (key_leb rp_pk rp_pk) (filter (λ r, rp_revision r = revision_id) (rows (db_replicas db))).

(* src: services/retention_cleanup.py 120 124 execute_retention_cleanup *)
Definition locally_available (db : DB) (r : ConfigRevision) : bool :=
  existsb ar_local_available (artifacts_of db (rv_pk r)).

(* src: services/retention_cleanup.py 128 133 execute_retention_cleanup *)
Definition revision_candidate (r : ConfigRevision) : RevisionCandidate := {|
  rc_object_id := rv_pk r; rc_created := Aware (rv_created r);
  rc_protected := rv_protected r; rc_content_changed := rv_content_changed r |}.

(* src: services/retention_cleanup.py 137 141 execute_retention_cleanup *)
Definition run_candidate (r : BackupRun) : RunCandidate := {|
  rn_object_id := run_pk r;
  rn_timestamp := Aware (match run_finished_at r with Some t => t | None => run_queued_at r end);
  rn_status := run_status_value (run_status r) |}.

(** Whether a copy to the destination is still to be made, from this source. *)
(* src: services/retention_cleanup.py 158 174 execute_retention_cleanup *)
Definition replication_pending (db : DB) (replica : RevisionReplica) : bool :=
  let enabled := match db_destinations db !! rp_destination replica with
                 | Some d => ds_enabled d | None => false end in
  bool_decide (rp_remote_deleted_at replica = None)
  && (bool_decide (rp_status replica ∈ [RP_QUEUED; RP_RUNNING])
      || (enabled && bool_decide (rp_status replica = RP_PENDING))
      || (enabled && bool_decide (rp_status replica = RP_FAILED)
          && bool_decide (is_Some (rp_next_retry_at replica)))).

Definition remote_pointer (r : RevisionReplica) : option Z * bool * string :=
  (rp_remote_deleted_at r, rp_remote_available r, rp_remote_path r).

Definition not_kept (decisions : list RetentionDecision) : gset Z :=
  list_to_set (map rd_object_id (filter (λ d, rd_keep d = false) decisions)).

(** What one cleanup removes. *)
Record CleanupPlan := {
  cl_target : BackupTarget;
  cl_revisions : list ConfigRevision;
  cl_run_ids : gset Z;
  cl_deferred_ids : gset Z;
  cl_revision_ids : gset Z;
  cl_artifacts : list ConfigArtifact;
  cl_database_ids : gset Z;
  cl_unavailable_ids : gset Z;
}.

Definition ids_where (P : ConfigRevision → bool) (l : list ConfigRevision) : gset Z :=
  list_to_set (map rv_pk (filter (λ r, P r = true) l)).

(* src: services/retention_cleanup.py 71 213 execute_retention_cleanup *)
Definition plan_cleanup (db : DB) (target_id now : Z) : result CleanupPlan :=
  target ← require (DoesNotExist "BackupTarget") (db_targets db !! target_id);
  if has_active_run db target_id
  then Err (RetentionCleanupError
    "Retention cleanup cannot run while the target has an active backup.")
  else
    local_storage ← default_local_storage db;
    effective ← require (RetentionCleanupError
        "The backup target has no effective Local retention profile.")
      (effective_local_retention_policy (policies_of_target db target)
         (policies_of_storage local_storage));
    policy ← require (DoesNotExist "RetentionPolicy") (db_local_policies db !! policy_pk effective);
    let revisions := revisions_of db target_id in
    let runs := filter (λ r, run_target r = target_id) (rows (db_runs db)) in
    let available := filter (λ r, locally_available db r = true) revisions in
    plan ← build_retention_plan (settings_from_policy policy) (map revision_candidate available)
             (map run_candidate runs) (Aware now);
    let planned := not_kept (revision_decisions plan) in
    let deferred := ids_where (λ r, bool_decide (rv_pk r ∈ planned)
        && existsb (replication_pending db) (replicas_of db (rv_pk r))) available in
    let revision_ids := planned ∖ deferred in
    let artifacts := sort_by (λ a b, string_leb (ar_artifact_type a) (ar_artifact_type b))
      (filter (λ a, ar_revision a ∈ revision_ids ∧ ar_local_available a = true)
         (rows (db_artifacts db))) in
    let preserved := ids_where (λ r, bool_decide (rv_pk r ∈ revision_ids)
        && has_recorded_remote_copy (map remote_pointer (replicas_of db (rv_pk r)))) revisions in
    let unavailable := ids_where (λ r, bool_decide (rv_pk r ∈ revision_ids)
        || negb (locally_available db r)) revisions in
    Ok {| cl_target := target; cl_revisions := revisions;
          cl_run_ids := not_kept (run_decisions plan);
          cl_deferred_ids := deferred; cl_revision_ids := revision_ids;
          cl_artifacts := artifacts; cl_database_ids := revision_ids ∖ preserved;
          cl_unavailable_ids := unavailable |}.

(** [ConfigArtifact.objects.filter(pk__in=...).update(...)] *)
(* src: services/retention_cleanup.py 192 199 execute_retention_cleanup *)
Definition mark_unavailable (ids : gset Z) (now : Z) (db : DB) : DB :=
  db <| db_artifacts := (λ a, if bool_decide (ar_pk a ∈ ids)
          then a <| ar_local_available := false |> <| ar_local_deleted_at := Some now |>
          else a) <$> db_artifacts db |>.

Definition artifact_ids (artifacts : list ConfigArtifact) : gset Z :=
  list_to_set (map ar_pk artifacts).

(** ** What the plan never removes *)

(** What the database guarantees. *)
Record tables_ok (db : DB) : Prop := {
  tables_revisions : keyed rv_pk (db_revisions db);
  tables_artifacts : keyed ar_pk (db_artifacts db);
  tables_runs : keyed run_pk (db_runs db);
  tables_policies : ∀ k p, db_local_policies db !! k = Some p →
    0 <= lp_minimum_changed_revisions p;
}.

(** The newest revision of its target with a local file. *)
Definition newest_available (db : DB) (r : ConfigRevision) : Prop :=
  ∀ k r', db_revisions db !! k = Some r' → rv_target r' = rv_target r →
    locally_available db r' = true →
    rv_created r' < rv_created r ∨ rv_created r' = rv_created r ∧ rv_pk r' <= rv_pk r.

Lemma elem_of_ids_where P l k : k ∈ ids_where P l ↔ ∃ r, r ∈ l ∧ P r = true ∧ rv_pk r = k.
Proof.
  unfold ids_where. rewrite elem_of_list_to_set, list_elem_of_fmap.
  setoid_rewrite list_elem_of_filter. naive_solver.
Qed.

Lemma elem_of_not_kept ds k :
  k ∈ not_kept ds ↔ ∃ d, d ∈ ds ∧ rd_keep d = false ∧ rd_object_id d = k.
Proof.
  unfold not_kept. rewrite elem_of_list_to_set, list_elem_of_fmap.
  setoid_rewrite list_elem_of_filter. naive_solver.
Qed.

Lemma elem_of_revisions_of db t r :
  keyed rv_pk (db_revisions db) →
  r ∈ revisions_of db t ↔ db_revisions db !! rv_pk r = Some r ∧ rv_target r = t.
Proof.
  intros Hk. unfold revisions_of. rewrite elem_of_sort_by, list_elem_of_filter.
  rewrite (elem_of_rows_keyed rv_pk) by done. tauto.
Qed.

Lemma NoDup_revisions_of db t :
  keyed rv_pk (db_revisions db) → NoDup (map rv_pk (revisions_of db t)).
Proof.
  intros Hk. unfold revisions_of.
  eapply NoDup_Permutation_proper; [by rewrite sort_by_perm|].
  eapply NoDup_map_sublist; [apply sublist_filter|by apply NoDup_rows].
Qed.

(** The local retention plan of a target: its runs and its revisions with a
    local file, judged by the policy that is in effect. *)
Definition local_plan (db : DB) (t now : Z) (rp : RetentionPlan) : Prop :=
  ∃ target storage effective policy, db_targets db !! t = Some target ∧
    default_local_storage db = Ok storage ∧
    effective_local_retention_policy (policies_of_target db target)
      (policies_of_storage storage) = Some effective ∧
    db_local_policies db !! policy_pk effective = Some policy ∧
    build_retention_plan (settings_from_policy policy)
      (map revision_candidate (filter (λ r, locally_available db r = true) (revisions_of db t)))
      (map run_candidate (filter (λ r, run_target r = t) (rows (db_runs db)))) (Aware now) = Ok rp.

(** What the plan lets go. *)
Definition expired_in (decisions : list RetentionDecision) (k : Z) : Prop :=
  ∃ d, d ∈ decisions ∧ rd_object_id d = k ∧ rd_keep d = false.

Definition transfer_pending (db : DB) (k : Z) : Prop :=
  existsb (replication_pending db) (replicas_of db k) = true.
Definition remote_copy_recorded (db : DB) (k : Z) : Prop :=
  has_recorded_remote_copy (map remote_pointer (replicas_of db k)) = true.

Lemma local_plan_inj db t now rp rp' :
  local_plan db t now rp → local_plan db t now rp' → rp = rp'.
Proof.
  intros (t1 & s1 & e1 & p1 & Ht1 & Hs1 & He1 & Hp1 & Hr1) (t2 & s2 & e2 & p2 & Ht2 & Hs2 & He2 & Hp2 & Hr2).
  rewrite Ht1 in Ht2. injection Ht2 as <-. rewrite Hs1 in Hs2. injection Hs2 as <-.
  rewrite He1 in He2. injection He2 as <-. rewrite Hp1 in Hp2. injection Hp2 as <-. congruence.
Qed.

(** A successful plan, taken apart. *)
Lemma plan_cleanup_inv db t now plan :
  plan_cleanup db t now = Ok plan →
  ∃ policy rp, policy ∈ rows (db_local_policies db) ∧ local_plan db t now rp ∧
    build_retention_plan (settings_from_policy policy)
      (map revision_candidate (filter (λ r, locally_available db r = true) (revisions_of db t)))
      (map run_candidate (filter (λ r, run_target r = t) (rows (db_runs db)))) (Aware now) = Ok rp ∧
    has_active_run db t = false ∧
    (∃ target, db_targets db !! t = Some target ∧ cl_target plan = target) ∧
    cl_revisions plan = revisions_of db t ∧
    cl_run_ids plan = not_kept (run_decisions rp) ∧
    (∀ k, k ∈ cl_deferred_ids plan ↔ ∃ r, r ∈ revisions_of db t ∧ rv_pk r = k ∧
       locally_available db r = true ∧ k ∈ not_kept (revision_decisions rp) ∧
       existsb (replication_pending db) (replicas_of db k) = true) ∧
    cl_revision_ids plan = not_kept (revision_decisions rp) ∖ cl_deferred_ids plan ∧
    (∀ a, a ∈ cl_artifacts plan ↔ a ∈ rows (db_artifacts db) ∧
       ar_revision a ∈ cl_revision_ids plan ∧ ar_local_available a = true) ∧
    (∀ k, k ∈ cl_database_ids plan ↔ k ∈ cl_revision_ids plan ∧
       ¬ ∃ r, r ∈ revisions_of db t ∧ rv_pk r = k ∧
         has_recorded_remote_copy (map remote_pointer (replicas_of db k)) = true).
Proof.
  unfold plan_cleanup. intros (target & Ht & Hp)%result_bind_Ok.
  destruct (db_targets db !! t) as [target'|] eqn:Et; [|done]. injection Ht as ->.
  destruct (has_active_run db t) eqn:Ha; [done|].
  apply result_bind_Ok in Hp as (ls & Hls & Hp). apply result_bind_Ok in Hp as (eff & Heff & Hp).
  apply result_bind_Ok in Hp as (policy & Hpol & Hp). cbv zeta in Hp.
  apply result_bind_Ok in Hp as (rp & Hrp & Hp). injection Hp as <-.
  exists policy, rp. simpl. split_and!; try done.
  - apply elem_of_rows. exists (policy_pk eff). by destruct (db_local_policies db !! _); [injection Hpol as ->|].
  - exists target, ls, eff, policy. split_and!; try done.
    + by destruct (effective_local_retention_policy _ _); [injection Heff as ->|].
    + by destruct (db_local_policies db !! _); [injection Hpol as ->|].
  - by exists target.
  - intros k. rewrite elem_of_ids_where. setoid_rewrite list_elem_of_filter.
    setoid_rewrite andb_true_iff. setoid_rewrite bool_decide_eq_true. naive_solver.
  - intros a. rewrite elem_of_sort_by, list_elem_of_filter. tauto.
  - intros k. rewrite elem_of_difference, elem_of_ids_where.
    setoid_rewrite andb_true_iff. setoid_rewrite bool_decide_eq_true. split.
    + intros [Hk Hn]. split; [done|]. intros (r & Hr & <- & Hc). apply Hn. eauto 10.
    + intros [Hk Hn]. split; [done|]. intros (r & Hr & [_ Hc] & <-). apply Hn. eauto 10.
Qed.

Lemma available_ids db t :
  map rc_object_id (map revision_candidate
    (filter (λ r, locally_available db r = true) (revisions_of db t)))
  = map rv_pk (filter (λ r, locally_available db r = true) (revisions_of db t)).
Proof. by rewrite map_map. Qed.

Lemma cleanup_planner_input db t policy :
  tables_ok db → policy ∈ rows (db_local_policies db) →
  planner_input (settings_from_policy policy) (map revision_candidate
    (filter (λ r, locally_available db r = true) (revisions_of db t))).
Proof.
  intros Hok Hp. split.
  - rewrite available_ids. eapply NoDup_map_sublist; [apply sublist_filter|].
    apply NoDup_revisions_of, Hok.
  - apply Forall_forall. by intros c (r & -> & _)%list_elem_of_fmap.
  - apply elem_of_rows in Hp as [k Hk]. by apply (tables_policies _ Hok k).
  - done.
Qed.

(** A revision that a plan does not keep is one of those it was given, is not
    protected, and is not the newest. *)
Lemma not_kept_among settings l now ds k :
  planner_input settings (map revision_candidate l) →
  plan_revisions settings (map revision_candidate l) now = Ok ds → k ∈ not_kept ds →
  ∃ r, r ∈ l ∧ rv_pk r = k ∧ rv_protected r = false ∧
    ∃ r', r' ∈ l ∧ (rv_created r < rv_created r' ∨ rv_created r' = rv_created r ∧ rv_pk r < rv_pk r').
Proof.
  intros Hin Hds (d & Hd & Hkeep & <-)%elem_of_not_kept.
  pose proof (decisions_of_plan _ _ _ _ Hin Hds) as Hids.
  assert (rd_object_id d ∈ map rd_object_id ds) as Hdin by by apply list_elem_of_fmap_2.
  rewrite Hids in Hdin. apply list_elem_of_fmap in Hdin as (c & Hc & Hcin).
  rewrite elem_of_sort_by in Hcin. pose proof Hcin as Hcand.
  apply list_elem_of_fmap in Hcin as (r & -> & Hr). rewrite Hc. simpl.
  assert (∀ d', d' ∈ ds → rd_object_id d' = rd_object_id d → rd_keep d' = true → False) as Hno.
  { intros d' Hd' Hid Hk'. assert (d' = d) as ->; [|congruence].
    eapply NoDup_map_inj; [|done..]. rewrite Hids.
    eapply NoDup_Permutation_proper; [by rewrite sort_by_perm|]. apply Hin. }
  exists r. split_and!; [done|done| |].
  - apply not_true_is_false. intros Hprot.
    destruct (mandatory_revisions_kept _ _ _ _ (revision_candidate r) Hin Hds Hcand) as (d' & ? & ? & ?);
      [by right|]. apply (Hno d'); congruence.
  - destruct (decide (Exists (λ r', newer_by created_of rc_object_id (revision_candidate r')
      (revision_candidate r)) l)) as [(r' & Hr' & Hnew)%Exists_exists|Hnone].
    { exists r'. unfold newer_by, created_of in Hnew. simpl in Hnew. split; [done|lia]. }
    exfalso. destruct (mandatory_revisions_kept _ _ _ _ (revision_candidate r) Hin Hds Hcand)
      as (d' & ? & ? & ?); [left|apply (Hno d'); congruence].
    intros c' (r' & -> & Hr')%list_elem_of_fmap Hnew. apply Hnone, Exists_exists. eauto.
Qed.

(** A decision of the revision plan is about a revision it was given. *)
Lemma planned_revision db t policy now ds k :
  tables_ok db → policy ∈ rows (db_local_policies db) →
  plan_revisions (settings_from_policy policy) (map revision_candidate
    (filter (λ r, locally_available db r = true) (revisions_of db t))) now = Ok ds →
  k ∈ not_kept ds →
  ∃ r, db_revisions db !! k = Some r ∧ rv_target r = t ∧ locally_available db r = true ∧
    rv_protected r = false ∧ ¬ newest_available db r.
Proof.
  intros Hok Hp Hds Hk.
  destruct (not_kept_among _ _ _ _ _ (cleanup_planner_input db t policy Hok Hp) Hds Hk)
    as (r & [Hav Hr]%list_elem_of_filter & <- & Hprot & r' & [Hav' Hr']%list_elem_of_filter & Hnewer).
  apply elem_of_revisions_of in Hr as [Hr Ht]; [|apply Hok].
  apply elem_of_revisions_of in Hr' as [Hr' Ht']; [|apply Hok].
  exists r. split_and!; [done..|]. intros Hnew.
  pose proof (Hnew _ _ Hr' ltac:(congruence) Hav'). lia.
Qed.

(** The revisions a cleanup may touch. *)
Lemma plan_cleanup_safe db t now plan k :
  tables_ok db → plan_cleanup db t now = Ok plan → k ∈ cl_revision_ids plan →
  ∃ r, db_revisions db !! k = Some r ∧ rv_target r = t ∧ locally_available db r = true ∧
    rv_protected r = false ∧ ¬ newest_available db r ∧
    existsb (replication_pending db) (replicas_of db k) = false.
Proof.
  intros Hok (policy & rp & Hpol & _ & Hrp & _ & _ & _ & _ & Hdef & Hids & _)%plan_cleanup_inv Hk.
  unfold build_retention_plan in Hrp. apply result_bind_Ok in Hrp as (u & _ & Hrp).
  apply result_bind_Ok in Hrp as (rds & Hrds & Hrp).
  apply result_bind_Ok in Hrp as (nds & _ & [= <-]). simpl in *.
  rewrite Hids in Hk. apply elem_of_difference in Hk as [Hk Hnd].
  destruct (planned_revision _ _ _ _ _ _ Hok Hpol Hrds Hk) as (r & Hr & Ht & Hav & Hp & Hn).
  exists r. split_and!; try done. apply not_true_is_false. intros Hpend. apply Hnd, Hdef.
  pose proof (tables_revisions _ Hok _ _ Hr) as Hpk. exists r. split_and!; try done.
  apply elem_of_revisions_of; [apply Hok|]. by rewrite Hpk.
Qed.

Lemma plan_cleanup_artifacts db t now plan :
  keyed ar_pk (db_artifacts db) → plan_cleanup db t now = Ok plan → NoDup (cl_artifacts plan).
Proof.
  intros Hk Hp. unfold plan_cleanup in Hp. apply result_bind_Ok in Hp as (target & _ & Hp).
  destruct (has_active_run db t); [done|].
  do 4 (apply result_bind_Ok in Hp as (? & _ & Hp); cbv zeta in Hp). injection Hp as <-. simpl.
  eapply NoDup_Permutation_proper; [by rewrite sort_by_perm|]. apply NoDup_filter.
  eapply NoDup_fmap_1. by apply (NoDup_rows ar_pk).
Qed.

(** The sets of the plan in terms of what expires. *)
Lemma plan_cleanup_sets db t now plan :
  tables_ok db → plan_cleanup db t now = Ok plan →
  ∃ rp, local_plan db t now rp ∧
    (∀ k, k ∈ cl_run_ids plan ↔ expired_in (run_decisions rp) k) ∧
    (∀ k, k ∈ cl_deferred_ids plan ↔
       expired_in (revision_decisions rp) k ∧ transfer_pending db k) ∧
    (∀ k, k ∈ cl_revision_ids plan ↔
       expired_in (revision_decisions rp) k ∧ ¬ transfer_pending db k) ∧
    (∀ k, k ∈ cl_database_ids plan ↔ k ∈ cl_revision_ids plan ∧ ¬ remote_copy_recorded db k) ∧
    (∀ a, a ∈ cl_artifacts plan ↔ a ∈ rows (db_artifacts db) ∧
       ar_revision a ∈ cl_revision_ids plan ∧ ar_local_available a = true) ∧
    NoDup (cl_artifacts plan).
Proof.
  intros Hok Hplan. pose proof (plan_cleanup_inv _ _ _ _ Hplan)
    as (policy & rp & Hpol & Hlocal & Hrp & _ & _ & _ & Hruns & Hdef & Hids & Harts & Hdel).
  assert (∀ ds k, k ∈ not_kept ds ↔ expired_in ds k) as Hexp.
  { intros ds k. rewrite elem_of_not_kept. unfold expired_in. naive_solver. }
  assert (∀ k, k ∈ not_kept (revision_decisions rp) →
    ∃ r, r ∈ revisions_of db t ∧ rv_pk r = k ∧ locally_available db r = true) as Hrev.
  { intros k Hk. unfold build_retention_plan in Hrp. apply result_bind_Ok in Hrp as (u & _ & Hrp).
    apply result_bind_Ok in Hrp as (rds & Hrds & Hrp).
    apply result_bind_Ok in Hrp as (nds & _ & [= <-]).
    destruct (planned_revision _ _ _ _ _ _ Hok Hpol Hrds Hk) as (r & Hr & Ht & Hav & _).
    pose proof (tables_revisions _ Hok _ _ Hr) as Hpk. exists r. split_and!; [|done|done].
    apply elem_of_revisions_of; [apply Hok|]. by rewrite Hpk. }
  assert (∀ k, k ∈ cl_deferred_ids plan ↔
    expired_in (revision_decisions rp) k ∧ transfer_pending db k) as Hdef'.
  { intros k. rewrite Hdef, <-Hexp. split; [naive_solver|]. intros [Hk Hp].
    destruct (Hrev k Hk) as (r & ? & ? & ?). by exists r. }
  exists rp. split_and!; [done| |done| | |done|].
  - intros k. rewrite Hruns. apply Hexp.
  - intros k. rewrite Hids, elem_of_difference, Hdef', Hexp. tauto.
  - intros k. rewrite Hdel. split.
    + intros [Hk Hno]. split; [done|]. intros Hc. apply Hno.
      rewrite Hids in Hk. apply elem_of_difference in Hk as [Hk _].
      destruct (Hrev k Hk) as (r & ? & ? & _). by exists r.
    + intros [Hk Hno]. split; [done|]. by intros (? & _ & _ & ?).
  - eapply plan_cleanup_artifacts; [apply Hok|done].
Qed.

Lemma plan_cleanup_runs db t now plan k :
  keyed run_pk (db_runs db) → plan_cleanup db t now = Ok plan → k ∈ cl_run_ids plan →
  ∃ r, db_runs db !! k = Some r ∧ run_target r = t ∧ run_is_active r = false.
Proof.
  intros Hok (policy & rp & _ & _ & Hrp & Hact & _ & _ & Hruns & _)%plan_cleanup_inv Hk.
  unfold build_retention_plan in Hrp. apply result_bind_Ok in Hrp as (u & _ & Hrp).
  apply result_bind_Ok in Hrp as (rds & _ & Hrp).
  apply result_bind_Ok in Hrp as (nds & Hnds & [= <-]). simpl in Hruns. rewrite Hruns in Hk.
  apply elem_of_not_kept in Hk as (d & Hd & _ & <-).
  pose proof (plan_runs_ids _ _ _ _ _ Hnds (list_elem_of_fmap_2 rd_object_id _ _ Hd)) as Hid.
  rewrite map_map in Hid. apply list_elem_of_fmap in Hid as (r & -> & [Ht Hr]%list_elem_of_filter).
  exists r. split_and!; [|done|].
  - by apply (elem_of_rows_keyed run_pk), Hr.
  - apply not_true_is_false. intros Ha. apply not_true_iff_false in Hact. apply Hact.
    apply existsb_exists. exists r. split; [by apply list_elem_of_In|].
    by rewrite Ht, Z.eqb_refl, Ha.
Qed.

Section cleanup.
Context `{Externals} `{!ConfigStorage}.
(** [uuid4().hex] *)
Context (uuid_hex : string).

(* src: services/retention_cleanup.py 66 66 execute_retention_cleanup *)
Definition cleanup_namespace (target_id : Z) : string :=
  "retention-" +:+ pretty target_id +:+ "-" +:+ uuid_hex.

(** The transaction. *)
(* src: services/retention_cleanup.py 70 227 execute_retention_cleanup *)
Definition cleanup_body (target_id now : Z) : M SFrame RetentionCleanupSummary :=
  db ← in_service (read id);
  plan ← lift (plan_cleanup db target_id now);
  missing ← stage_artifacts (cleanup_namespace target_id) (cl_artifacts plan);
  _ ← in_service (match cl_artifacts plan with
                  | [] => mret tt
                  | artifacts => on_db (mark_unavailable (artifact_ids artifacts) now)
                  end);
  _ ← in_service (relink_kept_revisions (cl_target plan) (cl_revisions plan)
                    (cl_unavailable_ids plan));
  _ ← in_service (on_db (delete_runs (cl_run_ids plan)));
  _ ← in_service (on_db (delete_revisions (cl_database_ids plan)));
  mret {| rcs_target_id := tg_pk (cl_target plan);
          rcs_run_count := Z.of_nat (size (cl_run_ids plan));
          rcs_revision_count := Z.of_nat (size (cl_revision_ids plan));
          rcs_artifact_count := Z.of_nat (length (cl_artifacts plan));
          rcs_artifact_bytes := foldr Z.add 0 (map ar_size (cl_artifacts plan));
          rcs_missing_artifact_count := missing;
          rcs_quarantine_purge_failures := 0;
          rcs_deferred_revision_count := Z.of_nat (size (cl_deferred_ids plan)) |}.

Definition not_restored : string :=
  "Retention cleanup failed and quarantined files could not be fully restored.".

(* src: services/retention_cleanup.py 228 242 execute_retention_cleanup *)
Definition cleanup_error (restore_failed : bool) (e : exn) : exn :=
  if restore_failed then RetentionCleanupError not_restored
  else match e with
       | RetentionCleanupError _ => e
       | StorageError _ => RetentionCleanupError
           "Retention cleanup could not stage stored configuration files. Nothing was deleted."
       | _ => RetentionCleanupError
           "Retention cleanup failed before the database transaction committed."
       end.

(* src: services/retention_cleanup.py 58 261 execute_retention_cleanup *)
Definition execute_retention_cleanup (target_id now : Z) : M World RetentionCleanupSummary :=
  with_quarantine (cleanup_body target_id now) cleanup_error
    (λ summary failures, summary <| rcs_quarantine_purge_failures := failures |>).

(** ** The transaction *)
Context `{HS : !ConfigStorageLaws}.

Definition marked (plan : CleanupPlan) (now : Z) (db : DB) : DB :=
  match cl_artifacts plan with
  | [] => db
  | artifacts => mark_unavailable (artifact_ids artifacts) now db
  end.

Definition cleaned (plan : CleanupPlan) (now : Z) (db db' : DB) : Prop :=
  ∃ db1, relinked (marked plan now db) db1 ∧
    db' = delete_revisions (cl_database_ids plan) (delete_runs (cl_run_ids plan) db1).

Lemma cleanup_body_run target_id now w0 r f :
  storage_ok (w_files w0) →
  cleanup_body target_id now {| sf_world := w0; sf_staged := [] |} = (r, f) →
  storage_ok (w_files (sf_world f)) ∧
  moved (sf_staged f) (object (w_files w0)) (object (w_files (sf_world f))) ∧
  ∀ summary, r = Ok summary →
    ∃ plan, plan_cleanup (w_db w0) target_id now = Ok plan ∧
      cleaned plan now (w_db w0) (w_db (sf_world f)) ∧
      (∀ k, k ∈ (sf_staged f).*1 → k ∈ map ar_storage_key (cl_artifacts plan)) ∧
      rcs_revision_count summary = Z.of_nat (size (cl_revision_ids plan)) ∧
      rcs_artifact_count summary = Z.of_nat (length (cl_artifacts plan)) ∧
      0 <= rcs_missing_artifact_count summary ∧
      rcs_missing_artifact_count summary + Z.of_nat (length (sf_staged f))
        = Z.of_nat (length (cl_artifacts plan)).
Proof.
  intros Hok Hm. unfold cleanup_body in Hm. cbv zeta in Hm.
  unfold in_service at 1 in Hm. rewrite M_bind_run in Hm. simpl in Hm.
  rewrite lift_bind_run in Hm. unfold Datatypes.id in Hm.
  destruct (plan_cleanup (w_db w0) target_id now) as [plan|e] eqn:Ep.
  2: { injection Hm as <- <-. split_and!; [done|by constructor|done]. }
  rewrite M_bind_run in Hm. unfold stage_artifacts in Hm.
  set (f0 := _ <| sf_world := w0 |>) in Hm.
  destruct (for_fold (cl_artifacts plan) 0 _ f0) as [[missing|e] f1] eqn:Es;
    apply (stage_artifacts_run _ _ _ _ _ _ (object (w_files w0))) in Es
      as (Hdb & Hok1 & Hmv & staged & Hst & Hk & Hc); [|done|by constructor|
      injection Hm as <- <-; by split_and!|done|by constructor].
  change (w_db (sf_world f1) = w_db w0) in Hdb. simpl in Hst. subst staged. destruct (Hc missing eq_refl) as [Hc0 Hc1]. rewrite Z.add_0_l in Hc1.
  rewrite M_bind_run in Hm. unfold in_service at 1 in Hm.
  assert (∃ w2, match cl_artifacts plan with
    | [] => mret tt | artifacts => on_db (mark_unavailable (artifact_ids artifacts) now) end
      (sf_world f1) = (Ok tt, w2) ∧ w_db w2 = marked plan now (w_db w0) ∧
    w_files w2 = w_files (sf_world f1)) as (w2 & E2 & Hd2 & Hf2).
  { unfold marked. rewrite <-Hdb. destruct (cl_artifacts plan); eexists; split_and!; done. }
  rewrite E2 in Hm. clear E2. rewrite M_bind_run in Hm. unfold in_service at 1 in Hm. simpl in Hm.
  destruct (relink_kept_revisions _ _ _ w2) as [rl w3] eqn:Er.
  apply relink_keeps_links in Er as (Hlink & Hf3 & _). rewrite Hd2 in Hlink.
  assert (w_files w3 = w_files (sf_world f1)) as Hf by congruence.
  destruct rl as [u|e]; injection Hm as <- <-; simpl; rewrite Hf; split_and!; try done.
  intros summary [= <-]. exists plan. split_and!; try done. by exists (w_db w3).
Qed.

(** The rows, whatever the storage does, and the summary. *)
Lemma cleanup_body_rows target_id now f summary f' :
  cleanup_body target_id now f = (Ok summary, f') →
  ∃ plan, plan_cleanup (w_db (sf_world f)) target_id now = Ok plan ∧
    cleaned plan now (w_db (sf_world f)) (w_db (sf_world f')) ∧
    rcs_run_count summary = Z.of_nat (size (cl_run_ids plan)) ∧
    rcs_revision_count summary = Z.of_nat (size (cl_revision_ids plan)) ∧
    rcs_deferred_revision_count summary = Z.of_nat (size (cl_deferred_ids plan)) ∧
    rcs_artifact_bytes summary = foldr Z.add 0 (map ar_size (cl_artifacts plan)) ∧
    ∃ f1, stage_artifacts (cleanup_namespace target_id) (cl_artifacts plan) f
      = (Ok (rcs_missing_artifact_count summary), f1).
Proof.
  intros Hm. unfold cleanup_body in Hm.
  apply M_bind_Ok in Hm as (db & f1 & [= <- <-] & Hm).
  apply M_bind_Ok in Hm as (plan & f1 & [= Ep <-] & Hm). unfold Datatypes.id in Ep.
  apply M_bind_Ok in Hm as (missing & f2 & Es & Hm).
  pose proof (keeps_stage_artifacts (λ db, db = w_db (sf_world f)) _ _ _ _ _ Es eq_refl) as Hd2.
  change (w_db (sf_world f2) = w_db (sf_world f)) in Hd2.
  apply M_bind_Ok in Hm as ([] & f3 & E3 & Hm).
  assert (w_db (sf_world f3) = marked plan now (w_db (sf_world f))) as Hd3.
  { unfold in_service, marked in *. rewrite <-Hd2. destruct (cl_artifacts plan); by injection E3 as <-. }
  clear E3. apply M_bind_Ok in Hm as ([] & f4 & E4 & Hm). unfold in_service in E4.
  destruct (relink_kept_revisions _ _ _ (sf_world f3)) as [rl w4] eqn:Er. injection E4 as -> <-.
  apply relink_keeps_links in Er as [Hlink _]. rewrite Hd3 in Hlink.
  apply M_bind_Ok in Hm as ([] & f5 & [= <-] & Hm).
  apply M_bind_Ok in Hm as ([] & f6 & [= <-] & Hm). injection Hm as <- <-.
  exists plan. simpl. split_and!; try done.
  - by exists (w_db w4).
  - exists f2. by destruct f.
Qed.

Lemma cleanup_only_stages target_id now w :
  storage_ok (w_files w) → only_stages (cleanup_body target_id now) w.
Proof.
  intros Hok w0 r f Hd Hf Hb. rewrite <-Hf in Hok.
  apply cleanup_body_run in Hb as (? & ? & _); [|done]. by rewrite <-Hf.
Qed.

(** C16: When the cleanup raises, whatever failed and wherever, it raises a
    [RetentionCleanupError], no row of the database changed, and, unless the
    message says that files could not be restored, every stored object is
    where it was before. *)
Theorem retention_cleanup_atomic target_id now w e w' :
  storage_ok (w_files w) → execute_retention_cleanup target_id now w = (Err e, w') →
  w_db w' = w_db w ∧
  ∃ message, e = RetentionCleanupError message ∧
    (message ≠ not_restored → ∀ l, object (w_files w') l = object (w_files w) l).
Proof.
  intros Hok Hm. apply with_quarantine_run in Hm as (_ & Hdb & failed & e0 & -> & Hback & _);
    [|done|by apply cleanup_only_stages].
  split; [done|]. unfold cleanup_error. destruct failed.
  - by exists not_restored.
  - specialize (Hback eq_refl). destruct e0; eauto.
Qed.

(** ** After the commit *)

Lemma fmap_eq_is_Some {A B} (g : A → B) (t t' : gmap Z A) k :
  g <$> t' = g <$> t → is_Some (t' !! k) ↔ is_Some (t !! k).
Proof.
  intros Heq. assert (g <$> (t' !! k) = g <$> (t !! k)) as E by (by rewrite <-!lookup_fmap, Heq).
  destruct (t' !! k), (t !! k); simpl in E; split; intros [? ?]; eauto; congruence.
Qed.

Lemma marked_artifacts plan now db k a :
  db_artifacts (marked plan now db) !! k = Some a ↔
  ∃ a0, db_artifacts db !! k = Some a0 ∧
    a = if bool_decide (ar_pk a0 ∈ artifact_ids (cl_artifacts plan))
        then a0 <| ar_local_available := false |> <| ar_local_deleted_at := Some now |> else a0.
Proof.
  unfold marked. destruct (cl_artifacts plan) as [|x l] eqn:E.
  - unfold artifact_ids. simpl. split.
    + intros Ha. exists a. split; [done|]. by rewrite bool_decide_eq_false_2 by set_solver.
    + intros (a0 & Ha & ->). by rewrite bool_decide_eq_false_2 by set_solver.
  - rewrite <-E. simpl. rewrite lookup_fmap, fmap_Some. naive_solver.
Qed.

Lemma marked_other plan now db :
  db_revisions (marked plan now db) = db_revisions db ∧ db_runs (marked plan now db) = db_runs db ∧
  db_replicas (marked plan now db) = db_replicas db.
Proof. unfold marked. by destruct (cl_artifacts plan). Qed.

Lemma cleaned_revisions plan now db db' k :
  cleaned plan now db db' →
  is_Some (db_revisions db' !! k) ↔ is_Some (db_revisions db !! k) ∧ k ∉ cl_database_ids plan.
Proof.
  intros (db1 & (_ & Hrev & _) & ->). rewrite (proj1 (marked_other plan now db)) in Hrev.
  pose proof (fmap_eq_is_Some _ _ _ k Hrev) as <-. simpl. rewrite lookup_fmap, fmap_is_Some.
  split.
  - intros [r [Hr Hk]%map_lookup_filter_Some]. split; [by exists r|done].
  - intros [[r Hr] Hk]. exists r. by apply map_lookup_filter_Some.
Qed.

Lemma cleaned_artifacts plan now db db' k a :
  cleaned plan now db db' →
  db_artifacts db' !! k = Some a ↔
  db_artifacts (marked plan now db) !! k = Some a ∧ ar_revision a ∉ cl_database_ids plan.
Proof.
  intros (db1 & (Hdb1 & _ & _) & ->). rewrite delete_revisions_artifact. simpl.
  by rewrite Hdb1.
Qed.

Lemma cleaned_runs_iff plan now db db' k :
  cleaned plan now db db' →
  is_Some (db_runs db' !! k) ↔ is_Some (db_runs db !! k) ∧ k ∉ cl_run_ids plan.
Proof.
  intros (db1 & (Hdb1 & _ & _) & ->). simpl. rewrite lookup_fmap, fmap_is_Some, Hdb1. simpl.
  rewrite (proj1 (proj2 (marked_other plan now db))). split.
  - intros [r [Hr Hk]%map_lookup_filter_Some]. split; [by exists r|done].
  - intros [[r Hr] Hk]. exists r. by apply map_lookup_filter_Some.
Qed.

Lemma cleaned_runs plan now db db' k r :
  cleaned plan now db db' → db_runs db !! k = Some r → k ∉ cl_run_ids plan →
  db_runs db' !! k = Some (run_without (cl_database_ids plan) r).
Proof.
  intros (db1 & (Hdb1 & _ & _) & ->) Hr Hk. simpl. rewrite lookup_fmap.
  rewrite (map_lookup_filter_Some_2 _ _ k r); [done| |done].
  rewrite Hdb1. simpl. by rewrite (proj1 (proj2 (marked_other plan now db))).
Qed.

(** C15: What a successful cleanup leaves alone: every revision of another
    target, every protected one, the newest one with a local file, and every
    one with a copy still to be made is kept with all its artifact rows; a
    revision whose row disappears has no recorded remote copy; runs of other
    targets and active runs stay; and a stored object can only go when an
    artifact row that names it was removed or marked as locally deleted. *)
Theorem retention_cleanup_safe target_id now w summary w' :
  storage_ok (w_files w) → tables_ok (w_db w) →
  execute_retention_cleanup target_id now w = (Ok summary, w') →
  (∀ k r, db_revisions (w_db w) !! k = Some r →
     rv_target r ≠ target_id ∨ rv_protected r = true ∨ newest_available (w_db w) r ∨
       existsb (replication_pending (w_db w)) (replicas_of (w_db w) k) = true →
     is_Some (db_revisions (w_db w') !! k) ∧
     ∀ j a, db_artifacts (w_db w) !! j = Some a → ar_revision a = k →
       db_artifacts (w_db w') !! j = Some a) ∧
  (∀ k r, db_revisions (w_db w) !! k = Some r → db_revisions (w_db w') !! k = None →
     has_recorded_remote_copy (map remote_pointer (replicas_of (w_db w) k)) = false) ∧
  (∀ k r, db_runs (w_db w) !! k = Some r → run_target r ≠ target_id ∨ run_is_active r = true →
     is_Some (db_runs (w_db w') !! k)) ∧
  (∀ l, is_Some (object (w_files w) l) →
     (∀ j a, db_artifacts (w_db w) !! j = Some a → loc_of (ar_storage_key a) = Some l →
        db_artifacts (w_db w') !! j = Some a) →
     object (w_files w') l = object (w_files w) l).
Proof.
  intros Hok Htab Hm.
  apply with_quarantine_run in Hm as (_ & w0 & s & f & n & -> & Hd0 & Hf0 & Hb & -> & Hobj & _);
    [|done|by apply cleanup_only_stages].
  apply cleanup_body_run in Hb as (_ & _ & Hs); [|by rewrite Hf0].
  destruct (Hs s eq_refl) as (plan & Hp & Hclean & Hkeys & _). rewrite Hd0 in Hp, Hclean.
  clear Hs. pose proof (plan_cleanup_inv _ _ _ _ Hp)
    as (policy & rp & _ & _ & _ & _ & _ & _ & _ & _ & _ & Harts & Hdel).
  assert (∀ j a, db_artifacts (w_db w) !! j = Some a → ar_revision a ∉ cl_revision_ids plan →
    db_artifacts (w_db (sf_world f)) !! j = Some a) as Hart.
  { intros j a Ha Hnot. apply (cleaned_artifacts _ _ _ _ _ _ Hclean). split.
    - apply marked_artifacts. exists a. split; [done|]. rewrite bool_decide_eq_false_2; [done|].
      unfold artifact_ids. rewrite elem_of_list_to_set, list_elem_of_fmap.
      intros (a' & Hpk & (Ha' & Hin & _)%Harts). apply Hnot.
      rewrite (elem_of_rows_keyed ar_pk) in Ha' by apply Htab.
      pose proof (tables_artifacts _ Htab _ _ Ha). congruence.
    - intros Hd%Hdel. tauto. }
  split_and!.
  - intros k r Hr Hsafe. assert (k ∉ cl_revision_ids plan) as Hk.
    { intros Hin. destruct (plan_cleanup_safe _ _ _ _ _ Htab Hp Hin)
        as (r' & Hr' & Ht & _ & Hprot & Hnew & Hpend). assert (r' = r) as -> by congruence.
      destruct Hsafe as [?|[?|[?|?]]]; congruence. }
    split.
    + apply (cleaned_revisions _ _ _ _ k Hclean). split; [by exists r|]. intros Hd%Hdel. tauto.
    + intros j a Ha <-. by apply Hart.
  - intros k r Hr Hnone. apply not_true_is_false. intros Hcopy.
    assert (is_Some (db_revisions (w_db (sf_world f)) !! k)) as [x Hx]; [|congruence].
    apply (cleaned_revisions _ _ _ _ k Hclean). split; [by exists r|].
    intros [Hin Hno]%Hdel. destruct (plan_cleanup_safe _ _ _ _ _ Htab Hp Hin) as (r' & Hr' & Ht & _).
    apply Hno. exists r'. pose proof (tables_revisions _ Htab _ _ Hr') as Hpk.
    split_and!; [|done|done]. apply elem_of_revisions_of; [apply Htab|]. by rewrite Hpk.
  - intros k r Hr Hsafe. erewrite (cleaned_runs _ _ _ _ k r Hclean); [by eexists|done|].
    intros Hin. destruct (plan_cleanup_runs _ _ _ _ _ (tables_runs _ Htab) Hp Hin) as (r' & Hr' & Ht & Ha).
    assert (r' = r) as -> by congruence. destruct Hsafe; congruence.
  - intros l Hl Hnamed. apply Hobj; [done|]. intros key Hkey Hloc.
    apply Hkeys, list_elem_of_fmap in Hkey as (a & -> & Ha). pose proof Ha as (Hrow & Hin & Hav)%Harts.
    rewrite (elem_of_rows_keyed ar_pk) in Hrow by apply Htab.
    pose proof (Hnamed _ _ Hrow Hloc) as Hsame.
    apply (cleaned_artifacts _ _ _ _ _ _ Hclean) in Hsame as [Hsame _].
    apply marked_artifacts in Hsame as (a0 & Ha0 & E). assert (a0 = a) as -> by congruence.
    rewrite bool_decide_eq_true_2 in E.
    + assert (ar_local_available a = false) as Hf by (by rewrite E). congruence.
    + unfold artifact_ids. rewrite elem_of_list_to_set. by apply list_elem_of_fmap_2.
Qed.

(** The rows a cleanup leaves: [rp] is the local retention plan. *)
Definition cleaned_rows (rp : RetentionPlan) (now : Z) (db db' : DB) : Prop :=
  let expired k := expired_in (revision_decisions rp) k ∧ ¬ transfer_pending db k in
  let gone k := expired k ∧ ¬ remote_copy_recorded db k in
  (∀ k, is_Some (db_revisions db' !! k) ↔ is_Some (db_revisions db !! k) ∧ ¬ gone k) ∧
  (∀ k, is_Some (db_runs db' !! k) ↔
     is_Some (db_runs db !! k) ∧ ¬ expired_in (run_decisions rp) k) ∧
  ∀ k a, db_artifacts db !! k = Some a →
    (gone (ar_revision a) → db_artifacts db' !! k = None) ∧
    (expired (ar_revision a) → ¬ gone (ar_revision a) → ar_local_available a = true →
       db_artifacts db' !! k =
         Some (a <| ar_local_available := false |> <| ar_local_deleted_at := Some now |>)) ∧
    (¬ expired (ar_revision a) ∨ ¬ gone (ar_revision a) ∧ ar_local_available a = false →
       db_artifacts db' !! k = Some a).

Lemma cleaned_rows_of_plan db t now plan db' :
  tables_ok db → plan_cleanup db t now = Ok plan → cleaned plan now db db' →
  ∃ rp, local_plan db t now rp ∧ cleaned_rows rp now db db'.
Proof.
  intros Hok Hp Hclean.
  destruct (plan_cleanup_sets _ _ _ _ Hok Hp) as (rp & Hrp & Hruns & _ & Hrev & Hdel & Harts & _).
  exists rp. split; [done|]. unfold cleaned_rows. split_and!.
  - intros k. rewrite (cleaned_revisions _ _ _ _ k Hclean), Hdel, Hrev. done.
  - intros k. rewrite (cleaned_runs_iff _ _ _ _ k Hclean), Hruns. done.
  - intros k a Ha. pose proof (tables_artifacts _ Hok _ _ Ha) as Hpk.
    assert (ar_pk a ∈ artifact_ids (cl_artifacts plan) ↔
      ar_revision a ∈ cl_revision_ids plan ∧ ar_local_available a = true) as Hin.
    { unfold artifact_ids. rewrite elem_of_list_to_set, list_elem_of_fmap. split.
      - intros (a' & Hpk' & (Ha' & Hin & Hav)%Harts).
        rewrite (elem_of_rows_keyed ar_pk) in Ha' by apply Hok.
        assert (a' = a) as -> by congruence. done.
      - intros [Hin Hav]. exists a. split; [done|]. apply Harts. split_and!; [|done|done].
        apply elem_of_rows. by exists k. }
    pose proof (cleaned_artifacts _ _ _ _ k a Hclean) as Hrow.
    pose proof (λ x, marked_artifacts plan now db k x) as Hmark.
    rewrite <-Hrev, <-Hdel. split_and!.
    + intros Hgone. apply eq_None_not_Some. intros [x Hx].
      apply (cleaned_artifacts _ _ _ _ _ _ Hclean) in Hx as [(a0 & Ha0 & ->)%Hmark Hx].
      assert (a0 = a) as -> by congruence. apply Hx. by case_match.
    + intros Hexp Hno Hav. apply (cleaned_artifacts _ _ _ _ _ _ Hclean). split; [|done].
      apply Hmark. exists a. split; [done|]. rewrite bool_decide_eq_true_2; [done|]. by apply Hin.
    + intros Hkeep. apply Hrow. split.
      * apply Hmark. exists a. split; [done|]. rewrite bool_decide_eq_false_2; [done|].
        rewrite Hin. destruct Hkeep as [?|[_ ->]]; [tauto|]. by intros [_ ?].
      * destruct Hkeep as [Hn|[Hn _]]; [|done]. rewrite Hdel. tauto.
Qed.

(** C17: A successful cleanup does what the local retention plan says.  The
    revision rows that go, with their artifacts, are exactly those whose
    revision expired by the plan, has no transfer pending and no recorded
    remote copy; the runs that go are exactly the expired ones; an expired
    revision that stays because of a remote copy has its local artifacts
    marked as deleted now, and every other artifact row is as it was.  The
    summary counts the expired runs, the expired revisions, those deferred for
    a pending transfer, the local artifacts of the expired ones with their
    bytes and, when no two share a file and no file lies where the cleanup
    moves files to, exactly those whose file was already missing. *)
Theorem retention_cleanup_effect target_id now w summary w' :
  storage_ok (w_files w) → tables_ok (w_db w) →
  execute_retention_cleanup target_id now w = (Ok summary, w') →
  ∃ rp, local_plan (w_db w) target_id now rp ∧ cleaned_rows rp now (w_db w) (w_db w') ∧
  ∃ runs expired deferred artifacts,
    (∀ k, k ∈ runs ↔ expired_in (run_decisions rp) k) ∧
    (∀ k, k ∈ expired ↔
       expired_in (revision_decisions rp) k ∧ ¬ transfer_pending (w_db w) k) ∧
    (∀ k, k ∈ deferred ↔ expired_in (revision_decisions rp) k ∧ transfer_pending (w_db w) k) ∧
    (∀ a, a ∈ artifacts ↔ db_artifacts (w_db w) !! ar_pk a = Some a ∧
       ar_revision a ∈ expired ∧ ar_local_available a = true) ∧ NoDup artifacts ∧
    rcs_run_count summary = Z.of_nat (size (runs : gset Z)) ∧
    rcs_revision_count summary = Z.of_nat (size (expired : gset Z)) ∧
    rcs_deferred_revision_count summary = Z.of_nat (size (deferred : gset Z)) ∧
    rcs_artifact_count summary = Z.of_nat (length artifacts) ∧
    rcs_artifact_bytes summary = foldr Z.add 0 (map ar_size artifacts) ∧
    0 <= rcs_missing_artifact_count summary <= rcs_artifact_count summary ∧
    (NoDup (map artifact_loc artifacts) →
     (∀ a l, a ∈ artifacts → artifact_loc a = Some l →
        ¬ quarantine_at (cleanup_namespace target_id) l) →
     rcs_missing_artifact_count summary =
       Z.of_nat (length (filter (λ a, file_absent (w_files w) a = true) artifacts))).
Proof.
  intros Hok Htab Hm.
  apply with_quarantine_run in Hm as (_ & w0 & s & f & n & -> & Hd0 & Hf0 & Hb & -> & _);
    [|done|by apply cleanup_only_stages].
  pose proof (cleanup_body_rows _ _ _ _ _ Hb) as (plan & Hp & Hclean & Hs).
  apply cleanup_body_run in Hb as (_ & _ & Hcount); [|by rewrite Hf0].
  destruct (Hcount s eq_refl) as (plan' & Hp' & _ & _ & _ & Hac & Hm0 & Hm1). clear Hcount.
  simpl sf_world in *. rewrite Hd0 in Hp, Hp', Hclean.
  assert (plan' = plan) as -> by congruence.
  destruct (cleaned_rows_of_plan _ _ _ _ _ Htab Hp Hclean) as (rp & Hrp & Hrows).
  destruct (plan_cleanup_sets _ _ _ _ Htab Hp)
    as (rp' & Hrp' & Hruns & Hdef & Hrev & _ & Harts & Hnd).
  assert (rp' = rp) as -> by by eapply local_plan_inj.
  exists rp. split; [done|]. split; [done|].
  exists (cl_run_ids plan), (cl_revision_ids plan), (cl_deferred_ids plan), (cl_artifacts plan).
  destruct Hs as (Hn1 & Hn2 & Hn3 & Hn4 & f1 & Hstage). simpl. split_and!; try done; [|lia|].
  - intros a. rewrite Harts, (elem_of_rows_keyed ar_pk) by apply Htab. tauto.
  - intros Hlocs Hq. rewrite <-Hf0.
    apply (stage_artifacts_missing _ _ _ _ _ _ Hstage); [simpl; by rewrite Hf0|done|done].
Qed.
End cleanup.

(** ** A target with three revisions, of which the oldest expires *)
Module RetentionCleanupExamples.
Import WorldExamples MemoryStorage.
#[local] Existing Instance memory.
#[local] Existing Instance memory_storage.
#[local] Existing Instance memory_laws.

Definition policy : RetentionPolicy :=
  {| lp_pk := 5; lp_keep_all_days := 0; lp_daily_days := 0; lp_weekly_weeks := 0;
     lp_monthly_months := 0; lp_minimum_changed_revisions := 1; lp_unchanged_run_days := 1;
     lp_changed_run_days := 1; lp_failed_run_days := 1; lp_max_runs_per_target := 10 |}.
Definition local : BackupDestination :=
  {| ds_pk := 1; ds_is_default := true; ds_enabled := true; ds_auto_replicate := false;
     ds_integrity_audit_enabled := false; ds_integrity_audit_frequency := AF_DAILY;
     ds_integrity_audit_time := 0; ds_integrity_audit_weekday := 0;
     ds_next_integrity_audit_at := None; ds_last_integrity_audit_at := None;
     ds_last_integrity_audit_status := None; ds_last_integrity_audit_problem_count := 0;
     ds_protocol := DP_LOCAL; ds_allow_insecure_ftp := false; ds_host := ""; ds_port := None;
     ds_base_path := ""; ds_mount_path := ""; ds_credential_profile := None;
     ds_connect_timeout := None; ds_max_retries := None; ds_retry_delay_minutes := None;
     ds_max_artifact_size := None; ds_local_retention_policy := Some 5;
     ds_remote_retention_policy := None; ds_enforce_retention_policy := false;
     ds_host_key_type := ""; ds_host_key_public := ""; ds_host_key_fingerprint_sha256 := "";
     ds_last_success_at := None; ds_last_error_code := ""; ds_last_error_message := "" |}.
Definition artifact (pk revision : Z) (key : string) : ConfigArtifact :=
  {| ar_pk := pk; ar_revision := revision; ar_artifact_type := "config"; ar_format := "text";
     ar_storage_key := key; ar_size := 3; ar_raw_hash := ""; ar_normalized_hash := "";
     ar_is_primary := true; ar_local_available := true; ar_local_deleted_at := None |}.
Definition now : Z := 100 * us_per_day.

Definition db (runs : gmap Z BackupRun) : DB :=
  empty_db <| db_local_policies := {[5 := policy]} |>
           <| db_destinations := {[1 := local]} |>
           <| db_targets := {[3 := ChainExamples.target]} |>
           <| db_revisions := {[1 := ChainExamples.revision 1 10 None;
                                2 := (ChainExamples.revision 2 20 (Some 1)) <| rv_protected := true |>;
                                3 := ChainExamples.revision 3 30 (Some 2)]} |>
           <| db_artifacts := {[1 := artifact 1 1 "a"; 2 := artifact 2 2 "b";
                                3 := artifact 3 3 "c"]} |>
           <| db_runs := runs |>.
Definition start (runs : gmap Z BackupRun) : World :=
  {| w_db := db runs; w_hooks := []; w_depth := O; w_committed := [];
     w_files := ({["a" := encode "old"; "b" := encode "mid"; "c" := encode "new"]} : @files memory);
     w_remote := ∅ : @remote memory; w_clock := 0 |}.
Abbreviation cleanup := (execute_retention_cleanup "0" 3 now (start ∅)).
(** The same with a backup of the target in progress. *)
Definition active : BackupRun :=
  {| run_pk := 9; run_target := 3; run_source := SRC_MANUAL; run_scheduled_for := None;
     run_dedupe_key := None; run_queued_at := 0; run_started_at := None;
     run_finished_at := None; run_status := RS_QUEUED; run_attempt_number := 1;
     run_error_code := ""; run_error_message := ""; run_revision := None; run_changed := false;
     run_raw_changed := false; run_job_id := None; run_triggered_by := None |}.
Abbreviation refused := (execute_retention_cleanup "0" 3 now (start {[9 := active]})).

Lemma db_ok : tables_ok (db ∅).
Proof.
  split; simpl.
  - apply keyed_insert; [done|]. apply keyed_insert; [done|].
    intros k r [<- <-]%lookup_singleton_Some. done.
  - apply keyed_insert; [done|]. apply keyed_insert; [done|].
    intros k r [<- <-]%lookup_singleton_Some. done.
  - apply keyed_empty.
  - intros k p [<- <-]%lookup_singleton_Some. done.
Qed.

Definition summary : RetentionCleanupSummary :=
  {| rcs_target_id := 3; rcs_run_count := 0; rcs_revision_count := 1; rcs_artifact_count := 1;
     rcs_artifact_bytes := 3; rcs_missing_artifact_count := 0;
     rcs_quarantine_purge_failures := 0; rcs_deferred_revision_count := 0 |}.

Lemma cleanup_run : cleanup = (Ok summary, cleanup.2).
Proof.
  assert (cleanup.1 = Ok summary) as E by (vm_compute; reflexivity).
  rewrite <-E. apply surjective_pairing.
Qed.

Lemma retention_cleanup_atomic_witness :
  ∃ e, refused.1 = Err e ∧ w_db refused.2 = w_db (start {[9 := active]}).
Proof.
  exists (RetentionCleanupError
    "Retention cleanup cannot run while the target has an active backup.").
  assert (refused.1 = Err (RetentionCleanupError
    "Retention cleanup cannot run while the target has an active backup.")) as E
    by (vm_compute; reflexivity).
  split; [exact E|].
  refine (proj1 (retention_cleanup_atomic "0" 3 now (start {[9 := active]}) _ refused.2 _ _)).
  - exact I.
  - rewrite <-E. apply surjective_pairing.
Defined.

(** The protected revision is kept with its artifact. *)
Lemma retention_cleanup_safe_witness :
  is_Some (db_revisions (w_db cleanup.2) !! 2) ∧ db_revisions (w_db cleanup.2) !! 1 = None.
Proof.
  split; [|vm_compute; reflexivity].
  refine (proj1 (proj1 (retention_cleanup_safe "0" 3 now (start ∅) summary cleanup.2 _ _ _)
    2 ((ChainExamples.revision 2 20 (Some 1)) <| rv_protected := true |>) _ _)).
  - exact I.
  - exact db_ok.
  - exact cleanup_run.
  - reflexivity.
  - right. left. reflexivity.
Defined.

(** The same with the file of the oldest revision gone already. *)
Definition emptied : World :=
  (start ∅) <| w_files := ({["b" := encode "mid"; "c" := encode "new"]} : @files memory) |>.
Abbreviation late := (execute_retention_cleanup "0" 3 now emptied).
Definition late_summary : RetentionCleanupSummary :=
  {| rcs_target_id := 3; rcs_run_count := 0; rcs_revision_count := 1; rcs_artifact_count := 1;
     rcs_artifact_bytes := 3; rcs_missing_artifact_count := 1;
     rcs_quarantine_purge_failures := 0; rcs_deferred_revision_count := 0 |}.

Lemma late_run : late = (Ok late_summary, late.2).
Proof.
  assert (late.1 = Ok late_summary) as E by (vm_compute; reflexivity).
  rewrite <-E. apply surjective_pairing.
Qed.

Lemma stored_keys k a : db_artifacts (db ∅) !! k = Some a → ar_storage_key a ∈ ["a"; "b"; "c"].
Proof.
  simpl. intros [[_ <-]|[_ [[_ <-]|[_ [_ <-]%lookup_singleton_Some]]%lookup_insert_Some]]%lookup_insert_Some;
    simpl; set_solver.
Qed.

Lemma no_quarantine k a l :
  db_artifacts (db ∅) !! k = Some a → artifact_loc a = Some l →
  ¬ quarantine_at (cleanup_namespace "0" 3) l.
Proof.
  intros Hkey%stored_keys Hl (x & s & k' & s' & _ & Hs & Hk').
  assert (l ∈ ["a"; "b"; "c"]) as Hin.
  { unfold artifact_loc in Hl. simpl in Hl. unfold memory_loc in Hl. case_bool_decide; [done|].
    by injection Hl as <-. }
  apply guard_key_run in Hs as [(_ & _ & ?)|[_ Hs]]; [done|]. cbv zeta in Hs.
  repeat case_match; try done. injection Hs as <- _.
  simpl in Hk'. unfold memory_loc in Hk'. rewrite bool_decide_eq_false_2 in Hk' by done.
  injection Hk' as <-. repeat (apply elem_of_cons in Hin as [Hin|Hin]; [done|]). by apply elem_of_nil in Hin.
Qed.

(** Its artifact is the one counted as missing, and the newest stays. *)
Lemma retention_cleanup_effect_witness :
  ∃ rp artifacts, local_plan (db ∅) 3 now rp ∧
    ¬ ((expired_in (revision_decisions rp) 3 ∧ ¬ transfer_pending (db ∅) 3)
       ∧ ¬ remote_copy_recorded (db ∅) 3) ∧
    length artifacts = 1%nat ∧
    length (filter (λ a, file_absent (w_files emptied) a = true) artifacts) = 1%nat.
Proof.
  destruct (retention_cleanup_effect "0" 3 now emptied late_summary late.2)
    as (rp & Hplan & (Hrows & _) & runs & expired & deferred & artifacts & _ & _ & _ & Harts & Hnd
        & _ & _ & _ & Hcount & _ & _ & Hmissing).
  - exact I.
  - exact db_ok.
  - exact late_run.
  - assert (length artifacts = 1%nat) as Hone by (simpl in Hcount; lia).
    exists rp, artifacts. split; [exact Hplan|]. split; [|split; [exact Hone|]].
    + apply (Hrows 3). vm_compute. eexists. reflexivity.
    + assert (1 = Z.of_nat (length (filter (λ a, file_absent (w_files emptied) a = true) artifacts)));
        [|lia]. apply Hmissing.
      * destruct artifacts as [|a [|b l]]; [done| |done]. apply NoDup_singleton.
      * intros a l (Ha & _ & _)%Harts. exact (no_quarantine _ _ _ Ha).
Defined.
End RetentionCleanupExamples.
