(* ===== verification/RemoteRetention.v ===== *)
(** * Expiring remote copies: [services/remote_retention_cleanup.py]

    One target's remote policies, applied destination by destination inside one
    transaction.  A remote deletion cannot be rolled back: when the service
    fails, the database is as before, and what is already deleted was expired. *)

From Stdlib Require Import ZArith Lia.
From stdpp Require Import base gmap sets list strings sorting pretty.
From S2P Require Import Prelude Strings Calendar Retention Models World Deletion Storage.
From S2P Require Import RevisionChain Destination Repository RetentionCleanup.
#[local] Open Scope string_scope.
#[local] Open Scope list_scope.
#[local] Open Scope Z_scope.

(* src: services/remote_retention_cleanup.py 37 48 RemoteRetentionCleanupSummary *)
Record RemoteRetentionCleanupSummary := {
  rms_target_id : Z;
  rms_revision_count : Z;
  rms_replica_count : Z;
  rms_cancelled_replica_count : Z;
  rms_deleted_file_count : Z;
  rms_missing_file_count : Z;
  rms_deleted_bytes : Z;
  rms_removed_directory_count : Z;
  rms_deferred_revision_count : Z;
  rms_metadata_revision_count : Z;
}.

(** ** The locked rows *)

(* src: services/remote_retention_cleanup.py 83 93 execute_remote_retention_cleanup *)
Definition locked_replicas (db : DB) (target_id : Z) : list RevisionReplica :=
  sort_by (key_leb rp_pk rp_pk) (filter (λ r,
    (rv_target <$> db_revisions db !! rp_revision r) = Some target_id
    ∧ (is_replicated ∘ ds_protocol <$> db_destinations db !! rp_destination r) = Some true
    ∧ rp_remote_deleted_at r = None) (rows (db_replicas db))).

(* src: services/remote_retention_cleanup.py 99 106 execute_remote_retention_cleanup *)
Definition locked_destinations (db : DB) (replicas : list RevisionReplica) : list BackupDestination :=
  sort_by (key_leb ds_pk ds_pk) (filter (λ d,
    ds_pk d ∈ map rp_destination replicas ∧ is_replicated (ds_protocol d) = true)
    (rows (db_destinations db))).

(** The keys of a dictionary filled in the order of the list. *)
Definition dict_keys (l : list Z) : list Z :=
  foldl (λ keys k, if bool_decide (k ∈ keys) then keys else keys ++ [k]) [] l.

(** A copy that exists, or that a failed upload may have left for good. *)
(* src: services/remote_retention_cleanup.py 174 184 execute_remote_retention_cleanup *)
Definition replica_eligible (r : RevisionReplica) : bool :=
  bool_decide (rp_status r = RP_SUCCESS) && rp_remote_available r
  || bool_decide (rp_status r = RP_FAILED) && negb (bool_decide (rp_remote_path r = ""))
     && bool_decide (rp_next_retry_at r = None).

(* src: services/remote_retention_cleanup.py 207 214 execute_remote_retention_cleanup *)
Definition transfer_planned (r : RevisionReplica) : bool :=
  bool_decide (rp_status r ∈ [RP_QUEUED; RP_RUNNING])
  || bool_decide (rp_status r = RP_FAILED) && bool_decide (is_Some (rp_next_retry_at r)).

(** The revisions with an eligible copy at a destination, by their rows in
    the order of the keys. *)
(* src: services/remote_retention_cleanup.py 168 187 execute_remote_retention_cleanup *)
Definition candidate_revisions (db : DB) (replicas : list RevisionReplica) : list ConfigRevision :=
  filter (λ rv, existsb (λ r, (rp_revision r =? rv_pk rv) && replica_eligible r) replicas = true)
    (omap (λ k, db_revisions db !! k) (dict_keys (map rp_revision replicas))).

(** The expired revisions at one destination; [None] when no policy applies. *)
(* src: services/remote_retention_cleanup.py 156 205 execute_remote_retention_cleanup *)
Definition expired_at_destination (db : DB) (target : BackupTarget) (now : Z)
    (destination : BackupDestination) : result (option (list Z)) :=
  if negb (ds_enabled destination) then Ok None
  else
    match effective_remote_retention_policy_id (policies_of_target db target)
            (policies_of_storage destination) with
    | None => Ok None
    | Some policy_id =>
        policy ← require (RemoteRetentionCleanupError
            "The effective remote retention profile no longer exists.")
          (db_remote_policies db !! policy_id);
        let replicas := filter (λ r, rp_destination r = ds_pk destination)
                          (locked_replicas db (tg_pk target)) in
        plan ← build_retention_plan (settings_from_remote_policy policy)
                 (map revision_candidate (candidate_revisions db replicas)) [] (Aware now);
        Ok (Some (map rd_object_id (filter (λ d, rd_keep d = false) (revision_decisions plan))))
    end.

(** ** Deleting *)

(** The counters of the loop. *)
Record RemoteProgress := {
  pg_replica_count : Z;
  pg_deleted_file_count : Z;
  pg_missing_file_count : Z;
  pg_deleted_bytes : Z;
  pg_removed_directory_count : Z;
  pg_deferred_revision_count : Z;
  pg_completed_revision_ids : gset Z;
  pg_configured_policy_count : Z;
}.
#[export] Instance eta_RemoteProgress : Eta RemoteProgress := λ r,
  {| pg_replica_count := pg_replica_count r; pg_deleted_file_count := pg_deleted_file_count r;
     pg_missing_file_count := pg_missing_file_count r; pg_deleted_bytes := pg_deleted_bytes r;
     pg_removed_directory_count := pg_removed_directory_count r;
     pg_deferred_revision_count := pg_deferred_revision_count r;
     pg_completed_revision_ids := pg_completed_revision_ids r;
     pg_configured_policy_count := pg_configured_policy_count r |}.

Definition no_progress : RemoteProgress :=
  {| pg_replica_count := 0; pg_deleted_file_count := 0; pg_missing_file_count := 0;
     pg_deleted_bytes := 0; pg_removed_directory_count := 0; pg_deferred_revision_count := 0;
     pg_completed_revision_ids := ∅; pg_configured_policy_count := 0 |}.

(* src: services/remote_retention_cleanup.py 244 256 execute_remote_retention_cleanup *)
Definition tombstone (r : RevisionReplica) (now : Z) : RevisionReplica :=
  r <| rp_remote_available := false |> <| rp_remote_deleted_at := Some now |>
    <| rp_next_retry_at := None |> <| rp_job_id := None |>.

Section remote_cleanup.
Context `{Externals} `{!Backends}.

(* src: services/remote_retention_cleanup.py 236 256 execute_remote_retention_cleanup *)
Definition delete_copy_of (destination : BackupDestination) (now : Z) (p : RemoteProgress)
    (replica : RevisionReplica) : M World RemoteProgress :=
  result ← delete_revision_replica destination replica;
  _ ← on_db (put_replica (tombstone replica now));
  mret (p <| pg_replica_count ::= Z.succ |>
          <| pg_deleted_file_count ::= Z.add (dr_deleted_file_count result) |>
          <| pg_missing_file_count ::= Z.add (dr_missing_file_count result) |>
          <| pg_deleted_bytes ::= Z.add (dr_deleted_bytes result) |>
          <| pg_removed_directory_count ::= Z.add (if dr_directory_removed result then 1 else 0) |>).

(* src: services/remote_retention_cleanup.py 205 257 execute_remote_retention_cleanup *)
Definition expire_revision (destination : BackupDestination) (replicas : list RevisionReplica)
    (now : Z) (p : RemoteProgress) (revision_id : Z) : M World RemoteProgress :=
  let revision_replicas := filter (λ r, rp_revision r = revision_id) replicas in
  if existsb transfer_planned revision_replicas
  then mret (p <| pg_deferred_revision_count ::= Z.succ |>)
  else
    let eligible := filter (λ r, replica_eligible r = true) revision_replicas in
    if bool_decide (eligible = []) then mret p
    else
      p ← for_fold eligible p (delete_copy_of destination now);
      mret (p <| pg_completed_revision_ids ::= union {[ revision_id ]} |>).

(** [locked] is the database at the locks: the plan and the rows come from it. *)
(* src: services/remote_retention_cleanup.py 156 257 execute_remote_retention_cleanup *)
Definition clean_destination (locked : DB) (target : BackupTarget) (now : Z) (p : RemoteProgress)
    (destination : BackupDestination) : M World RemoteProgress :=
  expired ← lift (expired_at_destination locked target now destination);
  match expired with
  | None => mret p
  | Some expired_ids =>
      let p := p <| pg_configured_policy_count ::= Z.succ |> in
      let replicas := filter (λ r, rp_destination r = ds_pk destination)
                        (locked_replicas locked (tg_pk target)) in
      for_fold expired_ids p (expire_revision destination replicas now)
  end.

(** A revision that is recorded nowhere any more. *)
(* src: services/remote_retention_cleanup.py 265 288 execute_remote_retention_cleanup *)
Definition copy_recorded (r : RevisionReplica) : bool :=
  bool_decide (rp_remote_deleted_at r = None)
  && (rp_remote_available r || negb (bool_decide (rp_remote_path r = ""))
      || bool_decide (rp_status r ∈ [RP_PENDING; RP_QUEUED; RP_RUNNING])
      || bool_decide (rp_status r = RP_FAILED) && bool_decide (is_Some (rp_next_retry_at r))).

(* src: services/remote_retention_cleanup.py 265 290 execute_remote_retention_cleanup *)
Definition metadata_revision_ids (db : DB) (target_id : Z) (completed : gset Z) : gset Z :=
  list_to_set (map rv_pk (filter (λ rv,
    rv_pk rv ∈ completed
    ∧ locally_available db rv = false
    ∧ existsb copy_recorded (replicas_of db (rv_pk rv)) = false) (revisions_of db target_id))).

(* src: services/remote_retention_cleanup.py 304 315 execute_remote_retention_cleanup *)
Definition remote_cleanup_error (e : exn) : exn :=
  match e with
  | RemoteRetentionCleanupError _ => e
  | DestinationError error_code _ => RemoteRetentionCleanupError
      ("Remote retention stopped safely (" +:+ error_code +:+ "). No database state was changed.")
  | DoesNotExist model =>
      if bool_decide (model = "BackupTarget")
      then RemoteRetentionCleanupError "The backup target no longer exists."
      else RemoteRetentionCleanupError
        "Remote retention failed before its database state could be committed."
  | _ => RemoteRetentionCleanupError
      "Remote retention failed before its database state could be committed."
  end.

(** The transaction's body.  The revisions looked at at the end are those
    with a locked replica; only completed ones matter, and they have one. *)
(* src: services/remote_retention_cleanup.py 66 303 execute_remote_retention_cleanup *)
Definition remote_cleanup_body (target_id now : Z) : M World RemoteRetentionCleanupSummary :=
  target ← get_target target_id;
  locked ← read id;
  if has_active_run locked target_id then raise (RemoteRetentionCleanupError
    "Remote retention cannot run while the target has an active backup.")
  else
    let destinations := locked_destinations locked (locked_replicas locked (tg_pk target)) in
    p ← for_fold destinations no_progress (clean_destination locked target now);
    if pg_configured_policy_count p =? 0 then raise (RemoteRetentionCleanupError
      "No enabled remote storage has an effective retention profile. Remote copies are kept indefinitely.")
    else
      db ← read id;
      let metadata := metadata_revision_ids db (tg_pk target) (pg_completed_revision_ids p) in
      _ ← on_db (delete_revisions metadata);
      mret {| rms_target_id := tg_pk target;
              rms_revision_count := Z.of_nat (size (pg_completed_revision_ids p));
              rms_replica_count := pg_replica_count p; rms_cancelled_replica_count := 0;
              rms_deleted_file_count := pg_deleted_file_count p;
              rms_missing_file_count := pg_missing_file_count p;
              rms_deleted_bytes := pg_deleted_bytes p;
              rms_removed_directory_count := pg_removed_directory_count p;
              rms_deferred_revision_count := pg_deferred_revision_count p;
              rms_metadata_revision_count := Z.of_nat (size metadata) |}.

(* src: services/remote_retention_cleanup.py 51 315 execute_remote_retention_cleanup *)
Definition execute_remote_retention_cleanup (target_id now : Z)
    : M World RemoteRetentionCleanupSummary :=
  try_catch (atomic (remote_cleanup_body target_id now)) (λ e, raise (remote_cleanup_error e)).
End remote_cleanup.

(** ** What expires *)

(** What the database guarantees. *)
Record remote_tables_ok (db : DB) : Prop := {
  rt_replicas : keyed rp_pk (db_replicas db);
  rt_revisions : keyed rv_pk (db_revisions db);
  rt_destinations : keyed ds_pk (db_destinations db);
  rt_targets : keyed tg_pk (db_targets db);
  rt_policies : ∀ k p, db_remote_policies db !! k = Some p →
    0 <= rpol_minimum_changed_revisions p ∧ 0 <= rpol_max_copies_per_target p;
}.

(** A copy that the cleanup of [target] may delete. *)
Definition expirable (db : DB) (target : BackupTarget) (now : Z) (r : RevisionReplica) : Prop :=
  r ∈ locked_replicas db (tg_pk target) ∧ replica_eligible r = true ∧
  ∃ d ids, db_destinations db !! rp_destination r = Some d ∧
    expired_at_destination db target now d = Ok (Some ids) ∧ rp_revision r ∈ ids.

Lemma elem_of_locked_replicas db t r :
  keyed rp_pk (db_replicas db) → r ∈ locked_replicas db t ↔
    db_replicas db !! rp_pk r = Some r ∧ rp_remote_deleted_at r = None ∧
    (rv_target <$> db_revisions db !! rp_revision r) = Some t ∧
    (is_replicated ∘ ds_protocol <$> db_destinations db !! rp_destination r) = Some true.
Proof.
  intros Hk. unfold locked_replicas. rewrite elem_of_sort_by, list_elem_of_filter.
  rewrite (elem_of_rows_keyed rp_pk) by done. tauto.
Qed.

Lemma dict_keys_spec l : NoDup (dict_keys l) ∧ ∀ k, k ∈ dict_keys l ↔ k ∈ l.
Proof.
  unfold dict_keys.
  enough (∀ acc, NoDup acc → NoDup (foldl (λ keys k, if bool_decide (k ∈ keys) then keys else keys ++ [k]) acc l)
    ∧ ∀ k, k ∈ foldl (λ keys k, if bool_decide (k ∈ keys) then keys else keys ++ [k]) acc l
           ↔ k ∈ acc ∨ k ∈ l) as H.
  { destruct (H []) as [H1 H2]; [constructor|]. split; [done|]. intros k. rewrite H2. set_solver. }
  induction l as [|x l IH]; intros acc Hacc; simpl; [split; [done|]; set_solver|].
  case_bool_decide as Hx.
  - destruct (IH acc Hacc) as [H1 H2]. split; [done|]. intros k. rewrite H2. set_solver.
  - destruct (IH (acc ++ [x])) as [H1 H2]; [|split; [done|]; intros k; rewrite H2; set_solver].
    apply NoDup_app. split_and!; [done|set_solver|apply NoDup_singleton].
Qed.

Lemma elem_of_candidates db reps rv :
  rv ∈ candidate_revisions db reps →
  (∃ k, db_revisions db !! k = Some rv) ∧
  ∃ r, r ∈ reps ∧ rp_revision r = rv_pk rv ∧ replica_eligible r = true.
Proof.
  unfold candidate_revisions. rewrite list_elem_of_filter, list_elem_of_omap.
  intros [He (k & _ & Hk)]. split; [eauto|]. apply existsb_exists in He as (r & Hr & Hb).
  apply andb_true_iff in Hb as [Hb1 Hb2]. exists r. apply list_elem_of_In in Hr.
  split_and!; [done|lia|done].
Qed.

Lemma NoDup_candidates db reps :
  keyed rv_pk (db_revisions db) → NoDup (map rv_pk (candidate_revisions db reps)).
Proof.
  intros Hk. unfold candidate_revisions. eapply NoDup_map_sublist; [apply sublist_filter|].
  destruct (dict_keys_spec (map rp_revision reps)) as [Hnd _].
  induction Hnd as [|k l Hin Hnd IH]; simpl; [constructor|].
  destruct (db_revisions db !! k) as [rv|] eqn:E; [|done]. simpl. constructor; [|done].
  rewrite (Hk _ _ E). intros (x & Hx & Hxl)%list_elem_of_fmap.
  apply list_elem_of_omap in Hxl as (j & Hj & Hjx). apply Hk in Hjx. congruence.
Qed.

(** The row says that the copy exists, or that an upload failed for good and
    may have left something. *)
Definition copy_available (r : RevisionReplica) : Prop :=
  rp_status r = RP_SUCCESS ∧ rp_remote_available r = true.
Definition upload_leftover (r : RevisionReplica) : Prop :=
  rp_status r = RP_FAILED ∧ rp_remote_path r ≠ "" ∧ rp_next_retry_at r = None.

Lemma replica_eligible_spec r : replica_eligible r = true → copy_available r ∨ upload_leftover r.
Proof.
  unfold replica_eligible. rewrite orb_true_iff, !andb_true_iff, !bool_decide_eq_true, negb_true_iff, bool_decide_eq_false.
  intros [[? ?]|[[? ?] ?]]; [by left|by right].
Qed.

(** The plan of the destination's effective profile, over the revisions of the
    target with such a row there, does not keep the revision. *)
Definition expired (db : DB) (target : BackupTarget) (now : Z) (d : BackupDestination) (id : Z) : Prop :=
  ∃ pid policy plan decision,
    effective_remote_retention_policy_id (policies_of_target db target) (policies_of_storage d) = Some pid ∧
    db_remote_policies db !! pid = Some policy ∧
    build_retention_plan (settings_from_remote_policy policy)
      (map revision_candidate (candidate_revisions db
         (filter (λ r, rp_destination r = ds_pk d) (locked_replicas db (tg_pk target))))) [] (Aware now)
      = Ok plan ∧
    decision ∈ revision_decisions plan ∧ rd_object_id decision = id ∧ rd_keep decision = false.

Lemma expired_at_destination_spec db target now d ids id :
  expired_at_destination db target now d = Ok (Some ids) → id ∈ ids →
  ds_enabled d = true ∧ expired db target now d id.
Proof.
  unfold expired_at_destination, expired. destruct (ds_enabled d); [|done]. cbn [negb].
  destruct (effective_remote_retention_policy_id _ _) as [pid|]; [|done].
  intros (policy & Hpol & H)%result_bind_Ok. cbv zeta in H.
  apply result_bind_Ok in H as (plan & Hplan & [= <-]). intros (dec & -> & [Hk Hd]%list_elem_of_filter)%list_elem_of_fmap.
  split; [done|]. exists pid, policy, plan, dec. split_and!; try done.
  by destruct (db_remote_policies db !! pid); [injection Hpol as ->|].
Qed.

(** A copy expires only for a revision of the target that is not protected,
    and of which a newer one has a row at the same destination that says that
    the copy exists, or is left over from an upload that failed for good. *)
Lemma expirable_spec db target now r :
  remote_tables_ok db → expirable db target now r →
  db_replicas db !! rp_pk r = Some r ∧ rp_remote_deleted_at r = None ∧
  (copy_available r ∨ upload_leftover r) ∧
  (∃ d, db_destinations db !! rp_destination r = Some d ∧ ds_enabled d = true ∧
     expired db target now d (rp_revision r)) ∧
  ∃ rv, db_revisions db !! rp_revision r = Some rv ∧ rv_target rv = tg_pk target ∧
    rv_protected rv = false ∧
    ∃ r' rv', db_replicas db !! rp_pk r' = Some r' ∧ rp_remote_deleted_at r' = None ∧
      (copy_available r' ∨ upload_leftover r') ∧ rp_destination r' = rp_destination r ∧
      db_revisions db !! rp_revision r' = Some rv' ∧ rv_target rv' = tg_pk target ∧
      (rv_created rv < rv_created rv' ∨ rv_created rv' = rv_created rv ∧ rv_pk rv < rv_pk rv').
Proof.
  intros Hok (Hl & He%replica_eligible_spec & d & ids & Hd & Hexp & Hin).
  destruct (expired_at_destination_spec _ _ _ _ _ _ Hexp Hin) as [_ Hexpired].
  apply elem_of_locked_replicas in Hl as (Hr & Hdel & Hrv & _); [|apply Hok].
  destruct (db_revisions db !! rp_revision r) as [rv|] eqn:Erv; [|done]. injection Hrv as Hrv.
  unfold expired_at_destination in Hexp. destruct (ds_enabled d) eqn:Hen; [|done]. cbn [negb] in Hexp.
  destruct (effective_remote_retention_policy_id _ _) as [pid|]; [|done].
  apply result_bind_Ok in Hexp as (policy & Hpol & Hexp). cbv zeta in Hexp.
  destruct (db_remote_policies db !! pid) as [policy'|] eqn:Ep; [|done]. injection Hpol as ->.
  apply result_bind_Ok in Hexp as (plan & Hplan & [= <-]).
  set (reps := filter (λ r0, rp_destination r0 = ds_pk d) (locked_replicas db (tg_pk target))) in *.
  apply result_bind_Ok in Hplan as ([] & _ & Hplan).
  apply result_bind_Ok in Hplan as (rds & Hrds & Hplan).
  apply result_bind_Ok in Hplan as (nds & _ & [= <-]). simpl in Hin.
  assert (planner_input (settings_from_remote_policy policy)
            (map revision_candidate (candidate_revisions db reps))) as Hpi.
  { destruct (rt_policies _ Hok _ _ Ep) as [Hmin Hmax]. split; [| |exact Hmin|by intros c [= <-]].
    - rewrite map_map. apply NoDup_candidates, Hok.
    - apply Forall_forall. by intros c (x & -> & _)%list_elem_of_fmap. }
  destruct (not_kept_among _ _ _ _ (rp_revision r) Hpi Hrds) as (x & Hx & Hxk & Hprot & x' & Hx' & Hnew).
  { unfold not_kept. by apply elem_of_list_to_set. }
  apply elem_of_candidates in Hx as [[k Hk] _]. pose proof (rt_revisions _ Hok _ _ Hk) as <-.
  rewrite Hxk, Erv in Hk. injection Hk as <-.
  apply elem_of_candidates in Hx' as [[k' Hk'] (r' & [Hd' Hl']%list_elem_of_filter & Hrev' & He'%replica_eligible_spec)].
  pose proof (rt_revisions _ Hok _ _ Hk') as <-.
  apply elem_of_locked_replicas in Hl' as (Hr' & Hdel' & Hrv' & _); [|apply Hok].
  rewrite Hrev', Hk' in Hrv'. injection Hrv' as Hrv'.
  split_and!; [done..|eauto|]. exists rv. split_and!; [done..|]. exists r', x'.
  pose proof (rt_destinations _ Hok _ _ Hd). split_and!; try done; congruence.
Qed.

(** ** The loop *)
Section loop.
Context `{Externals} `{!Backends} `{!BackendsLaws} (w0 : World) (target : BackupTarget) (now : Z).
Context (Hok : remote_tables_ok (w_db w0)).

(** What the loop may have done so far, from the locked state [w0]. *)
Record cleaned (w : World) : Prop := {
  cl_db : w_db w = (w_db w0) <| db_replicas := db_replicas (w_db w) |>;
  cl_files : w_files w = w_files w0;
  cl_rows : ∀ k, db_replicas (w_db w) !! k = db_replicas (w_db w0) !! k ∨
    ∃ r, db_replicas (w_db w0) !! k = Some r ∧ expirable (w_db w0) target now r ∧
      db_replicas (w_db w) !! k = Some (tombstone r now) ∧
      (∀ l, replica_place place (w_db w0) r = Some l → ¬ copy_at (w_remote w) l);
  cl_removed : ∀ l, copy_at (w_remote w0) l →
    copy_at (w_remote w) l ∨
    ∃ r, expirable (w_db w0) target now r ∧ replica_place place (w_db w0) r = Some l;
  cl_shrinks : ∀ l, copy_at (w_remote w) l → copy_at (w_remote w0) l;
}.

Lemma cleaned_start : cleaned w0.
Proof using Hok. split; auto. by destruct (w_db w0). Qed.

(** Deleting the copy of a replica, whether it succeeds or not. *)
Lemma cleaned_delete d r w x w1 :
  cleaned w → expirable (w_db w0) target now r → db_destinations (w_db w0) !! rp_destination r = Some d →
  delete_revision_replica d r w = (x, w1) →
  cleaned w1 ∧
  (∀ res, x = Ok res → ∀ l, replica_place place (w_db w0) r = Some l → ¬ copy_at (w_remote w1) l).
Proof using Type.
  intros [Hdb Hf Hrows Hrem Hshr] Hr Hd Hm.
  assert (replica_place place (w_db w0) r = Some (place (endpoint d) (rp_remote_path r))) as Hplace
    by (unfold replica_place; by rewrite Hd).
  assert (db_destinations (w_db w) !! rp_destination r = Some d) as Hd' by by rewrite Hdb.
  destruct (remote_only_db _ _ _ _ (delete_revision_replica_remote_only d r) Hm) as (Hdb1 & Hf1 & _).
  destruct (delete_revision_replica_run d r w x w1 Hd' Hm) as (Hgone & Hother & Hsub).
  split; [|intros res Hx l; rewrite Hplace; intros [= <-]; by eapply Hgone]. split.
  - by rewrite Hdb1.
  - by rewrite Hf1.
  - rewrite Hdb1. intros k. destruct (Hrows k) as [?|(r' & ? & ? & ? & Hn)]; [by left|right].
    exists r'. split_and!; [done..|]. intros l Hl Hc%Hsub. by eapply Hn.
  - intros l Hc. destruct (decide (l = place (endpoint d) (rp_remote_path r))) as [->|Hne].
    + right. eauto.
    + rewrite Hother by done. auto.
  - eauto.
Qed.

Lemma cleaned_tombstone r w w1 x :
  cleaned w → expirable (w_db w0) target now r →
  (∀ l, replica_place place (w_db w0) r = Some l → ¬ copy_at (w_remote w) l) →
  on_db (put_replica (tombstone r now)) w = (x, w1) → cleaned w1.
Proof using Hok.
  intros [Hdb Hf Hrows Hrem Hshr] Hr Hgone [= <- <-]. split; try done.
  - simpl. rewrite Hdb. done.
  - simpl. intros k. destruct (decide (k = rp_pk r)) as [->|Hne].
    + right. exists r. rewrite lookup_insert_eq. split_and!; try done.
      apply (expirable_spec _ _ _ _ Hok Hr).
    + rewrite lookup_insert_ne by done. apply Hrows.
Qed.

Lemma delete_copy_of_keeps d p r :
  expirable (w_db w0) target now r → db_destinations (w_db w0) !! rp_destination r = Some d →
  keeps cleaned (delete_copy_of d now p r).
Proof using Hok.
  intros Hr Hd w x w' Hm Hw. unfold delete_copy_of in Hm. rewrite M_bind_run in Hm.
  destruct (delete_revision_replica d r w) as [y w1] eqn:E.
  destruct (cleaned_delete _ _ _ _ _ Hw Hr Hd E) as [Hw1 Hgone].
  destruct y as [res|e]; [|by injection Hm as <- <-].
  rewrite M_bind_run in Hm. cbn [on_db modify] in Hm. injection Hm as <- <-.
  eapply cleaned_tombstone; [exact Hw1|exact Hr|by eapply Hgone|reflexivity].
Qed.

Lemma clean_destination_keeps p d :
  d ∈ locked_destinations (w_db w0) (locked_replicas (w_db w0) (tg_pk target)) →
  keeps cleaned (clean_destination (w_db w0) target now p d).
Proof using Hok.
  intros Hd w x w' Hm Hw. unfold clean_destination in Hm. rewrite lift_bind_run in Hm.
  destruct (expired_at_destination (w_db w0) target now d) as [[ids|]|e] eqn:Ee;
    [|by injection Hm as <- <-..].
  revert Hm Hw. apply keeps_for_fold_in. intros acc k Hk. unfold expire_revision. cbv zeta.
  case_match; [apply keeps_ret|]. case_bool_decide; [apply keeps_ret|].
  apply keeps_bind; [|intros; apply keeps_ret]. apply keeps_for_fold_in.
  intros acc' r [He [Hrk [Hrd Hl]%list_elem_of_filter]%list_elem_of_filter]%list_elem_of_filter.
  unfold locked_destinations in Hd. rewrite elem_of_sort_by, list_elem_of_filter in Hd.
  destruct Hd as [_ Hd]. apply (elem_of_rows_keyed _ _ _ (rt_destinations _ Hok)) in Hd.
  apply delete_copy_of_keeps; [|by rewrite Hrd]. split_and!; [done..|]. exists d, ids.
  split_and!; [by rewrite Hrd|done|by rewrite Hrk].
Qed.
End loop.

Lemma replicas_of_elem db k r :
  keyed rp_pk (db_replicas db) → r ∈ replicas_of db k ↔ db_replicas db !! rp_pk r = Some r ∧ rp_revision r = k.
Proof.
  intros Hk. unfold replicas_of. rewrite elem_of_sort_by, list_elem_of_filter.
  rewrite (elem_of_rows_keyed rp_pk) by done. tauto.
Qed.

Section theorems.
Context `{Externals} `{!Backends} `{!BackendsLaws}.

(** The body, taken apart: the loop, then the rows that have become empty. *)
Lemma remote_cleanup_body_run t now w x w' :
  remote_tables_ok (w_db w) → remote_cleanup_body t now w = (x, w') →
  w_db w' = w_db w ∧ w_remote w' = w_remote w ∧ is_ok x = false ∨
  ∃ target w1, db_targets (w_db w) !! t = Some target ∧ has_active_run (w_db w) t = false ∧
    cleaned w target now w1 ∧ w_remote w' = w_remote w1 ∧ w_files w' = w_files w1 ∧
    ∀ res, x = Ok res → ∃ completed,
      w_db w' = delete_revisions (metadata_revision_ids (w_db w1) (tg_pk target) completed) (w_db w1).
Proof.
  intros Hok Hm. unfold remote_cleanup_body in Hm. rewrite M_bind_run in Hm. unfold get_target, get in Hm.
  destruct (db_targets (w_db w) !! t) as [target|] eqn:Et; [|injection Hm as <- <-; by left].
  rewrite read_bind_run in Hm. unfold Datatypes.id in Hm.
  destruct (has_active_run (w_db w) t) eqn:Ha; [injection Hm as <- <-; by left|]. cbv zeta in Hm.
  right. exists target. rewrite M_bind_run in Hm.
  destruct (for_fold _ no_progress _ w) as [y w1] eqn:E.
  assert (cleaned w target now w1) as Hc.
  { refine (keeps_for_fold_in (cleaned w target now) _ _ _ _ _ _ _ E (cleaned_start w target now Hok)).
    intros p d Hd. by apply clean_destination_keeps. }
  exists w1. destruct y as [p|e]; [|by injection Hm as <- <-].
  destruct (pg_configured_policy_count p =? 0); [by injection Hm as <- <-|].
  rewrite read_bind_run, M_bind_run in Hm. cbn [on_db modify] in Hm. injection Hm as <- <-.
  split_and!; try done. intros res _. by exists (pg_completed_revision_ids p).
Qed.

Lemma execute_remote_run t now w x w' :
  remote_tables_ok (w_db w) → execute_remote_retention_cleanup t now w = (x, w') →
  (is_ok x = false → w_db w' = w_db w) ∧
  (∀ e, x = Err e → ∃ message, e = RemoteRetentionCleanupError message) ∧
  (w_remote w' = w_remote w ∧ is_ok x = false ∨
   ∃ target w1, db_targets (w_db w) !! t = Some target ∧ has_active_run (w_db w) t = false ∧
    cleaned w target now w1 ∧ w_remote w' = w_remote w1 ∧
    ∀ res, x = Ok res → ∃ completed,
      w_db w' = delete_revisions (metadata_revision_ids (w_db w1) t completed) (w_db w1)).
Proof.
  intros Hok Hm. unfold execute_remote_retention_cleanup, try_catch in Hm.
  destruct (atomic _ w) as [y w2] eqn:Ea.
  assert (w2 = w' ∧ is_ok y = is_ok x ∧ (∀ res, x = Ok res → y = Ok res) ∧
    (∀ e, x = Err e → ∃ message, e = RemoteRetentionCleanupError message)) as (-> & Hxy & Hres & He).
  { destruct y as [res|e]; injection Hm as <- <-; [split_and!; (done || by intros ? [= <-])|].
    split_and!; try done. intros e' [= <-].
    destruct e; simpl; try case_bool_decide; eauto. }
  assert (∃ w2, remote_cleanup_body t now (w <| w_depth := S (w_depth w) |>) = (y, w2) ∧
    w_remote w' = w_remote w2 ∧ (is_ok y = true → w_db w' = w_db w2) ∧
    (is_ok y = false → w_db w' = w_db w)) as (w2 & Hb & Hr2 & Hd2 & Hd2').
  { destruct y as [res|e].
    - apply atomic_Ok in Ea as (w2 & Hb & ? & _ & ? & _). by exists w2.
    - apply atomic_Err in Ea as (? & _ & _ & w2 & Hb & _ & ? & _). by exists w2. }
  rewrite <-Hxy. split_and!; [done|done|]. pose (w0 := w <| w_depth := S (w_depth w) |>).
  destruct (remote_cleanup_body_run t now w0 y w2 Hok Hb)
    as [(_ & Hr & Hy)|(target & w1 & Ht & Ha & Hc & Hr & _ & Hdel)].
  { left. split; [by rewrite Hr2, Hr|done]. }
  right. exists target, w1. simpl in Ht, Ha. pose proof (rt_targets _ Hok _ _ Ht) as Hpk.
  split_and!; [done|done|by destruct Hc; split|congruence|].
  intros res Hx. pose proof (Hres _ Hx) as Hy. destruct (Hdel _ Hy) as [completed Hdb].
  exists completed. rewrite <-Hpk, <-Hdb. apply Hd2. by rewrite Hy.
Qed.

(** C21: Whether it succeeds, is refused or fails halfway, the remote cleanup
    of a target deletes only copies that have expired: when a copy is gone, a
    row of an enabled destination points to its place, which says that the
    copy exists or that its upload failed for good; the row's revision is one
    of this target, is not protected and is not kept by the plan of the
    destination's effective retention profile; a newer revision of the target
    has a row at the same destination that says that its copy exists, or that
    its upload failed for good; and no backup of the target was active. *)
Theorem remote_cleanup_safe t now w x w' l :
  remote_tables_ok (w_db w) → execute_remote_retention_cleanup t now w = (x, w') →
  copy_at (w_remote w) l → ¬ copy_at (w_remote w') l →
  has_active_run (w_db w) t = false ∧
  ∃ r rv d target, db_replicas (w_db w) !! rp_pk r = Some r ∧ replica_place place (w_db w) r = Some l ∧
    rp_remote_deleted_at r = None ∧ (copy_available r ∨ upload_leftover r) ∧
    db_destinations (w_db w) !! rp_destination r = Some d ∧ ds_enabled d = true ∧
    db_targets (w_db w) !! t = Some target ∧ expired (w_db w) target now d (rp_revision r) ∧
    db_revisions (w_db w) !! rp_revision r = Some rv ∧ rv_target rv = t ∧ rv_protected rv = false ∧
    ∃ r' rv', db_replicas (w_db w) !! rp_pk r' = Some r' ∧ rp_remote_deleted_at r' = None ∧
      (copy_available r' ∨ upload_leftover r') ∧ rp_destination r' = rp_destination r ∧
      db_revisions (w_db w) !! rp_revision r' = Some rv' ∧ rv_target rv' = t ∧
      (rv_created rv < rv_created rv' ∨ rv_created rv' = rv_created rv ∧ rv_pk rv < rv_pk rv').
Proof.
  intros Hok Hm Hc Hn.
  apply execute_remote_run in Hm as (_ & _ & [[Hr _]|(target & w1 & Ht & Ha & Hcl & Hr & _)]);
    [by rewrite Hr in Hn| |done].
  split; [done|]. rewrite Hr in Hn.
  destruct (cl_removed _ _ _ _ Hcl l Hc) as [?|(r & He & Hl)]; [done|].
  pose proof (rt_targets _ Hok _ _ Ht) as <-.
  destruct (expirable_spec _ _ _ _ Hok He) as (? & ? & ? & (d & ? & ? & ?) & rv & ? & ? & ? & r' & rv' & ?).
  exists r, rv, d, target. split_and!; try done. by exists r', rv'.
Qed.

(** C22: A remote cleanup that raises has changed no row, and raises its own
    error.  One that returns leaves every replica row as it was or as a
    tombstone, with no copy left at its place; a revision goes only
    when no local file and no live or planned copy of it is recorded. *)
Theorem remote_cleanup_effect t now w x w' :
  remote_tables_ok (w_db w) → execute_remote_retention_cleanup t now w = (x, w') →
  match x with
  | Err e => w_db w' = w_db w ∧ ∃ message, e = RemoteRetentionCleanupError message
  | Ok _ =>
      (∀ k r, db_replicas (w_db w) !! k = Some r →
         db_replicas (w_db w') !! k = Some r ∨
         db_replicas (w_db w') !! k = Some (tombstone r now)
           ∧ (∀ l, replica_place place (w_db w) r = Some l → ¬ copy_at (w_remote w') l) ∨
         db_replicas (w_db w') !! k = None ∧ db_revisions (w_db w') !! rp_revision r = None) ∧
      (∀ k rv, db_revisions (w_db w) !! k = Some rv → db_revisions (w_db w') !! k = None →
         rv_target rv = t ∧ locally_available (w_db w) rv = false ∧
         ∀ j r, db_replicas (w_db w) !! j = Some r → rp_revision r = k →
           copy_recorded r = false ∨
           (∀ l, replica_place place (w_db w) r = Some l → ¬ copy_at (w_remote w') l))
  end.
Proof.
  intros Hok Hm. apply execute_remote_run in Hm as (Hdb & He & Hcl); [|done].
  destruct x as [res|e]; [|split; [by apply Hdb|by apply He]].
  destruct Hcl as [[_ [=]]|(target & w1 & Ht & Ha & Hc & Hr & Hdel)].
  destruct (Hdel _ eq_refl) as [completed Hdb']. set (ids := metadata_revision_ids _ _ _) in Hdb'.
  pose proof (f_equal db_revisions (cl_db _ _ _ _ Hc)) as Hrev1. simpl in Hrev1.
  pose proof (f_equal db_artifacts (cl_db _ _ _ _ Hc)) as Hart1. simpl in Hart1.
  assert (keyed rp_pk (db_replicas (w_db w1))) as Hk1.
  { intros k r Hk. destruct (cl_rows _ _ _ _ Hc k) as [E|(r0 & H0' & _ & H1' & _)].
    - rewrite E in Hk. by apply (rt_replicas _ Hok).
    - rewrite H1' in Hk. injection Hk as <-. simpl. by apply (rt_replicas _ Hok). }
  rewrite Hdb', Hr. split.
  - intros k r Hk.
    assert (∀ r1, db_replicas (w_db w1) !! k = Some r1 → rp_revision r1 = rp_revision r →
      db_replicas (delete_revisions ids (w_db w1)) !! k = Some r1 ∨
      db_replicas (delete_revisions ids (w_db w1)) !! k = None ∧
      db_revisions (delete_revisions ids (w_db w1)) !! rp_revision r = None) as Hcase.
    { intros r1 H1' Hrev. destruct (decide (rp_revision r ∈ ids)) as [Hin|Hin].
      - right. split; [|by apply delete_revisions_gone]. apply eq_None_not_Some. intros [r2 H2'].
        apply delete_revisions_replica in H2' as [H2' Hn]. rewrite H1' in H2'. injection H2' as <-.
        by rewrite Hrev in Hn.
      - left. apply delete_revisions_replica. by rewrite Hrev. }
    destruct (cl_rows _ _ _ _ Hc k) as [E|(r0 & H0' & _ & H1' & Hgone)].
    + rewrite Hk in E. destruct (Hcase r E eq_refl) as [?|?]; auto.
    + rewrite Hk in H0'. injection H0' as <-. destruct (Hcase _ H1' eq_refl) as [?|?]; auto.
  - intros k rv Hk Hgone.
    assert (k ∈ ids) as Hin.
    { destruct (decide (k ∈ ids)); [done|]. rewrite <-Hrev1 in Hk.
      by rewrite (delete_revisions_kept _ _ _ _ Hk) in Hgone. }
    unfold ids, metadata_revision_ids in Hin.
    apply elem_of_list_to_set, list_elem_of_fmap in Hin
      as (rv' & -> & [(_ & Hloc & Hrec) Hrv']%list_elem_of_filter).
    apply elem_of_revisions_of in Hrv' as [Hrv' Ht']; [|rewrite Hrev1; apply Hok].
    rewrite Hrev1, Hk in Hrv'. injection Hrv' as <-.
    split_and!; [done|by unfold locally_available, artifacts_of in *; rewrite <-Hart1|].
    intros j r Hj Hrj. destruct (cl_rows _ _ _ _ Hc j) as [E|(r0 & H0' & _ & _ & Hn)].
    + left. apply not_true_is_false. intros Hrec'. rewrite Hj in E.
      apply not_true_iff_false in Hrec. apply Hrec, existsb_exists. exists r.
      split; [|done]. apply list_elem_of_In, replicas_of_elem; [done|].
      by rewrite (Hk1 _ _ E).
    + right. rewrite Hj in H0'. by injection H0' as <-.
Qed.
End theorems.

(** ** Two revisions with a copy each, and a policy that keeps one *)
Module RemoteRetentionExamples.
Import WorldExamples MemoryStorage MemoryDestination.
#[local] Existing Instance memory.
#[local] Existing Instance memory_backends.
#[local] Existing Instance memory_destination_laws.

Definition policy : RemoteRetentionPolicy :=
  {| rpol_pk := 6; rpol_keep_all_days := 0; rpol_daily_days := 0; rpol_weekly_weeks := 0;
     rpol_monthly_months := 0; rpol_minimum_changed_revisions := 1;
     rpol_max_copies_per_target := 1 |}.
Definition copy (pk revision : Z) (path : string) : RevisionReplica :=
  {| rp_pk := pk; rp_revision := revision; rp_destination := 5; rp_status := RP_SUCCESS;
     rp_attempts := 1; rp_queued_at := 0; rp_started_at := Some 0; rp_finished_at := Some 1;
     rp_next_retry_at := None; rp_bytes_transferred := 3; rp_remote_path := path;
     rp_remote_available := true; rp_remote_deleted_at := None; rp_error_code := "";
     rp_error_message := ""; rp_job_id := None |}.
Definition db (run : gmap Z BackupRun) : DB :=
  empty_db <| db_remote_policies := {[6 := policy]} |>
           <| db_destinations := {[5 := (ftp 5 "/b") <| ds_remote_retention_policy := Some 6 |>]} |>
           <| db_targets := {[3 := ChainExamples.target]} |>
           <| db_revisions := {[1 := ChainExamples.revision 1 10 None;
                                2 := ChainExamples.revision 2 20 (Some 1)]} |>
           <| db_replicas := {[7 := copy 7 1 "/b/1"; 8 := copy 8 2 "/b/2"]} |>
           <| db_runs := run |>.
Definition start (run : gmap Z BackupRun) : World :=
  {| w_db := db run; w_hooks := []; w_depth := O; w_committed := [];
     w_files := ∅ : @files memory; w_clock := 0;
     w_remote := {[ ("5", "/b/1"); ("5", "/b/2") ]} : @remote memory |}.
Definition later : Z := 100 * us_per_day.
Abbreviation cleanup := (execute_remote_retention_cleanup 3 later (start ∅)).

Lemma remote_db_ok : remote_tables_ok (db ∅).
Proof.
  split; simpl.
  1, 2: apply keyed_insert; [done|].
  1-4: by intros k r [<- <-]%lookup_singleton_Some.
  by intros k p [<- <-]%lookup_singleton_Some.
Qed.

(** The older copy is gone, and with it the revision, which had no file. *)
Lemma remote_cleanup_safe_witness :
  ¬ memory_copy_at (w_remote cleanup.2) ("5", "/b/1") ∧ memory_copy_at (w_remote cleanup.2) ("5", "/b/2") ∧
  has_active_run (db ∅) 3 = false.
Proof.
  assert (bool_decide (("5", "/b/1") ∈ (w_remote cleanup.2 : copies)) = false) as E1
    by (vm_compute; reflexivity).
  assert (bool_decide (("5", "/b/2") ∈ (w_remote cleanup.2 : copies)) = true) as E2
    by (vm_compute; reflexivity).
  apply bool_decide_eq_false in E1. apply bool_decide_eq_true in E2. split_and!; [exact E1|exact E2|].
  refine (proj1 (remote_cleanup_safe 3 later (start ∅) cleanup.1 cleanup.2 ("5", "/b/1") remote_db_ok
    (surjective_pairing _) _ E1)).
  change (("5", "/b/1") ∈ ({[ ("5", "/b/1"); ("5", "/b/2") ]} : copies)). set_solver.
Defined.

Lemma remote_cleanup_effect_witness :
  is_ok cleanup.1 = true ∧ db_revisions (w_db cleanup.2) !! 1 = None ∧
  locally_available (db ∅) (ChainExamples.revision 1 10 None) = false.
Proof.
  assert (is_ok cleanup.1 = true) as Hok by (vm_compute; reflexivity).
  assert (db_revisions (w_db cleanup.2) !! 1 = None) as Hgone by (vm_compute; reflexivity).
  split_and!; [exact Hok|exact Hgone|].
  pose proof (remote_cleanup_effect 3 later (start ∅) cleanup.1 cleanup.2 remote_db_ok
    (surjective_pairing _)) as H.
  destruct cleanup.1 as [res|e]; [|discriminate Hok].
  exact (proj1 (proj2 (proj2 H 1 (ChainExamples.revision 1 10 None) eq_refl Hgone))).
Defined.

(** A newer revision whose upload failed for good counts as the latest copy:
    the only copy there is expires. *)
Definition leftover : RevisionReplica :=
  (copy 8 2 "/b/2") <| rp_status := RP_FAILED |> <| rp_remote_available := false |>.
Definition last_usable : World :=
  (start ∅) <| w_db := (db ∅) <| db_replicas := {[7 := copy 7 1 "/b/1"; 8 := leftover]} |> |>
            <| w_remote := ({[ ("5", "/b/1") ]} : @remote memory) |>.
Example last_usable_copy_expires :
  copy_available (copy 7 1 "/b/1") ∧ ¬ copy_available leftover ∧
  is_ok (execute_remote_retention_cleanup 3 later last_usable).1 = true ∧
  bool_decide (w_remote (execute_remote_retention_cleanup 3 later last_usable).2 = (∅ : copies)) = true.
Proof.
  split_and!; [done..|by intros [[=] _]|vm_compute; reflexivity|vm_compute; reflexivity].
Qed.
End RemoteRetentionExamples.
