(* ===== verification/RevisionDeletion.v ===== *)
(** * Deleting one revision everywhere: [services/revision_deletion.py]

    The files of a revision are quarantined, its remote copies deleted, the
    chain linked again and the row removed, in one transaction; then the
    quarantine is purged.  A failure restores the files and the rows. *)

From Stdlib Require Import ZArith Lia.
From stdpp Require Import base gmap sets list strings sorting pretty.
From S2P Require Import Prelude Strings Hashing Calendar Models World DriverSelection.
From S2P Require Import RevisionChain Deletion Storage Destination Staging Repository.
From S2P Require Import RetentionCleanup RemoteRetention.
#[local] Open Scope string_scope.
#[local] Open Scope list_scope.
#[local] Open Scope Z_scope.

(* src: services/revision_deletion.py 37 48 RevisionDeletionSummary *)
Record RevisionDeletionSummary := {
  rds_revision_id : Z;
  rds_artifact_count : Z;
  rds_artifact_bytes : Z;
  rds_local_file_count : Z;
  rds_missing_local_file_count : Z;
  rds_replica_count : Z;
  rds_remote_file_count : Z;
  rds_missing_remote_file_count : Z;
  rds_detached_run_count : Z;
  rds_quarantine_purge_failures : Z;
}.
#[export] Instance eta_RevisionDeletionSummary : Eta RevisionDeletionSummary := λ r,
  {| rds_revision_id := rds_revision_id r; rds_artifact_count := rds_artifact_count r;
     rds_artifact_bytes := rds_artifact_bytes r; rds_local_file_count := rds_local_file_count r;
     rds_missing_local_file_count := rds_missing_local_file_count r;
     rds_replica_count := rds_replica_count r; rds_remote_file_count := rds_remote_file_count r;
     rds_missing_remote_file_count := rds_missing_remote_file_count r;
     rds_detached_run_count := rds_detached_run_count r;
     rds_quarantine_purge_failures := rds_quarantine_purge_failures r |}.

(** The row points to a copy that may exist. *)
(* src: services/revision_deletion.py 169 173 delete_config_revision_everywhere *)
Definition live_copy (r : RevisionReplica) : bool :=
  bool_decide (rp_remote_deleted_at r = None)
  && (rp_remote_available r || negb (bool_decide (rp_remote_path r = ""))).

(* src: services/revision_deletion.py 65 92 _validate_replicas *)
Definition validate_replica (replica : RevisionReplica) (destination : BackupDestination)
    : result unit :=
  if bool_decide (rp_status replica ∈ [RP_QUEUED; RP_RUNNING])
     || bool_decide (rp_status replica = RP_FAILED)
        && bool_decide (is_Some (rp_next_retry_at replica))
  then Err (RevisionDeletionError
    "The revision has an active or scheduled remote transfer and cannot be deleted.")
  else if negb (live_copy replica) then Ok tt
  else if negb (is_replicated (ds_protocol destination))
  then Err (RevisionDeletionError
    "The revision has an external copy which this version cannot remove safely.")
  else if negb (ds_enabled destination)
  then Err (RevisionDeletionError
    "A remote storage containing this revision is disabled. Enable it before deleting the revision so its copy can be removed safely.")
  else if bool_decide (rp_remote_path replica = "")
  then Err (RevisionDeletionError
    "A remote copy has inconsistent path metadata. The revision was not deleted.")
  else Ok tt.

(** What is locked and checked before anything is touched. *)
Record DeletionPlan := {
  dl_target : BackupTarget;
  dl_revision : ConfigRevision;
  dl_artifacts : list ConfigArtifact;
  dl_replicas : list (RevisionReplica * BackupDestination);
}.

(* src: services/revision_deletion.py 111 153 delete_config_revision_everywhere *)
Definition plan_deletion (db : DB) (revision_id : Z) : result DeletionPlan :=
  revision ← require (DoesNotExist "ConfigRevision") (db_revisions db !! revision_id);
  target ← require (DoesNotExist "BackupTarget") (db_targets db !! rv_target revision);
  if rv_protected revision then Err (RevisionDeletionError
    "The revision is protected. Unprotect it before deleting it.")
  else if has_active_run db (tg_pk target) then Err (RevisionDeletionError
    "The target has an active backup run. Wait for it to finish before deleting the revision.")
  else
    let artifacts := sort_by (key_leb ar_pk ar_pk)
      (filter (λ a, ar_revision a = revision_id) (rows (db_artifacts db))) in
    replicas ← mapM (λ r, d ← require KeyError (db_destinations db !! rp_destination r); Ok (r, d))
                 (replicas_of db revision_id);
    _ ← mapM (λ rd, validate_replica rd.1 rd.2) replicas;
    Ok {| dl_target := target; dl_revision := revision; dl_artifacts := artifacts;
          dl_replicas := replicas |}.

Section deletion.
Context `{Externals} `{!ConfigStorage} `{!Backends}.
(** [uuid4().hex] *)
Context (uuid_hex : string).

(** The counters: copies, files, files already missing. *)
(* src: services/revision_deletion.py 166 183 delete_config_revision_everywhere *)
Definition delete_remote_copies (replicas : list (RevisionReplica * BackupDestination))
    : M World (Z * Z * Z) :=
  for_fold replicas (0, 0, 0) (λ counts rd,
    if negb (live_copy rd.1) then mret counts
    else
      result ← try_catch (delete_revision_replica rd.2 rd.1) (λ e,
        match e with
        | DestinationError error_code _ => raise (RevisionDeletionError
            ("A remote copy could not be removed safely (" +:+ error_code
             +:+ "). The revision was not deleted."))
        | e => raise e
        end);
      let '(copies, files, missing) := counts in
      mret (copies + 1, files + dr_deleted_file_count result,
            missing + dr_missing_file_count result)).

(** The transaction. *)
(* src: services/revision_deletion.py 106 205 delete_config_revision_everywhere *)
Definition deletion_body (revision_id : Z) : M SFrame RevisionDeletionSummary :=
  let namespace := "revision-delete-" +:+ pretty revision_id +:+ "-" +:+ uuid_hex in
  db ← in_service (read id);
  plan ← lift (plan_deletion db revision_id);
  missing_local ← stage_artifacts namespace (dl_artifacts plan);
  counts ← in_service (delete_remote_copies (dl_replicas plan));
  let revision_pk := rv_pk (dl_revision plan) in
  _ ← in_service (relink_kept_revisions (dl_target plan)
        (revisions_of db (tg_pk (dl_target plan))) {[ revision_pk ]});
  let detached := length (filter (λ r, run_revision r = Some revision_pk) (rows (db_runs db))) in
  _ ← in_service (on_db (delete_revisions {[ revision_pk ]}));
  local ← gets (λ f, length (sf_staged f));
  mret {| rds_revision_id := revision_pk;
          rds_artifact_count := Z.of_nat (length (dl_artifacts plan));
          rds_artifact_bytes := foldr Z.add 0 (map ar_size (dl_artifacts plan));
          rds_local_file_count := Z.of_nat local;
          rds_missing_local_file_count := missing_local;
          rds_replica_count := counts.1.1; rds_remote_file_count := counts.1.2;
          rds_missing_remote_file_count := counts.2;
          rds_detached_run_count := Z.of_nat detached; rds_quarantine_purge_failures := 0 |}.

Definition deletion_not_restored : string :=
  "Revision deletion failed and quarantined local files could not be fully restored.".

(* src: services/revision_deletion.py 206 224 delete_config_revision_everywhere *)
Definition deletion_error (restore_failed : bool) (e : exn) : exn :=
  if restore_failed then RevisionDeletionError deletion_not_restored
  else match e with
       | RevisionDeletionError _ => e
       | DoesNotExist model =>
           if bool_decide (model = "ConfigRevision")
           then RevisionDeletionError "The revision no longer exists."
           else RevisionDeletionError "Revision deletion failed before commit."
       | StorageError _ => RevisionDeletionError
           "Stored configuration files could not be quarantined. Nothing was deleted."
       | _ => RevisionDeletionError "Revision deletion failed before commit."
       end.

(* src: services/revision_deletion.py 95 249 delete_config_revision_everywhere *)
Definition delete_config_revision_everywhere (revision_id : Z) : M World RevisionDeletionSummary :=
  with_quarantine (deletion_body revision_id) deletion_error
    (λ summary failures, summary <| rds_quarantine_purge_failures := failures |>).

(** ** What the body does *)
Context `{HS : !ConfigStorageLaws} `{!BackendsLaws}.

(** Copies only go, and only those the rows point to; all of these are gone
    at the end. *)
Record copies_deleted (l : list (RevisionReplica * BackupDestination)) (w w' : World) : Prop := {
  cd_db : w_db w' = w_db w;
  cd_files : w_files w' = w_files w;
  cd_removed : ∀ c, copy_at (w_remote w) c → copy_at (w_remote w') c ∨
    ∃ r d, (r, d) ∈ l ∧ live_copy r = true ∧ place (endpoint d) (rp_remote_path r) = c;
  cd_shrinks : ∀ c, copy_at (w_remote w') c → copy_at (w_remote w) c;
}.

Lemma copies_deleted_refl l w w' :
  w_db w' = w_db w → w_files w' = w_files w → w_remote w' = w_remote w → copies_deleted l w w'.
Proof. intros ?? Hr. split; rewrite ?Hr; auto. Qed.

Lemma delete_remote_copies_run l : ∀ counts w x w',
  for_fold l counts (λ counts rd,
    if negb (live_copy rd.1) then mret counts
    else
      result ← try_catch (delete_revision_replica rd.2 rd.1) (λ e,
        match e with
        | DestinationError error_code _ => raise (RevisionDeletionError
            ("A remote copy could not be removed safely (" +:+ error_code
             +:+ "). The revision was not deleted."))
        | e => raise e
        end);
      let '(copies, files, missing) := counts in
      mret (copies + 1, files + dr_deleted_file_count result,
            missing + dr_missing_file_count result)) w = (x, w') →
  (∀ r d, (r, d) ∈ l → db_destinations (w_db w) !! rp_destination r = Some d) →
  copies_deleted l w w' ∧
  (is_ok x = true → ∀ r d, (r, d) ∈ l → live_copy r = true →
     ¬ copy_at (w_remote w') (place (endpoint d) (rp_remote_path r))).
Proof.
  induction l as [|[r d] l IH]; intros counts w x w' Hm Hall; simpl in Hm.
  { injection Hm as <- <-. split; [by apply copies_deleted_refl|]. by intros _ r d ?%elem_of_nil. }
  rewrite M_bind_run in Hm. destruct (live_copy r) eqn:Hlive; cbn [negb] in Hm.
  2: { simpl in Hm. destruct (IH _ _ _ _ Hm) as [[Hdb Hf Hrem Hs] Hgone].
       { intros r' d' Hin. apply Hall. by right. }
       split.
       - split; try done. intros c Hc. destruct (Hrem c Hc) as [?|(r' & d' & ? & ?)]; [by left|].
         right. exists r', d'. split; [by right|done].
       - intros Hx r' d' [[= -> ->]|Hin]%elem_of_cons Hl; [congruence|]. by eapply Hgone. }
  rewrite M_bind_run in Hm. unfold try_catch in Hm.
  destruct (delete_revision_replica d r w) as [y w1] eqn:E.
  destruct (remote_only_db _ _ _ _ (delete_revision_replica_remote_only d r) E) as (Hdb1 & Hf1 & _).
  destruct (delete_revision_replica_run d r w y w1 (Hall r d (list_elem_of_here _ _)) E) as (Hgone1 & Hother1 & Hs1).
  assert (∀ r' d', (r', d') ∈ l → db_destinations (w_db w1) !! rp_destination r' = Some d') as Hall1.
  { intros r' d' Hin. rewrite Hdb1. apply Hall. by right. }
  assert (∀ c, copy_at (w_remote w) c →
    copy_at (w_remote w1) c ∨ place (endpoint d) (rp_remote_path r) = c) as Hstep.
  { intros c Hc. destruct (decide (c = place (endpoint d) (rp_remote_path r))) as [->|Hne];
      [by right|left]. by apply Hother1. }
  destruct y as [res|e].
  - destruct counts as [[c1 c2] c3]. simpl in Hm.
    destruct (IH _ _ _ _ Hm Hall1) as [[Hdb Hf Hrem Hs] Hgone]. split.
    + split; [congruence|congruence| |eauto]. intros c Hc.
      destruct (Hstep c Hc) as [Hc1|<-].
      * destruct (Hrem c Hc1) as [?|(r' & d' & ? & ?)]; [by left|].
        right. exists r', d'. split; [by right|done].
      * right. exists r, d. split_and!; [by left|done..].
    + intros Hx r' d' [[= -> ->]|Hin]%elem_of_cons Hl; [|by eapply Hgone].
      intros Hc%Hs. by eapply Hgone1.
  - assert (x = Err (match e with DestinationError error_code _ => RevisionDeletionError
        ("A remote copy could not be removed safely (" +:+ error_code
         +:+ "). The revision was not deleted.") | e => e end) ∧ w' = w1) as [-> ->]
      by (destruct e; simpl in Hm; by injection Hm as <- <-).
    split; [|done]. split; [done|done| |done]. intros c Hc.
    destruct (Hstep c Hc) as [?|<-]; [by left|]. right. exists r, d. split_and!; [by left|done..].
Qed.

Lemma mapM_pairs (f : RevisionReplica → option BackupDestination) l ps :
  mapM (λ r, d ← require KeyError (f r); Ok (r, d)) l = Ok ps →
  ∀ r, r ∈ l ↔ ∃ d, (r, d) ∈ ps ∧ f r = Some d.
Proof.
  intros Hl%mapM_Ok. induction Hl as [|r [r' d'] l ps Hr Hl IH]; intros x.
  { split; [by intros ?%elem_of_nil|by intros (? & ?%elem_of_nil & _)]. }
  apply result_bind_Ok in Hr as (d & Hd & [= <- <-]).
  destruct (f r) as [d0|] eqn:Ef; [|done]. injection Hd as ->. rewrite elem_of_cons, IH. split.
  - intros [->|(d' & ? & ?)]; [exists d; split; [by left|done]|exists d'; split; [by right|done]].
  - intros (d' & [[= -> ->]|?]%elem_of_cons & ?); [by left|right; eauto].
Qed.

Lemma plan_deletion_inv db id plan :
  plan_deletion db id = Ok plan →
  db_revisions db !! id = Some (dl_revision plan) ∧ rv_protected (dl_revision plan) = false ∧
  db_targets db !! rv_target (dl_revision plan) = Some (dl_target plan) ∧
  has_active_run db (tg_pk (dl_target plan)) = false ∧
  (∀ a, a ∈ dl_artifacts plan ↔ a ∈ rows (db_artifacts db) ∧ ar_revision a = id) ∧
  (∀ r, r ∈ replicas_of db id ↔ ∃ d, (r, d) ∈ dl_replicas plan ∧
     db_destinations db !! rp_destination r = Some d) ∧
  (∀ r d, (r, d) ∈ dl_replicas plan → validate_replica r d = Ok tt).
Proof.
  unfold plan_deletion. intros (rv & Hrv & Hp)%result_bind_Ok.
  destruct (db_revisions db !! id) as [rv'|]; [|done]. injection Hrv as ->.
  apply result_bind_Ok in Hp as (t & Ht & Hp).
  destruct (db_targets db !! rv_target rv) as [t'|] eqn:Et; [|done]. injection Ht as ->.
  destruct (rv_protected rv) eqn:Hprot; [done|]. destruct (has_active_run db (tg_pk t)) eqn:Ha; [done|].
  cbv zeta in Hp. apply result_bind_Ok in Hp as (reps & Hreps & Hp).
  apply result_bind_Ok in Hp as (us & Hval%mapM_Ok & [= <-]). simpl. split_and!; try done.
  - intros a. rewrite elem_of_sort_by, list_elem_of_filter. tauto.
  - by apply mapM_pairs.
  - intros r d (i & Hi)%list_elem_of_lookup.
    destruct (Forall2_lookup_l _ _ _ _ _ Hval Hi) as ([] & _ & Hv). exact Hv.
Qed.

Lemma plan_destinations db id plan r d :
  plan_deletion db id = Ok plan → (r, d) ∈ dl_replicas plan →
  db_destinations db !! rp_destination r = Some d.
Proof.
  unfold plan_deletion. intros (rv & _ & Hp)%result_bind_Ok Hin.
  apply result_bind_Ok in Hp as (t & _ & Hp). destruct (rv_protected rv); [done|].
  destruct (has_active_run db (tg_pk t)); [done|]. cbv zeta in Hp.
  apply result_bind_Ok in Hp as (reps & Hreps%mapM_Ok & Hp).
  apply result_bind_Ok in Hp as (us & _ & [= <-]). simpl in Hin.
  apply list_elem_of_lookup in Hin as [i Hi].
  destruct (Forall2_lookup_r _ _ _ _ _ Hreps Hi) as (r0 & _ & E).
  apply result_bind_Ok in E as (d0 & Hd0 & [= -> ->]). by destruct (db_destinations db !! _); [injection Hd0 as ->|].
Qed.

(** The database after the body. *)
Definition deleted (plan : DeletionPlan) (db db' : DB) : Prop :=
  ∃ db1, relinked db db1 ∧ db' = delete_revisions {[ rv_pk (dl_revision plan) ]} db1.

Lemma deletion_body_run id w0 r f :
  storage_ok (w_files w0) →
  deletion_body id {| sf_world := w0; sf_staged := [] |} = (r, f) →
  storage_ok (w_files (sf_world f)) ∧
  moved (sf_staged f) (object (w_files w0)) (object (w_files (sf_world f))) ∧
  (∀ l, copy_at (w_remote w0) l → copy_at (w_remote (sf_world f)) l ∨
     ∃ plan r d, plan_deletion (w_db w0) id = Ok plan ∧ (r, d) ∈ dl_replicas plan ∧
       live_copy r = true ∧ place (endpoint d) (rp_remote_path r) = l) ∧
  ∀ summary, r = Ok summary → ∃ plan, plan_deletion (w_db w0) id = Ok plan ∧
    deleted plan (w_db w0) (w_db (sf_world f)) ∧
    (∀ k, k ∈ (sf_staged f).*1 → k ∈ map ar_storage_key (dl_artifacts plan)) ∧
    (∀ r d, (r, d) ∈ dl_replicas plan → live_copy r = true →
       ¬ copy_at (w_remote (sf_world f)) (place (endpoint d) (rp_remote_path r))) ∧
    rds_local_file_count summary + rds_missing_local_file_count summary
      = rds_artifact_count summary.
Proof.
  intros Hok Hm. unfold deletion_body in Hm. cbv zeta in Hm.
  unfold in_service at 1 in Hm. rewrite M_bind_run in Hm. simpl in Hm.
  rewrite lift_bind_run in Hm. unfold Datatypes.id in Hm.
  destruct (plan_deletion (w_db w0) id) as [plan|e] eqn:Ep.
  2: { injection Hm as <- <-. split_and!; [done|by constructor|auto|done]. }
  rewrite M_bind_run in Hm. unfold stage_artifacts in Hm.
  set (f0 := _ <| sf_world := w0 |>) in Hm.
  destruct (for_fold (dl_artifacts plan) 0 _ f0) as [y f1] eqn:Es.
  pose proof (stage_artifacts_remote _ _ _ _ _ _ Es) as Hrem1.
  apply (stage_artifacts_run _ _ _ _ _ _ (object (w_files w0))) in Es
    as (Hdb & Hok1 & Hmv & staged & Hst & Hk & Hc); [|done|by constructor].
  change (w_remote (sf_world f1) = w_remote w0) in Hrem1. change (w_db (sf_world f1) = w_db w0) in Hdb.
  simpl in Hst. subst staged. destruct y as [missing|e].
  2: { injection Hm as <- <-. rewrite Hrem1. split_and!; auto; done. }
  destruct (Hc missing eq_refl) as [_ Hcount]. clear Hc. rewrite M_bind_run in Hm.
  unfold in_service at 1, delete_remote_copies in Hm.
  destruct (for_fold (dl_replicas plan) (0, 0, 0) _ (sf_world f1)) as [y w2] eqn:Er.
  apply delete_remote_copies_run in Er as [[Hdb2 Hf2 Hrm2 _] Hgone2].
  2: { rewrite Hdb. intros r' d'. apply (plan_destinations _ _ _ _ _ Ep). }
  rewrite Hrem1 in Hrm2. rewrite <-Hf2 in Hok1, Hmv.
  destruct y as [counts|e].
  2: { injection Hm as <- <-. split_and!; [done|done| |done].
       intros l Hl. destruct (Hrm2 l Hl) as [?|(r & d & ?)]; [by left|]. right. eauto. }
  specialize (Hgone2 eq_refl). rewrite M_bind_run in Hm. unfold in_service at 1 in Hm. simpl in Hm.
  destruct (relink_kept_revisions _ _ _ w2) as [rl w3] eqn:El.
  apply relink_keeps_links in El as (Hlink & Hf3 & Hr3). rewrite Hdb2, Hdb in Hlink.
  assert (∀ l, copy_at (w_remote w0) l → copy_at (w_remote w3) l ∨
     ∃ plan', Ok plan = Ok plan' ∧ ∃ r d, (r, d) ∈ dl_replicas plan' ∧
       live_copy r = true ∧ place (endpoint d) (rp_remote_path r) = l) as Hrm3.
  { rewrite Hr3. intros l Hl. destruct (Hrm2 l Hl) as [?|?]; [by left|]. right. eauto. }
  rewrite <-Hf3 in Hok1, Hmv. destruct rl as [u|e]; injection Hm as <- <-; simpl; split_and!; try done.
  1, 3: intros l Hl; destruct (Hrm3 l Hl) as [?|(p & [= <-] & r & d & ?)]; [by left|right; eauto].
  intros summary [= <-]. exists plan. simpl. split_and!; try done.
  - by exists (w_db w3).
  - by rewrite Hr3.
  - lia.
Qed.

Lemma deletion_only_stages id w :
  storage_ok (w_files w) → only_stages (deletion_body id) w.
Proof.
  intros Hok w0 r f Hd Hf Hb. rewrite <-Hf in Hok.
  apply deletion_body_run in Hb as (? & ? & _); [|done]. by rewrite <-Hf.
Qed.

(** The rows of the plan are the rows of the revision. *)
Lemma plan_replica_rows db id plan r d :
  keyed rp_pk (db_replicas db) → plan_deletion db id = Ok plan → (r, d) ∈ dl_replicas plan →
  db_replicas db !! rp_pk r = Some r ∧ rp_revision r = id.
Proof.
  intros Hk Hp Hin. apply replicas_of_elem; [done|]. unfold plan_deletion in Hp.
  apply result_bind_Ok in Hp as (rv & _ & Hp). apply result_bind_Ok in Hp as (t & _ & Hp).
  destruct (rv_protected rv); [done|]. destruct (has_active_run db (tg_pk t)); [done|].
  cbv zeta in Hp. apply result_bind_Ok in Hp as (reps & Hreps & Hp).
  apply result_bind_Ok in Hp as (us & _ & [= <-]). simpl in Hin.
  apply mapM_Ok in Hreps. apply list_elem_of_lookup in Hin as [i Hi].
  destruct (Forall2_lookup_r _ _ _ _ _ Hreps Hi) as (r0 & Hr0 & E).
  apply result_bind_Ok in E as (d0 & _ & [= -> _]). by eapply list_elem_of_lookup_2.
Qed.

Lemma validate_replica_idle r d : validate_replica r d = Ok tt → transfer_planned r = false.
Proof. unfold validate_replica, transfer_planned. by destruct (_ || _). Qed.

(** What the tables hold after the body. *)
Lemma deleted_rows plan db db' (id := rv_pk (dl_revision plan)) :
  deleted plan db db' →
  db_revisions db' !! id = None ∧
  (∀ k a, db_artifacts db' !! k = Some a ↔ db_artifacts db !! k = Some a ∧ ar_revision a ≠ id) ∧
  (∀ k r, db_replicas db' !! k = Some r ↔ db_replicas db !! k = Some r ∧ rp_revision r ≠ id) ∧
  (∀ k r, db_runs db !! k = Some r → db_runs db' !! k = Some (run_without {[ id ]} r)) ∧
  (∀ k, k ≠ id → unlinked <$> db_revisions db' !! k = unlinked <$> db_revisions db !! k).
Proof.
  intros (db1 & (Hdb & Hrev & _) & ->). fold id.
  pose proof (f_equal db_artifacts Hdb) as Harts. pose proof (f_equal db_replicas Hdb) as Hreps.
  pose proof (f_equal db_runs Hdb) as Hruns. simpl in Harts, Hreps, Hruns. split_and!.
  - apply delete_revisions_gone. set_solver.
  - intros k a. rewrite delete_revisions_artifact, Harts. set_solver.
  - intros k r. rewrite delete_revisions_replica, Hreps. set_solver.
  - intros k r Hr. simpl. by rewrite lookup_fmap, Hruns, Hr.
  - intros k Hk. transitivity (unlinked <$> db_revisions db1 !! k).
    + destruct (db_revisions db1 !! k) as [r|] eqn:E.
      * rewrite (delete_revisions_kept _ _ _ _ E) by set_solver. done.
      * simpl. by rewrite lookup_fmap, map_lookup_filter_None_2 by auto.
    + by rewrite <-!lookup_fmap, Hrev.
Qed.

(** C23: Deleting a revision that fails, at whatever step, raises a
    [RevisionDeletionError] and leaves every row as it was, and, unless the
    message says that files could not be restored, every stored object too;
    and whether it fails or not, no copy is touched but those at the places
    that the rows of this very revision point to. *)
Theorem revision_deletion_confined id w x w' :
  storage_ok (w_files w) → keyed rp_pk (db_replicas (w_db w)) →
  delete_config_revision_everywhere id w = (x, w') →
  (∀ e, x = Err e → w_db w' = w_db w ∧ ∃ message, e = RevisionDeletionError message ∧
     (message ≠ deletion_not_restored → ∀ l, object (w_files w') l = object (w_files w) l)) ∧
  (∀ l, copy_at (w_remote w) l → copy_at (w_remote w') l ∨
     ∃ r, db_replicas (w_db w) !! rp_pk r = Some r ∧ rp_revision r = id ∧
       rp_remote_deleted_at r = None ∧ replica_place place (w_db w) r = Some l).
Proof.
  intros Hok Hkey Hm.
  assert (∀ w0 y f, w_db w0 = w_db w → w_files w0 = w_files w → w_remote w0 = w_remote w →
    deletion_body id {| sf_world := w0; sf_staged := [] |} = (y, f) →
    w_remote w' = w_remote (sf_world f) →
    ∀ l, copy_at (w_remote w) l → copy_at (w_remote w') l ∨
     ∃ r, db_replicas (w_db w) !! rp_pk r = Some r ∧ rp_revision r = id ∧
       rp_remote_deleted_at r = None ∧ replica_place place (w_db w) r = Some l) as Hcopies.
  { intros w0 y f Hd Hf Hr Hb Hr' l Hc. rewrite Hr'.
    apply deletion_body_run in Hb as (_ & _ & Hrem & _); [|by rewrite Hf].
    rewrite Hr, Hd in Hrem. destruct (Hrem l Hc) as [?|(plan & r & d & Hp & Hin & Hl & <-)];
      [by left|right]. exists r. pose proof (plan_destinations _ _ _ _ _ Hp Hin) as Hdest.
    assert (replica_place place (w_db w) r = Some (place (endpoint d) (rp_remote_path r)))
      by (unfold replica_place; by rewrite Hdest).
    destruct (plan_replica_rows _ _ _ _ _ Hkey Hp Hin). unfold live_copy in Hl.
    apply andb_true_iff in Hl as [Hl%bool_decide_eq_true _]. done. }
  apply with_quarantine_run in Hm as [_ Hm]; [|done|by apply deletion_only_stages].
  destruct x as [res|e].
  - destruct Hm as (w0 & s & f & n & -> & Hd & Hf & Hb & _ & _ & Hr & Hr'). split; [done|].
    by eapply Hcopies.
  - destruct Hm as (Hdb & failed & e0 & -> & Hback & w0 & f & Hd & Hf & Hr & Hb & Hr').
    split; [|by eapply Hcopies]. intros e [= <-]. split; [done|]. unfold deletion_error.
    destruct failed; [by exists deletion_not_restored|]. specialize (Hback eq_refl).
    destruct e0; try case_bool_decide; eauto.
Qed.

(** C24: Deleting a revision succeeds only when it is not protected, its target
    has no active backup, and no transfer of it is planned; then its row and
    the rows of its artifacts and replicas are gone, no copy is left at the
    place of a live row, every run stays with its link
    cleared, every other revision keeps its row up to the chain link, and an
    object that none of its artifacts names is untouched.  Every artifact is
    counted as deleted or as already missing. *)
Theorem revision_deletion_complete id w summary w' :
  storage_ok (w_files w) → keyed rp_pk (db_replicas (w_db w)) → keyed rv_pk (db_revisions (w_db w)) →
  delete_config_revision_everywhere id w = (Ok summary, w') →
  (∃ rv t, db_revisions (w_db w) !! id = Some rv ∧ rv_protected rv = false ∧
     db_targets (w_db w) !! rv_target rv = Some t ∧ has_active_run (w_db w) (tg_pk t) = false) ∧
  db_revisions (w_db w') !! id = None ∧
  (∀ k a, db_artifacts (w_db w') !! k = Some a ↔
     db_artifacts (w_db w) !! k = Some a ∧ ar_revision a ≠ id) ∧
  (∀ k r, db_replicas (w_db w') !! k = Some r ↔
     db_replicas (w_db w) !! k = Some r ∧ rp_revision r ≠ id) ∧
  (∀ k r, db_replicas (w_db w) !! k = Some r → rp_revision r = id →
     transfer_planned r = false ∧
     (live_copy r = true → ∃ l, replica_place place (w_db w) r = Some l ∧ ¬ copy_at (w_remote w') l)) ∧
  (∀ k r, db_runs (w_db w) !! k = Some r → db_runs (w_db w') !! k = Some (run_without {[ id ]} r)) ∧
  (∀ k, k ≠ id →
     unlinked <$> db_revisions (w_db w') !! k = unlinked <$> db_revisions (w_db w) !! k) ∧
  (∀ l, is_Some (object (w_files w) l) →
     (∀ k a, db_artifacts (w_db w) !! k = Some a → ar_revision a = id →
        loc_of (ar_storage_key a) ≠ Some l) →
     object (w_files w') l = object (w_files w) l) ∧
  rds_local_file_count summary + rds_missing_local_file_count summary = rds_artifact_count summary.
Proof.
  intros Hok Hkey Hkrv Hm.
  apply with_quarantine_run in Hm
    as (_ & w0 & s & f & n & -> & Hd0 & Hf0 & Hb & -> & Hobj & Hr0 & ->);
    [|done|by apply deletion_only_stages].
  apply deletion_body_run in Hb as (_ & _ & _ & Hs); [|by rewrite Hf0].
  destruct (Hs s eq_refl) as (plan & Hp & Hdel & Hkeys & Hgone & Hcount). rewrite Hd0 in Hp, Hdel.
  pose proof (plan_deletion_inv _ _ _ Hp) as (Hrv & Hprot & Ht & Ha & Harts & Hreps & Hval).
  pose proof (Hkrv _ _ Hrv) as Hpk.
  apply deleted_rows in Hdel as (Hd1 & Hd2 & Hd3 & Hd4 & Hd5). rewrite Hpk in Hd1, Hd2, Hd3, Hd4, Hd5.
  split_and!; try done.
  - by exists (dl_revision plan), (dl_target plan).
  - intros k r Hk Hrev.
    assert (r ∈ replicas_of (w_db w) id) as (d & Hin & Hd)%Hreps.
    { apply replicas_of_elem; [done|]. by rewrite (Hkey _ _ Hk). }
    split; [by apply (validate_replica_idle r d), Hval|]. intros Hl.
    exists (place (endpoint d) (rp_remote_path r)). split; [unfold replica_place; by rewrite Hd|].
    by apply Hgone with (1 := Hin).
  - intros l Hl Hnot. apply Hobj; [done|]. intros k Hk Hloc.
    apply Hkeys, list_elem_of_fmap in Hk as (a & -> & [Hrow Hin]%Harts).
    apply elem_of_rows in Hrow as [j Hj]. by eapply Hnot.
Qed.
End deletion.

(** ** A revision with a file and a copy, and a newer one *)
Module RevisionDeletionExamples.
Import WorldExamples MemoryStorage MemoryDestination.
#[local] Existing Instance memory.
#[local] Existing Instance memory_storage.
#[local] Existing Instance memory_laws.
#[local] Existing Instance memory_backends.
#[local] Existing Instance memory_destination_laws.

Definition db : DB :=
  empty_db <| db_destinations := {[5 := ftp 5 "/b"]} |>
           <| db_targets := {[3 := ChainExamples.target]} |>
           <| db_revisions := {[1 := ChainExamples.revision 1 10 None;
                                2 := ChainExamples.revision 2 20 (Some 1)]} |>
           <| db_artifacts := {[1 := RetentionCleanupExamples.artifact 1 1 "a";
                                2 := RetentionCleanupExamples.artifact 2 2 "b"]} |>
           <| db_replicas := {[7 := RemoteRetentionExamples.copy 7 1 "/b/1";
                               8 := RemoteRetentionExamples.copy 8 2 "/b/2"]} |>.
Definition start : World :=
  {| w_db := db; w_hooks := []; w_depth := O; w_committed := [];
     w_files := ({["a" := encode "old"; "b" := encode "mid"]} : @files memory);
     w_remote := {[ ("5", "/b/1"); ("5", "/b/2") ]} : @remote memory; w_clock := 0 |}.
Abbreviation deletion := (delete_config_revision_everywhere "0" 1 start).
Abbreviation refused := (delete_config_revision_everywhere "0" 4 start).

Lemma files_ok : storage_ok (w_files start).
Proof. exact I. Qed.
Lemma replicas_keyed : keyed rp_pk (db_replicas (w_db start)).
Proof. apply keyed_insert; [done|]. by intros k r [<- <-]%lookup_singleton_Some. Qed.
Lemma revisions_keyed : keyed rv_pk (db_revisions (w_db start)).
Proof. apply keyed_insert; [done|]. by intros k r [<- <-]%lookup_singleton_Some. Qed.

(** A revision that does not exist. *)
Lemma revision_deletion_confined_witness :
  is_ok refused.1 = false ∧ w_db refused.2 = w_db start ∧
  object (w_files refused.2) "a" = object (w_files start) "a".
Proof.
  assert (refused.1 = Err (RevisionDeletionError "The revision no longer exists.")) as E
    by (vm_compute; reflexivity).
  split; [by rewrite E|].
  destruct (proj1 (revision_deletion_confined "0" 4 start refused.1 refused.2 files_ok replicas_keyed
    (surjective_pairing _)) _ E) as (Hdb & m & Hm & Hfiles).
  split; [exact Hdb|]. apply Hfiles. injection Hm as <-. by vm_compute.
Defined.

Lemma revision_deletion_complete_witness :
  is_ok deletion.1 = true ∧ db_revisions (w_db deletion.2) !! 1 = None ∧
  ¬ memory_copy_at (w_remote deletion.2) ("5", "/b/1").
Proof.
  assert (is_ok deletion.1 = true) as Hok by (vm_compute; reflexivity).
  assert (∃ s, deletion = (Ok s, deletion.2)) as [s Hs].
  { destruct deletion.1 as [s|] eqn:E; [|done]. exists s. rewrite <-E. apply surjective_pairing. }
  destruct (revision_deletion_complete "0" 1 start s deletion.2 files_ok replicas_keyed revisions_keyed Hs)
    as (_ & Hgone & _ & _ & Hcopies & _).
  split_and!; [done|exact Hgone|].
  destruct (proj2 (Hcopies 7 (RemoteRetentionExamples.copy 7 1 "/b/1") eq_refl eq_refl) eq_refl)
    as (l & Hl & Hn).
  assert (replica_place place (w_db start) (RemoteRetentionExamples.copy 7 1 "/b/1") = Some ("5", "/b/1"))
    as Hp by (vm_compute; reflexivity).
  rewrite Hp in Hl. injection Hl as <-. exact Hn.
Defined.
End RevisionDeletionExamples.
