(* ===== verification/Drivers.v ===== *)
(** * Drivers and secrets: [drivers/base.py], [drivers/registry.py], [credentials/]

    The data drivers exchange with the pipeline, with the checks of their
    constructors, and the registries of drivers and secret providers.  What a
    driver does with a device is its own: a driver is a record of functions. *)

From Stdlib Require Import ZArith Lia Strings.Ascii.
From stdpp Require Import base gmap sets list strings sorting.
From S2P Require Import Prelude Json Strings Hashing Calendar Models World DriverSelection.
From S2P Require Import Repository.
#[local] Open Scope string_scope.
#[local] Open Scope list_scope.
#[local] Open Scope Z_scope.

(* src: credentials/base.py 15 20 CredentialMaterial *)
Record CredentialMaterial := {
  cm_username : string;
  cm_password : option string;
  cm_private_key : option string;
  cm_enable_secret : option string;
}.

Definition truthy_text (s : option string) : bool :=
  match s with Some s => negb (bool_decide (s = "")) | None => false end.

(* src: credentials/base.py 22 26 CredentialMaterial.__post_init__ *)
Definition credential_material (c : CredentialMaterial) : result CredentialMaterial :=
  if bool_decide (cm_username c = "") then Err (ValueError "username must not be empty")
  else if bool_decide (truthy_text (cm_password c) = truthy_text (cm_private_key c))
  then Err (ValueError "Exactly one of password or private_key must be supplied.")
  else Ok c.

(** A provider resolves references to credentials. *)
(* src: credentials/base.py 36 41 SecretProvider *)
Record SecretProvider := {
  sp_provider_id : string;
  sp_resolve : string → result CredentialMaterial;
}.

Definition SecretProviderRegistry : Type := gmap string SecretProvider.

(* src: credentials/registry.py 10 17 SecretProviderRegistry.register *)
Definition register_provider (provider : SecretProvider) (registry : SecretProviderRegistry)
    : result SecretProviderRegistry :=
  if bool_decide (sp_provider_id provider = "")
  then Err (ValueError "A secret provider must declare provider_id.")
  else match registry !! sp_provider_id provider with
       | Some _ => Err (ValueError ("Secret provider '" +:+ sp_provider_id provider
                                    +:+ "' is already registered."))
       | None => Ok (<[sp_provider_id provider := provider]> registry)
       end.

(* src: credentials/registry.py 19 23 SecretProviderRegistry.get *)
Definition get_provider (provider_id : string) (registry : SecretProviderRegistry)
    : result SecretProvider :=
  match registry !! provider_id with
  | Some p => Ok p
  | None => Err SecretProviderLookupError
  end.

(* src: drivers/base.py 65 80 CollectedArtifact *)
Record CollectedArtifact := {
  ca_artifact_type : string;
  ca_filename : string;
  ca_content : bytes;
  ca_format : string;
  ca_is_primary : bool;
  ca_metadata : list (string * string);
}.

(* src: drivers/base.py 74 80 CollectedArtifact.__post_init__ *)
Definition collected_artifact (a : CollectedArtifact) : result CollectedArtifact :=
  if bool_decide (ca_artifact_type a = "") then Err (ValueError "artifact_type must not be empty")
  else if bool_decide (ca_filename a = "") || has_char slash (ca_filename a)
          || has_char backslash (ca_filename a)
  then Err (ValueError "filename must be a plain file name")
  else Ok a.

(* src: drivers/base.py 83 87 ValidationResult *)
Record ValidationResult := {
  vr_valid : bool;
  vr_error_code : string;
  vr_safe_message : string;
}.

(* src: drivers/base.py 54 62 DriverContext *)
Record DriverContext := {
  dx_device_id : Z;
  dx_device_name : string;
  dx_address : option string;
  dx_credentials : option CredentialMaterial;
  dx_connection : ConnectionParameters;
  dx_receiver : option (ReceiverParameters * CredentialMaterial);
  dx_options : gmap string json;
}.

(** A driver class; [normalize] of a driver raises [ValueError] also for the
    [UnicodeError]s below it. *)
(* src: drivers/base.py 90 111 BackupDriver *)
Record BackupDriver := {
  dr_driver_id : string;
  dr_display_name : string;
  dr_api_version : Z;
  dr_user_selectable : bool;
  dr_normalizer_version : string;
  dr_collect : DriverContext → result (list CollectedArtifact);
  dr_validate : CollectedArtifact → result ValidationResult;
  dr_normalize : CollectedArtifact → result bytes;
}.

Definition DriverRegistry : Type := gmap string BackupDriver.

(* src: drivers/registry.py 10 10 SUPPORTED_DRIVER_API_VERSION *)
Definition SUPPORTED_DRIVER_API_VERSION : Z := 1.

(* src: drivers/registry.py 21 28 DriverRegistry.register *)
Definition register (driver : BackupDriver) (registry : DriverRegistry) : result DriverRegistry :=
  let driver_id := dr_driver_id driver in
  if bool_decide (driver_id = "")
  then Err (ValueError "A driver must declare a non-empty string driver_id.")
  else match registry !! driver_id with
       | Some _ => Err (ValueError ("Driver '" +:+ driver_id +:+ "' is already registered."))
       | None => Ok (<[driver_id := driver]> registry)
       end.

(* src: drivers/registry.py 30 34 DriverRegistry.unregister *)
Definition unregister (driver_id : string) (registry : DriverRegistry) : result DriverRegistry :=
  match registry !! driver_id with
  | Some _ => Ok (base.delete driver_id registry)
  | None => Err (DriverRegistryError ("Unknown backup driver: " +:+ driver_id))
  end.

(* src: drivers/registry.py 36 41 DriverRegistry.create *)
Definition create (driver_id : string) (registry : DriverRegistry) : result BackupDriver :=
  match registry !! driver_id with
  | Some d => Ok d
  | None => Err (DriverRegistryError ("Unknown backup driver: " +:+ driver_id))
  end.

(* src: drivers/registry.py 43 44 DriverRegistry.contains *)
Definition contains (driver_id : string) (registry : DriverRegistry) : bool :=
  bool_decide (is_Some (registry !! driver_id)).

(** An entry point of the environment: its name and what loading it gives;
    [None] is an object that is not a driver class. *)
Record EntryPoint := {
  ep_name : string;
  ep_load : result (option BackupDriver);
}.

(* src: drivers/registry.py 60 87 DriverRegistry.load_entry_points *)
Definition load_entry (registry : DriverRegistry) (entry : EntryPoint) : result DriverRegistry :=
  let name := "'" +:+ ep_name entry +:+ "'" in
  match ep_load entry with
  | Err _ => Err (DriverRegistryError
      ("External driver entry point " +:+ name +:+ " could not be loaded."))
  | Ok None => Err (DriverRegistryError
      ("External driver entry point " +:+ name +:+ " is not a BackupDriver."))
  | Ok (Some driver) =>
      if negb (bool_decide (dr_driver_id driver = ep_name entry))
      then Err (DriverRegistryError
        ("External driver entry point " +:+ name +:+ " has a mismatched driver ID."))
      else if negb (dr_api_version driver =? SUPPORTED_DRIVER_API_VERSION)
      then Err (DriverRegistryError
        ("External driver " +:+ name +:+ " uses an unsupported API version."))
      else match register driver registry with
           | Err (ValueError _) => Err (DriverRegistryError
               ("External driver " +:+ name +:+ " conflicts with a registered driver."))
           | r => r
           end
  end.

(** The registry is mutable: what was registered before a failing entry stays. *)
Fixpoint load_sorted (entries : list EntryPoint) (registry : DriverRegistry)
    : result (list string) * DriverRegistry :=
  match entries with
  | [] => (Ok [], registry)
  | e :: es =>
      match load_entry registry e with
      | Err x => (Err x, registry)
      | Ok registry' =>
          let '(r, registry'') := load_sorted es registry' in
          (cons (ep_name e) <$> r, registry'')
      end
  end.

(* src: drivers/registry.py 52 88 DriverRegistry.load_entry_points *)
Definition load_entry_points (entries : list EntryPoint) (registry : DriverRegistry)
    : result (list string) * DriverRegistry :=
  load_sorted (sort_by (λ a b, string_leb (ep_name a) (ep_name b)) entries) registry.

(** The execution-time gate over the full registry. *)
(* src: services/driver_selection.py 96 99 EnabledDriverRegistry.create *)
Definition create_enabled (registry : DriverRegistry) (disabled : list string) (driver_id : string)
    : result BackupDriver :=
  if negb (driver_is_enabled driver_id disabled)
  then Err (DriverError "DRIVER_DISABLED" "Enable this driver in Settings > Device drivers.")
  else create driver_id registry.

(** ** Facts *)

(** Drivers are registered under their own identifier, with the supported API
    when they come from an entry point. *)
Definition registry_ok (registry : DriverRegistry) : Prop :=
  ∀ id d, registry !! id = Some d → dr_driver_id d = id ∧ id ≠ "".

Lemma register_Ok d registry registry' :
  register d registry = Ok registry' →
  registry !! dr_driver_id d = None ∧ dr_driver_id d ≠ "" ∧
  registry' = <[dr_driver_id d := d]> registry.
Proof.
  unfold register. case_bool_decide; [done|]. case_match; [done|]. by intros [= <-].
Qed.

Lemma load_entry_Ok registry e registry' :
  load_entry registry e = Ok registry' →
  ∃ d, ep_load e = Ok (Some d) ∧ dr_driver_id d = ep_name e ∧ dr_api_version d = 1 ∧
    ep_name e ≠ "" ∧ registry !! ep_name e = None ∧ registry' = <[ep_name e := d]> registry.
Proof.
  unfold load_entry. destruct (ep_load e) as [[d|]|]; try done.
  case_bool_decide as Hid; [|done]. simpl.
  destruct (Z.eqb_spec (dr_api_version d) SUPPORTED_DRIVER_API_VERSION); [|done]. simpl.
  destruct (register d registry) as [r|[]] eqn:E; try done. intros [= <-].
  apply register_Ok in E as (H1 & H2 & ->). exists d. rewrite Hid in *. done.
Qed.

(** Loading external drivers never replaces or removes a driver that is
    already registered, whatever the entry points are and also when one of
    them fails; every driver it adds was declared under its own name with the
    supported API version, and on success exactly the entries' names were
    added. *)
Theorem load_entry_points_safe entries registry r registry' :
  registry_ok registry → load_entry_points entries registry = (r, registry') →
  registry_ok registry' ∧
  (∀ id d, registry !! id = Some d → registry' !! id = Some d) ∧
  (∀ id d, registry' !! id = Some d → registry !! id = None →
     dr_api_version d = SUPPORTED_DRIVER_API_VERSION ∧
     ∃ e, e ∈ entries ∧ ep_name e = id ∧ ep_load e = Ok (Some d)) ∧
  (∀ names, r = Ok names → names ≡ₚ map ep_name entries ∧
     ∀ id, id ∈ names → registry !! id = None ∧ is_Some (registry' !! id)).
Proof.
  unfold load_entry_points.
  assert (∀ es registry r registry',
    registry_ok registry → load_sorted es registry = (r, registry') →
    registry_ok registry' ∧
    (∀ id d, registry !! id = Some d → registry' !! id = Some d) ∧
    (∀ id d, registry' !! id = Some d → registry !! id = None →
       dr_api_version d = SUPPORTED_DRIVER_API_VERSION ∧
       ∃ e, e ∈ es ∧ ep_name e = id ∧ ep_load e = Ok (Some d)) ∧
    (∀ names, r = Ok names → names = map ep_name es ∧
       ∀ id, id ∈ names → registry !! id = None ∧ is_Some (registry' !! id))) as Hmain.
  { clear. induction es as [|e es IH]; intros registry r registry' Hok Hl; simpl in Hl.
    { injection Hl as <- <-. split_and!; [done|done| |].
      - intros id d. congruence.
      - intros names [= <-]. split; [done|]. intros id Hid. by apply elem_of_nil in Hid. }
    destruct (load_entry registry e) as [registry1|x] eqn:He.
    2: { injection Hl as <- <-. split_and!; [done|done| |done]. intros id d. congruence. }
    apply load_entry_Ok in He as (d & Hd & Hid & Hv & Hne & Hnone & ->).
    destruct (load_sorted es _) as [r1 registry2] eqn:Hs. injection Hl as <- <-.
    apply IH in Hs as (Hok2 & Hkeep & Hnew & Hnames).
    2: { intros i d' [[<- <-]|[_ Hi]]%lookup_insert_Some; [done|by apply Hok]. }
    assert (∀ i x, registry !! i = Some x → registry2 !! i = Some x) as Hkeep2.
    { intros i x Hi. apply Hkeep, lookup_insert_Some. right. split; [|exact Hi]. congruence. }
    split_and!; [done|done| |].
    - intros i x Hi Hn. destruct (decide (ep_name e = i)) as [<-|Hni].
      + rewrite (Hkeep (ep_name e) d) in Hi by apply lookup_insert_eq. injection Hi as <-.
        split; [done|]. exists e. split_and!; [by left|done|done].
      + destruct (Hnew i x Hi) as (? & e' & ? & ? & ?); [by apply lookup_insert_None|].
        split; [done|]. exists e'. split_and!; [by right|done|done].
    - intros names Hr. destruct r1 as [names1|]; [|done]. injection Hr as <-.
      destruct (Hnames names1 eq_refl) as [-> Hall]. split; [done|].
      intros i [->|Hi]%elem_of_cons.
      + split; [done|]. exists d. apply Hkeep, lookup_insert_eq.
      + destruct (Hall i Hi) as [Hn ?]. split; [|done].
        apply lookup_insert_None in Hn. tauto. }
  intros Hok Hl. destruct (Hmain _ _ _ _ Hok Hl) as (H1 & H2 & H3 & H4).
  split_and!; [done|done| |].
  - intros id d Hd Hn. destruct (H3 id d Hd Hn) as (? & e & He & ?). split; [done|].
    exists e. split; [by apply elem_of_sort_by in He|done].
  - intros names Hr. destruct (H4 names Hr) as [-> ?]. split; [|done].
    apply Permutation_map, sort_by_perm.
Qed.

(** An external driver named after its entry point. *)
Module DriversExamples.
Definition driver (name : string) (version : Z) : BackupDriver := {|
  dr_driver_id := name; dr_display_name := name; dr_api_version := version;
  dr_user_selectable := true; dr_normalizer_version := "1";
  dr_collect := λ _, Ok [{| ca_artifact_type := "config"; ca_filename := "running.cfg";
                            ca_content := encode "hostname r1"; ca_format := "text";
                            ca_is_primary := true; ca_metadata := [] |}];
  dr_validate := λ _, Ok {| vr_valid := true; vr_error_code := ""; vr_safe_message := "" |};
  dr_normalize := λ a, Ok (ca_content a) |}.

Definition entry (name : string) (version : Z) : EntryPoint :=
  {| ep_name := name; ep_load := Ok (Some (driver name version)) |}.

Definition builtin : DriverRegistry := {[ "cisco_iosxe" := driver "cisco_iosxe" 1 ]}.

Lemma builtin_ok : registry_ok builtin.
Proof. intros i d Hd. unfold builtin, DriverRegistry in Hd.
  apply lookup_singleton_Some in Hd as [<- <-]. done. Qed.

Abbreviation loaded := (load_entry_points [entry "zyxel" 1; entry "acme" 1] builtin).

Lemma load_entry_points_safe_witness :
  loaded.1 = Ok ["acme"; "zyxel"] ∧
  loaded.2 !! "cisco_iosxe" = builtin !! "cisco_iosxe".
Proof.
  split; [vm_compute; reflexivity|].
  refine (proj1 (proj2 (load_entry_points_safe _ _ loaded.1 loaded.2 builtin_ok _))
    "cisco_iosxe" (driver "cisco_iosxe" 1) _).
  - apply surjective_pairing.
  - reflexivity.
Defined.
End DriversExamples.
