(* ===== verification/FtpSession.v ===== *)
(** * The private helpers of [services/destination_ftp.py]

    Connecting, creating directories, uploading, reading back, listing and
    proving absence: the steps every FTP operation is made of. *)

From Stdlib Require Import ZArith Lia Strings.Ascii.
From stdpp Require Import base gmap sets list strings.
From S2P Require Import Prelude Strings Text Hashing Json Models World.
From S2P Require Import DestinationPaths RevisionFiles AuditSummary Drivers FtpClient.
#[local] Open Scope string_scope.
#[local] Open Scope list_scope.
#[local] Open Scope Z_scope.

(** ** Paths *)

(** A text up to and with its last slash, and the rest. *)
Fixpoint split_tail (s : string) : string * string :=
  match s with
  | EmptyString => ("", "")
  | String a s' =>
      let '(head, tail) := split_tail s' in
      if bool_decide (head = "") && negb (bool_decide (a = slash)) then ("", String a tail)
      else (String a head, tail)
  end.
(** [posixpath.basename] and [posixpath.dirname] *)
Definition posix_basename (s : string) : string := (split_tail s).2.
Definition posix_dirname (s : string) : string :=
  let head := (split_tail s).1 in
  if all_chars (char_in "/") head then head else strip_right (char_in "/") head.

(** The components of [PurePosixPath(s).parent]. *)
Definition parent_parts (s : string) : list string :=
  match pure_parts s with [root] => if is_absolute s then [root] else [] | l => removelast l end.

(** ** Listings *)

(** The name one line of a listing gives, if it is one to look at. *)
(* src: services/destination_ftp.py 1421 1448 _list_revision_directory *)
Definition listed_name (directory entry : string) : result (option string) :=
  if bool_decide (entry = "") || unsafe_text entry
  then Err (DestinationError "DESTINATION_DIRECTORY_UNSAFE"
    "The FTP revision directory returned an unsafe entry.")
  else if is_absolute entry && negb (bool_decide (parent_parts entry = pure_parts directory))
  then Err (DestinationError "DESTINATION_DIRECTORY_UNSAFE"
    "The FTP revision directory returned an unexpected path.")
  else if negb (is_absolute entry) && negb (length (pure_parts entry) =? 1)%nat
  then Err (DestinationError "DESTINATION_DIRECTORY_UNSAFE"
    "The FTP revision directory returned a nested path.")
  else
    let name := path_name entry in
    if bool_decide (name ∈ [""; "."; ".."]) then Ok None
    else _ ← validate_direct_filename name; Ok (Some name).

Fixpoint listed_names (directory : string) (entries : list string) : result (gset string) :=
  match entries with
  | [] => Ok ∅
  | e :: entries =>
      name ← listed_name directory e;
      names ← listed_names directory entries;
      Ok (match name with Some n => {[n]} ∪ names | None => names end)
  end.

(* src: services/destination_ftp.py 91 91 _MAX_MANIFEST_BYTES *)
Definition MAX_MANIFEST_BYTES : Z := 1024 * 1024.

(** [except ftplib.error_perm], with or without [ftplib.error_temp]. *)
Definition is_error_perm (e : exn) : bool := match e with FtpErrorPerm _ => true | _ => false end.
Definition is_error_temp (e : exn) : bool := match e with FtpErrorTemp _ => true | _ => false end.
Definition is_missing (e : exn) : bool := is_missing_ftp_error (exn_text e).
Definition is_denied (e : exn) : bool := is_denied_ftp_error (exn_text e).
(** [str(exc).lstrip().startswith("550")] *)
Definition says_550 (e : exn) : bool := starts_with "550" (strip_left is_space (exn_text e)).

(** [try: m except matching: raise err]; other exceptions pass. *)
Definition mapping {W A} (matching : exn → bool) (err : exn → exn) (m : M W A) : M W A :=
  try_catch m (λ e, raise (if matching e then err e else e)).

Lemma keeps_mapping {W A} (I : W → Prop) matching err (m : M W A) :
  keeps I m → keeps I (mapping matching err m).
Proof. intros Hm. unfold mapping. auto with keeps. Qed.
#[export] Hint Resolve keeps_mapping : keeps.

(** [except (LookupError, SecretProviderError)] *)
Definition is_credential_error (e : exn) : bool :=
  match e with
  | SecretProviderError | SecretProviderLookupError | KeyError | IndexError => true
  | _ => false
  end.

Section session.
Context {R : Type} `{!FtpServer R}.
Abbreviation FTP := (M (Session R)).

(* src: services/destination_ftp.py 1517 1523 _close *)
Definition ftp_close_session : FTP unit :=
  open ← gets ss_open;
  if negb open then mret tt
  else try_catch ftp_quit (λ e, if is_ftp_error e then ftp_close else raise e).

(** [credential] is the profile of the destination, if it has one. *)
(* src: services/destination_ftp.py 932 965 _connect *)
Definition ftp_open_session (secret_providers : SecretProviderRegistry)
    (credential : option CredentialProfile) (d : BackupDestination) : FTP unit :=
  let unresolved := DestinationError "CREDENTIAL_RESOLUTION_FAILED"
                      "The FTP credential could not be resolved." in
  credentials ← lift match credential with
    | None => Err AttributeError
    | Some c =>
        match (provider ← get_provider (cr_provider_id c) secret_providers;
               sp_resolve provider (cr_secret_reference c)) with
        | Ok m => Ok m
        | Err e => if is_credential_error e then Err unresolved else Err e
        end
    end;
  match cm_password credentials with
  | Some password =>
      if truthy_text (cm_private_key credentials)
      then raise (DestinationError "CREDENTIAL_TYPE_UNSUPPORTED"
        "FTP requires a username and password.")
      else
        try_catch
          (_ ← ftp_connect (ds_connect_timeout d) (ds_host d) (ds_port d);
           _ ← ftp_login (cm_username credentials) password;
           ftp_type "I")
          (λ e,
             match e with
             | FtpErrorPerm _ =>
                 _ ← ftp_close_session;
                 raise (DestinationError "AUTH_FAILED" "FTP server authentication failed.")
             | ConnectionRefusedError _ =>
                 _ ← ftp_close_session;
                 raise (DestinationError "CONNECTION_REFUSED"
                   "The FTP server rejected the TCP connection.")
             | TimeoutError _ =>
                 _ ← ftp_close_session;
                 raise (DestinationError "TIMEOUT" "The FTP connection timed out.")
             | e =>
                 if is_ftp_error e
                 then _ ← ftp_close_session;
                      raise (DestinationError "CONNECTION_FAILED" "The FTP connection failed.")
                 else raise e
             end)
  | None => raise (DestinationError "CREDENTIAL_TYPE_UNSUPPORTED"
      "FTP requires a username and password.")
  end.

(** What a round of the loop below finds. *)
Inductive Listing := GoUp | Unknown | Listed (lines : list string).

(** The loop of [_directory_absent_from_parent_listing]: up to the nearest
    directory that can be listed.  The path gets shorter with every round;
    see [absent_from_fuel] in [FtpTrace]. *)
Fixpoint absent_from (fuel : nat) (current : string) : FTP bool :=
  match fuel with
  | O => mret false
  | S fuel =>
      if bool_decide (current = "") || bool_decide (current = "/") then mret false
      else
        let parent := if bool_decide (posix_dirname current = "") then "/" else posix_dirname current in
        let child := posix_basename current in
        if bool_decide (child = "") then mret false
        else
          listing ← try_catch (_ ← ftp_cwd parent; l ← ftp_nlst None; mret (Listed l))
            (λ e, if is_error_perm e && negb (is_denied e) then mret GoUp
                  else if is_ftp_error e then mret Unknown
                  else raise e);
          match listing with
          | GoUp => absent_from fuel parent
          | Unknown => mret false
          | Listed lines =>
              mret match listed_names parent lines with
                   | Ok names => bool_decide (child ∉ names)
                   | Err _ => false
                   end
          end
  end.
(* src: services/destination_ftp.py 1452 1506 _directory_absent_from_parent_listing *)
Definition directory_absent_from_parent_listing (remote_path : string) : FTP bool :=
  let current := strip_right (char_in "/") remote_path in
  absent_from (S (S (String.length current))) current.

(** ** Directories *)

(** Five attempts, with pauses between them. *)
Fixpoint cwd_attempts (attempts : nat) (path : string) : FTP unit :=
  match attempts with
  | O => raise (DestinationError "DESTINATION_PATH_TEMPORARY"
      "The FTP server did not make a newly created directory available in time.")
  | S attempts =>
      entered ← try_catch (_ ← ftp_cwd path; mret true)
        (λ e,
           if is_error_perm e || is_error_temp e
           then if is_denied e
                then raise (DestinationError "DESTINATION_PATH_DENIED"
                  "The FTP account cannot enter the destination directory.")
                else mret false
           else if is_ftp_error e
           then raise (DestinationError "DESTINATION_PATH_FAILED"
             "The FTP connection failed while entering a new destination directory.")
           else raise e);
      if (entered : bool) then mret tt else cwd_attempts attempts path
  end.

(* src: services/destination_ftp.py 996 1019 _cwd_after_mkdir *)
Definition cwd_after_mkdir (path : string) : FTP unit := cwd_attempts 5 path.

Definition mkdir_step (current part : string) : FTP string :=
  let current := posix_join current part in
  _ ← try_catch (ftp_cwd current)
    (λ e,
       if is_error_perm e || is_error_temp e
       then
         absent ← (if is_denied e then mret false else directory_absent_from_parent_listing current);
         if negb absent
         then raise (DestinationError "DESTINATION_PATH_UNREADABLE"
           "The FTP destination directory could not be inspected safely.")
         else
           _ ← try_catch (ftp_mkd current) (λ e, if is_ftp_error e then mret tt else raise e);
           cwd_after_mkdir current
       else raise e);
  mret current.

(* src: services/destination_ftp.py 968 993 _mkdirs *)
Definition ftp_mkdirs (path : string) : FTP unit :=
  _ ← for_fold (filter (λ p, p ∉ ["/"; ""; "."]) (pure_parts path)) "/" mkdir_step; mret tt.

(** ** Files *)

(* src: services/destination_ftp.py 1022 1039 _store *)
Definition ftp_store (path : string) (content : bytes) : FTP unit :=
  try_catch (ftp_storbinary path content)
    (λ e,
       if is_error_temp e then raise (DestinationError "DESTINATION_UPLOAD_TEMPORARY"
         "The FTP server temporarily rejected the artifact upload.")
       else if is_error_perm e then raise (DestinationError "DESTINATION_UPLOAD_DENIED"
         "The FTP server rejected the artifact upload.")
       else if is_ftp_error e then raise (DestinationError "DESTINATION_UPLOAD_FAILED"
         "The FTP artifact upload failed.")
       else raise e).

Definition collect (content chunk : bytes) : FTP bytes := mret (content ++ chunk).

Definition verify_failed (message : string) : exn := DestinationError "DESTINATION_VERIFY_FAILED" message.

(* src: services/destination_ftp.py 1042 1068 _read_remote *)
Definition read_remote (remote_path : string) (max_bytes : Z) : FTP bytes :=
  size ← mapping is_ftp_error
    (λ _, verify_failed "The uploaded FTP object could not be inspected.")
    (_ ← ftp_type "I"; ftp_size remote_path);
  match size with
  | Some size =>
      if (size <? 0) || (max_bytes <? size)
      then raise (verify_failed "The uploaded FTP object has an invalid size.")
      else
        content ← mapping is_ftp_error
          (λ _, verify_failed "The uploaded FTP object could not be read back for verification.")
          (ftp_retrbinary remote_path [] collect);
        if negb (Z.of_nat (length content) =? size)
        then raise (verify_failed "The uploaded FTP object is incomplete.")
        else mret content
  | None => raise (verify_failed "The uploaded FTP object has an invalid size.")
  end.

(* src: services/destination_ftp.py 1276 1293 _remote_exists *)
Definition remote_exists (path : string) : FTP bool :=
  try_catch (l ← ftp_nlst (Some path); mret (negb (bool_decide (l = []))))
    (λ e,
       if is_ftp_error e
       then
         absent ← (if is_missing e then mret true
                   else if is_denied e then mret false
                   else directory_absent_from_parent_listing path);
         if (absent : bool) then mret false
         else raise (DestinationError "DESTINATION_PATH_UNREADABLE"
           "An existing FTP path could not be inspected safely.")
       else raise e).

(** [try: ftp.delete(path) except ftplib.all_errors: pass] *)
Definition delete_quietly (path : string) : FTP unit :=
  try_catch (ftp_delete path) (λ e, if is_ftp_error e then mret tt else raise e).

(* src: services/destination_ftp.py 1226 1264 _put_immutable *)
Definition ftp_put_immutable (remote_path : string) (content : bytes) (digest : string) : FTP bool :=
  present ← remote_exists remote_path;
  existing ← (if (present : bool)
              then c ← read_remote remote_path (Z.of_nat (length content)); mret (Some c)
              else mret None);
  match existing with
  | Some existing =>
      if bool_decide (sha256_hex existing = digest) then mret false
      else raise (DestinationError "DESTINATION_CONFLICT"
        "A different object already exists at the immutable FTP revision path.")
  | None =>
      let temporary := remote_path +:+ ".part" in
      _ ← finally
        (_ ← ftp_store temporary content;
         uploaded ← read_remote temporary (Z.of_nat (length content));
         _ ← (if bool_decide (sha256_hex uploaded = digest) then mret tt
              else raise (verify_failed "The FTP artifact hash did not match after upload."));
         mapping is_ftp_error
           (λ _, DestinationError "DESTINATION_FINALIZE_FAILED"
              "The verified FTP artifact could not be finalized atomically.")
           (ftp_rename temporary remote_path))
        (delete_quietly temporary);
      mret true
  end.

(* src: services/destination_ftp.py 1267 1273 _delete_verified *)
Definition delete_verified (path : string) : FTP unit :=
  _ ← ftp_delete path;
  present ← remote_exists path;
  if (present : bool)
  then raise (DestinationError "DESTINATION_DELETE_FAILED"
    "The FTP test object still exists after deletion.")
  else mret tt.

(** ** The revision directory *)

Definition directory_unreadable : exn := DestinationError "DESTINATION_DIRECTORY_UNREADABLE"
  "The FTP revision directory could not be inspected safely.".

(** The names in a directory, or [None] when it is not there; every caller
    passes [missing_ok=True]. *)
(* src: services/destination_ftp.py 1385 1449 _list_revision_directory *)
Definition list_revision_directory (remote_path : string) : FTP (option (gset string)) :=
  entered ← try_catch (_ ← ftp_cwd remote_path; mret true)
    (λ e,
       if is_error_perm e
       then
         absent ← (if is_missing e then mret true
                   else if is_denied e then mret false
                   else directory_absent_from_parent_listing remote_path);
         if (absent : bool) then mret false else raise directory_unreadable
       else raise e);
  if negb entered then mret None
  else
    listing ← try_catch (l ← ftp_nlst None; mret (Some l))
      (λ e, if is_error_perm e
            then if is_missing e then mret None else raise directory_unreadable
            else raise e);
    match listing with
    | None => mret (Some ∅)
    | Some lines => names ← lift (listed_names remote_path lines); mret (Some names)
    end.

(* src: services/destination_ftp.py 1509 1514 _reject_unknown_revision_entries *)
Definition reject_unknown_entries (entries expected : gset string) : FTP unit :=
  if bool_decide (entries ⊆ expected) then mret tt
  else raise (DestinationError "DESTINATION_DELETE_CONFLICT"
    "The FTP revision directory contains an unknown file and was not deleted.").

(** ** Checking a copy *)

(** What an exception while reading says of the file; [also] covers other
    exceptions that are caught. *)
Definition reading_remote {A} (also : exn → bool) (m : FTP A) : FTP (verdict + A) :=
  try_catch (a ← m; mret (inr a))
    (λ e, if is_error_perm e then mret (inl (if says_550 e then V_missing else V_unreadable))
          else if is_error_temp e || also e then mret (inl V_unreadable)
          else raise e).

Definition is_destination_error (e : exn) : bool :=
  match e with DestinationError _ _ => true | _ => false end.

(* src: services/destination_ftp.py 1130 1151 _verify_remote_manifest *)
Definition verify_remote_manifest (recursion_limit : nat) (remote_path : string) (v : RevisionView)
    (revision_path : string) (expected_files : list ExpectedRemoteFile) : FTP (verdict * Z) :=
  x ← reading_remote is_destination_error (read_remote remote_path MAX_MANIFEST_BYTES);
  match x with
  | inl verdict => mret (verdict, 0)
  | inr content =>
      matches ← lift (manifest_matches_revision recursion_limit content v revision_path expected_files);
      let size := Z.of_nat (length content) in
      mret (if (matches : bool) then (V_ok, size) else (V_hash_mismatch, size))
  end.

(* src: services/destination_ftp.py 1071 1127 _verify_remote_file *)
Definition verify_remote_file (recursion_limit : nat) (remote_path : string)
    (expected : ExpectedRemoteFile) (v : RevisionView) (revision_path : string)
    (expected_files : list ExpectedRemoteFile) : FTP (verdict * Z) :=
  if bool_decide (ef_artifact_type expected = "manifest")
  then verify_remote_manifest recursion_limit remote_path v revision_path expected_files
  else
    _ ← ftp_type "I";
    x ← reading_remote (λ _, false) (ftp_size remote_path);
    match x with
    | inl verdict => mret (verdict, 0)
    | inr None => mret (V_unreadable, 0)
    | inr (Some size) =>
        if size <? 0 then mret (V_unreadable, 0)
        else if negb (size =? ef_size expected) then mret (V_size_mismatch, size)
        else
          y ← reading_remote (λ _, false) (ftp_retrbinary remote_path [] collect);
          match y with
          | inl verdict => mret (verdict, 0)
          | inr content =>
              let downloaded := Z.of_nat (length content) in
              if negb (downloaded =? size) then mret (V_size_mismatch, downloaded)
              else if negb (bool_decide (sha256_hex content = ef_sha256 expected))
              then mret (V_hash_mismatch, downloaded)
              else mret (V_ok, downloaded)
          end
    end.
End session.

(** ** Every step sends commands of its own kind only *)

Section keeping.
Context {R : Type} `{!FtpServer R} (P : FtpCommand → Prop) (s0 : Session R).
Context (Hreads : allows_reads P).
#[local] Hint Resolve Hreads : keeps.

Lemma keeps_close_session : keeps (followed P s0) ftp_close_session.
Proof. unfold ftp_close_session, ftp_close. keep_steps. Qed.
#[local] Hint Resolve keeps_close_session : keeps.

Lemma keeps_open_session providers credential d :
  keeps (followed P s0) (ftp_open_session providers credential d).
Proof. unfold ftp_open_session. cbv zeta. keep_steps. Qed.

Lemma keeps_absent_from fuel : ∀ current, keeps (followed P s0) (absent_from fuel current).
Proof. induction fuel as [|fuel IH]; intros current; cbn [absent_from]; keep_steps. Qed.
#[local] Hint Resolve keeps_absent_from : keeps.

Lemma keeps_directory_absent p : keeps (followed P s0) (directory_absent_from_parent_listing p).
Proof. unfold directory_absent_from_parent_listing. keep_steps. Qed.
#[local] Hint Resolve keeps_directory_absent : keeps.

Lemma keeps_cwd_attempts p n : keeps (followed P s0) (cwd_attempts n p).
Proof. induction n as [|n IH]; cbn [cwd_attempts]; keep_steps. Qed.
#[local] Hint Resolve keeps_cwd_attempts : keeps.

Lemma keeps_mkdir_step current part :
  P (F_mkd (posix_join current part)) → keeps (followed P s0) (mkdir_step current part).
Proof. intros Hp. unfold mkdir_step, cwd_after_mkdir. keep_steps. Qed.

Lemma keeps_ftp_store p content : P (F_stor p content) → keeps (followed P s0) (ftp_store p content).
Proof. intros Hp. unfold ftp_store. keep_steps. Qed.

Lemma keeps_collect acc b : keeps (followed P s0) (collect acc b).
Proof. unfold collect. keep_steps. Qed.
#[local] Hint Resolve keeps_collect : keeps.

Lemma keeps_read_remote p n : keeps (followed P s0) (read_remote p n).
Proof. unfold read_remote. keep_steps. Qed.
#[local] Hint Resolve keeps_read_remote : keeps.

Lemma keeps_remote_exists p : keeps (followed P s0) (remote_exists p).
Proof. unfold remote_exists. keep_steps. Qed.
#[local] Hint Resolve keeps_remote_exists : keeps.

Lemma keeps_delete_quietly p : P (F_dele p) → keeps (followed P s0) (delete_quietly p).
Proof. intros Hp. unfold delete_quietly. keep_steps. Qed.
#[local] Hint Resolve keeps_delete_quietly keeps_ftp_store : keeps.

Lemma keeps_ftp_put_immutable p content digest :
  let temporary := p +:+ ".part" in
  P (F_stor temporary content) → P (F_rnfr temporary) → P (F_rnto p) → P (F_dele temporary) →
  keeps (followed P s0) (ftp_put_immutable p content digest).
Proof. intros temporary H1 H2 H3 H4. unfold ftp_put_immutable. cbv zeta. keep_steps. Qed.

Lemma keeps_delete_verified p : P (F_dele p) → keeps (followed P s0) (delete_verified p).
Proof. intros Hp. unfold delete_verified. keep_steps. Qed.

Lemma keeps_list_directory p : keeps (followed P s0) (list_revision_directory p).
Proof. unfold list_revision_directory. keep_steps. Qed.

Lemma keeps_reject_unknown entries expected : keeps (followed P s0) (reject_unknown_entries entries expected).
Proof. unfold reject_unknown_entries. keep_steps. Qed.

Lemma keeps_reading_remote {A} also (m : M (Session R) A) :
  keeps (followed P s0) m → keeps (followed P s0) (reading_remote also m).
Proof. intros Hm. unfold reading_remote. keep_steps. Qed.
#[local] Hint Resolve keeps_reading_remote : keeps.

Lemma keeps_verify_remote_file limit p expected v path files :
  keeps (followed P s0) (verify_remote_file limit p expected v path files).
Proof. unfold verify_remote_file, verify_remote_manifest. cbv zeta. keep_steps. Qed.
End keeping.
#[export] Hint Resolve keeps_close_session keeps_open_session keeps_directory_absent keeps_mkdir_step
  keeps_ftp_store keeps_read_remote keeps_remote_exists keeps_delete_quietly keeps_ftp_put_immutable
  keeps_delete_verified keeps_list_directory keeps_reject_unknown keeps_verify_remote_file : keeps.
