(* ===== verification/FtpDestination.v ===== *)
(** * FTP destinations: [services/destination_ftp.py]

    The operations of the module: the connection test, the integrity audit,
    replication, deletion and the recovery of a copy into an archive.  Each
    opens a session of [FtpClient], takes the steps of [FtpSession] and closes
    it. *)

From Stdlib Require Import ZArith Lia Strings.Ascii.
From stdpp Require Import base gmap sets list strings pretty.
From S2P Require Import Prelude Strings Text Hashing Json Calendar Models World Storage.
From S2P Require Import DestinationPaths Destination RevisionFiles AuditSummary Drivers.
From S2P Require Import FtpClient FtpSession.
#[local] Open Scope string_scope.
#[local] Open Scope list_scope.
#[local] Open Scope Z_scope.

(* src: services/destination_ftp.py 69 75 VerifiedFtpDownloadResult *)
Record VerifiedFtpDownloadResult := {
  vd_file_count : Z;
  vd_verified_bytes : Z;
  vd_remote_path : string;
}.

Definition ftp_test_payload : bytes :=
  String.list_byte_of_string ("netbox-config-backup-ftp-test" +:+ String (ascii_of_N 10) "").

Definition FTP_HEALTHY : string :=
  "All expected FTP revision copies passed integrity verification.".

(** The selection of a reconciliation, and how many it leaves out. *)
(* src: services/destination_ftp.py 102 135 reconcile_ftp_destination *)
Definition ftp_audit_selection (d : BackupDestination) (db : DB)
    (replicas : option (list RevisionReplica)) : list RevisionReplica * Z :=
  let supplied := match replicas with
    | Some l => l
    | None => sort_by (key_leb rp_pk rp_pk)
                (filter (λ r, rp_destination r = ds_pk d) (map snd (map_to_list (db_replicas db))))
    end in
  let selected := filter (auditable d) supplied in
  (selected, Z.of_nat (length supplied) - Z.of_nat (length selected)).

Definition finish_ftp_summary (s : ReconciliationSummary) : ReconciliationSummary :=
  if negb (problem_count s =? 0)
  then s <| rs_success := false |>
         <| rs_safe_message := "The FTP audit found " +:+ pretty (problem_count s)
              +:+ " problem(s) in " +:+ pretty (rs_failed_replicas s) +:+ " revision copy/copies." |>
  else if rs_checked_replicas s =? 0
  then s <| rs_safe_message := "There are no successful FTP revision copies to audit yet." |>
  else s.

(** The files of a copy at a recorded path, with the current device name. *)
Definition recorded_files (nfkd : string → string) (v : RevisionView) (revision_path : string)
    : result (list ExpectedRemoteFile) :=
  expected_revision_files nfkd v (uses_readable_ftp_layout revision_path)
    (readable_stem nfkd revision_path v) None.

Definition append_last (chunk : bytes) (l : list (string * bytes)) : list (string * bytes) :=
  match list.last l with
  | Some (name, content) => removelast l ++ [(name, content ++ chunk)]
  | None => l
  end.

Section destination.
Context {R : Type} `{!FtpServer R} `{Externals} `{!ConfigStorage}.
Context (nfkd : string → string) (recursion_limit : nat).
Context (secret_providers : SecretProviderRegistry).
Abbreviation FTP := (M (Session R)).

(** [ftp = _connect(destination)]; the profile is read through the relation. *)
Definition ftp_session (d : BackupDestination) (db : DB) : FTP unit :=
  ftp_open_session secret_providers (ds_credential_profile d ≫= λ pk, db_credentials db !! pk) d.

(** [except ftplib.error_perm] and [except ftplib.all_errors], in this order. *)
Definition ftp_errors {A} (denied failed : exn) (m : FTP A) : FTP A :=
  mapping is_ftp_error (λ e, if is_error_perm e then denied else failed) m.

(** ** Connection test: [token] is [uuid.uuid4().hex] *)
(* src: services/destination_ftp.py 252 289 test_ftp_destination *)
Definition test_ftp_destination (token : string) (d : BackupDestination) (db : DB) : FTP unit :=
  _ ← ftp_session d db;
  let test_name := ".netbox-config-backup-test-" +:+ token in
  let remote_path := absolute_ftp_path (join_ftp_path (ds_base_path d) [test_name]) in
  finally
    (ftp_errors
       (DestinationError "DESTINATION_PATH_DENIED"
          "The FTP account cannot write to the configured destination path.")
       (DestinationError "DESTINATION_TEST_FAILED" "The FTP write verification failed.")
       (_ ← ftp_mkdirs (ds_base_path d);
        _ ← ftp_store remote_path ftp_test_payload;
        downloaded ← read_remote remote_path (Z.of_nat (length ftp_test_payload));
        if negb (bool_decide (downloaded = ftp_test_payload))
        then raise (verify_failed "The FTP test object could not be verified after upload.")
        else delete_verified remote_path))
    (_ ← delete_quietly remote_path; ftp_close_session).

(** ** Integrity audit *)

Definition ftp_audit_file (issue_limit : Z) (replica : RevisionReplica) (v : RevisionView)
    (expected_files : list ExpectedRemoteFile) (acc : bool * ReconciliationSummary)
    (e : ExpectedRemoteFile) : FTP (bool * ReconciliationSummary) :=
  let summary := acc.2 <| rs_checked_files ::= Z.succ |> in
  let revision_path := rp_remote_path replica in
  x ← verify_remote_file recursion_limit (join_ftp_path revision_path [ef_filename e]) e v
        revision_path expected_files;
  mret (record_file issue_limit replica v e acc.1 summary x).

Definition ftp_audit_replica (issue_limit : Z) (d : BackupDestination) (db : DB)
    (summary : ReconciliationSummary) (replica : RevisionReplica) : FTP ReconciliationSummary :=
  revision ← lift (require (DoesNotExist "ConfigRevision") (db_revisions db !! rp_revision replica));
  v ← lift (revision_view db revision);
  let revision_path := rp_remote_path replica in
  _ ← lift (validate_recorded_revision_path nfkd (ds_base_path d) v revision_path
              "RECONCILIATION_PATH_INVALID");
  expected_files ← lift (recorded_files nfkd v revision_path);
  let summary := summary <| rs_checked_replicas ::= Z.succ |> in
  acc ← for_fold expected_files (false, summary)
          (ftp_audit_file issue_limit replica v expected_files);
  mret (count_replica acc).

(* src: services/destination_ftp.py 94 249 reconcile_ftp_destination *)
Definition reconcile_ftp_destination (d : BackupDestination)
    (replicas : option (list RevisionReplica)) (issue_limit : Z) (db : DB)
    : FTP ReconciliationSummary :=
  let '(selected, skipped) := ftp_audit_selection d db replicas in
  let summary := initial_summary FTP_HEALTHY skipped in
  if bool_decide (is_Some replicas) && bool_decide (selected = [])
  then mret (summary <| rs_safe_message := "There are no available FTP revision copies to audit." |>)
  else
    _ ← ftp_session d db;
    summary ← finally
      (mapping is_ftp_error
         (λ _, DestinationError "DESTINATION_RECONCILIATION_FAILED"
            "The FTP integrity audit could not complete.")
         (for_fold selected summary (ftp_audit_replica issue_limit d db)))
      ftp_close_session;
    mret (finish_ftp_summary summary).

(** ** Replication *)

Definition path_denied : exn := DestinationError "DESTINATION_PATH_DENIED"
  "The FTP account cannot write to the configured destination path.".

(** One artifact: what was transferred so far and the primary storage. *)
(* src: services/destination_ftp.py 345 368 replicate_revision_ftp *)
Definition ftp_put_artifact (d : BackupDestination) (revision_path : string)
    (expected_files : list ExpectedRemoteFile) (acc : Z * files) (a : ConfigArtifact)
    : FTP (Z * files) :=
  match ds_max_artifact_size d with
  | None => raise TypeError
  | Some max_artifact_size =>
      if max_artifact_size <? ar_size a
      then raise (DestinationError "ARTIFACT_TOO_LARGE"
        "An artifact exceeds the configured FTP destination size limit.")
      else
        match st_get (ar_storage_key a) acc.2 with
        | (Err e, _) =>
            raise (if is_storage_error e
                   then DestinationError "PRIMARY_ARTIFACT_MISSING"
                     "A primary backup artifact could not be read for replication."
                   else e)
        | (Ok content, fs) =>
            let digest := sha256_hex content in
            if negb (Z.of_nat (length content) =? ar_size a)
               || negb (bool_decide (digest = ar_raw_hash a))
            then raise (DestinationError "PRIMARY_ARTIFACT_INVALID"
              "A primary backup artifact failed integrity verification.")
            else
              match file_of_type expected_files (ar_artifact_type a) with
              | None => raise KeyError
              | Some expected =>
                  let remote_file := join_ftp_path revision_path [ef_filename expected] in
                  written ← ftp_put_immutable remote_file content digest;
                  mret (acc.1 + (if (written : bool) then Z.of_nat (length content) else 0), fs)
              end
        end
  end.

(** The manifest is written last; one that is there must be the one of this
    revision. *)
(* src: services/destination_ftp.py 370 404 replicate_revision_ftp *)
Definition ftp_put_manifest (v : RevisionView) (revision_path : string)
    (expected_files : list ExpectedRemoteFile) (manifest : bytes) : FTP Z :=
  let manifest_path := join_ftp_path revision_path [MANIFEST_FILENAME] in
  let conflict := DestinationError "DESTINATION_CONFLICT" in
  manifest_exists ← remote_exists manifest_path;
  if (manifest_exists : bool)
  then
    existing ← mapping is_destination_error
      (λ _, conflict "The immutable FTP revision manifest could not be verified.")
      (read_remote manifest_path MAX_MANIFEST_BYTES);
    matches ← lift (manifest_matches_revision recursion_limit existing v revision_path expected_files);
    if negb matches
    then raise (conflict "A different manifest exists at the immutable FTP revision path.")
    else mret 0
  else
    written ← ftp_put_immutable manifest_path manifest (sha256_hex manifest);
    mret (if (written : bool) then Z.of_nat (length manifest) else 0).

(** The recorded path, or a fresh one, and its device directory. *)
(* src: services/destination_ftp.py 305 328 replicate_revision_ftp *)
Definition replication_path (d : BackupDestination) (v : RevisionView) (recorded : option string)
    : result (string * string) :=
  let fresh := ftp_revision_destination_path nfkd (ds_base_path d) (Some (vw_device_name v))
                 (vw_device_id v) (Aware (rv_created (vw_revision v)))
                 (Some (rv_pk (vw_revision v))) None in
  revision_path ← match recorded with
    | Some p => if bool_decide (p = "") then fresh else Ok p
    | None => fresh
    end;
  checked ← validate_recorded_revision_path nfkd (ds_base_path d) v revision_path
              "REPLICATION_PATH_INVALID";
  Ok (revision_path, checked.2).

Definition write_remote_copy (d : BackupDestination) (v : RevisionView) (revision_path : string)
    (expected_files : list ExpectedRemoteFile) (manifest : bytes) (fs : files) : FTP Z :=
  _ ← ftp_errors path_denied
        (DestinationError "DESTINATION_DIRECTORY_FAILED"
           "The FTP revision directory could not be prepared.")
        (ftp_mkdirs revision_path);
  acc ← ftp_errors path_denied
          (DestinationError "DESTINATION_ARTIFACT_FAILED"
             "An FTP revision artifact operation failed.")
          (for_fold (vw_artifacts v) (0, fs) (ftp_put_artifact d revision_path expected_files));
  transferred ← ftp_errors path_denied
          (DestinationError "DESTINATION_MANIFEST_FAILED"
             "The FTP revision manifest operation failed.")
          (ftp_put_manifest v revision_path expected_files manifest);
  mret (acc.1 + transferred).

(** A conflict of file names is found after the connection was opened, and
    leaves it open. *)
(* src: services/destination_ftp.py 292 438 replicate_revision_ftp *)
Definition replicate_revision_ftp (d : BackupDestination) (v : RevisionView)
    (recorded : option string) (db : DB) (fs : files) : FTP ReplicationResult :=
  if negb (ds_enabled d)
  then raise (DestinationError "DESTINATION_DISABLED" "The FTP destination is disabled.")
  else if bool_decide (vw_artifacts v = [])
  then raise (DestinationError "NO_ARTIFACTS" "The revision contains no backup artifacts.")
  else
    checked ← lift (replication_path d v recorded);
    let '(revision_path, device_directory) := checked in
    let readable_names := uses_readable_ftp_layout revision_path in
    let stem := readable_stem nfkd revision_path v in
    _ ← ftp_session d db;
    expected_files ← lift (expected_revision_files nfkd v readable_names stem (Some device_directory));
    transferred ← finally
      (write_remote_copy d v revision_path expected_files
         (build_manifest nfkd v readable_names stem (Some device_directory)) fs)
      ftp_close_session;
    mret {| rr_remote_path := revision_path; rr_bytes_transferred := transferred;
            rr_artifact_count := Z.of_nat (length (vw_artifacts v)) |}.
(** ** Deletion *)

Record ftp_deletion := { fd_deleted : Z; fd_missing : Z; fd_bytes : Z }.

(** Deletes one entry and looks again: a refused deletion is one only when
    the entry is still there. *)
(* src: services/destination_ftp.py 523 541 delete_revision_replica_ftp *)
Definition delete_entry (revision_path name : string) (allowed : gset string) (denied failed : exn)
    : FTP unit :=
  _ ← try_catch (ftp_delete (join_ftp_path revision_path [name]))
    (λ e,
       if is_error_perm e
       then
         after_error ← list_revision_directory revision_path;
         match after_error with
         | Some names => if bool_decide (name ∈ names) then raise denied else mret tt
         | None => mret tt
         end
       else raise e);
  after_delete ← list_revision_directory revision_path;
  match after_delete with
  | None => mret tt
  | Some names =>
      _ ← reject_unknown_entries names allowed;
      if bool_decide (name ∈ names) then raise failed else mret tt
  end.

(** Temporary files that an interrupted upload left behind. *)
Definition delete_temporary (revision_path : string) (allowed : gset string) (name : string)
    : FTP unit :=
  delete_entry revision_path name allowed
    (DestinationError "DESTINATION_DELETE_DENIED"
       "The FTP account could not delete an interrupted temporary file.")
    (DestinationError "DESTINATION_DELETE_FAILED"
       "An interrupted FTP temporary file still exists after deletion.").

(* src: services/destination_ftp.py 550 575 delete_revision_replica_ftp *)
Definition delete_expected (revision_path : string) (expected_names : gset string)
    (acc : ftp_deletion) (expected : ExpectedRemoteFile) : FTP ftp_deletion :=
  entries ← list_revision_directory revision_path;
  match entries with
  | Some names =>
      if bool_decide (ef_filename expected ∈ names)
      then
        _ ← reject_unknown_entries names expected_names;
        _ ← delete_entry revision_path (ef_filename expected) expected_names
              (DestinationError "DESTINATION_DELETE_DENIED"
                 "The FTP account could not delete an expected revision file.")
              (DestinationError "DESTINATION_DELETE_FAILED"
                 "An expected FTP revision file still exists after deletion.");
        mret {| fd_deleted := fd_deleted acc + 1; fd_missing := fd_missing acc;
                fd_bytes := fd_bytes acc + ef_size expected |}
      else mret {| fd_deleted := fd_deleted acc; fd_missing := fd_missing acc + 1;
                   fd_bytes := fd_bytes acc |}
  | None => mret {| fd_deleted := fd_deleted acc; fd_missing := fd_missing acc + 1;
                    fd_bytes := fd_bytes acc |}
  end.

(** Removes the empty directory, unless it is gone already. *)
(* src: services/destination_ftp.py 577 606 delete_revision_replica_ftp *)
Definition remove_directory (revision_path : string) : FTP unit :=
  remaining ← list_revision_directory revision_path;
  match remaining with
  | None => mret tt
  | Some names =>
      _ ← reject_unknown_entries names ∅;
      _ ← try_catch (_ ← ftp_cwd "/"; ftp_rmd revision_path)
        (λ e,
           if is_error_perm e
           then
             after_rmd ← list_revision_directory revision_path;
             match after_rmd with
             | Some _ => raise (DestinationError "DESTINATION_DIRECTORY_DELETE_FAILED"
                 "The empty FTP revision directory could not be removed.")
             | None => mret tt
             end
           else raise e);
      after ← list_revision_directory revision_path;
      match after with
      | None => mret tt
      | Some _ => raise (DestinationError "DESTINATION_DIRECTORY_DELETE_FAILED"
          "The FTP revision directory still exists after deletion.")
      end
  end.

(** [sorted(entries & temporary_names)] *)
Definition interrupted (names temporary : gset string) : list string :=
  sort_by string_leb (elements (names ∩ temporary)).

(** [sorted(expected_files, key=lambda item: item.filename == MANIFEST)] *)
Definition manifest_last (files : list ExpectedRemoteFile) : list ExpectedRemoteFile :=
  filter (λ e, ef_filename e ≠ MANIFEST_FILENAME) files
  ++ filter (λ e, ef_filename e = MANIFEST_FILENAME) files.

(** The body of the deletion; [None] when the copy was absent already. *)
Definition delete_remote_copy (revision_path : string) (expected_files : list ExpectedRemoteFile)
    : FTP (option ftp_deletion) :=
  let expected_names : gset string := list_to_set (map ef_filename expected_files) in
  let temporary_names : gset string :=
    list_to_set (map (λ e, ef_filename e +:+ ".part") expected_files) in
  let allowed := expected_names ∪ temporary_names in
  entries ← list_revision_directory revision_path;
  match entries with
  | None => mret None
  | Some names =>
      _ ← reject_unknown_entries names allowed;
      _ ← for_each (interrupted names temporary_names) (delete_temporary revision_path allowed);
      acc ← for_fold (manifest_last expected_files)
              {| fd_deleted := 0; fd_missing := 0; fd_bytes := 0 |}
              (delete_expected revision_path expected_names);
      _ ← remove_directory revision_path;
      mret (Some acc)
  end.

Definition check_filenames (names : list string) : result unit :=
  _ ← mapM validate_direct_filename names; Ok tt.

(* src: services/destination_ftp.py 441 625 delete_revision_replica_ftp *)
Definition delete_revision_replica_ftp (d : BackupDestination) (v : RevisionView)
    (replica : RevisionReplica) (db : DB) : FTP DeletedRevisionResult :=
  if negb (bool_decide (ds_protocol d = DP_FTP))
  then raise (DestinationError "DELETE_PROTOCOL_UNSUPPORTED"
    "Revision deletion is available only for FTP destinations.")
  else if negb (ds_enabled d)
  then raise (DestinationError "DESTINATION_DISABLED"
    "The FTP destination is disabled and no remote file was deleted.")
  else if bool_decide (rp_status replica ∈ [RP_QUEUED; RP_RUNNING])
  then raise (DestinationError "DELETE_REPLICA_BUSY"
    "An active FTP revision transfer cannot be deleted safely.")
  else if bool_decide (is_Some (rp_remote_deleted_at replica))
  then raise (DestinationError "DELETE_REPLICA_EXPIRED"
    "The FTP revision copy has already expired.")
  else
    let revision_path := rp_remote_path replica in
    _ ← lift (validate_recorded_revision_path nfkd (ds_base_path d) v revision_path
                "DELETE_PATH_INVALID");
    expected_files ← lift (recorded_files nfkd v revision_path);
    let names := map ef_filename expected_files in
    if negb (bool_decide (NoDup names))
    then raise (DestinationError "DELETE_FILESET_INVALID"
      "The FTP revision file set contains duplicate filenames.")
    else
      _ ← lift (check_filenames names);
      _ ← lift (check_filenames (map (λ name, name +:+ ".part") names));
      _ ← ftp_session d db;
      deleted ← finally
        (mapping is_ftp_error
           (λ _, DestinationError "DESTINATION_DELETE_FAILED"
              "The FTP revision copy could not be deleted safely.")
           (delete_remote_copy revision_path expected_files))
        ftp_close_session;
      let count := Z.of_nat (length expected_files) in
      mret match deleted with
           | None =>
               {| dr_remote_path := revision_path; dr_expected_file_count := count;
                  dr_deleted_file_count := 0; dr_missing_file_count := count; dr_deleted_bytes := 0;
                  dr_directory_removed := false; dr_already_absent := true |}
           | Some acc =>
               {| dr_remote_path := revision_path; dr_expected_file_count := count;
                  dr_deleted_file_count := fd_deleted acc; dr_missing_file_count := fd_missing acc;
                  dr_deleted_bytes := fd_bytes acc; dr_directory_removed := true;
                  dr_already_absent := false |}
           end.

(** ** Recovery into an archive *)

Definition too_large : exn := DestinationError "RECOVERY_PACKAGE_TOO_LARGE"
  "The FTP revision copy exceeds the configured recovery package size limit.".

(** [error_perm] and [error_temp] while a file is read. *)
Definition recovery_errors {A} (message : string) (m : FTP A) : FTP A :=
  mapping (λ e, is_error_perm e || is_error_temp e)
    (λ e, DestinationError
       (if is_error_perm e && says_550 e then "RECOVERY_FILE_MISSING" else "RECOVERY_FILE_UNREADABLE")
       message) m.

(* src: services/destination_ftp.py 703 743 write_verified_ftp_replica_to_archive *)
Definition recover_manifest (v : RevisionView) (revision_path member_name : string)
    (expected_files : list ExpectedRemoteFile) (remote_path : string)
    (max_total_bytes verified_bytes : Z) : FTP Z :=
  let remaining_bytes := max_total_bytes - verified_bytes in
  if remaining_bytes <=? 0 then raise too_large
  else
    content ← mapping (λ e, is_error_perm e || is_error_temp e || is_destination_error e)
      (λ e, if is_error_perm e
            then DestinationError
                   (if says_550 e then "RECOVERY_FILE_MISSING" else "RECOVERY_FILE_UNREADABLE")
                   "The FTP revision manifest could not be read."
            else DestinationError "RECOVERY_FILE_UNREADABLE"
                   "The FTP revision manifest could not be read safely.")
      (read_remote remote_path (Z.min MAX_MANIFEST_BYTES remaining_bytes));
    matches ← lift (manifest_matches_revision recursion_limit content v revision_path expected_files);
    if negb matches
    then raise (DestinationError "RECOVERY_HASH_MISMATCH"
      "The FTP revision manifest does not match its revision metadata.")
    else
      _ ← modify (λ s, s <| ss_output ::= λ l, l ++ [(member_name, content)] |>);
      mret (verified_bytes + Z.of_nat (length content)).

(** [write_chunk]: the digest is that of everything received. *)
(* src: services/destination_ftp.py 774 789 write_verified_ftp_replica_to_archive *)
Definition write_chunk (expected_size : Z) (received chunk : bytes) : FTP bytes :=
  if expected_size <? Z.of_nat (length (received ++ chunk))
  then raise (DestinationError "RECOVERY_SIZE_MISMATCH"
    "An FTP revision file changed while it was being downloaded.")
  else
    _ ← modify (λ s, s <| ss_output ::= append_last chunk |>);
    mret (received ++ chunk).

(* src: services/destination_ftp.py 745 821 write_verified_ftp_replica_to_archive *)
Definition recover_artifact (expected : ExpectedRemoteFile) (remote_path member_name : string)
    (verified_bytes : Z) : FTP Z :=
  remote_size ← recovery_errors "An expected file in the FTP revision copy could not be read."
    (_ ← ftp_type "I"; ftp_size remote_path);
  if negb (bool_decide (remote_size = Some (ef_size expected)))
  then raise (DestinationError "RECOVERY_SIZE_MISMATCH"
    "An FTP revision file no longer matches its recorded size.")
  else
    _ ← modify (λ s, s <| ss_output ::= λ l, l ++ [(member_name, [])] |>);
    received ← recovery_errors "An expected file in the FTP revision copy could not be downloaded."
      (ftp_retrbinary remote_path [] (write_chunk (ef_size expected)));
    let downloaded := Z.of_nat (length received) in
    if negb (downloaded =? ef_size expected)
    then raise (DestinationError "RECOVERY_SIZE_MISMATCH"
      "An FTP revision file was incomplete when downloaded.")
    else if negb (bool_decide (sha256_hex received = ef_sha256 expected))
    then raise (DestinationError "RECOVERY_HASH_MISMATCH"
      "An FTP revision file failed SHA256 integrity verification.")
    else mret (verified_bytes + downloaded).

Definition recover_file (v : RevisionView) (revision_path archive_prefix : string)
    (expected_files : list ExpectedRemoteFile) (max_total_bytes verified_bytes : Z)
    (expected : ExpectedRemoteFile) : FTP Z :=
  let filename := ef_filename expected in
  if negb (bool_decide (path_name filename = filename)) || bool_decide (filename ∈ [""; "."; ".."])
  then raise (DestinationError "RECOVERY_ARCHIVE_PATH_INVALID"
    "An FTP artifact filename could not be archived safely.")
  else
    let remote_path := join_ftp_path revision_path [filename] in
    let member_name := posix_join archive_prefix filename in
    if bool_decide (ef_artifact_type expected = "manifest")
    then recover_manifest v revision_path member_name expected_files remote_path
           max_total_bytes verified_bytes
    else recover_artifact expected remote_path member_name verified_bytes.

(* src: services/destination_ftp.py 628 836 write_verified_ftp_replica_to_archive *)
Definition write_verified_ftp_replica_to_archive (d : BackupDestination) (v : RevisionView)
    (replica : RevisionReplica) (archive_prefix : string) (max_total_bytes : Z) (db : DB)
    : FTP VerifiedFtpDownloadResult :=
  if negb (bool_decide (ds_protocol d = DP_FTP))
  then raise (DestinationError "RECOVERY_PROTOCOL_UNSUPPORTED"
    "A verified recovery package can currently be prepared only from FTP.")
  else if negb (bool_decide (rp_status replica = RP_SUCCESS))
  then raise (DestinationError "RECOVERY_REPLICA_NOT_READY"
    "The selected FTP revision copy has not completed successfully.")
  else if negb (rp_remote_available replica) || bool_decide (is_Some (rp_remote_deleted_at replica))
  then raise (DestinationError "RECOVERY_REPLICA_EXPIRED"
    "The selected FTP revision copy has expired and is no longer available.")
  else if is_absolute archive_prefix
          || bool_decide (Exists (λ part, part ∈ [""; "."; ".."]) (pure_parts archive_prefix))
  then raise (DestinationError "RECOVERY_ARCHIVE_PATH_INVALID"
    "The recovery archive path could not be generated safely.")
  else
    let revision_path := rp_remote_path replica in
    _ ← lift (validate_recorded_revision_path nfkd (ds_base_path d) v revision_path
                "RECOVERY_REMOTE_PATH_INVALID");
    expected_files ← lift (recorded_files nfkd v revision_path);
    let total_expected := foldr Z.add 0 (map ef_size
      (filter (λ e, ef_artifact_type e ≠ "manifest") expected_files)) in
    if (max_total_bytes <=? 0) || (max_total_bytes <? total_expected) then raise too_large
    else
      _ ← ftp_session d db;
      verified_bytes ← finally
        (mapping is_ftp_error
           (λ _, DestinationError "RECOVERY_DOWNLOAD_FAILED"
              "The verified FTP recovery package could not be downloaded.")
           (for_fold expected_files 0
              (recover_file v revision_path archive_prefix expected_files max_total_bytes)))
        ftp_close_session;
      mret {| vd_file_count := Z.of_nat (length expected_files);
              vd_verified_bytes := verified_bytes; vd_remote_path := revision_path |}.
End destination.
