(* ===== verification/FtpTrace.v ===== *)
(** * What the FTP operations send, whatever the server answers

    The commands of a session are bounded here without any assumption on the
    server: the audit and the recovery only read, a replication writes
    temporary files in its own directory and renames them, a deletion deletes
    files of its revision, the manifest last, and removes their directory.
    The recovery is safe against a server that lies: every member it
    completes has the recorded digest. *)

From Stdlib Require Import ZArith Lia Strings.Ascii.
From stdpp Require Import base gmap sets list strings pretty.
From S2P Require Import Prelude Strings Text Hashing Json Calendar Models World Storage.
From S2P Require Import DestinationPaths Destination RevisionFiles AuditSummary RecordedPaths Drivers.
From S2P Require Import FtpClient FtpSession FtpDestination.
#[local] Open Scope string_scope.
#[local] Open Scope list_scope.
#[local] Open Scope Z_scope.

(** ** Absolute paths made of plain components *)

Definition rooted (parts : list string) : string := "/" +:+ join "/" parts.

Lemma rooted_last_char ps : Forall plain_part ps → ps ≠ [] → last_char (rooted ps) ≠ Some slash.
Proof.
  intros Hps Hne Hl. unfold rooted in Hl. destruct (join "/" ps) as [|a t] eqn:E.
  - destruct Hps as [|p ps (Hp & _) _]; [done|]. destruct ps; simpl in E; [done|].
    by destruct p.
  - change ("/" +:+ String a t) with (("/" : string) +:+ String a t) in Hl.
    rewrite last_char_append, <-E in Hl. by apply join_last_char in Hl.
Qed.

Lemma join_rooted ps n :
  Forall plain_part ps → ps ≠ [] → plain_part n → join_ftp_path (rooted ps) [n] = rooted (ps ++ [n]).
Proof.
  intros Hps Hne Hn. unfold join_ftp_path. cbn [foldl].
  rewrite strip_right_id.
  - unfold posix_join. assert (is_absolute n = false) as -> by (by apply (join_relative [n]), list.Forall_singleton).
    rewrite (bool_decide_eq_false_2 (rooted ps = "")) by done.
    rewrite (bool_decide_eq_false_2 (last_char _ = _)) by by apply rooted_last_char.
    cbn [orb]. unfold rooted. by rewrite join_snoc.
  - intros a Ha. destruct (char_in "/" a) eqn:E; [|done]. apply char_in_slash in E as ->.
    by apply rooted_last_char in Ha.
Qed.

Lemma posix_join_rooted ps n :
  Forall plain_part ps → plain_part n → posix_join (rooted ps) n = rooted (ps ++ [n]).
Proof.
  intros Hps Hn. unfold posix_join.
  assert (is_absolute n = false) as -> by (by apply (join_relative [n]), list.Forall_singleton).
  rewrite (bool_decide_eq_false_2 (rooted ps = "")) by done. cbn [orb].
  destruct (decide (ps = [])) as [->|Hne]; [by rewrite bool_decide_eq_true_2|].
  rewrite (bool_decide_eq_false_2 (last_char _ = _)) by by apply rooted_last_char.
  unfold rooted. by rewrite join_snoc.
Qed.

(** ** The walk to the nearest parent that can be listed ends *)

Lemma split_tail_length s :
  (String.length (split_tail s).1 + String.length (split_tail s).2 = String.length s)%nat.
Proof.
  induction s as [|a s IH]; [done|]. cbn [split_tail]. destruct (split_tail s) as [h t]. cbn [fst snd] in IH.
  destruct (bool_decide (h = "") && _) eqn:E; cbn [fst snd String.length].
  - apply andb_true_iff in E as [->%bool_decide_eq_true _]. simpl in IH. lia.
  - lia.
Qed.

Lemma dirname_shorter s : posix_basename s ≠ "" → (String.length (posix_dirname s) < String.length s)%nat.
Proof.
  unfold posix_basename, posix_dirname. intros Hne. pose proof (split_tail_length s) as Hl.
  assert (String.length (split_tail s).2 ≠ 0)%nat by by destruct (split_tail s).2.
  cbv zeta. destruct (all_chars _ _); [lia|].
  pose proof (strip_right_length (char_in "/") (split_tail s).1). lia.
Qed.

(** The rounds a path can take: none once it is the root. *)
Definition rounds (current : string) : nat :=
  if bool_decide (current = "") || bool_decide (current = "/") then 0%nat else String.length current.

Lemma walk_rounds_length s : (rounds s <= String.length s)%nat.
Proof. unfold rounds. destruct (_ || _); lia. Qed.

Lemma parent_rounds current :
  posix_basename current ≠ "" →
  (rounds (if bool_decide (posix_dirname current = "") then "/" else posix_dirname current) < String.length current)%nat.
Proof.
  intros Hb. apply dirname_shorter in Hb. case_bool_decide; [exact (Nat.le_lt_trans _ _ _ (Nat.le_0_l _) Hb)|].
  eapply Nat.le_lt_trans; [apply walk_rounds_length|done].
Qed.

Lemma absent_from_fuel {R : Type} `{!FtpServer R} : ∀ f1 f2 current (s : Session R),
  (rounds current < f1)%nat → (rounds current < f2)%nat → absent_from f1 current s = absent_from f2 current s.
Proof.
  induction f1 as [|f1 IH]; intros [|f2] current s H1 H2; [lia..|]. cbn [absent_from].
  destruct (bool_decide (current = "") || bool_decide (current = "/")) eqn:Er; [done|].
  assert (rounds current = String.length current) as El by (unfold rounds; by rewrite Er).
  cbv zeta. destruct (decide (posix_basename current = "")) as [Hb|Hb].
  { by rewrite !(bool_decide_eq_true_2 _ Hb). }
  rewrite !(bool_decide_eq_false_2 _ Hb). apply parent_rounds in Hb.
  rewrite !M_bind_run. destruct (try_catch _ _ s) as [[[]|] s1]; try done. apply IH; lia.
Qed.

(** C40: The walk to the nearest parent directory that can be listed ends,
    whatever the server answers: beyond the length of the path the number of
    rounds allowed makes no difference to the result, the commands sent or
    the server. *)
Theorem parent_walk_ends {R : Type} `{!FtpServer R} path fuel (s : Session R) :
  (String.length path < fuel)%nat →
  absent_from fuel (strip_right (char_in "/") path) s = directory_absent_from_parent_listing path s.
Proof.
  intros Hf. unfold directory_absent_from_parent_listing.
  pose proof (strip_right_length (char_in "/") path) as Hs.
  pose proof (walk_rounds_length (strip_right (char_in "/") path)). apply absent_from_fuel; lia.
Qed.

Lemma split_tail_snoc h c :
  has_char slash c = false → split_tail (h +:+ String slash c) = (h +:+ "/", c).
Proof.
  intros Hc. assert (split_tail c = ("", c)) as Ec.
  { induction c as [|a c IH]; [done|]. cbn [has_char] in Hc. apply orb_false_iff in Hc as [Ha Hc].
    cbn [split_tail]. rewrite (IH Hc). apply bool_decide_eq_false in Ha.
    by rewrite (bool_decide_eq_false_2 (a = slash)). }
  induction h as [|a h IH].
  - change ("" +:+ String slash c) with (String slash c). cbn [split_tail]. by rewrite Ec.
  - change (String a h +:+ ?x) with (String a (h +:+ x)). cbn [split_tail]. rewrite IH.
    rewrite (bool_decide_eq_false_2 (h +:+ "/" = "")); [done|]. by destruct h.
Qed.

Lemma split_rooted ps c :
  Forall plain_part ps → plain_part c →
  posix_basename (rooted (ps ++ [c])) = c ∧
  (if bool_decide (posix_dirname (rooted (ps ++ [c])) = "") then "/"
   else posix_dirname (rooted (ps ++ [c]))) = rooted ps.
Proof.
  intros Hps (Hne & _ & _ & Hs). destruct (decide (ps = [])) as [->|Hp].
  - assert (split_tail (rooted [c]) = ("/", c)) as E by (by apply (split_tail_snoc "" c)).
    unfold posix_basename, posix_dirname. cbn [app]. rewrite E. by vm_compute.
  - assert (split_tail (rooted (ps ++ [c])) = (rooted ps +:+ "/", c)) as E.
    { unfold rooted. rewrite join_snoc by done. by apply (split_tail_snoc ("/" +:+ join "/" ps)). }
    unfold posix_basename, posix_dirname. rewrite E. cbn [fst snd]. split; [done|].
    assert (strip_right (char_in "/") (rooted ps +:+ "/") = rooted ps) as ->.
    { rewrite strip_right_app by done. apply strip_right_id. intros a Ha.
      destruct (char_in "/" a) eqn:Ea; [|done]. apply char_in_slash in Ea as ->.
      by apply rooted_last_char in Ha. }
    assert (all_chars (char_in "/") (rooted ps +:+ "/") = false) as ->; [|done].
    rewrite all_chars_app. apply andb_false_iff. left. destruct (all_chars _ (rooted ps)) eqn:Ea; [|done].
    apply path_parts_slashes in Ea. unfold rooted in Ea.
    change ("/" +:+ join "/" ps) with (String slash (join "/" ps)) in Ea.
    by rewrite path_parts_slash, path_parts_joined in Ea.
Qed.

Lemma finally_run {W A} (m : M W A) f w r w' : finally m f w = (r, w') →
  ∃ x w1 u, m w = (x, w1) ∧ f w1 = (u, w') ∧ (∀ a, r = Ok a → x = Ok a).
Proof.
  unfold finally. destruct (m w) as [x w1] eqn:E. destruct (f w1) as [[u|e] w2] eqn:Ef;
    intros [= <- <-]; by do 3 eexists.
Qed.

Lemma mapping_Ok {W A} matching err (m : M W A) w a w' : mapping matching err m w = (Ok a, w') → m w = (Ok a, w').
Proof. unfold mapping, try_catch. by destruct (m w) as [[b|e] w1]. Qed.

Section any_server.
Context {R : Type} `{!FtpServer R} `{Externals} `{!ConfigStorage}.
Context (nfkd : string → string) (recursion_limit : nat) (secret_providers : SecretProviderRegistry).
Abbreviation reads := (λ c, is_read c = true).

Lemma reads_allowed : allows_reads reads.
Proof. by intros c. Qed.
#[local] Hint Resolve reads_allowed : keeps.

Lemma keeps_ftp_session P (s0 : Session R) d db :
  allows_reads P → keeps (followed P s0) (ftp_session secret_providers d db).
Proof. intros HP. unfold ftp_session. auto with keeps. Qed.
#[local] Hint Resolve keeps_ftp_session : keeps.

(** ** Audit and recovery *)

(** An integrity audit changes nothing on the server. *)
Lemma audit_read_only d replicas limit db (s : Session R) r s' :
  reconcile_ftp_destination nfkd recursion_limit secret_providers d replicas limit db s = (r, s') →
  followed reads s s'.
Proof.
  apply keeps_followed_run. intros s0. unfold reconcile_ftp_destination.
  destruct (ftp_audit_selection d db replicas) as [selected skipped].
  unfold ftp_audit_replica, ftp_audit_file. keep_steps.
Qed.

(** *** The members of the archive *)

Definition same_output (o : list (string * bytes)) (s : Session R) : Prop := ss_output s = o.

Lemma same_output_exchange o c : keeps (same_output o) (exchange c).
Proof. intros s r s'. unfold exchange. by destruct (check_line c); intros [= <- <-]. Qed.
Lemma same_output_transfer o c : keeps (same_output o) (transfer c).
Proof. intros s r s'. unfold transfer. by destruct (check_line c); intros [= <- <-]. Qed.
Lemma same_output_open o b : keeps (same_output o) (modify (λ s, s <| ss_open := b |>)).
Proof. by intros s r s' [= <- <-]. Qed.
#[local] Hint Resolve same_output_exchange same_output_transfer same_output_open : keeps.

Lemma same_output_type o code : keeps (same_output o) (ftp_type code).
Proof. unfold ftp_type, voidcmd. keep_steps. Qed.
Lemma same_output_size o p : keeps (same_output o) (ftp_size p).
Proof. unfold ftp_size, sendcmd. keep_steps. Qed.
#[local] Hint Resolve same_output_type same_output_size : keeps.
Lemma same_output_read o p n : keeps (same_output o) (read_remote p n).
Proof. unfold read_remote, ftp_retrbinary, collect. keep_steps. Qed.
Lemma same_output_close o : keeps (same_output o) ftp_close_session.
Proof. unfold ftp_close_session, ftp_quit, ftp_close, voidcmd. keep_steps. Qed.
#[local] Hint Resolve same_output_close : keeps.
Lemma same_output_session o d db : keeps (same_output o) (ftp_session secret_providers d db).
Proof.
  unfold ftp_session, ftp_open_session, ftp_connect, ftp_login, sendcmd, voidcmd. cbv zeta. keep_steps.
Qed.

Lemma append_last_snoc chunk o name content :
  append_last chunk (o ++ [(name, content)]) = o ++ [(name, content ++ chunk)].
Proof. unfold append_last. by rewrite list.last_snoc, removelast_last. Qed.

Lemma write_chunks_run n o name chunks : ∀ received (s : Session R) content s',
  for_fold chunks received (write_chunk n) s = (Ok content, s') →
  ss_output s = o ++ [(name, received)] → ss_output s' = o ++ [(name, content)].
Proof.
  induction chunks as [|c chunks IH]; intros received s content s' Hrun Ho; cbn [for_fold] in Hrun.
  - by injection Hrun as <- <-.
  - apply M_bind_Ok in Hrun as (acc & s1 & Hw & Hrun). eapply IH; [exact Hrun|].
    unfold write_chunk in Hw. destruct (_ <? _); [done|]. injection Hw as <- <-.
    cbn. by rewrite Ho, append_last_snoc.
Qed.

Lemma retrbinary_run {B} p (start : B) callback (s : Session R) b s' :
  ftp_retrbinary p start callback s = (Ok b, s') →
  ∃ chunks s1, (∀ o, ss_output s = o → ss_output s1 = o) ∧ for_fold chunks start callback s1 = (Ok b, s').
Proof.
  unfold ftp_retrbinary. intros (u & s1 & Ht & Hrun)%M_bind_Ok.
  apply M_bind_Ok in Hrun as (t & s2 & Htr & Hrun).
  rewrite lift_bind_run in Hrun. destruct (open_transfer t); [|done].
  apply M_bind_Ok in Hrun as (b' & s3 & Hf & Hrun).
  rewrite lift_bind_run in Hrun. destruct (failed_with _); [|done].
  rewrite lift_bind_run in Hrun. destruct (voidresp _); [|done].
  injection Hrun as <- <-. exists (tf_chunks t), s2. split; [|done].
  intros o Ho. by eapply (same_output_transfer o), (same_output_type o), Ho.
Qed.

Lemma read_remote_length p n (s : Session R) content s' :
  read_remote p n s = (Ok content, s') → Z.of_nat (length content) <= n.
Proof.
  unfold read_remote. intros (size & s1 & _ & Hrun)%M_bind_Ok. destruct size as [size|]; [|done].
  destruct ((size <? 0) || (n <? size)) eqn:E; [done|]. apply M_bind_Ok in Hrun as (c & s2 & _ & Hrun).
  destruct (negb _) eqn:En; [done|]. injection Hrun as <- <-. lia.
Qed.

(** What the recovery has checked of a member. *)
Definition member_verified (v : RevisionView) (path : string) (files : list ExpectedRemoteFile)
    (e : ExpectedRemoteFile) (content : bytes) : Prop :=
  if bool_decide (ef_artifact_type e = "manifest")
  then manifest_matches_revision recursion_limit content v path files = Ok true
  else Z.of_nat (length content) = ef_size e ∧ sha256_hex content = ef_sha256 e.

Lemma recover_artifact_run e remote name vb (s : Session R) n s' :
  recover_artifact e remote name vb s = (Ok n, s') →
  ∃ content, ss_output s' = ss_output s ++ [(name, content)] ∧ n = vb + Z.of_nat (length content) ∧
    Z.of_nat (length content) = ef_size e ∧ sha256_hex content = ef_sha256 e.
Proof.
  unfold recover_artifact. intros (size & s1 & Hsize & Hrun)%M_bind_Ok.
  destruct (negb _); [done|]. rewrite modify_bind_run in Hrun.
  apply M_bind_Ok in Hrun as (content & s2 & Hret & Hrun). cbv zeta in Hrun.
  destruct (negb _) eqn:E1 in Hrun; [done|]. destruct (negb _) eqn:E2 in Hrun; [done|].
  injection Hrun as <- <-. apply negb_false_iff, Z.eqb_eq in E1.
  apply negb_false_iff, bool_decide_eq_true in E2. exists content. split_and!; [|done..].
  assert (ss_output s1 = ss_output s) as Ho.
  { apply mapping_Ok in Hsize. assert (keeps (same_output (ss_output s)) (_ ← ftp_type "I"; ftp_size remote))
      as Hk by keep_steps. by eapply Hk. }
  apply mapping_Ok, retrbinary_run in Hret as (chunks & s3 & H3 & Hf).
  eapply write_chunks_run; [exact Hf|]. apply H3. cbn. by rewrite Ho.
Qed.

Lemma recover_file_run v path prefix files max vb e (s : Session R) n s' :
  recover_file recursion_limit v path prefix files max vb e s = (Ok n, s') →
  ∃ content, ss_output s' = ss_output s ++ [(posix_join prefix (ef_filename e), content)] ∧
    n = vb + Z.of_nat (length content) ∧ member_verified v path files e content ∧
    (ef_artifact_type e = "manifest" → n <= max).
Proof.
  unfold recover_file, member_verified. destruct (negb _ || _); [done|]. cbv zeta.
  case_bool_decide as Ht; intros Hrun.
  - unfold recover_manifest in Hrun. cbv zeta in Hrun. destruct (_ <=? 0) eqn:E; [done|].
    apply M_bind_Ok in Hrun as (content & s1 & Hread & Hrun). apply mapping_Ok in Hread.
    rewrite lift_bind_run in Hrun. destruct (manifest_matches_revision _ _ _ _ _) as [[]|] eqn:Em; [|done..].
    injection Hrun as <- <-. exists content. apply read_remote_length in Hread as Hlen.
    cbn. rewrite (same_output_read _ _ _ _ _ _ Hread eq_refl). split_and!; [done..|]. lia.
  - apply recover_artifact_run in Hrun as (content & H1 & H2 & H3). by exists content.
Qed.

Lemma recover_files_run v path prefix all max files : ∀ vb (s : Session R) n s',
  for_fold files vb (recover_file recursion_limit v path prefix all max) s = (Ok n, s') →
  ∃ contents, Forall2 (member_verified v path all) files contents ∧
    ss_output s' = ss_output s ++ zip (map (λ e, posix_join prefix (ef_filename e)) files) contents ∧
    n = vb + foldr Z.add 0 (map (λ c, Z.of_nat (length c)) contents) ∧
    (∀ e, list.last files = Some e → ef_artifact_type e = "manifest" → n <= max).
Proof.
  induction files as [|e files IH]; intros vb s n s' Hrun; cbn [for_fold] in Hrun.
  - injection Hrun as <- <-. exists []. rewrite app_nil_r. simpl. split_and!; [constructor|done|lia|done].
  - apply M_bind_Ok in Hrun as (n1 & s1 & He & Hrun).
    apply recover_file_run in He as (c & Ho & -> & Hv & Hmax).
    apply IH in Hrun as (cs & Hvs & Ho' & -> & Hmax'). exists (c :: cs).
    split_and!; [by constructor|..].
    + rewrite Ho', Ho. cbn. by rewrite <-app_assoc.
    + simpl. lia.
    + intros e' Hl Ht. destruct files as [|e2 files]; [|by eapply Hmax'].
      injection Hl as ->. inversion Hvs; subst. specialize (Hmax Ht). simpl. lia.
Qed.

Lemma keeps_recover_file v path prefix files max vb e (s0 : Session R) :
  keeps (followed reads s0) (recover_file recursion_limit v path prefix files max vb e).
Proof.
  unfold recover_file, recover_manifest, recover_artifact, recovery_errors, write_chunk. cbv zeta.
  keep_steps; cbv zeta; keep_steps.
Qed.
#[local] Hint Resolve keeps_recover_file : keeps.

Lemma recorded_files_last v path files e :
  recorded_files nfkd v path = Ok files → list.last files = Some e → ef_artifact_type e = "manifest".
Proof.
  unfold recorded_files. intros (manifest & _ & Ht & -> & _)%expected_revision_files_spec.
  rewrite list.last_snoc. by intros [= <-].
Qed.

(** C37: The recovery of a copy from an FTP server, however the server answers,
    sends commands that read and no other, and when it succeeds the archive
    has one new member per expected file, in order, below the given prefix:
    every artifact has its recorded size and SHA-256 digest, the manifest is
    the one of the revision, and the members together are within the limit on
    the size of a package. *)
Theorem recovery_verified d v replica prefix max_total db (s : Session R) r s' :
  write_verified_ftp_replica_to_archive nfkd recursion_limit secret_providers d v replica prefix
    max_total db s = (r, s') →
  followed reads s s' ∧
  ∀ res, r = Ok res → ∃ files contents,
    recorded_files nfkd v (rp_remote_path replica) = Ok files ∧
    Forall2 (member_verified v (rp_remote_path replica) files) files contents ∧
    ss_output s' = ss_output s ++ zip (map (λ e, posix_join prefix (ef_filename e)) files) contents ∧
    vd_file_count res = Z.of_nat (length files) ∧
    vd_verified_bytes res = foldr Z.add 0 (map (λ c, Z.of_nat (length c)) contents) ∧
    vd_verified_bytes res <= max_total.
Proof.
  intros Hrun. split.
  { revert Hrun. apply keeps_followed_run. intros s0. unfold write_verified_ftp_replica_to_archive.
    cbv zeta. keep_steps. }
  intros res ->. unfold write_verified_ftp_replica_to_archive in Hrun.
  destruct (negb (bool_decide (ds_protocol d = DP_FTP))); [discriminate Hrun|].
  destruct (negb (bool_decide (rp_status replica = RP_SUCCESS))); [discriminate Hrun|].
  destruct (negb (rp_remote_available replica) || _); [discriminate Hrun|].
  destruct (is_absolute prefix || _); [discriminate Hrun|]. cbv zeta in Hrun.
  rewrite lift_bind_run in Hrun. destruct (validate_recorded_revision_path _ _ _ _ _) as [checked|]; [|done].
  rewrite lift_bind_run in Hrun. destruct (recorded_files _ _ _) as [files|] eqn:Hfiles; [|done].
  destruct ((max_total <=? 0) || _); [discriminate Hrun|].
  apply M_bind_Ok in Hrun as ([] & s1 & Hopen & Hrun).
  apply M_bind_Ok in Hrun as (n & s2 & Hfin & Hrun). injection Hrun as <- <-.
  apply finally_run in Hfin as (x & s3 & u & Hm & Hclose & Hx). rewrite (Hx n eq_refl) in Hm.
  apply mapping_Ok, recover_files_run in Hm as (contents & Hv & Ho & Hn & Hmax).
  exists files, contents. cbn [vd_file_count vd_verified_bytes]. split_and!; [done|done| |done|lia|].
  - rewrite (same_output_close _ _ _ _ Hclose eq_refl), Ho.
    by rewrite (same_output_session _ _ _ _ _ _ Hopen eq_refl).
  - destruct (list.last files) as [e|] eqn:El.
    + apply (Hmax e); [done|]. by eapply recorded_files_last.
    + unfold recorded_files in Hfiles. apply expected_revision_files_spec in Hfiles as (m & _ & _ & -> & _).
      by rewrite list.last_snoc in El.
Qed.

(** ** Deletion *)

(** A computation that sends commands of [P], then commands of [Q]. *)
Definition phased {A} (P Q : FtpCommand → Prop) (m : M (Session R) A) : Prop := ∀ s r s',
  m s = (r, s') → ∃ sm, followed P s sm ∧ followed Q sm s'.

Lemma phased_early {A} P Q (m : M (Session R) A) : (∀ s0, keeps (followed P s0) m) → phased P Q m.
Proof. intros Hm s r s' Hrun. exists s'. split; [by eapply keeps_followed_run|apply followed_refl]. Qed.

Lemma phased_late {A} P Q (m : M (Session R) A) : (∀ s0, keeps (followed Q s0) m) → phased P Q m.
Proof. intros Hm s r s' Hrun. exists s. split; [apply followed_refl|by eapply keeps_followed_run]. Qed.

Lemma phased_bind_early {A B} P Q (m : M (Session R) A) (f : A → M (Session R) B) :
  (∀ s0, keeps (followed P s0) m) → (∀ a, phased P Q (f a)) → phased P Q (m ≫= f).
Proof.
  intros Hm Hf s r s' Hrun. rewrite M_bind_run in Hrun. destruct (m s) as [[a|e] s1] eqn:E.
  - apply Hf in Hrun as (sm & H1 & H2). exists sm. split; [|done].
    eapply followed_trans, H1. by eapply keeps_followed_run.
  - injection Hrun as <- <-. exists s1. split; [by eapply keeps_followed_run|apply followed_refl].
Qed.

Lemma phased_bind_late {A B} P Q (m : M (Session R) A) (f : A → M (Session R) B) :
  phased P Q m → (∀ a s0, keeps (followed Q s0) (f a)) → phased P Q (m ≫= f).
Proof.
  intros Hm Hf s r s' Hrun. rewrite M_bind_run in Hrun. destruct (m s) as [[a|e] s1] eqn:E.
  - apply Hm in E as (sm & H1 & H2). exists sm. split; [done|].
    eapply followed_trans; [exact H2|]. eapply keeps_followed_run, Hrun. intros s0. apply Hf.
  - injection Hrun as <- <-. by eapply Hm.
Qed.

Lemma phased_finally {A} P Q (m : M (Session R) A) f :
  phased P Q m → (∀ s0, keeps (followed Q s0) f) → phased P Q (finally m f).
Proof.
  intros Hm Hf s r s' (x & s1 & u & E & Ef & _)%finally_run. apply Hm in E as (sm & H1 & H2).
  exists sm. split; [done|]. eapply followed_trans; [exact H2|]. by eapply keeps_followed_run.
Qed.

Lemma phased_mapping {A} P Q matching err (m : M (Session R) A) :
  phased P Q m → phased P Q (mapping matching err m).
Proof.
  intros Hm s r s'. unfold mapping, try_catch. destruct (m s) as [[a|e] s1] eqn:E;
    intros [= <- <-]; by eapply Hm.
Qed.

Lemma for_fold_app {W A B} (l1 l2 : list A) (body : B → A → M W B) : ∀ acc w,
  for_fold (l1 ++ l2) acc body w = (for_fold l1 acc body ≫= λ acc, for_fold l2 acc body) w.
Proof.
  induction l1 as [|x l1 IH]; intros acc w; [done|]. cbn [app for_fold]. rewrite !M_bind_run.
  destruct (body acc x w) as [[acc'|e] w1]; [|done]. by rewrite IH, M_bind_run.
Qed.

Lemma valid_filename_plain n : validate_direct_filename n = Ok tt → plain_part n.
Proof.
  unfold validate_direct_filename. destruct (_ || _) eqn:E; [done|]. intros _.
  rewrite !orb_false_iff in E. destruct E as (((((E1 & E2) & E3) & _) & _) & _).
  apply bool_decide_eq_false in E1, E3. apply negb_false_iff, bool_decide_eq_true in E2.
  split_and!; [done|set_solver..|]. unfold path_name in E2.
  destruct (list.last (path_parts n)) as [q|] eqn:El; [|by subst]. cbn [default] in E2.
  apply list.last_Some_elem_of, path_parts_in in El as (_ & _ & El). unfold id in E2. by subst q.
Qed.

Lemma check_filenames_plain names : check_filenames names = Ok tt → Forall plain_part names.
Proof.
  unfold check_filenames. intros (us & Hus & _)%result_bind_Ok. apply mapM_Ok in Hus.
  induction Hus as [|n [] names us Hn Hus IH]; constructor; [by apply valid_filename_plain|done].
Qed.

Section deletion.
Context (parts : list string) (Hparts : Forall plain_part parts) (Hne : parts ≠ []).

(** Before the manifest: reads, and deletions of expected files other than the
    manifest and of their temporary names. *)
Definition early_deletion (names : list string) (c : FtpCommand) : Prop :=
  is_read c = true ∨ ∃ n, n ∈ names ∧
    (c = F_dele (rooted (parts ++ [n +:+ ".part"])) ∨
     n ≠ MANIFEST_FILENAME ∧ c = F_dele (rooted (parts ++ [n]))).

(** After: the manifest and the directory. *)
Definition late_deletion (c : FtpCommand) : Prop :=
  is_read c = true ∨ c = F_dele (rooted (parts ++ [MANIFEST_FILENAME])) ∨ c = F_rmd (rooted parts).

Lemma early_reads names : allows_reads (early_deletion names).
Proof. by left. Qed.
Lemma late_reads : allows_reads late_deletion.
Proof. by left. Qed.
#[local] Hint Resolve early_reads late_reads : keeps.

Lemma keeps_delete_entry P (s0 : Session R) name allowed denied failed :
  allows_reads P → plain_part name → P (F_dele (rooted (parts ++ [name]))) →
  keeps (followed P s0) (delete_entry (rooted parts) name allowed denied failed).
Proof using Hparts Hne.
  intros HP Hname Hc. unfold delete_entry. rewrite join_rooted by done. keep_steps.
Qed.

Lemma keeps_delete_expected P (s0 : Session R) expected acc e :
  allows_reads P → plain_part (ef_filename e) → P (F_dele (rooted (parts ++ [ef_filename e]))) →
  keeps (followed P s0) (delete_expected (rooted parts) expected acc e).
Proof using Hparts Hne.
  intros HP Hname Hc. unfold delete_expected.
  apply keeps_bind; [auto with keeps|]. intros entries. case_match; [|auto with keeps].
  case_bool_decide; [|auto with keeps]. apply keeps_bind; [auto with keeps|]. intros _.
  apply keeps_bind; [by apply keeps_delete_entry|]. intros _. auto with keeps.
Qed.

Lemma keeps_remove_directory (s0 : Session R) :
  keeps (followed late_deletion s0) (remove_directory (rooted parts)).
Proof using.
  unfold remove_directory. assert (late_deletion (F_rmd (rooted parts))) by (by right; right). keep_steps.
Qed.

Lemma delete_remote_copy_phased files :
  Forall plain_part (map ef_filename files) →
  Forall plain_part (map (λ n, n +:+ ".part") (map ef_filename files)) →
  phased (early_deletion (map ef_filename files)) late_deletion
    (delete_remote_copy (rooted parts) files : M (Session R) _).
Proof using Hparts Hne.
  intros Hnames Htmp. rewrite list.Forall_forall in Hnames, Htmp. unfold delete_remote_copy. cbv zeta.
  apply phased_bind_early; [auto with keeps|]. intros [names|]; [|apply phased_early; auto with keeps].
  apply phased_bind_early; [auto with keeps|]. intros _.
  apply phased_bind_early.
  { intros s0. apply keeps_for_each_in. intros t [_ Ht]%elem_of_sort_by%elem_of_elements%elem_of_intersection.
    rewrite elem_of_list_to_set in Ht. apply list_elem_of_fmap in Ht as (e & -> & He).
    unfold delete_temporary. apply keeps_delete_entry; [auto with keeps|..].
    - apply Htmp, list_elem_of_fmap. exists (ef_filename e). split; [done|]. by apply list_elem_of_fmap_2.
    - right. exists (ef_filename e). split; [by apply list_elem_of_fmap_2|by left]. }
  intros _. apply phased_bind_late.
  - intros s r s' Hrun. unfold manifest_last in Hrun. rewrite for_fold_app in Hrun.
    refine (phased_bind_early _ _ _ _ _ _ s r s' Hrun).
    + intros s0. apply keeps_for_fold_in. intros acc e [Hm He]%list_elem_of_filter.
      assert (ef_filename e ∈ map ef_filename files) by by apply list_elem_of_fmap_2.
      apply keeps_delete_expected; [auto with keeps|by apply Hnames|].
      right. exists (ef_filename e). split; [done|by right].
    + intros acc. apply phased_late. intros s0. apply keeps_for_fold_in.
      intros acc' e [Hm He]%list_elem_of_filter.
      assert (ef_filename e ∈ map ef_filename files) by by apply list_elem_of_fmap_2.
      apply keeps_delete_expected; [auto with keeps|by apply Hnames|]. right. left. by rewrite Hm.
  - intros acc s0. apply keeps_bind; [apply keeps_remove_directory|]. auto with keeps.
Qed.
End deletion.

Lemma checked_path_rooted base v path error_code layout segment :
  validate_recorded_revision_path nfkd base v path error_code = Ok (layout, segment) →
  path = rooted (path_parts path) ∧ Forall plain_part (path_parts path) ∧ path_parts path ≠ [].
Proof.
  intros Hval. apply checked_path_string in Hval as Hp. destruct Hp as [Hpath Hplain].
  split_and!; [done..|]. apply recorded_path_parts in Hval as (_ & _ & _ & leaf & E & _). rewrite E.
  by intros [_ ?]%app_nil.
Qed.

(** A deletion either reads only, or runs [delete_remote_copy] on the checked
    path with the expected files. *)
Lemma delete_ftp_run d v replica db (s : Session R) r s' :
  delete_revision_replica_ftp nfkd secret_providers d v replica db s = (r, s') →
  s' = s ∧ is_ok r = false ∨
  ∃ layout segment files, let parts := path_parts (rp_remote_path replica) in
    validate_recorded_revision_path nfkd (ds_base_path d) v (rp_remote_path replica)
      "DELETE_PATH_INVALID" = Ok (layout, segment) ∧
    recorded_files nfkd v (rp_remote_path replica) = Ok files ∧
    Forall plain_part (map ef_filename files) ∧
    Forall plain_part (map (λ n, n +:+ ".part") (map ef_filename files)) ∧
    (followed reads s s' ∧ is_ok r = false ∨
     ∃ s1 x s2, followed reads s s1 ∧ delete_remote_copy (rooted parts) files s1 = (x, s2) ∧
       followed reads s2 s' ∧
       (∀ res, r = Ok res → ∃ o, x = Ok o ∧ dr_expected_file_count res = Z.of_nat (length files) ∧
          match o with
          | None => dr_already_absent res = true
          | Some acc => dr_deleted_file_count res = fd_deleted acc ∧
                        dr_missing_file_count res = fd_missing acc
          end)).
Proof.
  intros Hrun. unfold delete_revision_replica_ftp in Hrun.
  destruct (negb (bool_decide (ds_protocol d = DP_FTP))); [left; by injection Hrun as <- <-|].
  destruct (negb (ds_enabled d)); [left; by injection Hrun as <- <-|].
  destruct (bool_decide (rp_status replica ∈ _)); [left; by injection Hrun as <- <-|].
  destruct (bool_decide (is_Some _)); [left; by injection Hrun as <- <-|]. cbv zeta in Hrun.
  rewrite lift_bind_run in Hrun.
  destruct (validate_recorded_revision_path _ _ _ _ _) as [[layout segment]|] eqn:Hval;
    [|left; by injection Hrun as <- <-].
  rewrite lift_bind_run in Hrun.
  destruct (recorded_files _ _ _) as [files|] eqn:Hfiles; [|left; by injection Hrun as <- <-].
  destruct (negb (bool_decide (NoDup _))); [left; by injection Hrun as <- <-|].
  rewrite lift_bind_run in Hrun. destruct (check_filenames (map _ files)) as [[]|] eqn:Hn;
    [|left; by injection Hrun as <- <-].
  rewrite lift_bind_run in Hrun. destruct (check_filenames (map _ _)) as [[]|] eqn:Ht in Hrun;
    [|left; by injection Hrun as <- <-].
  right. apply checked_path_rooted in Hval as Hp. destruct Hp as (Hpath & _ & _).
  exists layout, segment, files. cbv zeta. rewrite <-Hpath.
  split_and!; [done..|by apply check_filenames_plain|by apply check_filenames_plain|].
  rewrite M_bind_run in Hrun. destruct (ftp_session secret_providers d db s) as [ro s1] eqn:Eo.
  assert (followed reads s s1) as H1 by (eapply keeps_followed_run, Eo; intros; auto with keeps).
  destruct ro as [u|e]; [|left; by injection Hrun as <- <-]. right.
  rewrite M_bind_run in Hrun. destruct (finally _ _ s1) as [rf s3] eqn:Ef.
  pose proof Ef as (x & s2 & u' & Hm & Hclose & Hx)%finally_run.
  unfold mapping, try_catch in Hm. destruct (delete_remote_copy _ _ s1) as [y sy] eqn:Ey.
  assert (sy = s2) as -> by (by destruct y; injection Hm as _ ->).
  assert (s3 = s') as -> by (by destruct rf; injection Hrun as _ ->).
  exists s1, y, s2. split_and!; [done..| |].
  - eapply keeps_followed_run, Hclose. intros; auto with keeps.
  - intros res ->. destruct rf as [o|e]; [|done]. rewrite (Hx o eq_refl) in Hm.
    destruct y as [o'|e]; [|done]. injection Hm as ->. exists o. split; [done|].
    injection Hrun as <-. by destruct o.
Qed.

(** C39: A deletion of a copy on an FTP server, however the server answers,
    sends nothing before the recorded path has passed its check and every name
    is a plain one; then the only files it deletes are the expected ones of
    the revision and their temporary names, in the recorded directory, the
    only directory it removes is that one, and it sends no other command that
    writes.  The manifest and the directory come last: all other deletions
    are over by then. *)
Theorem delete_ftp_confined d v replica db (s : Session R) r s' :
  delete_revision_replica_ftp nfkd secret_providers d v replica db s = (r, s') →
  s' = s ∧ is_ok r = false ∨
  ∃ layout segment files sm, let parts := path_parts (rp_remote_path replica) in
    validate_recorded_revision_path nfkd (ds_base_path d) v (rp_remote_path replica)
      "DELETE_PATH_INVALID" = Ok (layout, segment) ∧
    recorded_files nfkd v (rp_remote_path replica) = Ok files ∧
    rp_remote_path replica = rooted parts ∧ Forall plain_part (parts ++ map ef_filename files) ∧
    followed (early_deletion parts (map ef_filename files)) s sm ∧ followed (late_deletion parts) sm s'.
Proof.
  intros [?|(layout & segment & files & Hval & Hfiles & Hn & Ht & Hr)]%delete_ftp_run; [by left|right].
  apply checked_path_rooted in Hval as Hp. destruct Hp as (Hpath & Hplain & Hne).
  set (parts := path_parts (rp_remote_path replica)) in *. set (early := early_deletion parts (map ef_filename files)).
  assert (∀ t t' : Session R, followed reads t t' → followed early t t') as He
    by (intros t t'; apply followed_weaken; by left).
  assert (∀ t t' : Session R, followed reads t t' → followed (late_deletion parts) t t') as Hl
    by (intros t t'; apply followed_weaken; by left).
  enough (∃ sm, followed early s sm ∧ followed (late_deletion parts) sm s') as (sm & H1 & H2).
  { exists layout, segment, files, sm. cbv zeta. split_and!; [done..|by apply list.Forall_app|done|done]. }
  destruct Hr as [[Hr _]|(s1 & x & s2 & H1 & Hd & H2 & _)].
  - exists s'. split; [by apply He|apply followed_refl].
  - apply (delete_remote_copy_phased parts Hplain Hne files Hn Ht) in Hd as (sm & H3 & H4). exists sm.
    split; [eapply followed_trans; [by apply He|done]|eapply followed_trans; [done|by apply Hl]].
Qed.

(** ** Replication *)

Section replication.
Context (parts : list string) (Hparts : Forall plain_part parts) (Hne : parts ≠ []).

(** Reads, directories on the way to the copy, and for an expected name:
    writing its temporary file, renaming that to the name, deleting it. *)
Definition replication_command (names : list string) (c : FtpCommand) : Prop :=
  is_read c = true ∨ (∃ k, c = F_mkd (rooted (take k parts))) ∨
  ∃ n, n ∈ names ∧ let temporary := rooted (parts ++ [n +:+ ".part"]) in
    (∃ x, c = F_stor temporary x) ∨ c = F_rnfr temporary ∨
    c = F_rnto (rooted (parts ++ [n])) ∨ c = F_dele temporary.

Lemma replication_reads names : allows_reads (replication_command names).
Proof. by left. Qed.
#[local] Hint Resolve replication_reads : keeps.

Lemma keeps_mkdirs_along (P : FtpCommand → Prop) (s0 : Session R) :
  allows_reads P → (∀ k, P (F_mkd (rooted (take k parts)))) →
  keeps (followed P s0) (ftp_mkdirs (rooted parts)).
Proof.
  intros HP Hmkd. unfold ftp_mkdirs. apply keeps_bind; [|auto with keeps].
  assert (filter (λ p, p ∉ ["/"; ""; "."]) (pure_parts (rooted parts)) = parts) as ->.
  { unfold pure_parts. change (is_absolute (rooted parts)) with true.
    assert (path_parts (rooted parts) = parts) as ->.
    { unfold rooted. change ("/" +:+ ?x) with (String slash x). by rewrite path_parts_slash, path_parts_joined. }
    assert (posix_root (rooted parts) = "/") as ->
      by (apply (posix_root_single (join "/" parts)), join_relative, Hparts).
    cbn [app]. rewrite filter_cons_False by set_solver. apply filter_all_id. intros p Hp.
    rewrite list.Forall_forall in Hparts. destruct (Hparts p Hp) as (H1 & H2 & _ & H3).
    intros Hin. assert (p = "/") as -> by set_solver. done. }
  change "/" with (rooted []). assert (parts = [] ++ parts) as Hall by done.
  assert (∀ l done, parts = done ++ l → keeps (followed P s0) (for_fold l (rooted done) mkdir_step)) as Hk;
    [|by apply Hk].
  clear Hall. induction l as [|p l IH]; intros done Hall; cbn [for_fold]; [auto with keeps|].
  assert (Forall plain_part (done ++ p :: l)) as Hdl by by rewrite <-Hall.
  apply list.Forall_app in Hdl as [Hd Hl]. apply list.Forall_cons in Hl as [Hp Hl].
  assert (rooted (done ++ [p]) = posix_join (rooted done) p) as Hj by by rewrite posix_join_rooted.
  assert (∀ s0 : Session R, keeps (followed P s0) (mkdir_step (rooted done) p)) as Hstep.
  { intros s1. apply keeps_mkdir_step; [done|]. rewrite <-Hj. specialize (Hmkd (length (done ++ [p]))).
    assert (parts = (done ++ [p]) ++ l) as Hall' by by rewrite <-app_assoc.
    rewrite Hall', take_app_length in Hmkd. exact Hmkd. }
  intros s r s' Hrun Hs. rewrite M_bind_run in Hrun.
  destruct (mkdir_step (rooted done) p s) as [[cur|e] s1] eqn:E.
  - assert (cur = rooted (done ++ [p])) as ->.
    { unfold mkdir_step in E. apply M_bind_Ok in E as (u & s2 & _ & [= <- _]). done. }
    eapply (IH (done ++ [p])); [by rewrite <-app_assoc|exact Hrun|]. by eapply Hstep.
  - injection Hrun as <- <-. by eapply Hstep.
Qed.

Lemma keeps_put (P : FtpCommand → Prop) (s0 : Session R) n content digest :
  allows_reads P → plain_part n →
  (let temporary := rooted (parts ++ [n +:+ ".part"]) in
   (∀ x, P (F_stor temporary x)) ∧ P (F_rnfr temporary) ∧ P (F_dele temporary)) →
  P (F_rnto (rooted (parts ++ [n]))) →
  keeps (followed P s0) (ftp_put_immutable (join_ftp_path (rooted parts) [n]) content digest).
Proof using Hparts Hne.
  intros HP Hn (H1 & H2 & H3) H4. rewrite join_rooted by done.
  assert (rooted (parts ++ [n]) +:+ ".part" = rooted (parts ++ [n +:+ ".part"])) as He
    by (apply (f_equal (String slash)), join_append).
  apply keeps_ftp_put_immutable; [done|..]; by rewrite ?He.
Qed.

Lemma keeps_write_copy (s0 : Session R) d v files manifest fs :
  Forall plain_part (map ef_filename files) → MANIFEST_FILENAME ∈ map ef_filename files →
  keeps (followed (replication_command (map ef_filename files)) s0)
    (write_remote_copy recursion_limit d v (rooted parts) files manifest fs).
Proof.
  intros Hnames Hman. rewrite list.Forall_forall in Hnames.
  assert (∀ n content digest, n ∈ map ef_filename files →
    keeps (followed (replication_command (map ef_filename files)) s0)
      (ftp_put_immutable (join_ftp_path (rooted parts) [n]) content digest)) as Hput.
  { intros n content digest Hn. apply keeps_put; [auto with keeps|by apply Hnames|..].
    - split_and!; [intros x|..]; right; right; exists n; (split; [done|]); [left; by exists x|by right; left|].
      by do 3 right.
    - right. right. exists n. split; [done|]. by right; right; left. }
  unfold write_remote_copy, ftp_errors.
  apply keeps_bind; [apply keeps_mapping, keeps_mkdirs_along; [auto with keeps|]|intros _].
  { intros k. right. left. by exists k. }
  apply keeps_bind; [apply keeps_mapping, keeps_for_fold; intros acc a|intros acc].
  - unfold ftp_put_artifact. repeat case_match; try solve [auto with keeps].
    apply keeps_bind; [|auto with keeps]. apply Hput, list_elem_of_fmap_2. by eapply file_of_type_in.
  - apply keeps_bind; [|auto with keeps]. apply keeps_mapping. unfold ftp_put_manifest. cbv zeta.
    keep_steps.
Qed.
End replication.

Lemma replication_path_Ok d v recorded path segment :
  replication_path nfkd d v recorded = Ok (path, segment) →
  ∃ layout, validate_recorded_revision_path nfkd (ds_base_path d) v path
              "REPLICATION_PATH_INVALID" = Ok (layout, segment) ∧
  (∀ p, recorded = Some p → p ≠ "" → path = p).
Proof.
  unfold replication_path. cbv zeta. intros (p & Hp & Hrest)%result_bind_Ok.
  apply result_bind_Ok in Hrest as ([layout segment'] & Hv & [= <- <-]). exists layout. split; [done|].
  intros q -> Hq. by rewrite bool_decide_eq_false_2 in Hp by done; injection Hp.
Qed.

(** A replication either reads only, or runs [write_remote_copy] on a checked
    path with the expected files. *)
Lemma replicate_ftp_run d v recorded db fs (s : Session R) r s' :
  replicate_revision_ftp nfkd recursion_limit secret_providers d v recorded db fs s = (r, s') →
  followed reads s s' ∧ is_ok r = false ∨
  ∃ path segment files, replication_path nfkd d v recorded = Ok (path, segment) ∧
    expected_revision_files nfkd v (uses_readable_ftp_layout path) (readable_stem nfkd path v)
      (Some segment) = Ok files ∧
    ∃ s1 x s2, followed reads s s1 ∧
      write_remote_copy recursion_limit d v path files
        (build_manifest nfkd v (uses_readable_ftp_layout path) (readable_stem nfkd path v) (Some segment))
        fs s1 = (x, s2) ∧
      followed reads s2 s' ∧
      (∀ res, r = Ok res → is_ok x = true ∧ rr_remote_path res = path).
Proof.
  intros Hrun. unfold replicate_revision_ftp in Hrun.
  destruct (negb (ds_enabled d)); [left; injection Hrun as <- <-; split; [apply followed_refl|done]|].
  destruct (bool_decide (vw_artifacts v = [])); [left; injection Hrun as <- <-; split; [apply followed_refl|done]|].
  rewrite lift_bind_run in Hrun.
  destruct (replication_path nfkd d v recorded) as [[path segment]|] eqn:Hpath;
    [|left; injection Hrun as <- <-; split; [apply followed_refl|done]].
  cbv zeta in Hrun. rewrite M_bind_run in Hrun.
  destruct (ftp_session secret_providers d db s) as [ro s1] eqn:Eo.
  assert (followed reads s s1) as H1.
  { eapply keeps_followed_run, Eo. intros s0. auto with keeps. }
  destruct ro as [[]|e]; [|left; by injection Hrun as <- <-].
  rewrite lift_bind_run in Hrun.
  destruct (expected_revision_files _ _ _ _ _) as [files|] eqn:Hfiles; [|left; by injection Hrun as <- <-].
  right. exists path, segment, files. split_and!; [done..|].
  rewrite M_bind_run in Hrun. destruct (finally _ _ s1) as [rf s3] eqn:Ef.
  pose proof Ef as (x & s2 & u & Hw & Hclose & Hx)%finally_run.
  assert (s3 = s') as -> by (by destruct rf; injection Hrun as _ ->).
  exists s1, x, s2. split_and!; [done..| |].
  - eapply keeps_followed_run, Hclose. intros s0. auto with keeps.
  - intros res ->. destruct rf as [n|]; [|done]. rewrite (Hx n eq_refl). by injection Hrun as <-.
Qed.

End any_server.
