(* ===== verification/FtpFiles.v ===== *)
(** * What an FTP server that keeps files promises, and what the client's
      checks then establish

    [FtpServerLaws] states the documented behaviour of the commands on a tree
    of files: a command changes at most the object it names, a reply 2xx to a
    transfer means what was transferred, a listing of the working directory is
    complete.  Nothing is promised about the texts of replies, about the
    number of failures, or about what a failed command left at its object.
    Under these laws the checks of [FtpSession] are sound: a path that was
    found absent is absent, what was read back is in the file, and an object
    that exists is never replaced. *)

From Stdlib Require Import ZArith Lia Strings.Ascii.
From stdpp Require Import base gmap sets list strings.
From S2P Require Import Prelude Strings Text Hashing Json Models World.
From S2P Require Import DestinationPaths RevisionFiles AuditSummary RecordedPaths Drivers.
From S2P Require Import FtpClient FtpSession FtpTrace.
#[local] Open Scope string_scope.
#[local] Open Scope list_scope.
#[local] Open Scope Z_scope.

(** ** Which object a path names *)

(** Paths are resolved lexically: a server without links. *)
Definition ftp_target (p : string) : list string := foldl (norm_component true) [] (split_on slash p).

Lemma norm_component_plain acc c : plain_part c → norm_component true acc c = acc ++ [c].
Proof.
  intros Hc. exact (norm_components_id [c] acc (proj2 (list.Forall_singleton _ c) Hc)).
Qed.

Lemma target_rooted ps : Forall plain_part ps → ftp_target (rooted ps) = ps.
Proof.
  intros H. unfold ftp_target, rooted. change ("/" +:+ ?x) with (String slash x).
  cbn [split_on]. rewrite decide_True by done. cbn [foldl].
  change (norm_component _ [] "") with ([] : list string).
  destruct ps as [|p ps]; [done|]. change "/" with (String slash "").
  rewrite split_join; [by rewrite norm_components_id|done|].
  eapply list.Forall_impl; [exact H|]. by intros x (_ & _ & _ & ?).
Qed.

Lemma target_last p c :
  list.last (split_on slash p) = Some c → plain_part c → ∃ up, ftp_target p = up ++ [c].
Proof.
  intros Hl Hc. unfold ftp_target. destruct (split_on slash p) as [|x l _] using rev_ind; [done|].
  rewrite list.last_snoc in Hl. injection Hl as ->. rewrite foldl_app. cbn [foldl].
  rewrite norm_component_plain by done. by eexists.
Qed.

(** ** The laws *)

Inductive FtpNode := FDir | FFile (content : bytes).

(** The files a server keeps, by the components of their path, and the
    working directory of the session. *)
Class FtpTree (R : Type) := {
  tree_of : R → gmap (list string) FtpNode;
  cwd_of : R → list string;
}.

Definition is_file (n : option FtpNode) : Prop := ∃ x, n = Some (FFile x).

Class FtpServerLaws (R : Type) `{!FtpServer R, !FtpTree R} := {
  law_read c (r : R) : is_read c = true → tree_of (ftp_step r c) = tree_of r;
  law_mkd p (r : R) q : tree_of (ftp_step r (F_mkd p)) !! q = tree_of r !! q ∨
    q = ftp_target p ∧ tree_of r !! q = None ∧ tree_of (ftp_step r (F_mkd p)) !! q = Some FDir;
  law_rmd p (r : R) q : tree_of (ftp_step r (F_rmd p)) !! q = tree_of r !! q ∨
    q = ftp_target p ∧ ¬ is_file (tree_of r !! q) ∧ tree_of (ftp_step r (F_rmd p)) !! q = None;
  law_dele p (r : R) q : tree_of (ftp_step r (F_dele p)) !! q = tree_of r !! q ∨
    q = ftp_target p ∧ tree_of (ftp_step r (F_dele p)) !! q = None;
  law_stor p x (r : R) q : q ≠ ftp_target p → tree_of (ftp_step r (F_stor p x)) !! q = tree_of r !! q;
  (** A rename of a file replaces nothing but the object of the new name. *)
  law_rename p p' (s : Session R) r s' x : ftp_rename p p' s = (r, s') →
    tree_of (ss_server s) !! ftp_target p = Some (FFile x) →
    (∀ q, q ≠ ftp_target p → q ≠ ftp_target p' →
       tree_of (ss_server s') !! q = tree_of (ss_server s) !! q) ∧
    (tree_of (ss_server s') !! ftp_target p' = tree_of (ss_server s) !! ftp_target p' ∨
     tree_of (ss_server s') !! ftp_target p' = Some (FFile x)) ∧
    (r = Ok tt → tree_of (ss_server s') !! ftp_target p' = Some (FFile x));
  law_retr p (s : Session R) x s' : ftp_retrbinary p [] collect s = (Ok x, s') →
    tree_of (ss_server s') !! ftp_target p = Some (FFile x);
  law_cwd p (s : Session R) s' : ftp_cwd p s = (Ok tt, s') → cwd_of (ss_server s') = ftp_target p;
  (** A reply 550 that says so means that there is no such directory. *)
  law_cwd_missing p (s : Session R) e s' rest : ftp_cwd p s = (Err e, s') →
    is_error_perm e = true → is_missing e = true →
    tree_of (ss_server s') !! (ftp_target p ++ rest) = None;
  law_list (s : Session R) lines s' c rest : ftp_nlst None s = (Ok lines, s') →
    is_Some (tree_of (ss_server s') !! (cwd_of (ss_server s) ++ c :: rest)) →
    c ∈ lines ∨ rooted (cwd_of (ss_server s) ++ [c]) ∈ lines;
  (** Some servers report an empty directory as a missing one. *)
  law_list_empty (s : Session R) e s' c rest : ftp_nlst None s = (Err e, s') →
    is_error_perm e = true → is_missing e = true →
    tree_of (ss_server s') !! (cwd_of (ss_server s) ++ c :: rest) = None;
  law_list_file p (s : Session R) s' : ftp_nlst (Some p) s = (Ok [], s') →
    ¬ is_file (tree_of (ss_server s') !! ftp_target p);
  law_list_missing p (s : Session R) e s' : ftp_nlst (Some p) s = (Err e, s') →
    is_missing e = true → ¬ is_file (tree_of (ss_server s') !! ftp_target p);
}.

Section sound.
Context {R : Type} `{!FtpServer R, !FtpTree R, !FtpServerLaws R}.
Abbreviation reads := (λ c, is_read c = true).
Abbreviation FTP := (M (Session R)).

Definition tree (s : Session R) : gmap (list string) FtpNode := tree_of (ss_server s).

Lemma reads_tree (s s' : Session R) : followed reads s s' → tree s' = tree s.
Proof.
  intros H. pattern (ss_server s'). apply (followed_invariant reads (λ r, tree_of r = tree s) s s'); [|done..].
  intros c r Hc <-. by apply law_read.
Qed.

Lemma ftp_read_run {A} (m : FTP A) s r s' :
  (∀ s0, keeps (followed reads s0) m) → m s = (r, s') → tree s' = tree s.
Proof. intros Hm Hrun. apply reads_tree. by eapply keeps_followed_run. Qed.

Lemma reads_ok : allows_reads reads.
Proof. by intros c. Qed.
#[local] Hint Resolve reads_ok : keeps.

(** *** Absence *)

(** Nothing at the path, nor below it. *)
Definition absent (ps : list string) (s : Session R) : Prop := ∀ rest, tree s !! (ps ++ rest) = None.

Lemma plain_single c : plain_part c → path_parts c = [c].
Proof. intros (H1 & H2 & _ & H3). by apply path_parts_single. Qed.

Lemma plain_relative c : plain_part c → is_absolute c = false.
Proof. intros Hc. by apply (join_relative [c]), list.Forall_singleton. Qed.

Lemma rooted_parts ps : Forall plain_part ps → path_parts (rooted ps) = ps.
Proof.
  intros H. unfold rooted. change ("/" +:+ ?x) with (String slash x). by rewrite path_parts_slash, path_parts_joined.
Qed.

Lemma rooted_pure ps : Forall plain_part ps → pure_parts (rooted ps) = "/" :: ps.
Proof.
  intros H. unfold pure_parts. change (is_absolute (rooted ps)) with true.
  assert (posix_root (rooted ps) = "/") as -> by (by apply (posix_root_single (join "/" ps)), join_relative).
  by rewrite rooted_parts.
Qed.

(** A line that names a child gives its name, when it gives one at all. *)
Lemma listed_name_child ps c line o :
  Forall plain_part ps → plain_part c → line = c ∨ line = rooted (ps ++ [c]) →
  listed_name (rooted ps) line = Ok o → o = Some c.
Proof.
  intros Hps Hc Hline Hl. unfold listed_name in Hl. destruct (_ || _) in Hl; [done|].
  assert (path_name line = c) as En.
  { unfold path_name. destruct Hline as [-> | ->].
    - by rewrite plain_single.
    - rewrite rooted_parts by (by apply list.Forall_app; split; [|apply list.Forall_singleton]).
      by rewrite list.last_snoc. }
  destruct (is_absolute line && _); [done|]. destruct (negb _ && _); [done|]. cbv zeta in Hl.
  rewrite En in Hl. destruct Hc as (H1 & H2 & H3 & _).
  rewrite bool_decide_eq_false_2 in Hl by set_solver.
  destruct (validate_direct_filename c); [|done]. by injection Hl as <-.
Qed.

Lemma listed_names_child ps c lines names :
  Forall plain_part ps → plain_part c → c ∈ lines ∨ rooted (ps ++ [c]) ∈ lines →
  listed_names (rooted ps) lines = Ok names → c ∈ names.
Proof.
  intros Hps Hc. revert names. induction lines as [|l lines IH]; intros names Hin Hl; [set_solver|].
  cbn [listed_names] in Hl. apply result_bind_Ok in Hl as (o & Ho & Hl).
  apply result_bind_Ok in Hl as (ns & Hns & [= <-]).
  assert (l = c ∨ l = rooted (ps ++ [c]) ∨ (c ∈ lines ∨ rooted (ps ++ [c]) ∈ lines)) as [H|[H|H]] by set_solver.
  - rewrite (listed_name_child ps c l o) by (done || by left). set_solver.
  - rewrite (listed_name_child ps c l o) by (done || by right). set_solver.
  - apply (IH ns) in H; [|done]. destruct o; set_solver.
Qed.

Lemma absent_from_sound fuel : ∀ ps s s',
  Forall plain_part ps → absent_from fuel (rooted ps) s = (Ok true, s') → absent ps s'.
Proof.
  induction fuel as [|fuel IH]; intros ps s s' Hps Hrun; cbn [absent_from] in Hrun; [done|].
  destruct ps as [|c ps _] using rev_ind; [done|].
  destruct (_ || _) in Hrun; [done|]. apply list.Forall_app in Hps as [Hps Hc].
  apply list.Forall_cons in Hc as [Hc _]. destruct (split_rooted ps c Hps Hc) as [Hb Hd].
  cbv zeta in Hrun. rewrite Hb, Hd in Hrun. rewrite bool_decide_eq_false_2 in Hrun by apply Hc.
  apply M_bind_Ok in Hrun as (listing & s1 & Htry & Hrun). destruct listing as [| |lines].
  - apply IH in Hrun; [|done]. intros rest. rewrite <-app_assoc. apply Hrun.
  - done.
  - injection Hrun as Hn <-. destruct (listed_names (rooted ps) lines) as [names|] eqn:El; [|done].
    apply bool_decide_eq_true in Hn. unfold try_catch in Htry.
    destruct ((_ ← ftp_cwd (rooted ps); l ← ftp_nlst None; mret (Listed l)) s) as [[x|e] s2] eqn:E.
    + injection Htry as -> ->. apply M_bind_Ok in E as ([] & s3 & Hcwd & E).
      apply M_bind_Ok in E as (l & s4 & Hnlst & [= <- <-]).
      apply law_cwd in Hcwd. rewrite target_rooted in Hcwd by done. intros rest. rewrite <-app_assoc.
      destruct (tree s4 !! (ps ++ [c] ++ rest)) as [n|] eqn:Et; [|done]. destruct Hn.
      eapply listed_names_child, El; [done..|].
      pose proof (law_list _ _ _ c rest Hnlst) as H. rewrite Hcwd in H. apply H. by exists n.
    + destruct (is_error_perm e && _); [done|]. by destruct (is_ftp_error e).
Qed.

Lemma directory_absent_sound ps s s' :
  Forall plain_part ps → ps ≠ [] →
  directory_absent_from_parent_listing (rooted ps) s = (Ok true, s') → absent ps s'.
Proof.
  intros Hps Hne. unfold directory_absent_from_parent_listing. rewrite strip_right_id.
  - by apply absent_from_sound.
  - intros a Ha. destruct (char_in "/" a) eqn:E; [|done]. apply char_in_slash in E as ->.
    by apply rooted_last_char in Ha.
Qed.

(** A directory that was found missing is missing, with all below it. *)
Lemma list_directory_sound ps s s' :
  Forall plain_part ps → ps ≠ [] →
  list_revision_directory (rooted ps) s = (Ok None, s') → absent ps s'.
Proof.
  intros Hps Hne. unfold list_revision_directory. intros (entered & s1 & Htry & Hrun)%M_bind_Ok.
  destruct entered; cbn [negb] in Hrun.
  { apply M_bind_Ok in Hrun as (listing & s2 & _ & Hrun). destruct listing as [lines|]; [|done].
    apply M_bind_Ok in Hrun as (names & s3 & _ & Hrun). done. }
  injection Hrun as <-. unfold try_catch in Htry.
  destruct ((_ ← ftp_cwd (rooted ps); mret true) s) as [[b|e] s2] eqn:E.
  { apply M_bind_Ok in E as (u & s3 & _ & [= <- <-]). done. }
  apply M_bind_Err in E as [E|(u & s3 & _ & E)]; [|done].
  destruct (is_error_perm e) eqn:Ep; [|done]. apply M_bind_Ok in Htry as (ab & s3 & Hab & Hr).
  destruct ab; [|done]. injection Hr as <-. destruct (is_missing e) eqn:Em.
  - injection Hab as <-. intros rest. rewrite <-(target_rooted ps) by done. by eapply law_cwd_missing.
  - destruct (is_denied e); [done|]. by apply directory_absent_sound in Hab.
Qed.

(** A listing is complete. *)
Lemma list_directory_names ps s names s' c rest :
  Forall plain_part ps → plain_part c →
  list_revision_directory (rooted ps) s = (Ok (Some names), s') →
  is_Some (tree s' !! (ps ++ c :: rest)) → c ∈ names.
Proof.
  intros Hps Hc. unfold list_revision_directory. intros (entered & s1 & Htry & Hrun)%M_bind_Ok Hex.
  destruct entered; cbn [negb] in Hrun; [|done]. unfold try_catch in Htry.
  destruct ((_ ← ftp_cwd (rooted ps); mret true) s) as [[b|e] s2] eqn:E.
  2: { destruct (is_error_perm e); [|done]. apply M_bind_Ok in Htry as ([] & s3 & _ & Hr); done. }
  injection Htry as -> ->. apply M_bind_Ok in E as ([] & s3 & Hcwd & [= <-]).
  apply law_cwd in Hcwd. rewrite target_rooted in Hcwd by done.
  apply M_bind_Ok in Hrun as (listing & s4 & Hlist & Hrun). unfold try_catch in Hlist.
  destruct ((l ← ftp_nlst None; mret (Some l)) s3) as [[o|e] s5] eqn:El.
  - injection Hlist as -> ->. apply M_bind_Ok in El as (l & s6 & Hl & [= <- <-]).
    apply M_bind_Ok in Hrun as (ns & s7 & Hns & [= <- <-]). apply lift_Ok in Hns as [Hns ->].
    eapply listed_names_child, Hns; [done..|]. rewrite <-Hcwd. eapply law_list; [exact Hl|]. by rewrite Hcwd.
  - destruct (is_error_perm e) eqn:Ep; [|done]. destruct (is_missing e) eqn:Em; [|done].
    injection Hlist as <- <-. injection Hrun as <- <-.
    apply M_bind_Err in El as [El|(? & ? & _ & El)]; [|done].
    pose proof (law_list_empty _ _ _ c rest El Ep Em) as Hn. rewrite Hcwd in Hn.
    unfold tree in Hex. rewrite Hn in Hex. by destruct Hex.
Qed.

(** A file that was found missing is missing. *)
Lemma remote_exists_sound ps s s' :
  Forall plain_part ps → ps ≠ [] →
  remote_exists (rooted ps) s = (Ok false, s') → ¬ is_file (tree s' !! ps).
Proof.
  intros Hps Hne. unfold remote_exists, try_catch.
  destruct ((l ← ftp_nlst (Some (rooted ps)); mret (negb (bool_decide (l = [])))) s) as [[b|e] s1] eqn:E.
  - intros [= -> <-]. apply M_bind_Ok in E as (l & s2 & Hl & [= Hb <-]).
    apply negb_false_iff, bool_decide_eq_true in Hb as ->.
    apply law_list_file in Hl. by rewrite target_rooted in Hl.
  - apply M_bind_Err in E as [E|(l & s3 & _ & E)]; [|done].
    destruct (is_ftp_error e); [|done]. intros (ab & s3 & Hab & Hr)%M_bind_Ok. destruct ab; [|done].
    injection Hr as <-. destruct (is_missing e) eqn:Em.
    + injection Hab as <-. apply law_list_missing in E; [|done]. by rewrite target_rooted in E.
    + destruct (is_denied e); [done|]. apply directory_absent_sound in Hab; [|done..].
      specialize (Hab []). rewrite app_nil_r in Hab. rewrite Hab. by intros [? ?].
Qed.

(** *** Reading, writing, replacing *)

Lemma read_remote_sound p n s x s' : read_remote p n s = (Ok x, s') → tree s' !! ftp_target p = Some (FFile x).
Proof.
  unfold read_remote. intros (size & s1 & _ & Hrun)%M_bind_Ok. destruct size as [size|]; [|done].
  destruct (_ || _) in Hrun; [done|]. apply M_bind_Ok in Hrun as (c & s2 & Hret & Hrun).
  destruct (negb _) in Hrun; [done|]. injection Hrun as <- <-. by apply mapping_Ok, law_retr in Hret.
Qed.

(** What only [p] may change. *)
Definition only_at (p : string) (s s' : Session R) : Prop := ∀ q, q ≠ ftp_target p → tree s' !! q = tree s !! q.

Lemma only_at_run {A} p (P : FtpCommand → Prop) (m : FTP A) s r s' :
  (∀ c r q, P c → q ≠ ftp_target p → tree_of (ftp_step r c) !! q = tree_of r !! q) →
  (∀ s0, keeps (followed P s0) m) → m s = (r, s') → only_at p s s'.
Proof.
  intros HP Hm Hrun q Hq. assert (followed P s s') as Hf by by eapply keeps_followed_run.
  pattern (ss_server s'). apply (followed_invariant P (λ r, tree_of r !! q = tree s !! q) s s'); [|done..].
  intros c r0 Hc <-. by apply HP.
Qed.

Lemma store_frame p content s r s' : ftp_store p content s = (r, s') → only_at p s s'.
Proof.
  apply (only_at_run p (λ c, is_read c = true ∨ c = F_stor p content)).
  - intros c r0 q [Hc | ->] Hq; [by rewrite law_read|by apply law_stor].
  - intros s0. apply keeps_ftp_store; [by left|by right].
Qed.

Lemma delete_quietly_frame p s r s' : delete_quietly p s = (r, s') → only_at p s s'.
Proof.
  apply (only_at_run p (λ c, is_read c = true ∨ c = F_dele p)).
  - intros c r0 q [Hc | ->] Hq; [by rewrite law_read|]. by destruct (law_dele p r0 q) as [?|[? _]].
  - intros s0. apply keeps_delete_quietly. by right.
Qed.

(** What [ftp_put_immutable] may do to the objects of a name and of its
    temporary name: an object that exists under the name stays. *)
Definition put_effect (p digest : string) (s s' : Session R) : Prop :=
  (∀ q, q ≠ ftp_target p → q ≠ ftp_target (p +:+ ".part") → tree s' !! q = tree s !! q) ∧
  (tree s' !! ftp_target p = tree s !! ftp_target p ∨
   (∀ ps, Forall plain_part ps → ps ≠ [] → p = rooted ps → ¬ is_file (tree s !! ps)) ∧
   ∃ x, tree s' !! ftp_target p = Some (FFile x) ∧ sha256_hex x = digest).

Definition holds_digest (p digest : string) (s : Session R) : Prop :=
  ∃ x, tree s !! ftp_target p = Some (FFile x) ∧ sha256_hex x = digest.

(** The upload: up to the rename the object of the name is untouched. *)
Lemma upload_run p content digest s r s' :
  ftp_target p ≠ ftp_target (p +:+ ".part") →
  finally
    (_ ← ftp_store (p +:+ ".part") content;
     uploaded ← read_remote (p +:+ ".part") (Z.of_nat (length content));
     _ ← (if bool_decide (sha256_hex uploaded = digest) then mret tt
          else raise (verify_failed "The FTP artifact hash did not match after upload."));
     mapping is_ftp_error
       (λ _, DestinationError "DESTINATION_FINALIZE_FAILED"
          "The verified FTP artifact could not be finalized atomically.")
       (ftp_rename (p +:+ ".part") p))
    (delete_quietly (p +:+ ".part")) s = (r, s') →
  (∀ q, q ≠ ftp_target p → q ≠ ftp_target (p +:+ ".part") → tree s' !! q = tree s !! q) ∧
  (tree s' !! ftp_target p = tree s !! ftp_target p ∨ holds_digest p digest s') ∧
  (r = Ok tt → holds_digest p digest s').
Proof.
  intros Hne (x & s1 & u & Hbody & Hdel%delete_quietly_frame & Hx)%finally_run.
  unfold holds_digest. rewrite (Hdel (ftp_target p)) by done.
  enough ((∀ q, q ≠ ftp_target p → q ≠ ftp_target (p +:+ ".part") → tree s1 !! q = tree s !! q) ∧
    (tree s1 !! ftp_target p = tree s !! ftp_target p ∨
     ∃ x, tree s1 !! ftp_target p = Some (FFile x) ∧ sha256_hex x = digest) ∧
    (x = Ok tt → ∃ x, tree s1 !! ftp_target p = Some (FFile x) ∧ sha256_hex x = digest)) as (H1 & H2 & H3).
  { split_and!; [|done|auto]. intros q Hq Hq'. by rewrite Hdel, H1. }
  clear Hdel Hx. rewrite M_bind_run in Hbody.
  destruct (ftp_store _ content s) as [rs s2] eqn:Es. apply store_frame in Es.
  destruct rs as [[]|e].
  2: { injection Hbody as <- <-. split_and!; [by intros q _ Hq; apply Es|by left; apply Es|done]. }
  rewrite M_bind_run in Hbody. destruct (read_remote _ _ s2) as [rr s3] eqn:Er.
  assert (tree s3 = tree s2) as E3 by (eapply ftp_read_run, Er; intros; auto with keeps).
  destruct rr as [uploaded|e].
  2: { injection Hbody as <- <-. rewrite E3. split_and!; [by intros q _ Hq; apply Es|by left; apply Es|done]. }
  apply read_remote_sound in Er.
  destruct (bool_decide (sha256_hex uploaded = digest)) eqn:Ed.
  2: { injection Hbody as <- <-. rewrite E3. split_and!; [by intros q _ Hq; apply Es|by left; apply Es|done]. }
  apply bool_decide_eq_true in Ed. rewrite ret_bind_run in Hbody. unfold mapping, try_catch in Hbody.
  destruct (ftp_rename _ p s3) as [rn s4] eqn:En.
  destruct (law_rename _ _ _ _ _ _ En Er) as (Hother & Hat & Hok).
  assert (s4 = s1) as -> by (destruct rn; by injection Hbody as _ ->).
  unfold tree in *. split_and!.
  - intros q Hq Hq'. rewrite Hother, E3 by done. by apply Es.
  - destruct Hat as [Hat|Hat]; [left; rewrite Hat, E3; by apply Es|right; by exists uploaded].
  - intros ->. destruct rn as [[]|]; [|done]. exists uploaded. by split; [apply Hok|].
Qed.

Lemma put_run p content digest s r s' :
  ftp_target p ≠ ftp_target (p +:+ ".part") →
  ftp_put_immutable p content digest s = (r, s') →
  put_effect p digest s s' ∧ (∀ b, r = Ok b → holds_digest p digest s').
Proof.
  intros Hne Hrun. unfold ftp_put_immutable in Hrun. rewrite M_bind_run in Hrun.
  destruct (remote_exists p s) as [rp s1] eqn:Ex.
  assert (tree s1 = tree s) as E1 by (eapply ftp_read_run, Ex; intros; auto with keeps).
  assert (∀ t, tree t = tree s → put_effect p digest s t) as Hsame.
  { intros t Et. split; [by rewrite Et|left; by rewrite Et]. }
  destruct rp as [present|e]; [|injection Hrun as <- <-; by split; [apply Hsame|]].
  destruct present.
  - rewrite M_bind_run in Hrun. destruct ((read_remote p _ ≫= _) s1) as [rr s2] eqn:Er.
    assert (tree s2 = tree s1) as E2 by (eapply ftp_read_run, Er; intros; keep_steps).
    destruct rr as [existing|e]; [|injection Hrun as <- <-; split; [apply Hsame; congruence|done]].
    apply M_bind_Ok in Er as (c & s3 & Hread & [= <- ->]). apply read_remote_sound in Hread.
    cbv zeta in Hrun. case_bool_decide as Hd; injection Hrun as <- <-; (split; [apply Hsame; congruence|]); [|done].
    intros b _. by exists c.
  - rewrite ret_bind_run in Hrun. cbv zeta in Hrun. rewrite M_bind_run in Hrun.
    destruct (finally _ _ s1) as [ru s2] eqn:Eu. apply upload_run in Eu as (H1 & H2 & H3); [|done].
    assert (s' = s2) as -> by (by destruct ru; injection Hrun as _ ->). split.
    + split; [by intros q Hq Hq'; rewrite H1, E1|]. rewrite <-E1. destruct H2 as [H2|H2]; [by left|right].
      split; [|done]. intros ps Hps Hps' ->. rewrite E1. rewrite <-E1. by eapply remote_exists_sound.
    + intros b ->. destruct ru as [[]|]; [|done]. by apply H3.
Qed.
End sound.
