(* ===== verification/FtpCopies.v ===== *)
(** * Copies on an FTP server that keeps its promises

    Under the laws of [FtpFiles]: a replication never touches a file that
    exists, apart from temporary names, and leaves a complete copy when it
    succeeds; a deletion removes the files of its revision and nothing else,
    and all of the copy when it succeeds; an audit that reports success has
    read every expected file. *)

From Stdlib Require Import ZArith Lia Strings.Ascii.
From stdpp Require Import base gmap sets list strings.
From S2P Require Import Prelude Strings Text Hashing Json Models World Storage.
From S2P Require Import DestinationPaths Destination RevisionFiles AuditSummary RecordedPaths Drivers.
From S2P Require Import FtpClient FtpSession FtpDestination FtpTrace FtpFiles.
#[local] Open Scope string_scope.
#[local] Open Scope list_scope.
#[local] Open Scope Z_scope.

Lemma temporary_plain n : plain_part n → plain_part (n +:+ ".part").
Proof.
  intros (_ & _ & _ & Hs). split_and!; [..|by rewrite has_char_app, Hs];
    intros E; apply (f_equal (has_char "p"%char)) in E; by rewrite has_char_app, orb_true_r in E.
Qed.

Lemma temporary_rooted parts n : rooted (parts ++ [n]) +:+ ".part" = rooted (parts ++ [n +:+ ".part"]).
Proof. apply (f_equal (String slash)), join_append. Qed.

Lemma temporary_other n : n +:+ ".part" ≠ n.
Proof. intros H. apply (f_equal String.length) in H. rewrite string_length_app in H. simpl in H. lia. Qed.

(** No expected name is the temporary name of another. *)
Definition temporary_free (names : list string) : Prop := ∀ n m, n ∈ names → m ∈ names → n ≠ m +:+ ".part".

Section copies.
Context {R : Type} `{!FtpServer R, !FtpTree R, !FtpServerLaws R} `{Externals} `{!ConfigStorage}.
Context (nfkd : string → string) (recursion_limit : nat) (secret_providers : SecretProviderRegistry).
Abbreviation reads := (λ c, is_read c = true).

Lemma plain_snoc parts n : Forall plain_part parts → plain_part n → Forall plain_part (parts ++ [n]).
Proof. intros Hp Hn. apply list.Forall_app. by split; [|apply list.Forall_singleton]. Qed.

Lemma target_child parts n :
  Forall plain_part parts → plain_part n → ftp_target (rooted (parts ++ [n])) = parts ++ [n].
Proof. intros Hp Hn. by apply target_rooted, plain_snoc. Qed.

(** ** Replication *)

Section replication.
Context (parts : list string) (Hparts : Forall plain_part parts) (Hne : parts ≠ []).
Context (names : list string) (Hnames : ∀ n, n ∈ names → plain_part n).

(** From [t] to [t'], an object stays as it is, except temporary names; new
    are directories on the way to the copy and files under expected names. *)
Definition copied (t t' : gmap (list string) FtpNode) : Prop := ∀ q,
  t' !! q = t !! q ∨ (∃ n, n ∈ names ∧ q = parts ++ [n +:+ ".part"]) ∨
  ¬ is_file (t !! q) ∧ ((∃ k, q = take k parts) ∧ t !! q = None ∧ t' !! q = Some FDir ∨
                        (∃ n, n ∈ names ∧ q = parts ++ [n]) ∧ is_file (t' !! q)).

Lemma copied_refl t : copied t t.
Proof. by left. Qed.

Lemma copied_trans t1 t2 t3 : copied t1 t2 → copied t2 t3 → copied t1 t3.
Proof.
  intros H12 H23 q. destruct (H23 q) as [E|[Ht|[Hf [(Hk & Hn & Hd)|(Hn & Hd)]]]]; [by rewrite E|auto|..].
  - destruct (H12 q) as [E|[Ht|[Hf1 [(_ & _ & Hd')|(_ & Hx)]]]]; [|auto|congruence|].
    + right. right. rewrite <-E. split; [done|]. by left.
    + rewrite Hn in Hx. by destruct Hx.
  - destruct (H12 q) as [E|[Ht|[Hf1 [(_ & Hn1 & _)|(_ & Hx)]]]]; [|auto|..].
    + right. right. rewrite <-E. split; [done|]. by right.
    + right. right. split; [done|]. by right.
    + done.
Qed.

(** A file stays, with its content, unless its name is a temporary one. *)
Lemma copied_file t t' n x :
  temporary_free names → n ∈ names → copied t t' →
  t !! (parts ++ [n]) = Some (FFile x) → t' !! (parts ++ [n]) = Some (FFile x).
Proof using.
  intros Hfree Hn Hc Hx. destruct (Hc (parts ++ [n])) as [E|[(m & Hm & E)|[Hf _]]].
  - by rewrite E.
  - apply app_inj_tail in E as [_ E]. by destruct (Hfree n m Hn Hm).
  - destruct Hf. by exists x.
Qed.

Lemma put_copied n content digest (s : Session R) r s' :
  n ∈ names →
  ftp_put_immutable (join_ftp_path (rooted parts) [n]) content digest s = (r, s') →
  copied (tree s) (tree s') ∧
  (∀ b, r = Ok b → ∃ x, tree s' !! (parts ++ [n]) = Some (FFile x) ∧ sha256_hex x = digest).
Proof using Hparts Hne Hnames FtpServerLaws0.
  intros Hn Hrun. pose proof (Hnames n Hn) as Hplain. rewrite join_rooted in Hrun by done.
  pose proof (temporary_plain n Hplain) as Htmp.
  apply put_run in Hrun as [[Hother Hat] Hok].
  2: { rewrite temporary_rooted, !target_child by done. intros E%app_inj_tail.
       destruct E as [_ E]. by eapply temporary_other. }
  unfold holds_digest in Hok. rewrite temporary_rooted, !target_child in Hother by done.
  rewrite target_child in Hat, Hok by done. split; [|done].
  intros q. destruct (decide (q = parts ++ [n])) as [->|Hq].
  - destruct Hat as [Hat|[Hno (x & Hx & _)]]; [by left|]. right. right. split.
    + by apply (Hno _ (plain_snoc _ _ Hparts Hplain)); [by destruct parts|].
    + right. split; [by exists n|by exists x].
  - destruct (decide (q = parts ++ [n +:+ ".part"])) as [->|Hq'].
    + right. left. by exists n.
    + left. by apply Hother.
Qed.

Lemma mkdirs_copied (s : Session R) r s' :
  ftp_mkdirs (rooted parts) s = (r, s') → copied (tree s) (tree s').
Proof.
  intros Hrun.
  assert (followed (λ c, is_read c = true ∨ ∃ k, c = F_mkd (rooted (take k parts))) s s') as Hf.
  { eapply keeps_followed_run, Hrun. intros s0. apply (keeps_mkdirs_along nfkd); [done..|by left|].
    intros k. right. by exists k. }
  pattern (ss_server s'). eapply (followed_invariant _ (λ r, copied (tree s) (tree_of r))); [|exact Hf|apply copied_refl].
  intros c r0 [Hc|[k ->]] Hi; [by rewrite law_read|]. eapply copied_trans; [exact Hi|].
  intros q. destruct (law_mkd (rooted (take k parts)) r0 q) as [E|(Hq & H1 & H2)]; [by left|].
  rewrite target_rooted in Hq by by apply list.Forall_take. right. right. rewrite H1. split; [by intros [? ?]|].
  left. split_and!; [by exists k|done..].
Qed.

Lemma put_artifact_copied d files acc a (s : Session R) r s' :
  names = map ef_filename files →
  ftp_put_artifact d (rooted parts) files acc a s = (r, s') →
  copied (tree s) (tree s') ∧
  (∀ b, r = Ok b → ∃ e x, file_of_type files (ar_artifact_type a) = Some e ∧
     tree s' !! (parts ++ [ef_filename e]) = Some (FFile x) ∧ sha256_hex x = ar_raw_hash a).
Proof using Hparts Hne Hnames FtpServerLaws0.
  intros Hn Hrun. unfold ftp_put_artifact in Hrun.
  assert (∀ e, (Err e : result (Z * World.files), s) = (r, s') → copied (tree s) (tree s') ∧ ∀ b, r = Ok b → False) as Hstop.
  { intros e [= <- <-]. by split; [apply copied_refl|]. }
  assert (∀ Q : Prop, copied (tree s) (tree s') ∧ (∀ b, r = Ok b → False) →
    copied (tree s) (tree s') ∧ (∀ b, r = Ok b → Q)) as Hstop' by (intros Q [H1 H2]; split; [done|by intros b Hb; destruct (H2 b)]).
  destruct (ds_max_artifact_size d) as [m|]; [|by apply Hstop', (Hstop _ Hrun)].
  destruct (m <? ar_size a); [by apply Hstop', (Hstop _ Hrun)|].
  destruct (st_get _ _) as [[content|e] fs']; [|by apply Hstop', (Hstop _ Hrun)].
  cbv zeta in Hrun. destruct (negb _ || negb _) eqn:E; [by apply Hstop', (Hstop _ Hrun)|].
  apply orb_false_iff in E as [_ E%negb_false_iff%bool_decide_eq_true].
  destruct (file_of_type _ _) as [e|] eqn:Ee; [|by apply Hstop', (Hstop _ Hrun)].
  rewrite M_bind_run in Hrun.
  destruct (ftp_put_immutable _ _ _ s) as [rp s1] eqn:Ep.
  assert (s1 = s') as -> by (by destruct rp; injection Hrun as _ ->).
  apply put_copied in Ep as [Hc Hok]; [|rewrite Hn; by apply list_elem_of_fmap_2, (file_of_type_in _ _ _ Ee)].
  split; [done|]. intros b ->. destruct rp as [w|]; [|done].
  destruct (Hok w eq_refl) as (x & Hx & Hd). exists e, x. by rewrite <-E.
Qed.

(** The artifacts that are in place. *)
Definition in_place (files : list ExpectedRemoteFile) (a : ConfigArtifact)
    (t : gmap (list string) FtpNode) : Prop :=
  ∃ e x, file_of_type files (ar_artifact_type a) = Some e ∧
    t !! (parts ++ [ef_filename e]) = Some (FFile x) ∧ sha256_hex x = ar_raw_hash a.

Lemma in_place_copied files a t t' :
  names = map ef_filename files → temporary_free names → copied t t' →
  in_place files a t → in_place files a t'.
Proof using.
  intros Hn Hfree Hc (e & x & He & Hx & Hd). exists e, x. split_and!; [done| |done].
  eapply copied_file; [done| |done..]. rewrite Hn. by apply list_elem_of_fmap_2, (file_of_type_in _ _ _ He).
Qed.

Lemma put_artifacts_copied d files arts acc (s : Session R) r s' :
  names = map ef_filename files →
  for_fold arts acc (ftp_put_artifact d (rooted parts) files) s = (r, s') →
  copied (tree s) (tree s') ∧
  (∀ b, r = Ok b → temporary_free names → ∀ a, a ∈ arts → in_place files a (tree s')).
Proof.
  intros Hn. revert acc s. induction arts as [|a arts IH]; intros acc s Hrun; cbn [for_fold] in Hrun.
  - injection Hrun as <- <-. split; [apply copied_refl|]. set_solver.
  - rewrite M_bind_run in Hrun. destruct (ftp_put_artifact _ _ _ acc a s) as [ra s1] eqn:Ea.
    apply put_artifact_copied in Ea as [Hc Hok]; [|done].
    destruct ra as [acc'|e]; [|injection Hrun as <- <-; done].
    apply IH in Hrun as [Hc' Hok']. split; [by eapply copied_trans|].
    intros b -> Hfree a' [->|Ha']%elem_of_cons; [|by eapply Hok'].
    eapply in_place_copied; [done..|]. by apply (Hok acc').
Qed.

(** The manifest that is in place is the one written or one that matches. *)
Definition manifest_in_place (v : RevisionView) (path : string) (files : list ExpectedRemoteFile)
    (manifest : bytes) (t : gmap (list string) FtpNode) : Prop :=
  ∃ x, t !! (parts ++ [MANIFEST_FILENAME]) = Some (FFile x) ∧
    (sha256_hex x = sha256_hex manifest ∨
     manifest_matches_revision recursion_limit x v path files = Ok true).

Lemma manifest_plain : plain_part MANIFEST_FILENAME.
Proof. by split_and!. Qed.

Lemma put_manifest_copied v files manifest (s : Session R) r s' :
  MANIFEST_FILENAME ∈ names →
  ftp_put_manifest recursion_limit v (rooted parts) files manifest s = (r, s') →
  copied (tree s) (tree s') ∧ (∀ b, r = Ok b → manifest_in_place v (rooted parts) files manifest (tree s')).
Proof.
  intros Hin Hrun. unfold ftp_put_manifest in Hrun. cbv zeta in Hrun. rewrite M_bind_run in Hrun.
  destruct (remote_exists _ s) as [rp s1] eqn:Ex.
  assert (tree s1 = tree s) as E1 by (eapply ftp_read_run, Ex; intros; auto using reads_ok with keeps).
  assert (∀ t : Session R, tree t = tree s → copied (tree s) (tree t)) as Hsame
    by (intros t ->; apply copied_refl).
  destruct rp as [[]|e]; [| |injection Hrun as <- <-; by split; [apply Hsame|]].
  - rewrite M_bind_run in Hrun. destruct (mapping _ _ _ s1) as [rr s2] eqn:Er.
    assert (tree s2 = tree s1) as E2 by (eapply ftp_read_run, Er; intros; auto using reads_ok with keeps).
    destruct rr as [x|e]; [|injection Hrun as <- <-; split; [apply Hsame; congruence|done]].
    apply mapping_Ok, read_remote_sound in Er. rewrite lift_bind_run in Hrun.
    destruct (manifest_matches_revision _ _ _ _ _) as [b|] eqn:Em;
      [|injection Hrun as <- <-; split; [apply Hsame; congruence|done]].
    destruct b; cbn [negb] in Hrun; injection Hrun as <- <-; (split; [apply Hsame; congruence|]); [|done].
    intros b _. exists x. rewrite join_rooted in Er by (done || apply manifest_plain).
    rewrite target_child in Er by (done || apply manifest_plain). auto.
  - rewrite M_bind_run in Hrun. destruct (ftp_put_immutable _ _ _ s1) as [rw s2] eqn:Ep.
    assert (s2 = s') as -> by (by destruct rw; injection Hrun as _ ->).
    apply put_copied in Ep as [Hc Hok]; [|done]. rewrite E1 in Hc. split; [done|].
    intros b ->. destruct rw as [w|]; [|done]. destruct (Hok w eq_refl) as (x & Hx & Hd). exists x. auto.
Qed.

Lemma write_remote_copy_run d v files manifest fs (s : Session R) r s' :
  names = map ef_filename files → MANIFEST_FILENAME ∈ names →
  write_remote_copy recursion_limit d v (rooted parts) files manifest fs s = (r, s') →
  copied (tree s) (tree s') ∧
  (∀ b, r = Ok b → manifest_in_place v (rooted parts) files manifest (tree s') ∧
    (temporary_free names → ∀ a, a ∈ vw_artifacts v → in_place files a (tree s'))).
Proof.
  intros Hn Hin Hrun. unfold write_remote_copy, ftp_errors in Hrun. rewrite M_bind_run in Hrun.
  destruct (mapping _ _ (ftp_mkdirs _) s) as [rm s1] eqn:Em.
  assert (copied (tree s) (tree s1)) as H1.
  { unfold mapping, try_catch in Em. destruct (ftp_mkdirs _ s) as [rk s2] eqn:Ek.
    apply mkdirs_copied in Ek. by destruct rk; injection Em as _ <-. }
  destruct rm as [u|e]; [|injection Hrun as <- <-; done]. rewrite M_bind_run in Hrun.
  destruct (mapping _ _ (for_fold _ _ _) s1) as [ra s2] eqn:Ea.
  assert (copied (tree s1) (tree s2) ∧ (∀ b, ra = Ok b → temporary_free names → ∀ a, a ∈ vw_artifacts v →
    in_place files a (tree s2))) as [H2 Ha].
  { unfold mapping, try_catch in Ea. destruct (for_fold _ _ _ s1) as [rk s3] eqn:Ek.
    apply put_artifacts_copied in Ek as [? ?]; [|done]. by destruct rk; injection Ea as <- <-. }
  assert (copied (tree s) (tree s2)) as H12 by by eapply copied_trans.
  destruct ra as [acc|e]; [|injection Hrun as <- <-; done]. rewrite M_bind_run in Hrun.
  destruct (mapping _ _ (ftp_put_manifest _ _ _ _ _) s2) as [rp s3] eqn:Ep.
  assert (copied (tree s2) (tree s3) ∧ (∀ b, rp = Ok b → manifest_in_place v (rooted parts) files manifest (tree s3)))
    as [H3 Hm].
  { unfold mapping, try_catch in Ep. destruct (ftp_put_manifest _ _ _ _ _ s2) as [rk s4] eqn:Ek.
    apply put_manifest_copied in Ek as [? ?]; [|done]. by destruct rk; injection Ep as <- <-. }
  assert (s3 = s') as -> by (by destruct rp; injection Hrun as _ ->).
  split; [by eapply copied_trans|]. intros b ->. destruct rp as [n|]; [|done]. split; [by eapply Hm|].
  intros Hfree a Hin'. eapply in_place_copied; [done..|]. by apply (Ha acc).
Qed.
End replication.

(** C34: A replication to an FTP server that keeps its promises, whatever
    command fails, leaves every object as it was, except temporary names in
    the directory of the copy; it adds directories on the way there and
    files under expected names that had no file before.  When it reports
    success the manifest is the revision's and, when no expected name is
    another one with [.part] added, each artifact is there with its recorded
    digest: under such a pair of names the upload of one artifact destroys the
    other.  The artifact types of the revision are assumed to hold no slash. *)
Theorem replicate_ftp_complete d v recorded db fs (s : Session R) r s' :
  types_plain v →
  replicate_revision_ftp nfkd recursion_limit secret_providers d v recorded db fs s = (r, s') →
  tree s' = tree s ∧ is_ok r = false ∨
  ∃ path segment files, replication_path nfkd d v recorded = Ok (path, segment) ∧
    expected_revision_files nfkd v (uses_readable_ftp_layout path) (readable_stem nfkd path v)
      (Some segment) = Ok files ∧
    copied (path_parts path) (map ef_filename files) (tree s) (tree s') ∧
    (∀ res, r = Ok res → rr_remote_path res = path ∧
       manifest_in_place (path_parts path) v path files
         (build_manifest nfkd v (uses_readable_ftp_layout path) (readable_stem nfkd path v) (Some segment))
         (tree s') ∧
       (temporary_free (map ef_filename files) →
        ∀ a, a ∈ vw_artifacts v → in_place (path_parts path) files a (tree s'))).
Proof.
  intros Htypes Hrun. apply replicate_ftp_run in Hrun as
    [[Hr Hno]|(path & segment & files & Hpath & Hfiles & s1 & x & s2 & H1 & Hw & H2 & Hok)];
    [left; by split; [apply reads_tree|]|].
  right. exists path, segment, files. pose proof Hpath as (layout & Hval & _)%replication_path_Ok.
  apply checked_path_rooted in Hval as (Hp & Hplain & Hne).
  pose proof (expected_names_plain _ _ _ _ _ _ Htypes Hfiles) as Hnames. rewrite list.Forall_forall in Hnames.
  apply reads_tree in H1, H2. split_and!; [done..| |].
  - rewrite Hp in Hw at 1. apply (write_remote_copy_run _ Hplain Hne _ Hnames) in Hw as [Hc _];
      [by rewrite H2, <-H1|done|by eapply manifest_name_in].
  - intros res Hres. destruct (Hok res Hres) as [Hx Hrp]. split; [done|]. destruct x as [n|]; [|done].
    rewrite Hp in Hw at 1. apply (write_remote_copy_run _ Hplain Hne _ Hnames) in Hw as [_ Hc];
      [|done|by eapply manifest_name_in].
    destruct (Hc n eq_refl) as [Hm Ha]. rewrite H2. by rewrite <-Hp in Hm.
Qed.

(** ** Deletion *)

Section deletion.
Context (parts : list string) (Hparts : Forall plain_part parts) (Hne : parts ≠ []).
Context (names : list string) (Hnames : Forall plain_part names).
Context (Htmp : Forall plain_part (map (λ n, n +:+ ".part") names)).

(** From [t] to [t'], what is gone is the directory, an expected file or a
    temporary one; nothing else changed. *)
Definition cleared (t t' : gmap (list string) FtpNode) : Prop := ∀ q,
  t' !! q = t !! q ∨
  t' !! q = None ∧ (q = parts ∧ ¬ is_file (t !! q) ∨ ∃ n, n ∈ names ∧ (q = parts ++ [n] ∨ q = parts ++ [n +:+ ".part"])).

Lemma cleared_refl t : cleared t t.
Proof. by left. Qed.

Lemma cleared_trans t1 t2 t3 : cleared t1 t2 → cleared t2 t3 → cleared t1 t3.
Proof.
  intros H12 H23 q. destruct (H23 q) as [E|[Hn [[Hq Hf]|Hq]]]; [rewrite E; apply H12| |by right; auto].
  right. split; [done|]. destruct (H12 q) as [E|[_ H2]]; [|done]. left. by rewrite <-E.
Qed.

Lemma target_temporary n :
  n ∈ names → ftp_target (rooted (parts ++ [n])) = parts ++ [n] ∧
  ftp_target (rooted (parts ++ [n +:+ ".part"])) = parts ++ [n +:+ ".part"].
Proof using Hparts Hnames Htmp.
  intros Hn. rewrite list.Forall_forall in Hnames, Htmp. split; apply target_rooted, plain_snoc; try done.
  - by apply Hnames.
  - apply Htmp, list_elem_of_fmap. by exists n.
Qed.

Lemma followed_cleared (P : FtpCommand → Prop) (s s' : Session R) :
  (∀ c, P c → early_deletion parts names c ∨ late_deletion parts c) → MANIFEST_FILENAME ∈ names →
  followed P s s' → cleared (tree s) (tree s').
Proof using Hparts Hnames Htmp FtpServerLaws0.
  intros HP Hman Hf. pattern (ss_server s').
  eapply (followed_invariant P (λ r, cleared (tree s) (tree_of r))); [|exact Hf|apply cleared_refl].
  intros c r Hc Hi. eapply cleared_trans; [exact Hi|].
  assert (∀ n p, n ∈ names → (p = parts ++ [n] ∨ p = parts ++ [n +:+ ".part"]) → c = F_dele (rooted p) →
    cleared (tree_of r) (tree_of (ftp_step r c))) as Hdel.
  { intros n p Hn Hp -> q. destruct (target_temporary n Hn) as [E1 E2].
    destruct (law_dele (rooted p) r q) as [E|[Hq E]]; [by left|]. right. split; [done|]. right. exists n.
    split; [done|]. destruct Hp as [-> | ->]; [rewrite E1 in Hq; by left|rewrite E2 in Hq; by right]. }
  destruct (HP c Hc) as [[Hr|(n & Hn & [Hc'|[_ Hc']])]|[Hr|[Hc'|Hc']]].
  - intros q. left. by rewrite law_read.
  - by apply (Hdel n _ Hn (or_intror eq_refl)).
  - by apply (Hdel n _ Hn (or_introl eq_refl)).
  - intros q. left. by rewrite law_read.
  - by apply (Hdel _ _ Hman (or_introl eq_refl)).
  - intros q. rewrite Hc'. destruct (law_rmd (rooted parts) r q) as [E|(Hq & Hd & E)]; [by left|].
    right. split; [done|]. left. by rewrite target_rooted in Hq.
Qed.

Lemma remove_directory_absent (s : Session R) u s' :
  remove_directory (rooted parts) s = (Ok u, s') → absent parts s'.
Proof using Hparts Hne FtpServerLaws0.
  unfold remove_directory. intros (o & s1 & Hl & Hrun)%M_bind_Ok. destruct o as [ns|].
  - apply M_bind_Ok in Hrun as (u1 & s2 & _ & Hrun). apply M_bind_Ok in Hrun as (u2 & s3 & _ & Hrun).
    apply M_bind_Ok in Hrun as (o & s4 & Hl2 & Hrun). destruct o; [done|].
    injection Hrun as _ <-. by apply list_directory_sound in Hl2.
  - injection Hrun as _ <-. by apply list_directory_sound in Hl.
Qed.

Lemma delete_expected_count expected (s : Session R) acc e b s' :
  delete_expected (rooted parts) expected acc e s = (Ok b, s') →
  fd_deleted b + fd_missing b = fd_deleted acc + fd_missing acc + 1.
Proof using.
  unfold delete_expected. intros (o & s1 & _ & Hrun)%M_bind_Ok.
  destruct o as [ns|]; [|injection Hrun as <- _; simpl; lia].
  case_bool_decide; [|injection Hrun as <- _; simpl; lia].
  apply M_bind_Ok in Hrun as (u1 & s2 & _ & Hrun). apply M_bind_Ok in Hrun as (u2 & s3 & _ & Hrun).
  injection Hrun as <- _. simpl. lia.
Qed.

Lemma manifest_last_length files : length (manifest_last files) = length files.
Proof using.
  unfold manifest_last. rewrite length_app. induction files as [|e files IH]; [done|].
  rewrite !filter_cons. repeat case_decide; try done; simpl; lia.
Qed.

Lemma delete_files_total expected files : ∀ acc (s : Session R) b s',
  for_fold files acc (delete_expected (rooted parts) expected) s = (Ok b, s') →
  fd_deleted b + fd_missing b = fd_deleted acc + fd_missing acc + Z.of_nat (length files).
Proof using.
  induction files as [|e files IH]; intros acc s b s' Hrun; cbn [for_fold] in Hrun.
  - injection Hrun as <- _. simpl. lia.
  - apply M_bind_Ok in Hrun as (a & s1 & He & Hrun). apply IH in Hrun. apply delete_expected_count in He.
    cbn [length]. lia.
Qed.

(** A child with an unexpected name stops the deletion at the first look. *)
Lemma delete_remote_copy_unknown files c rest (s : Session R) r s' :
  plain_part c → c ∉ map ef_filename files → c ∉ map (λ e, ef_filename e +:+ ".part") files →
  is_Some (tree s !! (parts ++ c :: rest)) →
  delete_remote_copy (rooted parts) files s = (r, s') → followed reads s s' ∧ is_ok r = false.
Proof using Hparts Hne FtpServerLaws0.
  intros Hc Hn Ht Hex Hrun. unfold delete_remote_copy in Hrun. cbv zeta in Hrun. rewrite M_bind_run in Hrun.
  destruct (list_revision_directory _ s) as [ro s1] eqn:El.
  assert (followed reads s s1) as H1 by (eapply keeps_followed_run, El; intros; auto using reads_ok with keeps).
  pose proof (reads_tree _ _ H1) as E1. rewrite <-E1 in Hex.
  destruct ro as [[ns|]|e]; [| |by injection Hrun as <- <-].
  - pose proof (list_directory_names _ _ _ _ _ _ Hparts Hc El Hex) as Hin.
    unfold reject_unknown_entries in Hrun. rewrite bool_decide_eq_false_2 in Hrun.
    + by injection Hrun as <- <-.
    + intros Hsub. apply Hsub, elem_of_union in Hin. rewrite !elem_of_list_to_set in Hin. by destruct Hin.
  - apply list_directory_sound in El; [|done..]. rewrite (El (c :: rest)) in Hex. by destruct Hex.
Qed.
End deletion.

(** What a deletion does to the tree. *)
Lemma delete_ftp_effect d v replica db (s : Session R) r s' :
  let parts := path_parts (rp_remote_path replica) in
  delete_revision_replica_ftp nfkd secret_providers d v replica db s = (r, s') →
  tree s' = tree s ∧ is_ok r = false ∨
  ∃ files, recorded_files nfkd v (rp_remote_path replica) = Ok files ∧
    Forall plain_part parts ∧ parts ≠ [] ∧ rp_remote_path replica = rooted parts ∧
    Forall plain_part (map ef_filename files) ∧
    cleared parts (map ef_filename files) (tree s) (tree s') ∧
    (∀ c rest, plain_part c → c ∉ map ef_filename files →
       c ∉ map (λ n, n +:+ ".part") (map ef_filename files) →
       is_Some (tree s !! (parts ++ c :: rest)) → tree s' = tree s ∧ is_ok r = false) ∧
    (∀ res, r = Ok res → absent parts s' ∧
       (dr_already_absent res = true ∨
        dr_deleted_file_count res + dr_missing_file_count res = dr_expected_file_count res)).
Proof.
  intros parts [[-> Hr]|(layout & segment & files & Hval & Hfiles & Hn & Ht & Hrun)]%delete_ftp_run; [by left|].
  destruct Hrun as [[Hreads Hr]|(s1 & x & s2 & H1 & Hd & H2 & Hok)]; [left; by split; [apply reads_tree|]|].
  right. exists files. apply checked_path_rooted in Hval as (Hpath & Hplain & Hne).
  fold parts in Hpath, Hplain, Hne, Hd. apply reads_tree in H1 as E1, H2 as E2.
  assert (MANIFEST_FILENAME ∈ map ef_filename files) as Hman by by eapply manifest_name_in.
  split_and!; [done..| | |].
  - rewrite E2, <-E1. pose proof Hd as (sm & H3 & H4)%(delete_remote_copy_phased parts Hplain Hne files Hn Ht).
    eapply cleared_trans; eapply (followed_cleared parts Hplain _ Hn Ht); [|done|exact H3| |done|exact H4]; auto.
  - intros c rest Hc Hcn Hct Hex. rewrite map_map in Hct. rewrite <-E1 in Hex.
    pose proof (delete_remote_copy_unknown parts Hplain Hne files c rest _ _ _ Hc Hcn Hct Hex Hd) as [H3 Hx].
    apply reads_tree in H3 as E3. rewrite E2, E3, E1. split; [done|].
    destruct r as [res|]; [|done]. by destruct (Hok res eq_refl) as (o & -> & _).
  - intros res Hres. destruct (Hok res Hres) as (o & -> & Hcount & Ho).
    unfold absent. rewrite E2. clear E1 E2 H1 H2 Hok. unfold delete_remote_copy in Hd. cbv zeta in Hd.
    apply M_bind_Ok in Hd as (entries & s3 & Hl & Hd). destruct entries as [ns|].
    + apply M_bind_Ok in Hd as (u1 & s4 & _ & Hd). apply M_bind_Ok in Hd as (u2 & s5 & _ & Hd).
      apply M_bind_Ok in Hd as (acc & s6 & Hfold & Hd). apply M_bind_Ok in Hd as (u3 & s7 & Hrm & Hd).
      injection Hd as <- <-. destruct Ho as [-> ->]. split; [by eapply remove_directory_absent|]. right.
      apply delete_files_total in Hfold. rewrite manifest_last_length in Hfold. simpl in Hfold.
      by rewrite Hfold, Hcount.
    + injection Hd as <- <-. split; [by apply list_directory_sound in Hl|by left].
Qed.

(** C35: A deletion on an FTP server that keeps its promises, whatever command
    fails, removes nothing but the expected files of its revision, their
    temporary names and the directory of the copy, and changes nothing else.
    If that directory holds anything under another name it changes nothing at
    all.  When it reports success nothing is left at or below the recorded
    path; the counts add up to the expected files, unless it was absent. *)
Theorem delete_ftp_exact d v replica db (s : Session R) r s' :
  let parts := path_parts (rp_remote_path replica) in
  delete_revision_replica_ftp nfkd secret_providers d v replica db s = (r, s') →
  tree s' = tree s ∧ is_ok r = false ∨
  ∃ files, recorded_files nfkd v (rp_remote_path replica) = Ok files ∧
    let names := map ef_filename files in
    cleared parts names (tree s) (tree s') ∧
    (∀ c rest, plain_part c → c ∉ names → c ∉ map (λ n, n +:+ ".part") names →
       is_Some (tree s !! (parts ++ c :: rest)) → tree s' = tree s ∧ is_ok r = false) ∧
    (∀ res, r = Ok res → absent parts s' ∧
       (dr_already_absent res = true ∨
        dr_deleted_file_count res + dr_missing_file_count res = dr_expected_file_count res)).
Proof.
  intros parts [?|(files & Hfiles & _ & _ & _ & _ & Hrest)]%delete_ftp_effect; [by left|right].
  by exists files.
Qed.

(** ** Integrity audit *)

(** The object of an expected file holds what the revision says. *)
Definition file_sound (v : RevisionView) (path : string) (files : list ExpectedRemoteFile)
    (t : gmap (list string) FtpNode) (e : ExpectedRemoteFile) : Prop :=
  ∃ x, t !! ftp_target (join_ftp_path path [ef_filename e]) = Some (FFile x) ∧
    member_verified recursion_limit v path files e x.

Lemma reading_remote_inr {A} also (m : M (Session R) A) s a s' :
  reading_remote also m s = (Ok (inr a), s') → m s = (Ok a, s').
Proof.
  unfold reading_remote, try_catch. rewrite M_bind_run. destruct (m s) as [[b|e] s1].
  - by intros [= -> ->].
  - destruct (is_error_perm e); [done|]. by destruct (_ || _).
Qed.

Lemma verify_remote_file_sound e v path files (s : Session R) n s' :
  verify_remote_file recursion_limit (join_ftp_path path [ef_filename e]) e v path files s = (Ok (V_ok, n), s') →
  file_sound v path files (tree s') e.
Proof.
  unfold verify_remote_file, file_sound, member_verified. case_bool_decide as Ht; intros Hrun.
  - unfold verify_remote_manifest in Hrun. apply M_bind_Ok in Hrun as (x & s1 & Hx & Hrun).
    destruct x as [w|content].
    { injection Hrun as -> _ _. unfold reading_remote, try_catch in Hx. rewrite M_bind_run in Hx.
      destruct (read_remote _ _ s) as [[b|ex] s2]; [done|].
      destruct (is_error_perm ex); [by destruct (says_550 ex)|]. by destruct (_ || _). }
    apply reading_remote_inr, read_remote_sound in Hx.
    apply M_bind_Ok in Hrun as (b & s2 & Hb & Hrun). apply lift_Ok in Hb as [Hb ->]. cbv zeta in Hrun.
    destruct b; [|done]. injection Hrun as _ <-. by exists content.
  - apply M_bind_Ok in Hrun as (u & s1 & _ & Hrun). apply M_bind_Ok in Hrun as (x & s2 & Hx & Hrun).
    assert (∀ (A : Type) (m : M (Session R) A) w t t', reading_remote (λ _, false) m t = (Ok (inl w), t') → w ≠ V_ok) as Hbad.
    { intros A m w t t'. unfold reading_remote, try_catch. rewrite M_bind_run.
      destruct (m t) as [[b|ex] t2]; [done|]. destruct (is_error_perm ex).
      - intros [= <- _]. by destruct (says_550 ex).
      - destruct (is_error_temp ex || false); [|done]. by intros [= <- _]. }
    destruct x as [w|[size|]]; [injection Hrun as -> _ _; by apply Hbad in Hx| |done].
    destruct (size <? 0); [done|]. destruct (negb (size =? ef_size e)) eqn:Es; [done|].
    apply M_bind_Ok in Hrun as (y & s3 & Hy & Hrun).
    destruct y as [w|content]; [injection Hrun as -> _ _; by apply Hbad in Hy|]. cbv zeta in Hrun.
    destruct (negb (_ =? size)) eqn:El; [done|]. destruct (negb (bool_decide _)) eqn:Eh; [done|].
    injection Hrun as _ <-. apply reading_remote_inr, law_retr in Hy. exists content. split; [done|].
    apply negb_false_iff, bool_decide_eq_true in Eh. split; [lia|done].
Qed.

Lemma record_file_problems limit replica v e failed sm state n :
  let sm' := (record_file limit replica v e failed sm (state, n)).2 in
  problem_count sm' = problem_count sm + (if bool_decide (state = V_ok) then 0 else 1).
Proof.
  unfold record_file, add_issue. case_bool_decide as Ho; cbn [snd].
  - destruct sm. unfold problem_count. cbn. lia.
  - destruct (_ <? limit); destruct sm, state; unfold problem_count; cbn; (done || lia).
Qed.

Lemma audit_files_sound limit replica v all files : ∀ acc (s : Session R) acc' s',
  for_fold files acc (ftp_audit_file recursion_limit limit replica v all) s = (Ok acc', s') →
  tree s' = tree s ∧ problem_count acc.2 <= problem_count acc'.2 ∧
  (problem_count acc'.2 <= problem_count acc.2 →
   Forall (file_sound v (rp_remote_path replica) all (tree s)) files).
Proof.
  induction files as [|e files IH]; intros acc s acc' s' Hrun; cbn [for_fold] in Hrun.
  - injection Hrun as <- <-. split_and!; [done|lia|constructor].
  - apply M_bind_Ok in Hrun as (a & s1 & He & Hrun). apply IH in Hrun as (E2 & H2 & Hf).
    unfold ftp_audit_file in He. cbv zeta in He. apply M_bind_Ok in He as ([state n] & s2 & Hv & He).
    apply ret_Ok in He as [-> ->].
    assert (tree s2 = tree s) as E1 by (eapply ftp_read_run, Hv; intros; auto using reads_ok with keeps).
    set (sm := acc.2 <| rs_checked_files ::= Z.succ |>) in *.
    assert (problem_count sm = problem_count acc.2) as Esm by (subst sm; by destruct (acc.2)).
    rewrite record_file_problems, Esm in H2, Hf. rewrite E2, E1.
    split_and!; [done|destruct (bool_decide _); lia|]. intros Hle. case_bool_decide as Ho; [|lia].
    constructor; [|rewrite E1 in Hf; apply Hf; lia]. subst state.
    apply verify_remote_file_sound in Hv. by rewrite E1 in Hv.
Qed.

(** What an audit has established of a replica. *)
Definition replica_sound (d : BackupDestination) (db : DB) (t : gmap (list string) FtpNode)
    (replica : RevisionReplica) : Prop :=
  ∃ rv v checked files, db_revisions db !! rp_revision replica = Some rv ∧ revision_view db rv = Ok v ∧
    validate_recorded_revision_path nfkd (ds_base_path d) v (rp_remote_path replica)
      "RECONCILIATION_PATH_INVALID" = Ok checked ∧
    recorded_files nfkd v (rp_remote_path replica) = Ok files ∧
    Forall (file_sound v (rp_remote_path replica) files t) files.

Lemma audit_replicas_sound limit d db l : ∀ sm (s : Session R) sm' s',
  for_fold l sm (ftp_audit_replica nfkd recursion_limit limit d db) s = (Ok sm', s') →
  tree s' = tree s ∧ problem_count sm <= problem_count sm' ∧
  (problem_count sm' <= problem_count sm → Forall (replica_sound d db (tree s)) l).
Proof.
  induction l as [|replica l IH]; intros sm s sm' s' Hrun; cbn [for_fold] in Hrun.
  - injection Hrun as <- <-. split_and!; [done|lia|constructor].
  - apply M_bind_Ok in Hrun as (a & s1 & He & Hrun). apply IH in Hrun as (E2 & H2 & Hf).
    unfold ftp_audit_replica in He. rewrite lift_bind_run in He.
    destruct (require _ _) as [rv|] eqn:Erv; [|done]. rewrite lift_bind_run in He.
    destruct (revision_view db rv) as [v|] eqn:Ev; [|done]. rewrite lift_bind_run in He.
    destruct (validate_recorded_revision_path _ _ _ _ _) as [checked|] eqn:Ec; [|done].
    rewrite lift_bind_run in He. destruct (recorded_files _ _ _) as [files|] eqn:Ef; [|done]. cbv zeta in He.
    apply M_bind_Ok in He as (acc & s2 & Hl & [= <- <-]). apply audit_files_sound in Hl as (E1 & H1 & Hs).
    cbn [snd] in H1, Hs.
    assert (problem_count (sm <| rs_checked_replicas ::= Z.succ |>) = problem_count sm) as Esm by by destruct sm.
    assert (problem_count (count_replica acc) = problem_count acc.2) as Eacc
      by (unfold count_replica; by destruct acc as [[] []]).
    rewrite Esm in H1, Hs. rewrite Eacc in H2, Hf. rewrite E2, E1. split_and!; [done|lia|].
    intros Hle. constructor; [|rewrite E1 in Hf; apply Hf; lia]. exists rv, v, checked, files.
    split_and!; try done; [|apply Hs; lia]. unfold require in Erv. by destruct (db_revisions db !! _); [injection Erv as ->|].
Qed.

(** C36: An integrity audit of an FTP destination changes nothing on the server,
    whatever it answers.  When the server keeps its promises and the audit
    reports success, the copies it selected are sound: for each, the recorded
    path passes its check, every artifact is there with its recorded size and
    digest, and the manifest is the one of the revision. *)
Theorem ftp_audit_sound d replicas limit db (s : Session R) r s' :
  reconcile_ftp_destination nfkd recursion_limit secret_providers d replicas limit db s = (r, s') →
  followed reads s s' ∧
  (∀ sm, r = Ok sm → rs_success sm = true →
     Forall (replica_sound d db (tree s)) (ftp_audit_selection d db replicas).1).
Proof.
  intros Hrun. split; [by eapply audit_read_only|]. intros sm -> Hsuccess.
  unfold reconcile_ftp_destination in Hrun.
  destruct (ftp_audit_selection d db replicas) as [selected skipped]. cbn [fst]. cbv zeta in Hrun.
  destruct (bool_decide (is_Some replicas) && bool_decide (selected = [])) eqn:Eempty.
  { apply andb_true_iff in Eempty as [_ ->%bool_decide_eq_true]. constructor. }
  apply M_bind_Ok in Hrun as (u & s1 & Ho & Hrun). apply M_bind_Ok in Hrun as (sm' & s2 & Hf & [= <- <-]).
  assert (tree s1 = tree s) as E1.
  { eapply ftp_read_run, Ho. intros s0. apply keeps_ftp_session, reads_ok. }
  apply finally_run in Hf as (x & s3 & u' & Hm & _ & Hx). rewrite (Hx _ eq_refl) in Hm.
  apply mapping_Ok, audit_replicas_sound in Hm as (_ & _ & Hs). rewrite E1 in Hs. apply Hs.
  unfold finish_ftp_summary in Hsuccess. destruct (negb (problem_count sm' =? 0)) eqn:Ep; [by destruct sm'|].
  apply negb_false_iff, Z.eqb_eq in Ep. rewrite Ep. by unfold problem_count, initial_summary.
Qed.
End copies.
