(* ===== verification/FtpBackend.v ===== *)
(** * FTP destinations implement the contract of a destination

    The services that copy, audit and expire are proved against
    [BackendLaws]; here the operations of [FtpDestination], each in a session
    of its own, discharge those laws over servers that keep their promises. *)

From Stdlib Require Import ZArith Lia Strings.Ascii.
From stdpp Require Import base gmap sets list strings.
From S2P Require Import Prelude Strings Text Hashing Json Models World Storage.
From S2P Require Import DestinationPaths Destination RevisionFiles AuditSummary RecordedPaths Drivers.
From S2P Require Import FtpClient FtpSession FtpDestination FtpTrace FtpFiles FtpCopies.
#[local] Open Scope string_scope.
#[local] Open Scope list_scope.
#[local] Open Scope Z_scope.

(** ** The name of the manifest is no other file's, whatever a type is called *)

Lemma part_not_manifest w : w +:+ ".part" ≠ MANIFEST_FILENAME.
Proof. do 22 (destruct w as [|? w]; [done|]). done. Qed.

Lemma part_not_bin w w' : w +:+ ".part" ≠ w' +:+ ".bin".
Proof.
  intros H%(f_equal last_char).
  change ".part" with (String "." "part") in H. change ".bin" with (String "." "bin") in H.
  by rewrite !last_char_append in H.
Qed.

Lemma bin_plain w u : has_char slash (w +:+ u) = false → (2 < String.length u)%nat → plain_part (w +:+ u).
Proof.
  intros Hs Hu. split_and!; [..|done]; intros E; apply (f_equal String.length) in E;
    rewrite string_length_app in E; simpl in E; lia.
Qed.

(** The last component of a path that ends in [u]. *)
Lemma target_suffix t u :
  has_char slash u = false → (2 < String.length u)%nat → ∃ up w, ftp_target (t +:+ u) = up ++ [w +:+ u].
Proof.
  intros Hs Hu. destruct (split_on_suffix slash u t Hs) as [w Hw].
  destruct (target_last _ _ Hw) as [up Hup]; [|by exists up, w].
  apply bin_plain; [|done]. eapply split_on_no_sep, list.last_Some_elem_of, Hw.
Qed.

Section backend.
Context {R : Type} `{!FtpServer R, !FtpTree R, !FtpServerLaws R}.
Context (E : Externals) (C : @ConfigStorage E).
Context (nfkd : string → string) (recursion_limit : nat) (token : string).
Context (secret_providers : SecretProviderRegistry).
Abbreviation reads := (λ c, is_read c = true).

(** Every name is a plain one or ends in [.bin]. *)
Lemma expected_name_cases v readable path override files n :
  expected_revision_files nfkd v readable (readable_stem nfkd path v) override = Ok files →
  n ∈ map ef_filename files → plain_part n ∨ ∃ t, n = t +:+ ".bin".
Proof.
  intros (manifest & Hm & _ & -> & _)%expected_revision_files_spec Hin.
  rewrite map_app, map_map in Hin. apply elem_of_app in Hin as [Hin|Hin].
  - apply list_elem_of_fmap in Hin as (a & -> & _). cbn [ef_filename].
    destruct (has_char slash (ar_artifact_type a)) eqn:Ht.
    + unfold revision_filename. destruct readable.
      * left. destruct (readable_name_chars nfkd (Some (vw_device_name v)) (vw_device_id v)
          (Calendar.Aware (rv_created (vw_revision v))) (ar_storage_key a) (ar_artifact_type a) (ar_is_primary a)
          (readable_stem nfkd path v) (λ s Hs, readable_stem_chars _ _ _ _ Hs)) as [Hc Hu].
        apply path_chars_plain; [done|..]; by intros E'; rewrite E' in Hu.
      * unfold artifact_filename. cbv zeta. destruct (_ && _) eqn:Eb; [left|right; by eexists].
        apply andb_true_iff in Eb as [E1%negb_true_iff%bool_decide_eq_false E2%negb_true_iff%bool_decide_eq_false].
        rewrite not_elem_of_cons, list_elem_of_singleton in E2. split_and!; [done|apply E2..|].
        unfold path_name in *. destruct (list.last (path_parts (ar_storage_key a))) as [p|] eqn:El; [|done].
        apply list.last_Some_elem_of, path_parts_in in El. apply El.
    + left. apply revision_filename_plain; [done|]. intros s. by apply readable_stem_chars.
  - left. simpl in Hin. apply list_elem_of_singleton in Hin as ->. rewrite Hm. by split_and!.
Qed.

(** The objects a name and its temporary name stand for. *)
Lemma name_targets parts n :
  Forall plain_part parts → parts ≠ [] → plain_part n ∨ (∃ t, n = t +:+ ".bin") →
  let p := join_ftp_path (rooted parts) [n] in
  ftp_target p ≠ ftp_target (p +:+ ".part") ∧
  ∀ qs, qs ≠ parts → qs ++ [MANIFEST_FILENAME] ≠ ftp_target p ∧
    qs ++ [MANIFEST_FILENAME] ≠ ftp_target (p +:+ ".part").
Proof.
  intros Hparts Hne [Hn|[t ->]] p.
  - subst p. rewrite join_rooted, temporary_rooted by done.
    rewrite !target_child by (try done; by apply temporary_plain).
    split; [intros [_ He]%app_inj_tail; by eapply temporary_other|]. intros qs Hq.
    split; intros [He Hm]%app_inj_tail; [done|]. by eapply part_not_manifest.
  - assert (∃ t', p = t' +:+ ".bin") as [t' ->].
    { subst p. unfold join_ftp_path. cbn [foldl]. unfold posix_join.
      destruct (is_absolute _); [by eexists|]. destruct (_ || _); rewrite ?append_assoc; by eexists. }
    destruct (target_suffix t' ".bin" eq_refl) as (up & w & E1); [simpl; lia|].
    destruct (target_suffix (t' +:+ ".bin") ".part" eq_refl) as (up' & w' & E2); [simpl; lia|].
    rewrite E1, E2. split; [intros [_ He]%app_inj_tail; by eapply part_not_bin|]. intros qs _.
    split; intros [_ He]%app_inj_tail; [by eapply bin_not_manifest|by eapply part_not_manifest].
Qed.

(** ** Manifests of other copies *)

Definition same_manifests (parts : list string) (t t' : gmap (list string) FtpNode) : Prop := ∀ qs,
  qs ≠ parts → (is_file (t' !! (qs ++ [MANIFEST_FILENAME])) ↔ is_file (t !! (qs ++ [MANIFEST_FILENAME]))).

Lemma same_manifests_trans parts t1 t2 t3 :
  same_manifests parts t1 t2 → same_manifests parts t2 t3 → same_manifests parts t1 t3.
Proof. intros H1 H2 qs Hq. rewrite (H2 qs Hq). apply (H1 qs Hq). Qed.

Section writing.
Context (parts : list string) (Hparts : Forall plain_part parts) (Hne : parts ≠ []).

Lemma put_same_manifests n content digest (s : Session R) r s' :
  plain_part n ∨ (∃ t, n = t +:+ ".bin") →
  ftp_put_immutable (join_ftp_path (rooted parts) [n]) content digest s = (r, s') →
  same_manifests parts (tree s) (tree s').
Proof.
  intros Hn Hrun. destruct (name_targets parts n Hparts Hne Hn) as [Hdiff Hother].
  apply put_run in Hrun as [[Hframe _] _]; [|done]. intros qs Hq.
  destruct (Hother qs Hq) as [H1 H2]. by rewrite Hframe.
Qed.

Lemma write_same_manifests d v files manifest fs (s : Session R) r s' :
  (∀ n, n ∈ map ef_filename files → plain_part n ∨ ∃ t, n = t +:+ ".bin") →
  write_remote_copy recursion_limit d v (rooted parts) files manifest fs s = (r, s') →
  same_manifests parts (tree s) (tree s') ∧
  (is_ok r = true → is_file (tree s' !! (parts ++ [MANIFEST_FILENAME]))).
Proof.
  intros Hnames Hrun.
  assert (∀ (s0 : Session R) (A : Type) (m : M (Session R) A),
    (∀ t r t', m t = (r, t') → same_manifests parts (tree t) (tree t')) →
    keeps (λ t, same_manifests parts (tree s0) (tree t)) m) as Hk.
  { intros s0 A m Hm t r0 t' Ht Hs. eapply same_manifests_trans; [exact Hs|]. by eapply Hm. }
  assert (∀ s0 p, keeps (λ t : Session R, same_manifests parts (tree s0) (tree t)) (remote_exists p)) as Hex.
  { intros s0 p. apply Hk. intros t r0 t' Ht qs _. apply ftp_read_run in Ht as ->; [done|]. auto using reads_ok with keeps. }
  assert (∀ s0 p n, keeps (λ t : Session R, same_manifests parts (tree s0) (tree t)) (read_remote p n)) as Hrd.
  { intros s0 p n. apply Hk. intros t r0 t' Ht qs _. apply ftp_read_run in Ht as ->; [done|]. auto using reads_ok with keeps. }
  assert (∀ s0 n c digest, plain_part n ∨ (∃ t, n = t +:+ ".bin") →
    keeps (λ t : Session R, same_manifests parts (tree s0) (tree t))
      (ftp_put_immutable (join_ftp_path (rooted parts) [n]) c digest)) as Hput.
  { intros s0 n c digest Hn. apply Hk. intros t r0 t'. by apply put_same_manifests. }
  split.
  - assert (keeps (λ t, same_manifests parts (tree s) (tree t))
      (write_remote_copy recursion_limit d v (rooted parts) files manifest fs)) as Hw; [|by eapply Hw].
    unfold write_remote_copy, ftp_errors. apply keeps_bind; [apply keeps_mapping, Hk|intros _].
    { intros t r0 t' Ht qs _. apply (mkdirs_copied nfkd parts Hparts Hne []) in Ht.
      destruct (Ht (qs ++ [MANIFEST_FILENAME])) as [->|[(n & Hn & _)|[Hf [(_ & H1 & H2)|[(n & Hn & _) _]]]]];
        [done|by apply not_elem_of_nil in Hn| |by apply not_elem_of_nil in Hn].
      rewrite H1, H2. split; by intros [? ?]. }
    apply keeps_bind; [apply keeps_mapping, keeps_for_fold; intros acc a|intros acc].
    + unfold ftp_put_artifact. repeat case_match; try solve [auto with keeps].
      apply keeps_bind; [|auto with keeps]. apply Hput, Hnames, list_elem_of_fmap_2. by eapply file_of_type_in.
    + apply keeps_bind; [|auto with keeps]. apply keeps_mapping. unfold ftp_put_manifest. cbv zeta.
      apply keeps_bind; [apply Hex|]. intros [].
      * apply keeps_bind; [apply keeps_mapping, Hrd|]. intros x. keep_steps.
      * apply keeps_bind; [apply Hput; left; apply manifest_plain|]. auto with keeps.
  - intros Hok. destruct r as [n|]; [|done]. unfold write_remote_copy, ftp_errors in Hrun.
    apply M_bind_Ok in Hrun as (u & s1 & _ & Hrun). apply M_bind_Ok in Hrun as (acc & s2 & _ & Hrun).
    apply M_bind_Ok in Hrun as (m & s3 & Hm & [= _ <-]). apply mapping_Ok in Hm.
    apply (put_manifest_copied recursion_limit parts Hparts Hne [MANIFEST_FILENAME]) in Hm as [_ Hm].
    + destruct (Hm m eq_refl) as (x & Hx & _). by exists x.
    + intros n' ->%list_elem_of_singleton. apply manifest_plain.
    + by left.
Qed.
End writing.

(** ** The backend *)

(** The servers the destinations name; which destinations name the same one is
    not said.  Every operation opens a session of its own. *)
Context {K : Type} `{!EqDecision K} (server_of : Endpoint → K).

Definition ftp_externals : Externals := {| World.files := @World.files E; remote := K → R |}.

Definition fresh_session (r : R) : Session R :=
  {| ss_server := r; ss_sent := []; ss_open := false; ss_output := [] |}.

Definition on_server {A} (d : BackupDestination) (m : M (Session R) A) : M (K → R) A := λ r,
  let k := server_of (endpoint d) in
  let '(x, s) := m (fresh_session (r k)) in (x, λ j, if decide (j = k) then ss_server s else r j).

Lemma on_server_run {A} d (m : M (Session R) A) r x r' : on_server d m r = (x, r') →
  let k := server_of (endpoint d) in
  ∃ s', m (fresh_session (r k)) = (x, s') ∧ r' k = ss_server s' ∧ ∀ j, j ≠ k → r' j = r j.
Proof.
  unfold on_server. cbv zeta. destruct (m _) as [y s'] eqn:Em. intros [= -> <-]. exists s'.
  split_and!; [done|by rewrite decide_True|]. intros j Hj. by rewrite decide_False.
Qed.

Definition server_replicate (d : BackupDestination) (rv : ConfigRevision) (recorded : option string)
    (db : DB) (fs : @World.files E) : M (K → R) ReplicationResult :=
  match revision_view db rv with
  | Err e => raise e
  | Ok v =>
      on_server d (replicate_revision_ftp (H := E) nfkd recursion_limit secret_providers d v recorded db fs)
  end.

Definition server_delete (replica : RevisionReplica) (db : DB) : M (K → R) DeletedRevisionResult :=
  match require (DoesNotExist "BackupDestination") (db_destinations db !! rp_destination replica),
        (rv ← require (DoesNotExist "ConfigRevision") (db_revisions db !! rp_revision replica);
         revision_view db rv) with
  | Ok d, Ok v => on_server d (delete_revision_replica_ftp nfkd secret_providers d v replica db)
  | Err e, _ | _, Err e => raise e
  end.

Definition ftp_backend_instance : @Backend ftp_externals :=
  @Build_Backend ftp_externals
    (λ d db, on_server d (test_ftp_destination secret_providers token d db))
    server_replicate
    (λ d replicas db r,
       (reconcile_ftp_destination nfkd recursion_limit secret_providers d replicas 100 db
          (fresh_session (r (server_of (endpoint d))))).1)
    server_delete.

(** A place is a path on a server; a copy is there when its manifest is. *)
Definition server_place (e : Endpoint) (q : string) : K * string := (server_of e, q).
Definition server_copy (r : K → R) (l : K * string) : Prop :=
  ∃ parts, l.2 = rooted parts ∧ Forall plain_part parts ∧
    is_file (tree_of (r l.1) !! (parts ++ [MANIFEST_FILENAME])).

Lemma rooted_inj ps qs : Forall plain_part ps → Forall plain_part qs → rooted ps = rooted qs → ps = qs.
Proof. intros Hps Hqs He. apply (f_equal path_parts) in He. by rewrite !rooted_parts in He. Qed.

(** A replication: the copy it leaves, and the copies it leaves alone. *)
Lemma replicate_manifest_ftp d v recorded db fs (s : Session R) r s' :
  replicate_revision_ftp (H := E) nfkd recursion_limit secret_providers d v recorded db fs s = (r, s') →
  tree s' = tree s ∧ is_ok r = false ∨
  ∃ path, Forall plain_part (path_parts path) ∧ path = rooted (path_parts path) ∧
    (∀ p, recorded = Some p → p ≠ "" → path = p) ∧
    same_manifests (path_parts path) (tree s) (tree s') ∧
    (∀ res, r = Ok res → rr_remote_path res = path ∧ is_file (tree s' !! (path_parts path ++ [MANIFEST_FILENAME]))).
Proof.
  intros [[Hr Hno]|(path & segment & files & Hpath & Hfiles & s1 & x & s2 & H1 & Hw & H2 & Hok)]%replicate_ftp_run;
    [left; by split; [apply reads_tree|]|right].
  exists path. apply replication_path_Ok in Hpath as (layout & Hval & Hrec).
  apply checked_path_rooted in Hval as (Hp & Hplain & Hne). apply reads_tree in H1 as E1, H2 as E2.
  rewrite Hp in Hw at 1. apply (write_same_manifests _ Hplain Hne) in Hw as [Hsame Hman];
    [|intros n; by eapply expected_name_cases].
  rewrite E2, <-E1. split_and!; [done..|]. intros res Hres. destruct (Hok res Hres) as [Hx Hrp]. auto.
Qed.

(** A deletion and the manifests of other copies. *)
Lemma deleted_manifests d v replica db (s : Session R) r s' :
  delete_revision_replica_ftp nfkd secret_providers d v replica db s = (r, s') →
  (∀ q, is_file (tree s' !! q) → is_file (tree s !! q)) ∧
  (∀ parts, Forall plain_part parts → rooted parts ≠ rp_remote_path replica →
     is_file (tree s' !! (parts ++ [MANIFEST_FILENAME])) ↔ is_file (tree s !! (parts ++ [MANIFEST_FILENAME]))).
Proof.
  intros [[-> _]|(files & _ & _ & _ & Hpath & _ & Hclear & _)]%delete_ftp_effect; [done|].
  assert (∀ q, is_file (tree s' !! q) → is_file (tree s !! q)) as Hold.
  { intros q Hf. destruct (Hclear q) as [<-|[Hn _]]; [done|]. rewrite Hn in Hf. by destruct Hf. }
  split; [done|]. intros parts Hparts Hd. split; [apply Hold|]. intros Hf.
  destruct (Hclear (parts ++ [MANIFEST_FILENAME])) as [->|[_ [[_ Hno]|(n & _ & He)]]]; [done..|].
  destruct Hd. rewrite Hpath. by destruct He as [[-> _]%app_inj_tail|[-> _]%app_inj_tail].
Qed.

(** Copies on a server before and after an operation there. *)
Lemma server_copies d (P : string → Prop) r r' s' l :
  let k := server_of (endpoint d) in
  r' k = ss_server s' → (∀ j, j ≠ k → r' j = r j) →
  (∀ parts, Forall plain_part parts → ¬ P (rooted parts) →
     is_file (tree s' !! (parts ++ [MANIFEST_FILENAME])) ↔
     is_file (tree_of (r k) !! (parts ++ [MANIFEST_FILENAME]))) →
  (l.1 = k → ¬ P l.2) → server_copy r' l ↔ server_copy r l.
Proof using EqDecision0.
  intros k Hk Hother Hsame HP. unfold server_copy. destruct l as [j q]. cbn [fst snd] in *.
  destruct (decide (j = k)) as [->|Hj]; [|by rewrite (Hother _ Hj)]. rewrite Hk. specialize (HP eq_refl).
  split; intros (parts & -> & Hparts & Hf); exists parts; (split_and!; [done..|]); by apply (Hsame _ Hparts HP).
Qed.

(** C33: The operations on FTP servers implement the contract of a destination
    that replication, audits and remote retention are proved against, over
    servers that keep their promises.  A place is a path on a server, and any
    number of destinations may name the same server: a success of a
    replication leaves a copy at the place of the path it returns, which is
    the recorded one when there is one; a successful deletion leaves none at
    its place; and both leave the copies at every other place as they were,
    whatever command fails, no matter which destination they belong to. *)
Theorem ftp_backend_laws serves :
  @BackendLaws ftp_externals (K * string) serves server_place server_copy ftp_backend_instance.
Proof.
  split; unfold ftp_backend_instance, server_place; cbn [be_replicate be_delete].
  - intros d rv path db fs r res r' Hrun. unfold server_replicate in Hrun.
    destruct (revision_view db rv) as [v|]; [|done]. apply on_server_run in Hrun as (s' & Hrun & _).
    apply replicate_manifest_ftp in Hrun as [[_ ?]|(q & Hq & Hs & Hrec & _ & Hok)]; [done|].
    destruct (Hok res eq_refl) as [-> _]. destruct path as [p|]; [by apply Hrec|]. by rewrite Hs.
  - intros d rv path db fs r res r' _ Hrun. unfold server_replicate in Hrun.
    destruct (revision_view db rv) as [v|]; [|done]. apply on_server_run in Hrun as (s' & Hrun & Hk & _).
    apply replicate_manifest_ftp in Hrun as [[_ ?]|(q & Hq & Hs & Hrec & _ & Hok)]; [done|].
    destruct (Hok res eq_refl) as [-> Hman]. exists (path_parts q). cbn [fst snd]. by rewrite Hk.
  - intros d rv p db fs r x r' l _ Hne Hrun Hl. unfold server_replicate in Hrun.
    destruct (revision_view db rv) as [v|]; [|injection Hrun as <- <-; done].
    apply on_server_run in Hrun as (s' & Hrun & Hk & Hother).
    eapply (server_copies d (λ q, q = p)); [exact Hk|exact Hother| |].
    + intros parts Hparts Hq. apply replicate_manifest_ftp in Hrun as [[Ht _]|(q' & Hq' & Hs & Hrec & Hsame & _)].
      { by rewrite Ht. }
      apply Hsame. intros ->. by rewrite <-Hs, (Hrec p eq_refl Hne) in Hq.
    + intros H1 H2. destruct Hl. by rewrite <-H1, <-H2, <-surjective_pairing.
  - intros d replica db r res r' Hd _ Hrun. unfold server_delete in Hrun. rewrite Hd in Hrun. cbn [require] in Hrun.
    destruct (mbind _ _) as [v|]; [|done].
    apply on_server_run in Hrun as (s' & Hrun & Hk & _). intros (parts & Hq & Hparts & [c Hc]).
    apply delete_ftp_effect in Hrun as [[_ ?]|(files & _ & Hplain & _ & Hpath & _ & _ & _ & Hok)]; [done|].
    destruct (Hok res eq_refl) as [Habs _]. cbn [fst snd] in Hq, Hc. rewrite Hpath in Hq. apply rooted_inj in Hq; [|done..].
    rewrite Hk, <-Hq in Hc. specialize (Habs [MANIFEST_FILENAME]). unfold tree in Habs. congruence.
  - intros d replica db r x r' l Hd _ Hrun Hl. unfold server_delete in Hrun. rewrite Hd in Hrun. cbn [require] in Hrun.
    destruct (mbind _ _) as [v|]; [|injection Hrun as <- <-; done].
    apply on_server_run in Hrun as (s' & Hrun & Hk & Hother). apply deleted_manifests in Hrun as [_ Hsame].
    eapply (server_copies d (λ q, q = rp_remote_path replica)); [exact Hk|exact Hother|exact Hsame|].
    intros H1 H2. destruct Hl. by rewrite <-H1, <-H2, <-surjective_pairing.
  - intros d replica db r x r' [j q] Hd _ Hrun. unfold server_delete in Hrun. rewrite Hd in Hrun. cbn [require] in Hrun.
    destruct (mbind _ _) as [v|]; [|injection Hrun as <- <-; done].
    apply on_server_run in Hrun as (s' & Hrun & Hk & Hother). unfold server_copy. cbn [fst snd].
    destruct (decide (j = server_of (endpoint d))) as [->|Hj]; [|by rewrite (Hother _ Hj)]. rewrite Hk.
    apply deleted_manifests in Hrun as [Hold _]. intros (parts & -> & Hparts & Hf). exists parts. auto.
Qed.
End backend.
