(* ===== verification/FileServer.v ===== *)
(** * A file server that keeps the promises of [FtpServerLaws]

    A tree of files, a working directory and the name a rename starts from:
    the laws that the theorems on FTP destinations assume are those of a
    server that can be run. *)

From Stdlib Require Import ZArith Lia Strings.Ascii.
From stdpp Require Import base gmap sets list strings pretty.
From S2P Require Import Prelude Strings Text Hashing Json DestinationPaths RecordedPaths.
From S2P Require Import FtpClient FtpSession FtpTrace FtpFiles.
#[local] Open Scope string_scope.
#[local] Open Scope list_scope.
#[local] Open Scope Z_scope.

(** ** Listings as text *)

Definition cr : ascii := ascii_of_N 13.
Definition lf : ascii := ascii_of_N 10.

Definition lines_text (names : list string) : string := foldr (λ n s, n +:+ String lf s) "" names.
Definition listable (n : string) : bool := negb (has_char cr n || has_char lf n).

Lemma universal_newlines_id s : has_char cr s = false → universal_newlines s = s.
Proof.
  induction s as [|a s IH]; [done|]. cbn [has_char universal_newlines].
  intros [Ha Hs]%orb_false_iff. fold cr. rewrite Ha. by rewrite IH.
Qed.

Lemma text_lines_text names : Forall (λ n, listable n = true) names → text_lines (lines_text names) = names.
Proof.
  intros Hnames. unfold text_lines. fold lf. rewrite universal_newlines_id.
  - assert (split_on lf (lines_text names) = names ++ [""]) as ->.
    { induction Hnames as [|n names Hn Hnames IH]; [done|]. cbn [lines_text foldr]. fold (lines_text names).
      apply negb_true_iff, orb_false_iff in Hn as [_ Hn].
      by rewrite split_on_sep, IH, split_on_none by done. }
    rewrite list.last_snoc. cbn [bool_decide]. rewrite bool_decide_eq_true_2 by done. apply removelast_last.
  - induction Hnames as [|n names Hn Hnames IH]; [done|]. cbn [lines_text foldr]. fold (lines_text names).
    apply negb_true_iff, orb_false_iff in Hn as [Hn _]. rewrite has_char_app, Hn. cbn [has_char orb].
    by rewrite IH.
Qed.

(** ** Paths below a directory *)

Fixpoint below (ps k : list string) : option (list string) :=
  match ps, k with
  | [], _ => Some k
  | p :: ps, c :: k => if decide (p = c) then below ps k else None
  | _ :: _, [] => None
  end.

Lemma below_app ps k : below ps (ps ++ k) = Some k.
Proof. induction ps as [|p ps IH]; [done|]. cbn. by rewrite decide_True. Qed.

#[export] Instance ftp_node_eq : EqDecision FtpNode.
Proof. solve_decision. Defined.

Abbreviation nodes := (gmap (list string) FtpNode).

(** Is there an object at the path or below it? *)
Definition present (t : nodes) (ps : list string) : bool :=
  existsb (λ kn, bool_decide (is_Some (below ps kn.1))) (map_to_list t).

Lemma present_false t ps rest : present t ps = false → t !! (ps ++ rest) = None.
Proof.
  intros Hp. destruct (t !! (ps ++ rest)) as [n|] eqn:E; [|done].
  enough (present t ps = true) by congruence. apply existsb_exists. exists (ps ++ rest, n).
  split; [apply list_elem_of_In, elem_of_map_to_list, E|]. cbn [fst]. rewrite below_app.
  by apply bool_decide_eq_true.
Qed.

(** The names right below a path. *)
Definition children (t : nodes) (ps : list string) : list string :=
  remove_dups (omap (λ kn, below ps kn.1 ≫= head) (map_to_list t)).

Lemma child_listed t ps c rest : is_Some (t !! (ps ++ c :: rest)) → c ∈ children t ps.
Proof.
  intros [n Hn]. unfold children. rewrite elem_of_remove_dups, list_elem_of_omap.
  exists (ps ++ c :: rest, n). split; [by apply elem_of_map_to_list|]. cbn [fst]. by rewrite below_app.
Qed.

(** ** The server *)

Record FileServer := {
  sv_tree : nodes;
  sv_cwd : list string;
  sv_rename : option (list string);
}.
#[export] Instance eta_FileServer : Eta FileServer := λ r,
  {| sv_tree := sv_tree r; sv_cwd := sv_cwd r; sv_rename := sv_rename r |}.

Definition is_dir (t : nodes) (ps : list string) : bool :=
  bool_decide (ps = []) || bool_decide (t !! ps = Some FDir).

Definition no_such_file : Answer := Reply "550 No such file or directory.".
Definition refused : Answer := Reply "550 Operation refused.".
Definition completed : Answer := Reply "250 Requested action completed.".

Definition answer (c : FtpCommand) (r : FileServer) : Answer * FileServer :=
  let t := sv_tree r in
  match c with
  | F_connect _ _ => (Reply "connected", r)
  | F_welcome => (Reply "220 Service ready.", r)
  | F_user _ => (Reply "331 Password required.", r)
  | F_pass _ | F_acct _ => (Reply "230 Logged in.", r)
  | F_type _ => (Reply "200 Type set.", r)
  | F_cwd p =>
      let ps := ftp_target p in
      if negb (bool_decide (ps = [])) && negb (present t ps) then (no_such_file, r)
      else if is_dir t ps then (completed, r <| sv_cwd := ps |>)
      else (refused, r)
  | F_mkd p =>
      let ps := ftp_target p in
      if bool_decide (t !! ps = None) && is_dir t (removelast ps)
      then (Reply "257 Created.", r <| sv_tree := <[ps := FDir]> t |>) else (refused, r)
  | F_rmd p =>
      let ps := ftp_target p in
      if bool_decide (t !! ps = Some FDir) && bool_decide (children t ps = [])
      then (completed, r <| sv_tree := base.delete ps t |>) else (refused, r)
  | F_dele p =>
      let ps := ftp_target p in
      match t !! ps with
      | Some (FFile _) => (completed, r <| sv_tree := base.delete ps t |>)
      | _ => (no_such_file, r)
      end
  | F_rnfr p =>
      let ps := ftp_target p in
      match t !! ps with
      | Some (FFile _) => (Reply "350 Ready.", r <| sv_rename := Some ps |>)
      | _ => (no_such_file, r)
      end
  | F_rnto p =>
      let ps := ftp_target p in
      match sv_rename r ≫= λ from, t !! from with
      | Some (FFile x) =>
          if is_dir t ps then (refused, r)
          else (completed, r <| sv_tree := <[ps := FFile x]> (default t ((λ from, base.delete from t) <$> sv_rename r)) |>)
      | _ => (refused, r)
      end
  | F_size p =>
      match t !! ftp_target p with
      | Some (FFile x) => (Reply ("213 " +:+ pretty (length x)), r)
      | _ => (no_such_file, r)
      end
  | F_quit => (Reply "221 Goodbye.", r)
  | F_nlst _ | F_retr _ | F_stor _ _ => (Reply "425 Use a data connection.", r)
  end.

Definition data (chunks : list bytes) : Transfer :=
  {| tf_channel := None; tf_first := Reply "150 Opening data connection."; tf_second := Closed;
     tf_chunks := chunks; tf_broken := None; tf_final := Reply "226 Transfer complete." |}.
Definition declined (a : Answer) : Transfer :=
  {| tf_channel := None; tf_first := a; tf_second := Closed; tf_chunks := []; tf_broken := None;
     tf_final := Closed |}.
Definition listing (names : list string) : Transfer :=
  if forallb listable names then data [String.list_byte_of_string (lines_text names)]
  else declined (Reply "451 A name cannot be listed.").

Definition transfers (c : FtpCommand) (r : FileServer) : Transfer * FileServer :=
  let t := sv_tree r in
  match c with
  | F_nlst None => (listing (children t (sv_cwd r)), r)
  | F_nlst (Some p) =>
      let ps := ftp_target p in
      match t !! ps with
      | Some (FFile _) => (listing [p], r)
      | Some FDir => (listing (children t ps), r)
      | None => (declined no_such_file, r)
      end
  | F_retr p =>
      match t !! ftp_target p with
      | Some (FFile x) => (data [x], r)
      | _ => (declined no_such_file, r)
      end
  | F_stor p x =>
      let ps := ftp_target p in
      if is_dir t ps || negb (is_dir t (removelast ps)) then (declined refused, r)
      else (data [], r <| sv_tree := <[ps := FFile x]> t |>)
  | _ => (declined refused, r)
  end.

#[export] Instance file_server : FtpServer FileServer := {| ftp_answer := answer; ftp_transfer := transfers |}.
#[export] Instance file_tree : FtpTree FileServer := {| tree_of := sv_tree; cwd_of := sv_cwd |}.

(** ** It keeps the promises *)

Lemma tree_answer c r :
  (match c with F_mkd _ | F_rmd _ | F_dele _ | F_rnto _ => False | _ => True end) →
  sv_tree (answer c r).2 = sv_tree r.
Proof. destruct c; try done; intros _; cbn [answer]; cbv zeta; repeat case_match; done. Qed.

Lemma tree_transfer c r :
  (match c with F_stor _ _ => False | _ => True end) → sv_tree (transfers c r).2 = sv_tree r.
Proof. destruct c; try done; intros _; cbn [transfers]; cbv zeta; repeat case_match; done. Qed.

Lemma listing_names names lines : listing names = declined (Reply "451 A name cannot be listed.") ∨
  (listing names = data [String.list_byte_of_string (lines_text names)] ∧
   (text_lines (String.string_of_list_byte (concat [String.list_byte_of_string (lines_text names)])) = lines →
    lines = names)).
Proof.
  unfold listing. destruct (forallb _ _) eqn:E; [right|by left]. split; [done|].
  cbn [concat]. rewrite app_nil_r, String.string_of_list_byte_of_string, text_lines_text; [done|].
  apply list.Forall_forall. intros n Hn. rewrite forallb_forall in E. by apply E, list_elem_of_In.
Qed.

(** The runs of the methods on this server. *)
Lemma sendcmd_run (c : FtpCommand) (s : Session FileServer) r s' : sendcmd c s = (r, s') →
  (∃ t, r = Err (ValueError t) ∧ s' = s) ∨
  (r = getresp (answer c (ss_server s)).1 ∧ ss_server s' = ftp_step (ss_server s) c).
Proof.
  unfold sendcmd, exchange, check_line. rewrite M_bind_run. destruct (_ || _).
  - intros [= <- <-]. left. by eexists.
  - intros [= <- <-]. by right.
Qed.

Lemma voidcmd_run (c : FtpCommand) (s : Session FileServer) r s' : voidcmd c s = (r, s') →
  (∃ t, r = Err (ValueError t) ∧ s' = s) ∨
  (r = (_ ← voidresp (answer c (ss_server s)).1; Ok tt) ∧ ss_server s' = ftp_step (ss_server s) c).
Proof.
  unfold voidcmd, exchange, check_line. rewrite M_bind_run. destruct (_ || _).
  - intros [= <- <-]. left. by eexists.
  - rewrite lift_bind_run. intros Hrun. right. destruct (voidresp _) as [x|e] eqn:E; injection Hrun as <- <-; done.
Qed.

(** How the client reads the replies. *)
Definition refused_error : exn := FtpErrorPerm "550 Operation refused.".
Definition missing_error : exn := FtpErrorPerm "550 No such file or directory.".
Definition unlisted_error : exn := FtpErrorTemp "451 A name cannot be listed.".

Lemma refused_read : getresp refused = Err refused_error ∧ voidresp refused = Err refused_error.
Proof. vm_compute. done. Qed.
Lemma missing_read : getresp no_such_file = Err missing_error ∧ voidresp no_such_file = Err missing_error.
Proof. vm_compute. done. Qed.
Lemma completed_read : voidresp completed = Ok "250 Requested action completed.".
Proof. vm_compute. done. Qed.
Lemma unlisted_read : getresp (Reply "451 A name cannot be listed.") = Err unlisted_error.
Proof. vm_compute. done. Qed.
Lemma ready_read : getresp (Reply "350 Ready.") = Ok "350 Ready.".
Proof. vm_compute. done. Qed.
Lemma refused_not_missing : is_missing refused_error = false.
Proof. vm_compute. done. Qed.
Lemma unlisted_not_missing : is_missing unlisted_error = false.
Proof. vm_compute. done. Qed.
Lemma value_error_not_missing t : is_missing (ValueError t) = false.
Proof. done. Qed.

Lemma cwd_run p (s : Session FileServer) r s' : ftp_cwd p s = (r, s') →
  r = Ok tt ∧ sv_cwd (ss_server s') = ftp_target p ∨
  (∃ e, r = Err e ∧ (is_missing e = true →
     present (sv_tree (ss_server s)) (ftp_target p) = false ∧ ss_server s' = ss_server s)).
Proof.
  intros Hrun. apply voidcmd_run in Hrun as [(t' & -> & ->)|[-> Hs]]; [right; by eexists|].
  rewrite Hs. unfold ftp_step, ftp_answer. cbn [is_transfer file_server answer]. cbv zeta.
  destruct (negb (bool_decide (ftp_target p = [])) && _) eqn:Ep; cbn [fst snd].
  - rewrite (proj2 missing_read). right. eexists. split; [reflexivity|]. intros _.
    by apply andb_true_iff in Ep as [_ ?%negb_true_iff].
  - destruct (is_dir _ _); cbn [fst snd]; [rewrite completed_read; by left|].
    rewrite (proj2 refused_read). right. eexists. split; [reflexivity|]. by rewrite refused_not_missing.
Qed.

(** What a transfer gives: the listing is read back line by line. *)
Lemma type_run code (s : Session FileServer) :
  check_line (F_type code) = Ok tt →
  ∃ line, sendcmd (F_type code) s = (Ok line, sent (F_type code) s) ∧
          ss_server (sent (F_type code) s) = ss_server s.
Proof.
  intros Hc. unfold sendcmd, exchange. rewrite M_bind_run, Hc. eexists. split; [vm_compute; reflexivity|done].
Qed.

Lemma opened_data chunks : open_transfer (data chunks) = Ok tt.
Proof. vm_compute. done. Qed.
Lemma closed_data chunks : voidresp (tf_final (data chunks)) = Ok "226 Transfer complete.".
Proof. vm_compute. done. Qed.
Lemma opened_declined a : open_transfer (declined a) =
  (resp ← getresp a; resp ← if bool_decide (first_char resp = "2") then getresp Closed else Ok resp;
   if bool_decide (first_char resp = "1") then Ok tt else Err (FtpError resp)).
Proof. done. Qed.

(** A list: the names, or an error that does not say that nothing is there,
    unless that is so. *)
Definition listed_transfer (p : option string) (r : FileServer) (x : Transfer) : Prop :=
  (∃ names, x = listing names ∧
     match p with
     | None => names = children (sv_tree r) (sv_cwd r)
     | Some q => is_file (sv_tree r !! ftp_target q) → names = [q]
     end) ∨
  (∃ q, p = Some q ∧ x = declined no_such_file ∧ sv_tree r !! ftp_target q = None).

Lemma transfers_listed p r : listed_transfer p r (transfers (F_nlst p) r).1.
Proof.
  unfold listed_transfer. destruct p as [q|]; cbn [transfers]; [|left; by eexists]. cbv zeta.
  destruct (sv_tree r !! ftp_target q) as [[|x]|] eqn:E; cbn [fst].
  - left. eexists. split; [reflexivity|]. intros [y [=]].
  - left. by eexists.
  - right. by exists q.
Qed.

Lemma nlst_run p (s : Session FileServer) r s' : ftp_nlst p s = (r, s') →
  ss_server s' = ss_server s ∧
  match r with
  | Ok lines =>
      match p with
      | None => lines = children (sv_tree (ss_server s)) (sv_cwd (ss_server s))
      | Some q => is_file (sv_tree (ss_server s) !! ftp_target q) → lines = [q]
      end
  | Err e => is_missing e = true → ∃ q, p = Some q ∧ sv_tree (ss_server s) !! ftp_target q = None
  end.
Proof.
  unfold ftp_nlst. rewrite M_bind_run. destruct (type_run "A" s eq_refl) as (line & -> & E1).
  set (s1 := sent _ s) in *. clearbody s1. rewrite M_bind_run. unfold transfer.
  destruct (check_line (F_nlst p)) as [[]|e] eqn:Ec.
  2: { intros [= <- <-]. split; [done|]. unfold check_line in Ec. destruct (_ || _); [|done].
       injection Ec as <-. by rewrite value_error_not_missing. }
  unfold ftp_transfer. cbn [file_server]. rewrite E1.
  assert (ss_server (sent (F_nlst p) s1) = ss_server s) as E2.
  { cbn. rewrite E1. destruct p as [q|]; cbn; [|done]. cbv zeta. by destruct (_ !! _) as [[]|]. }
  set (s2 := sent _ s1) in *. clearbody s2. rewrite lift_bind_run.
  pose proof (transfers_listed p (ss_server s)) as Ht.
  set (x := (transfers (F_nlst p) (ss_server s)).1) in *. clearbody x.
  destruct Ht as [(names & -> & Hn)|(q & -> & -> & Hn)].
  - unfold listing. destruct (forallb listable names) eqn:Ef.
    + rewrite opened_data. cbv zeta. cbn [tf_chunks data concat]. rewrite app_nil_r.
      rewrite String.string_of_list_byte_of_string, text_lines_text.
      * destruct (utf8_decode _); [|intros [= <- <-]; by rewrite value_error_not_missing].
        rewrite !lift_bind_run. change (failed_with _) with (Ok tt : result unit). cbv iota.
        rewrite closed_data. by intros [= <- <-].
      * apply list.Forall_forall. intros n Hin. rewrite forallb_forall in Ef. by apply Ef, list_elem_of_In.
    + rewrite opened_declined, unlisted_read.
      intros [= <- <-]. split; [done|]. by rewrite unlisted_not_missing.
  - rewrite opened_declined. rewrite (proj1 missing_read). intros [= <- <-]. split; [done|]. by exists q.
Qed.

Lemma tree_sent c (s : Session FileServer) : is_transfer c = false →
  ss_server (sent c s) = (answer c (ss_server s)).2.
Proof. intros Hc. cbn. unfold ftp_step. by rewrite Hc. Qed.

Lemma retr_run p (s : Session FileServer) x s' :
  ftp_retrbinary p [] collect s = (Ok x, s') → sv_tree (ss_server s') !! ftp_target p = Some (FFile x).
Proof.
  unfold ftp_retrbinary. intros (u & s1 & Hty & Hrun)%M_bind_Ok.
  apply M_bind_Ok in Hrun as (t & s2 & Ht & Hrun). unfold transfer in Ht.
  destruct (check_line _); [|done]. injection Ht as <- <-.
  change (ss_server (sent (F_retr p) s1)) with (transfers (F_retr p) (ss_server s1)).2 in Hrun.
  rewrite lift_bind_run in Hrun.
  assert (ss_server (sent (F_retr p) s1) = ss_server s1) as E2.
  { cbn. by destruct (_ !! _) as [[]|]. }
  set (s2 := sent _ s1) in *. clearbody s2. rewrite <-E2 in Hrun. unfold ftp_transfer in Hrun.
  cbn [file_server transfers] in Hrun.
  destruct (sv_tree (ss_server s2) !! ftp_target p) as [[|y]|] eqn:E; cbn [fst] in Hrun;
    [by rewrite opened_declined, (proj1 missing_read) in Hrun| |by rewrite opened_declined, (proj1 missing_read) in Hrun].
  rewrite opened_data in Hrun. cbn [data tf_chunks for_fold] in Hrun.
  rewrite M_bind_run in Hrun. change ((collect [] y ≫= _) s2) with (Ok ([] ++ y) : result bytes, s2) in Hrun.
  cbv iota beta in Hrun. rewrite !lift_bind_run, closed_data in Hrun.
  injection Hrun as <- <-. exact E.
Qed.

Lemma rename_run p p' (s : Session FileServer) r s' x :
  ftp_rename p p' s = (r, s') → sv_tree (ss_server s) !! ftp_target p = Some (FFile x) →
  is_ok r = false ∧ sv_tree (ss_server s') = sv_tree (ss_server s) ∨
  sv_tree (ss_server s') = <[ftp_target p' := FFile x]> (base.delete (ftp_target p) (sv_tree (ss_server s))).
Proof.
  unfold ftp_rename. rewrite M_bind_run. intros Hrun Hx.
  destruct (sendcmd (F_rnfr p) s) as [r1 s1] eqn:E1.
  apply sendcmd_run in E1 as [(t & -> & ->)|[-> E1]]; [injection Hrun as <- <-; by left|].
  unfold ftp_step in E1. cbn [is_transfer ftp_answer file_server answer] in E1, Hrun. cbv zeta in E1, Hrun.
  rewrite Hx in E1, Hrun. cbn [fst snd] in E1, Hrun.
  rewrite ready_read in Hrun. cbv iota in Hrun.
  rewrite bool_decide_eq_true_2 in Hrun by done.
  assert (sv_tree (ss_server s1) = sv_tree (ss_server s)) as Et by by rewrite E1.
  assert (sv_rename (ss_server s1) = Some (ftp_target p)) as Er by by rewrite E1.
  apply voidcmd_run in Hrun as [(t & -> & ->)|[-> E2]]; [by left|].
  unfold ftp_step in E2. cbn [is_transfer ftp_answer file_server answer] in E2 |- *. cbv zeta in E2 |- *.
  rewrite Er in E2 |- *. cbn [mbind option_bind] in E2 |- *. rewrite Et, Hx in E2 |- *.
  destruct (is_dir _ _); cbn [fst snd] in E2 |- *; rewrite E2.
  - left. by rewrite (proj2 refused_read).
  - right. by cbn.
Qed.

#[export] Instance file_server_laws : FtpServerLaws FileServer.
Proof.
  split; cbn [tree_of cwd_of file_tree].
  - intros c r Hc. unfold ftp_step. destruct (is_transfer c) eqn:Et.
    + apply tree_transfer. by destruct c.
    + apply tree_answer. by destruct c.
  - intros p r q. unfold ftp_step. cbn. case_bool_decide as Hn; cbn [andb]; [|by left].
    destruct (is_dir _ _); cbn; [|by left]. destruct (decide (q = ftp_target p)) as [->|Hq].
    + right. by rewrite lookup_insert_eq.
    + left. by rewrite lookup_insert_ne.
  - intros p r q. unfold ftp_step. cbn. case_bool_decide as Hn; cbn [andb]; [|by left].
    destruct (bool_decide _); cbn; [|by left]. destruct (decide (q = ftp_target p)) as [->|Hq].
    + right. rewrite lookup_delete_eq, Hn. split_and!; [done| |done]. intros [x [=]].
    + left. by rewrite lookup_delete_ne.
  - intros p r q. unfold ftp_step. cbn. destruct (sv_tree r !! ftp_target p) as [[|x]|] eqn:Hn; cbn; [by left| |by left].
    destruct (decide (q = ftp_target p)) as [->|Hq].
    + right. by rewrite lookup_delete_eq.
    + left. by rewrite lookup_delete_ne.
  - intros p x r q Hq. unfold ftp_step. cbn. destruct (_ || _); cbn; [done|]. by rewrite lookup_insert_ne.
  - intros p p' s r s' x Hrun Hx. apply (rename_run _ _ _ _ _ x) in Hrun as [[Hr Ht]|Ht]; [..|done]; rewrite Ht.
    + split_and!; [done|by left|by intros ->].
    + split_and!; [|right; apply lookup_insert_eq|intros _; apply lookup_insert_eq].
      intros q Hq Hq'. by rewrite lookup_insert_ne, lookup_delete_ne.
  - apply retr_run.
  - intros p s s' Hrun. apply cwd_run in Hrun as [[_ ?]|(e & ? & _)]; done.
  - intros p s e s' rest Hrun _ Hm. apply cwd_run in Hrun as [[? _]|(e' & [= <-] & He)]; [done|].
    destruct (He Hm) as [Hp ->]. by apply present_false.
  - intros s lines s' c rest Hrun Hin. apply nlst_run in Hrun as [Hs ->]. rewrite Hs in Hin. left.
    by eapply child_listed.
  - intros s e s' c rest Hrun _ Hm. apply nlst_run in Hrun as [_ He]. by destruct (He Hm) as (q & ? & _).
  - intros p s s' Hrun Hf. apply nlst_run in Hrun as [Hs Hl]. rewrite Hs in Hf. by specialize (Hl Hf).
  - intros p s e s' Hrun Hm [x Hx]. apply nlst_run in Hrun as [Hs He].
    destruct (He Hm) as (q & [= <-] & Hq). congruence.
Qed.
