(* ===== verification/FtpExamples.v ===== *)
(** * FTP destinations on concrete data

    The revision of [MountedExamples] on the server of [FileServer]: the
    theorems of [FtpTrace], [FtpCopies] and [FtpBackend] applied there. *)

From Stdlib Require Import ZArith Lia.
From stdpp Require Import base gmap sets list strings pretty.
From S2P Require Import Prelude Strings Text Hashing Json Calendar Models World Storage.
From S2P Require Import LocalStorage DestinationPaths Destination RevisionFiles RecordedPaths.
From S2P Require Import AuditSummary Drivers Scheduling MountedExamples.
From S2P Require Import FtpClient FtpSession FtpDestination FtpTrace FtpFiles FtpCopies FtpBackend FileServer.
#[local] Open Scope string_scope.
#[local] Open Scope list_scope.
#[local] Open Scope Z_scope.

(** A run that is known to succeed, with what is known of its result. *)
Lemma run_known {A B S} (m : result A * S) (f : A → B) v :
  f <$> m.1 = Ok v → ∃ x, m = (Ok x, m.2) ∧ f x = v.
Proof. destruct m as [[x|e] s]; [|done]. intros [= Hv]. by exists x. Qed.

Module Ftp.
Import MemoryStorage.
#[local] Existing Instance memory.
#[local] Existing Instance memory_storage.

Abbreviation nfkd := (λ s : string, s).
Abbreviation view := Mounted.view.
Abbreviation primary := Mounted.primary.

Definition destination : BackupDestination := MemoryDestination.ftp 5 "backups".
Definition material : CredentialMaterial :=
  {| cm_username := "backup"; cm_password := Some "secret"; cm_private_key := None;
     cm_enable_secret := None |}.
Definition providers : SecretProviderRegistry :=
  {["memory" := {| sp_provider_id := "memory"; sp_resolve := λ _, Ok material |}]}.
Definition credential : CredentialProfile :=
  {| cr_pk := 8; cr_provider_id := "memory"; cr_secret_reference := "ftp"; cr_auth_type := AT_PASSWORD |}.
Definition db : DB :=
  Mounted.db <| db_destinations := {[5 := destination]} |> <| db_credentials := {[8 := credential]} |>.
Definition empty_server : FileServer :=
  {| sv_tree := {[ [] := FDir ]}; sv_cwd := []; sv_rename := None |}.
Definition start : Session FileServer := fresh_session empty_server.

Definition made := replicate_revision_ftp nfkd 100 providers destination (view "core/1") None db primary start.
Example ftp_made_ok : rr_remote_path <$> made.1 = Ok Mounted.remote.
Proof. vm_compute. reflexivity. Qed.

Definition made_result : ReplicationResult :=
  {| rr_remote_path := Mounted.remote; rr_bytes_transferred := 367; rr_artifact_count := 1 |}.
Lemma ftp_made_run : replicate_revision_ftp nfkd 100 providers destination (view "core/1") None db primary start
  = (Ok made_result, made.2).
Proof.
  fold made. rewrite (surjective_pairing made) at 1. apply (f_equal (λ r, (r, made.2))). vm_compute. reflexivity.
Qed.

(** The commands of the first replication. *)
Example made_commands :
  map (λ c, match c with F_stor p _ => F_stor p [] | c => c end)
    (filter (λ c, is_read c = false) (ss_sent made.2)) =
  let file n := Mounted.remote +:+ "/" +:+ n in
  let put n := [F_stor (file n +:+ ".part") []; F_rnfr (file n +:+ ".part"); F_rnto (file n);
                F_dele (file n +:+ ".part")] in
  map F_mkd ["/backups"; "/backups/devices"; "/backups/devices/core-1"; "/backups/devices/core-1/backups";
             Mounted.remote] ++ put "core-1_2023-11-14_22-13-20.txt" ++ put MANIFEST_FILENAME.
Proof. vm_compute. reflexivity. Qed.


Definition config_name : string := "core-1_2023-11-14_22-13-20.txt".

(** The copy holds the artifact. *)
Example replicate_ftp_complete_witness :
  sha256_hex <$> (tree made.2 !! (path_parts Mounted.remote ++ [config_name]) ≫=
                  λ n, match n with FFile x => Some x | FDir => None end)
    = Some (sha256_hex Mounted.content).
Proof.
  destruct (replicate_ftp_complete nfkd 100 providers destination (view "core/1") None db primary start
    (Ok made_result) made.2 (Mounted.view_types _) ftp_made_run)
    as [[_ Hno]|(path & segment & files & Hp & Hf & _ & Hok)]; [discriminate Hno|].
  vm_compute in Hp. injection Hp as <- <-. vm_compute in Hf. injection Hf as <-.
  destruct (Hok _ eq_refl) as (_ & _ & Hcopy). destruct (Hcopy) with (a := Mounted.artifact) as (e & x & He & Hx & Hd).
  - intros n m Hn Hm. cbn [map ef_filename] in Hn, Hm.
    apply elem_of_cons in Hn as [->|Hn%list_elem_of_singleton]; [|subst n];
      by apply elem_of_cons in Hm as [->|Hm%list_elem_of_singleton]; [|subst m].
  - by left.
  - vm_compute in He. injection He as <-. cbn [ef_filename] in Hx. unfold config_name, Mounted.remote.
    rewrite Hx. cbn [mbind option_bind fmap option_fmap option_map]. by rewrite Hd.
Defined.

(** A parent that is not there either. *)
Example parent_walk_ends_witness :
  absent_from 1000 "/backups/devices" start = directory_absent_from_parent_listing "/backups/devices/" start ∧
  is_ok (absent_from 1000 "/backups/devices" start).1 = true.
Proof.
  split; [|vm_compute; reflexivity]. refine (parent_walk_ends "/backups/devices/" 1000 start _). cbn. lia.
Defined.

(** ** An audit, a recovery and a removal of that copy *)

Definition replica : RevisionReplica := Mounted.replica.
Definition later : Session FileServer := fresh_session (ss_server made.2).

Definition audited := reconcile_ftp_destination nfkd 100 providers destination (Some [replica]) 100 db later.
Example audited_ok : (λ sm, (rs_success sm, rs_checked_files sm, rs_healthy_replicas sm)) <$> audited.1 =
  Ok (true, 2, 1).
Proof. vm_compute. reflexivity. Qed.

#[local] Strategy expand [audited].
Example ftp_audit_sound_witness :
  followed (λ c, is_read c = true) later audited.2 ∧
  replica_sound nfkd 100 destination db (tree later) replica.
Proof.
  destruct (run_known _ _ _ audited_ok) as (sm & Hrun & Hsm). unfold audited at 1 in Hrun.
  destruct (ftp_audit_sound nfkd 100 providers destination (Some [replica]) 100 db later (Ok sm) audited.2 Hrun)
    as [Hreads Hsound]. split; [exact Hreads|].
  injection Hsm as Hsm _ _. specialize (Hsound sm eq_refl Hsm).
  exact (Forall_inv Hsound).
Defined.

Definition recovered := write_verified_ftp_replica_to_archive nfkd 100 providers destination (view "core/2")
  replica "core" 10000 db later.
Example recovered_ok : vd_verified_bytes <$> recovered.1 = Ok 367.
Proof. vm_compute. reflexivity. Qed.

#[local] Strategy expand [recovered].
Example recovery_verified_witness :
  followed (λ c, is_read c = true) later recovered.2 ∧ map fst (ss_output recovered.2) =
    ["core/" +:+ config_name; "core/" +:+ MANIFEST_FILENAME].
Proof.
  destruct (run_known _ _ _ recovered_ok) as (res & Hrun & _). unfold recovered at 1 in Hrun.
  destruct (recovery_verified nfkd 100 providers destination (view "core/2") replica "core" 10000 db later
    (Ok res) recovered.2 Hrun) as [Hreads Hok]. split; [exact Hreads|].
  destruct (Hok res eq_refl) as (files & contents & Hf & Hv & -> & _). vm_compute in Hf. injection Hf as <-.
  apply Forall2_length in Hv. destruct contents as [|x [|y [|]]]; try discriminate Hv. reflexivity.
Defined.

Definition removed := delete_revision_replica_ftp nfkd providers destination (view "core/2") replica db later.
Example removed_ok : (λ res, (dr_deleted_file_count res, dr_already_absent res)) <$> removed.1 = Ok (2, false).
Proof. vm_compute. reflexivity. Qed.

(** An unknown file in the directory stops the deletion. *)
Definition crowded : Session FileServer := fresh_session
  ((ss_server made.2) <| sv_tree ::= <[path_parts Mounted.remote ++ ["notes"] := FFile []]> |>).
Example crowded_refused :
  let run := delete_revision_replica_ftp nfkd providers destination (view "core/2") replica db crowded in
  is_ok run.1 = false ∧ filter (λ c, is_read c = false) (ss_sent run.2) = [].
Proof. vm_compute. by split. Qed.

#[local] Strategy expand [removed].
Example delete_ftp_confined_witness :
  Forall (λ c, early_deletion (path_parts Mounted.remote) [config_name; MANIFEST_FILENAME] c ∨
               late_deletion (path_parts Mounted.remote) c) (ss_sent removed.2).
Proof.
  destruct (run_known _ _ _ removed_ok) as (res & Hrun & _). unfold removed at 1 in Hrun.
  destruct (delete_ftp_confined nfkd providers destination (view "core/2") replica db later
    (Ok res) removed.2 Hrun) as [[_ Hno]|(layout & segment & files & sm & Hval & Hf & _ & _ & H1 & H2)];
    [discriminate Hno|].
  vm_compute in Hf. injection Hf as <-. destruct H1 as (t & E1 & H1 & _), H2 as (u & -> & H2 & _).
  rewrite E1. cbn [later fresh_session ss_sent app]. apply list.Forall_app. split.
  - eapply list.Forall_impl; [exact H1|]. intros c. by left.
  - eapply list.Forall_impl; [exact H2|]. intros c. by right.
Defined.

Example delete_ftp_exact_witness :
  tree removed.2 !! (path_parts Mounted.remote ++ [config_name]) = None ∧ is_ok removed.1 = true.
Proof.
  assert (is_ok removed.1 = true) as Hr by (vm_compute; reflexivity). split; [|exact Hr]. clear Hr.
  destruct (run_known _ _ _ removed_ok) as (res & Hrun & _). unfold removed at 1 in Hrun.
  destruct (delete_ftp_exact nfkd providers destination (view "core/2") replica db later
    (Ok res) removed.2 Hrun) as [[_ Hno]|(files & _ & _ & _ & Hok)]; [discriminate Hno|].
  exact (proj1 (Hok res eq_refl) [config_name]).
Defined.

(** A copy whose manifest is gone: no reader says that it is missing. *)
Definition without_manifest : Session FileServer := fresh_session
  ((ss_server made.2) <| sv_tree ::= base.delete (path_parts Mounted.remote ++ [MANIFEST_FILENAME]) |>).
Example missing_manifest_unreadable :
  (map ri_problem ∘ rs_issues <$>
    (reconcile_ftp_destination nfkd 100 providers destination (Some [replica]) 100 db without_manifest).1)
    = Ok ["unreadable"] ∧
  (write_verified_ftp_replica_to_archive nfkd 100 providers destination (view "core/2") replica "core" 10000 db
     without_manifest).1
    = Err (DestinationError "RECOVERY_FILE_UNREADABLE" "The FTP revision manifest could not be read safely.").
Proof. vm_compute. by split. Qed.

(** The entry [.] of a listing is taken for a nested path. *)
Example dot_entry_unsafe :
  listed_name "/backups" "." = Err (DestinationError "DESTINATION_DIRECTORY_UNSAFE"
    "The FTP revision directory returned a nested path.").
Proof. vm_compute. reflexivity. Qed.

(** The temporary name of one artifact is the name of another: the upload of
    the second takes the place of the first, and the success that is reported
    leaves only one of the two files. *)
Definition listing : ConfigArtifact :=
  Mounted.artifact <| ar_pk := 41 |> <| ar_artifact_type := "run b" |>
    <| ar_storage_key := "t3/b.txt.part" |> <| ar_is_primary := false |>.
Definition running : ConfigArtifact :=
  Mounted.artifact <| ar_pk := 42 |> <| ar_artifact_type := "run-b" |>
    <| ar_storage_key := "t3/b.txt" |> <| ar_is_primary := false |>.
Definition pair_view : RevisionView := 
  {| vw_revision := Mounted.revision; vw_device_id := 11; vw_device_name := "core/1";
     vw_artifacts := [Mounted.artifact; listing; running] |}.
Definition pair_files : @files memory :=
  <["t3/b.txt.part" := Mounted.content]> (<["t3/b.txt" := Mounted.content]> primary).
Definition overwritten := replicate_revision_ftp nfkd 100 providers destination pair_view None db pair_files start.

Example temporary_name_destroys_artifact :
  let stem := path_parts Mounted.remote in
  let name s := stem ++ ["core-1_2023-11-14_22-13-20_run-b.txt" +:+ s] in
  (map ef_filename <$> expected_revision_files nfkd pair_view true (readable_stem nfkd Mounted.remote pair_view)
     (Some "core-1")) = Ok ["core-1_2023-11-14_22-13-20.txt"; "core-1_2023-11-14_22-13-20_run-b.txt.part";
       "core-1_2023-11-14_22-13-20_run-b.txt"; MANIFEST_FILENAME] ∧
  is_ok overwritten.1 = true ∧
  bool_decide (is_Some (tree overwritten.2 !! name "")) = true ∧ tree overwritten.2 !! name ".part" = None.
Proof. vm_compute. split_and!; reflexivity. Qed.

(** Every host a server, whatever the other columns of a destination say. *)
Example ftp_backend_laws_witness :
  @BackendLaws (ftp_externals (R := FileServer) memory (K := string)) (string * string) serves_ftp
    (server_place en_host) server_copy
    (ftp_backend_instance memory memory_storage nfkd 100 "token" providers en_host).
Proof. exact (ftp_backend_laws memory memory_storage nfkd 100 "token" providers en_host serves_ftp). Defined.
End Ftp.
