(* ===== verification/Pipeline.v ===== *)
(** * The backup pipeline: [services/backup.py]

    [BackupPipeline.execute] collects, validates and normalises the artifacts
    of a run, stores them when they changed, and records the outcome.  The
    theorems are proved against the interfaces of the repository and of the
    storage, for any driver and any secret provider. *)

From Stdlib Require Import ZArith Lia Strings.Ascii.
From stdpp Require Import base gmap sets list strings sorting pretty.
From S2P Require Import Prelude Strings Hashing Calendar Models World DriverSelection.
From S2P Require Import Events Scheduling Health.
From S2P Require Import Storage Repository RepositoryContract Drivers.
#[local] Open Scope string_scope.
#[local] Open Scope list_scope.
#[local] Open Scope Z_scope.

(* src: services/backup.py 22 29 BackupResult *)
Record BackupResult := {
  br_run_id : Z;
  br_status : RunStatus;
  br_changed : bool;
  br_raw_changed : bool;
  br_revision_id : option Z;
  br_error_code : string;
}.

(* src: services/backup.py 254 259 PreparedArtifact *)
Record PreparedArtifact := {
  pa_artifact : CollectedArtifact;
  pa_raw_hash : string;
  pa_normalized_hash : string;
  pa_is_primary : bool;
}.

(** The local state of [execute]: [stored_keys] survives into the handlers. *)
Record Frame `{Externals} := { fr_world : World; fr_keys : list string }.
#[export] Instance eta_Frame `{Externals} : Eta Frame := λ r,
  {| fr_world := fr_world r; fr_keys := fr_keys r |}.

(** What [self.clock] and [self.uuid_factory] give: the time [mark_running]
    records, the one a commit records and the one a failure records. *)
Record Readings := {
  rd_started : Z;
  rd_finished : Z;
  rd_failed : Z;
  rd_uuid : string;
}.

(** The exceptions of the first handler. *)
(* src: services/backup.py 161 168 BackupPipeline.execute *)
Definition is_expected (e : exn) : bool :=
  match e with
  | DriverError _ _ | DriverRegistryError _ | SecretProviderError | SecretProviderLookupError
  | StorageError _ | PipelineOperationError _ _ => true
  | _ => false
  end.

(* src: services/backup.py 241 251 BackupPipeline._expected_error *)
Definition expected_error (e : exn) : string * string :=
  match e with
  | DriverError code message | PipelineOperationError code message => (code, message)
  | DriverRegistryError message => ("UNSUPPORTED_PLATFORM", message)
  | SecretProviderError | SecretProviderLookupError =>
      ("SECRET_RESOLUTION_FAILED", "Credential resolution failed.")
  | StorageError message => ("STORAGE_FAILED", message)
  | _ => ("INTERNAL_ERROR", "Unexpected internal backup error.")
  end.

(** ** Preparing the artifacts *)

(** [UnicodeError] and [ArchiveExtractionError] are [ValueError]s. *)
Definition is_value_error (e : exn) : bool :=
  match e with ValueError _ | ArchiveExtractionError _ => true | _ => false end.

(* src: services/backup.py 209 230 BackupPipeline._prepare_artifacts *)
Definition prepare_artifact (driver : BackupDriver) (artifact : CollectedArtifact)
    : result PreparedArtifact :=
  validation ← dr_validate driver artifact;
  if negb (vr_valid validation)
  then Err (PipelineOperationError (vr_error_code validation) (vr_safe_message validation))
  else
    normalized ← match dr_normalize driver artifact with
      | Err e =>
          if is_value_error e
          then Err (PipelineOperationError "NORMALIZATION_FAILED" "Artifact normalization failed.")
          else Err e
      | r => r
      end;
    if bool_decide (normalized = [])
    then Err (PipelineOperationError "NORMALIZATION_FAILED"
                "Artifact normalization returned no data.")
    else Ok {| pa_artifact := artifact; pa_raw_hash := sha256_hex (ca_content artifact);
               pa_normalized_hash := sha256_hex normalized;
               pa_is_primary := ca_is_primary artifact |}.

(* src: services/backup.py 196 231 BackupPipeline._prepare_artifacts *)
Definition prepare_artifacts (driver : BackupDriver) (artifacts : list CollectedArtifact)
    : result (list PreparedArtifact) :=
  match artifacts with
  | [] => Err (PipelineOperationError "EMPTY_CONFIG" "Driver returned no artifacts.")
  | _ =>
      if negb (size (list_to_set (map ca_artifact_type artifacts) : gset string)
               =? length artifacts)%nat
      then Err (PipelineOperationError "VALIDATION_FAILED"
                  "Driver returned duplicate artifact types.")
      else if negb (length (filter (λ a, ca_is_primary a = true) artifacts) =? 1)%nat
      then Err (PipelineOperationError "VALIDATION_FAILED"
                  "Exactly one primary artifact is required.")
      else mapM (prepare_artifact driver) artifacts
  end.

Section pipeline.
Context `{Externals} `{!BackupRepository} `{!ConfigStorage}.
Context (drivers : DriverRegistry) (secret_providers : SecretProviderRegistry).
Context (error_message_max_length : Z) (readings : Readings).

Definition in_world {A} (m : M World A) : M Frame A := λ f,
  let '(r, w) := m (fr_world f) in (r, f <| fr_world := w |>).

(** [self.drivers.create(driver_id)] of the [EnabledDriverRegistry]. *)
Definition create_driver (driver_id : string) : M World BackupDriver :=
  disabled ← read disabled_driver_ids; lift (create_enabled drivers disabled driver_id).

Definition resolve_secret (provider_id reference : string) : result CredentialMaterial :=
  provider ← get_provider provider_id secret_providers; sp_resolve provider reference.

(* src: services/backup.py 59 67 BackupPipeline.execute *)
Definition device_credentials (context : ExecutionContext) : result (option CredentialMaterial) :=
  if truthy_text (ec_secret_provider_id context) || truthy_text (ec_secret_reference context)
  then if negb (truthy_text (ec_secret_provider_id context))
          || negb (truthy_text (ec_secret_reference context))
       then Err (PipelineOperationError "NO_CREDENTIAL_PROFILE"
                   "Credential provider and reference must both be configured.")
       else Some <$> resolve_secret (default "" (ec_secret_provider_id context))
                       (default "" (ec_secret_reference context))
  else Ok None.

(* src: services/backup.py 69 80 BackupPipeline.execute *)
Definition receiver_of (context : ExecutionContext)
    : result (option (ReceiverParameters * CredentialMaterial)) :=
  match ec_receiver context with
  | None => Ok None
  | Some receiver =>
      if negb (truthy_text (ec_receiver_secret_provider_id context))
         || negb (truthy_text (ec_receiver_secret_reference context))
      then Err (PipelineOperationError "NO_RECEIVER_CREDENTIALS"
                  "The device upload receiver has no complete credential profile.")
      else credentials ← resolve_secret (default "" (ec_receiver_secret_provider_id context))
                           (default "" (ec_receiver_secret_reference context));
           Ok (Some (receiver, credentials))
  end.

(* src: services/backup.py 82 92 BackupPipeline.execute *)
Definition collect_artifacts (driver : BackupDriver) (context : ExecutionContext)
    : result (list CollectedArtifact) :=
  credentials ← device_credentials context;
  receiver ← receiver_of context;
  dr_collect driver {|
    dx_device_id := ec_device_id context; dx_device_name := ec_device_name context;
    dx_address := ec_address context; dx_credentials := credentials;
    dx_connection := ec_connection context; dx_receiver := receiver;
    dx_options := ec_driver_options context |}.

(* src: services/backup.py 117 120 BackupPipeline.execute *)
Definition artifact_key (context : ExecutionContext) (item : PreparedArtifact) : string :=
  "devices/" +:+ pretty (ec_device_id context) +:+ "/revisions/" +:+ rd_uuid readings
  +:+ "/" +:+ ca_filename (pa_artifact item).

(** One turn of the storing loop. *)
(* src: services/backup.py 116 141 BackupPipeline.execute *)
Definition store_artifact (context : ExecutionContext) (records : list StoredArtifactRecord)
    (item : PreparedArtifact) : M Frame (list StoredArtifactRecord) :=
  let key := artifact_key context item in
  stored ← in_world (on_files (st_put key (ca_content (pa_artifact item))
    [("artifact_type", ca_artifact_type (pa_artifact item));
     ("driver_id", ec_driver_id context); ("raw_hash", pa_raw_hash item)]));
  _ ← modify (λ f, f <| fr_keys := fr_keys f ++ [key] |>);
  mret (records ++ [{|
    sr_artifact_type := ca_artifact_type (pa_artifact item);
    sr_format := ca_format (pa_artifact item); sr_storage_key := key;
    sr_size := so_size stored; sr_raw_hash := pa_raw_hash item;
    sr_normalized_hash := pa_normalized_hash item; sr_is_primary := pa_is_primary item |}]).

(* src: services/backup.py 96 160 BackupPipeline.execute *)
Definition record_artifacts (run_id : Z) (context : ExecutionContext) (driver : BackupDriver)
    (prepared : list PreparedArtifact) (primary : PreparedArtifact) : M Frame BackupResult :=
  latest ← in_world (repo_get_latest_revision (ec_target_id context));
  let content_changed := match latest with
    | None => true
    | Some l => negb (bool_decide (sn_normalized_hash l = pa_normalized_hash primary)) end in
  let raw_changed := match latest with
    | None => true
    | Some l => negb (bool_decide (sn_primary_raw_hash l = pa_raw_hash primary)) end in
  if negb content_changed && bool_decide (ec_store_mode context = SM_CHANGED_ONLY)
  then
    revision_id ← in_world (repo_commit_unchanged run_id raw_changed (rd_finished readings));
    mret {| br_run_id := run_id; br_status := RS_SUCCESS_UNCHANGED; br_changed := false;
            br_raw_changed := raw_changed; br_revision_id := revision_id; br_error_code := "" |}
  else
    stored_records ← for_fold prepared [] (store_artifact context);
    revision_id ← in_world (repo_commit_revision run_id {|
      nr_revision_uuid := rd_uuid readings;
      nr_normalized_hash := pa_normalized_hash primary;
      nr_normalizer_version := dr_normalizer_version driver;
      nr_driver_id := ec_driver_id context;
      nr_content_changed := content_changed;
      nr_raw_changed := raw_changed;
      nr_artifacts := stored_records |} (rd_finished readings));
    mret {| br_run_id := run_id;
            br_status := if content_changed then RS_SUCCESS_CHANGED else RS_SUCCESS_UNCHANGED;
            br_changed := content_changed; br_raw_changed := raw_changed;
            br_revision_id := Some revision_id; br_error_code := "" |}.

(** The body of the [try]. *)
(* src: services/backup.py 54 160 BackupPipeline.execute *)
Definition execute_body (run_id : Z) : M Frame BackupResult :=
  context ← in_world (repo_get_execution_context run_id);
  _ ← in_world (repo_mark_running run_id (rd_started readings));
  driver ← in_world (create_driver (ec_driver_id context));
  artifacts ← lift (collect_artifacts driver context);
  prepared ← lift (prepare_artifacts driver artifacts);
  primary ← lift (match head (filter (λ p, pa_is_primary p = true) prepared) with
                  | Some p => Ok p | None => Err StopIteration end);
  record_artifacts run_id context driver prepared primary.

(* src: services/backup.py 233 239 BackupPipeline._rollback_storage *)
Definition rollback_storage (stored_keys : list string) : M World unit :=
  for_each (reverse stored_keys) (λ key,
    try_catch (on_files (st_delete key)) (λ e,
      match e with StorageError _ => mret tt | e => raise e end)).

(** The two handlers. *)
(* src: services/backup.py 161 194 BackupPipeline.execute *)
Definition execute_failed (run_id : Z) (stored_keys : list string) (e : exn)
    : M World BackupResult :=
  _ ← rollback_storage stored_keys;
  if is_expected e
  then
    let '(error_code, safe_message) := expected_error e in
    _ ← repo_mark_failed run_id RS_FAILED error_code
          (str_take error_message_max_length safe_message) (rd_failed readings);
    mret {| br_run_id := run_id; br_status := RS_FAILED; br_changed := false;
            br_raw_changed := false; br_revision_id := None; br_error_code := error_code |}
  else
    _ ← repo_mark_failed run_id RS_ERRORED "INTERNAL_ERROR" "Unexpected internal backup error."
          (rd_failed readings);
    raise e.

(* src: services/backup.py 52 194 BackupPipeline.execute *)
Definition execute (run_id : Z) : M World BackupResult := λ w,
  match execute_body run_id {| fr_world := w; fr_keys := [] |} with
  | (Ok res, f) => (Ok res, fr_world f)
  | (Err e, f) => execute_failed run_id (fr_keys f) e (fr_world f)
  end.

(** ** The storing loop *)
Context `{HS : !ConfigStorageLaws}.

(** The locations of this execution's keys. *)
Definition own_location (context : ExecutionContext) (l : loc) : Prop :=
  ∃ item, loc_of (artifact_key context item) = Some l.

Definition record_of (context : ExecutionContext) (item : PreparedArtifact)
    : StoredArtifactRecord := {|
  sr_artifact_type := ca_artifact_type (pa_artifact item);
  sr_format := ca_format (pa_artifact item); sr_storage_key := artifact_key context item;
  sr_size := Z.of_nat (length (ca_content (pa_artifact item)));
  sr_raw_hash := pa_raw_hash item; sr_normalized_hash := pa_normalized_hash item;
  sr_is_primary := pa_is_primary item |}.

Lemma store_artifact_run context records item f r f' :
  store_artifact context records item f = (r, f') → storage_ok (w_files (fr_world f)) →
  w_db (fr_world f') = w_db (fr_world f) ∧ storage_ok (w_files (fr_world f')) ∧
  let s := w_files (fr_world f) in let s' := w_files (fr_world f') in
  let key := artifact_key context item in
  match r with
  | Ok records' =>
      records' = records ++ [record_of context item] ∧ fr_keys f' = fr_keys f ++ [key] ∧
      ∃ l, loc_of key = Some l ∧ object s' l = Some (ca_content (pa_artifact item)) ∧
        ∀ j, j ≠ l → object s' j = object s j
  | Err _ => fr_keys f' = fr_keys f ∧
      ∀ j, is_Some (object s j) → loc_of key ≠ Some j → object s' j = object s j
  end.
Proof.
  unfold store_artifact, in_world, on_files. rewrite M_bind_run. intros Hm Hok.
  destruct (st_put _ _ _ (w_files (fr_world f))) as [[o|e] s'] eqn:E.
  - apply put_Ok in E as (Hok' & _ & Hsize & Hl); [|done].
    rewrite modify_bind_run in Hm. injection Hm as <- <-.
    split; [done|]. split; [done|]. cbv zeta. split; [|by split].
    unfold record_of. by rewrite Hsize.
  - apply put_Err in E as [Hok' Hl]; [|done]. injection Hm as <- <-. done.
Qed.

(** Whatever happens, the loop stores keys of its own that name locations,
    and leaves every other object alone. *)
Lemma store_loop_frame context prepared : ∀ records f r f',
  for_fold prepared records (store_artifact context) f = (r, f') →
  storage_ok (w_files (fr_world f)) →
  w_db (fr_world f') = w_db (fr_world f) ∧ storage_ok (w_files (fr_world f')) ∧
  (∃ keys, fr_keys f' = fr_keys f ++ keys ∧
     ∀ k, k ∈ keys → ∃ l, loc_of k = Some l ∧ own_location context l) ∧
  ∀ l, is_Some (object (w_files (fr_world f)) l) → ¬ own_location context l →
    object (w_files (fr_world f')) l = object (w_files (fr_world f)) l.
Proof.
  induction prepared as [|item prepared IH]; intros records f r f' Hm Hok; simpl in Hm.
  { injection Hm as <- <-. split_and!; try done. exists []. rewrite app_nil_r.
    split; [done|]. by intros k ?%elem_of_nil. }
  rewrite M_bind_run in Hm.
  destruct (store_artifact context records item f) as [[records'|e] f1] eqn:E;
    apply store_artifact_run in E as (Hdb & Hok1 & Hs); [|done| |done].
  - destruct Hs as (_ & Hk1 & l & Hl & _ & Hother).
    apply IH in Hm as (Hdb' & Hok' & (keys & Hk & Hkeys) & Hobj); [|done].
    split_and!; [by rewrite Hdb'|done| |].
    + exists (artifact_key context item :: keys). rewrite Hk, Hk1, <-app_assoc. split; [done|].
      intros k [->|Hin]%elem_of_cons; [|auto]. exists l. split; [done|]. by exists item.
    + intros j Hj Hown. assert (j ≠ l) by (intros ->; apply Hown; by exists item).
      rewrite Hobj, Hother by (rewrite ?Hother; done). done.
  - destruct Hs as (Hk & Hobj). injection Hm as <- <-. split_and!; [done|done| |].
    + exists []. rewrite app_nil_r. split; [done|]. by intros k ?%elem_of_nil.
    + intros j Hj Hown. apply Hobj; [done|]. intros Hl. apply Hown. by exists item.
Qed.

(** When it ends well, every artifact is in place. *)
Lemma store_loop_Ok context prepared : ∀ records f records' f',
  for_fold prepared records (store_artifact context) f = (Ok records', f') →
  storage_ok (w_files (fr_world f)) →
  records' = records ++ map (record_of context) prepared ∧
  (∀ l, (∀ item, item ∈ prepared → loc_of (artifact_key context item) ≠ Some l) →
     object (w_files (fr_world f')) l = object (w_files (fr_world f)) l) ∧
  (NoDup (map (λ item, loc_of (artifact_key context item)) prepared) →
   ∀ item, item ∈ prepared → ∃ l, loc_of (artifact_key context item) = Some l ∧
     object (w_files (fr_world f')) l = Some (ca_content (pa_artifact item))).
Proof.
  induction prepared as [|item prepared IH]; intros records f records' f' Hm Hok; simpl in Hm.
  { injection Hm as <- <-. rewrite app_nil_r. split_and!; [done|done|].
    by intros _ item ?%elem_of_nil. }
  rewrite M_bind_run in Hm.
  destruct (store_artifact context records item f) as [[r1|e] f1] eqn:E; [|done].
  apply store_artifact_run in E as (_ & Hok1 & -> & _ & l & Hl & Hobj & Hother); [|done].
  apply IH in Hm as (-> & Hframe & Hall); [|done].
  split_and!.
  - by rewrite <-app_assoc.
  - intros j Hj. rewrite Hframe by (intros x Hx; apply Hj; by right).
    apply Hother. intros ->. apply (Hj item); [by left|done].
  - simpl. intros [Hnin Hnd]%NoDup_cons x [->|Hx]%elem_of_cons; [|by apply Hall].
    exists l. split; [done|]. rewrite Hframe; [done|].
    intros y Hy Hly. apply Hnin. rewrite Hl, <-Hly.
    by apply (list_elem_of_fmap_2 (λ item, loc_of (artifact_key context item))).
Qed.

(** On a reliable storage the new objects are those of the stored keys. *)
Lemma store_loop_reliable reliable `{!ReliableStorage reliable} context prepared :
  ∀ records f r f',
  for_fold prepared records (store_artifact context) f = (r, f') →
  storage_ok (w_files (fr_world f)) → reliable (w_files (fr_world f)) →
  reliable (w_files (fr_world f')) ∧
  (∀ k, k ∈ fr_keys f → k ∈ fr_keys f') ∧
  ∀ l, object (w_files (fr_world f)) l = None →
    object (w_files (fr_world f')) l = None ∨ ∃ k, k ∈ fr_keys f' ∧ loc_of k = Some l.
Proof.
  induction prepared as [|item prepared IH]; intros records f r f' Hm Hok Hrel; simpl in Hm.
  { injection Hm as <- <-. auto. }
  rewrite M_bind_run in Hm.
  destruct (store_artifact context records item f) as [r1 f1] eqn:E.
  assert (reliable (w_files (fr_world f1)) ∧ (is_ok r1 = false → ∀ l,
    object (w_files (fr_world f)) l = None → object (w_files (fr_world f1)) l = None)) as [Hrel1 Hnew].
  { unfold store_artifact, in_world, on_files in E. rewrite M_bind_run in E.
    destruct (st_put _ _ _ (w_files (fr_world f))) as [[o|e] s'] eqn:Ep;
      apply (reliable_put _ _ _ _ _ _ Hok Hrel) in Ep as [Hr Hn]; by injection E as <- <-. }
  apply store_artifact_run in E as (_ & Hok1 & Hs); [|done].
  destruct r1 as [records'|e].
  - destruct Hs as (_ & Hk1 & l0 & Hl0 & _ & Hother).
    apply IH in Hm as (Hrel' & Hkeys & Hobj); [|done|done]. split_and!; [done| |].
    + intros k Hk. apply Hkeys. rewrite Hk1, elem_of_app. by left.
    + intros l Hl. destruct (decide (l = l0)) as [->|Hne].
      * right. exists (artifact_key context item). split; [|done].
        apply Hkeys. rewrite Hk1, elem_of_app. right. by left.
      * apply Hobj. by rewrite Hother.
  - injection Hm as <- <-. destruct Hs as [-> _]. split_and!; [done|done|]. auto.
Qed.

(** ** The rollback *)
Lemma delete_step key w :
  storage_ok (w_files w) → is_Some (loc_of key) →
  ∃ w', try_catch (on_files (st_delete key)) (λ e,
          match e with StorageError _ => mret tt | e => raise e end) w = (Ok tt, w') ∧
    w_db w' = w_db w ∧ storage_ok (w_files w') ∧
    (∀ l, loc_of key ≠ Some l → object (w_files w') l = object (w_files w) l) ∧
    (∀ l, object (w_files w) l = None → object (w_files w') l = None) ∧
    ∀ reliable, ReliableStorage reliable → reliable (w_files w) →
      reliable (w_files w') ∧ ∀ l, loc_of key = Some l → object (w_files w') l = None.
Proof.
  intros Hok Hloc. unfold try_catch, on_files.
  destruct (st_delete key (w_files w)) as [[[]|e] s'] eqn:E.
  - pose proof E as E0. apply delete_Ok in E as (Hok' & l & Hl & Hnone & Hother); [|done].
    eexists. split_and!; [done|done|done| | |]; simpl.
    + intros j Hj. apply Hother. congruence.
    + intros j Hj. destruct (decide (j = l)) as [->|Hne]; [done|]. by rewrite Hother.
    + intros reliable Hr Hrel. pose proof (reliable_delete _ _ _ _ Hok Hrel Hloc E0) as [? _].
      split; [done|]. intros j Hj. congruence.
  - pose proof (delete_raises _ _ _ _ Hok Hloc E) as He. pose proof E as E0.
    apply delete_Err in E as [Hok' Hobj]; [|done].
    destruct e; try discriminate He. eexists. split_and!; [done|done|done|done| |]; simpl.
    + intros j Hj. by rewrite Hobj.
    + intros reliable Hr Hrel. by pose proof (reliable_delete _ _ _ _ Hok Hrel Hloc E0) as [_ ?].
Qed.

Lemma rollback_loop keys : ∀ w,
  storage_ok (w_files w) → (∀ k, k ∈ keys → is_Some (loc_of k)) →
  ∃ w', for_each keys (λ key, try_catch (on_files (st_delete key)) (λ e,
          match e with StorageError _ => mret tt | e => raise e end)) w = (Ok tt, w') ∧
    w_db w' = w_db w ∧ storage_ok (w_files w') ∧
    (∀ l, (∀ k, k ∈ keys → loc_of k ≠ Some l) →
       object (w_files w') l = object (w_files w) l) ∧
    (∀ l, object (w_files w) l = None → object (w_files w') l = None) ∧
    ∀ reliable, ReliableStorage reliable → reliable (w_files w) →
      reliable (w_files w') ∧
      ∀ k l, k ∈ keys → loc_of k = Some l → object (w_files w') l = None.
Proof.
  induction keys as [|k keys IH]; intros w Hok Hloc; simpl.
  { exists w. split_and!; try done. intros reliable _ Hr. split; [done|].
    by intros k l ?%elem_of_nil. }
  destruct (delete_step k w Hok (Hloc k ltac:(by left))) as (w1 & E & Hd & Hok1 & Ho & Hn & Hr).
  rewrite M_bind_run, E.
  destruct (IH w1 Hok1 (λ x Hx, Hloc x ltac:(by right))) as (w2 & E2 & Hd2 & Hok2 & Ho2 & Hn2 & Hr2).
  exists w2. split_and!; [done|by rewrite Hd2|done| |auto|].
  - intros j Hj. rewrite Ho2 by (intros x Hx; apply Hj; by right). apply Ho, Hj. by left.
  - intros reliable Hrel Hw. destruct (Hr _ Hrel Hw) as [Hrel1 Hg1].
    destruct (Hr2 _ Hrel Hrel1) as [Hrel2 Hg2]. split; [done|].
    intros x l [->|Hx]%elem_of_cons Hl; [|by apply (Hg2 x)]. by apply Hn2, Hg1.
Qed.

Lemma rollback_storage_run keys w :
  storage_ok (w_files w) → (∀ k, k ∈ keys → is_Some (loc_of k)) →
  ∃ w', rollback_storage keys w = (Ok tt, w') ∧
    w_db w' = w_db w ∧ storage_ok (w_files w') ∧
    (∀ l, (∀ k, k ∈ keys → loc_of k ≠ Some l) →
       object (w_files w') l = object (w_files w) l) ∧
    (∀ l, object (w_files w) l = None → object (w_files w') l = None) ∧
    ∀ reliable, ReliableStorage reliable → reliable (w_files w) →
      reliable (w_files w') ∧
      ∀ k l, k ∈ keys → loc_of k = Some l → object (w_files w') l = None.
Proof.
  intros Hok Hloc. unfold rollback_storage.
  assert (∀ k, k ∈ reverse keys ↔ k ∈ keys) as Hrev.
  { intros k. by rewrite elem_of_reverse. }
  destruct (rollback_loop (reverse keys) w Hok) as (w' & E & Hd & Hok' & Ho & Hn & Hr).
  { intros k ?%Hrev. auto. }
  exists w'. split_and!; [done|done|done| |done|].
  - intros l Hl. apply Ho. intros k ?%Hrev. auto.
  - intros reliable Hrel Hw. destruct (Hr _ Hrel Hw) as [? Hg]. split; [done|].
    intros k l ?%Hrev. by apply Hg.
Qed.

(** ** The body of the [try] *)
Context `{HR : !BackupRepositoryLaws}.

(** The row of the run agrees with the result. *)
Definition run_recorded (run_id : Z) (res : BackupResult) (db : DB) : Prop :=
  ∃ run, db_runs db !! run_id = Some run ∧ run_status run = br_status res ∧
    run_finished_at run = Some (rd_finished readings) ∧ run_changed run = br_changed res ∧
    run_raw_changed run = br_raw_changed res ∧ run_revision run = br_revision_id res.

(** Nothing was stored: the configuration is that of the latest revision. *)
Definition nothing_stored (res : BackupResult) (w w' : World) : Prop :=
  br_status res = RS_SUCCESS_UNCHANGED ∧ br_changed res = false ∧
  w_files w' = w_files w ∧ same_results (w_db w) (w_db w').

(** A new revision, whose artifacts are in the storage. *)
Definition revision_stored (run_id : Z) (res : BackupResult) (w w' : World) : Prop :=
  ∃ pk n, br_revision_id res = Some pk ∧
    br_status res = (if nr_content_changed n then RS_SUCCESS_CHANGED else RS_SUCCESS_UNCHANGED) ∧
    nr_revision_uuid n = rd_uuid readings ∧
    revision_committed run_id pk (rd_finished readings) n (w_db w) (w_db w') ∧
    (NoDup (map (λ item, loc_of (sr_storage_key item)) (nr_artifacts n)) →
     ∀ item, item ∈ nr_artifacts n → ∃ l c, loc_of (sr_storage_key item) = Some l ∧
       object (w_files w') l = Some c ∧ sr_raw_hash item = sha256_hex c ∧
       sr_size item = Z.of_nat (length c)).

Record body_facts (run_id : Z) (own : loc → Prop) (w : World) (r : result BackupResult)
    (f : Frame) : Prop := {
  bf_repo : repo_ok (w_db (fr_world f));
  bf_storage : storage_ok (w_files (fr_world f));
  bf_keys : ∀ k, k ∈ fr_keys f → ∃ l, loc_of k = Some l ∧ own l;
  bf_objects : ∀ l, is_Some (object (w_files w) l) → ¬ own l →
    object (w_files (fr_world f)) l = object (w_files w) l;
  bf_reliable : ∀ reliable, ReliableStorage reliable → reliable (w_files w) →
    reliable (w_files (fr_world f)) ∧
    ∀ l, object (w_files w) l = None →
      object (w_files (fr_world f)) l = None ∨ ∃ k, k ∈ fr_keys f ∧ loc_of k = Some l;
  bf_result : match r with
    | Ok res => br_run_id res = run_id ∧ run_recorded run_id res (w_db (fr_world f)) ∧
        (nothing_stored res w (fr_world f) ∨ revision_stored run_id res w (fr_world f))
    | Err _ => w_db (fr_world f) = w_db w
    end;
}.

(** Facts that hold as long as no object was written. *)
Lemma body_facts_quiet run_id own w r f :
  repo_ok (w_db (fr_world f)) → storage_ok (w_files w) → fr_keys f = [] →
  w_files (fr_world f) = w_files w →
  match r with
  | Ok res => br_run_id res = run_id ∧ run_recorded run_id res (w_db (fr_world f)) ∧
      (nothing_stored res w (fr_world f) ∨ revision_stored run_id res w (fr_world f))
  | Err _ => w_db (fr_world f) = w_db w
  end → body_facts run_id own w r f.
Proof.
  intros Hrepo Hok Hk Hf Hr. split; rewrite ?Hf, ?Hk; try done; auto.
  by intros k ?%elem_of_nil.
Qed.

Lemma prepare_artifact_hash driver a p :
  prepare_artifact driver a = Ok p →
  pa_artifact p = a ∧ pa_raw_hash p = sha256_hex (ca_content a) ∧
  pa_is_primary p = ca_is_primary a.
Proof.
  unfold prepare_artifact. intros (v & _ & Hp)%result_bind_Ok.
  destruct (negb (vr_valid v)); [done|]. apply result_bind_Ok in Hp as (nz & _ & Hp).
  case_bool_decide; [done|]. by injection Hp as <-.
Qed.

Lemma record_artifacts_facts run_id context driver prepared primary f r f' :
  repo_ok (w_db (fr_world f)) → storage_ok (w_files (fr_world f)) → fr_keys f = [] →
  (∀ p, p ∈ prepared → pa_raw_hash p = sha256_hex (ca_content (pa_artifact p))) →
  record_artifacts run_id context driver prepared primary f = (r, f') →
  body_facts run_id (own_location context) (fr_world f) r f'.
Proof.
  intros Hrepo Hok Hk0 Hhash Hm. unfold record_artifacts in Hm. rewrite M_bind_run in Hm.
  unfold in_world at 1 in Hm.
  destruct (repo_get_latest_revision _ _) as [[latest|e] w1] eqn:El;
    apply latest_pure in El as ->.
  2: { injection Hm as <- <-. by apply body_facts_quiet. }
  cbv zeta in Hm.
  set (cc := match latest with None => true | _ => _ end) in Hm.
  set (rc := match latest with None => true | _ => _ end) in Hm.
  destruct (negb cc && _) eqn:Eskip.
  - rewrite M_bind_run in Hm. unfold in_world in Hm. simpl in Hm.
    destruct (repo_commit_unchanged _ _ _ _) as [[rev|e] w1] eqn:Ec;
      apply commit_unchanged_law in Ec as (Hrepo1 & Hf1 & Hc); [|done| |done];
      injection Hm as <- <-; apply body_facts_quiet; try done.
    destruct Hc as (Hsame & run & Hrun & Hs & Hfin & Hch & Hraw & Hrev).
    split; [done|]. split; [by exists run|]. by left.
  - rewrite M_bind_run in Hm. simpl in Hm. set (f0 := f <| fr_world := fr_world f |>) in Hm.
    destruct (for_fold prepared [] (store_artifact context) f0) as [r1 f1] eqn:Es.
    pose proof (store_loop_frame _ _ _ _ _ _ Es Hok) as (Hdb1 & Hok1 & (keys & Hk1 & Hkeys) & Hobj).
    simpl in Hk1. rewrite Hk0 in Hk1. simpl in Hk1.
    assert (∀ reliable, ReliableStorage reliable → reliable (w_files (fr_world f)) →
      reliable (w_files (fr_world f1)) ∧
      ∀ l, object (w_files (fr_world f)) l = None →
        object (w_files (fr_world f1)) l = None ∨ ∃ k, k ∈ fr_keys f1 ∧ loc_of k = Some l) as Hrel.
    { intros reliable Hr Hw.
      destruct (store_loop_reliable reliable _ _ _ _ _ _ Es Hok Hw) as (? & _ & ?). done. }
    rewrite <-Hk1 in Hkeys. destruct r1 as [records|e].
    2: { injection Hm as <- <-. split; try done. by rewrite Hdb1. }
    apply store_loop_Ok in Es as (-> & _ & Hall); [|done].
    rewrite M_bind_run in Hm. unfold in_world in Hm.
    destruct (repo_commit_revision _ _ _ _) as [[pk|e] w2] eqn:Ec;
      apply commit_revision_law in Ec as (Hrepo2 & Hf2 & Hc); try (by rewrite Hdb1);
      injection Hm as <- <-; split; simpl; rewrite ?Hf2; try done; [|by rewrite Hc, Hdb1].
    rewrite Hdb1 in Hc. simpl in Hc.
    split; [done|]. split.
    + destruct Hc as (_ & _ & run & Hrun & Hs & Hfin & Hch & Hraw & Hrev). by exists run.
    + right. eexists pk, _. split_and!; [done| | |exact Hc|]; [done..|]. simpl. rewrite Hf2.
      intros Hnd item (p & -> & Hp)%list_elem_of_fmap. rewrite <-list_fmap_compose in Hnd.
      destruct (Hall Hnd p Hp) as (l & Hl & Hc'). exists l, (ca_content (pa_artifact p)).
      split_and!; [done|done|by apply Hhash|done].
Qed.

Lemma body_facts_own run_id (own own' : loc → Prop) w r f :
  (∀ l, own l → own' l) → body_facts run_id own w r f → body_facts run_id own' w r f.
Proof.
  intros Hown [B1 B2 B3 B4 B5 B6]. split; auto.
  intros k Hk. destruct (B3 k Hk) as (l & ? & ?). eauto.
Qed.

Lemma prepare_artifacts_hash driver artifacts prepared :
  prepare_artifacts driver artifacts = Ok prepared →
  ∀ p, p ∈ prepared → pa_raw_hash p = sha256_hex (ca_content (pa_artifact p)).
Proof.
  unfold prepare_artifacts. destruct artifacts as [|a l]; [done|].
  destruct (negb _); [done|]. destruct (negb _); [done|].
  intros Hall%mapM_Ok p [i Hi]%list_elem_of_lookup_1.
  destruct (Forall2_lookup_r _ _ _ _ _ Hall Hi) as (x & _ & Hx).
  by apply prepare_artifact_hash in Hx as (-> & ? & _).
Qed.

(** The run was queued and is marked as running. *)
Definition marked_running (run_id : Z) (w w1 : World) : Prop :=
  w_files w1 = w_files w ∧
  ∃ run, db_runs (w_db w) !! run_id = Some run ∧ run_status run = RS_QUEUED ∧
    w_db w1 = set_run run_id (running run (rd_started readings)) (w_db w).

(** The locations the execution may write. *)
Definition own_of (run_id : Z) (w : World) (l : loc) : Prop :=
  ∃ context, repo_get_execution_context run_id w = (Ok context, w) ∧ own_location context l.

Lemma execute_body_facts run_id w r f :
  repo_ok (w_db w) → storage_ok (w_files w) →
  execute_body run_id {| fr_world := w; fr_keys := [] |} = (r, f) →
  (is_ok r = false ∧ w_db (fr_world f) = w_db w ∧ w_files (fr_world f) = w_files w ∧
     fr_keys f = []) ∨
  ∃ w1, marked_running run_id w w1 ∧ body_facts run_id (own_of run_id w) w1 r f.
Proof.
  intros Hrepo Hok Hm. unfold execute_body in Hm. rewrite M_bind_run in Hm.
  unfold in_world at 1 in Hm. simpl in Hm.
  destruct (repo_get_execution_context run_id w) as [[context|e] w0] eqn:Ec;
    pose proof (context_pure _ _ _ _ Ec) as ->; [|injection Hm as <- <-; by left].
  rewrite M_bind_run in Hm. unfold in_world at 1 in Hm. simpl in Hm.
  destruct (repo_mark_running _ _ _) as [[u|e] w1] eqn:Em;
    apply mark_running_law in Em as (Hrepo1 & Hf1 & Hm1); [|done| |done];
    [|injection Hm as <- <-; left; simpl; by rewrite Hm1, Hf1].
  right. exists w1. split; [done|].
  assert (storage_ok (w_files w1)) as Hok1 by by rewrite Hf1.
  assert (∀ r' f', r' = r → f' = f → is_ok r' = false → fr_world f' = w1 → fr_keys f' = [] →
    body_facts run_id (own_of run_id w) w1 r f) as Hstop.
  { intros r' f' -> -> Hr Hw Hk. apply body_facts_quiet; rewrite ?Hw; try done.
    by destruct r. }
  unfold in_world at 1, create_driver in Hm. rewrite M_bind_run, read_bind_run in Hm.
  unfold lift at 1 in Hm. destruct (create_enabled _ _ _) as [driver|e]; simpl in Hm;
    [|injection Hm as Hr Hf; by apply (Hstop _ _ Hr Hf)].
  rewrite lift_bind_run in Hm. destruct (collect_artifacts driver context) as [artifacts|e];
    [|injection Hm as Hr Hf; by apply (Hstop _ _ Hr Hf)].
  rewrite lift_bind_run in Hm. destruct (prepare_artifacts driver artifacts) as [prepared|e] eqn:Ep;
    [|injection Hm as Hr Hf; by apply (Hstop _ _ Hr Hf)].
  rewrite lift_bind_run in Hm. destruct (head _) as [primary|];
    [|injection Hm as Hr Hf; by apply (Hstop _ _ Hr Hf)].
  apply record_artifacts_facts in Hm; [|done|done|done|by eapply prepare_artifacts_hash].
  revert Hm. apply body_facts_own. intros l Hl. by exists context.
Qed.

Lemma same_results_trans db1 db2 db3 :
  same_results db1 db2 → same_results db2 db3 → same_results db1 db3.
Proof. intros [E1 E2] [E3 E4]. split; congruence. Qed.

Lemma marked_same_results run_id w w1 : marked_running run_id w w1 → same_results (w_db w) (w_db w1).
Proof. by intros (_ & run & _ & _ & ->). Qed.

Lemma stored_from_marked run_id res w w1 w2 :
  marked_running run_id w w1 →
  nothing_stored res w1 w2 ∨ revision_stored run_id res w1 w2 →
  nothing_stored res w w2 ∨ revision_stored run_id res w w2.
Proof.
  intros Hm [(Hs & Hc & Hf & Hr)|Hrev].
  - left. split_and!; [done|done| |].
    + rewrite Hf. apply Hm.
    + eapply same_results_trans; [by eapply marked_same_results|done].
  - right. destruct Hrev as (pk & n & Hpk & Hs & Hu & Hc & Hall). exists pk, n.
    split_and!; try done. apply marked_same_results in Hm as [Hv Ha].
    unfold revision_committed, artifacts_added in *. by rewrite <-Hv, <-Ha.
Qed.

(** How an execution ends in the database. *)
Definition failed_recorded (run_id : Z) (status : RunStatus) (code : string) (w w' : World)
    : Prop :=
  same_results (w_db w) (w_db w') ∧
  ∃ run, db_runs (w_db w') !! run_id = Some run ∧ run_status run = status ∧
    run_finished_at run = Some (rd_failed readings) ∧ run_error_code run = code.

(** The two handlers, after a body that left [f]. *)
Lemma execute_failed_facts run_id keys e w r w' :
  repo_ok (w_db w) → storage_ok (w_files w) → (∀ k, k ∈ keys → is_Some (loc_of k)) →
  execute_failed run_id keys e w = (r, w') →
  repo_ok (w_db w') ∧ storage_ok (w_files w') ∧
  (∀ l, (∀ k, k ∈ keys → loc_of k ≠ Some l) →
     object (w_files w') l = object (w_files w) l) ∧
  (∀ l, object (w_files w) l = None → object (w_files w') l = None) ∧
  (∀ reliable, ReliableStorage reliable → reliable (w_files w) →
     ∀ k l, k ∈ keys → loc_of k = Some l → object (w_files w') l = None) ∧
  match r with
  | Ok res => br_run_id res = run_id ∧ br_status res = RS_FAILED ∧ is_expected e = true ∧
      failed_recorded run_id RS_FAILED (br_error_code res) w w'
  | Err e' => (e' = e ∧ is_expected e = false ∧
                 failed_recorded run_id RS_ERRORED "INTERNAL_ERROR" w w') ∨
              w_db w' = w_db w
  end.
Proof.
  intros Hrepo Hok Hkeys Hm. unfold execute_failed in Hm. rewrite M_bind_run in Hm.
  destruct (rollback_storage_run keys w Hok Hkeys) as (w1 & E & Hd & Hok1 & Ho & Hn & Hr).
  rewrite E in Hm. clear E.
  assert (∀ w2, w_files w2 = w_files w1 → storage_ok (w_files w2) ∧
    (∀ l, (∀ k, k ∈ keys → loc_of k ≠ Some l) → object (w_files w2) l = object (w_files w) l) ∧
    (∀ l, object (w_files w) l = None → object (w_files w2) l = None) ∧
    (∀ reliable, ReliableStorage reliable → reliable (w_files w) →
       ∀ k l, k ∈ keys → loc_of k = Some l → object (w_files w2) l = None)) as Hfiles.
  { intros w2 ->. split_and!; [done|done|done|]. intros reliable Hrel Hw.
    by destruct (Hr _ Hrel Hw). }
  destruct (is_expected e) eqn:Ee.
  - destruct (expected_error e) as [code message]. rewrite M_bind_run in Hm.
    destruct (repo_mark_failed _ _ _ _ _ w1) as [[u|e'] w2] eqn:Ef;
      apply mark_failed_law in Ef as (Hrepo2 & Hf2 & Hres); try (by rewrite Hd);
      injection Hm as <- <-; destruct (Hfiles w2 Hf2) as (H1' & H2' & H3' & H4');
      split_and!; try done; rewrite Hd in Hres; [|by right].
    destruct Hres as (Hsame & run & Hrun & Hs & Hfin & Hc & _). split; [done|by exists run].
  - rewrite M_bind_run in Hm.
    destruct (repo_mark_failed _ _ _ _ _ w1) as [[u|e'] w2] eqn:Ef;
      apply mark_failed_law in Ef as (Hrepo2 & Hf2 & Hres); try (by rewrite Hd);
      injection Hm as <- <-; destruct (Hfiles w2 Hf2) as (H1' & H2' & H3' & H4');
      split_and!; try done; rewrite Hd in Hres; [|by right].
    left. destruct Hres as (Hsame & run & Hrun & Hs & Hfin & Hc & _).
    split_and!; [done|done|]. split; [done|by exists run].
Qed.

(** C13: A run that was queued and comes back as successful is recorded in the
    database exactly as the result says, either as unchanged with nothing
    written anywhere, or with one new revision whose artifact rows carry the
    hash and the size of the objects the storage holds at their keys.  A
    failed result or an exception leaves revisions and artifacts alone: the
    run is recorded as failed with the error code of the result or as errored
    with [INTERNAL_ERROR], unless recording it raised, and then the run is at
    most marked as running. *)
Theorem execute_outcome run_id w r w' :
  repo_ok (w_db w) → storage_ok (w_files w) → execute run_id w = (r, w') →
  repo_ok (w_db w') ∧ storage_ok (w_files w') ∧
  match r with
  | Ok res => br_run_id res = run_id ∧
      ((∃ run, db_runs (w_db w) !! run_id = Some run ∧ run_status run = RS_QUEUED) ∧
         run_recorded run_id res (w_db w') ∧
         (nothing_stored res w w' ∨ revision_stored run_id res w w') ∨
       br_status res = RS_FAILED ∧ failed_recorded run_id RS_FAILED (br_error_code res) w w')
  | Err e => is_expected e = false ∧ failed_recorded run_id RS_ERRORED "INTERNAL_ERROR" w w' ∨
      w_db w' = w_db w ∨
      ∃ run, db_runs (w_db w) !! run_id = Some run ∧ run_status run = RS_QUEUED ∧
        w_db w' = set_run run_id (running run (rd_started readings)) (w_db w)
  end.
Proof.
  intros Hrepo Hok Hm. unfold execute in Hm.
  destruct (execute_body run_id _) as [[res|e] f] eqn:Eb.
  - injection Hm as <- <-.
    apply execute_body_facts in Eb as [(? & _)|(w1 & Hm & [B1 B2 _ _ _ (Hid & Hrun & Hst)])];
      [done| |done|done].
    split_and!; [done|done|done|]. left. split_and!; [|done|by eapply stored_from_marked].
    destruct Hm as (_ & run & ? & ? & _). by exists run.
  - apply execute_body_facts in Eb as [(_ & Hd & Hf & Hk)|(w1 & Hmark & [B1 B2 B3 _ _ B6])];
      [| |done|done].
    + apply execute_failed_facts in Hm as (Hr' & Hok' & _ & _ & _ & Hres);
        [|by rewrite Hd|by rewrite Hf|by rewrite Hk; intros k ?%elem_of_nil].
      unfold failed_recorded in *. rewrite Hd in Hres. split_and!; [done|done|].
      destruct r as [res|e']; [naive_solver|].
      destruct Hres as [(-> & ? & ?)|?]; auto.
    + apply execute_failed_facts in Hm as (Hr' & Hok' & _ & _ & _ & Hres);
        [|done|done|intros k Hk; destruct (B3 k Hk) as (l & ? & _); by exists l].
      split_and!; [done|done|]. unfold failed_recorded in *. rewrite B6 in Hres.
      pose proof (marked_same_results _ _ _ Hmark) as Hsame.
      destruct r as [res|e'].
      * destruct Hres as (Hid & Hs & _ & Hsame' & Hrun). split; [done|]. right.
        split_and!; [done|by eapply same_results_trans|done].
      * destruct Hres as [(-> & He & Hsame' & Hrun)|Hd].
        -- left. split_and!; [done|by eapply same_results_trans|done].
        -- right. right. destruct Hmark as (_ & run & Hrun & Hq & Hd1).
           exists run. split_and!; [done|done|by rewrite Hd, Hd1].
Qed.

(** C14: An execution touches no stored object outside the directory of its
    new revision, however it ends.  When it fails or raises, on a storage
    whose deletes work and whose failed writes leave nothing behind, with an
    unused revision identifier, the storage ends exactly as it was. *)
Theorem execute_storage run_id w r w' :
  repo_ok (w_db w) → storage_ok (w_files w) → execute run_id w = (r, w') →
  (∀ l, is_Some (object (w_files w) l) → ¬ own_of run_id w l →
     object (w_files w') l = object (w_files w) l) ∧
  (∀ reliable, ReliableStorage reliable → reliable (w_files w) →
     (∀ l, own_of run_id w l → object (w_files w) l = None) →
     match r with Ok res => br_status res = RS_FAILED | Err _ => True end →
     ∀ l, object (w_files w') l = object (w_files w) l).
Proof.
  intros Hrepo Hok Hm. unfold execute in Hm.
  destruct (execute_body run_id _) as [rb f] eqn:Eb.
  apply execute_body_facts in Eb as [(Hr & Hd & Hf & Hk)|(w1 & Hmark & [B1 B2 B3 B4 B5 B6])];
    [| |done|done].
  - destruct rb as [res|e]; [done|].
    apply execute_failed_facts in Hm as (_ & _ & Ho & _);
      [|by rewrite Hd|by rewrite Hf|by rewrite Hk; intros k ?%elem_of_nil].
    assert (∀ l, object (w_files w') l = object (w_files w) l) as Hall.
    { intros l. rewrite Ho, Hf; [done|]. rewrite Hk. by intros k ?%elem_of_nil. }
    auto.
  - destruct Hmark as [Hf1 _]. rewrite Hf1 in B4, B5. destruct rb as [res|e].
    + injection Hm as <- <-. split; [done|]. intros reliable _ _ _ Hs.
      destruct B6 as (_ & _ & [[Hs' _]|(pk & n & _ & Hs' & _)]); rewrite Hs in Hs'; [done|].
      by destruct (nr_content_changed n).
    + apply execute_failed_facts in Hm as (_ & _ & Ho & Hn & Hgone & _);
        [|done|done|intros k Hk; destruct (B3 k Hk) as (l & ? & _); by exists l].
      assert (∀ l, is_Some (object (w_files w) l) → ¬ own_of run_id w l →
        object (w_files w') l = object (w_files w) l) as Hkeep.
      { intros l Hl Hown. rewrite Ho; [by apply B4|]. intros k Hk Hkl.
        destruct (B3 k Hk) as (l' & Hl' & ?). congruence. }
      split; [exact Hkeep|]. intros reliable Hrel Hw Hfresh _ l.
      destruct (object (w_files w) l) as [c|] eqn:El.
      * rewrite <-El. apply Hkeep; [by rewrite El|]. intros Hown.
        by rewrite (Hfresh l Hown) in El.
      * destruct (B5 reliable Hrel Hw) as [Hrel1 Hnew].
        destruct (Hnew l El) as [Hnone|(k & Hk & Hkl)]; [by apply Hn|].
        by apply (Hgone reliable Hrel Hrel1 k).
Qed.
End pipeline.

(** ** A concrete pipeline: one target, one driver, a storage in memory *)
Module PipelineExamples.
Import SchedulingExamples WorldExamples MemoryStorage DriversExamples.

#[local] Existing Instance memory.
#[local] Existing Instance memory_storage.
#[local] Existing Instance memory_laws.

Definition device : Device :=
  {| dv_pk := 11; dv_name := "r1"; dv_platform := None; dv_oob_ip := None;
     dv_primary_ip4 := Some "192.0.2.1"; dv_primary_ip6 := None; dv_site_time_zone := None |}.

Definition start_db (status : RunStatus) : DB :=
  empty_db <| db_policies := {[7 := interval_policy 120]} |>
           <| db_devices := {[11 := device]} |>
           <| db_targets := {[3 := (target TS_HEALTHY true) <| tg_driver_override := "acme" |>]} |>
           <| db_runs := {[9 := HealthExamples.run status None]} |>.

Definition start (status : RunStatus) : World :=
  {| w_db := start_db status; w_hooks := []; w_depth := O; w_committed := [];
     w_files := ∅ : @files memory; w_remote := ∅ : @remote memory; w_clock := 0 |}.

Definition repository : BackupRepository :=
  django_repository HealthExamples.settings zoneinfo "UTC" [] Datatypes.id june.
#[local] Existing Instance repository.
#[local] Instance repository_laws : BackupRepositoryLaws :=
  django_repository_laws HealthExamples.settings zoneinfo "UTC" [] Datatypes.id june.

Definition readings : Readings :=
  {| rd_started := june; rd_finished := june + 1; rd_failed := june + 2; rd_uuid := "u1" |}.
Definition acme : DriverRegistry := {[ "acme" := driver "acme" 1 ]}.

Definition executed := execute acme ∅ 1000 readings 9 (start RS_QUEUED).
(** No driver of that name is installed. *)
Definition failed := execute ∅ ∅ 1000 readings 9 (start RS_QUEUED).

Lemma start_rows status : rows_ok (start_db status).
Proof.
  split; simpl.
  - intros k r [<- <-]%lookup_singleton_Some. done.
  - intros k [r Hr]. by rewrite lookup_empty in Hr.
  - intros k [r Hr]. by rewrite lookup_empty in Hr.
Qed.

Lemma execute_outcome_witness :
  br_status <$> executed.1 = Ok RS_SUCCESS_CHANGED ∧
  ∃ w', w' = executed.2 ∧ repo_ok (w_db w').
Proof.
  split; [vm_compute; reflexivity|]. exists executed.2. split; [done|].
  refine (proj1 (execute_outcome acme ∅ 1000 readings 9 (start RS_QUEUED) executed.1 executed.2
    _ _ _)).
  - apply start_rows.
  - exact I.
  - apply surjective_pairing.
Defined.

Lemma execute_storage_witness :
  br_status <$> failed.1 = Ok RS_FAILED ∧
  ∀ l, object (w_files failed.2) l = object (w_files (start RS_QUEUED)) l.
Proof.
  assert (br_status <$> failed.1 = Ok RS_FAILED) as Hs by (vm_compute; reflexivity).
  split; [exact Hs|].
  refine (proj2 (execute_storage ∅ ∅ 1000 readings 9 (start RS_QUEUED) failed.1 failed.2
    _ _ _) (λ _, True) memory_reliable I _ _).
  - apply start_rows.
  - exact I.
  - apply surjective_pairing.
  - intros l _. reflexivity.
  - destruct failed.1 as [res|e]; [by injection Hs|done].
Defined.

(** A run that is no longer queued, here one that was cancelled before the
    worker took it, is refused by [mark_running], and then overwritten: the
    handler of unexpected exceptions records it as errored and counts a
    failure of the target. *)
Theorem execute_overwrites_refused_run :
  let r := execute acme ∅ 1000 readings 9 (start RS_SKIPPED) in
  r.1 = Err (ValueError "Run 9 is not queued.") ∧
  run_status <$> db_runs (w_db r.2) !! 9 = Some RS_ERRORED ∧
  tg_consecutive_failures <$> db_targets (w_db r.2) !! 3 = Some 1.
Proof. vm_compute. split_and!; reflexivity. Qed.
End PipelineExamples.
