(* ===== verification/Dispatch.v ===== *)
(** * Queueing, cancelling and dispatching runs

    [services/queueing.py], [services/run_cancellation.py] and
    [services/dispatcher.py].  NetBox's job table is behind [NetBoxCore]; what
    Redis answers about a queue or a job is an argument. *)

From Stdlib Require Import ZArith Lia.
From stdpp Require Import base gmap sets list strings sorting pretty.
From S2P Require Import Prelude Calendar Zones Models World DriverSelection Events.
From S2P Require Import Scheduling Health Repository.
#[local] Open Scope string_scope.
#[local] Open Scope list_scope.
#[local] Open Scope Z_scope.

(* src: services/dispatcher.py 39 47 DispatchSummary *)
Record DispatchSummary := {
  sum_initialized : Z;
  sum_due : Z;
  sum_queued : Z;
  sum_skipped_active : Z;
  sum_conflicts : Z;
  sum_worker_unavailable : bool;
  sum_worker_state_unknown : bool;
}.
#[export] Instance eta_DispatchSummary : Eta DispatchSummary := λ r,
  {| sum_initialized := sum_initialized r; sum_due := sum_due r; sum_queued := sum_queued r;
     sum_skipped_active := sum_skipped_active r; sum_conflicts := sum_conflicts r;
     sum_worker_unavailable := sum_worker_unavailable r;
     sum_worker_state_unknown := sum_worker_state_unknown r |}.

(* src: services/run_cancellation.py 18 21 BackupRunCancellationResult *)
Record BackupRunCancellationResult := {
  cancelled_run_id : Z;
  job_removed : bool;
}.

(** The states of an RQ job that still has work to do, and the others. *)
Inductive RqStatus := RQ_QUEUED | RQ_STARTED | RQ_DEFERRED | RQ_SCHEDULED | RQ_OTHER.

#[export] Instance RqStatus_eq_dec : EqDecision RqStatus.
Proof. solve_decision. Defined.

Section dispatch.
Context `{Externals} `{NetBoxCore} (plugin_settings : PluginSettings).
Context (zoneinfo : string → result tzdata) (TIME_ZONE : string).
(** [datetime.isoformat()] of a UTC datetime. *)
Context (isoformat : Z → string).

(* src: services/dispatcher.py 35 35 BACKUP_QUEUE *)
Definition BACKUP_QUEUE : string := "netbox_config_backup.backup".

(** [JobRunner.enqueue] and [Job.delete] as steps of the world. *)
Definition enqueue_job (req : JobRow) : M World Z := λ w,
  match job_enqueue req (db_jobs (w_db w)) with
  | Ok (id, jobs) => (Ok id, w <| w_db := (w_db w) <| db_jobs := jobs |> |>)
  | Err e => (Err e, w)
  end.
Definition delete_job (id : Z) : M World unit := λ w,
  match job_delete id (db_jobs (w_db w)) with
  | Ok jobs => (Ok tt, w <| w_db := (w_db w) <| db_jobs := jobs |> |>)
  | Err e => (Err e, w)
  end.

Definition backup_job (run_id : Z) : JobRow :=
  {| job_name := "Config backup"; job_object := None; job_argument := run_id;
     job_state := JS_PENDING; job_queue_name := BACKUP_QUEUE |}.

(* src: services/queueing.py 10 35 enqueue_backup_run *)
Definition enqueue_backup_run (target_id : Z) (source : RunSource) (user : option Z)
    (scheduled_for : option Z) (dedupe_key : option string) (now : Z) : M World BackupRun :=
  atomic (
    pk ← next_pk;
    let run := {|
      run_pk := pk; run_target := target_id; run_source := source;
      run_scheduled_for := scheduled_for; run_dedupe_key := dedupe_key; run_queued_at := now;
      run_started_at := None; run_finished_at := None; run_status := RS_QUEUED;
      run_attempt_number := 1; run_error_code := ""; run_error_message := "";
      run_revision := None; run_changed := false; run_raw_changed := false;
      run_job_id := None; run_triggered_by := user |} in
    _ ← save_run run;
    job ← enqueue_job (backup_job pk);
    let run := run <| run_job_id := Some job |> in
    _ ← save_run run;
    mret run).

(* src: services/run_cancellation.py 24 66 cancel_queued_backup_run *)
Definition cancel_queued_backup_run (run_id now : Z) : M World BackupRunCancellationResult :=
  atomic (
    run ← get_run run_id;
    if negb (bool_decide (run_status run = RS_QUEUED))
    then raise (BackupRunCancellationError
      "Only a backup run which is still queued can be cancelled.")
    else
      db ← read id;
      let job := id ← run_job_id run; j ← db_jobs db !! id; Some (id, j) in
      _ ← match job with
          | Some (id, j) =>
              if bool_decide (job_state j = JS_RUNNING)
              then raise (BackupRunCancellationError
                "The worker has already started this backup; wait for it to finish or become stale.")
              else try_catch (delete_job id) (λ _, raise (BackupRunCancellationError
                "The queued Redis job could not be cancelled. Nothing was changed."))
          | None => mret tt
          end;
      _ ← save_run (run <| run_status := RS_SKIPPED |> <| run_finished_at := Some now |>
                        <| run_error_code := "CANCELLED" |>
                        <| run_error_message := "Queued backup was cancelled before execution." |>);
      mret {| cancelled_run_id := run_pk run; job_removed := bool_decide (is_Some job) |}).

(** ** The scheduled dispatcher *)

Definition schedulable (db : DB) (t : BackupTarget) : bool :=
  tg_enabled t && match target_policy db t with Some p => po_enabled p | None => false end.

(* src: services/dispatcher.py 50 65 initialize_target_schedules *)
Definition initialize_target_schedules (now : Z) : M World Z :=
  _ ← on_db (λ db, db <| db_targets := (λ t,
        if schedulable db t then t else t <| tg_next_run_at := None |>) <$> db_targets db |>);
  db ← read id;
  let targets := filter (λ t, schedulable db t = true ∧ tg_next_run_at t = None)
                   (rows (db_targets db)) in
  _ ← for_each targets (λ t,
        saved_at ← gets w_clock;
        t' ← lift (apply_target_schedule zoneinfo TIME_ZONE t (target_policy db t)
                     (target_site_time_zone db t) now saved_at);
        save_target t');
  mret (Z.of_nat (length targets)).

(** What happened to one candidate. *)
Inductive outcome := NotDue | SkippedActive | Queued | Conflict.

(* src: services/dispatcher.py 100 142 dispatch_due_targets *)
Definition dispatch_target (now target_id : Z) : M World outcome :=
  try_catch (atomic (
    target ← get_target target_id;
    db ← read id;
    match target_policy db target, tg_next_run_at target with
    | Some policy, Some scheduled_for =>
        if negb (tg_enabled target) || negb (po_enabled policy) || (now <? scheduled_for)
        then mret NotDue
        else if existsb (λ r, (run_target r =? target_id) && run_is_active r) (rows (db_runs db))
        then mret SkippedActive
        else
          let retry := bool_decide (tg_status target = TS_FAILED)
                       && is_retry_scheduled (Some policy) (tg_consecutive_failures target) in
          let source := if retry then SRC_RETRY else SRC_SCHEDULED in
          let dedupe_key := run_source_value source +:+ ":" +:+ isoformat scheduled_for in
          next ← lift (calculate_next_run zoneinfo policy (Aware scheduled_for) (tg_pk target)
                         (target_timezone_name TIME_ZONE (Some policy)
                            (target_site_time_zone db target)) (Some (Aware now)));
          _ ← save_target (target <| tg_next_run_at := Some next |>);
          _ ← enqueue_backup_run (tg_pk target) source None (Some scheduled_for)
                (Some dedupe_key) now;
          mret Queued
    | _, _ => mret NotDue
    end))
    (λ e, match e with IntegrityError => mret Conflict | e => raise e end).

Definition count_outcome (s : DispatchSummary) (o : outcome) : DispatchSummary :=
  match o with
  | NotDue => s
  | SkippedActive => s <| sum_skipped_active ::= Z.succ |>
  | Queued => s <| sum_queued ::= Z.succ |>
  | Conflict => s <| sum_conflicts ::= Z.succ |>
  end.

Definition is_due (db : DB) (now : Z) (t : BackupTarget) : bool :=
  schedulable db t && match tg_next_run_at t with Some n => n <=? now | None => false end.

(* src: services/dispatcher.py 71 79 dispatch_due_targets *)
Definition due_targets (db : DB) (now limit : Z) : list Z :=
  map tg_pk (py_take limit (sort_by (key_leb (λ t, default 0 (tg_next_run_at t)) tg_pk)
    (filter (λ t, is_due db now t = true) (rows (db_targets db))))).

(** [workers] is the answer of [any_workers_for_queue(BACKUP_QUEUE)]. *)
(* src: services/dispatcher.py 68 143 dispatch_due_targets *)
Definition dispatch_due_targets (now limit : Z) (workers : result bool) : M World DispatchSummary :=
  initialized ← initialize_target_schedules now;
  candidate_ids ← read (λ db, due_targets db now limit);
  let summary := {| sum_initialized := initialized; sum_due := Z.of_nat (length candidate_ids);
                    sum_queued := 0; sum_skipped_active := 0; sum_conflicts := 0;
                    sum_worker_unavailable := false; sum_worker_state_unknown := false |} in
  if bool_decide (candidate_ids = []) then mret summary
  else
    match workers with
    | Err _ => mret (summary <| sum_worker_state_unknown := true |>)
    | Ok false => mret (summary <| sum_worker_unavailable := true |>)
    | Ok true =>
        for_fold candidate_ids summary (λ s target_id,
          o ← dispatch_target now target_id; mret (count_outcome s o))
    end.

(** ** Stale runs

    [rq_status] and [workers] are what Redis answers for the job of a run. *)
Context (rq_status : Z → result (option RqStatus)) (workers : string → result bool).

(* src: services/dispatcher.py 154 178 reconcile_stale_runs *)
Definition stale_job_released (run : BackupRun) : M World bool :=
  db ← read id;
  match (id ← run_job_id run; j ← db_jobs db !! id; Some (id, j)) with
  | Some (id, job) =>
      if job_enqueued job then
        let queue_name := if bool_decide (job_queue_name job = "") then BACKUP_QUEUE
                          else job_queue_name job in
        match rq_status id, workers queue_name with
        | Ok status, Ok available =>
            if match status with
               | Some s => bool_decide (s ∈ [RQ_QUEUED; RQ_STARTED; RQ_DEFERRED; RQ_SCHEDULED])
               | None => false end && available
            then mret false
            else try_catch (_ ← delete_job id; mret true) (λ _, mret false)
        | _, _ => mret false
        end
      else mret true
  | None => mret true
  end.

(* src: services/dispatcher.py 146 187 reconcile_stale_runs *)
Definition reconcile_stale_runs (now stale_after_minutes : Z) : M World Z :=
  candidates ← read (λ db, stuck_run_queryset now stale_after_minutes (rows (db_runs db)));
  for_fold candidates 0 (λ reconciled run,
    released ← stale_job_released run;
    if (released : bool) then
      _ ← mark_failed plugin_settings zoneinfo TIME_ZONE (run_pk run) RS_ERRORED "STALE_RUN"
            "Backup job ended without completing its run record." now;
      mret (reconciled + 1)
    else mret reconciled).
End dispatch.
