(* ===== verification/Replication.v ===== *)
(** * Replicating revisions to external destinations: [services/replication.py]

    One row per revision and destination records the copy and its transfers.
    A row is queued for a worker, executed, and ends in success or failure; a
    failure is retried as often as the destination allows.  [now] and its like
    are what [timezone.now()] answers at the calls the code makes. *)

From Stdlib Require Import ZArith Lia.
From stdpp Require Import base gmap sets list strings sorting.
From S2P Require Import Prelude Strings Text Calendar Models DestinationPaths World Events.
From S2P Require Import Scheduling Health Storage Destination Repository Dispatch.
#[local] Open Scope string_scope.
#[local] Open Scope list_scope.
#[local] Open Scope Z_scope.

(* src: services/replication.py 24 28 ReplicationDispatchSummary *)
Record ReplicationDispatchSummary := {
  rd_considered : Z;
  rd_queued : Z;
  rd_skipped : Z;
}.
#[export] Instance eta_ReplicationDispatchSummary : Eta ReplicationDispatchSummary := λ r,
  {| rd_considered := rd_considered r; rd_queued := rd_queued r; rd_skipped := rd_skipped r |}.

Section replication.
Context `{Externals} `{NetBoxCore} `{!Backends} (plugin_settings : PluginSettings).
(** [unicodedata.normalize("NFKD", s)] *)
Context (nfkd : string → string).

Definition save_replica (r : RevisionReplica) : M World unit := on_db (put_replica r).
Definition save_destination (d : BackupDestination) : M World unit := on_db (put_destination d).

(** [RevisionReplica.objects.get_or_create(revision_id=..., destination_id=...)]:
    a new row has the defaults of the model, and needs both rows it names. *)
(* src: models.py 1246 1276 RevisionReplica *)
Definition new_replica (pk revision_id destination_id now : Z) : RevisionReplica := {|
  rp_pk := pk; rp_revision := revision_id; rp_destination := destination_id;
  rp_status := RP_PENDING; rp_attempts := 0; rp_queued_at := now; rp_started_at := None;
  rp_finished_at := None; rp_next_retry_at := None; rp_bytes_transferred := 0;
  rp_remote_path := ""; rp_remote_available := false; rp_remote_deleted_at := None;
  rp_error_code := ""; rp_error_message := ""; rp_job_id := None |}.

Definition find_replica (db : DB) (revision_id destination_id : Z) : option RevisionReplica :=
  head (filter (λ r, rp_revision r = revision_id ∧ rp_destination r = destination_id)
          (rows (db_replicas db))).

Definition get_or_create_replica (revision_id destination_id now : Z)
    : M World (RevisionReplica * bool) :=
  db ← read id;
  match find_replica db revision_id destination_id with
  | Some r => mret (r, false)
  | None =>
      if bool_decide (is_Some (db_revisions db !! revision_id))
         && bool_decide (is_Some (db_destinations db !! destination_id))
      then
        pk ← next_pk;
        let r := new_replica pk revision_id destination_id now in
        _ ← save_replica r;
        mret (r, true)
      else raise IntegrityError
  end.

(* src: jobs.py 370 373 DestinationReplicationJob *)
Definition replication_job (r : RevisionReplica) : JobRow :=
  {| job_name := "Config backup external replication";
     job_object := Some ("BackupDestination", rp_destination r);
     job_argument := rp_pk r; job_state := JS_PENDING; job_queue_name := BACKUP_QUEUE |}.

(** Whether [enqueue_revision_replica] goes ahead. *)
(* src: services/replication.py 108 120 enqueue_revision_replica *)
Definition may_enqueue (d : BackupDestination) (r : RevisionReplica) (force : bool) : bool :=
  is_replicated (ds_protocol d) && ds_enabled d && bool_decide (rp_remote_deleted_at r = None)
  && negb (bool_decide (rp_status r ∈ [RP_QUEUED; RP_RUNNING]))
  && (force || negb (bool_decide (rp_status r = RP_SUCCESS))).

(** The result is the new job. *)
(* src: services/replication.py 101 138 enqueue_revision_replica *)
Definition enqueue_revision_replica (replica_id : Z) (force : bool) (now : Z)
    : M World (option Z) :=
  atomic (
    replica ← get_replica replica_id;
    destination ← get_destination (rp_destination replica);
    if negb (may_enqueue destination replica force) then mret None
    else
      let replica := replica <| rp_status := RP_QUEUED |> <| rp_queued_at := now |>
        <| rp_started_at := None |> <| rp_finished_at := None |> <| rp_next_retry_at := None |>
        <| rp_error_code := "" |> <| rp_error_message := "" |>
        <| rp_remote_available := false |> in
      _ ← save_replica replica;
      job ← enqueue_job (replication_job replica);
      _ ← save_replica (replica <| rp_job_id := Some job |>);
      mret (Some job)).

(** ** Creating the rows of a revision *)

(* src: services/replication.py 33 37 create_revision_replicas *)
Definition automatic_destinations (db : DB) : list BackupDestination :=
  filter (λ d, ds_enabled d = true ∧ ds_auto_replicate d = true
               ∧ is_replicated (ds_protocol d) = true) (rows (db_destinations db)).

(** The loop of [get_or_create]; the result is [created_ids]. *)
Definition create_replicas (pairs : list (Z * Z)) (now : Z) : M World (list Z) :=
  for_fold pairs [] (λ created_ids p,
    rc ← get_or_create_replica p.1 p.2 now;
    mret (if rc.2 : bool then created_ids ++ [rp_pk rc.1] else created_ids)).

(* src: services/replication.py 31 48 create_revision_replicas *)
Definition create_revision_replicas (revision_id now : Z) : M World Z :=
  destinations ← read automatic_destinations;
  created_ids ← create_replicas (map (λ d, (revision_id, ds_pk d)) destinations) now;
  _ ← for_each created_ids (λ replica_id,
        _ ← enqueue_revision_replica replica_id false now; mret tt);
  mret (Z.of_nat (length created_ids)).

Definition count_queued (queued : Z) (job : option Z) : Z :=
  if bool_decide (is_Some job) then queued + 1 else queued.

(* src: services/replication.py 66 97 ensure_revision_replicas *)
Definition ensure_at_destination (revision_id now queued : Z) (destination : BackupDestination)
    : M World Z :=
  rc ← get_or_create_replica revision_id (ds_pk destination) now;
  let '(replica, created) := rc in
  if created : bool then
    job ← enqueue_revision_replica (rp_pk replica) false now; mret (count_queued queued job)
  else if bool_decide (rp_status replica ∈ [RP_QUEUED; RP_RUNNING])
          || bool_decide (is_Some (rp_remote_deleted_at replica))
  then mret queued
  else
    needs_repair ← (if negb (bool_decide (rp_status replica = RP_SUCCESS)) then mret true
      else try_catch
        (verification ← reconcile_destination_for_replicas destination [replica];
         mret (negb (rs_success verification)))
        (λ e, match e with DestinationError _ _ => mret true | e => raise e end));
    if needs_repair : bool then
      job ← enqueue_revision_replica (rp_pk replica) true now; mret (count_queued queued job)
    else mret queued.

(* src: services/replication.py 51 98 ensure_revision_replicas *)
Definition ensure_revision_replicas (revision_id now : Z) : M World Z :=
  destinations ← read automatic_destinations;
  for_fold destinations 0 (ensure_at_destination revision_id now).

(** ** Executing a replica *)

(* src: services/replication.py 169 222 _mark_running *)
Definition mark_replica_running (replica_id now : Z)
    : M World (RevisionReplica * BackupDestination * ConfigRevision) :=
  atomic (
    replica ← get_replica replica_id;
    destination ← get_destination (rp_destination replica);
    revision ← get_revision (rp_revision replica);
    target ← get_target (rv_target revision);
    device ← get "Device" db_devices (tg_device target);
    if negb (ds_enabled destination) then raise (DestinationError "DESTINATION_DISABLED"
      "The external destination is disabled and no network connection was attempted.")
    else if bool_decide (is_Some (rp_remote_deleted_at replica)) then
      raise (DestinationError "REPLICA_EXPIRED"
        "The remote revision copy has expired and cannot be uploaded again.")
    else if negb (bool_decide (rp_status replica ∈ [RP_PENDING; RP_QUEUED; RP_FAILED])) then
      raise (DestinationError "REPLICA_STATE_CONFLICT"
        "The revision replica is not ready to run.")
    else
      path ← (if bool_decide (rp_remote_path replica = "")
        then lift (ftp_revision_destination_path nfkd (ds_base_path destination)
               (Some (dv_name device)) (tg_device target) (Aware (rv_created revision))
               (Some (rv_pk revision)) None)
        else mret (rp_remote_path replica));
      let replica := replica <| rp_remote_path := path |> <| rp_status := RP_RUNNING |>
        <| rp_started_at := Some now |> <| rp_finished_at := None |> <| rp_attempts ::= Z.succ |>
        <| rp_error_code := "" |> <| rp_error_message := "" |>
        <| rp_remote_available := false |> in
      _ ← save_replica replica;
      mret (replica, destination, revision)).

(* src: services/replication.py 225 257 _mark_success *)
Definition mark_replica_success (replica_id : Z) (remote_path : string) (bytes_transferred now : Z)
    : M World unit :=
  atomic (
    replica ← get_replica replica_id;
    destination ← get_destination (rp_destination replica);
    _ ← save_replica (replica <| rp_status := RP_SUCCESS |> <| rp_finished_at := Some now |>
      <| rp_next_retry_at := None |> <| rp_remote_path := remote_path |>
      <| rp_bytes_transferred := bytes_transferred |> <| rp_error_code := "" |>
      <| rp_error_message := "" |> <| rp_remote_available := true |>
      <| rp_remote_deleted_at := None |>);
    let was_failed := negb (bool_decide (ds_last_error_code destination = "")) in
    _ ← save_destination (destination <| ds_last_success_at := Some now |>
      <| ds_last_error_code := "" |> <| ds_last_error_message := "" |>);
    if was_failed then queue_replica_event plugin_settings REPLICA_RECOVERED (rp_pk replica)
    else mret tt).

(** When a failed attempt is repeated; [max_retries] and [retry_delay_minutes]
    are null for the local storage only, where the comparison and the
    [timedelta] raise. *)
(* src: services/replication.py 271 274 _mark_failed *)
Definition retry_time (d : BackupDestination) (attempts now : Z) : result (option Z) :=
  max_retries ← require TypeError (ds_max_retries d);
  if attempts <=? max_retries then
    delay ← require TypeError (ds_retry_delay_minutes d);
    Some <$> check_range (now + delay * us_per_minute)
  else Ok None.

(* src: services/replication.py 260 284 _mark_failed *)
Definition mark_replica_failed (replica_id : Z) (error_code safe_message : string) (now : Z)
    : M World unit :=
  atomic (
    replica ← get_replica replica_id;
    destination ← get_destination (rp_destination replica);
    next ← lift (retry_time destination (rp_attempts replica) now);
    let error_code := str_take 64 error_code in
    let error_message := str_take 500 safe_message in
    _ ← save_replica (replica <| rp_status := RP_FAILED |> <| rp_finished_at := Some now |>
      <| rp_error_code := error_code |> <| rp_error_message := error_message |>
      <| rp_remote_available := false |> <| rp_next_retry_at := next |>);
    let first_failure := bool_decide (ds_last_error_code destination = "") in
    _ ← save_destination (destination <| ds_last_error_code := error_code |>
                                      <| ds_last_error_message := error_message |>);
    if first_failure then queue_replica_event plugin_settings REPLICA_FAILED (rp_pk replica)
    else mret tt).

(* src: services/replication.py 141 166 execute_revision_replica *)
Definition execute_revision_replica (replica_id started finished : Z) : M World ReplicationResult :=
  rdv ← mark_replica_running replica_id started;
  let '(replica, destination, revision) := rdv in
  result ← try_catch
    (replicate_revision destination revision
       (if bool_decide (rp_remote_path replica = "") then None else Some (rp_remote_path replica)))
    (λ e, match e with
      | DestinationError error_code safe_message =>
          _ ← mark_replica_failed (rp_pk replica) error_code safe_message finished; raise e
      | _ =>
          let code := "INTERNAL_ERROR" in
          let message := "External replication stopped because of an internal error." in
          _ ← mark_replica_failed (rp_pk replica) code message finished;
          raise (DestinationError code message)
      end);
  _ ← mark_replica_success (rp_pk replica) (rr_remote_path result)
        (rr_bytes_transferred result) finished;
  mret result.

(** ** The dispatcher *)

(* src: services/replication.py 290 297 dispatch_due_replicas *)
Definition replica_due (db : DB) (now : Z) (r : RevisionReplica) : bool :=
  match db_destinations db !! rp_destination r with
  | Some d => ds_enabled d && is_replicated (ds_protocol d)
  | None => false
  end
  && bool_decide (rp_remote_deleted_at r = None)
  && (bool_decide (rp_status r = RP_PENDING)
      || bool_decide (rp_status r = RP_FAILED)
         && match rp_next_retry_at r with Some t => t <=? now | None => false end).

(* src: services/replication.py 289 301 dispatch_due_replicas *)
Definition due_replicas (db : DB) (now limit : Z) : list Z :=
  map rp_pk (py_take limit (sort_by (key_leb rp_queued_at rp_pk)
    (filter (λ r, replica_due db now r = true) (rows (db_replicas db))))).

(* src: services/replication.py 287 309 dispatch_due_replicas *)
Definition dispatch_due_replicas (limit now : Z) : M World ReplicationDispatchSummary :=
  candidate_ids ← read (λ db, due_replicas db now limit);
  let summary := {| rd_considered := Z.of_nat (length candidate_ids);
                    rd_queued := 0; rd_skipped := 0 |} in
  for_fold candidate_ids summary (λ s replica_id,
    job ← enqueue_revision_replica replica_id false now;
    mret (match job with
          | None => s <| rd_skipped ::= Z.succ |>
          | Some _ => s <| rd_queued ::= Z.succ |>
          end)).

(* src: services/replication.py 317 320 reconcile_stale_replicas *)
Definition replica_stale (cutoff : Z) (r : RevisionReplica) : bool :=
  bool_decide (rp_remote_deleted_at r = None)
  && match rp_status r with
     | RP_RUNNING => match rp_started_at r with Some t => t <=? cutoff | None => false end
     | RP_QUEUED => rp_queued_at r <=? cutoff
     | _ => false
     end.

(* src: services/replication.py 312 335 reconcile_stale_replicas *)
Definition reconcile_stale_replicas (stale_after_minutes now : Z) : M World Z :=
  cutoff ← lift (check_range (now - stale_after_minutes * us_per_minute));
  candidates ← read (λ db, filter (λ r, replica_stale cutoff r = true) (rows (db_replicas db)));
  for_fold candidates 0 (λ reconciled replica,
    job ← read (λ db, id ← rp_job_id replica; db_jobs db !! id);
    if match job with Some j => job_enqueued j | None => false end
    then mret reconciled
    else
      _ ← mark_replica_failed (rp_pk replica) "STALE_REPLICA"
            "The remote replication job ended without completing its replica record." now;
      mret (reconciled + 1)).

(** Revisions with a local file and no row at the destination, newest first. *)
(* src: services/replication.py 341 345 backfill_destination *)
Definition backfill_revisions (db : DB) (destination limit : Z) : list Z :=
  map rv_pk (py_take limit (sort_by (key_geb rv_created rv_pk)
    (filter (λ r, existsb (λ a, (ar_revision a =? rv_pk r) && ar_local_available a)
                    (rows (db_artifacts db)) = true
                  ∧ find_replica db (rv_pk r) destination = None) (rows (db_revisions db))))).

(* src: services/replication.py 338 357 backfill_destination *)
Definition backfill_destination (destination : BackupDestination) (limit now : Z) : M World Z :=
  if negb (is_replicated (ds_protocol destination))
  then raise (ValueError "Only supported remote storage can receive revision replicas.")
  else
    revision_ids ← read (λ db, backfill_revisions db (ds_pk destination) limit);
    replica_ids ← create_replicas (map (λ r, (r, ds_pk destination)) revision_ids) now;
    _ ← for_each replica_ids (λ replica_id,
          _ ← enqueue_revision_replica replica_id false now; mret tt);
    mret (Z.of_nat (length replica_ids)).
End replication.

(** ** What one call does to the tables *)

(** A destination without the outcome of its last transfers. *)
Definition destination_config (d : BackupDestination) : BackupDestination :=
  d <| ds_last_success_at := None |> <| ds_last_error_code := "" |>
    <| ds_last_error_message := "" |>.

(** The replica table becomes [reps]; destinations keep their configuration,
    and no table but those of the jobs changes otherwise. *)
Record replica_effect (reps : gmap Z RevisionReplica) (db db' : DB) : Prop := {
  eff_replicas : db_replicas db' = reps;
  eff_config : destination_config <$> db_destinations db' = destination_config <$> db_destinations db;
  eff_revisions : db_revisions db' = db_revisions db;
  eff_next : db_next db <= db_next db';
  eff_runs : db_runs db' = db_runs db;
}.

Lemma effect_refl db : replica_effect (db_replicas db) db db.
Proof. split; (done || lia). Qed.

Lemma effect_trans reps1 reps2 db1 db2 db3 :
  replica_effect reps1 db1 db2 → replica_effect reps2 db2 db3 → replica_effect reps2 db1 db3.
Proof. intros [? ? ? ? ?] [? ? ? ? ?]. split; try congruence. lia. Qed.

(** The rows a call saves. *)
Definition queued_row (r : RevisionReplica) (now job : Z) : RevisionReplica :=
  r <| rp_status := RP_QUEUED |> <| rp_queued_at := now |>
    <| rp_started_at := None |> <| rp_finished_at := None |> <| rp_next_retry_at := None |>
    <| rp_error_code := "" |> <| rp_error_message := "" |>
    <| rp_remote_available := false |> <| rp_job_id := Some job |>.

Definition running_row (r : RevisionReplica) (path : string) (now : Z) : RevisionReplica :=
  r <| rp_remote_path := path |> <| rp_status := RP_RUNNING |>
    <| rp_started_at := Some now |> <| rp_finished_at := None |> <| rp_attempts ::= Z.succ |>
    <| rp_error_code := "" |> <| rp_error_message := "" |> <| rp_remote_available := false |>.

Definition success_row (r : RevisionReplica) (path : string) (sent now : Z) : RevisionReplica :=
  r <| rp_status := RP_SUCCESS |> <| rp_finished_at := Some now |>
    <| rp_next_retry_at := None |> <| rp_remote_path := path |>
    <| rp_bytes_transferred := sent |> <| rp_error_code := "" |>
    <| rp_error_message := "" |> <| rp_remote_available := true |>
    <| rp_remote_deleted_at := None |>.

Definition failed_row (r : RevisionReplica) (code message : string) (next : option Z) (now : Z)
    : RevisionReplica :=
  r <| rp_status := RP_FAILED |> <| rp_finished_at := Some now |>
    <| rp_error_code := str_take 64 code |> <| rp_error_message := str_take 500 message |>
    <| rp_remote_available := false |> <| rp_next_retry_at := next |>.

Section effects.
Context `{Externals} `{NetBoxCore} `{!Backends} (plugin_settings : PluginSettings).
Context (nfkd : string → string).

(** A raised exception changes no row; otherwise the row is queued, or the
    call was refused. *)
Lemma enqueue_revision_replica_run id force now w x w' :
  keyed rp_pk (db_replicas (w_db w)) →
  enqueue_revision_replica id force now w = (x, w') →
  match x with
  | Err _ => w_db w' = w_db w
  | Ok res => ∃ r d, db_replicas (w_db w) !! id = Some r ∧
      db_destinations (w_db w) !! rp_destination r = Some d ∧
      match res with
      | None => may_enqueue d r force = false ∧ w_db w' = w_db w
      | Some job => may_enqueue d r force = true ∧
          db_destinations (w_db w') = db_destinations (w_db w) ∧
          job_enqueue (replication_job r) (db_jobs (w_db w)) = Ok (job, db_jobs (w_db w')) ∧
          replica_effect (<[id := queued_row r now job]> (db_replicas (w_db w))) (w_db w) (w_db w')
      end
  end.
Proof.
  intros Hkey Hm. destruct x as [res|e]; [|by apply atomic_Err in Hm as (? & _)].
  apply atomic_Ok in Hm as (w1 & Hm & Hdb & _). set (w0 := w <| w_depth := _ |>) in Hm.
  change (w_db w) with (w_db w0) in *. rewrite Hdb. clearbody w0. clear w.
  apply M_bind_Ok in Hm as (r & w2 & [Hr ->]%World.get_Ok & Hm).
  apply M_bind_Ok in Hm as (d & w2 & [Hd ->]%World.get_Ok & Hm). exists r, d. split_and!; [done|done|].
  destruct (may_enqueue d r force) eqn:Hmay; cbn [negb] in Hm.
  2: { by injection Hm as <- <-. }
  apply M_bind_Ok in Hm as ([] & w2 & [= <-] & Hm).
  apply M_bind_Ok in Hm as (job & w3 & Hj & Hm).
  unfold enqueue_job in Hj. destruct (job_enqueue _ _) as [[j jobs]|] eqn:Ej; [|done].
  injection Hj as -> <-. injection Hm as <- <-.
  split_and!; [done|done|done|]. rewrite <-(Hkey _ _ Hr).
  split; simpl; [|done|done|lia|done]. by rewrite insert_insert_eq.
Qed.

(** Enters a transaction: what is left of it is the world it committed. *)
Ltac enter_atomic Hm :=
  lazymatch type of Hm with
  | _ ?w = (Err _, _) => apply atomic_Err in Hm as (Hm & _)
  | _ ?w = (Ok _, _) =>
      let w1 := fresh "w1" in let Hdb := fresh "Hdb" in let w0 := fresh "w0" in
      apply atomic_Ok in Hm as (w1 & Hm & Hdb & _);
      set (w0 := w <| w_depth := _ |>) in Hm; change (w_db w) with (w_db w0) in *;
      rewrite Hdb; clearbody w0; clear w Hdb
  end.

Lemma ftp_path_nonempty base name device created id uuid p :
  ftp_revision_destination_path nfkd base name device created id uuid = Ok p → p ≠ "".
Proof.
  unfold ftp_revision_destination_path. cbv zeta. intros (q & _ & [= <-])%result_bind_Ok. done.
Qed.

Lemma mark_replica_running_run id now w x w' :
  keyed rp_pk (db_replicas (w_db w)) →
  mark_replica_running nfkd id now w = (x, w') →
  match x with
  | Err _ => w_db w' = w_db w
  | Ok (r', d, rv) => ∃ r, db_replicas (w_db w) !! id = Some r ∧
      db_destinations (w_db w) !! rp_destination r = Some d ∧
      db_revisions (w_db w) !! rp_revision r = Some rv ∧
      ds_enabled d = true ∧ rp_remote_deleted_at r = None ∧
      rp_status r ∈ [RP_PENDING; RP_QUEUED; RP_FAILED] ∧
      r' = running_row r (rp_remote_path r') now ∧ rp_remote_path r' ≠ "" ∧
      (rp_remote_path r ≠ "" → rp_remote_path r' = rp_remote_path r) ∧
      db_destinations (w_db w') = db_destinations (w_db w) ∧
      replica_effect (<[id := r']> (db_replicas (w_db w))) (w_db w) (w_db w')
  end.
Proof.
  intros Hkey Hm. destruct x as [[[r' d'] rv']|e]; enter_atomic Hm; [|done].
  apply M_bind_Ok in Hm as (r & w2 & [Hr ->]%World.get_Ok & Hm).
  apply M_bind_Ok in Hm as (d & w2 & [Hd ->]%World.get_Ok & Hm).
  apply M_bind_Ok in Hm as (rv & w2 & [Hrv ->]%World.get_Ok & Hm).
  apply M_bind_Ok in Hm as (t & w2 & [Ht ->]%World.get_Ok & Hm).
  apply M_bind_Ok in Hm as (dev & w2 & [Hdev ->]%World.get_Ok & Hm).
  destruct (ds_enabled d) eqn:Hen; [|done]. cbn [negb] in Hm.
  destruct (rp_remote_deleted_at r) eqn:Hdel; [done|].
  destruct (decide (rp_status r ∈ [RP_PENDING; RP_QUEUED; RP_FAILED])) as [Hst|Hst].
  2: { by rewrite (bool_decide_eq_false_2 (rp_status r ∈ _)) in Hm by done. }
  rewrite (bool_decide_eq_true_2 (rp_status r ∈ _)) in Hm by done. cbn -[ftp_revision_destination_path] in Hm.
  apply M_bind_Ok in Hm as (path & w2 & Hpath & Hm).
  assert (w2 = w0 ∧ path ≠ "" ∧ (rp_remote_path r ≠ "" → path = rp_remote_path r))
    as (-> & Hne & Hkept).
  { case_bool_decide as Hp; [|by injection Hpath as <- <-].
    apply lift_Ok in Hpath as [Hpath ->]. by apply ftp_path_nonempty in Hpath. }
  apply M_bind_Ok in Hm as ([] & w3 & Hsave%modify_Ok & [Hr' ->]%ret_Ok). subst w3.
  apply pair_equal_spec in Hr' as [[-> ->]%pair_equal_spec ->]. exists r.
  split_and!; [done..|].
  rewrite <-(Hkey _ _ Hr). split; simpl; (done || lia).
Qed.

Lemma put_destination_config db d f :
  keyed ds_pk (db_destinations db) → db_destinations db !! ds_pk d = Some d →
  destination_config (f d) = destination_config d →
  destination_config <$> <[ds_pk d := f d]> (db_destinations db)
  = destination_config <$> db_destinations db.
Proof.
  intros Hkey Hd Hf. rewrite fmap_insert, Hf. apply insert_id.
  by rewrite lookup_fmap, Hd.
Qed.

Lemma queue_event_db h w x w' : queue_hook plugin_settings h w = (x, w') → w_db w' = w_db w.
Proof.
  destruct (queue_hook_run plugin_settings h w) as (w1 & Hrun & Hdb & _).
  rewrite Hrun. by intros [= _ <-].
Qed.

Lemma mark_replica_success_run id path sent now w x w' :
  keyed rp_pk (db_replicas (w_db w)) → keyed ds_pk (db_destinations (w_db w)) →
  mark_replica_success plugin_settings id path sent now w = (x, w') →
  match x with
  | Err e => w_db w' = w_db w
  | Ok _ => ∃ r, db_replicas (w_db w) !! id = Some r ∧
      replica_effect (<[id := success_row r path sent now]> (db_replicas (w_db w)))
        (w_db w) (w_db w')
  end.
Proof.
  intros Hkey Hdkey Hm. destruct x as [[]|e]; enter_atomic Hm; [|done].
  apply M_bind_Ok in Hm as (r & w2 & [Hr ->]%World.get_Ok & Hm).
  apply M_bind_Ok in Hm as (d & w2 & [Hd ->]%World.get_Ok & Hm). exists r. split; [done|].
  apply M_bind_Ok in Hm as ([] & w2 & Hs%modify_Ok & Hm).
  apply M_bind_Ok in Hm as ([] & w3 & Hs'%modify_Ok & Hm).
  assert (w_db w1 = w_db w3) as ->.
  { destruct (negb _); [by eapply queue_event_db|]. by injection Hm as <-. }
  rewrite <-(Hkey _ _ Hr). pose proof (Hdkey _ _ Hd) as Hpk. subst w3 w2.
  split; simpl; [done| |done|lia|done].
  apply (put_destination_config (w_db w0) d (λ d, d <| ds_last_success_at := Some now |>
      <| ds_last_error_code := "" |> <| ds_last_error_message := "" |>)); [done| |done].
  by rewrite Hpk.
Qed.

(** It raises only when a row is missing or the destination has no retry
    settings. *)
Lemma mark_replica_failed_run id code message now w x w' :
  keyed rp_pk (db_replicas (w_db w)) → keyed ds_pk (db_destinations (w_db w)) →
  mark_replica_failed plugin_settings id code message now w = (x, w') →
  match x with
  | Err e => w_db w' = w_db w
  | Ok _ => ∃ r d next, db_replicas (w_db w) !! id = Some r ∧
      db_destinations (w_db w) !! rp_destination r = Some d ∧
      retry_time d (rp_attempts r) now = Ok next ∧
      replica_effect (<[id := failed_row r code message next now]> (db_replicas (w_db w)))
        (w_db w) (w_db w')
  end.
Proof.
  intros Hkey Hdkey Hm. destruct x as [[]|e]; enter_atomic Hm; [|done].
  apply M_bind_Ok in Hm as (r & w2 & [Hr ->]%World.get_Ok & Hm).
  apply M_bind_Ok in Hm as (d & w2 & [Hd ->]%World.get_Ok & Hm).
  apply M_bind_Ok in Hm as (next & w2 & [Hnext ->]%lift_Ok & Hm).
  exists r, d, next. split_and!; [done..|].
  apply M_bind_Ok in Hm as ([] & w2 & Hs%modify_Ok & Hm).
  apply M_bind_Ok in Hm as ([] & w3 & Hs'%modify_Ok & Hm).
  assert (w_db w1 = w_db w3) as ->.
  { destruct (bool_decide _); [by eapply queue_event_db|]. by injection Hm as <-. }
  rewrite <-(Hkey _ _ Hr). pose proof (Hdkey _ _ Hd) as Hpk. subst w3 w2.
  split; simpl; [done| |done|lia|done].
  apply (put_destination_config (w_db w0) d (λ d, d <| ds_last_error_code := str_take 64 code |>
      <| ds_last_error_message := str_take 500 message |>)); [done| |done].
  by rewrite Hpk.
Qed.
End effects.
