(* ===== verification/ReplicationLifecycle.v ===== *)
(** * The life cycle of revision replicas

    The invariant of the replica table over every operation of
    [services/replication.py], in any order and whether it succeeds or raises:
    one row per revision and destination, fields that fit the status, and rows
    that only move forward.  A tombstone, the record of a copy that retention
    removed, is never touched again. *)

From Stdlib Require Import ZArith Lia.
From stdpp Require Import base gmap sets list strings sorting relations.
From S2P Require Import Prelude Strings Text Calendar Models DestinationPaths World Events.
From S2P Require Import Scheduling Health Storage Destination Repository Dispatch Replication.
#[local] Open Scope string_scope.
#[local] Open Scope list_scope.
#[local] Open Scope Z_scope.

(** Fields and status of a replica. *)
Definition replica_wf (r : RevisionReplica) : Prop :=
  (rp_remote_available r = true →
     rp_status r = RP_SUCCESS ∧ rp_remote_deleted_at r = None) ∧
  match rp_status r with
  | RP_PENDING => rp_started_at r = None ∧ rp_finished_at r = None
  | RP_QUEUED => rp_started_at r = None ∧ rp_finished_at r = None ∧
      rp_next_retry_at r = None ∧ rp_error_code r = ""
  | RP_RUNNING => is_Some (rp_started_at r) ∧ rp_finished_at r = None ∧
      rp_remote_path r ≠ "" ∧ rp_error_code r = ""
  | RP_SUCCESS => is_Some (rp_finished_at r) ∧ rp_remote_path r ≠ "" ∧ rp_error_code r = "" ∧
      (rp_remote_deleted_at r = None → rp_remote_available r = true)
  | RP_FAILED => is_Some (rp_finished_at r)
  end.

(** [r] is what became of [r0]: the same copy, its recorded path, no fewer
    attempts, and nothing at all when [r0] was a tombstone. *)
Record evolves (r0 r : RevisionReplica) : Prop := {
  ev_pk : rp_pk r = rp_pk r0;
  ev_revision : rp_revision r = rp_revision r0;
  ev_destination : rp_destination r = rp_destination r0;
  ev_attempts : rp_attempts r0 <= rp_attempts r;
  ev_path : rp_remote_path r0 ≠ "" → rp_remote_path r = rp_remote_path r0;
  ev_tombstone : is_Some (rp_remote_deleted_at r0) → r = r0;
}.

#[export] Instance evolves_preorder : PreOrder evolves.
Proof.
  split; [intros r; split; (done || lia)|].
  intros r0 r1 r2 [A1 A2 A3 A4 A5 A6] [B1 B2 B3 B4 B5 B6]. split; try congruence; [lia|..].
  - intros H. rewrite B5; [by apply A5|]. by rewrite A5.
  - intros H. rewrite B6; [by apply A6|]. by rewrite A6.
Qed.

(** [K] is an earlier state of the table. *)
Record replicas_ok (K : gmap Z RevisionReplica) (db : DB) : Prop := {
  reps_keyed : keyed rp_pk (db_replicas db);
  reps_below : ∀ k r, db_replicas db !! k = Some r → k < db_next db;
  reps_unique : ∀ k1 k2 r1 r2, db_replicas db !! k1 = Some r1 → db_replicas db !! k2 = Some r2 →
    rp_revision r1 = rp_revision r2 → rp_destination r1 = rp_destination r2 → k1 = k2;
  reps_wf : ∀ k r, db_replicas db !! k = Some r → replica_wf r;
  reps_remote : ∀ k r, db_replicas db !! k = Some r →
    ∃ d, db_destinations db !! rp_destination r = Some d ∧ is_replicated (ds_protocol d) = true;
  dests_keyed : keyed ds_pk (db_destinations db);
  reps_past : ∀ k r0, K !! k = Some r0 → ∃ r, db_replicas db !! k = Some r ∧ evolves r0 r;
}.

(** Destinations that keep their configuration. *)
Lemma config_lookup db db' k d :
  destination_config <$> db_destinations db' = destination_config <$> db_destinations db →
  db_destinations db !! k = Some d →
  ∃ d', db_destinations db' !! k = Some d' ∧ destination_config d' = destination_config d.
Proof.
  intros E Hd. apply (f_equal (lookup k)) in E. rewrite !lookup_fmap, Hd in E.
  destruct (db_destinations db' !! k) as [d'|]; [|done]. exists d'. split; [done|].
  exact (inj Some _ _ E).
Qed.

Lemma config_fields d d' :
  destination_config d' = destination_config d →
  ds_pk d' = ds_pk d ∧ ds_protocol d' = ds_protocol d ∧ ds_max_retries d' = ds_max_retries d ∧
  ds_retry_delay_minutes d' = ds_retry_delay_minutes d ∧ ds_enabled d' = ds_enabled d ∧
  ds_auto_replicate d' = ds_auto_replicate d.
Proof. destruct d, d'. unfold destination_config. simpl. intros E. injection E. by intros; subst. Qed.

Lemma config_keyed db db' :
  destination_config <$> db_destinations db' = destination_config <$> db_destinations db →
  keyed ds_pk (db_destinations db) → keyed ds_pk (db_destinations db').
Proof.
  intros E Hk k d' Hd'. symmetry in E.
  destruct (config_lookup _ _ _ _ E Hd') as (d & Hd & Hc).
  apply config_fields in Hc as [Hc _]. by rewrite <-Hc, (Hk _ _ Hd).
Qed.

Section invariant.
Context (K : gmap Z RevisionReplica).

(** An effect on one existing row. *)
Lemma replicas_ok_update db db' k r r' :
  replicas_ok K db → db_replicas db !! k = Some r → evolves r r' → replica_wf r' →
  replica_effect (<[k := r']> (db_replicas db)) db db' → replicas_ok K db'.
Proof.
  intros [Hkey Hlt Hu Hwf Hrem Hdk Hpast] Hr Hev Hwf' [Er Ec _ En _].
  split; rewrite ?Er.
  - apply keyed_insert; [|done]. rewrite (ev_pk _ _ Hev). by apply Hkey.
  - intros j x [[<- <-]|[_ Hx]]%lookup_insert_Some; [specialize (Hlt _ _ Hr)|specialize (Hlt _ _ Hx)]; lia.
  - intros k1 k2 r1 r2 [[<- <-]|[Hn1 H1]]%lookup_insert_Some [[<- <-]|[Hn2 H2]]%lookup_insert_Some;
      rewrite ?(ev_revision _ _ Hev), ?(ev_destination _ _ Hev); eauto.
  - intros j x [[<- <-]|[_ Hx]]%lookup_insert_Some; eauto.
  - assert (∀ x, (∃ j, db_replicas db !! j = Some x) → ∃ d,
      db_destinations db' !! rp_destination x = Some d ∧ is_replicated (ds_protocol d) = true) as H.
    { intros x [j Hj]. destruct (Hrem _ _ Hj) as (d & Hd & Hp).
      destruct (config_lookup _ _ _ _ Ec Hd) as (d' & Hd' & Hc). exists d'.
      split; [done|]. apply config_fields in Hc as (_ & -> & _). done. }
    intros j x [[<- <-]|[_ Hx]]%lookup_insert_Some; [rewrite (ev_destination _ _ Hev)|]; eauto.
  - by eapply config_keyed.
  - intros j r0 Hj. destruct (Hpast _ _ Hj) as (x & Hx & Hev0). destruct (decide (j = k)) as [->|Hne].
    + exists r'. rewrite lookup_insert_eq. split; [done|]. rewrite Hr in Hx. injection Hx as <-.
      by transitivity r.
    + exists x. by rewrite lookup_insert_ne.
Qed.

Lemma replicas_ok_same db db' :
  replicas_ok K db → replica_effect (db_replicas db) db db' → replicas_ok K db'.
Proof.
  intros [Hkey Hlt Hu Hwf Hrem Hdk Hpast] [Er Ec _ En _]. split; rewrite ?Er; auto.
  - intros k r Hk. specialize (Hlt _ _ Hk). lia.
  - intros k r Hk. destruct (Hrem _ _ Hk) as (d & Hd & Hp).
    destruct (config_lookup _ _ _ _ Ec Hd) as (d' & Hd' & Hc). exists d'.
    split; [done|]. by apply config_fields in Hc as (_ & -> & _).
  - by eapply config_keyed.
Qed.

(** A new row under the next key. *)
Lemma replicas_ok_new db revision destination now d :
  replicas_ok K db → find_replica db revision destination = None →
  db_destinations db !! destination = Some d → is_replicated (ds_protocol d) = true →
  replicas_ok K (put_replica (new_replica (db_next db) revision destination now)
                   (db <| db_next := db_next db + 1 |>)).
Proof.
  intros [Hkey Hlt Hu Hwf Hrem Hdk Hpast] Hnone Hd Hp.
  assert (∀ k r, db_replicas db !! k = Some r → rp_revision r = revision →
            rp_destination r = destination → False) as Hno.
  { intros k r Hk H1 H2. unfold find_replica in Hnone.
    assert (r ∈ filter (λ r, rp_revision r = revision ∧ rp_destination r = destination)
                  (rows (db_replicas db))) as Hin
      by (apply list_elem_of_filter; split; [done|]; apply elem_of_rows; eauto).
    destruct (filter _ _); [by apply not_elem_of_nil in Hin|done]. }
  split; simpl.
  - by apply keyed_insert.
  - intros k r [[<- <-]|[_ Hk]]%lookup_insert_Some; [lia|]. specialize (Hlt _ _ Hk). lia.
  - intros k1 k2 r1 r2 [[<- <-]|[Hn1 H1]]%lookup_insert_Some [[<- <-]|[Hn2 H2]]%lookup_insert_Some;
      [done| | |eauto]; simpl; intros E1 E2; exfalso; eapply Hno; eauto.
  - intros k r [[<- <-]|[_ Hk]]%lookup_insert_Some; [|eauto]. by split.
  - intros k r [[<- <-]|[_ Hk]]%lookup_insert_Some; [|eauto]. by exists d.
  - done.
  - intros k r0 Hk. destruct (Hpast _ _ Hk) as (r & Hr & Hev). exists r. split; [|done].
    rewrite lookup_insert_ne; [done|]. specialize (Hlt _ _ Hr). lia.
Qed.
End invariant.

(** ** The rows the calls save *)

Lemma queued_row_ok r now job :
  rp_remote_deleted_at r = None → evolves r (queued_row r now job) ∧ replica_wf (queued_row r now job).
Proof.
  intros Hd. split; [|by split]. split; simpl; try (done || lia). rewrite Hd. by intros [].
Qed.

Lemma running_row_ok r path now :
  rp_remote_deleted_at r = None → path ≠ "" → (rp_remote_path r ≠ "" → path = rp_remote_path r) →
  evolves r (running_row r path now) ∧ replica_wf (running_row r path now).
Proof.
  intros Hd Hne Hp. split; [|by split; [done|]; split_and!; eauto].
  split; simpl; try (done || lia). rewrite Hd. by intros [].
Qed.

Lemma success_row_ok r sent now :
  rp_remote_deleted_at r = None → rp_remote_path r ≠ "" →
  evolves r (success_row r (rp_remote_path r) sent now) ∧
  replica_wf (success_row r (rp_remote_path r) sent now).
Proof.
  intros Hd Hne. split; [|by split; [done|]; split_and!; eauto].
  split; simpl; try (done || lia). rewrite Hd. by intros [].
Qed.

Lemma failed_row_ok r code message next now :
  rp_remote_deleted_at r = None →
  evolves r (failed_row r code message next now) ∧ replica_wf (failed_row r code message next now).
Proof.
  intros Hd. split; [|by split; simpl; eauto].
  split; simpl; try (done || lia). rewrite Hd. by intros [].
Qed.

Lemma may_enqueue_tombstone d r force : may_enqueue d r force = true → rp_remote_deleted_at r = None.
Proof.
  unfold may_enqueue. rewrite !andb_true_iff. intros [[[_ H] _] _]. by apply bool_decide_eq_true in H.
Qed.

Section operations.
Context `{Externals} `{NetBoxCore} `{!Backends} `{!BackendsLaws} (plugin_settings : PluginSettings).
Context (nfkd : string → string) (K : gmap Z RevisionReplica).

Abbreviation ok := (db_inv (replicas_ok K)).

Lemma enqueue_revision_replica_keeps id force now :
  keeps ok (enqueue_revision_replica id force now).
Proof.
  intros w x w' Hm Hok. unfold db_inv in *.
  apply enqueue_revision_replica_run in Hm; [|by eapply reps_keyed].
  destruct x as [[job|]|e]; [|by destruct Hm as (? & ? & _ & _ & _ & ->)|by rewrite Hm].
  destruct Hm as (r & d & Hr & _ & Hmay%may_enqueue_tombstone & _ & _ & Heff).
  destruct (queued_row_ok r now job Hmay) as [Hev Hwf]. by eapply replicas_ok_update.
Qed.

Lemma get_or_create_replica_run revision destination now w x w' :
  get_or_create_replica revision destination now w = (x, w') →
  match x with
  | Err _ => w_db w' = w_db w
  | Ok (r, false) => find_replica (w_db w) revision destination = Some r ∧ w' = w
  | Ok (r, true) => find_replica (w_db w) revision destination = None ∧
      r = new_replica (db_next (w_db w)) revision destination now ∧
      is_Some (db_destinations (w_db w) !! destination) ∧
      w_db w' = put_replica r ((w_db w) <| db_next := db_next (w_db w) + 1 |>)
  end.
Proof.
  unfold get_or_create_replica. rewrite read_bind_run. unfold Datatypes.id.
  destruct (find_replica (w_db w) revision destination) as [r|]; [by intros [= <- <-]|].
  do 2 case_bool_decide; by intros [= <- <-].
Qed.

(** The calls that queue leave the destinations alone. *)
Definition ok_with (D : gmap Z BackupDestination) (db : DB) : Prop :=
  replicas_ok K db ∧ db_destinations db = D.

Lemma enqueue_keeps_destinations D id force now :
  keeps (db_inv (ok_with D)) (enqueue_revision_replica id force now).
Proof.
  intros w x w' Hm [Hok HD]. split; [by eapply enqueue_revision_replica_keeps|].
  apply enqueue_revision_replica_run in Hm; [|by eapply reps_keyed].
  destruct x as [[job|]|e]; [|by destruct Hm as (? & ? & _ & _ & _ & ->)|by rewrite Hm].
  destruct Hm as (r & d & _ & _ & _ & Hd & _). by rewrite Hd.
Qed.

Lemma get_or_create_keeps D revision destination now :
  (∀ d, D !! destination = Some d → is_replicated (ds_protocol d) = true) →
  keeps (db_inv (ok_with D)) (get_or_create_replica revision destination now).
Proof.
  intros Hrep w x w' Hm [Hok HD]. unfold db_inv, ok_with in *.
  apply get_or_create_replica_run in Hm.
  destruct x as [[r []]|e]; [|by destruct Hm as [_ ->]|by rewrite Hm].
  destruct Hm as (Hnone & -> & [d Hd] & ->). split; [|done].
  eapply replicas_ok_new; eauto. apply Hrep. by rewrite <-HD.
Qed.

Definition replicated_in (D : gmap Z BackupDestination) (k : Z) : Prop :=
  ∀ d, D !! k = Some d → is_replicated (ds_protocol d) = true.

Lemma create_replicas_keeps D pairs now :
  Forall (λ p, replicated_in D p.2) pairs →
  keeps (db_inv (ok_with D)) (create_replicas pairs now).
Proof.
  intros Hp. unfold create_replicas. generalize (@nil Z) at 1.
  induction Hp as [|p pairs Hp _ IH]; intros acc; simpl; [apply keeps_ret|].
  apply keeps_bind; [|intros; apply IH].
  apply keeps_bind; [by apply get_or_create_keeps|]. intros. apply keeps_ret.
Qed.

Lemma enqueue_all_keeps D ids now :
  keeps (db_inv (ok_with D))
    (for_each ids (λ id, _ ← enqueue_revision_replica id false now; mret tt)).
Proof. apply keeps_for_each. intros. apply keeps_bind; [apply enqueue_keeps_destinations|]. intros. apply keeps_ret. Qed.

Lemma automatic_destinations_replicated db d :
  keyed ds_pk (db_destinations db) → d ∈ automatic_destinations db →
  replicated_in (db_destinations db) (ds_pk d).
Proof.
  intros Hk [(_ & _ & Hp) Hd]%list_elem_of_filter d' Hd'.
  apply (elem_of_rows_keyed _ _ _ Hk) in Hd. congruence.
Qed.

(** Whatever the destinations are, they stay. *)
Lemma keeps_with {A} (m : M World A) : (∀ D, keeps (db_inv (ok_with D)) m) → keeps ok m.
Proof.
  intros Hm w x w' Hw Hok. by destruct (Hm (db_destinations (w_db w)) w x w' Hw (conj Hok eq_refl)).
Qed.

Lemma create_revision_replicas_keeps revision now :
  keeps ok (create_revision_replicas revision now).
Proof.
  apply keeps_with. intros D. apply keeps_read_bind. intros db [Hok <-]. apply keeps_bind.
  - apply create_replicas_keeps, list.Forall_forall. intros p (d & -> & Hd)%list_elem_of_fmap.
    apply automatic_destinations_replicated; [|done]. by eapply dests_keyed.
  - intros ids. apply keeps_bind; [apply enqueue_all_keeps|intros; apply keeps_ret].
Qed.

Lemma ensure_at_destination_keeps D revision now queued d :
  replicated_in D (ds_pk d) →
  keeps (db_inv (ok_with D)) (ensure_at_destination revision now queued d).
Proof.
  intros Hd. unfold ensure_at_destination.
  apply keeps_bind; [by apply get_or_create_keeps|]. intros [r []].
  { apply keeps_bind; [apply enqueue_keeps_destinations|intros; apply keeps_ret]. }
  case_match; [apply keeps_ret|]. apply keeps_bind.
  - case_match; [apply keeps_ret|]. apply keeps_try; [|intros e; case_match; auto with keeps].
    apply keeps_bind; [|intros; apply keeps_ret].
    intros w x w' ->%reconcile_for_replicas_pure. done.
  - intros []; [|apply keeps_ret].
    apply keeps_bind; [apply enqueue_keeps_destinations|intros; apply keeps_ret].
Qed.

Lemma ensure_revision_replicas_keeps revision now :
  keeps ok (ensure_revision_replicas revision now).
Proof.
  apply keeps_with. intros D. apply keeps_read_bind. intros db [Hok <-].
  assert (Forall (λ d, replicated_in (db_destinations db) (ds_pk d)) (automatic_destinations db)) as Hall.
  { apply list.Forall_forall. intros d Hd. apply automatic_destinations_replicated; [|done].
    by eapply dests_keyed. }
  generalize 0. induction Hall as [|d l Hd _ IH]; intros n; simpl; [apply keeps_ret|].
  apply keeps_bind; [by apply ensure_at_destination_keeps|]. intros; apply IH.
Qed.

Lemma dispatch_due_replicas_keeps limit now : keeps ok (dispatch_due_replicas limit now).
Proof.
  apply keeps_read_bind. intros db _. apply keeps_for_fold. intros s id.
  apply keeps_bind; [apply enqueue_revision_replica_keeps|intros; apply keeps_ret].
Qed.

(** [destination] is the row of the database. *)
Lemma backfill_destination_keeps destination limit now w x w' :
  db_destinations (w_db w) !! ds_pk destination = Some destination →
  backfill_destination destination limit now w = (x, w') → ok w → ok w'.
Proof.
  intros Hrow Hm Hok. unfold backfill_destination in Hm.
  destruct (is_replicated (ds_protocol destination)) eqn:Hrep; [|by injection Hm as <- <-].
  assert (ok_with (db_destinations (w_db w)) (w_db w')) as [? _]; [|done].
  refine (keeps_read_bind (ok_with (db_destinations (w_db w))) _ _ _ _ _ _ Hm (conj Hok eq_refl)).
  intros db _. apply keeps_bind.
  - apply create_replicas_keeps, list.Forall_forall. intros p (r & -> & _)%list_elem_of_fmap d Hd.
    simpl in Hd. congruence.
  - intros ids. apply keeps_bind; [apply enqueue_all_keeps|intros; apply keeps_ret].
Qed.
(** ** Executing *)

(** Marking an existing row succeeds. *)
Lemma mark_replica_success_total id path sent now w r d :
  db_replicas (w_db w) !! id = Some r → db_destinations (w_db w) !! rp_destination r = Some d →
  ∃ w', mark_replica_success plugin_settings id path sent now w = (Ok tt, w') ∧
    w_remote w' = w_remote w ∧ w_files w' = w_files w.
Proof.
  intros Hr Hd. unfold mark_replica_success, atomic. rewrite M_bind_run. unfold get_replica, get.
  change (w_db (w <| w_depth := S (w_depth w) |>)) with (w_db w). rewrite Hr, M_bind_run.
  unfold get_destination, get. change (w_db (w <| w_depth := S (w_depth w) |>)) with (w_db w).
  rewrite Hd. unfold save_replica, save_destination, on_db. rewrite !modify_bind_run.
  match goal with |- context [(if _ then _ else _) ?w2] => set (w3 := w2) end.
  destruct (queue_hook_run plugin_settings (EmitReplicaEvent REPLICA_RECOVERED (rp_pk r)) w3)
    as (w4 & Hq & _ & Hf & Hrem & _).
  unfold queue_replica_event. destruct (negb _); [rewrite Hq|]; eexists; (split; [done|]);
    destruct (w_depth w); rewrite ?Hf, ?Hrem; done.
Qed.
Lemma mark_replica_failed_total id code message now w r d :
  db_replicas (w_db w) !! id = Some r → db_destinations (w_db w) !! rp_destination r = Some d →
  ∃ x w', mark_replica_failed plugin_settings id code message now w = (x, w') ∧
    w_remote w' = w_remote w ∧ w_files w' = w_files w ∧
    is_ok x = is_ok (retry_time d (rp_attempts r) now).
Proof.
  intros Hr Hd. unfold mark_replica_failed, atomic. rewrite M_bind_run. unfold get_replica, get.
  change (w_db (w <| w_depth := S (w_depth w) |>)) with (w_db w). rewrite Hr, M_bind_run.
  unfold get_destination, get. change (w_db (w <| w_depth := S (w_depth w) |>)) with (w_db w).
  rewrite Hd, lift_bind_run. destruct (retry_time d (rp_attempts r) now) as [next|e].
  2: { do 2 eexists. split_and!; reflexivity. }
  unfold save_replica, save_destination, on_db. rewrite !modify_bind_run.
  match goal with |- context [(if _ then _ else _) ?w2] => set (w3 := w2) end.
  destruct (queue_hook_run plugin_settings (EmitReplicaEvent REPLICA_FAILED (rp_pk r)) w3)
    as (w4 & Hq & _ & Hf & Hrem & _).
  unfold queue_replica_event. destruct (bool_decide _); [rewrite Hq|]; do 2 eexists; (split; [done|]);
    destruct (w_depth w); rewrite ?Hf, ?Hrem; done.
Qed.

Lemma mark_replica_running_outside id now F R :
  keeps (outside F R) (mark_replica_running nfkd id now).
Proof.
  unfold mark_replica_running, get_replica, get_destination, get_revision, get_target, save_replica.
  apply outside_atomic. repeat (apply keeps_bind; [auto with keeps|intros ?]).
  repeat case_match; auto with keeps.
  all: repeat (apply keeps_bind; [auto with keeps|intros ?]); auto with keeps.
Qed.

(** A refused execution changes nothing; otherwise the row ends in one of the
    two final states, unless the retry time cannot be computed. *)
Lemma execute_revision_replica_run id started finished w x w' :
  replicas_ok K (w_db w) →
  execute_revision_replica plugin_settings nfkd id started finished w = (x, w') →
  (∃ e, x = Err e ∧ is_ok (mark_replica_running nfkd id started w).1 = false ∧
     w_db w' = w_db w ∧ w_remote w' = w_remote w) ∨
  ∃ r d r1, db_replicas (w_db w) !! id = Some r ∧
    db_destinations (w_db w) !! rp_destination r = Some d ∧
    ds_enabled d = true ∧ rp_remote_deleted_at r = None ∧
    rp_status r ∈ [RP_PENDING; RP_QUEUED; RP_FAILED] ∧
    r1 = running_row r (rp_remote_path r1) started ∧ rp_remote_path r1 ≠ "" ∧
    (rp_remote_path r ≠ "" → rp_remote_path r1 = rp_remote_path r) ∧
    (∀ l, l ≠ place (endpoint d) (rp_remote_path r1) →
       copy_at (w_remote w') l ↔ copy_at (w_remote w) l) ∧
    ∃ r', replica_effect (<[id := r']> (db_replicas (w_db w))) (w_db w) (w_db w') ∧
      ((∃ res, x = Ok res ∧ copy_at (w_remote w') (place (endpoint d) (rp_remote_path r1)) ∧
          r' = success_row r1 (rp_remote_path r1) (rr_bytes_transferred res) finished) ∨
       (∃ code message next, x = Err (DestinationError code message) ∧
          retry_time d (rp_attempts r1) finished = Ok next ∧
          r' = failed_row r1 code message next finished) ∨
       (r' = r1 ∧ is_ok x = false ∧ is_ok (retry_time d (rp_attempts r1) finished) = false)).
Proof.
  intros Hok Hm. unfold execute_revision_replica in Hm. rewrite M_bind_run in Hm.
  pose proof (reps_keyed _ _ Hok) as Hkey. pose proof (dests_keyed _ _ Hok) as Hdkey.
  destruct (mark_replica_running nfkd id started w) as [x1 w1] eqn:Er.
  destruct (mark_replica_running_outside _ _ (w_files w) (w_remote w) _ _ _ Er (conj eq_refl eq_refl))
    as [_ Hrem1].
  apply mark_replica_running_run in Er; [|done]. destruct x1 as [[[r1 d] rv]|e].
  2: { injection Hm as <- <-. left. eauto 10. }
  destruct Er as (r & Hr & Hd & _ & Hen & Hdel & Hst & Hr1 & Hne & Hpath & Hd1 & Heff1).
  right. exists r, d, r1. do 8 (split; [done|]).
  assert (rp_pk r1 = id ∧ rp_destination r1 = rp_destination r) as [Hpk Hdest]
    by (rewrite Hr1; split; [exact (Hkey _ _ Hr)|done]).
  assert (db_replicas (w_db w1) !! id = Some r1) as Hr1'
    by by rewrite (eff_replicas _ _ _ Heff1), lookup_insert_eq.
  rewrite bool_decide_eq_false_2 in Hm by done. rewrite M_bind_run in Hm. unfold try_catch in Hm.
  destruct (replicate_revision d rv (Some (rp_remote_path r1)) w1) as [x2 w2] eqn:Erep.
  destruct (remote_only_db _ _ _ _ (replicate_revision_remote_only d rv _) Erep) as (Hdb2 & _).
  assert (is_replicated (ds_protocol d) = true) as Hp.
  { destruct (reps_remote _ _ Hok _ _ Hr) as (d0 & Hd0 & ?). congruence. }
  destruct (replicate_revision_run d rv _ w1 x2 w2 Hne Hp Erep) as [Hcopy Hother].
  rewrite Hrem1 in Hother.
  assert (keyed rp_pk (db_replicas (w_db w2)) ∧ keyed ds_pk (db_destinations (w_db w2))) as [Hk2 Hdk2].
  { rewrite Hdb2, (eff_replicas _ _ _ Heff1), Hd1. split; [|done]. by apply keyed_insert. }
  rewrite <-Hdb2 in Hr1'. assert (db_destinations (w_db w2) !! rp_destination r1 = Some d) as Hd2
    by (rewrite Hdb2, Hd1; congruence).
  assert (∀ r' db', replica_effect (<[id := r']> (db_replicas (w_db w2))) (w_db w2) db' →
    replica_effect (<[id := r']> (db_replicas (w_db w))) (w_db w) db') as Htrans.
  { intros r' db' Heff. rewrite Hdb2 in Heff.
    rewrite (eff_replicas _ _ _ Heff1), insert_insert_eq in Heff. by eapply effect_trans. }
  destruct x2 as [res|e].
  - destruct (Hcopy _ eq_refl) as [Hres Hc]. rewrite M_bind_run, Hpk in Hm.
    destruct (mark_replica_success_total id (rr_remote_path res) (rr_bytes_transferred res)
      finished w2 r1 d Hr1' Hd2) as (w3 & Es & Hrem3 & _).
    rewrite Es in Hm. injection Hm as <- <-. rewrite Hrem3. split; [done|].
    apply mark_replica_success_run in Es as (r1' & Hr1'' & Heff); [|done..].
    rewrite Hr1' in Hr1''. injection Hr1'' as <-. rewrite Hres in Heff.
    eexists. split; [by apply Htrans|]. left. eauto.
  - assert (∃ code message,
      match mark_replica_failed plugin_settings (rp_pk r1) code message finished w2 with
      | (Ok _, w3) => (Err (DestinationError code message), w3)
      | (Err e3, w3) => (Err e3, w3)
      end = (x, w')) as (code & message & Hf).
    { exists (match e with DestinationError code _ => code | _ => "INTERNAL_ERROR" end),
        (match e with DestinationError _ message => message
         | _ => "External replication stopped because of an internal error." end).
      rewrite <-Hm. destruct e; rewrite M_bind_run;
        by destruct (mark_replica_failed _ _ _ _ _ _) as [[[]|] ?]. }
    clear Hm. rewrite Hpk in Hf.
    destruct (mark_replica_failed_total id code message finished w2 r1 d Hr1' Hd2)
      as (x3 & w3 & Ef & Hrem3 & _ & Hx3). rewrite Ef in Hf.
    pose proof Ef as Ef'. apply mark_replica_failed_run in Ef'; [|done..]. destruct x3 as [[]|e3].
    + injection Hf as <- <-. rewrite Hrem3. split; [done|].
      destruct Ef' as (r1' & d' & next & Hr1'' & Hd' & Hnext & Heff).
      rewrite Hr1' in Hr1''. injection Hr1'' as <-. rewrite Hd2 in Hd'. injection Hd' as <-.
      eexists. split; [by apply Htrans|]. right. left. eauto 10.
    + injection Hf as <- <-. rewrite Hrem3. split; [done|]. exists r1. split.
      * by rewrite Ef', Hdb2.
      * right. right. done.
Qed.
Lemma execute_revision_replica_keeps id started finished :
  keeps ok (execute_revision_replica plugin_settings nfkd id started finished).
Proof.
  intros w x w' Hm Hok. unfold db_inv in *.
  destruct (execute_revision_replica_run _ _ _ _ _ _ Hok Hm)
    as [(e & _ & _ & Hdb & _)|(r & d & r1 & Hr & _ & _ & Hdel & _ & Hr1 & Hne & Hp & _ & r' & Heff & Hr')];
    [by rewrite Hdb|].
  destruct (running_row_ok r (rp_remote_path r1) started Hdel Hne Hp) as [Hev Hwf].
  rewrite <-Hr1 in Hev, Hwf.
  assert (rp_remote_deleted_at r1 = None) as Hdel1 by by rewrite Hr1.
  assert (evolves r1 r' ∧ replica_wf r') as [Hev' Hwf'].
  { destruct Hr' as [(res & _ & _ & ->)|[(code & message & next & _ & _ & ->)|[-> _]]];
      [by apply success_row_ok|by apply failed_row_ok|done]. }
  eapply replicas_ok_update; [done|done|by transitivity r1|done|done].
Qed.

(** Failing a row that is no tombstone. *)
Lemma mark_replica_failed_keeps id code message now w x w' :
  (∀ r, db_replicas (w_db w) !! id = Some r → rp_remote_deleted_at r = None) →
  mark_replica_failed plugin_settings id code message now w = (x, w') → ok w →
  ok w' ∧ ∀ k r', db_replicas (w_db w') !! k = Some r' →
    ∃ r, db_replicas (w_db w) !! k = Some r ∧ rp_remote_deleted_at r' = rp_remote_deleted_at r.
Proof.
  intros Hdel Hm Hok. unfold db_inv in *.
  apply mark_replica_failed_run in Hm; [|by eapply reps_keyed|by eapply dests_keyed].
  destruct x as [[]|e]; [|rewrite Hm; eauto].
  destruct Hm as (r & d & next & Hr & _ & _ & Heff).
  destruct (failed_row_ok r code message next now (Hdel _ Hr)) as [Hev Hwf].
  split; [by eapply replicas_ok_update|]. rewrite (eff_replicas _ _ _ Heff).
  intros k r' [[<- <-]|[_ Hk]]%lookup_insert_Some; eauto.
Qed.

(** The loop over the stale rows, for any invariant that failing a row which
    is no tombstone keeps. *)
Lemma reconcile_stale_replicas_inv (I : DB → Prop) minutes now :
  (∀ db, I db → replicas_ok K db) →
  (∀ id code message w x w', (∀ r, db_replicas (w_db w) !! id = Some r → rp_remote_deleted_at r = None) →
     mark_replica_failed plugin_settings id code message now w = (x, w') → I (w_db w) → I (w_db w')) →
  keeps (db_inv I) (reconcile_stale_replicas plugin_settings minutes now).
Proof.
  intros HI Hfail w x w' Hm Hw. unfold reconcile_stale_replicas in Hm. rewrite lift_bind_run in Hm.
  destruct (check_range _) as [cutoff|e]; [|by injection Hm as <- <-].
  rewrite read_bind_run in Hm.
  assert (∀ c, c ∈ filter (λ r, replica_stale cutoff r = true) (rows (db_replicas (w_db w))) →
    ∀ r, db_replicas (w_db w) !! rp_pk c = Some r → rp_remote_deleted_at r = None) as Hc.
  { intros c [Hs Hin]%list_elem_of_filter r Hr.
    apply (elem_of_rows_keyed _ _ _ (reps_keyed _ _ (HI _ Hw))) in Hin. rewrite Hr in Hin.
    injection Hin as ->. unfold replica_stale in Hs. apply andb_true_iff in Hs as [Hs _].
    by apply bool_decide_eq_true in Hs. }
  revert Hm Hc. generalize (filter (λ r, replica_stale cutoff r = true) (rows (db_replicas (w_db w)))) as l.
  generalize 0 as n. intros n l. revert n w Hw.
  induction l as [|c l IH]; intros n w Hw Hm Hc; simpl in Hm; [by injection Hm as <- <-|].
  rewrite M_bind_run, read_bind_run in Hm.
  match type of Hm with context [if ?b then _ else _] => destruct b end; simpl in Hm.
  { eapply IH; [done|exact Hm|]. intros c' Hc'. apply Hc. by right. }
  rewrite M_bind_run in Hm.
  destruct (mark_replica_failed _ _ _ _ _ w) as [[[]|e] w1] eqn:Ef; simpl in Hm.
  - pose proof (Hfail _ _ _ _ _ _ (Hc c ltac:(by left)) Ef Hw) as Hw1.
    apply mark_replica_failed_keeps in Ef as [_ Hsame]; [|apply Hc; by left|by apply HI].
    eapply IH; [exact Hw1|exact Hm|]. intros c' Hc' r Hr.
    destruct (Hsame _ _ Hr) as (r0 & Hr0 & ->). eapply Hc; [by right|done].
  - injection Hm as <- <-. exact (Hfail _ _ _ _ _ _ (Hc c ltac:(by left)) Ef Hw).
Qed.

Lemma reconcile_stale_replicas_keeps minutes now :
  keeps ok (reconcile_stale_replicas plugin_settings minutes now).
Proof.
  apply reconcile_stale_replicas_inv; [done|]. intros id code message w x w' Hdel Hm Hok.
  exact (proj1 (mark_replica_failed_keeps _ _ _ _ _ _ _ Hdel Hm Hok)).
Qed.
End operations.

(** ** Any sequence of calls *)
Section reachability.
Context `{Externals} `{NetBoxCore} `{!Backends} `{!BackendsLaws} (plugin_settings : PluginSettings).
Context (nfkd : string → string).

(** One call of the service, with any arguments and outcome, or anything
    else that leaves replicas and destinations alone. *)
Inductive replication_step (w w' : World) : Prop :=
  | step_create revision now x :
      create_revision_replicas revision now w = (x, w') → replication_step w w'
  | step_ensure revision now x :
      ensure_revision_replicas revision now w = (x, w') → replication_step w w'
  | step_enqueue id force now x :
      enqueue_revision_replica id force now w = (x, w') → replication_step w w'
  | step_execute id started finished x :
      execute_revision_replica plugin_settings nfkd id started finished w = (x, w') →
      replication_step w w'
  | step_dispatch limit now x :
      dispatch_due_replicas limit now w = (x, w') → replication_step w w'
  | step_reconcile minutes now x :
      reconcile_stale_replicas plugin_settings minutes now w = (x, w') → replication_step w w'
  | step_backfill destination limit now x :
      db_destinations (w_db w) !! ds_pk destination = Some destination →
      backfill_destination destination limit now w = (x, w') → replication_step w w'
  | step_elsewhere :
      replica_effect (db_replicas (w_db w)) (w_db w) (w_db w') → replication_step w w'.

Lemma replication_step_keeps K w w' :
  replication_step w w' → replicas_ok K (w_db w) → replicas_ok K (w_db w').
Proof.
  intros Hs Hok. destruct Hs as [? ? ? Hm|? ? ? Hm|? ? ? ? Hm|? ? ? ? Hm|? ? ? Hm|? ? ? Hm|? ? ? ? Hd Hm|Hm].
  - exact (create_revision_replicas_keeps K _ _ _ _ _ Hm Hok).
  - exact (ensure_revision_replicas_keeps K _ _ _ _ _ Hm Hok).
  - exact (enqueue_revision_replica_keeps K _ _ _ _ _ _ Hm Hok).
  - exact (execute_revision_replica_keeps plugin_settings nfkd K _ _ _ _ _ _ Hm Hok).
  - exact (dispatch_due_replicas_keeps K _ _ _ _ _ Hm Hok).
  - exact (reconcile_stale_replicas_keeps plugin_settings K _ _ _ _ _ Hm Hok).
  - exact (backfill_destination_keeps K _ _ _ _ _ _ Hd Hm Hok).
  - by eapply replicas_ok_same.
Qed.

(** C18: Whatever the replication service does, in any order, and whether each
    call succeeds or raises: there is one row per revision and destination,
    the fields of every row fit its status (a row says "available" only after
    a finished upload to a recorded path), no row disappears, the recorded
    path of a copy never changes, attempts never go down, and a tombstone is
    final: its row is exactly what it was. *)
Theorem replica_lifecycle w w' :
  replicas_ok ∅ (w_db w) → rtc replication_step w w' →
  (∀ k1 k2 r1 r2, db_replicas (w_db w') !! k1 = Some r1 → db_replicas (w_db w') !! k2 = Some r2 →
     rp_revision r1 = rp_revision r2 → rp_destination r1 = rp_destination r2 → k1 = k2) ∧
  (∀ k r, db_replicas (w_db w') !! k = Some r → replica_wf r) ∧
  (∀ k r, db_replicas (w_db w) !! k = Some r → ∃ r', db_replicas (w_db w') !! k = Some r' ∧
     rp_attempts r <= rp_attempts r' ∧
     (rp_remote_path r ≠ "" → rp_remote_path r' = rp_remote_path r) ∧
     (is_Some (rp_remote_deleted_at r) → r' = r)).
Proof.
  intros [I1 I2 I3 I4 I5 I6 _] Hr.
  assert (replicas_ok (db_replicas (w_db w)) (w_db w)) as Hok.
  { split; [done..|]. intros k r Hk. exists r. split; [done|reflexivity]. }
  assert (replicas_ok (db_replicas (w_db w)) (w_db w')) as Hok'.
  { clear I1 I2 I3 I4 I5 I6. revert Hok. generalize (db_replicas (w_db w)) as K. intros K Hok.
    induction Hr; [done|]. eauto using replication_step_keeps. }
  split_and!; [by eapply reps_unique|by eapply reps_wf|].
  intros k r Hk. destruct (reps_past _ _ Hok' _ _ Hk) as (r' & Hr' & [_ _ _ Ha Hp Ht]). eauto 10.
Qed.
End reachability.

(** ** What one execution does *)
Section execution.
Context `{Externals} `{NetBoxCore} `{!Backends} `{!BackendsLaws} (plugin_settings : PluginSettings).
Context (nfkd : string → string).

(** Whether a replica may be uploaded now. *)
Definition may_start (d : BackupDestination) (r : RevisionReplica) : bool :=
  ds_enabled d && bool_decide (rp_remote_deleted_at r = None)
  && bool_decide (rp_status r ∈ [RP_PENDING; RP_QUEUED; RP_FAILED]).

Lemma mark_replica_running_total id now w r d rv t dev :
  db_replicas (w_db w) !! id = Some r → db_destinations (w_db w) !! rp_destination r = Some d →
  db_revisions (w_db w) !! rp_revision r = Some rv → 0 < rv_pk rv →
  db_targets (w_db w) !! rv_target rv = Some t → db_devices (w_db w) !! tg_device t = Some dev →
  is_ok (mark_replica_running nfkd id now w).1 = may_start d r.
Proof.
  intros Hr Hd Hrv Hpk Ht Hdev. unfold mark_replica_running, atomic.
  set (w0 := w <| w_depth := _ |>). change (w_db w) with (w_db w0) in *. clearbody w0.
  rewrite M_bind_run. unfold get_replica, get at 1. rewrite Hr, M_bind_run.
  unfold get_destination, get at 1. rewrite Hd, M_bind_run.
  unfold get_revision, get at 1. rewrite Hrv, M_bind_run.
  unfold get_target, get at 1. rewrite Ht, M_bind_run. unfold get. rewrite Hdev.
  unfold may_start. destruct (ds_enabled d); cbn [negb]; [|done].
  destruct (rp_remote_deleted_at r) eqn:Hdel; [done|].
    change (bool_decide (is_Some (@None Z))) with false. change (bool_decide (@None Z = None)) with true.
  cbn [andb].
  destruct (bool_decide (rp_status r ∈ _)); [|done]. cbn [negb]. rewrite M_bind_run.
  case_bool_decide; [|done].
  unfold ftp_revision_destination_path. destruct (Z.leb_spec (rv_pk rv) 0); [lia|done].
Qed.

(** C19: Executing a replica is refused, without a trace, exactly when its
    destination is disabled, its copy has expired, or it is not waiting to
    run.  Otherwise it never stays "running": either the backend reported
    success, the copy exists at the row's recorded path and the row says so;
    or the call raises, and the row is failed with that error and with the
    retry time the destination's settings give: after the delay while the
    attempts are within the maximum, none afterwards.  No other row and no
    other copy is affected. *)
Theorem execute_revision_replica_outcome id started finished w x w' r d rv t dev m delay :
  replicas_ok ∅ (w_db w) → db_replicas (w_db w) !! id = Some r →
  db_destinations (w_db w) !! rp_destination r = Some d →
  db_revisions (w_db w) !! rp_revision r = Some rv → 0 < rv_pk rv →
  db_targets (w_db w) !! rv_target rv = Some t → db_devices (w_db w) !! tg_device t = Some dev →
  ds_max_retries d = Some m → ds_retry_delay_minutes d = Some delay →
  in_range (finished + delay * us_per_minute) = true →
  execute_revision_replica plugin_settings nfkd id started finished w = (x, w') →
  if may_start d r
  then ∃ r', db_replicas (w_db w') = <[id := r']> (db_replicas (w_db w)) ∧
    rp_attempts r' = rp_attempts r + 1 ∧ rp_remote_path r' ≠ "" ∧
    (∀ l, l ≠ place (endpoint d) (rp_remote_path r') →
       copy_at (w_remote w') l ↔ copy_at (w_remote w) l) ∧
    match x with
    | Ok _ => rp_status r' = RP_SUCCESS ∧ rp_remote_available r' = true ∧
        copy_at (w_remote w') (place (endpoint d) (rp_remote_path r'))
    | Err e => rp_status r' = RP_FAILED ∧ rp_remote_available r' = false ∧
        (∃ code message, e = DestinationError code message ∧
           rp_error_code r' = str_take 64 code ∧ rp_error_message r' = str_take 500 message) ∧
        rp_next_retry_at r' = if rp_attempts r' <=? m
                              then Some (finished + delay * us_per_minute) else None
    end
  else is_ok x = false ∧ w_db w' = w_db w ∧ w_remote w' = w_remote w.
Proof.
  intros Hok Hr Hd Hrv Hpk Ht Hdev Hm Hdelay Hrange Hrun.
  pose proof (mark_replica_running_total id started w r d rv t dev Hr Hd Hrv Hpk Ht Hdev) as Hstart.
  pose proof (execute_revision_replica_run _ _ _ _ _ _ _ _ _ Hok Hrun) as Hcases.
  assert (∀ n, retry_time d n finished
    = Ok (if n <=? m then Some (finished + delay * us_per_minute) else None)) as Hretry.
  { intros n. unfold retry_time. rewrite Hm, Hdelay. cbn. destruct (n <=? m); [|done].
    unfold check_range. by rewrite Hrange. }
  destruct Hcases as [(e & -> & Hno & Hdb & Hrem)|
    (r0 & d0 & r1 & Hr0 & Hd0 & Hen & Hdel & Hst & Hr1 & Hne & _ & Hother & r' & Heff & Hr')].
  { rewrite <-Hstart, Hno. done. }
  rewrite Hr in Hr0. injection Hr0 as <-. rewrite Hd in Hd0. injection Hd0 as <-.
  assert (may_start d r = true) as ->.
  { unfold may_start. by rewrite Hen, !bool_decide_eq_true_2. }
  assert (rp_attempts r1 = rp_attempts r + 1) as Hatt by by rewrite Hr1.
  exists r'. rewrite (eff_replicas _ _ _ Heff). rewrite Hretry in Hr'.
  destruct Hr' as [(res & -> & Hcopy & ->)|[(code & message & next & -> & [= <-] & ->)|(_ & _ & [=])]];
    simpl; rewrite Hatt; eauto 20.
Qed.
End execution.
