(* ===== verification/ReplicationBudget.v ===== *)
(** * The retry budget of replicas

    How often a copy is attempted when no operator intervenes: the dispatcher
    queues a failed row only while a repetition is planned, and a repetition is
    planned only while the attempts are within the destination's maximum.  A
    later backup that finds the configuration unchanged queues a row that is
    not a verified copy once more, also one that has used up its repetitions. *)

From Stdlib Require Import ZArith Lia.
From stdpp Require Import base gmap sets list strings sorting relations.
From S2P Require Import Prelude Strings Text Calendar Models DestinationPaths World Events.
From S2P Require Import Scheduling Health Storage Destination Repository Dispatch Replication.
From S2P Require Import ReplicationLifecycle.
#[local] Open Scope string_scope.
#[local] Open Scope list_scope.
#[local] Open Scope Z_scope.

Section budget.
Context `{Externals} `{NetBoxCore} `{!Backends} `{!BackendsLaws} (plugin_settings : PluginSettings).
Context (nfkd : string → string).

(** [max_retries] allows one first attempt and that many repetitions; [e] more
    were granted by backups that found the configuration unchanged. *)
Definition within_budget (m : Z) (e : nat) (r : RevisionReplica) : Prop :=
  match rp_status r with
  | RP_PENDING | RP_QUEUED => rp_attempts r <= m + Z.of_nat e
  | RP_FAILED => rp_attempts r <= m + 1 + Z.of_nat e ∧
      (is_Some (rp_next_retry_at r) → rp_attempts r <= m)
  | _ => rp_attempts r <= m + 1 + Z.of_nat e
  end.

Lemma within_budget_le m e r : within_budget m e r → rp_attempts r <= m + 1 + Z.of_nat e.
Proof. unfold within_budget. destruct (rp_status r); lia. Qed.

Lemma within_budget_mono m e e' r :
  (e <= e')%nat → within_budget m e r → within_budget m e' r.
Proof.
  unfold within_budget. intros He. destruct (rp_status r); try lia.
  intros [? ?]. split; [lia|done].
Qed.

(** The repetitions granted, by revision and destination. *)
Definition grants := Z → Z → nat.
Definition granted_to (e : grants) (r : RevisionReplica) : nat :=
  e (rp_revision r) (rp_destination r).
Definition no_grants : grants := λ _ _, 0%nat.
Definition grant (revision destination : Z) (e : grants) : grants := λ v k,
  if bool_decide (v = revision ∧ k = destination) then S (e v k) else e v k.

Lemma grant_le v k e v' k' : (e v' k' <= grant v k e v' k')%nat.
Proof. unfold grant. case_bool_decide; lia. Qed.

(** No repetition is planned for it. *)
Definition exhausted (r : RevisionReplica) : Prop :=
  rp_status r = RP_FAILED ∧ rp_next_retry_at r = None.

Record budget_ok (e : grants) (db : DB) : Prop := {
  bud_replicas : replicas_ok ∅ db;
  bud_settings : ∀ k d, db_destinations db !! k = Some d → is_replicated (ds_protocol d) = true →
    ∃ m, ds_max_retries d = Some m ∧ 0 <= m;
  bud_rows : ∀ k r d m, db_replicas db !! k = Some r →
    db_destinations db !! rp_destination r = Some d → ds_max_retries d = Some m →
    within_budget m (granted_to e r) r;
}.

Lemma budget_ok_mono e e' db :
  (∀ v k, (e v k <= e' v k)%nat) → budget_ok e db → budget_ok e' db.
Proof.
  intros He [Hrep Hset Hrow]. split; [done..|]. intros k r d m Hr Hd Hm.
  eapply within_budget_mono; [apply He|by eapply Hrow].
Qed.

Lemma budget_ok_update e e' db db' k r r' :
  budget_ok e db → replicas_ok ∅ db' → db_replicas db !! k = Some r →
  (∀ v j, (e v j <= e' v j)%nat) →
  rp_revision r' = rp_revision r → rp_destination r' = rp_destination r →
  (∀ d m, db_destinations db !! rp_destination r = Some d → ds_max_retries d = Some m →
     within_budget m (granted_to e r) r → within_budget m (granted_to e' r) r') →
  replica_effect (<[k := r']> (db_replicas db)) db db' → budget_ok e' db'.
Proof.
  intros [_ Hset Hrow] Hok' Hr He Hv Hd Hb [Er Ec _ _ _].
  assert (∀ j d', db_destinations db' !! j = Some d' → ∃ d, db_destinations db !! j = Some d ∧
    ds_max_retries d = ds_max_retries d' ∧ ds_protocol d = ds_protocol d') as Hback.
  { intros j d' Hj. symmetry in Ec. destruct (config_lookup _ _ _ _ Ec Hj) as (d & Hdj & Hc).
    apply config_fields in Hc as (_ & ? & ? & _). eauto. }
  split; [done|..].
  - intros j d' Hj Hp. destruct (Hback _ _ Hj) as (d & Hdj & Hm & Hp'). rewrite <-Hm.
    eapply Hset; [done|]. by rewrite Hp'.
  - rewrite Er. intros j x d' m Hx Hd' Hm. destruct (Hback _ _ Hd') as (d & Hdj & Hm' & _).
    rewrite <-Hm' in Hm. apply lookup_insert_Some in Hx as [[<- <-]|[_ Hx]].
    + assert (granted_to e' r' = granted_to e' r) as -> by (unfold granted_to; by rewrite Hv, Hd).
      rewrite Hd in Hdj. eauto.
    + eapply within_budget_mono; [apply He|by eapply Hrow].
Qed.

Lemma enqueue_budget e id now w x w' :
  (∀ r, db_replicas (w_db w) !! id = Some r → ¬ exhausted r) →
  enqueue_revision_replica id false now w = (x, w') → budget_ok e (w_db w) →
  budget_ok e (w_db w') ∧ ∀ k r, db_replicas (w_db w') !! k = Some r → exhausted r →
    db_replicas (w_db w) !! k = Some r.
Proof.
  intros Hex Hm Hb. pose proof (bud_replicas _ _ Hb) as Hok.
  pose proof (enqueue_revision_replica_keeps ∅ _ _ _ _ _ _ Hm Hok) as Hok'.
  apply enqueue_revision_replica_run in Hm; [|by eapply reps_keyed].
  destruct x as [[job|]|err]; [|by destruct Hm as (? & ? & _ & _ & _ & ->)|by rewrite Hm].
  destruct Hm as (r & d & Hr & Hd & Hmay & _ & _ & Heff).
  split.
  - apply (budget_ok_update e e _ _ _ _ (queued_row r now job) Hb Hok' Hr ltac:(done) eq_refl eq_refl);
      [|exact Heff].
    intros _ m _ _. unfold may_enqueue in Hmay. rewrite !andb_true_iff in Hmay.
    destruct Hmay as [[_ Hst%negb_true_iff%bool_decide_eq_false] Hns].
    apply negb_true_iff, bool_decide_eq_false in Hns. unfold within_budget. simpl.
    specialize (Hex _ Hr). unfold exhausted in Hex.
    destruct (rp_status r) eqn:E; try done; [set_solver|].
    intros [_ Hle]. destruct (rp_next_retry_at r); [|by destruct Hex].
    specialize (Hle ltac:(by eexists)). lia.
  - rewrite (eff_replicas _ _ _ Heff). intros k r' [[<- <-]|[_ Hk]]%lookup_insert_Some [H1' _]; done.
Qed.

(** Queueing by force takes one repetition more. *)
Lemma enqueue_forced_budget e id now w x w' r :
  db_replicas (w_db w) !! id = Some r →
  enqueue_revision_replica id true now w = (x, w') → budget_ok e (w_db w) →
  budget_ok (grant (rp_revision r) (rp_destination r) e) (w_db w').
Proof.
  intros Hr Hm Hb. pose proof (bud_replicas _ _ Hb) as Hok.
  pose proof (enqueue_revision_replica_keeps ∅ _ _ _ _ _ _ Hm Hok) as Hok'.
  assert (budget_ok (grant (rp_revision r) (rp_destination r) e) (w_db w)) as Hsame
    by (eapply budget_ok_mono; [apply grant_le|done]).
  apply enqueue_revision_replica_run in Hm; [|by eapply reps_keyed].
  destruct x as [[job|]|err]; [|by destruct Hm as (? & ? & _ & _ & _ & ->)|by rewrite Hm].
  destruct Hm as (r0 & d & Hr0 & Hd & _ & _ & _ & Heff). rewrite Hr in Hr0. injection Hr0 as <-.
  eapply (budget_ok_update _ _ _ _ _ _ (queued_row r now job) Hb Hok' Hr (grant_le _ _ _) eq_refl eq_refl);
    [|exact Heff].
  intros d' m _ _ Hle%within_budget_le. unfold within_budget, granted_to, grant in *. simpl.
  rewrite bool_decide_eq_true_2 by done. lia.
Qed.

Lemma enqueue_loop_budget {B} e (g : B → option Z → B) now ids acc w x w' :
  (∀ id r, id ∈ ids → db_replicas (w_db w) !! id = Some r → ¬ exhausted r) →
  for_fold ids acc (λ s id, job ← enqueue_revision_replica id false now; mret (g s job)) w = (x, w') →
  budget_ok e (w_db w) → budget_ok e (w_db w').
Proof.
  revert acc w. induction ids as [|id ids IH]; intros acc w Hex Hm Hb; simpl in Hm.
  { by injection Hm as <- <-. }
  rewrite !M_bind_run in Hm.
  destruct (enqueue_revision_replica id false now w) as [y w1] eqn:E.
  apply (enqueue_budget e) in E as [Hb1 Hex1]; [|intros r; apply Hex; by left|done].
  destruct y as [job|err]; simpl in Hm; [|by injection Hm as <- <-].
  eapply IH; [|exact Hm|done]. intros id' r Hid Hr Hx. eapply Hex; [by right| |exact Hx]. auto.
Qed.

Lemma for_each_fold {A} (l : list A) (body : A → M World unit) w :
  for_each l body w = for_fold l tt (λ _ x, body x) w.
Proof.
  revert w. induction l as [|x l IH]; intros w; [done|]. simpl. rewrite !M_bind_run.
  destruct (body x w) as [[[]|e] w1]; [apply IH|done].
Qed.

Lemma dispatch_budget e limit now w x w' :
  dispatch_due_replicas limit now w = (x, w') → budget_ok e (w_db w) → budget_ok e (w_db w').
Proof.
  intros Hm Hb. unfold dispatch_due_replicas in Hm. rewrite read_bind_run in Hm.
  eapply (enqueue_loop_budget e (λ s job, match job with
    | None => s <| rd_skipped ::= Z.succ |> | Some _ => s <| rd_queued ::= Z.succ |> end));
    [|exact Hm|done].
  intros id r Hid Hr [Hst Hnext].
  apply list_elem_of_fmap in Hid as (c & -> & Hc). unfold py_take in Hc.
  apply elem_of_sublist with (l2 := sort_by (key_leb rp_queued_at rp_pk)
    (filter (λ r, replica_due (w_db w) now r = true) (rows (db_replicas (w_db w))))) in Hc;
    [|apply sublist_take].
  apply elem_of_sort_by, list_elem_of_filter in Hc as [Hdue Hin].
  apply (elem_of_rows_keyed _ _ _ (reps_keyed _ _ (bud_replicas _ _ Hb))) in Hin.
  rewrite Hr in Hin. injection Hin as <-. unfold replica_due in Hdue.
  rewrite Hst, Hnext in Hdue. by rewrite !andb_false_r in Hdue.
Qed.

Lemma find_replica_Some db v d r :
  find_replica db v d = Some r →
  (∃ k, db_replicas db !! k = Some r) ∧ rp_revision r = v ∧ rp_destination r = d.
Proof.
  unfold find_replica. intros Hr.
  assert (r ∈ filter (λ r, rp_revision r = v ∧ rp_destination r = d) (rows (db_replicas db))) as Hin.
  { destruct (filter _ _); [done|]. injection Hr as ->. by left. }
  apply list_elem_of_filter in Hin as [[? ?] Hin%elem_of_rows]. done.
Qed.

(** A row that is created is within any budget. *)
Lemma get_or_create_budget e revision destination now w x w' :
  replicated_in (db_destinations (w_db w)) destination →
  get_or_create_replica revision destination now w = (x, w') → budget_ok e (w_db w) →
  budget_ok e (w_db w') ∧ db_destinations (w_db w') = db_destinations (w_db w) ∧
  (∀ r created, x = Ok (r, created) → db_replicas (w_db w') !! rp_pk r = Some r ∧
     rp_revision r = revision ∧ rp_destination r = destination ∧ (created = true → ¬ exhausted r)) ∧
  ∀ k r, db_replicas (w_db w) !! k = Some r → db_replicas (w_db w') !! k = Some r.
Proof.
  intros Hp E Hb.
  pose proof (get_or_create_keeps ∅ _ _ _ now Hp _ _ _ E (conj (bud_replicas _ _ Hb) eq_refl))
    as [Hok1 Hd1].
  apply get_or_create_replica_run in E. destruct x as [[r []]|err].
  - destruct E as (Hnone & -> & _ & Hdb).
    assert (∀ k r', db_replicas (w_db w') !! k = Some r' →
      (k = db_next (w_db w) ∧ r' = new_replica (db_next (w_db w)) revision destination now) ∨
      db_replicas (w_db w) !! k = Some r') as Hrows.
    { rewrite Hdb. simpl. intros k r' [[<- <-]|[_ Hk]]%lookup_insert_Some; auto. }
    split_and!; [|done| |].
    + split; [done|by rewrite Hd1; apply (bud_settings _ _ Hb)|]. rewrite Hd1.
      intros k r' d m [[-> ->]|Hk]%Hrows Hd Hmax; [|by eapply (bud_rows _ _ Hb)].
      destruct (bud_settings _ _ Hb _ _ Hd (Hp _ Hd)) as (m' & Hm' & Hle).
      rewrite Hmax in Hm'. injection Hm' as <-. unfold within_budget. simpl. lia.
    + intros r created [= <- <-]. split_and!; [|done..|by intros _ []].
      rewrite Hdb. apply lookup_insert_eq.
    + intros k r' Hk. rewrite Hdb. simpl. rewrite lookup_insert_ne; [done|].
      pose proof (reps_below _ _ (bud_replicas _ _ Hb) _ _ Hk). lia.
  - destruct E as [Hfind ->]. split_and!; [done|done| |done]. intros r' created [= <- <-].
    apply find_replica_Some in Hfind as [[k Hk] [? ?]].
    pose proof (reps_keyed _ _ (bud_replicas _ _ Hb) _ _ Hk) as ->. done.
  - rewrite E. split_and!; done.
Qed.

Lemma create_replicas_budget e pairs now : ∀ acc w x w',
  Forall (λ p, replicated_in (db_destinations (w_db w)) p.2) pairs →
  (∀ id, id ∈ acc → ∃ r, db_replicas (w_db w) !! id = Some r ∧ ¬ exhausted r) →
  for_fold pairs acc (λ created_ids p,
    rc ← get_or_create_replica p.1 p.2 now;
    mret (if rc.2 : bool then created_ids ++ [rp_pk rc.1] else created_ids)) w = (x, w') →
  budget_ok e (w_db w) →
  budget_ok e (w_db w') ∧ ∀ ids id, x = Ok ids → id ∈ ids →
    ∃ r, db_replicas (w_db w') !! id = Some r ∧ ¬ exhausted r.
Proof.
  induction pairs as [|p pairs IH]; intros acc w x w' Hrep Hex Hm Hb; simpl in Hm.
  { injection Hm as <- <-. split; [done|]. intros ids id [= <-]. apply Hex. }
  inversion Hrep as [|?? Hp Hps]; subst. rewrite !M_bind_run in Hm.
  destruct (get_or_create_replica p.1 p.2 now w) as [y w1] eqn:E.
  apply (get_or_create_budget e) in E as (Hb1 & Hd1 & Hnew & Hold); [|done..].
  destruct y as [[r created]|err]; simpl in Hm.
  2: { injection Hm as <- <-. done. }
  eapply IH; [by rewrite Hd1| |exact Hm|done].
  destruct (Hnew r created eq_refl) as (Hr & _ & _ & Hc). intros id Hid.
  assert (id ∈ acc ∨ created = true ∧ id = rp_pk r) as [Hin|[Hct ->]].
  { destruct created; [|by left]. apply elem_of_app in Hid as [?|?%list_elem_of_singleton]; auto. }
  - destruct (Hex id Hin) as (r' & Hr' & Hn). exists r'. auto.
  - exists r. auto.
Qed.

Lemma create_budget e revision now w x w' :
  create_revision_replicas revision now w = (x, w') → budget_ok e (w_db w) → budget_ok e (w_db w').
Proof.
  intros Hm Hb. unfold create_revision_replicas in Hm. rewrite read_bind_run, M_bind_run in Hm.
  destruct (create_replicas _ now w) as [y w1] eqn:E. unfold create_replicas in E.
  apply (create_replicas_budget e) in E as [Hb1 Hids]; [|..|done].
  2: { apply list.Forall_forall. intros p (d & -> & Hd)%list_elem_of_fmap.
       apply automatic_destinations_replicated; [|done]. eapply dests_keyed, bud_replicas, Hb. }
  2: { intros id Hid. by apply not_elem_of_nil in Hid. }
  destruct y as [ids|err]; [|by injection Hm as <- <-].
  rewrite M_bind_run, for_each_fold in Hm.
  destruct (for_fold ids tt _ w1) as [y w2] eqn:E.
  apply (enqueue_loop_budget e (λ _ _, tt)) in E; [| |done].
  2: { intros id r Hid Hr. destruct (Hids ids id eq_refl Hid) as (r' & Hr' & Hn). congruence. }
  destruct y; by injection Hm as <- <-.
Qed.

(** One destination of an unchanged backup. *)
Lemma ensure_at_budget e revision now queued d w x w' :
  replicated_in (db_destinations (w_db w)) (ds_pk d) →
  ensure_at_destination revision now queued d w = (x, w') → budget_ok e (w_db w) →
  budget_ok (grant revision (ds_pk d) e) (w_db w') ∧
  db_destinations (w_db w') = db_destinations (w_db w).
Proof.
  intros Hp Hm Hb.
  split; [|exact (proj2 (ensure_at_destination_keeps ∅ _ _ _ _ _ Hp _ _ _ Hm
                           (conj (bud_replicas _ _ Hb) eq_refl)))].
  assert (∀ w1, budget_ok e (w_db w1) → budget_ok (grant revision (ds_pk d) e) (w_db w1)) as Hmono
    by (intros w1; apply budget_ok_mono, grant_le).
  unfold ensure_at_destination in Hm. rewrite M_bind_run in Hm.
  destruct (get_or_create_replica revision (ds_pk d) now w) as [y w1] eqn:E.
  apply (get_or_create_budget e) in E as (Hb1 & _ & Hnew & _); [|done..].
  destruct y as [[r created]|err]; [|injection Hm as <- <-; auto].
  destruct (Hnew r created eq_refl) as (Hr & Hrv & Hrd & Hc). clear Hnew.
  destruct created.
  { rewrite M_bind_run in Hm.
    destruct (enqueue_revision_replica (rp_pk r) false now w1) as [z w2] eqn:E.
    apply (enqueue_budget e) in E as [Hb2 _]; [|intros r' Hr'; assert (r' = r) as -> by congruence; auto|done].
    apply Hmono. destruct z; by injection Hm as <- <-. }
  destruct (_ || _) in Hm; [injection Hm as <- <-; auto|].
  match type of Hm with (?m ≫= _) _ = _ => set (repair := m) in Hm end.
  assert (∀ z w2, repair w1 = (z, w2) → w_db w2 = w_db w1) as Hpure.
  { unfold repair. intros z w2. destruct (negb _); [by intros [= <- <-]|]. unfold try_catch.
    rewrite M_bind_run. destruct (reconcile_destination_for_replicas d [r] w1) as [v w3] eqn:E.
    apply reconcile_for_replicas_pure in E as ->.
    destruct v as [v|err]; [by intros [= <- <-]|]. destruct err; by intros [= <- <-]. }
  clearbody repair. rewrite M_bind_run in Hm.
  destruct (repair w1) as [z w2]. specialize (Hpure z w2 eq_refl) as E.
  destruct z as [[]|err]; [|injection Hm as <- <-; rewrite E; auto..].
  rewrite M_bind_run in Hm.
  destruct (enqueue_revision_replica (rp_pk r) true now w2) as [z w3] eqn:E3.
  rewrite <-E in Hr, Hb1. apply (enqueue_forced_budget e _ _ _ _ _ r Hr) in E3; [|done].
  rewrite Hrv, Hrd in E3. destruct z; by injection Hm as <- <-.
Qed.

(** One repetition more for every row of the revision. *)
Definition grant_all (revision : Z) (e : grants) : grants := λ v k,
  if bool_decide (v = revision) then S (e v k) else e v k.

Lemma ensure_loop_budget e revision now l : ∀ e0 n w x w',
  NoDup (map ds_pk l) →
  Forall (λ d, replicated_in (db_destinations (w_db w)) (ds_pk d)) l →
  (∀ v k, (e0 v k <= grant_all revision e v k)%nat) →
  (∀ k, k ∈ map ds_pk l → e0 revision k = e revision k) →
  for_fold l n (ensure_at_destination revision now) w = (x, w') →
  budget_ok e0 (w_db w) → budget_ok (grant_all revision e) (w_db w').
Proof.
  induction l as [|d l IH]; intros e0 n w x w' Hnd Hrep Hle Heq Hm Hb; simpl in Hm.
  { injection Hm as <- <-. by eapply budget_ok_mono. }
  apply NoDup_cons in Hnd as [Hnin Hnd]. inversion Hrep as [|?? Hd Hds]; subst.
  assert (∀ v k, (grant revision (ds_pk d) e0 v k <= grant_all revision e v k)%nat) as Hle'.
  { intros v k. unfold grant. case_bool_decide as Hvk; [|apply Hle]. destruct Hvk as [-> ->].
    unfold grant_all. rewrite bool_decide_eq_true_2, Heq by (done || by left). done. }
  rewrite M_bind_run in Hm. destruct (ensure_at_destination revision now n d w) as [y w1] eqn:E.
  apply (ensure_at_budget e0) in E as [Hb1 Hd1]; [|done..].
  destruct y as [n'|err]; [|injection Hm as <- <-; by eapply budget_ok_mono].
  eapply (IH (grant revision (ds_pk d) e0)); [done|by rewrite Hd1|done| |exact Hm|done].
  intros k Hk. unfold grant. rewrite bool_decide_eq_false_2.
  - apply Heq. by right.
  - intros [_ ->]. done.
Qed.

Lemma ensure_budget e revision now w x w' :
  ensure_revision_replicas revision now w = (x, w') → budget_ok e (w_db w) →
  budget_ok (grant_all revision e) (w_db w').
Proof.
  intros Hm Hb. unfold ensure_revision_replicas in Hm. rewrite read_bind_run in Hm.
  pose proof (dests_keyed _ _ (bud_replicas _ _ Hb)) as Hk.
  eapply ensure_loop_budget; [| | | |exact Hm|exact Hb].
  - eapply NoDup_map_sublist; [apply sublist_filter|by apply NoDup_rows].
  - apply list.Forall_forall. intros d Hd. by apply automatic_destinations_replicated.
  - intros v k. unfold grant_all. case_bool_decide; lia.
  - done.
Qed.

Lemma execute_budget e id started finished w x w' r :
  db_replicas (w_db w) !! id = Some r → rp_status r = RP_QUEUED →
  execute_revision_replica plugin_settings nfkd id started finished w = (x, w') →
  budget_ok e (w_db w) → budget_ok e (w_db w').
Proof.
  intros Hr Hq Hm Hb. pose proof (bud_replicas _ _ Hb) as Hok.
  pose proof (execute_revision_replica_keeps plugin_settings nfkd ∅ _ _ _ _ _ _ Hm Hok) as Hok'.
  destruct (execute_revision_replica_run _ _ _ _ _ _ _ _ _ Hok Hm)
    as [(err & _ & _ & -> & _)|(r0 & d & r1 & Hr0 & Hd & _ & _ & _ & Hr1 & _ & _ & _ & r' & Heff & Hr')];
    [done|]. rewrite Hr in Hr0. injection Hr0 as <-.
  assert (rp_revision r1 = rp_revision r ∧ rp_destination r1 = rp_destination r ∧ rp_attempts r1 = rp_attempts r + 1
    ∧ rp_status r1 = RP_RUNNING) as (Hv1 & Hd1 & Ha1 & Hs1) by by rewrite Hr1.
  apply (budget_ok_update e e _ _ _ _ r' Hb Hok' Hr); [done| | | |exact Heff].
  1, 2: by destruct Hr' as [(? & _ & _ & ->)|[(? & ? & ? & _ & _ & ->)|[-> _]]].
  intros d' m Hd' Hmax Hbud. rewrite Hd in Hd'. injection Hd' as <-.
  unfold within_budget in Hbud. rewrite Hq in Hbud.
  destruct Hr' as [(? & _ & _ & ->)|[(code & message & next & _ & Hnext & ->)|[-> _]]];
    unfold within_budget; simpl; rewrite ?Hs1, Ha1; [lia| |lia].
  split; [lia|]. intros [t Ht]. subst next. unfold retry_time in Hnext. rewrite Hmax in Hnext.
  cbn in Hnext. destruct (Z.leb_spec (rp_attempts r1) m); [lia|done].
Qed.

Lemma stale_budget e minutes now w x w' :
  reconcile_stale_replicas plugin_settings minutes now w = (x, w') →
  budget_ok e (w_db w) → budget_ok e (w_db w').
Proof.
  intros Hm Hb. refine (reconcile_stale_replicas_inv plugin_settings ∅ (budget_ok e) minutes now _ _
    _ _ _ Hm Hb); [by intros db []|]. clear. intros id code message w x w' Hdel Hm Hb.
  pose proof (bud_replicas _ _ Hb) as Hok.
  pose proof (mark_replica_failed_keeps plugin_settings ∅ _ _ _ _ _ _ _ Hdel Hm Hok) as [Hok' _].
  apply mark_replica_failed_run in Hm; [|by eapply reps_keyed|by eapply dests_keyed].
  destruct x as [[]|err]; [|by rewrite Hm]. destruct Hm as (r & d & next & Hr & Hd & Hnext & Heff).
  apply (budget_ok_update e e _ _ _ _ (failed_row r code message next now) Hb Hok' Hr ltac:(done)
    eq_refl eq_refl); [|exact Heff].
  intros d' m Hd' Hmax Hbud%within_budget_le. rewrite Hd in Hd'. injection Hd' as <-.
  unfold within_budget; simpl. split; [done|]. intros [t ->]. unfold retry_time in Hnext.
  rewrite Hmax in Hnext. cbn in Hnext. destruct (Z.leb_spec (rp_attempts r) m); [done|done].
Qed.

(** What happens without an operator: rows are created for new revisions,
    the dispatcher queues the due ones, workers execute queued rows, and stale
    ones are failed. *)
Inductive automatic_step (w w' : World) : Prop :=
  | auto_create revision now x :
      create_revision_replicas revision now w = (x, w') → automatic_step w w'
  | auto_dispatch limit now x :
      dispatch_due_replicas limit now w = (x, w') → automatic_step w w'
  | auto_execute id started finished r x :
      db_replicas (w_db w) !! id = Some r → rp_status r = RP_QUEUED →
      execute_revision_replica plugin_settings nfkd id started finished w = (x, w') →
      automatic_step w w'
  | auto_reconcile minutes now x :
      reconcile_stale_replicas plugin_settings minutes now w = (x, w') → automatic_step w w'.

(** A history of such steps, and of backups that found the configuration
    unchanged: [unchanged] lists the revisions they found. *)
Inductive automatic_history : list Z → World → World → Prop :=
  | history_start w : automatic_history [] w w
  | history_step unchanged w w1 w2 :
      automatic_step w w1 → automatic_history unchanged w1 w2 → automatic_history unchanged w w2
  | history_unchanged unchanged revision now x w w1 w2 :
      ensure_revision_replicas revision now w = (x, w1) → automatic_history unchanged w1 w2 →
      automatic_history (revision :: unchanged) w w2.

Definition occurrences (v : Z) (l : list Z) : nat := length (filter (λ x, x = v) l).

Lemma history_budget e unchanged w w' :
  automatic_history unchanged w w' → budget_ok e (w_db w) →
  budget_ok (λ v k, e v k + occurrences v unchanged)%nat (w_db w').
Proof.
  intros Hr. revert e. induction Hr as [w|l w w1 w2 Hs _ IH|l v now x w w1 w2 Hs _ IH]; intros e Hb.
  - eapply budget_ok_mono; [|exact Hb]. intros v k. lia.
  - apply IH. destruct Hs as [? ? ? Hs|? ? ? Hs|? ? ? ? ? Hq Hst Hs|? ? ? Hs].
    + by eapply create_budget.
    + by eapply dispatch_budget.
    + by eapply execute_budget.
    + by eapply stale_budget.
  - apply (ensure_budget e), IH in Hs; [|done]. eapply budget_ok_mono; [|exact Hs].
    intros v' k. unfold grant_all, occurrences. rewrite filter_cons.
    repeat case_decide; repeat case_bool_decide; simpl; subst; (lia || done).
Qed.

(** C20: Without an operator a copy is attempted at most [max_retries] + 1
    times, and once more for every later backup that found its revision
    unchanged and looked for the copy: in every state that the dispatcher, the
    workers, the stale check, the creation of rows and those backups can
    reach, no replica has more attempts, none that is waiting has used them
    up, and the dispatcher plans a repetition only within [max_retries],
    however many such backups there were. *)
Theorem automatic_attempts_bounded unchanged w w' k r d m :
  budget_ok no_grants (w_db w) → automatic_history unchanged w w' →
  db_replicas (w_db w') !! k = Some r →
  db_destinations (w_db w') !! rp_destination r = Some d → ds_max_retries d = Some m →
  let extra := Z.of_nat (occurrences (rp_revision r) unchanged) in
  rp_attempts r <= m + 1 + extra ∧
  (rp_status r ∈ [RP_PENDING; RP_QUEUED] → rp_attempts r <= m + extra) ∧
  (rp_status r = RP_FAILED → is_Some (rp_next_retry_at r) → rp_attempts r <= m).
Proof.
  intros Hb Hr Hk Hd Hm extra. apply (history_budget _ _ _ _ Hr) in Hb.
  pose proof (bud_rows _ _ Hb _ _ _ _ Hk Hd Hm) as Hbud. change (granted_to _ r)
    with (occurrences (rp_revision r) unchanged) in Hbud.
  split; [by apply within_budget_le|]. unfold within_budget in Hbud. split.
  - intros [Hs|Hs%list_elem_of_singleton]%elem_of_cons; by rewrite Hs in Hbud.
  - intros Hs Hn. rewrite Hs in Hbud. tauto.
Qed.
End budget.
