(* ===== verification/ReplicationExamples.v ===== *)
(** * Replication on concrete worlds

    One revision, two destinations of which one is offline: the theorems of
    [Replication*.v] applied there. *)

From Stdlib Require Import ZArith Lia.
From stdpp Require Import base gmap sets list strings sorting relations.
From S2P Require Import Prelude Strings Text Calendar Models DestinationPaths World Events.
From S2P Require Import Scheduling Health Storage Destination Repository Dispatch Replication.
From S2P Require Import ReplicationLifecycle ReplicationBudget.
#[local] Open Scope string_scope.
#[local] Open Scope list_scope.
#[local] Open Scope Z_scope.

Module Copies.
Import WorldExamples MemoryStorage MemoryDestination.
#[local] Existing Instance memory.
#[local] Existing Instance table_core.
#[local] Existing Instance memory_backends.
#[local] Existing Instance memory_destination_laws.

Definition device : Device :=
  {| dv_pk := 11; dv_name := "core/1"; dv_platform := None; dv_oob_ip := None;
     dv_primary_ip4 := None; dv_primary_ip6 := None; dv_site_time_zone := None |}.
Definition revision : ConfigRevision :=
  {| rv_pk := 20; rv_target := 3; rv_revision_uuid := "u"; rv_normalized_hash := "h";
     rv_normalizer_version := "1"; rv_driver_id := "d"; rv_content_changed := true;
     rv_protected := false; rv_previous_revision := None; rv_created := 0 |}.
Definition db : DB :=
  empty_db <| db_destinations := {[5 := ftp 5 "/backups"; 6 := ftp 6 "offline"]} |>
           <| db_targets := {[3 := SchedulingExamples.target TS_HEALTHY true]} |>
           <| db_devices := {[11 := device]} |> <| db_revisions := {[20 := revision]} |>.
Definition start : World :=
  {| w_db := db; w_hooks := []; w_depth := O; w_committed := [];
     w_files := ∅ : @files memory; w_remote := ∅ : @remote memory; w_clock := 0 |}.
Definition settings : PluginSettings :=
  {| ps_events_enabled := None; ps_notify_on_every_failure := None; ps_stale_run_minutes := 60;
     ps_dispatcher_batch_size := 10; ps_stale_target_grace_minutes := 60;
     ps_error_message_max_length := 500 |}.
Abbreviation nfkd := (λ s : string, s).

(** The rows 100 and 101 are created and queued; both are executed. *)
Abbreviation created := (create_revision_replicas 20 1000 start).
Abbreviation first := (execute_revision_replica settings nfkd 100 2000 3000 created.2).
Abbreviation second := (execute_revision_replica settings nfkd 101 2000 3000 first.2).

Example created_two :
  created.1 = Ok 2 ∧ (rp_status <$> db_replicas (w_db created.2) !! 100) = Some RP_QUEUED.
Proof. split; vm_compute; reflexivity. Qed.

Lemma copies_start_ok : replicas_ok ∅ db.
Proof.
  split; try (intros k; intros; exfalso; simpl in *; by rewrite ?lookup_empty in *).
  intros k d Hd. simpl in Hd.
  by apply lookup_insert_Some in Hd as [[<- <-]|[_ [<- <-]%lookup_singleton_Some]].
Qed.

Lemma start_budget : budget_ok no_grants db.
Proof.
  split; [exact copies_start_ok| |intros k r d m Hk; simpl in Hk; by rewrite lookup_empty in Hk].
  intros k d Hd _. simpl in Hd. exists 1.
  by apply lookup_insert_Some in Hd as [[<- <-]|[_ [<- <-]%lookup_singleton_Some]].
Qed.

Lemma created_step : rtc (replication_step settings nfkd) start created.2.
Proof. apply rtc_once. eapply (step_create _ _ _ _ 20 1000 created.1). apply surjective_pairing. Qed.

Lemma executed_steps : rtc (replication_step settings nfkd) start second.2.
Proof.
  etrans; [exact created_step|]. apply rtc_l with first.2; [|apply rtc_once].
  - eapply (step_execute _ _ _ _ 100 2000 3000 first.1). apply surjective_pairing.
  - eapply (step_execute _ _ _ _ 101 2000 3000 second.1). apply surjective_pairing.
Qed.

Lemma created_ok : replicas_ok ∅ (w_db created.2).
Proof.
  exact (create_revision_replicas_keeps ∅ 20 1000 start created.1 created.2
    (surjective_pairing _) copies_start_ok).
Qed.

Lemma replica_lifecycle_witness :
  map rp_status (rows (db_replicas (w_db second.2))) = [RP_FAILED; RP_SUCCESS] ∧
  ∀ k r, db_replicas (w_db second.2) !! k = Some r → replica_wf r.
Proof.
  split; [vm_compute; reflexivity|].
  exact (proj1 (proj2 (replica_lifecycle settings nfkd start second.2 copies_start_ok executed_steps))).
Defined.

(** The replica at the destination that is offline fails and is to be tried
    again after ten minutes. *)
Lemma execute_revision_replica_outcome_witness :
  ∃ r, db_replicas (w_db created.2) !! 101 = Some r ∧
    ∀ x w', execute_revision_replica settings nfkd 101 2000 3000 created.2 = (x, w') →
      ∃ r', db_replicas (w_db w') = <[101 := r']> (db_replicas (w_db created.2)) ∧
        rp_attempts r' = 1.
Proof.
  assert (is_Some (db_replicas (w_db created.2) !! 101)) as [r Hr]
    by (vm_compute; eexists; reflexivity).
  assert (rp_destination r = 6 ∧ rp_revision r = 20 ∧ rp_attempts r = 0
    ∧ may_start (ftp 6 "offline") r = true) as (H1 & H2 & H3 & H4).
  { assert ((λ r, (rp_destination r, rp_revision r, rp_attempts r, may_start (ftp 6 "offline") r))
      <$> db_replicas (w_db created.2) !! 101 = Some (6, 20, 0, true)) as E
      by (vm_compute; reflexivity).
    rewrite Hr in E. apply (inj Some) in E. cbv beta in E.
    apply pair_equal_spec in E as [[[H1 H2]%pair_equal_spec H3]%pair_equal_spec H4].
    exact (conj H1 (conj H2 (conj H3 H4))). }
  exists r. split; [exact Hr|]. intros x w' Hx.
  pose proof (execute_revision_replica_outcome settings nfkd 101 2000 3000 created.2 x w' r
    (ftp 6 "offline") revision (SchedulingExamples.target TS_HEALTHY true) device 1 10
    created_ok Hr) as Hout.
  rewrite H1, H2, H3, H4 in Hout.
  destruct Hout as (r' & Hr' & Ha & _); try (vm_compute; reflexivity); [exact Hx|].
  exists r'. split; [exact Hr'|exact Ha].
Defined.

(** The replica at the destination that is offline is tried twice; then a
    backup finds the configuration unchanged and it is tried once more. *)
Abbreviation due := (dispatch_due_replicas 10 700000000 second.2).
Abbreviation third := (execute_revision_replica settings nfkd 101 700000000 700001000 due.2).
Abbreviation ensured := (ensure_revision_replicas 20 800000000 third.2).
Abbreviation fourth := (execute_revision_replica settings nfkd 101 800001000 800002000 ensured.2).

Example used_up :
  (λ r, (rp_attempts r, rp_status r, rp_next_retry_at r))
    <$> db_replicas (w_db third.2) !! 101 = Some (2, RP_FAILED, None) ∧
  (λ r, (rp_attempts r, rp_status r)) <$> db_replicas (w_db ensured.2) !! 101 = Some (2, RP_QUEUED) ∧
  (λ r, (rp_attempts r, rp_status r)) <$> db_replicas (w_db fourth.2) !! 101 = Some (3, RP_FAILED).
Proof. split_and!; vm_compute; reflexivity. Qed.

(** Executing a row that is queued. *)
Lemma execute_queued id started finished w :
  rp_status <$> db_replicas (w_db w) !! id = Some RP_QUEUED →
  automatic_step settings nfkd w (execute_revision_replica settings nfkd id started finished w).2.
Proof.
  intros Hq. destruct (db_replicas (w_db w) !! id) as [r|] eqn:Hr; [|done]. injection Hq as Hq.
  eapply (auto_execute _ _ _ _ id started finished r); [done|done|apply surjective_pairing].
Qed.

Lemma history_run : automatic_history settings nfkd [20] start fourth.2.
Proof.
  eapply history_step; [eapply (auto_create _ _ _ _ 20 1000), surjective_pairing|].
  eapply history_step; [apply (execute_queued 100 2000 3000); vm_compute; reflexivity|].
  eapply history_step; [apply (execute_queued 101 2000 3000); vm_compute; reflexivity|].
  eapply history_step; [eapply (auto_dispatch _ _ _ _ 10 700000000), surjective_pairing|].
  eapply history_step; [apply (execute_queued 101 700000000 700001000); vm_compute; reflexivity|].
  eapply history_unchanged; [apply surjective_pairing|].
  eapply history_step; [apply (execute_queued 101 800001000 800002000); vm_compute; reflexivity|].
  apply history_start.
Qed.

(** Three attempts with one repetition allowed: the bound is reached. *)
Lemma automatic_attempts_bounded_witness :
  ∃ r, db_replicas (w_db fourth.2) !! 101 = Some r ∧ rp_attempts r = 3 ∧ rp_attempts r <= 1 + 1 + 1.
Proof.
  assert (is_Some (db_replicas (w_db fourth.2) !! 101)) as [r Hr]
    by (vm_compute; eexists; reflexivity).
  assert (rp_destination r = 6 ∧ rp_revision r = 20 ∧ rp_attempts r = 3) as (H1 & H2 & H3).
  { assert ((λ r, (rp_destination r, rp_revision r, rp_attempts r))
      <$> db_replicas (w_db fourth.2) !! 101 = Some (6, 20, 3)) as E by (vm_compute; reflexivity).
    rewrite Hr in E. apply (inj Some) in E. cbv beta in E.
    apply pair_equal_spec in E as [[H1 H2]%pair_equal_spec H3]. exact (conj H1 (conj H2 H3)). }
  assert (is_Some (db_destinations (w_db fourth.2) !! 6)) as [d Hd]
    by (vm_compute; eexists; reflexivity).
  assert (ds_max_retries d = Some 1) as Hm.
  { assert (ds_max_retries <$> db_destinations (w_db fourth.2) !! 6 = Some (Some 1)) as E
      by (vm_compute; reflexivity).
    rewrite Hd in E. by injection E. }
  exists r. split; [exact Hr|]. split; [exact H3|].
  pose proof (automatic_attempts_bounded settings nfkd [20] start fourth.2 101 r d 1
    start_budget history_run Hr) as Hbound.
  rewrite H1, H2 in Hbound. exact (proj1 (Hbound Hd Hm)).
Defined.
End Copies.
