(* ===== verification/Lifecycle.v ===== *)
(** * The life cycle of backup runs

    The invariant of the run table over every operation of the repository,
    the queue, the cancellation, the dispatcher, the health refresh, the
    retention cleanups and the deletions, in any order and with any arguments:
    unique active runs and dedupe keys, times that fit the status, completed
    runs that stay completed, and runs that leave the table only when they are
    completed and only by a retention cleanup or with their target. *)

From Stdlib Require Import ZArith Lia.
From stdpp Require Import base gmap sets list strings sorting relations pretty.
From S2P Require Import Prelude Calendar Zones Models World DriverSelection Events.
From S2P Require Import Scheduling Health.
From S2P Require Import RevisionChain Deletion Storage Destination Staging Repository Dispatch.
From S2P Require Import RetentionCleanup RemoteRetention RevisionDeletion.
#[local] Open Scope string_scope.
#[local] Open Scope list_scope.
#[local] Open Scope Z_scope.

(** Times and status of a run. *)
Definition run_wf (r : BackupRun) : Prop :=
  match run_status r with
  | RS_QUEUED => run_started_at r = None ∧ run_finished_at r = None
  | RS_RUNNING => is_Some (run_started_at r) ∧ run_finished_at r = None
  | _ => is_Some (run_finished_at r)
  end.

(** [K] is a set of runs that were seen completed: they may have left the
    table since, but no run under such a key is active.  [L] is a set of runs
    that are in the table. *)
Record runs_ok (K L : gset Z) (db : DB) : Prop := {
  runs_keyed : keyed run_pk (db_runs db);
  runs_below : ∀ k r, db_runs db !! k = Some r → k < db_next db;
  runs_unique : ∀ k1 k2 r1 r2, db_runs db !! k1 = Some r1 → db_runs db !! k2 = Some r2 →
    k1 ≠ k2 → run_conflict r1 r2 = false;
  runs_wf : ∀ k r, db_runs db !! k = Some r → run_wf r;
  runs_done : ∀ k, k ∈ K → k < db_next db ∧
    ∀ r, db_runs db !! k = Some r → run_is_active r = false;
  runs_here : ∀ k, k ∈ L → is_Some (db_runs db !! k);
}.

(** The invariant while a run with key [k] is being worked on. *)
Definition runs_ok_at (K L : gset Z) (k : Z) (db : DB) : Prop := runs_ok K L db ∧ k < db_next db.

Lemma run_conflict_sym r1 r2 : run_conflict r1 r2 = run_conflict r2 r1.
Proof.
  unfold run_conflict. rewrite (Z.eqb_sym (run_pk r2)), (Z.eqb_sym (run_target r2)).
  f_equal. rewrite (andb_comm (run_is_active r1)). f_equal.
  destruct (run_dedupe_key r1), (run_dedupe_key r2); try done.
  apply bool_decide_ext. naive_solver.
Qed.

Lemma runs_ok_frame K L db db' :
  db_runs db' = db_runs db → db_next db <= db_next db' → runs_ok K L db → runs_ok K L db'.
Proof.
  intros Hr Hn [H1 H2 H3 H4 H5 H6]. split; rewrite ?Hr; auto.
  - intros k r Hk. specialize (H2 k r Hk). lia.
  - intros k Hk. destruct (H5 k Hk). split; [lia|done].
Qed.

(** Runs that only lose the link to a revision that is deleted. *)
Lemma runs_ok_unlink K L ids db db' :
  db_runs db' = run_without ids <$> db_runs db → db_next db <= db_next db' →
  runs_ok K L db → runs_ok K L db'.
Proof.
  intros Hr Hn [H1 H2 H3 H4 H5 H6].
  assert (∀ k r, db_runs db' !! k = Some r → ∃ r0, db_runs db !! k = Some r0 ∧
    r = run_without ids r0) as Hrow.
  { intros k r. rewrite Hr, lookup_fmap, fmap_Some. naive_solver. }
  split.
  - intros k r (r0 & Hk & ->)%Hrow. exact (H1 _ _ Hk).
  - intros k r (r0 & Hk & ->)%Hrow. specialize (H2 _ _ Hk). lia.
  - intros k1 k2 r1 r2 (r3 & Hk1 & ->)%Hrow (r4 & Hk2 & ->)%Hrow. exact (H3 _ _ _ _ Hk1 Hk2).
  - intros k r (r0 & Hk & ->)%Hrow. exact (H4 _ _ Hk).
  - intros k Hk. destruct (H5 k Hk) as [Hlt Hd]. split; [lia|].
    intros r (r0 & Hr0 & ->)%Hrow. exact (Hd _ Hr0).
  - intros k Hk. rewrite Hr, lookup_fmap. by apply fmap_is_Some, H6.
Qed.

(** Runs that leave the table. *)
Lemma runs_ok_delete K ids db : runs_ok K ∅ db → runs_ok K ∅ (delete_runs ids db).
Proof.
  intros [H1 H2 H3 H4 H5 _].
  assert (∀ k r, db_runs (delete_runs ids db) !! k = Some r → db_runs db !! k = Some r) as Hrow.
  { intros k r. simpl. by intros [? _]%map_lookup_filter_Some. }
  split; [by intros k r Hk%Hrow; apply H1|by intros k r Hk%Hrow; apply (H2 k r)|..|set_solver].
  - intros k1 k2 r1 r2 Hk1%Hrow Hk2%Hrow. by apply H3.
  - intros k r Hk%Hrow. by apply (H4 k).
  - intros k Hk. destruct (H5 k Hk) as [Hlt Hd]. split; [done|]. intros r Hr%Hrow. by apply Hd.
Qed.

(** The run table when a target is deleted. *)
(* src: services/target_deletion.py 75 81 delete_backup_target *)
Definition delete_target_runs (target_id : Z) (db : DB) : result DB :=
  if has_active_run db target_id
  then Err (TargetDeletionError "The target has an active backup run and cannot be deleted.")
  else Ok (delete_runs (list_to_set (map run_pk
         (filter (λ r, run_target r = target_id) (rows (db_runs db))))) db).

Section lifecycle.
Context `{Externals} `{NetBoxCore} (plugin_settings : PluginSettings).
Context (zoneinfo : string → result tzdata) (TIME_ZONE : string) (isoformat : Z → string).
Context (K L : gset Z).

Abbreviation ok := (db_inv (runs_ok K L)).
Abbreviation ok_at k := (db_inv (runs_ok_at K L k)).

(** A computation that leaves the run table alone. *)
Definition frame {A} (m : M World A) : Prop := ∀ w r w', m w = (r, w') →
  db_runs (w_db w') = db_runs (w_db w) ∧ db_next (w_db w) <= db_next (w_db w').

Lemma frame_keeps {A} (m : M World A) : frame m → keeps ok m.
Proof.
  intros Hm w r w' Hw Hok. apply Hm in Hw as [Hr Hn]. by eapply runs_ok_frame.
Qed.

Lemma frame_keeps_at {A} k (m : M World A) : frame m → keeps (ok_at k) m.
Proof.
  intros Hm w r w' Hw [Hok Hk]. apply Hm in Hw as [Hr Hn].
  split; [by eapply runs_ok_frame|lia].
Qed.

Lemma frame_ret {A} (a : A) : frame (mret a).
Proof. by intros w r w' [= <- <-]. Qed.
Lemma frame_raise {A} e : frame (raise e : M World A).
Proof. by intros w r w' [= <- <-]. Qed.
Lemma frame_lift {A} (x : result A) : frame (lift x).
Proof. by intros w r w' [= <- <-]. Qed.
Lemma frame_read {A} (f : DB → A) : frame (read f).
Proof. by intros w r w' [= <- <-]. Qed.
Lemma frame_get {A} model (table : DB → gmap Z A) pk : frame (get model table pk).
Proof. intros w r w'. unfold get. by case_match; intros [= <- <-]. Qed.
Lemma frame_get_target pk : frame (get_target pk).
Proof. apply frame_get. Qed.
Lemma frame_next_pk : frame next_pk.
Proof. intros w r w' [= <- <-]. simpl. split; [done|lia]. Qed.
Lemma frame_on_commit h : frame (on_commit h).
Proof. intros w r w' [= <- <-]. by destruct (w_depth w). Qed.
Lemma frame_on_db f :
  (∀ db, db_runs (f db) = db_runs db ∧ db_next db <= db_next (f db)) → frame (on_db f).
Proof. intros Hf w r w' [= <- <-]. simpl. apply Hf. Qed.
Lemma frame_bind {A B} (m : M World A) (f : A → M World B) :
  frame m → (∀ a, frame (f a)) → frame (m ≫= f).
Proof.
  intros Hm Hf w r w'. rewrite M_bind_run. destruct (m w) as [[a|e] w1] eqn:E.
  - intros H1. apply Hm in E as [Er En]. apply Hf in H1 as [Hr Hn]. split; [congruence|lia].
  - intros [= <- <-]. by apply Hm in E.
Qed.
Lemma frame_for_each {A} (l : list A) body : (∀ x, frame (body x)) → frame (for_each l body).
Proof. intros Hb. induction l; simpl; [apply frame_ret|]. apply frame_bind; auto. Qed.
Lemma frame_try {A} (m : M World A) h : frame m → (∀ e, frame (h e)) → frame (try_catch m h).
Proof.
  intros Hm Hh w r w'. unfold try_catch. destruct (m w) as [[a|e] w1] eqn:E.
  - intros [= <- <-]. by apply Hm in E.
  - intros H1. apply Hm in E as [Er En]. apply Hh in H1 as [Hr Hn]. split; [congruence|lia].
Qed.
Lemma frame_queue_hook h : frame (queue_hook plugin_settings h).
Proof.
  apply frame_bind; [apply frame_read|]. intros c. destruct (events_enabled c);
    [apply frame_on_commit|apply frame_ret].
Qed.
Lemma frame_delete_job id : frame (delete_job id).
Proof. intros w r w'. unfold delete_job. by case_match; intros [= <- <-]. Qed.
Lemma frame_enqueue_job req : frame (enqueue_job req).
Proof. intros w r w'. unfold enqueue_job. by repeat case_match; intros [= <- <-]. Qed.
Lemma frame_atomic {A} (m : M World A) : frame m → frame (atomic m).
Proof.
  intros Hm w [a|e] w' Hw.
  - apply atomic_Ok in Hw as (w1 & Hw & -> & _). by apply Hm in Hw.
  - apply atomic_Err in Hw as (-> & _). split; [done|lia].
Qed.
Lemma frame_gets {A} (f : World → A) : frame (gets f).
Proof. by intros w r w' [= <- <-]. Qed.
Lemma frame_save_target t : frame (save_target t).
Proof.
  apply frame_atomic, frame_bind; [apply frame_read|intros db].
  apply frame_bind; [apply frame_lift|intros []].
  apply frame_bind; [apply frame_gets|intros saved_at]. by apply frame_on_db.
Qed.
Lemma frame_create_revision r : frame (create_revision r).
Proof. intros w x w'. unfold create_revision. by case_match; intros [= <- <-]. Qed.

#[local] Hint Resolve frame_ret frame_raise frame_lift frame_gets frame_read frame_get frame_get_target frame_next_pk
  frame_on_commit frame_bind frame_for_each frame_try frame_queue_hook frame_delete_job
  frame_enqueue_job frame_save_target frame_create_revision frame_keeps frame_keeps_at : keeps.

Ltac frame_steps :=
  repeat first [ solve [auto with keeps] | apply frame_bind; [|intros ?] | case_match ].

Lemma frame_queue_run_event e k : frame (queue_run_event plugin_settings e k).
Proof. apply frame_queue_hook. Qed.
Lemma frame_queue_target_event e k : frame (queue_target_event plugin_settings e k).
Proof. apply frame_queue_hook. Qed.
Lemma frame_get_runtime_controls : frame (get_runtime_controls plugin_settings).
Proof. apply frame_read. Qed.
#[local] Hint Resolve frame_queue_run_event frame_queue_target_event
  frame_get_runtime_controls : keeps.

Lemma frame_create_artifact pk item : frame (create_artifact pk item).
Proof. unfold create_artifact. frame_steps. by apply frame_on_db. Qed.

Lemma frame_mark_target_success t r f c :
  frame (mark_target_success zoneinfo TIME_ZONE t r f c).
Proof. unfold mark_target_success. frame_steps. Qed.

#[local] Hint Resolve frame_create_artifact frame_mark_target_success : keeps.

(** Reading a run under the invariant. *)
Lemma keeps_get_run {A} run_id (f : BackupRun → M World A) :
  (∀ r, run_wf r → (run_pk r ∈ K → run_is_active r = false) → keeps (ok_at (run_pk r)) (f r)) →
  keeps ok (get_run run_id ≫= f).
Proof.
  intros Hf w x w'. rewrite M_bind_run. unfold get_run, get.
  destruct (db_runs (w_db w) !! run_id) as [r|] eqn:E; [|by intros [= <- <-]].
  intros Hx Hok. pose proof (runs_keyed _ _ _ Hok _ _ E) as <-.
  assert (run_pk r ∈ K → run_is_active r = false) as Hdone.
  { intros HK. by apply (runs_done _ _ _ Hok _ HK). }
  refine (proj1 (Hf r (runs_wf _ _ _ Hok _ _ E) Hdone _ _ _ Hx _)).
  split; [exact Hok|]. by apply (runs_below _ _ _ Hok _ r).
Qed.

Lemma keeps_save_run k r :
  run_pk r = k → run_wf r → (k ∈ K → run_is_active r = false) → keeps (ok_at k) (save_run r).
Proof.
  intros Hk Hwf HK w x w'. unfold save_run.
  destruct (existsb _ _) eqn:E; [by intros [= <- <-]|]. intros [= <- <-] [Hok Hlt].
  assert (∀ j r', db_runs (w_db w) !! j = Some r' → run_conflict r r' = false) as Hnc.
  { intros j r' Hj. apply not_true_is_false. intros Hc.
    assert (existsb (run_conflict r) (rows (db_runs (w_db w))) = true) as Ht; [|congruence].
    apply existsb_exists. exists r'. split; [|done]. apply list_elem_of_In, elem_of_rows. eauto. }
  split; [|exact Hlt]. subst k. split; simpl.
  - apply keyed_insert; [done|]. apply (runs_keyed _ _ _ Hok).
  - intros j r' [[<- <-]|[_ Hj]]%lookup_insert_Some; [done|]. by apply (runs_below _ _ _ Hok j r').
  - intros k1 k2 r1 r2 [[<- <-]|[Hn1 H1]]%lookup_insert_Some [[<- <-]|[Hn2 H2]]%lookup_insert_Some Hne.
    + done.
    + by eapply Hnc.
    + rewrite run_conflict_sym. by eapply Hnc.
    + by eapply (runs_unique _ _ _ Hok).
  - intros j r' [[<- <-]|[_ Hj]]%lookup_insert_Some; [done|]. by apply (runs_wf _ _ _ Hok j).
  - intros j Hj. split; [by apply (runs_done _ _ _ Hok)|].
    intros r' [[<- <-]|[_ Hr']]%lookup_insert_Some; [auto|]. by apply (runs_done _ _ _ Hok j).
  - intros j Hj. apply lookup_insert_is_Some'. right. by apply (runs_here _ _ _ Hok).
Qed.

Definition completed (s : RunStatus) : Prop :=
  match s with RS_QUEUED | RS_RUNNING => False | _ => True end.

Lemma run_wf_completed r : completed (run_status r) → is_Some (run_finished_at r) → run_wf r.
Proof. unfold run_wf. by destruct (run_status r). Qed.

Lemma completed_inactive r : completed (run_status r) → run_is_active r = false.
Proof.
  unfold run_is_active. intros Hs. apply bool_decide_eq_false.
  destruct (run_status r); try done; set_solver.
Qed.

(** ** Every operation keeps the invariant *)

Lemma mark_running_keeps id t : keeps ok (mark_running id t).
Proof.
  apply keeps_atomic, keeps_get_run. intros r Hwf HK. case_bool_decide as Hq; simpl.
  - apply keeps_save_run; [done| |].
    + unfold run_wf in *. simpl. rewrite Hq in Hwf. naive_solver.
    + intros Hk. specialize (HK Hk). unfold run_is_active in HK. by rewrite Hq in HK.
  - apply keeps_raise.
Qed.

Lemma commit_unchanged_keeps id raw t :
  keeps ok (commit_unchanged plugin_settings zoneinfo TIME_ZONE id raw t).
Proof.
  apply keeps_atomic, keeps_get_run. intros r Hwf HK.
  apply keeps_bind; [solve [auto with keeps]|intros target].
  apply keeps_bind; [solve [auto with keeps]|intros db].
  apply keeps_bind; [|intros []; apply frame_keeps_at; frame_steps].
  apply keeps_save_run; [done|by apply run_wf_completed|].
  intros _. by apply completed_inactive.
Qed.

Lemma commit_revision_keeps id n created t :
  keeps ok (commit_revision plugin_settings zoneinfo TIME_ZONE id n created t).
Proof.
  apply keeps_atomic, keeps_get_run. intros r Hwf HK.
  repeat (apply keeps_bind; [solve [auto with keeps]|intros]).
  apply keeps_bind; [|intros []; apply frame_keeps_at; frame_steps].
  apply keeps_save_run; [done|apply run_wf_completed; [|done]|intros _; apply completed_inactive];
    simpl; by case_match.
Qed.

Lemma mark_failed_keeps id status code message t :
  completed status →
  keeps ok (mark_failed plugin_settings zoneinfo TIME_ZONE id status code message t).
Proof.
  intros Hs. apply keeps_atomic, keeps_get_run. intros r Hwf HK.
  apply keeps_bind; [solve [auto with keeps]|intros target].
  apply keeps_bind; [|intros []; apply frame_keeps_at; frame_steps].
  apply keeps_save_run; [done|by apply run_wf_completed|].
  intros _. by apply completed_inactive.
Qed.

Lemma enqueue_backup_run_keeps target source user scheduled dedupe now :
  keeps ok (enqueue_backup_run target source user scheduled dedupe now).
Proof.
  apply keeps_atomic. intros w x w'. unfold next_pk at 1. rewrite M_bind_run. simpl fst.
  intros Hx Hok. set (k := db_next (w_db w)) in *.
  assert (k ∉ K) as Hk.
  { intros HK. destruct (runs_done _ _ _ Hok k HK) as [Hlt _]. lia. }
  refine (proj1 (_ : runs_ok_at K L k (w_db w'))).
  revert Hx. match goal with |- ?m ?w1 = _ → _ => intros Hx;
    assert (keeps (ok_at k) m) as Hm; [|apply (Hm _ _ _ Hx)] end.
  - apply keeps_bind; [apply keeps_save_run; done|intros []].
    apply keeps_bind; [solve [auto with keeps]|intros job].
    apply keeps_bind; [apply keeps_save_run; done|intros []]. auto with keeps.
  - split; [|simpl; lia]. eapply runs_ok_frame; [| |exact Hok]; simpl; [done|lia].
Qed.

Lemma cancel_keeps id now : keeps ok (cancel_queued_backup_run id now).
Proof.
  apply keeps_atomic, keeps_get_run. intros r Hwf HK. case_match; [apply keeps_raise|].
  apply keeps_bind; [solve [auto with keeps]|intros db].
  apply keeps_bind; [apply frame_keeps_at; frame_steps|intros []].
  apply keeps_bind; [|intros []; auto with keeps].
  apply keeps_save_run; [done|by apply run_wf_completed|intros _; by apply completed_inactive].
Qed.

Lemma dispatch_target_keeps now id :
  keeps ok (dispatch_target zoneinfo TIME_ZONE isoformat now id).
Proof.
  apply keeps_try; [|intros e; destruct e; auto with keeps].
  apply keeps_atomic. repeat (apply keeps_bind; [solve [auto with keeps]|intros]).
  repeat case_match; auto with keeps.
  repeat (apply keeps_bind; [by auto using enqueue_backup_run_keeps with keeps|intros]).
  auto with keeps.
Qed.

Lemma initialize_target_schedules_keeps now :
  keeps ok (initialize_target_schedules zoneinfo TIME_ZONE now).
Proof. apply frame_keeps. unfold initialize_target_schedules. frame_steps. by apply frame_on_db. Qed.

Lemma dispatch_due_targets_keeps now limit workers :
  keeps ok (dispatch_due_targets zoneinfo TIME_ZONE isoformat now limit workers).
Proof.
  apply keeps_bind; [apply initialize_target_schedules_keeps|intros init].
  apply keeps_bind; [solve [auto with keeps]|intros ids].
  repeat case_match; auto with keeps. apply keeps_for_fold. intros s id'.
  apply keeps_bind; [apply dispatch_target_keeps|auto with keeps].
Qed.

Lemma reconcile_stale_runs_keeps rq_status workers now minutes :
  keeps ok (reconcile_stale_runs plugin_settings zoneinfo TIME_ZONE rq_status workers now minutes).
Proof.
  apply keeps_bind; [solve [auto with keeps]|intros candidates]. apply keeps_for_fold. intros n r.
  apply keeps_bind; [apply frame_keeps; unfold stale_job_released; frame_steps|intros []].
  - apply keeps_bind; [by apply mark_failed_keeps|auto with keeps].
  - auto with keeps.
Qed.

Lemma refresh_target_health_keeps now grace :
  keeps ok (refresh_target_health plugin_settings zoneinfo TIME_ZONE now grace).
Proof. apply frame_keeps. unfold refresh_target_health. frame_steps. by apply frame_on_db. Qed.
(** ** The deletions *)

Lemma keeps_on_db_runs f :
  (∀ db, runs_ok K L db → runs_ok K L (f db)) → keeps ok (on_db f).
Proof. intros Hf w r w' [= <- <-]. apply Hf. Qed.

Lemma keeps_delete_revisions ids : keeps ok (on_db (delete_revisions ids)).
Proof. apply keeps_on_db_runs. intros db. apply (runs_ok_unlink K L ids); simpl; [done|lia]. Qed.

Lemma relink_keeps target revisions deleted :
  keeps ok (relink_kept_revisions target revisions deleted).
Proof.
  intros w r w' Hm Hok. apply relink_keeps_links in Hm as [(Hdb & _) _]. unfold db_inv in *.
  rewrite Hdb. by eapply runs_ok_frame; [| |exact Hok].
Qed.

Context `{!ConfigStorage} `{!Backends}.

Lemma frame_on_remote {A} (m : M remote A) : frame (on_remote m).
Proof. intros w r w' Hm. unfold on_remote in Hm. destruct (m (w_remote w)). by injection Hm as <- <-. Qed.

Lemma delete_replica_frame d r : frame (delete_revision_replica d r).
Proof.
  intros w x w' Hm. apply (remote_only_db _ _ _ _ (delete_revision_replica_remote_only d r)) in Hm as (-> & _).
  split; [done|lia].
Qed.

Lemma delete_everywhere_keeps uuid id : keeps ok (delete_config_revision_everywhere uuid id).
Proof.
  apply keeps_with_quarantine. unfold deletion_body.
  apply keeps_bind; [apply keeps_in_service; auto with keeps|intros db].
  apply keeps_bind; [auto with keeps|intros plan].
  apply keeps_bind; [apply keeps_stage_artifacts|intros missing].
  apply keeps_bind.
  { apply keeps_in_service, keeps_for_fold. intros counts rd. case_match; [auto with keeps|].
    apply keeps_bind; [|intros res; repeat case_match; auto with keeps].
    apply keeps_try; [apply frame_keeps, delete_replica_frame|].
    intros e. case_match; auto with keeps. }
  intros counts. cbv zeta.
  apply keeps_bind; [apply keeps_in_service, relink_keeps|intros []].
  apply keeps_bind; [apply keeps_in_service, keeps_delete_revisions|intros []].
  apply keeps_bind; auto with keeps.
Qed.

Lemma remote_cleanup_keeps target now : keeps ok (execute_remote_retention_cleanup target now).
Proof.
  apply keeps_try; [|intros e; auto with keeps]. apply keeps_atomic. unfold remote_cleanup_body.
  apply keeps_bind; [auto with keeps|intros t]. apply keeps_bind; [auto with keeps|intros locked].
  case_match; [auto with keeps|]. cbv zeta. apply keeps_bind.
  - apply keeps_for_fold. intros p d. unfold clean_destination.
    apply keeps_bind; [auto with keeps|intros [ids|]]; [|auto with keeps].
    apply keeps_for_fold. intros p' id. unfold expire_revision. case_match; [auto with keeps|].
    case_match; [auto with keeps|]. apply keeps_bind; [|auto with keeps].
    apply keeps_for_fold. intros p'' r. unfold delete_copy_of.
    apply keeps_bind; [apply frame_keeps, delete_replica_frame|intros res].
    apply keeps_bind; [|auto with keeps]. by apply frame_keeps, frame_on_db.
  - intros p. case_match; [auto with keeps|]. apply keeps_bind; [auto with keeps|intros db].
    apply keeps_bind; [apply keeps_delete_revisions|auto with keeps].
Qed.
End lifecycle.

(** A cleanup can take runs out of the table, but only completed ones. *)
Section removals.
Context `{Externals} `{!ConfigStorage}.

Lemma cleanup_deletes_runs plan now db db' :
  RetentionCleanup.cleaned plan now db db' → db_next db <= db_next db' ∧
  db_runs db' = run_without (cl_database_ids plan) <$> db_runs (delete_runs (cl_run_ids plan) db).
Proof.
  intros (db1 & (Hdb1 & _) & ->). simpl. rewrite Hdb1. simpl. unfold marked.
  destruct (cl_artifacts plan); simpl; split; (done || lia).
Qed.

Lemma retention_cleanup_rows uuid target now w r w' :
  execute_retention_cleanup uuid target now w = (r, w') →
  w_db w' = w_db w ∨ ∃ plan, plan_cleanup (w_db w) target now = Ok plan ∧
    RetentionCleanup.cleaned plan now (w_db w) (w_db w').
Proof.
  intros [?|(w0 & s & f & Hd & Hb & ->)]%with_quarantine_db; [by left|right].
  apply cleanup_body_rows in Hb as (plan & Hp & Hclean & _). simpl sf_world in *.
  rewrite Hd in Hp, Hclean. eauto.
Qed.

Lemma retention_cleanup_keeps K uuid target now w r w' :
  execute_retention_cleanup uuid target now w = (r, w') →
  runs_ok K ∅ (w_db w) → runs_ok K ∅ (w_db w').
Proof.
  intros [->|(plan & _ & Hclean)]%retention_cleanup_rows Hok; [done|].
  apply cleanup_deletes_runs in Hclean as [Hn Hr].
  eapply runs_ok_unlink; [exact Hr|exact Hn|by apply runs_ok_delete].
Qed.

Lemma retention_cleanup_removes uuid target now w r w' k run :
  execute_retention_cleanup uuid target now w = (r, w') → keyed run_pk (db_runs (w_db w)) →
  db_runs (w_db w) !! k = Some run → db_runs (w_db w') !! k = None →
  run_target run = target ∧ run_is_active run = false.
Proof.
  intros [->|(plan & Hp & Hclean)]%retention_cleanup_rows Hkey Hk Hnone; [congruence|].
  destruct (decide (k ∈ cl_run_ids plan)) as [Hin|Hout].
  - destruct (plan_cleanup_runs _ _ _ _ _ Hkey Hp Hin) as (run' & Hrun' & ? & ?).
    assert (run' = run) as -> by congruence. done.
  - by rewrite (cleaned_runs _ _ _ _ _ _ Hclean Hk Hout) in Hnone.
Qed.

Lemma delete_target_runs_removes target db db' k run :
  delete_target_runs target db = Ok db' → keyed run_pk (db_runs db) →
  db_runs db !! k = Some run → db_runs db' !! k = None →
  run_target run = target ∧ run_is_active run = false.
Proof.
  unfold delete_target_runs. destruct (has_active_run db target) eqn:Ha; [done|].
  intros [= <-] Hkey Hk Hnone. simpl in Hnone.
  assert (run_target run = target) as Ht.
  { destruct (decide (run_target run = target)) as [|Hne]; [done|].
    rewrite (map_lookup_filter_Some_2 _ _ k run) in Hnone; [done|done|]. simpl.
    rewrite elem_of_list_to_set, list_elem_of_fmap.
    intros (x & Hx & [Ht Hrow]%list_elem_of_filter). apply (elem_of_rows_keyed run_pk) in Hrow; [|done].
    congruence. }
  split; [done|]. apply not_true_is_false. intros Hact. apply not_true_iff_false in Ha. apply Ha.
  apply existsb_exists. exists run. split; [apply list_elem_of_In, elem_of_rows; eauto|].
  by rewrite Ht, Z.eqb_refl.
Qed.
End removals.

(** ** All histories *)
Section histories.
Context `{Externals} `{NetBoxCore} (plugin_settings : PluginSettings).
Context `{!ConfigStorage} `{!Backends}.
Context (zoneinfo : string → result tzdata) (TIME_ZONE : string) (isoformat : Z → string).

(** The two services that delete runs.  Deleting a target also deletes its
    revisions, which only unlinks runs, and rows of other tables. *)
Inductive removal_step (w w' : World) : Prop :=
  | step_retention_cleanup uuid target now r :
      execute_retention_cleanup uuid target now w = (r, w') → removal_step w w'
  | step_delete_target target db revision_ids :
      delete_target_runs target (w_db w) = Ok db →
      db_runs (w_db w') = run_without revision_ids <$> db_runs db →
      db_next (w_db w) <= db_next (w_db w') → removal_step w w'.

(** One completed service call, with any arguments and any outcome, or a
    change by someone else that leaves the run table alone. *)
Inductive service_step (w w' : World) : Prop :=
  | step_enqueue target source user scheduled dedupe now r :
      enqueue_backup_run target source user scheduled dedupe now w = (r, w') → service_step w w'
  | step_cancel id now r : cancel_queued_backup_run id now w = (r, w') → service_step w w'
  | step_mark_running id t r : mark_running id t w = (r, w') → service_step w w'
  | step_commit_unchanged id raw t r :
      commit_unchanged plugin_settings zoneinfo TIME_ZONE id raw t w = (r, w') → service_step w w'
  | step_commit_revision id n created t r :
      commit_revision plugin_settings zoneinfo TIME_ZONE id n created t w = (r, w') →
      service_step w w'
  | step_mark_failed id status code message t r :
      completed status →
      mark_failed plugin_settings zoneinfo TIME_ZONE id status code message t w = (r, w') →
      service_step w w'
  | step_dispatch now limit workers r :
      dispatch_due_targets zoneinfo TIME_ZONE isoformat now limit workers w = (r, w') →
      service_step w w'
  | step_reconcile rq_status workers now minutes r :
      reconcile_stale_runs plugin_settings zoneinfo TIME_ZONE rq_status workers now minutes w
        = (r, w') → service_step w w'
  | step_refresh_health now grace r :
      refresh_target_health plugin_settings zoneinfo TIME_ZONE now grace w = (r, w') →
      service_step w w'
  | step_delete_revision uuid id r :
      delete_config_revision_everywhere uuid id w = (r, w') → service_step w w'
  | step_remote_cleanup target now r :
      execute_remote_retention_cleanup target now w = (r, w') → service_step w w'
  | step_removal : removal_step w w' → service_step w w'
  | step_other :
      db_runs (w_db w') = db_runs (w_db w) → db_next (w_db w) <= db_next (w_db w') →
      service_step w w'.

Lemma removal_step_keeps K w w' :
  removal_step w w' → runs_ok K ∅ (w_db w) → runs_ok K ∅ (w_db w').
Proof.
  intros [uuid target now r Hm|target db ids Hm Hr Hn] Hok; [by eapply retention_cleanup_keeps|].
  unfold delete_target_runs in Hm. destruct (has_active_run _ _); [done|]. injection Hm as <-.
  eapply runs_ok_unlink; [exact Hr|exact Hn|by apply runs_ok_delete].
Qed.

Lemma service_step_cases K L w w' :
  service_step w w' → removal_step w w' ∨ (runs_ok K L (w_db w) → runs_ok K L (w_db w')).
Proof.
  intros Hs. destruct Hs; [right; intros Hok..|by left|right; intros Hok];
    first [ by eapply enqueue_backup_run_keeps | by eapply cancel_keeps
          | by eapply mark_running_keeps | by eapply commit_unchanged_keeps
          | by eapply commit_revision_keeps | by eapply mark_failed_keeps
          | by eapply dispatch_due_targets_keeps | by eapply reconcile_stale_runs_keeps
          | by eapply refresh_target_health_keeps | by eapply delete_everywhere_keeps
          | by eapply remote_cleanup_keeps | by eapply runs_ok_frame ].
Qed.

Lemma service_step_keeps K w w' :
  service_step w w' → runs_ok K ∅ (w_db w) → runs_ok K ∅ (w_db w').
Proof.
  intros Hs Hok. destruct (service_step_cases K ∅ w w' Hs) as [Hr|Hk]; [|auto].
  by eapply removal_step_keeps.
Qed.

Lemma service_steps_keep K w w' :
  rtc service_step w w' → runs_ok K ∅ (w_db w) → runs_ok K ∅ (w_db w').
Proof. induction 1; eauto using service_step_keeps. Qed.

(** A step that takes a run out of the table. *)
Lemma service_step_removes w w' k r :
  service_step w w' → runs_ok ∅ ∅ (w_db w) →
  db_runs (w_db w) !! k = Some r → db_runs (w_db w') !! k = None →
  removal_step w w' ∧ run_is_active r = false.
Proof.
  intros Hs [I1 I2 I3 I4 I5 _] Hk Hnone. assert (removal_step w w') as Hr.
  { destruct (service_step_cases ∅ {[k]} w w' Hs) as [Hr|Hkeep]; [done|].
    destruct (runs_here ∅ {[k]} (w_db w')) with (k := k) as [x Hx]; [|set_solver|congruence].
    apply Hkeep. split; [done..|]. intros j ->%elem_of_singleton. by exists r. }
  split; [done|]. destruct Hr as [uuid target now x Hm|target db ids Hm Hr Hn].
  - by eapply retention_cleanup_removes in Hm as [_ ?].
  - eapply delete_target_runs_removes in Hm as [_ ?]; [done|done|done|].
    apply (f_equal (lookup k)) in Hr. rewrite Hnone, lookup_fmap in Hr.
    by destruct (db_runs db !! k).
Qed.

(** C8: Whatever the backup, dispatching, health, cleanup and deletion
    services do, in any order and whether they succeed or raise: a target
    never has two active runs, no dedupe key is used twice for a target, the
    times of every run fit its status, a run that is completed is never active
    again, and no later run takes its key.  A run that leaves the table leaves
    it in a retention cleanup or with its target, and it was completed then. *)
Theorem run_lifecycle w w' :
  runs_ok ∅ ∅ (w_db w) → rtc service_step w w' →
  (∀ k1 k2 r1 r2, db_runs (w_db w') !! k1 = Some r1 → db_runs (w_db w') !! k2 = Some r2 →
     run_target r1 = run_target r2 →
     run_is_active r1 = true ∧ run_is_active r2 = true ∨
     is_Some (run_dedupe_key r1) ∧ run_dedupe_key r1 = run_dedupe_key r2 → k1 = k2) ∧
  (∀ k r, db_runs (w_db w') !! k = Some r → run_wf r) ∧
  (∀ k r r', db_runs (w_db w) !! k = Some r → run_is_active r = false →
     db_runs (w_db w') !! k = Some r' → run_is_active r' = false) ∧
  (∀ k r, db_runs (w_db w) !! k = Some r → db_runs (w_db w') !! k = None →
     ∃ v v' r', rtc service_step w v ∧ removal_step v v' ∧ rtc service_step v' w' ∧
       db_runs (w_db v) !! k = Some r' ∧ run_is_active r' = false ∧
       db_runs (w_db v') !! k = None).
Proof.
  intros Hok Hr. pose proof (service_steps_keep _ _ _ Hr Hok) as Hok'. split_and!.
  - intros k1 k2 r1 r2 Hr1 Hr2 Ht Hboth. destruct (decide (k1 = k2)) as [|Hne]; [done|].
    exfalso. pose proof (runs_unique _ _ _ Hok' _ _ _ _ Hr1 Hr2 Hne) as Hc.
    unfold run_conflict in Hc.
    rewrite (runs_keyed _ _ _ Hok' _ _ Hr1), (runs_keyed _ _ _ Hok' _ _ Hr2) in Hc.
    rewrite (proj2 (Z.eqb_neq k2 k1)), (proj2 (Z.eqb_eq _ _) (eq_sym Ht)) in Hc by done.
    simpl in Hc. apply orb_false_iff in Hc as [Hc1 Hc2].
    destruct Hboth as [[Ha1 Ha2]|[[d Hd] Hd2]]; [by rewrite Ha1, Ha2 in Hc1|].
    rewrite Hd in Hc2, Hd2. rewrite <-Hd2 in Hc2. by apply bool_decide_eq_false in Hc2.
  - intros k r. apply (runs_wf _ _ _ Hok').
  - intros k r r' Hk Ha. apply (runs_done {[k]} ∅ (w_db w')); [|set_solver].
    apply (service_steps_keep _ _ _ Hr). destruct Hok as [I1 I2 I3 I4 _ _]. split; try done.
    intros k' ->%elem_of_singleton. split; [by eapply I2|]. intros x Hx. congruence.
  - intros k r. clear Hok'. revert r. induction Hr as [w|w w1 w2 Hs Hrest IH]; intros r Hk Hnone.
    { congruence. }
    destruct (db_runs (w_db w1) !! k) as [r1|] eqn:Hk1.
    + destruct (IH (service_step_keeps _ _ _ Hs Hok) r1 eq_refl Hnone)
        as (v & v' & r' & Hv & Hrem & Hv' & Hrest').
      exists v, v', r'. split_and!; [by eapply rtc_l|done|done|apply Hrest'..].
    + destruct (service_step_removes _ _ _ _ Hs Hok Hk Hk1) as [Hrem Ha].
      exists w, w1, r. by split_and!.
Qed.

End histories.

(** ** Single operations *)
Section single.
Context `{Externals} `{NetBoxCore}.
Context (zoneinfo : string → result tzdata) (TIME_ZONE : string) (isoformat : Z → string).

(** Cancelling succeeds only for a queued run whose job has not started;
    the run is recorded as skipped, no other row of the run table and no
    target changes, its job is gone, and the target is free: it has no active
    run left.  A refused cancellation changes nothing in the database. *)
Theorem cancel_queued_backup_run_correct `{!NetBoxCoreLaws} id now w r w' :
  runs_ok ∅ ∅ (w_db w) → cancel_queued_backup_run id now w = (r, w') →
  match r with
  | Err _ => w_db w' = w_db w
  | Ok _ => ∃ run, db_runs (w_db w) !! id = Some run ∧ run_status run = RS_QUEUED ∧
      (∀ j job, run_job_id run = Some j → db_jobs (w_db w) !! j = Some job →
         job_state job ≠ JS_RUNNING ∧ db_jobs (w_db w') = base.delete j (db_jobs (w_db w))) ∧
      db_runs (w_db w') = <[id := run <| run_status := RS_SKIPPED |>
        <| run_finished_at := Some now |> <| run_error_code := "CANCELLED" |>
        <| run_error_message := "Queued backup was cancelled before execution." |>]>
        (db_runs (w_db w)) ∧
      db_targets (w_db w') = db_targets (w_db w) ∧
      ∀ k x, db_runs (w_db w') !! k = Some x → run_target x = run_target run →
        run_is_active x = false
  end.
Proof using Type.
  intros Hok Hc. destruct r as [res|e]; [|by apply atomic_Err in Hc as [? _]].
  apply atomic_Ok in Hc as (w1 & Hc & Hdb & _). set (w0 := w <| w_depth := _ |>) in Hc.
  change (runs_ok ∅ ∅ (w_db w0)) in Hok. change (w_db w) with (w_db w0). clearbody w0. clear w.
  apply M_bind_Ok in Hc as (run & w2 & [Hrun ->]%World.get_Ok & Hc).
  destruct (bool_decide (run_status run = RS_QUEUED)) eqn:Hq; [|done].
  apply bool_decide_eq_true in Hq. cbn [negb] in Hc. exists run.
  pose proof (runs_keyed _ _ _ Hok _ _ Hrun) as Hpk.
  apply M_bind_Ok in Hc as (db & w2 & [= <- <-] & Hc). unfold Datatypes.id in Hc.
  apply M_bind_Ok in Hc as ([] & w2 & Hjob & Hc).
  apply M_bind_Ok in Hc as ([] & w3 & Hsave & [= _ <-]).
  assert (db_runs (w_db w2) = db_runs (w_db w0) ∧ db_targets (w_db w2) = db_targets (w_db w0) ∧
    ∀ j job, run_job_id run = Some j → db_jobs (w_db w0) !! j = Some job →
      job_state job ≠ JS_RUNNING ∧ db_jobs (w_db w2) = base.delete j (db_jobs (w_db w0)))
    as (Hruns2 & Htargets2 & Hjobs2).
  { destruct (run_job_id run) as [j|]; simpl in Hjob; [|by injection Hjob as <-].
    destruct (db_jobs (w_db w0) !! j) as [job|] eqn:Ej; simpl in Hjob.
    2: { injection Hjob as <-. split_and!; [done|done|]. intros j' job' [= <-] Hj'.
         by rewrite Ej in Hj'. }
    case_bool_decide as Hs; [done|]. unfold try_catch, delete_job in Hjob.
    destruct (job_delete j (db_jobs (w_db w0))) as [jobs|] eqn:Ed; [|done].
    injection Hjob as <-. simpl. split_and!; [done|done|].
    intros j' job' [= <-] Hj'. rewrite Ej in Hj'. injection Hj' as <-.
    split; [done|]. by apply (job_delete_removes _ _ _ Ed). }
  unfold save_run in Hsave. destruct (existsb _ _); [done|]. injection Hsave as <-.
  rewrite Hdb. simpl. rewrite Hruns2, Htargets2, Hpk. split_and!; try done.
  intros k x [[<- <-]|[Hne Hx]]%lookup_insert_Some Ht; [done|].
  apply not_true_is_false. intros Ha.
  pose proof (runs_unique _ _ _ Hok _ _ _ _ Hx Hrun (not_eq_sym Hne)) as Hconf.
  unfold run_conflict in Hconf. rewrite Hpk, (runs_keyed _ _ _ Hok _ _ Hx) in Hconf.
  rewrite (proj2 (Z.eqb_neq _ _)), (proj2 (Z.eqb_eq _ _) (eq_sym Ht)), Ha in Hconf by done.
  unfold run_is_active in Hconf. rewrite Hq in Hconf. simpl in Hconf. done.
Qed.

Lemma enqueue_backup_run_run target source user scheduled dedupe now w run w' :
  enqueue_backup_run target source user scheduled dedupe now w = (Ok run, w') →
  run_pk run = db_next (w_db w) ∧ run_target run = target ∧ run_source run = source ∧
  run_scheduled_for run = scheduled ∧ run_dedupe_key run = dedupe ∧ run_status run = RS_QUEUED ∧
  is_Some (run_job_id run) ∧
  db_runs (w_db w') = <[run_pk run := run]> (db_runs (w_db w)) ∧
  db_targets (w_db w') = db_targets (w_db w) ∧ db_policies (w_db w') = db_policies (w_db w) ∧
  db_devices (w_db w') = db_devices (w_db w).
Proof.
  intros H1. apply atomic_Ok in H1 as (w1 & H1 & Hdb & _). rewrite Hdb. clear w' Hdb.
  apply M_bind_Ok in H1 as (pk & w2 & [= <- <-] & H1).
  apply M_bind_Ok in H1 as ([] & w3 & Hs & H1).
  apply M_bind_Ok in H1 as (job & w4 & Hj & H1).
  apply M_bind_Ok in H1 as ([] & w5 & Hs' & [= <- <-]).
  unfold save_run in Hs. destruct (existsb _ _); [done|]. injection Hs as <-.
  unfold enqueue_job in Hj. destruct (job_enqueue _ _) as [[id jobs]|]; [|done].
  injection Hj as <- <-.
  unfold save_run in Hs'. destruct (existsb _ _); [done|]. injection Hs' as <-. simpl.
  rewrite insert_insert_eq. split_and!; eauto.
Qed.

Lemma existsb_active_false db target k x :
  existsb (λ r, (run_target r =? target) && run_is_active r) (rows (db_runs db)) = false →
  db_runs db !! k = Some x → run_target x = target → run_is_active x = false.
Proof.
  intros He Hx Ht. apply not_true_is_false. intros Ha.
  assert (existsb (λ r, (run_target r =? target) && run_is_active r) (rows (db_runs db)) = true)
    as Htrue; [|congruence].
  apply existsb_exists. exists x. split; [apply list_elem_of_In, elem_of_rows; eauto|].
  rewrite Ht, Z.eqb_refl, Ha. done.
Qed.

(** What dispatching one candidate may do, by its outcome. *)
Definition dispatch_effect (now id : Z) (db db' : DB) (o : outcome) : Prop :=
  match o with
  | Queued => ∃ t policy scheduled next run,
      db_targets db !! id = Some t ∧ target_policy db t = Some policy ∧
      tg_next_run_at t = Some scheduled ∧ scheduled <= now ∧
      tg_enabled t = true ∧ po_enabled policy = true ∧
      (∀ k x, db_runs db !! k = Some x → run_target x = id → run_is_active x = false) ∧
      calculate_next_run zoneinfo policy (Aware scheduled) (tg_pk t)
        (target_timezone_name TIME_ZONE (Some policy) (target_site_time_zone db t))
        (Some (Aware now)) = Ok next ∧
      (∃ saved_at, db_targets db' = <[id := t <| tg_next_run_at := Some next |>
        <| tg_last_updated := Some saved_at |>]> (db_targets db)) ∧
      db_runs db' = <[run_pk run := run]> (db_runs db) ∧ run_pk run = db_next db ∧
      run_target run = id ∧ run_status run = RS_QUEUED ∧
      run_scheduled_for run = Some scheduled ∧
      run_source run = (if bool_decide (tg_status t = TS_FAILED)
                           && is_retry_scheduled (Some policy) (tg_consecutive_failures t)
                        then SRC_RETRY else SRC_SCHEDULED) ∧
      run_dedupe_key run = Some (run_source_value (run_source run) +:+ ":" +:+ isoformat scheduled)
  | _ => db' = db
  end.

Lemma dispatch_target_run now id w o w' :
  keyed tg_pk (db_targets (w_db w)) →
  dispatch_target zoneinfo TIME_ZONE isoformat now id w = (Ok o, w') →
  dispatch_effect now id (w_db w) (w_db w') o.
Proof.
  intros Hkt Hd. unfold dispatch_target, try_catch in Hd.
  destruct (atomic _ w) as [[o'|e] w1] eqn:Ha.
  2: { apply atomic_Err in Ha as [Hdb _]. destruct e; try done. by injection Hd as <- <-. }
  injection Hd as -> <-. apply atomic_Ok in Ha as (w2 & Ha & Hdb & _). rewrite Hdb. clear w1 Hdb.
  set (w0 := w <| w_depth := _ |>) in Ha. change (w_db w) with (w_db w0) in *. clearbody w0. clear w.
  apply M_bind_Ok in Ha as (t & w1 & [Ht ->]%World.get_Ok & Ha).
  apply M_bind_Ok in Ha as (db & w1 & [= <- <-] & Ha). unfold Datatypes.id in Ha.
  destruct (target_policy (w_db w0) t) as [policy|] eqn:Hp; [|by injection Ha as <- <-].
  destruct (tg_next_run_at t) as [scheduled|] eqn:Hn; [|by injection Ha as <- <-].
  destruct (tg_enabled t) eqn:He, (po_enabled policy) eqn:Hpe, (Z.ltb_spec now scheduled);
    try (injection Ha as <- <-; done).
  destruct (existsb _ _) eqn:Hact; [by injection Ha as <- <-|].
  apply M_bind_Ok in Ha as (next & w1 & [= Hnext <-] & Ha).
  apply M_bind_Ok in Ha as ([] & w1 & (Hdb1 & _)%save_target_Ok & Ha).
  apply M_bind_Ok in Ha as (run & w3 & Henq & [= <- <-]).
  apply enqueue_backup_run_run in Henq
    as (Hpk & Htg & Hsrc & Hsch & Hded & Hst & _ & Hruns & Htargets & _).
  rewrite Hdb1 in Hpk, Hruns, Htargets.
  pose proof (Hkt _ _ Ht) as Hid. simpl in *.
  exists t, policy, scheduled, next, run. rewrite Hruns, Htargets, Hsrc, Hid, ?Hded.
  split_and!; try done; try congruence; try lia; [|by eexists].
  intros k x. by apply existsb_active_false.
Qed.

(** One pass of the dispatcher over a due target queues exactly one run,
    for the time it was due, only when no run of the target is active, and
    moves [next_run_at] to the next regular run; in every other outcome the
    database is as before.  Dispatching the same target again at the same
    time never queues a second run. *)
Theorem dispatch_target_once now id w o w' o2 w2 :
  keyed tg_pk (db_targets (w_db w)) →
  dispatch_target zoneinfo TIME_ZONE isoformat now id w = (Ok o, w') →
  dispatch_target zoneinfo TIME_ZONE isoformat now id w' = (Ok o2, w2) →
  dispatch_effect now id (w_db w) (w_db w') o ∧
  (o = Queued → o2 ≠ Queued ∧ w_db w2 = w_db w').
Proof.
  intros Hkt Hd Hd2. pose proof (dispatch_target_run _ _ _ _ _ Hkt Hd) as He.
  split; [done|]. intros ->.
  assert (keyed tg_pk (db_targets (w_db w'))) as Hkt'.
  { destruct He as (t & ? & ? & ? & ? & Ht & _ & _ & _ & _ & _ & _ & _ & [? ->] & _).
    apply keyed_insert; [|done]. simpl. by apply Hkt. }
  pose proof (dispatch_target_run _ _ _ _ _ Hkt' Hd2) as He2.
  assert (o2 ≠ Queued) as Hne.
  { intros ->. destruct He2 as (? & ? & ? & ? & ? & _ & _ & _ & _ & _ & _ & Hnone & _).
    destruct He as (? & ? & ? & ? & run & _ & _ & _ & _ & _ & _ & _ & _ & _ & Hruns & _ & Ht & Hs & _).
    specialize (Hnone (run_pk run) run). rewrite Hruns, lookup_insert_eq in Hnone.
    specialize (Hnone eq_refl Ht). unfold run_is_active in Hnone. by rewrite Hs in Hnone. }
  split; [done|]. by destruct o2.
Qed.
End single.

Module LifecycleExamples.
Import SchedulingExamples WorldExamples HealthExamples.
#[local] Existing Instance no_externals.
#[local] Existing Instance table_core.

Definition iso (i : Z) : string := pretty i.

(** A target due at [june], and the same with a run queued for it. *)
Definition due_target : BackupTarget :=
  (target TS_HEALTHY true) <| tg_next_run_at := Some june |>.
Definition due_db : DB :=
  empty_db <| db_policies := {[7 := interval_policy 120]} |>
           <| db_targets := {[3 := due_target]} |>.
Definition queued := enqueue_backup_run 3 SRC_MANUAL None None None june (world_of due_db).

Lemma no_runs_ok : runs_ok ∅ ∅ due_db.
Proof.
  split; try (intros k; intros; exfalso; simpl in *; by rewrite ?lookup_empty in *).
  all: set_solver.
Qed.

Lemma queued_ok : runs_ok ∅ ∅ (w_db queued.2).
Proof.
  apply (enqueue_backup_run_keeps ∅ ∅ 3 SRC_MANUAL None None None june
    (world_of due_db) queued.1); [apply surjective_pairing|exact no_runs_ok].
Qed.

Definition cancelled := cancel_queued_backup_run 100 june queued.2.

Lemma cancel_queued_backup_run_correct_witness :
  is_ok cancelled.1 = true ∧
  ∀ k x, db_runs (w_db cancelled.2) !! k = Some x → run_target x = 3 → run_is_active x = false.
Proof.
  split; [vm_compute; reflexivity|].
  destruct (cancel_queued_backup_run_correct (H1 := table_core_laws) 100 june
    queued.2 (Ok {| cancelled_run_id := 100; job_removed := true |}) cancelled.2)
    as (run & Hrun & _ & _ & _ & _ & Hfree).
  - exact queued_ok.
  - vm_compute. reflexivity.
  - assert (run_target run = 3) as Ht.
    { assert (run_target <$> db_runs (w_db queued.2) !! 100 = Some 3) as Hs
        by (vm_compute; reflexivity).
      rewrite Hrun in Hs. by injection Hs. }
    rewrite <-Ht. exact Hfree.
Defined.

Definition dispatched := dispatch_target zoneinfo "UTC" iso (june + 5) 3 (world_of due_db).
Definition dispatched_again := dispatch_target zoneinfo "UTC" iso (june + 5) 3 dispatched.2.

Lemma dispatch_target_once_witness :
  dispatched.1 = Ok Queued ∧ w_db dispatched_again.2 = w_db dispatched.2.
Proof.
  split; [vm_compute; reflexivity|].
  refine (proj2 (proj2 (dispatch_target_once zoneinfo "UTC" iso (june + 5) 3 (world_of due_db)
    Queued dispatched.2 NotDue dispatched_again.2 _ _ _) _)).
  - intros k r Hr. simpl in Hr. apply lookup_singleton_Some in Hr as [<- <-]. reflexivity.
  - vm_compute. reflexivity.
  - vm_compute. reflexivity.
  - reflexivity.
Defined.
End LifecycleExamples.

(** A failed run that a cleanup removes, after which a new run is queued. *)
Module LifecycleHistory.
Import SchedulingExamples WorldExamples HealthExamples MemoryStorage RetentionCleanupExamples.
#[local] Existing Instance memory.
#[local] Existing Instance table_core.
#[local] Existing Instance memory_storage.
#[local] Existing Instance MemoryDestination.memory_backends.

Definition failed_run : BackupRun :=
  active <| run_status := RS_FAILED |> <| run_started_at := Some 1 |> <| run_finished_at := Some 2 |>.
Definition before : World := start {[9 := failed_run]}.
Definition after_cleanup : World := (execute_retention_cleanup "0" 3 now before).2.
Definition after_queueing : World :=
  (enqueue_backup_run 3 SRC_MANUAL None None None now after_cleanup).2.

Lemma before_ok : runs_ok ∅ ∅ (w_db before).
Proof.
  split; simpl; try (intros k r [<- <-]%lookup_singleton_Some); try done; try set_solver.
  - intros k1 k2 r1 r2 [<- _]%lookup_singleton_Some [<- _]%lookup_singleton_Some. done.
  - by eexists.
Qed.

Lemma history : rtc (service_step settings zoneinfo "UTC" LifecycleExamples.iso) before after_queueing.
Proof.
  eapply rtc_l; [|apply rtc_once].
  - eapply step_removal, (step_retention_cleanup _ _ "0" 3 now). apply surjective_pairing.
  - eapply (step_enqueue _ _ _ _ _ _ 3 SRC_MANUAL None None None now). apply surjective_pairing.
Qed.

(** The run that left had failed, and the new one is the only active one. *)
Lemma run_lifecycle_witness :
  db_runs (w_db after_queueing) !! 9 = None ∧
  (∃ v v' r, rtc (service_step settings zoneinfo "UTC" LifecycleExamples.iso) before v ∧
     removal_step v v' ∧ db_runs (w_db v) !! 9 = Some r ∧ run_is_active r = false) ∧
  (∀ k r, db_runs (w_db after_queueing) !! k = Some r → run_wf r) ∧
  is_Some (db_runs (w_db after_queueing) !! 100).
Proof.
  assert (db_runs (w_db after_queueing) !! 9 = None) as Hgone by (vm_compute; reflexivity).
  destruct (run_lifecycle settings zoneinfo "UTC" LifecycleExamples.iso before after_queueing
    before_ok history) as (_ & Hwf & _ & Hleft).
  split; [exact Hgone|]. split; [|split; [exact Hwf|vm_compute; by eexists]].
  destruct (Hleft 9 failed_run eq_refl Hgone) as (v & v' & r & Hv & Hrem & _ & Hr & Ha & _).
  exists v, v', r. exact (conj Hv (conj Hrem (conj Hr Ha))).
Defined.
End LifecycleHistory.
